(* ===== verification/_CoqProject ===== *)
-Q . S2P
Prelude.v
GoStrings.v
KernelArgs.v
Models.v
Json.v
JsonText.v
ModelsJson.v
ApiParams.v
Slices.v
Handlers.v
Builders.v
Commands.v
Vmconf.v
Transport.v
Client.v
ApiOperations.v
Netlink.v
Sys.v
Network.v
Config.v
MachineApi.v
Vmm.v
Machine.v
Concrete.v
MachineFacts.v
RequestFacts.v
StartFacts.v
Deadlines.v
CreateFacts.v
JailFacts.v
Lifecycle.v
Interleavings.v
TypedRequests.v
Reuse.v
ControlFacts.v
Wire.v
Kept.v
Restore.v
Demo.v
DemoFacts.v
Vsock.v
CpuTemplate.v
Workers.v
Doubles.v
TestHelpers.v
