(* ===== verification/Prelude.v ===== *)
(** * The Firecracker Go SDK, modelled and verified

    ** The program

    The SDK (package firecracker, src/) drives a Firecracker VMM.  A [Machine] is
    made by [NewMachine] from a [Config] (machine.go, opts.go, jailer.go): a
    command to run and two lists of named handlers (handlers.go).  [Start] runs
    the handlers: they validate the configuration, set up the network (network.go,
    cni/), start the process (machine.go, [startVMM]), link files into the chroot
    of a jailer (jailer.go) and configure the VM by requests on the API socket
    (firecracker.go over the generated client/).  What a start did is undone by
    cleanup functions, after a failure or when the process ends.  Goroutines of
    [startVMM] wait for the process, publish its end, and stop the VM when its
    context is cancelled.  Package vsock dials guests, package internal tells
    whether CPU templates are supported.

    ** The model

    Go code is a program of the monad [GoM E S] below: a state [S], calls [E] to
    code outside the repository (operating system, CNI, netlink, the HTTP
    transport) answered by an oracle that sees the whole history, the history
    itself, and an outcome: a value, a panic, or [Pending] when a loop is still
    running after its fuel or a call blocks for ever.  Theorems quantify over the
    oracle, so they hold for every answer, errors included.  Errors are data
    ([Err]), with the wrapping [errors.As] and [os.IsNotExist] look through.
    Integers that may overflow are written with their wrap-around ([int64_mul]).
    Go slices are windows on shared backing arrays (Slices.v); a Go map that is
    iterated is iterated in an order the environment chooses.  Functions stored in
    data (handlers, cleanup functions) are the values of a type, interpreted where
    the code calls them.  Third-party values the code computes with are classes
    ([Validation], [Multierror], [Growth], [Swag], [ClientRequest], [Consumer], [HttpRuntime],
    [NetlinkConstants]) with laws that
    state their documentation where a theorem needs them; Concrete.v and the
    Examples modules instantiate them and run the programs.

    ** The files

    Data and small components.  Prelude.v (this file): the monad, its rules and
    tactics ([wp_steps], [go_extends], [go_keeps]).  GoStrings.v: the functions of
    strings, strconv and path/filepath that the code uses.  KernelArgs.v:
    kernelargs.go.  Models.v: client/models, records and Validate methods.  Json.v:
    how encoding/json reads and writes the types of struct fields and structs by
    their tags.  ModelsJson.v: the tags of every model, MarshalBinary and
    UnmarshalBinary.  JsonText.v: a writer and a reader of JSON text with their
    round trip, on which the examples run.  ApiParams.v: the parameters of the API
    operations.  Slices.v: Go's append.
    Handlers.v: the handler lists of handlers.go.  Builders.v: drives.go,
    rate_limiter.go, balloon.go, snapshot.go, pointer_helpers.go.  Commands.v:
    command_builder.go and the jailer's command builder.  Vmconf.v: cniutil.go and
    the boot parameter of vmconf.go.

    Talking to the outside.  Transport.v: client_transports.go and
    firecracker_client.go.  Client.v: firecracker.go and utils.go against the
    interface [HasOps].  ApiOperations.v: the generated operations client.
    Netlink.v: cni/internal/netlink.go, an instance of the class [NetlinkOps].
    Sys.v: the signature of all calls.  Network.v: network.go and the conversion of
    CNI results.

    Wire.v composes the machine, the client and the generated client: [serves] says
    that the API calls of a history are answered by HTTP requests of the generated
    client, [wire_of] what the API describes each request to be.

    The machine.  Config.v: the records of machine.go and jailer.go, the handler
    values and the validations.  MachineApi.v: the methods that send requests.
    Vmm.v: startVMM, waitForSocket, stopVMM, Shutdown, Wait, doCleanup, log files.
    Machine.v: NewMachine, the options, the jailer, LinkFilesHandler and Start.
    MachineFacts.v, RequestFacts.v, StartFacts.v, Deadlines.v, CreateFacts.v,
    JailFacts.v, TypedRequests.v and ControlFacts.v prove their properties; Concrete.v
    holds the machines and the host the examples run.
    Lifecycle.v: the goroutines of startVMM as a step relation, every
    interleaving of them with a Start that goes on, fails, or cleans up and with any
    number of calls of Shutdown; Interleavings.v: the sequential model of Start and of
    the operations after it follows these steps.  Workers.v: the goroutines that copy a fifo and forward signals.
    [startVMM] also registers the forwarded signals ([Machine_setupSignals]).
    Reuse.v: what a start leaves in the configuration its caller still holds.
    Kept.v: what a machine keeps of its configuration, through any [view] that is
    blind to the fields it changes.  Restore.v: a snapshot from the machine that
    writes it to the one that loads it.

    Other packages.  Vsock.v: vsock/dial.go and vsock/listener.go.  CpuTemplate.v:
    internal/cpu_template.go.  Doubles.v: the test doubles of fctesting and
    cni/internal/mocks.go.  TestHelpers.v: fctesting/utils.go, a test that is skipped
    or failed being a result.

    A caller.  Demo.v: the program src/examples/cmd/snapshotting/example_demo.go.  Its
    signature contains that of the SDK, whose programs run in it by [translate]
    below; [log.Fatal] is a result that skips the deferred functions; while the
    program sleeps or talks to its VM by SSH, the process of the VM may end
    ([meanwhile]).  DemoFacts.v: the requests it sends.

    ** What the theorems show

    Starting (RequestFacts.v, StartFacts.v, MachineFacts.v, TypedRequests.v,
    Deadlines.v).  A
    successful start has sent exactly the requests its configuration asks for, in
    order; every changing request, on success or failure, has a body its model
    accepts and runs under a timeout of its own; a failed start has run the cleanup
    functions in reverse order, once: all those registered when the failure is what
    cleans up, and those registered until the process ended when its end did so
    before (what is registered later then never runs, a bug of the code); a machine
    starts at most once; the fatal error never changes once
    [exitCh] is closed.

    A start that fails stops at the first refused request.  A configuration with a
    CNI interface makes one machine that starts (Reuse.v); its CNI cache directory
    and linked drives are left to the next one.

    On the wire (Wire.v, ModelsJson.v).  The HTTP requests of a start, and of each
    method that changes a running VM, with their paths and JSON bodies; those of a
    start that fails, and how the last answer becomes the error returned; the
    snapshot one machine writes is the one another loads, its memory given as a file
    or as a backend (Restore.v); the requests of the example program, from the boot of its first VM
    to the shutdown of the second (DemoFacts.v); a model the
    server sends is the model the client returns; the code and the message of a
    refusal reach the caller; every model is read back from its binary form.

    Controlling (ControlFacts.v, Wire.v).  Every method that changes a running VM
    sends one request, well typed, and returns its answer; the request is the change
    asked for, but for the limiter of outgoing traffic, which the code takes from the
    wrong field.

    Creating (CreateFacts.v, JailFacts.v).  The handler lists of a new machine, its
    command read back with the option grammar of the jailer, where a jailed
    machine's files are linked, its kernel arguments, and when it panics.

    Concurrency (Lifecycle.v, Interleavings.v, Workers.v).  Only a
    call of Shutdown after the first can close a channel twice, and each does; the
    cleanup runs at most once in any interleaving; the goroutines
    come to rest, in listed states; the sequential model of Start and of the
    operations after it refines the step relation; a start that gives up on its socket leaves its goroutine and
    [StopVMM] blocked for ever.

    Components.  Handler lists and ingress queueing disciplines refine abstract
    specifications; validations decide the constraints they are documented to check,
    listed as literals (the link-local format and the even number of vCPUs of
    swagger.yaml are not among them);
    the network is undone exactly by its cleanup functions, and a CNI interface gets
    the addresses of the CNI result;
    round trips of kernel arguments, boot parameters, command lines and models; the
    exchange of one attempt to dial a guest, whose result depends only on the stream
    up to its first newline.

    ** Fuel

    [waitForSocket], [waitForAliveVMM] and the retry loops of vsock poll until the
    environment says stop, so they take fuel and give [Pending] when it runs out.
    [waitForSocket_terminates], [waitForAliveVMM_result], [DialContext_outcome] and
    [tryConnect_exchange] say how long that can be: one unit per poll that finds
    nothing to do, and for a read two units per byte received and one more.  The reader of JsonText.v is
    given the length of its text, enough for every value ([parse_render]).  The loops
    of Demo.v are bounded by the program itself ([maxRetries]).  Nothing else has
    fuel.

    ** Not modelled

    Log lines (except those of the vsock loops), which change no state.  HTTP
    itself: outside Transport.v a generated client is known by its socket path,
    which [newFirecrackerClient_socket] justifies.  The text of JSON values, which
    go-openapi/swag and the scanner of encoding/json write and read (class [Swag]);
    what json.Marshal makes of the metadata of a caller, which is known by that JSON.
    Formatting of errors: an error is its format with its arguments.  Sharing of one
    [CNIConfiguration] by several machines while they run.  A machine whose
    operations client returns neither a result nor an error for a reading, as the
    double of Doubles.v can.  Files without operations. *)

From stdpp Require Import gmap strings list.
From Stdlib Require Import ZArith Lia.

#[export] Set Warnings "-clear-no-such-hyp".

Declare Scope go_scope.
Delimit Scope go_scope with go.

(** ** Go error values

    [Ext] is an error value made outside this repository (operating system,
    network, third-party package), with the classification the code asks for;
    the other constructors are the errors the repository builds itself.
    [ErrorfV] formats its cause with [%v] (the cause cannot be unwrapped),
    [ErrorfW] with [%w]. *)
Inductive ext_kind :=
  | NotExist
  | Exist
  | NetError (temporary : bool)
  | NSPathNotNS
  | NSPathNotExist
  | NetlinkLinkNotFound
  | OtherExt.

Inductive device_error := LinkNotFound | QdiscNotFound | FilterNotFound.

Inductive Err :=
  | ErrorsNew (text : string)
  | Errorf (format : string) (args : list string)
  | ErrorfV (format : string) (args : list string) (cause : Err)
  | ErrorfW (format : string) (args : list string) (cause : Err)
  | Ext (kind : ext_kind) (text : string)
  | CtxErr (text : string)
  | DeviceError (kind : device_error) (device : string)
  | ConnectMsgError (cause : Err)
  | AckError (cause : Err)
  | ApiError (name : string) (code : Z) (message : string).

#[export] Instance ext_kind_eq_dec : EqDecision ext_kind.
Proof. solve_decision. Defined.
#[export] Instance device_error_eq_dec : EqDecision device_error.
Proof. solve_decision. Defined.
#[export] Instance Err_eq_dec : EqDecision Err.
Proof. unfold EqDecision, Decision. repeat decide equality. Defined.

(** A Go [error] result: [None] is [nil]. *)
Abbreviation error := (option Err).

Definition errors_Unwrap (e : Err) : error :=
  match e with ErrorfW _ _ c => Some c | _ => None end.

(** [os.IsNotExist]; false on [nil]. It does not unwrap. *)
Definition os_IsNotExist (e : error) : bool :=
  match e with Some (Ext NotExist _) => true | _ => false end.

(** ** Outcomes

    [Val] is a normal return, [Panic] a run-time panic (nil dereference, index
    out of range, close of a closed channel), [Pending] a loop that has used
    its fuel without returning. *)
Inductive Outcome (A : Type) :=
  | Val (a : A)
  | Panic (why : string)
  | Pending.
Arguments Val {A} _.
Arguments Panic {A} _.
Arguments Pending {A}.

Definition is_val {A} (r : Outcome A) : Prop := ∃ a, r = Val a.
Definition is_panic {A} (r : Outcome A) : Prop := ∃ w, r = Panic w.

(** ** Contexts

    A [context.Context] is the background context, a context of the caller's, or
    one derived with a deadline ([context.WithTimeout], in nanoseconds). *)
Inductive go_context :=
  | Background
  | CallerContext (id : nat)
  | WithTimeout (parent : go_context) (timeout : Z).

#[export] Instance go_context_eq_dec : EqDecision go_context.
Proof. solve_decision. Defined.

(** ** Effects

    A component calls code outside the repository through a signature
    [E : Type → Type] of calls indexed by their answer. An [Oracle] answers
    each call from the whole history of calls and answers, so a statement over
    every oracle covers every behaviour of the environment, faults included. *)
Inductive event (E : Type → Type) : Type :=
  | Event (T : Type) (c : E T) (r : T).
Arguments Event {E T} _ _.

Definition trace (E : Type → Type) : Type := list (event E).
Definition Oracle (E : Type → Type) : Type := trace E → ∀ T : Type, E T → T.

(** The state-passing monad of a component with state [S] and calls [E]. *)
Definition GoM (E : Type → Type) (S A : Type) : Type :=
  Oracle E → S → trace E → Outcome A * S * trace E.

Section monad.
Context {E : Type → Type} {S : Type}.

Definition go_ret {A} (a : A) : GoM E S A := λ _ s h, (Val a, s, h).

Definition go_bind {A B} (m : GoM E S A) (k : A → GoM E S B) : GoM E S B :=
  λ o s h,
    match m o s h with
    | (Val a, s', h') => k a o s' h'
    | (Panic w, s', h') => (Panic w, s', h')
    | (Pending, s', h') => (Pending, s', h')
    end.

Definition go_panic {A} (why : string) : GoM E S A := λ _ s h, (Panic why, s, h).
Definition go_pending {A} : GoM E S A := λ _ s h, (Pending, s, h).

(** A pure computation that may panic. *)
Definition go_lift {A} (r : Outcome A) : GoM E S A := λ _ s h, (r, s, h).

Definition get : GoM E S S := λ _ s h, (Val s, s, h).
Definition put (s : S) : GoM E S unit := λ _ _ h, (Val tt, s, h).
Definition modify (f : S → S) : GoM E S unit := λ _ s h, (Val tt, f s, h).

(** Ask the environment and record the call with its answer. *)
Definition call {T} (c : E T) : GoM E S T :=
  λ o s h, let r := o h T c in (Val r, s, h ++ [Event c r]).

(** Dereference of a Go pointer. *)
Definition deref {A} (p : option A) : GoM E S A :=
  match p with
  | Some a => go_ret a
  | None => go_panic "invalid memory address or nil pointer dereference"
  end.
End monad.

Notation "x <- m ; k" := (go_bind m (λ x, k))
  (at level 100, m at next level, k at level 200, right associativity) : go_scope.
Notation "m ;; k" := (go_bind m (λ _, k))
  (at level 100, k at level 200, right associativity) : go_scope.
(** [if err := m; err != nil { return err }; k] *)
Notation "'try' m ;; k" :=
  (go_bind m (λ e, match e with Some err => go_ret (Some err) | None => k end))
  (at level 100, m at next level, k at level 200, right associativity) : go_scope.
Open Scope go_scope.

(** [for _, x := range l { if err := f(x); err != nil { return err } }] *)
Fixpoint range_err {E S A} (f : A → GoM E S error) (l : list A) : GoM E S error :=
  match l with
  | [] => go_ret None
  | x :: l => try f x ;; range_err f l
  end.

(** ** Reasoning about programs *)
Definition wp {E S A} (m : GoM E S A) (Q : Outcome A → S → trace E → Prop)
    (o : Oracle E) (s : S) (h : trace E) : Prop :=
  let '(r, s', h') := m o s h in Q r s' h'.

Section wp.
Context {E : Type → Type} {S : Type} (o : Oracle E).
Implicit Types (s : S) (h : trace E).

Lemma wp_unfold {A} (m : GoM E S A) Q s h r s' h' :
  m o s h = (r, s', h') → wp m Q o s h ↔ Q r s' h'.
Proof. unfold wp. by intros ->. Qed.

Lemma wp_ext {A} (m m' : GoM E S A) Q s h : m o s h = m' o s h → wp m' Q o s h → wp m Q o s h.
Proof. unfold wp. by intros ->. Qed.

Lemma wp_mono {A} (m : GoM E S A) (P Q : Outcome A → S → trace E → Prop) s h :
  wp m P o s h → (∀ r s' h', P r s' h' → Q r s' h') → wp m Q o s h.
Proof. unfold wp. destruct (m o s h) as [[r s'] h']. eauto. Qed.

Lemma wp_and {A} (m : GoM E S A) (P Q : Outcome A → S → trace E → Prop) s h :
  wp m P o s h → wp m Q o s h → wp m (λ r s h, P r s h ∧ Q r s h) o s h.
Proof. unfold wp. destruct (m o s h) as [[r s'] h']. eauto. Qed.

Lemma wp_ret {A} (a : A) (Q : Outcome A → S → trace E → Prop) s h :
  Q (Val a) s h → wp (go_ret a) Q o s h.
Proof. done. Qed.

Lemma wp_bind {A B} (m : GoM E S A) (k : A → GoM E S B) Q s h :
  wp m (λ r s' h', match r with
                   | Val a => wp (k a) Q o s' h'
                   | Panic w => Q (Panic w) s' h'
                   | Pending => Q Pending s' h'
                   end) o s h →
  wp (go_bind m k) Q o s h.
Proof. unfold wp, go_bind. by destruct (m o s h) as [[[?| |] s'] h']. Qed.

Lemma wp_call {T} (c : E T) (Q : Outcome T → S → trace E → Prop) s h :
  Q (Val (o h T c)) s (h ++ [Event c (o h T c)]) → wp (call c) Q o s h.
Proof. done. Qed.

Lemma wp_panic {A} why (Q : Outcome A → S → trace E → Prop) s h :
  Q (Panic why) s h → wp (go_panic why) Q o s h.
Proof. done. Qed.

Lemma wp_pending {A} (Q : Outcome A → S → trace E → Prop) s h :
  Q Pending s h → wp go_pending Q o s h.
Proof. done. Qed.

Lemma wp_lift {A} (r : Outcome A) (Q : Outcome A → S → trace E → Prop) s h :
  Q r s h → wp (go_lift r) Q o s h.
Proof. done. Qed.

Lemma wp_get (Q : Outcome S → S → trace E → Prop) s h :
  Q (Val s) s h → wp get Q o s h.
Proof. done. Qed.

Lemma wp_put s' (Q : Outcome unit → S → trace E → Prop) s h :
  Q (Val tt) s' h → wp (put s') Q o s h.
Proof. done. Qed.

Lemma wp_modify f (Q : Outcome unit → S → trace E → Prop) s h :
  Q (Val tt) (f s) h → wp (modify f) Q o s h.
Proof. done. Qed.

Lemma wp_deref {A} (p : option A) (Q : Outcome A → S → trace E → Prop) s h :
  (∀ a, p = Some a → Q (Val a) s h) →
  (p = None → Q (Panic "invalid memory address or nil pointer dereference") s h) →
  wp (deref p) Q o s h.
Proof. destruct p; intros HS HN; [by apply HS | by apply HN]. Qed.
End wp.

(** One step of symbolic execution: a primitive, a bind, or a case of the program. *)
Ltac wp_step :=
  match goal with
  | |- wp (go_bind _ _) _ _ _ _ => apply wp_bind
  | |- wp (call _) _ _ _ _ => apply wp_call
  | |- wp (go_ret _) _ _ _ _ => apply wp_ret
  | |- wp (go_panic _) _ _ _ _ => apply wp_panic
  | |- wp go_pending _ _ _ _ => apply wp_pending
  | |- wp (go_lift _) _ _ _ _ => apply wp_lift
  | |- wp get _ _ _ _ => apply wp_get
  | |- wp (put _) _ _ _ _ => apply wp_put
  | |- wp (modify _) _ _ _ _ => apply wp_modify
  | |- wp (deref _) _ _ _ _ => apply wp_deref; intros
  | |- wp (match ?x with _ => _ end) _ _ _ _ => destruct x eqn:?
  | |- context [match ?x with Val _ => _ | Panic _ => _ | Pending => _ end] => destruct x eqn:?
  end; cbn beta iota zeta.
Ltac wp_steps := repeat wp_step.

(** ** The history only grows *)
Definition extends {E S A} (m : GoM E S A) : Prop :=
  ∀ o s h, ∃ t, (m o s h).2 = h ++ t.

Create HintDb go_ext.

Section extends.
Context {E : Type → Type} {S : Type}.

Lemma extends_ret {A} (a : A) : extends (E := E) (S := S) (go_ret a).
Proof. intros o s h. exists []. by rewrite app_nil_r. Qed.
Lemma extends_panic {A} w : extends (E := E) (S := S) (A := A) (go_panic w).
Proof. intros o s h. exists []. by rewrite app_nil_r. Qed.
Lemma extends_pending {A} : extends (E := E) (S := S) (A := A) go_pending.
Proof. intros o s h. exists []. by rewrite app_nil_r. Qed.
Lemma extends_get : extends (E := E) (S := S) get.
Proof. intros o s h. exists []. by rewrite app_nil_r. Qed.
Lemma extends_put s : extends (E := E) (S := S) (put s).
Proof. intros o s' h. exists []. by rewrite app_nil_r. Qed.
Lemma extends_modify f : extends (E := E) (S := S) (modify f).
Proof. intros o s h. exists []. by rewrite app_nil_r. Qed.
Lemma extends_deref {A} (p : option A) : extends (E := E) (S := S) (deref p).
Proof. destruct p; [apply extends_ret | apply extends_panic]. Qed.
Lemma extends_call {T} (c : E T) : extends (S := S) (call c).
Proof. intros o s h. by eexists. Qed.

Lemma extends_lift {A} (r : Outcome A) : extends (E := E) (S := S) (go_lift r).
Proof. intros o s h. exists []. by rewrite app_nil_r. Qed.

Lemma extends_bind {A B} (m : GoM E S A) (k : A → GoM E S B) :
  extends m → (∀ a, extends (k a)) → extends (go_bind m k).
Proof.
  intros Hm Hk o s h. unfold go_bind. destruct (Hm o s h) as [t Ht].
  destruct (m o s h) as [[r s'] h'] eqn:Hrun. simpl in Ht. subst h'.
  destruct r as [a| |]; simpl; eauto.
  destruct (Hk a o s' (h ++ t)) as [t' ->]. exists (t ++ t'). by rewrite app_assoc.
Qed.

Lemma extends_range_err {A} (f : A → GoM E S error) l :
  (∀ x, extends (f x)) → extends (range_err f l).
Proof.
  intros Hf. induction l as [|x l IH]; simpl; [apply extends_ret|].
  apply extends_bind; [done|]. intros [e|]; [apply extends_ret | done].
Qed.
End extends.

#[export] Hint Resolve extends_ret extends_panic extends_pending extends_get
  extends_put extends_modify extends_lift extends_deref extends_call extends_range_err : go_ext.

(** Introduce an argument, without unfolding the goal. *)
Ltac intro_arg := match goal with |- forall _, _ => intro end.

(** Case analysis along the structure of a program. *)
Ltac go_extends :=
  repeat first
    [ intro_arg
    | solve [eauto with go_ext]
    | apply extends_bind
    | apply extends_range_err
    | case_match ].

(** ** Programs by what they return *)
Definition returns {E S A} (Q : A → Prop) (m : GoM E S A) : Prop :=
  ∀ o s h, match (m o s h).1.1 with Val a => Q a | _ => True end.

Section returns.
Context {E : Type → Type} {S : Type}.

Lemma returns_ret {A} (Q : A → Prop) (a : A) : Q a → returns (E := E) (S := S) Q (go_ret a).
Proof. by intros ? o s h. Qed.

Lemma returns_bind {A B} (Q : B → Prop) (m : GoM E S A) (k : A → GoM E S B) :
  (∀ a, returns Q (k a)) → returns Q (go_bind m k).
Proof. intros Hk o s h. unfold go_bind. destruct (m o s h) as [[[a| |] s'] h']; [apply Hk|done..]. Qed.

Lemma returns_bind_with {A B} (P : A → Prop) (Q : B → Prop) (m : GoM E S A) (k : A → GoM E S B) :
  returns P m → (∀ a, P a → returns Q (k a)) → returns Q (go_bind m k).
Proof.
  intros Hm Hk o s h. unfold go_bind. specialize (Hm o s h).
  destruct (m o s h) as [[[a| |] s'] h']; [by apply Hk|done..].
Qed.

Lemma returns_mono {A} (P Q : A → Prop) (m : GoM E S A) : returns P m → (∀ a, P a → Q a) → returns Q m.
Proof. intros Hm Hpq o s h. specialize (Hm o s h). destruct (m o s h) as [[[a| |] s'] h']; simpl in *; auto. Qed.
End returns.

(** ** Programs over a larger signature

    [translate f m] runs [m] with each call [c] made as [f c]; [m] sees its own
    calls only, and its history is added to the one it starts from. *)
Definition map_event {E F : Type → Type} (f : ∀ T, E T → F T) (ev : event E) : event F :=
  match ev with @Event _ T c r => Event (f T c) r end.

Definition translate {E F : Type → Type} {S A} (f : ∀ T, E T → F T) (m : GoM E S A) : GoM F S A := λ o s h,
  let '(r, s', t) := m (λ t T c, o (h ++ (map_event f <$> t)) T (f T c)) s [] in
  (r, s', h ++ (map_event f <$> t)).

Section translate.
Context {E F : Type → Type} {S : Type} (f : ∀ T, E T → F T).

Lemma translate_ret {A} (a : A) (o : Oracle F) (s : S) h : translate f (go_ret a) o s h = go_ret a o s h.
Proof. unfold translate, go_ret. by rewrite app_nil_r. Qed.

Lemma translate_call {T} (c : E T) (o : Oracle F) (s : S) h : translate f (call c) o s h = call (f T c) o s h.
Proof. unfold translate, call. simpl. by rewrite app_nil_r. Qed.

Lemma translate_wp {A} (m : GoM E S A) (Q : Outcome A → S → trace F → Prop) (o : Oracle F) s h :
  (∀ o', wp m (λ r s' t, Q r s' (h ++ (map_event f <$> t))) o' s []) → wp (translate f m) Q o s h.
Proof. unfold wp, translate. intros Hm. specialize (Hm (λ t T c, o (h ++ (map_event f <$> t)) T (f T c))). by destruct (m _ s []) as [[r s'] t]. Qed.
End translate.

(** ** Relations between the states before and after

    [keeps R m]: when [m] returns, [R] relates its final state to its initial one. *)
Definition keeps {E S A} (R : S → S → Prop) (m : GoM E S A) : Prop :=
  ∀ o s h, match m o s h with (Val _, s', _) => R s s' | _ => True end.

Create HintDb go_keeps.

Section keeps.
Context {E : Type → Type} {S : Type} (R : S → S → Prop) `{!PreOrder R}.

Lemma keeps_ret {A} (a : A) : keeps (E := E) R (go_ret a).
Proof. intros o s h. simpl. reflexivity. Qed.
Lemma keeps_panic {A} w : keeps (E := E) R (go_panic (A := A) w).
Proof. by intros o s h. Qed.
Lemma keeps_pending {A} : keeps (E := E) R (go_pending (A := A)).
Proof. by intros o s h. Qed.
Lemma keeps_get : keeps (E := E) R get.
Proof. intros o s h. simpl. reflexivity. Qed.
Lemma keeps_lift {A} (r : Outcome A) : keeps (E := E) R (go_lift r).
Proof. intros o s h. unfold go_lift. destruct r; [reflexivity|done..]. Qed.
Lemma keeps_deref {A} (p : option A) : keeps (E := E) R (deref p).
Proof. destruct p; [apply keeps_ret | apply keeps_panic]. Qed.
Lemma keeps_call {T} (c : E T) : keeps R (call c).
Proof. intros o s h. simpl. reflexivity. Qed.
Lemma keeps_modify f : (∀ s, R s (f s)) → keeps (E := E) R (modify f).
Proof. intros Hf o s h. apply Hf. Qed.

Lemma keeps_bind {A B} (m : GoM E S A) (k : A → GoM E S B) :
  keeps R m → (∀ a, keeps R (k a)) → keeps R (go_bind m k).
Proof.
  intros Hm Hk o s h. unfold go_bind. specialize (Hm o s h).
  destruct (m o s h) as [[[a| |] s'] h']; [|done..].
  specialize (Hk a o s' h'). destruct (k a o s' h') as [[[b| |] s''] h'']; [|done..].
  by transitivity s'.
Qed.

Lemma keeps_eq {A} (m : GoM E S A) : keeps eq m → keeps R m.
Proof.
  intros Hm o s h. specialize (Hm o s h). destruct (m o s h) as [[[a| |] s'] h']; [|done..].
  by rewrite Hm.
Qed.

Lemma keeps_range_err {A} (f : A → GoM E S error) l :
  (∀ x, keeps R (f x)) → keeps R (range_err f l).
Proof.
  intros Hf. induction l as [|x l IH]; simpl; [apply keeps_ret|].
  apply keeps_bind; [done|]. intros [e|]; [apply keeps_ret | done].
Qed.
End keeps.

#[export] Hint Extern 1 (keeps _ (go_ret _)) => apply keeps_ret; exact _ : go_keeps.
#[export] Hint Extern 1 (keeps _ (go_panic _)) => apply keeps_panic; exact _ : go_keeps.
#[export] Hint Extern 1 (keeps _ go_pending) => apply keeps_pending; exact _ : go_keeps.
#[export] Hint Extern 1 (keeps _ get) => apply keeps_get; exact _ : go_keeps.
#[export] Hint Extern 1 (keeps _ (go_lift _)) => apply keeps_lift; exact _ : go_keeps.
#[export] Hint Extern 1 (keeps _ (deref _)) => apply keeps_deref; exact _ : go_keeps.
#[export] Hint Extern 1 (keeps _ (call _)) => apply keeps_call; exact _ : go_keeps.

Ltac go_keeps :=
  repeat first
    [ intro_arg
    | solve [eauto with go_keeps]
    | apply keeps_bind; [exact _|..]
    | apply keeps_range_err; [exact _|]
    | case_match ].

(** Push a run through binds: after [run_step] the first unanswered call is a
    variable, so that a property of a branch is a case analysis. *)
Ltac run_unfold :=
  unfold go_bind, go_ret, go_panic, go_pending, get, put, modify, call, deref.

(** ** Machine integers: [int64] and [time.Duration] arithmetic *)
Definition wrap64 (z : Z) : Z := ((z + 2^63) mod 2^64 - 2^63)%Z.
Definition int64_range (z : Z) : Prop := (- 2^63 ≤ z < 2^63)%Z.

Lemma wrap64_range z : int64_range (wrap64 z).
Proof.
  unfold int64_range, wrap64.
  pose proof (Z.mod_pos_bound (z + 2^63) (2^64) eq_refl). lia.
Qed.

Lemma wrap64_id z : int64_range z → wrap64 z = z.
Proof. unfold int64_range, wrap64. intros. rewrite Z.mod_small; lia. Qed.

Definition int64_mul (a b : Z) : Z := wrap64 (a * b).
(** Go's integer division truncates toward zero. *)
Definition int64_div (a b : Z) : Z := wrap64 (Z.quot a b).

Definition Millisecond : Z := 1000000.
Definition Second : Z := 1000000000.

(** ** Lists and options *)
Lemma snoc2_app {A} (h : list A) x y l : ((h ++ [x]) ++ [y]) ++ l = h ++ x :: y :: l.
Proof. by rewrite <- !app_assoc. Qed.

(** [find] of the first element satisfying a boolean predicate. *)
Lemma list_find_first {A} (p : A → bool) (l : list A) x :
  List.find p l = Some x →
  ∃ l1 l2, l = l1 ++ x :: l2 ∧ p x = true ∧ Forall (λ y, p y = false) l1.
Proof.
  induction l as [|y l IH]; simpl; [done|].
  destruct (p y) eqn:Hp; intros Hf; simplify_eq.
  - exists [], l. by repeat constructor.
  - destruct (IH Hf) as (l1 & l2 & -> & ? & ?).
    exists (y :: l1), l2. by repeat constructor.
Qed.

Lemma list_find_none {A} (p : A → bool) (l : list A) :
  List.find p l = None ↔ Forall (λ y, p y = false) l.
Proof.
  induction l as [|y l IH]; simpl; [by split|].
  rewrite Forall_cons, <- IH. destruct (p y); naive_solver.
Qed.
