(* ===== verification/GoStrings.v ===== *)
(** * Go's string and path functions

    The functions of the packages [strings], [strconv] and [path/filepath]
    (Unix) that the repository calls, on byte strings as Go has them.  They are
    standard-library code, so they are modelled here rather than assumed. *)

From stdpp Require Import strings list pretty.
From Stdlib Require Import Ascii.
From Stdlib Require Import ZArith Lia.
From S2P Require Import Prelude.

Open Scope string_scope.

(** ** Package [strings] *)

(** Number of bytes of the white-space rune [s] starts with, 0 if none:
    [unicode.IsSpace] on the UTF-8 encoding. *)
Definition space_width (s : string) : nat :=
  match s with
  | "" => 0
  | String a s1 =>
      let x := Ascii.N_of_ascii a in
      if ((9 <=? x) && (x <=? 13) || (x =? 32))%N then 1 else
      match s1 with
      | "" => 0
      | String b s2 =>
          let y := Ascii.N_of_ascii b in
          if ((x =? 0xC2) && ((y =? 0x85) || (y =? 0xA0)))%N then 2 else
          match s2 with
          | "" => 0
          | String c _ =>
              let z := Ascii.N_of_ascii c in
              if ((x =? 0xE1) && (y =? 0x9A) && (z =? 0x80)
                  || (x =? 0xE2) && (y =? 0x80) &&
                     ((0x80 <=? z) && (z <=? 0x8A) || (z =? 0xA8) || (z =? 0xA9) || (z =? 0xAF))
                  || (x =? 0xE2) && (y =? 0x81) && (z =? 0x9F)
                  || (x =? 0xE3) && (y =? 0x80) && (z =? 0x80))%N
              then 3 else 0
          end
      end
  end.

Definition add_field (p : string) (ts : list string) : list string :=
  match p with "" => ts | _ => p :: ts end.

(** [scan skip s]: the field in progress at the start of [s] and the fields
    after it; [skip] bytes still belong to the white-space rune before. *)
Fixpoint scan (skip : nat) (s : string) : string * list string :=
  match s with
  | "" => ("", [])
  | String a s' =>
      match skip with
      | Datatypes.S k => let '(p, ts) := scan k s' in ("", add_field p ts)
      | O =>
          match space_width s with
          | Datatypes.S k => let '(p, ts) := scan k s' in ("", add_field p ts)
          | O => let '(p, ts) := scan 0 s' in (String a p, ts)
          end
      end
  end.

Definition strings_Fields (s : string) : list string :=
  let '(p, ts) := scan 0 s in add_field p ts.

Fixpoint strings_Join (l : list string) (sep : string) : string :=
  match l with
  | [] => ""
  | [x] => x
  | x :: l => x +:+ sep +:+ strings_Join l sep
  end.

(** [strings.Index(s, c)] as a split: what is before and after the first [c]. *)
Fixpoint cut (c : Ascii.ascii) (s : string) : option (string * string) :=
  match s with
  | "" => None
  | String a s' =>
      if Ascii.eqb a c then Some ("", s')
      else match cut c s' with Some (x, y) => Some (String a x, y) | None => None end
  end.

(** [strings.SplitN(s, c, 2)] for a one-byte separator. *)
Definition strings_SplitN2 (s : string) (c : Ascii.ascii) : list string :=
  match cut c s with Some (x, y) => [x; y] | None => [s] end.

(** [strings.Split(s, c)] for a one-byte separator. *)
Fixpoint strings_Split (s : string) (c : Ascii.ascii) : list string :=
  match s with
  | "" => [""]
  | String a s' =>
      if Ascii.eqb a c then "" :: strings_Split s' c
      else match strings_Split s' c with
           | x :: xs => String a x :: xs
           | [] => [String a ""]
           end
  end.

Definition strings_HasPrefix (s p : string) : bool := String.prefix p s.

Fixpoint strings_Contains (s sub : string) : bool :=
  String.prefix sub s || match s with "" => false | String _ s' => strings_Contains s' sub end.

(** [strings.TrimSuffix(s, "\n")]-like removal of a final suffix. *)
Fixpoint strings_TrimSuffix (s suffix : string) : string :=
  if (s =? suffix)%string then ""
  else match s with "" => "" | String a s' => String a (strings_TrimSuffix s' suffix) end.

(** ** Package [strconv] *)
Definition strconv_Itoa (z : Z) : string := pretty z.

Definition digit_value (a : Ascii.ascii) : option Z :=
  let x := Ascii.N_of_ascii a in
  if ((48 <=? x) && (x <=? 57))%N then Some (Z.of_N x - 48)%Z else None.

Fixpoint digits_value (acc : Z) (s : string) : option Z :=
  match s with
  | "" => Some acc
  | String a s' =>
      match digit_value a with Some d => digits_value (10 * acc + d)%Z s' | None => None end
  end.

(** [strconv.Atoi]: the value, or [None] for a syntax or range error. On a range
    error Go also returns the nearest bound, which the caller discards. *)
Definition strconv_Atoi (s : string) : option Z :=
  let '(neg, ds) :=
    match s with
    | String "-"%char s' => (true, s')
    | String "+"%char s' => (false, s')
    | _ => (false, s)
    end in
  match ds with
  | "" => None
  | _ =>
      match digits_value 0 ds with
      | Some n =>
          let z := if neg then (- n)%Z else n in
          if ((- 2^63 <=? z) && (z <? 2^63))%Z then Some z else None
      | None => None
      end
  end.

Lemma strconv_Atoi_range s z : strconv_Atoi s = Some z → int64_range z.
Proof.
  unfold strconv_Atoi. destruct (match s with EmptyString => _ | _ => _ end) as [neg ds].
  destruct ds as [|a ds]; [done|]. destruct (digits_value 0 _) as [n|]; [|done].
  cbv zeta. destruct (_ && _)%Z eqn:Hb; [|done]. intros [= <-].
  apply andb_prop in Hb as [? ?]. unfold int64_range. lia.
Qed.

(** ** Package [path/filepath] (Unix) *)

(** One step of [filepath.Clean] on the reversed stack of path elements. *)
Definition clean_step (rooted : bool) (stack : list string) (e : string) : list string :=
  if (e =? "")%string then stack
  else if (e =? ".")%string then stack
  else if (e =? "..")%string then
    match stack with
    | [] => if rooted then [] else [".."]
    | top :: rest => if (top =? "..")%string then ".." :: stack else rest
    end
  else e :: stack.

Definition filepath_Clean (path : string) : string :=
  let rooted := String.prefix "/" path in
  let stack := foldl (clean_step rooted) [] (strings_Split path "/"%char) in
  let body := strings_Join (reverse stack) "/" in
  if rooted then "/" +:+ body
  else match stack with [] => "." | _ => body end.

Fixpoint filepath_Join (elem : list string) : string :=
  match elem with
  | [] => ""
  | "" :: rest => filepath_Join rest
  | _ => filepath_Clean (strings_Join elem "/")
  end.

(** The last element of a path that is not empty. *)
Definition filepath_Base (path : string) : string :=
  match path with
  | "" => "."
  | _ => default "/" (last (List.filter (λ e, negb (e =? "")%string) (strings_Split path "/"%char)))
  end.

(** [filepath.Dir]: [Clean] of the path up to and including its last slash. *)
Definition filepath_Dir (path : string) : string :=
  match reverse (strings_Split path "/"%char) with
  | [] | [_] => filepath_Clean ""
  | _ :: before => filepath_Clean (strings_Join (reverse before) "/" +:+ "/")
  end.

(** ** Lemmas on fields *)

(** No white-space rune starts inside the string. *)
Fixpoint no_space (s : string) : Prop :=
  match s with
  | "" => True
  | String _ s' => space_width s = 0 ∧ no_space s'
  end.

Definition is_field (s : string) : Prop := s ≠ "" ∧ no_space s.

Lemma string_app_assoc (a b c : string) : (a +:+ b) +:+ c = a +:+ b +:+ c.
Proof. induction a; [done|]. unfold String.app in *. simpl. by f_equal. Qed.
Lemma string_app_nil_r (a : string) : a +:+ "" = a.
Proof. induction a; [done|]. unfold String.app in *. simpl. by f_equal. Qed.
Lemma string_app_cons a (s t : string) : String a s +:+ t = String a (s +:+ t).
Proof. done. Qed.

Lemma space_width_cons_space a (s t : string) :
  space_width (String a s) = 0 → space_width (String a (s +:+ String " "%char t)) = 0.
Proof.
  destruct s as [|b [|c s]]; rewrite ?string_app_cons; simpl; [..|done];
    repeat case_match; try done; intros _; exfalso; simpl in *; lia.
Qed.

Lemma space_width_app a (s t : string) :
  space_width (String a (s +:+ t)) = 0 → space_width (String a s) = 0.
Proof.
  destruct s as [|b [|c s]]; rewrite ?string_app_cons; simpl; [..|done];
    repeat case_match; try done; intros; simplify_eq; lia.
Qed.

Lemma scan_prefix (s : string) p ts : scan 0 s = (p, ts) → ∃ t, s = p +:+ t.
Proof.
  revert p ts. induction s as [|a s IH]; intros p ts; cbn [scan].
  { intros [= <- <-]. by exists "". }
  destruct (space_width (String a s)) as [|k].
  - destruct (scan 0 s) as [p' ts'] eqn:Hs; simpl; intros [= <- <-].
    destruct (IH _ _ eq_refl) as [t ->]. by exists t.
  - destruct (scan k s); simpl; intros [= <- <-]. by exists (String a s).
Qed.

Lemma add_field_fields p ts :
  no_space p → Forall is_field ts → Forall is_field (add_field p ts).
Proof. destruct p; [done|]. intros Hp Hts. constructor; [|done]. by split. Qed.

Lemma scan_fields (s : string) skip p ts :
  scan skip s = (p, ts) → no_space p ∧ Forall is_field ts.
Proof.
  revert skip p ts. induction s as [|a s IH]; intros skip p ts; cbn [scan].
  { intros [= <- <-]. by split. }
  destruct skip as [|skip].
  2: { destruct (scan skip s) as [p' ts'] eqn:Hs; simpl; intros [= <- <-].
       destruct (IH _ _ _ Hs). split; [done|]. by apply add_field_fields. }
  destruct (space_width (String a s)) as [|k] eqn:Hw.
  - destruct (scan 0 s) as [p' ts'] eqn:Hs; simpl; intros [= <- <-].
    destruct (IH _ _ _ Hs). split; [|done]. split; [|done].
    destruct (scan_prefix _ _ _ Hs) as [t ->]. by apply space_width_app in Hw.
  - destruct (scan k s) as [p' ts'] eqn:Hs; simpl; intros [= <- <-].
    destruct (IH _ _ _ Hs). split; [done|]. by apply add_field_fields.
Qed.

Lemma strings_Fields_fields s : Forall is_field (strings_Fields s).
Proof.
  unfold strings_Fields. destruct (scan 0 s) as [p ts] eqn:Hs.
  destruct (scan_fields _ _ _ _ Hs). by apply add_field_fields.
Qed.

Lemma scan_one s : no_space s → scan 0 s = (s, []).
Proof.
  induction s as [|a s IH]; [done|]. intros [Hw Hs]. cbn [scan]. by rewrite Hw, IH.
Qed.

Lemma scan_field_then s t :
  no_space s → scan 0 (s +:+ String " "%char t) = (s, strings_Fields t).
Proof.
  induction s as [|a s IH].
  - intros _. rewrite (eq_refl : "" +:+ String " "%char t = String " "%char t).
    unfold strings_Fields. simpl. by destruct (scan 0 t).
  - intros [Hw Hs]. rewrite string_app_cons. cbn [scan].
    by rewrite (space_width_cons_space _ _ _ Hw), IH.
Qed.

Lemma strings_Fields_Join l :
  Forall is_field l → strings_Fields (strings_Join l " ") = l.
Proof.
  intros Hl. induction Hl as [|x l [Hne Hx] Hl IH]; [done|].
  destruct l as [|y l].
  - simpl. unfold strings_Fields. rewrite scan_one by done. by destruct x.
  - change (strings_Join (x :: y :: l) " ")
      with (x +:+ String " "%char (strings_Join (y :: l) " ")).
    unfold strings_Fields at 1. rewrite scan_field_then, IH by done. by destruct x.
Qed.

(** ** Lemmas on cutting *)
Lemma cut_Some c s x y :
  cut c s = Some (x, y) → s = x +:+ String c y ∧ cut c x = None.
Proof.
  revert x y. induction s as [|a s IH]; intros x y; simpl; [done|].
  destruct (Ascii.eqb_spec a c) as [->|Hac].
  - by intros [= <- <-].
  - destruct (cut c s) as [[x' y']|] eqn:Hc; simpl; [|done]; intros [= <- <-].
    destruct (IH _ _ eq_refl) as [-> Hx]. split; [done|].
    simpl. rewrite Hx. by destruct (Ascii.eqb_spec a c).
Qed.

Lemma cut_app c x y : cut c x = None → cut c (x +:+ String c y) = Some (x, y).
Proof.
  induction x as [|a x IH].
  - intros _. change ("" +:+ String c y) with (String c y). cbn [cut].
    by rewrite Ascii.eqb_refl.
  - rewrite string_app_cons. cbn [cut]. destruct (Ascii.eqb_spec a c); [done|].
    destruct (cut c x) as [[]|]; [done|]. intros _. by rewrite IH.
Qed.

Lemma no_space_app_inv s t : no_space (s +:+ t) → no_space s ∧ no_space t.
Proof.
  induction s as [|a s IH]; [by split|]. rewrite string_app_cons.
  intros [Hw Hs]. destruct (IH Hs). split; [|done]. split; [|done].
  by apply space_width_app in Hw.
Qed.

Lemma no_space_cons_inv a t : no_space (String a t) → no_space t.
Proof. by intros [_ ?]. Qed.

(** ** Lemmas on decimal numbers *)
Fixpoint string_forall (P : ascii → bool) (s : string) : bool :=
  match s with "" => true | String a s' => P a && string_forall P s' end.

Definition is_digit (a : ascii) : bool :=
  ((48 <=? Ascii.N_of_ascii a) && (Ascii.N_of_ascii a <=? 57))%N.

Lemma string_forall_app P (s t : string) :
  string_forall P (s +:+ t) = string_forall P s && string_forall P t.
Proof.
  induction s as [|a s IH]; [done|]. rewrite string_app_cons. simpl.
  rewrite IH. by destruct (P a).
Qed.

Lemma pretty_N_go_digits x s :
  string_forall is_digit s = true → string_forall is_digit (pretty_N_go x s) = true.
Proof.
  revert s. induction (N.lt_wf_0 x) as [x _ IH]; intros s Hs.
  assert (x = 0 ∨ 0 < x)%N as [->|Hx] by lia; [by rewrite pretty_N_go_0|].
  rewrite pretty_N_go_step by done. apply IH; [by apply N.div_lt|].
  simpl. rewrite Hs, andb_true_r. unfold pretty_N_char. by repeat case_match.
Qed.

Lemma strconv_Itoa_digits n : string_forall is_digit (strconv_Itoa (Z.of_nat n)) = true.
Proof.
  assert (∀ x : N, string_forall is_digit (pretty x) = true) as HN.
  { intros x. unfold pretty, pretty_N. case_decide; [done|]. by apply pretty_N_go_digits. }
  destruct n as [|n]; [done|]. apply (HN (Npos (Pos.of_succ_nat n))).
Qed.

Lemma strconv_Itoa_inj i j : strconv_Itoa i = strconv_Itoa j → i = j.
Proof. apply (inj pretty). Qed.

(** Reading back a decimal. *)
Lemma digits_value_pretty x s : digits_value 0 (pretty_N_go x s) = digits_value (Z.of_N x) s.
Proof.
  revert s. induction (N.lt_wf_0 x) as [x _ IH]; intros s.
  assert (x = 0 ∨ 0 < x)%N as [->|Hx] by lia; [by rewrite pretty_N_go_0|].
  rewrite pretty_N_go_step by done. rewrite IH by (by apply N.div_lt). simpl.
  assert (digit_value (pretty_N_char (x `mod` 10)) = Some (Z.of_N (x `mod` 10))) as ->.
  { pose proof (N.mod_lt x 10 ltac:(done)) as Hlt. revert Hlt. generalize (x `mod` 10)%N as d. intros d Hd.
    assert (d = 0 ∨ d = 1 ∨ d = 2 ∨ d = 3 ∨ d = 4 ∨ d = 5 ∨ d = 6 ∨ d = 7 ∨ d = 8 ∨ d = 9)%N as Hc by lia.
    by destruct Hc as [->|[->|[->|[->|[->|[->|[->|[->|[->| ->]]]]]]]]]. }
  f_equal. pose proof (N.div_mod x 10 ltac:(done)). lia.
Qed.

Lemma digits_value_pretty_N (x : N) : digits_value 0 (pretty x) = Some (Z.of_N x).
Proof.
  unfold pretty, pretty_N. destruct (decide (x = 0)%N) as [->|]; [done|]. by rewrite digits_value_pretty.
Qed.

Lemma pretty_N_digit_first (x : N) : ∃ a s, pretty x = String a s ∧ is_digit a = true.
Proof.
  assert (string_forall is_digit (pretty x) = true) as Hd.
  { unfold pretty, pretty_N. case_decide; [done|]. by apply pretty_N_go_digits. }
  assert (pretty x ≠ "") as Hne.
  { intros He. pose proof (digits_value_pretty_N x) as Hv. rewrite He in Hv. simpl in Hv. simplify_eq.
    assert (x = 0)%N as -> by lia. done. }
  destruct (pretty x) as [|a s]; [done|]. simpl in Hd. apply andb_prop in Hd as [Ha _]. eauto.
Qed.

Lemma strconv_Atoi_Itoa z : int64_range z → strconv_Atoi (strconv_Itoa z) = Some z.
Proof.
  intros Hz. unfold int64_range in Hz.
  assert (∀ x : N, digits_value 0 (pretty x) = Some (Z.of_N x)) as Hv by apply digits_value_pretty_N.
  destruct z as [|x|x]; unfold strconv_Itoa; [done|..].
  - change (pretty (Z.pos x)) with (pretty (N.pos x)). unfold strconv_Atoi.
    destruct (pretty_N_digit_first (N.pos x)) as (a & s & Hp & Ha). specialize (Hv (N.pos x)). rewrite Hp in Hv |- *.
    assert ((match String a s with String "-" s' => (true, s') | String "+" s' => (false, s') | _ => (false, String a s) end) = (false, String a s)) as ->
      by (by destruct a as [[] [] [] [] [] [] [] []]).
    rewrite Hv. cbv zeta. replace (_ && _)%Z with true; [done|]. symmetry. apply andb_true_intro. rewrite Z.leb_le, Z.ltb_lt. simpl in *. lia.
  - change (pretty (Z.neg x)) with ("-" +:+ pretty (N.pos x)). rewrite string_app_cons. unfold strconv_Atoi.
    change ("" +:+ pretty (N.pos x)) with (pretty (N.pos x)).
    destruct (pretty_N_digit_first (N.pos x)) as (a & s & Hp & _). specialize (Hv (N.pos x)). rewrite Hp in Hv |- *.
    rewrite Hv. cbv zeta. replace (_ && _)%Z with true; [done|]. symmetry. apply andb_true_intro. rewrite Z.leb_le, Z.ltb_lt. simpl in *. lia.
Qed.

(** ** Lemmas on splitting *)
Lemma strings_Split_nonempty s c : strings_Split s c ≠ [].
Proof.
  induction s as [|a s IH]; [done|]. simpl.
  destruct (Ascii.eqb a c); [done|]. by destruct (strings_Split s c).
Qed.

Lemma strings_Split_one s c : cut c s = None → strings_Split s c = [s].
Proof.
  induction s as [|a s IH]; [done|]. simpl. destruct (Ascii.eqb a c); [done|].
  destruct (cut c s) as [[]|]; [done|]. intros _. by rewrite IH.
Qed.

Lemma strings_Split_cons s c t :
  cut c s = None → strings_Split (s +:+ String c t) c = s :: strings_Split t c.
Proof.
  induction s as [|a s IH].
  - intros _. change ("" +:+ String c t) with (String c t). cbn [strings_Split].
    by rewrite Ascii.eqb_refl.
  - rewrite string_app_cons. cbn [strings_Split cut]. destruct (Ascii.eqb a c); [done|].
    destruct (cut c s) as [[]|]; [done|]. intros _. by rewrite IH.
Qed.

Lemma strings_Split_Join l c :
  l ≠ [] → Forall (λ s, cut c s = None) l →
  strings_Split (strings_Join l (String c "")) c = l.
Proof.
  intros Hne Hl. induction Hl as [|x l Hx Hl IH]; [done|].
  destruct l as [|y l]; [by apply strings_Split_one|].
  change (strings_Join (x :: y :: l) (String c ""))
    with (x +:+ String c (strings_Join (y :: l) (String c ""))).
  by rewrite strings_Split_cons, IH.
Qed.

Lemma cut_None_app c s t : cut c s = None → cut c t = None → cut c (s +:+ t) = None.
Proof.
  intros Hs Ht. induction s as [|a s IH]; [done|]. rewrite string_app_cons.
  cbn [cut] in *. destruct (Ascii.eqb a c); [done|].
  destruct (cut c s) as [[]|]; [done|]. by rewrite IH.
Qed.

Lemma cut_None_digits c s :
  is_digit c = false → string_forall is_digit s = true → cut c s = None.
Proof.
  intros Hc. induction s as [|a s IH]; [done|]. simpl.
  intros [Ha Hs]%andb_true_iff. destruct (Ascii.eqb_spec a c) as [->|]; [congruence|].
  by rewrite IH.
Qed.

Lemma cut_None_Join c sep l :
  cut c sep = None → Forall (λ s, cut c s = None) l → cut c (strings_Join l sep) = None.
Proof.
  intros Hsep Hl. induction Hl as [|x l Hx Hl IH]; [done|].
  destruct l as [|y l]; [done|].
  change (strings_Join (x :: y :: l) sep) with (x +:+ sep +:+ strings_Join (y :: l) sep).
  by repeat apply cut_None_app.
Qed.

Lemma cut_None_Itoa c z : is_digit c = false → (0 ≤ z)%Z → cut c (strconv_Itoa z) = None.
Proof.
  intros Hc Hz. apply cut_None_digits; [done|].
  rewrite <- (Z2Nat.id z) by done. apply strconv_Itoa_digits.
Qed.

(** ** Lemmas on paths *)
Lemma clean_step_nonempty rooted stack e :
  Forall (λ x, x ≠ "") stack → Forall (λ x, x ≠ "") (clean_step rooted stack e).
Proof.
  intros Hs. unfold clean_step. destruct (String.eqb_spec e ""); [done|]. destruct (String.eqb_spec e "."); [done|].
  destruct (String.eqb_spec e ".."); [|by constructor].
  destruct Hs as [|top rest Htop Hrest]; [destruct rooted; [constructor|by apply Forall_singleton]|].
  destruct (top =? ".."); [|done]. apply Forall_cons_2; [done|]. by apply Forall_cons_2.
Qed.

Lemma strings_Join_nonempty l sep : l ≠ [] → Forall (λ x, x ≠ "") l → strings_Join l sep ≠ "".
Proof.
  destruct l as [|x l]; [done|]. intros _ [Hx _]%Forall_cons. destruct x as [|c x]; [done|]. by destruct l.
Qed.

Lemma filepath_Clean_nonempty path : filepath_Clean path ≠ "".
Proof.
  unfold filepath_Clean. destruct (String.prefix "/" path); [done|].
  assert (∀ l st, Forall (λ x, x ≠ "") st → Forall (λ x, x ≠ "") (foldl (clean_step false) st l)) as Hf.
  { induction l as [|e l IH]; intros st Hst; simpl; [done|]. by apply IH, clean_step_nonempty. }
  specialize (Hf (strings_Split path "/"%char) [] (Forall_nil_2 _)). destruct (foldl _ _ _) as [|x stack]; [done|].
  apply strings_Join_nonempty; [|by apply Forall_reverse]. intros Hnil%(f_equal reverse). by rewrite reverse_involutive in Hnil.
Qed.

(** A path joined of elements that are not all empty is not empty. *)
Lemma filepath_Join_nonempty elem : Exists (λ e, e ≠ "") elem → filepath_Join elem ≠ "".
Proof.
  induction 1 as [e l He|e l _ IH]; simpl; [by destruct e; [|apply filepath_Clean_nonempty]|].
  destruct e; [done|apply filepath_Clean_nonempty].
Qed.
