(* ===== verification/KernelArgs.v ===== *)
(** * Kernel boot arguments (src/kernelargs.go)

    [kernelArgs] is the Go map from keys to optional values.  Go iterates over
    a map in an unspecified order, so serialisation takes the order as an
    argument, and the theorems hold for every order. *)

From stdpp Require Import gmap strings list.
From Stdlib Require Import Ascii.
From S2P Require Import Prelude GoStrings.

Open Scope string_scope.

Abbreviation kernelArgs := (gmap string (option string)).

(** [order] is a possible result of ranging over the map. *)
Definition iteration_order (kargs : kernelArgs) (order : list (string * option string)) : Prop :=
  order ≡ₚ map_to_list kargs.

(** The [field] built in one iteration of [kernelArgs.String]. *)
Definition kernelArg_field (kv : string * option string) : string :=
  match kv.2 with
  | Some value => kv.1 +:+ "=" +:+ value
  | None => kv.1
  end.

(** [func (kargs kernelArgs) String() string], for one iteration order. *)
Definition kernelArgs_String (order : list (string * option string)) : string :=
  strings_Join (kernelArg_field <$> order) " ".

(** The key and value of one field of the raw string. *)
Definition parse_field (kv : string) : string * option string :=
  match strings_SplitN2 kv "="%char with
  | [key; value] => (key, Some value)
  | key :: _ => (key, None)
  | [] => ("", None)
  end.

Definition add_arg (argMap : kernelArgs) (kv : string) : kernelArgs :=
  let '(key, value) := parse_field kv in <[key := value]> argMap.

(** [func parseKernelArgs(rawString string) kernelArgs] *)
Definition parseKernelArgs (rawString : string) : kernelArgs :=
  foldl add_arg ∅ (strings_Fields rawString).

(** A key and value that survive serialisation. *)
Definition arg_ok (kv : string * option string) : Prop :=
  cut "="%char kv.1 = None ∧ is_field (kernelArg_field kv).

(** Every entry of the map survives serialisation. *)
Definition args_ok (kargs : kernelArgs) : Prop :=
  map_Forall (λ k v, arg_ok (k, v)) kargs.

(** The value [parseKernelArgs] gives a key: that of its last occurrence. *)
Definition last_value (key : string) (fields : list string) : option (option string) :=
  snd <$> last (filter (λ kv, kv.1 = key) (parse_field <$> fields)).

(** ** Fields *)
Lemma parse_field_field kv : arg_ok kv → parse_field (kernelArg_field kv) = kv.
Proof.
  destruct kv as [k [v|]]; unfold arg_ok, kernelArg_field, parse_field, strings_SplitN2; simpl.
  - intros [Hk _]. change ("=" +:+ v) with (String "="%char v). by rewrite cut_app.
  - intros [Hk _]. by rewrite Hk.
Qed.

Lemma field_parse_field s : kernelArg_field (parse_field s) = s.
Proof.
  unfold parse_field, strings_SplitN2. destruct (cut "=" s) as [[k v]|] eqn:Hc; [|done].
  by destruct (cut_Some _ _ _ _ Hc) as [-> _].
Qed.

Lemma parse_field_ok s : is_field s → arg_ok (parse_field s).
Proof.
  intros Hs. split; [|by rewrite field_parse_field].
  unfold parse_field, strings_SplitN2. destruct (cut "=" s) as [[k v]|] eqn:Hc; [|done].
  by destruct (cut_Some _ _ _ _ Hc) as [_ ?].
Qed.

(** ** Folding the fields into the map *)
Lemma add_arg_ok m s : args_ok m → is_field s → args_ok (add_arg m s).
Proof.
  intros Hm Hs. unfold add_arg. pose proof (parse_field_ok s Hs) as Hok.
  destruct (parse_field s) as [k v]. by apply map_Forall_insert_2.
Qed.

Lemma foldl_add_arg_ok l m : args_ok m → Forall is_field l → args_ok (foldl add_arg m l).
Proof.
  intros Hm Hl. revert m Hm. induction Hl; simpl; [done|]. auto using add_arg_ok.
Qed.

Lemma foldl_add_arg_lookup l m k :
  foldl add_arg m l !! k = match last_value k l with Some v => Some v | None => m !! k end.
Proof.
  revert m. induction l as [|s l IH] using rev_ind; intros m; [done|].
  rewrite foldl_app. unfold last_value, add_arg at 1. cbn [foldl].
  rewrite fmap_app, filter_app. cbn [fmap list_fmap].
  destruct (parse_field s) as [k' v] eqn:Hs.
  rewrite filter_cons, filter_nil. cbn [fst].
  destruct (decide (k' = k)) as [->|Hk].
  - rewrite last_snoc. by rewrite lookup_insert_eq.
  - rewrite app_nil_r, lookup_insert_ne by done. apply IH.
Qed.

Lemma foldl_add_arg_list l m :
  Forall arg_ok l → NoDup l.*1 → (∀ k, k ∈ l.*1 → m !! k = None) →
  foldl add_arg m (kernelArg_field <$> l) = list_to_map l ∪ m.
Proof.
  intros Hok. revert m. induction Hok as [|[k v] l Hkv Hok IH]; intros m Hnd Hm.
  { cbn. by rewrite map_empty_union. }
  cbn [fmap list_fmap foldl]. rewrite IH.
  - unfold add_arg. rewrite parse_field_field by done. cbn.
    apply NoDup_cons in Hnd as [Hk Hnd].
    rewrite <- insert_union_l, insert_union_r; [done|].
    by apply not_elem_of_list_to_map_1.
  - by apply NoDup_cons in Hnd as [_ ?].
  - intros k' Hk'. unfold add_arg. rewrite parse_field_field by done. cbn.
    apply NoDup_cons in Hnd as [Hk Hnd].
    rewrite lookup_insert_ne by set_solver. apply Hm. by right.
Qed.

(** ** Theorems *)

Lemma parseKernelArgs_ok raw : args_ok (parseKernelArgs raw).
Proof. apply foldl_add_arg_ok; [apply map_Forall_empty | apply strings_Fields_fields]. Qed.

Lemma parse_String_order kargs order :
  args_ok kargs → iteration_order kargs order →
  parseKernelArgs (kernelArgs_String order) = kargs.
Proof.
  intros Hok Hord.
  assert (Forall arg_ok order) as Hall.
  { apply Forall_forall. intros [k v] Hin. rewrite Hord in Hin.
    apply elem_of_map_to_list in Hin. by apply (Hok k v). }
  unfold parseKernelArgs, kernelArgs_String. rewrite strings_Fields_Join.
  2: { apply Forall_fmap. eapply Forall_impl; [done|]. by intros kv [_ ?]. }
  assert (NoDup order.*1) as Hnd by (rewrite Hord; apply NoDup_fst_map_to_list).
  rewrite foldl_add_arg_list, map_union_empty by set_solver.
  erewrite list_to_map_proper; [apply list_to_map_to_list | done | exact Hord].
Qed.

(** Whatever order Go ranges over the map, the string [String] builds from
    parsed arguments parses back to the same map (bare keys, [key=] and
    [key=value] are kept apart). *)
Theorem kernelArgs_reparse raw order :
  iteration_order (parseKernelArgs raw) order →
  parseKernelArgs (kernelArgs_String order) = parseKernelArgs raw.
Proof. apply parse_String_order, parseKernelArgs_ok. Qed.

(** The arguments of the unit test, in a shuffled order. *)
Lemma kernelArgs_reparse_witness :
  let raw := "foo=bar blah doo=a=silly=val huh= bleh" in
  let order := [("bleh", None); ("doo", Some "a=silly=val"); ("foo", Some "bar");
                ("huh", Some ""); ("blah", None)] in
  iteration_order (parseKernelArgs raw) order ∧
  parseKernelArgs (kernelArgs_String order) = parseKernelArgs raw.
Proof.
  intros raw order.
  assert (iteration_order (parseKernelArgs raw) order) as Hord.
  { unfold iteration_order.
    replace (map_to_list (parseKernelArgs raw)) with
      (filter (λ _, True) (map_to_list (parseKernelArgs raw))) by (vm_compute; reflexivity).
    apply NoDup_Permutation_bis.
    - vm_compute. repeat (constructor; [set_solver|]). constructor.
    - vm_compute. lia.
    - vm_compute. set_solver. }
  split; [exact Hord | exact (kernelArgs_reparse raw order Hord)].
Defined.

(** The value of a key after parsing is that of the last field with this
    key: earlier duplicates are dropped, absent keys stay absent. *)
Theorem parseKernelArgs_lookup raw key :
  parseKernelArgs raw !! key = last_value key (strings_Fields raw).
Proof.
  unfold parseKernelArgs. rewrite foldl_add_arg_lookup.
  by destruct (last_value key (strings_Fields raw)).
Qed.
