(* ===== verification/Models.v ===== *)
(** * API models (src/client/models)

    The JSON objects of the Firecracker API, one record per Go struct (a
    pointer field is an [option]; [nil] slices that the code tells apart from
    empty ones are options too), and their [Validate] methods.  The validation
    primitives of go-openapi are third-party code: they are the operations of
    the class [Validation], and [ValidationLaws] states their documented
    behaviour. *)

From stdpp Require Import strings list.
From Stdlib Require Import ZArith Lia.
From S2P Require Import Prelude GoStrings.

Open Scope string_scope.
Open Scope Z_scope.

(** ** Enumerated values *)
Definition cpuTemplateEnum : list string := ["C3"; "T2"; "T2S"; "T2CL"; "T2A"; "V1N1"; "None"].
Definition CPUTemplateC3 : string := "C3".
Definition CPUTemplateT2 : string := "T2".
Definition CPUTemplateT2S : string := "T2S".
Definition CPUTemplateT2CL : string := "T2CL".
Definition CPUTemplateT2A : string := "T2A".
Definition CPUTemplateV1N1 : string := "V1N1".
Definition CPUTemplateNone : string := "None".
Definition driveTypeCacheTypePropEnum : list string := ["Unsafe"; "Writeback"].
Definition driveTypeIoEnginePropEnum : list string := ["Sync"; "Async"].
Definition DriveCacheTypeUnsafe : string := "Unsafe".
Definition DriveCacheTypeWriteback : string := "Writeback".
Definition DriveIoEngineSync : string := "Sync".
Definition DriveIoEngineAsync : string := "Async".
Definition instanceActionInfoTypeActionTypePropEnum : list string := ["FlushMetrics"; "InstanceStart"; "SendCtrlAltDel"].
Definition InstanceActionInfoActionTypeFlushMetrics : string := "FlushMetrics".
Definition InstanceActionInfoActionTypeInstanceStart : string := "InstanceStart".
Definition InstanceActionInfoActionTypeSendCtrlAltDel : string := "SendCtrlAltDel".
Definition instanceInfoTypeStatePropEnum : list string := ["Not started"; "Running"; "Paused"].
Definition InstanceInfoStateNotStarted : string := "Not started".
Definition InstanceInfoStateRunning : string := "Running".
Definition InstanceInfoStatePaused : string := "Paused".
Definition loggerTypeLevelPropEnum : list string := ["Error"; "Warning"; "Info"; "Debug"].
Definition LoggerLevelError : string := "Error".
Definition LoggerLevelWarning : string := "Warning".
Definition LoggerLevelInfo : string := "Info".
Definition LoggerLevelDebug : string := "Debug".
Definition memoryBackendTypeBackendTypePropEnum : list string := ["File"; "Uffd"].
Definition MemoryBackendBackendTypeFile : string := "File".
Definition MemoryBackendBackendTypeUffd : string := "Uffd".
Definition mmdsConfigTypeVersionPropEnum : list string := ["V1"; "V2"].
Definition MmdsConfigVersionV1 : string := "V1".
Definition MmdsConfigVersionV2 : string := "V2".
Definition snapshotCreateParamsTypeSnapshotTypePropEnum : list string := ["Full"; "Diff"].
Definition SnapshotCreateParamsSnapshotTypeFull : string := "Full".
Definition SnapshotCreateParamsSnapshotTypeDiff : string := "Diff".
Definition vmTypeStatePropEnum : list string := ["Paused"; "Resumed"].
Definition VMStatePaused : string := "Paused".
Definition VMStateResumed : string := "Resumed".

(** ** Records *)
(** src/client/models/token_bucket.go *)
Record TokenBucket := mkTokenBucket {
  TokenBucket_OneTimeBurst : option Z;
  TokenBucket_RefillTime : option Z;
  TokenBucket_Size : option Z
}.

(** src/client/models/rate_limiter.go *)
Record RateLimiter := mkRateLimiter {
  RateLimiter_Bandwidth : option TokenBucket;
  RateLimiter_Ops : option TokenBucket
}.

(** src/client/models/balloon.go *)
Record Balloon := mkBalloon {
  Balloon_AmountMib : option Z;
  Balloon_DeflateOnOom : option bool;
  Balloon_StatsPollingIntervals : Z
}.

(** src/client/models/balloon_stats.go *)
Record BalloonStats := mkBalloonStats {
  BalloonStats_ActualMib : option Z;
  BalloonStats_ActualPages : option Z;
  BalloonStats_AvailableMemory : Z;
  BalloonStats_DiskCaches : Z;
  BalloonStats_FreeMemory : Z;
  BalloonStats_HugetlbAllocations : Z;
  BalloonStats_HugetlbFailures : Z;
  BalloonStats_MajorFaults : Z;
  BalloonStats_MinorFaults : Z;
  BalloonStats_SwapIn : Z;
  BalloonStats_SwapOut : Z;
  BalloonStats_TargetMib : option Z;
  BalloonStats_TargetPages : option Z;
  BalloonStats_TotalMemory : Z
}.

(** src/client/models/balloon_stats_update.go *)
Record BalloonStatsUpdate := mkBalloonStatsUpdate {
  BalloonStatsUpdate_StatsPollingIntervals : option Z
}.

(** src/client/models/balloon_update.go *)
Record BalloonUpdate := mkBalloonUpdate {
  BalloonUpdate_AmountMib : option Z
}.

(** src/client/models/boot_source.go *)
Record BootSource := mkBootSource {
  BootSource_BootArgs : string;
  BootSource_InitrdPath : string;
  BootSource_KernelImagePath : option string
}.

(** src/client/models/cpu_template.go *)
Definition CPUTemplate : Type := string.

(** src/client/models/drive.go *)
Record Drive := mkDrive {
  Drive_CacheType : option string;
  Drive_DriveID : option string;
  Drive_IoEngine : option string;
  Drive_IsReadOnly : option bool;
  Drive_IsRootDevice : option bool;
  Drive_Partuuid : string;
  Drive_PathOnHost : option string;
  Drive_RateLimiter : option RateLimiter
}.

(** src/client/models/entropy_device.go *)
Record EntropyDevice := mkEntropyDevice {
  EntropyDevice_RateLimiter : option RateLimiter
}.

(** src/client/models/error.go *)
Record Error := mkError {
  Error_FaultMessage : string
}.

(** src/client/models/firecracker_version.go *)
Record FirecrackerVersion := mkFirecrackerVersion {
  FirecrackerVersion_FirecrackerVersion : option string
}.

(** src/client/models/instance_action_info.go *)
Record InstanceActionInfo := mkInstanceActionInfo {
  InstanceActionInfo_ActionType : option string
}.

(** src/client/models/instance_info.go *)
Record InstanceInfo := mkInstanceInfo {
  InstanceInfo_AppName : option string;
  InstanceInfo_ID : option string;
  InstanceInfo_State : option string;
  InstanceInfo_VmmVersion : option string
}.

(** src/client/models/logger.go *)
Record Logger := mkLogger {
  Logger_Level : option string;
  Logger_LogPath : option string;
  Logger_ShowLevel : option bool;
  Logger_ShowLogOrigin : option bool
}.

(** src/client/models/machine_configuration.go *)
Record MachineConfiguration := mkMachineConfiguration {
  MachineConfiguration_CPUTemplate : CPUTemplate;
  MachineConfiguration_MemSizeMib : option Z;
  MachineConfiguration_Smt : option bool;
  MachineConfiguration_TrackDirtyPages : option bool;
  MachineConfiguration_VcpuCount : option Z
}.

(** src/client/models/memory_backend.go *)
Record MemoryBackend := mkMemoryBackend {
  MemoryBackend_BackendPath : option string;
  MemoryBackend_BackendType : option string
}.

(** src/client/models/metrics.go *)
Record Metrics := mkMetrics {
  Metrics_MetricsPath : option string
}.

(** src/client/models/mmds_config.go *)
Record MmdsConfig := mkMmdsConfig {
  MmdsConfig_IPV4Address : option string;
  MmdsConfig_NetworkInterfaces : option (list string);
  MmdsConfig_Version : option string
}.

(** src/client/models/network_interface.go *)
Record NetworkInterface := mkNetworkInterface {
  NetworkInterface_GuestMac : string;
  NetworkInterface_HostDevName : option string;
  NetworkInterface_IfaceID : option string;
  NetworkInterface_RxRateLimiter : option RateLimiter;
  NetworkInterface_TxRateLimiter : option RateLimiter
}.

(** src/client/models/partial_drive.go *)
Record PartialDrive := mkPartialDrive {
  PartialDrive_DriveID : option string;
  PartialDrive_PathOnHost : string;
  PartialDrive_RateLimiter : option RateLimiter
}.

(** src/client/models/partial_network_interface.go *)
Record PartialNetworkInterface := mkPartialNetworkInterface {
  PartialNetworkInterface_IfaceID : option string;
  PartialNetworkInterface_RxRateLimiter : option RateLimiter;
  PartialNetworkInterface_TxRateLimiter : option RateLimiter
}.

(** src/client/models/snapshot_create_params.go *)
Record SnapshotCreateParams := mkSnapshotCreateParams {
  SnapshotCreateParams_MemFilePath : option string;
  SnapshotCreateParams_SnapshotPath : option string;
  SnapshotCreateParams_SnapshotType : string;
  SnapshotCreateParams_Version : string
}.

(** src/client/models/snapshot_load_params.go *)
Record SnapshotLoadParams := mkSnapshotLoadParams {
  SnapshotLoadParams_EnableDiffSnapshots : bool;
  SnapshotLoadParams_MemBackend : option MemoryBackend;
  SnapshotLoadParams_MemFilePath : string;
  SnapshotLoadParams_ResumeVM : bool;
  SnapshotLoadParams_SnapshotPath : option string
}.

(** src/client/models/vm.go *)
Record VM := mkVM {
  VM_State : option string
}.

(** src/client/models/vsock.go *)
Record Vsock := mkVsock {
  Vsock_GuestCid : option Z;
  Vsock_UdsPath : option string;
  Vsock_VsockID : string
}.

(** src/client/models/full_vm_configuration.go *)
Record FullVMConfiguration := mkFullVMConfiguration {
  FullVMConfiguration_Balloon : option Balloon;
  FullVMConfiguration_BootSource : option BootSource;
  FullVMConfiguration_Drives : option (list (option Drive));
  FullVMConfiguration_Logger : option Logger;
  FullVMConfiguration_MachineConfig : option MachineConfiguration;
  FullVMConfiguration_Metrics : option Metrics;
  FullVMConfiguration_MmdsConfig : option MmdsConfig;
  FullVMConfiguration_NetworkInterfaces : option (list (option NetworkInterface));
  FullVMConfiguration_Vsock : option Vsock
}.

(** ** Validation primitives *)
Class Validation := {
  validate_Required {A : Type} : string → string → option A → error;
  validate_Enum : string → string → string → list string → error;
  validate_MinimumInt : string → string → Z → Z → bool → error;
  validate_MaximumInt : string → string → Z → Z → bool → error;
  (** [errors.CompositeValidationError] *)
  CompositeValidationError : list Err → Err;
  (** [err.( *errors.Validation)] succeeds *)
  is_Validation : Err → bool;
  (** [ve.ValidateName(name)] *)
  ValidateName : string → Err → Err;
}.

Class ValidationLaws `{Validation} := {
  validate_Required_spec {A} path inn (p : option A) :
    validate_Required path inn p = None ↔ is_Some p;
  validate_Enum_spec path inn value enum :
    validate_Enum path inn value enum = None ↔ value ∈ enum;
  validate_MinimumInt_spec path inn data bound :
    validate_MinimumInt path inn data bound false = None ↔ bound ≤ data;
  validate_MaximumInt_spec path inn data bound :
    validate_MaximumInt path inn data bound false = None ↔ data ≤ bound;
}.

Section validate.
Context `{Validation}.

(** [if err := a; err != nil { return err }; b] *)
Definition first_error (a b : error) : error :=
  match a with Some err => Some err | None => b end.

(** The tail of every [Validate]: the errors found, as one error. *)
Definition composite (checks : list error) : error :=
  match omap id checks with
  | [] => None
  | res => Some (CompositeValidationError res)
  end.

(** The error of a nested object is renamed after the field. *)
Definition validated (name : string) (err : error) : error :=
  match err with
  | Some e => Some (if is_Validation e then ValidateName name e else e)
  | None => None
  end.

(** The loop over a slice of pointers: nil elements are skipped, the first
    invalid element ends it. *)
Fixpoint validate_elements_from {A} (name : string) (f : A → error) (i : Z)
    (l : list (option A)) : error :=
  match l with
  | [] => None
  | None :: l => validate_elements_from name f (i + 1) l
  | Some x :: l =>
      match f x with
      | Some e => validated (name +:+ "." +:+ strconv_Itoa i) (Some e)
      | None => validate_elements_from name f (i + 1) l
      end
  end.

Definition validate_elements {A} (name : string) (f : A → error)
    (l : list (option A)) : error := validate_elements_from name f 0 l.

Definition TokenBucket_validateOneTimeBurst (m : TokenBucket) : error :=
  match TokenBucket_OneTimeBurst m with
  | None => None
  | Some v => validate_MinimumInt "one_time_burst" "body" v 0 false
  end.

Definition TokenBucket_validateRefillTime (m : TokenBucket) : error :=
  match validate_Required "refill_time" "body" (TokenBucket_RefillTime m), TokenBucket_RefillTime m with
  | Some err, _ => Some err
  | None, Some v => validate_MinimumInt "refill_time" "body" v 0 false
  | None, None => None
  end.

Definition TokenBucket_validateSize (m : TokenBucket) : error :=
  match validate_Required "size" "body" (TokenBucket_Size m), TokenBucket_Size m with
  | Some err, _ => Some err
  | None, Some v => validate_MinimumInt "size" "body" v 0 false
  | None, None => None
  end.

Definition TokenBucket_Validate (m : TokenBucket) : error :=
  composite [TokenBucket_validateOneTimeBurst m;
             TokenBucket_validateRefillTime m;
             TokenBucket_validateSize m].

Definition RateLimiter_validateBandwidth (m : RateLimiter) : error :=
  match RateLimiter_Bandwidth m with
  | None => None
  | Some v => validated "bandwidth" (TokenBucket_Validate v)
  end.

Definition RateLimiter_validateOps (m : RateLimiter) : error :=
  match RateLimiter_Ops m with
  | None => None
  | Some v => validated "ops" (TokenBucket_Validate v)
  end.

Definition RateLimiter_Validate (m : RateLimiter) : error :=
  composite [RateLimiter_validateBandwidth m;
             RateLimiter_validateOps m].

Definition Balloon_validateAmountMib (m : Balloon) : error :=
  validate_Required "amount_mib" "body" (Balloon_AmountMib m).

Definition Balloon_validateDeflateOnOom (m : Balloon) : error :=
  validate_Required "deflate_on_oom" "body" (Balloon_DeflateOnOom m).

Definition Balloon_Validate (m : Balloon) : error :=
  composite [Balloon_validateAmountMib m;
             Balloon_validateDeflateOnOom m].

Definition BalloonStats_validateActualMib (m : BalloonStats) : error :=
  validate_Required "actual_mib" "body" (BalloonStats_ActualMib m).

Definition BalloonStats_validateActualPages (m : BalloonStats) : error :=
  validate_Required "actual_pages" "body" (BalloonStats_ActualPages m).

Definition BalloonStats_validateTargetMib (m : BalloonStats) : error :=
  validate_Required "target_mib" "body" (BalloonStats_TargetMib m).

Definition BalloonStats_validateTargetPages (m : BalloonStats) : error :=
  validate_Required "target_pages" "body" (BalloonStats_TargetPages m).

Definition BalloonStats_Validate (m : BalloonStats) : error :=
  composite [BalloonStats_validateActualMib m;
             BalloonStats_validateActualPages m;
             BalloonStats_validateTargetMib m;
             BalloonStats_validateTargetPages m].

Definition BalloonStatsUpdate_validateStatsPollingIntervals (m : BalloonStatsUpdate) : error :=
  validate_Required "stats_polling_interval_s" "body" (BalloonStatsUpdate_StatsPollingIntervals m).

Definition BalloonStatsUpdate_Validate (m : BalloonStatsUpdate) : error :=
  composite [BalloonStatsUpdate_validateStatsPollingIntervals m].

Definition BalloonUpdate_validateAmountMib (m : BalloonUpdate) : error :=
  validate_Required "amount_mib" "body" (BalloonUpdate_AmountMib m).

Definition BalloonUpdate_Validate (m : BalloonUpdate) : error :=
  composite [BalloonUpdate_validateAmountMib m].

Definition BootSource_validateKernelImagePath (m : BootSource) : error :=
  validate_Required "kernel_image_path" "body" (BootSource_KernelImagePath m).

Definition BootSource_Validate (m : BootSource) : error :=
  composite [BootSource_validateKernelImagePath m].

Definition CPUTemplate_validateCPUTemplateEnum (path location : string) (value : CPUTemplate) : error :=
  validate_Enum path location value cpuTemplateEnum.

Definition CPUTemplate_Validate (m : CPUTemplate) : error :=
  match CPUTemplate_validateCPUTemplateEnum "" "body" m with
  | Some err => Some err
  | None => composite []
  end.

Definition Drive_validateCacheTypeEnum (path location value : string) : error :=
  validate_Enum path location value driveTypeCacheTypePropEnum.

Definition Drive_validateCacheType (m : Drive) : error :=
  match Drive_CacheType m with
  | None => None
  | Some v => Drive_validateCacheTypeEnum "cache_type" "body" v
  end.

Definition Drive_validateDriveID (m : Drive) : error :=
  validate_Required "drive_id" "body" (Drive_DriveID m).

Definition Drive_validateIoEngineEnum (path location value : string) : error :=
  validate_Enum path location value driveTypeIoEnginePropEnum.

Definition Drive_validateIoEngine (m : Drive) : error :=
  match Drive_IoEngine m with
  | None => None
  | Some v => Drive_validateIoEngineEnum "io_engine" "body" v
  end.

Definition Drive_validateIsReadOnly (m : Drive) : error :=
  validate_Required "is_read_only" "body" (Drive_IsReadOnly m).

Definition Drive_validateIsRootDevice (m : Drive) : error :=
  validate_Required "is_root_device" "body" (Drive_IsRootDevice m).

Definition Drive_validatePathOnHost (m : Drive) : error :=
  validate_Required "path_on_host" "body" (Drive_PathOnHost m).

Definition Drive_validateRateLimiter (m : Drive) : error :=
  match Drive_RateLimiter m with
  | None => None
  | Some v => validated "rate_limiter" (RateLimiter_Validate v)
  end.

Definition Drive_Validate (m : Drive) : error :=
  composite [Drive_validateCacheType m;
             Drive_validateDriveID m;
             Drive_validateIoEngine m;
             Drive_validateIsReadOnly m;
             Drive_validateIsRootDevice m;
             Drive_validatePathOnHost m;
             Drive_validateRateLimiter m].

Definition EntropyDevice_validateRateLimiter (m : EntropyDevice) : error :=
  match EntropyDevice_RateLimiter m with
  | None => None
  | Some v => validated "rate_limiter" (RateLimiter_Validate v)
  end.

Definition EntropyDevice_Validate (m : EntropyDevice) : error :=
  composite [EntropyDevice_validateRateLimiter m].

Definition Error_Validate (m : Error) : error := None.

Definition FirecrackerVersion_validateFirecrackerVersion (m : FirecrackerVersion) : error :=
  validate_Required "firecracker_version" "body" (FirecrackerVersion_FirecrackerVersion m).

Definition FirecrackerVersion_Validate (m : FirecrackerVersion) : error :=
  composite [FirecrackerVersion_validateFirecrackerVersion m].

Definition InstanceActionInfo_validateActionTypeEnum (path location value : string) : error :=
  validate_Enum path location value instanceActionInfoTypeActionTypePropEnum.

Definition InstanceActionInfo_validateActionType (m : InstanceActionInfo) : error :=
  match validate_Required "action_type" "body" (InstanceActionInfo_ActionType m), InstanceActionInfo_ActionType m with
  | Some err, _ => Some err
  | None, Some v => InstanceActionInfo_validateActionTypeEnum "action_type" "body" v
  | None, None => None
  end.

Definition InstanceActionInfo_Validate (m : InstanceActionInfo) : error :=
  composite [InstanceActionInfo_validateActionType m].

Definition InstanceInfo_validateAppName (m : InstanceInfo) : error :=
  validate_Required "app_name" "body" (InstanceInfo_AppName m).

Definition InstanceInfo_validateID (m : InstanceInfo) : error :=
  validate_Required "id" "body" (InstanceInfo_ID m).

Definition InstanceInfo_validateStateEnum (path location value : string) : error :=
  validate_Enum path location value instanceInfoTypeStatePropEnum.

Definition InstanceInfo_validateState (m : InstanceInfo) : error :=
  match validate_Required "state" "body" (InstanceInfo_State m), InstanceInfo_State m with
  | Some err, _ => Some err
  | None, Some v => InstanceInfo_validateStateEnum "state" "body" v
  | None, None => None
  end.

Definition InstanceInfo_validateVmmVersion (m : InstanceInfo) : error :=
  validate_Required "vmm_version" "body" (InstanceInfo_VmmVersion m).

Definition InstanceInfo_Validate (m : InstanceInfo) : error :=
  composite [InstanceInfo_validateAppName m;
             InstanceInfo_validateID m;
             InstanceInfo_validateState m;
             InstanceInfo_validateVmmVersion m].

Definition Logger_validateLevelEnum (path location value : string) : error :=
  validate_Enum path location value loggerTypeLevelPropEnum.

Definition Logger_validateLevel (m : Logger) : error :=
  match Logger_Level m with
  | None => None
  | Some v => Logger_validateLevelEnum "level" "body" v
  end.

Definition Logger_validateLogPath (m : Logger) : error :=
  validate_Required "log_path" "body" (Logger_LogPath m).

Definition Logger_Validate (m : Logger) : error :=
  composite [Logger_validateLevel m;
             Logger_validateLogPath m].

Definition MachineConfiguration_validateCPUTemplate (m : MachineConfiguration) : error :=
  if (MachineConfiguration_CPUTemplate m =? "")%string then None
  else validated "cpu_template" (CPUTemplate_Validate (MachineConfiguration_CPUTemplate m)).

Definition MachineConfiguration_validateMemSizeMib (m : MachineConfiguration) : error :=
  validate_Required "mem_size_mib" "body" (MachineConfiguration_MemSizeMib m).

Definition MachineConfiguration_validateVcpuCount (m : MachineConfiguration) : error :=
  match validate_Required "vcpu_count" "body" (MachineConfiguration_VcpuCount m), MachineConfiguration_VcpuCount m with
  | Some err, _ => Some err
  | None, Some v => first_error (validate_MinimumInt "vcpu_count" "body" v 1 false) (validate_MaximumInt "vcpu_count" "body" v 32 false)
  | None, None => None
  end.

Definition MachineConfiguration_Validate (m : MachineConfiguration) : error :=
  composite [MachineConfiguration_validateCPUTemplate m;
             MachineConfiguration_validateMemSizeMib m;
             MachineConfiguration_validateVcpuCount m].

Definition MemoryBackend_validateBackendPath (m : MemoryBackend) : error :=
  validate_Required "backend_path" "body" (MemoryBackend_BackendPath m).

Definition MemoryBackend_validateBackendTypeEnum (path location value : string) : error :=
  validate_Enum path location value memoryBackendTypeBackendTypePropEnum.

Definition MemoryBackend_validateBackendType (m : MemoryBackend) : error :=
  match validate_Required "backend_type" "body" (MemoryBackend_BackendType m), MemoryBackend_BackendType m with
  | Some err, _ => Some err
  | None, Some v => MemoryBackend_validateBackendTypeEnum "backend_type" "body" v
  | None, None => None
  end.

Definition MemoryBackend_Validate (m : MemoryBackend) : error :=
  composite [MemoryBackend_validateBackendPath m;
             MemoryBackend_validateBackendType m].

Definition Metrics_validateMetricsPath (m : Metrics) : error :=
  validate_Required "metrics_path" "body" (Metrics_MetricsPath m).

Definition Metrics_Validate (m : Metrics) : error :=
  composite [Metrics_validateMetricsPath m].

Definition MmdsConfig_validateNetworkInterfaces (m : MmdsConfig) : error :=
  validate_Required "network_interfaces" "body" (MmdsConfig_NetworkInterfaces m).

Definition MmdsConfig_validateVersionEnum (path location value : string) : error :=
  validate_Enum path location value mmdsConfigTypeVersionPropEnum.

Definition MmdsConfig_validateVersion (m : MmdsConfig) : error :=
  match MmdsConfig_Version m with
  | None => None
  | Some v => MmdsConfig_validateVersionEnum "version" "body" v
  end.

Definition MmdsConfig_Validate (m : MmdsConfig) : error :=
  composite [MmdsConfig_validateNetworkInterfaces m;
             MmdsConfig_validateVersion m].

Definition NetworkInterface_validateHostDevName (m : NetworkInterface) : error :=
  validate_Required "host_dev_name" "body" (NetworkInterface_HostDevName m).

Definition NetworkInterface_validateIfaceID (m : NetworkInterface) : error :=
  validate_Required "iface_id" "body" (NetworkInterface_IfaceID m).

Definition NetworkInterface_validateRxRateLimiter (m : NetworkInterface) : error :=
  match NetworkInterface_RxRateLimiter m with
  | None => None
  | Some v => validated "rx_rate_limiter" (RateLimiter_Validate v)
  end.

Definition NetworkInterface_validateTxRateLimiter (m : NetworkInterface) : error :=
  match NetworkInterface_TxRateLimiter m with
  | None => None
  | Some v => validated "tx_rate_limiter" (RateLimiter_Validate v)
  end.

Definition NetworkInterface_Validate (m : NetworkInterface) : error :=
  composite [NetworkInterface_validateHostDevName m;
             NetworkInterface_validateIfaceID m;
             NetworkInterface_validateRxRateLimiter m;
             NetworkInterface_validateTxRateLimiter m].

Definition PartialDrive_validateDriveID (m : PartialDrive) : error :=
  validate_Required "drive_id" "body" (PartialDrive_DriveID m).

Definition PartialDrive_validateRateLimiter (m : PartialDrive) : error :=
  match PartialDrive_RateLimiter m with
  | None => None
  | Some v => validated "rate_limiter" (RateLimiter_Validate v)
  end.

Definition PartialDrive_Validate (m : PartialDrive) : error :=
  composite [PartialDrive_validateDriveID m;
             PartialDrive_validateRateLimiter m].

Definition PartialNetworkInterface_validateIfaceID (m : PartialNetworkInterface) : error :=
  validate_Required "iface_id" "body" (PartialNetworkInterface_IfaceID m).

Definition PartialNetworkInterface_validateRxRateLimiter (m : PartialNetworkInterface) : error :=
  match PartialNetworkInterface_RxRateLimiter m with
  | None => None
  | Some v => validated "rx_rate_limiter" (RateLimiter_Validate v)
  end.

Definition PartialNetworkInterface_validateTxRateLimiter (m : PartialNetworkInterface) : error :=
  match PartialNetworkInterface_TxRateLimiter m with
  | None => None
  | Some v => validated "tx_rate_limiter" (RateLimiter_Validate v)
  end.

Definition PartialNetworkInterface_Validate (m : PartialNetworkInterface) : error :=
  composite [PartialNetworkInterface_validateIfaceID m;
             PartialNetworkInterface_validateRxRateLimiter m;
             PartialNetworkInterface_validateTxRateLimiter m].

Definition SnapshotCreateParams_validateMemFilePath (m : SnapshotCreateParams) : error :=
  validate_Required "mem_file_path" "body" (SnapshotCreateParams_MemFilePath m).

Definition SnapshotCreateParams_validateSnapshotPath (m : SnapshotCreateParams) : error :=
  validate_Required "snapshot_path" "body" (SnapshotCreateParams_SnapshotPath m).

Definition SnapshotCreateParams_validateSnapshotTypeEnum (path location value : string) : error :=
  validate_Enum path location value snapshotCreateParamsTypeSnapshotTypePropEnum.

Definition SnapshotCreateParams_validateSnapshotType (m : SnapshotCreateParams) : error :=
  if (SnapshotCreateParams_SnapshotType m =? "")%string then None else SnapshotCreateParams_validateSnapshotTypeEnum "snapshot_type" "body" (SnapshotCreateParams_SnapshotType m).

Definition SnapshotCreateParams_Validate (m : SnapshotCreateParams) : error :=
  composite [SnapshotCreateParams_validateMemFilePath m;
             SnapshotCreateParams_validateSnapshotPath m;
             SnapshotCreateParams_validateSnapshotType m].

Definition SnapshotLoadParams_validateMemBackend (m : SnapshotLoadParams) : error :=
  match SnapshotLoadParams_MemBackend m with
  | None => None
  | Some v => validated "mem_backend" (MemoryBackend_Validate v)
  end.

Definition SnapshotLoadParams_validateSnapshotPath (m : SnapshotLoadParams) : error :=
  validate_Required "snapshot_path" "body" (SnapshotLoadParams_SnapshotPath m).

Definition SnapshotLoadParams_Validate (m : SnapshotLoadParams) : error :=
  composite [SnapshotLoadParams_validateMemBackend m;
             SnapshotLoadParams_validateSnapshotPath m].

Definition VM_validateStateEnum (path location value : string) : error :=
  validate_Enum path location value vmTypeStatePropEnum.

Definition VM_validateState (m : VM) : error :=
  match validate_Required "state" "body" (VM_State m), VM_State m with
  | Some err, _ => Some err
  | None, Some v => VM_validateStateEnum "state" "body" v
  | None, None => None
  end.

Definition VM_Validate (m : VM) : error :=
  composite [VM_validateState m].

Definition Vsock_validateGuestCid (m : Vsock) : error :=
  match validate_Required "guest_cid" "body" (Vsock_GuestCid m), Vsock_GuestCid m with
  | Some err, _ => Some err
  | None, Some v => validate_MinimumInt "guest_cid" "body" v 3 false
  | None, None => None
  end.

Definition Vsock_validateUdsPath (m : Vsock) : error :=
  validate_Required "uds_path" "body" (Vsock_UdsPath m).

Definition Vsock_Validate (m : Vsock) : error :=
  composite [Vsock_validateGuestCid m;
             Vsock_validateUdsPath m].

Definition FullVMConfiguration_validateBalloon (m : FullVMConfiguration) : error :=
  match FullVMConfiguration_Balloon m with
  | None => None
  | Some v => validated "balloon" (Balloon_Validate v)
  end.

Definition FullVMConfiguration_validateBootSource (m : FullVMConfiguration) : error :=
  match FullVMConfiguration_BootSource m with
  | None => None
  | Some v => validated "boot-source" (BootSource_Validate v)
  end.

Definition FullVMConfiguration_validateDrives (m : FullVMConfiguration) : error :=
  match FullVMConfiguration_Drives m with
  | None => None
  | Some l => validate_elements "drives" Drive_Validate l
  end.

Definition FullVMConfiguration_validateLogger (m : FullVMConfiguration) : error :=
  match FullVMConfiguration_Logger m with
  | None => None
  | Some v => validated "logger" (Logger_Validate v)
  end.

Definition FullVMConfiguration_validateMachineConfig (m : FullVMConfiguration) : error :=
  match FullVMConfiguration_MachineConfig m with
  | None => None
  | Some v => validated "machine-config" (MachineConfiguration_Validate v)
  end.

Definition FullVMConfiguration_validateMetrics (m : FullVMConfiguration) : error :=
  match FullVMConfiguration_Metrics m with
  | None => None
  | Some v => validated "metrics" (Metrics_Validate v)
  end.

Definition FullVMConfiguration_validateMmdsConfig (m : FullVMConfiguration) : error :=
  match FullVMConfiguration_MmdsConfig m with
  | None => None
  | Some v => validated "mmds-config" (MmdsConfig_Validate v)
  end.

Definition FullVMConfiguration_validateNetworkInterfaces (m : FullVMConfiguration) : error :=
  match FullVMConfiguration_NetworkInterfaces m with
  | None => None
  | Some l => validate_elements "network-interfaces" NetworkInterface_Validate l
  end.

Definition FullVMConfiguration_validateVsock (m : FullVMConfiguration) : error :=
  match FullVMConfiguration_Vsock m with
  | None => None
  | Some v => validated "vsock" (Vsock_Validate v)
  end.

Definition FullVMConfiguration_Validate (m : FullVMConfiguration) : error :=
  composite [FullVMConfiguration_validateBalloon m;
             FullVMConfiguration_validateBootSource m;
             FullVMConfiguration_validateDrives m;
             FullVMConfiguration_validateLogger m;
             FullVMConfiguration_validateMachineConfig m;
             FullVMConfiguration_validateMetrics m;
             FullVMConfiguration_validateMmdsConfig m;
             FullVMConfiguration_validateNetworkInterfaces m;
             FullVMConfiguration_validateVsock m].
End validate.

(** ** What the API accepts

    The constraints swagger.yaml gives each object as [required], [enum], [minimum] and
    [maximum], written from it: independently of the lists of the code, of the order
    in which the checks run and of the errors they build.  What it says in other ways
    is not part of them: that [ipv4_address] is link-local (a [format] that is a regular
    expression) and that the number of vCPUs is 1 or even (a description). *)
Definition present {A} (P : A → Prop) (p : option A) : Prop :=
  match p with Some v => P v | None => False end.
Definition when_present {A} (P : A → Prop) (p : option A) : Prop :=
  match p with Some v => P v | None => True end.

Definition TokenBucket_valid (m : TokenBucket) : Prop :=
  when_present (λ v, 0 ≤ v) (TokenBucket_OneTimeBurst m) ∧
  present (λ v, 0 ≤ v) (TokenBucket_RefillTime m) ∧
  present (λ v, 0 ≤ v) (TokenBucket_Size m).

Definition RateLimiter_valid (m : RateLimiter) : Prop :=
  when_present TokenBucket_valid (RateLimiter_Bandwidth m) ∧
  when_present TokenBucket_valid (RateLimiter_Ops m).

Definition Balloon_valid (m : Balloon) : Prop :=
  is_Some (Balloon_AmountMib m) ∧ is_Some (Balloon_DeflateOnOom m).

Definition BootSource_valid (m : BootSource) : Prop :=
  is_Some (BootSource_KernelImagePath m).

Definition Drive_valid (m : Drive) : Prop :=
  when_present (λ v, v ∈ ["Unsafe"; "Writeback"]) (Drive_CacheType m) ∧
  is_Some (Drive_DriveID m) ∧
  when_present (λ v, v ∈ ["Sync"; "Async"]) (Drive_IoEngine m) ∧
  is_Some (Drive_IsReadOnly m) ∧
  is_Some (Drive_IsRootDevice m) ∧
  is_Some (Drive_PathOnHost m) ∧
  when_present RateLimiter_valid (Drive_RateLimiter m).

Definition Logger_valid (m : Logger) : Prop :=
  when_present (λ v, v ∈ ["Error"; "Warning"; "Info"; "Debug"]) (Logger_Level m) ∧
  is_Some (Logger_LogPath m).

Definition MachineConfiguration_valid (m : MachineConfiguration) : Prop :=
  (MachineConfiguration_CPUTemplate m = "" ∨
   MachineConfiguration_CPUTemplate m ∈ ["C3"; "T2"; "T2S"; "T2CL"; "T2A"; "V1N1"; "None"]) ∧
  is_Some (MachineConfiguration_MemSizeMib m) ∧
  present (λ v, 1 ≤ v ≤ 32) (MachineConfiguration_VcpuCount m).

Definition Metrics_valid (m : Metrics) : Prop := is_Some (Metrics_MetricsPath m).

Definition MmdsConfig_valid (m : MmdsConfig) : Prop :=
  is_Some (MmdsConfig_NetworkInterfaces m) ∧
  when_present (λ v, v ∈ ["V1"; "V2"]) (MmdsConfig_Version m).

Definition NetworkInterface_valid (m : NetworkInterface) : Prop :=
  is_Some (NetworkInterface_HostDevName m) ∧
  is_Some (NetworkInterface_IfaceID m) ∧
  when_present RateLimiter_valid (NetworkInterface_RxRateLimiter m) ∧
  when_present RateLimiter_valid (NetworkInterface_TxRateLimiter m).

Definition Vsock_valid (m : Vsock) : Prop :=
  present (λ v, 3 ≤ v) (Vsock_GuestCid m) ∧ is_Some (Vsock_UdsPath m).

Definition FullVMConfiguration_valid (m : FullVMConfiguration) : Prop :=
  when_present Balloon_valid (FullVMConfiguration_Balloon m) ∧
  when_present BootSource_valid (FullVMConfiguration_BootSource m) ∧
  when_present (Forall (when_present Drive_valid)) (FullVMConfiguration_Drives m) ∧
  when_present Logger_valid (FullVMConfiguration_Logger m) ∧
  when_present MachineConfiguration_valid (FullVMConfiguration_MachineConfig m) ∧
  when_present Metrics_valid (FullVMConfiguration_Metrics m) ∧
  when_present MmdsConfig_valid (FullVMConfiguration_MmdsConfig m) ∧
  when_present (Forall (when_present NetworkInterface_valid)) (FullVMConfiguration_NetworkInterfaces m) ∧
  when_present Vsock_valid (FullVMConfiguration_Vsock m).

(** ** The checks decide the constraints *)
Section validate_spec.
Context `{ValidationLaws}.

Lemma composite_one a : composite [a] = None ↔ a = None.
Proof. unfold composite. by destruct a. Qed.

Lemma composite_cons a b l :
  composite (a :: b :: l) = None ↔ a = None ∧ composite (b :: l) = None.
Proof.
  unfold composite. destruct a; cbn [omap list_omap id].
  - split; [done|]. by intros [? _].
  - by rewrite (left_id True (∧)) || intuition.
Qed.

Lemma validated_None name err : validated name err = None ↔ err = None.
Proof. by destruct err. Qed.

Lemma first_error_None a b : first_error a b = None ↔ a = None ∧ b = None.
Proof. destruct a; simpl; naive_solver. Qed.

Lemma required_check {A} path inn (p : option A) (f : A → error) (P : A → Prop) :
  (∀ v, f v = None ↔ P v) →
  match validate_Required path inn p, p with
  | Some err, _ => Some err
  | None, Some v => f v
  | None, None => None
  end = None ↔ present P p.
Proof.
  intros Hf. destruct (validate_Required path inn p) eqn:Hr.
  - split; [done|]. intros Hp. assert (is_Some p) as Hs by (destruct p; by eauto).
    apply (validate_Required_spec path inn) in Hs. congruence.
  - apply validate_Required_spec in Hr as [v ->]. apply Hf.
Qed.

Lemma optional_check {A} (p : option A) (f : A → error) (P : A → Prop) :
  (∀ v, f v = None ↔ P v) →
  match p with None => None | Some v => f v end = None ↔ when_present P p.
Proof. intros Hf. destruct p; simpl; [apply Hf | done]. Qed.

Lemma validate_elements_None {A} name (f : A → error) (P : A → Prop) l :
  (∀ v, f v = None ↔ P v) →
  validate_elements name f l = None ↔ Forall (when_present P) l.
Proof.
  intros Hf. unfold validate_elements. generalize 0.
  induction l as [|[x|] l IH]; intros i; simpl; [by split| |].
  - rewrite Forall_cons. simpl. rewrite <- Hf. destruct (f x); [|by rewrite IH; intuition].
    split; [done|]. by intros [? _].
  - rewrite Forall_cons, IH. simpl. intuition.
Qed.

End validate_spec.

Create HintDb validate.
#[export] Hint Unfold
  TokenBucket_validateOneTimeBurst
  TokenBucket_validateRefillTime
  TokenBucket_validateSize
  RateLimiter_validateBandwidth
  RateLimiter_validateOps
  Balloon_validateAmountMib
  Balloon_validateDeflateOnOom
  BalloonStats_validateActualMib
  BalloonStats_validateActualPages
  BalloonStats_validateTargetMib
  BalloonStats_validateTargetPages
  BalloonStatsUpdate_validateStatsPollingIntervals
  BalloonUpdate_validateAmountMib
  BootSource_validateKernelImagePath
  CPUTemplate_validateCPUTemplateEnum
  Drive_validateCacheTypeEnum
  Drive_validateCacheType
  Drive_validateDriveID
  Drive_validateIoEngineEnum
  Drive_validateIoEngine
  Drive_validateIsReadOnly
  Drive_validateIsRootDevice
  Drive_validatePathOnHost
  Drive_validateRateLimiter
  EntropyDevice_validateRateLimiter
  FirecrackerVersion_validateFirecrackerVersion
  InstanceActionInfo_validateActionTypeEnum
  InstanceActionInfo_validateActionType
  InstanceInfo_validateAppName
  InstanceInfo_validateID
  InstanceInfo_validateStateEnum
  InstanceInfo_validateState
  InstanceInfo_validateVmmVersion
  Logger_validateLevelEnum
  Logger_validateLevel
  Logger_validateLogPath
  MachineConfiguration_validateCPUTemplate
  MachineConfiguration_validateMemSizeMib
  MachineConfiguration_validateVcpuCount
  MemoryBackend_validateBackendPath
  MemoryBackend_validateBackendTypeEnum
  MemoryBackend_validateBackendType
  Metrics_validateMetricsPath
  MmdsConfig_validateNetworkInterfaces
  MmdsConfig_validateVersionEnum
  MmdsConfig_validateVersion
  NetworkInterface_validateHostDevName
  NetworkInterface_validateIfaceID
  NetworkInterface_validateRxRateLimiter
  NetworkInterface_validateTxRateLimiter
  PartialDrive_validateDriveID
  PartialDrive_validateRateLimiter
  PartialNetworkInterface_validateIfaceID
  PartialNetworkInterface_validateRxRateLimiter
  PartialNetworkInterface_validateTxRateLimiter
  SnapshotCreateParams_validateMemFilePath
  SnapshotCreateParams_validateSnapshotPath
  SnapshotCreateParams_validateSnapshotTypeEnum
  SnapshotCreateParams_validateSnapshotType
  SnapshotLoadParams_validateMemBackend
  SnapshotLoadParams_validateSnapshotPath
  VM_validateStateEnum
  VM_validateState
  Vsock_validateGuestCid
  Vsock_validateUdsPath
  FullVMConfiguration_validateBalloon
  FullVMConfiguration_validateBootSource
  FullVMConfiguration_validateDrives
  FullVMConfiguration_validateLogger
  FullVMConfiguration_validateMachineConfig
  FullVMConfiguration_validateMetrics
  FullVMConfiguration_validateMmdsConfig
  FullVMConfiguration_validateNetworkInterfaces
  FullVMConfiguration_validateVsock
  : validate.

Lemma and_iff (a a' b b' : Prop) : (a ↔ a') → (b ↔ b') → (a ∧ b ↔ a' ∧ b').
Proof. tauto. Qed.

(** One check against one constraint. *)
Ltac check_iff tac :=
  repeat first
    [ apply validate_Required_spec | apply validate_Enum_spec
    | apply validate_MinimumInt_spec | apply validate_MaximumInt_spec
    | apply required_check; intros ? | apply optional_check; intros ?
    | apply validate_elements_None; intros ?
    | rewrite validated_None | tac ].

(** A whole [Validate] method: field by field, in order. *)
Ltac validate_iff tac :=
  autounfold with validate;
  rewrite ?composite_cons, ?composite_one; repeat apply and_iff; check_iff tac.

Section validate_theorems.
Context `{ValidationLaws}.

Lemma TokenBucket_Validate_iff m : TokenBucket_Validate m = None ↔ TokenBucket_valid m.
Proof. unfold TokenBucket_Validate, TokenBucket_valid. validate_iff fail. Qed.

Lemma RateLimiter_Validate_iff m : RateLimiter_Validate m = None ↔ RateLimiter_valid m.
Proof.
  unfold RateLimiter_Validate, RateLimiter_valid.
  validate_iff ltac:(apply TokenBucket_Validate_iff).
Qed.

Lemma Balloon_Validate_iff m : Balloon_Validate m = None ↔ Balloon_valid m.
Proof. unfold Balloon_Validate, Balloon_valid. validate_iff fail. Qed.

Lemma BootSource_Validate_iff m : BootSource_Validate m = None ↔ BootSource_valid m.
Proof. unfold BootSource_Validate, BootSource_valid. validate_iff fail. Qed.

Lemma Drive_Validate_iff m : Drive_Validate m = None ↔ Drive_valid m.
Proof.
  unfold Drive_Validate, Drive_valid. validate_iff ltac:(apply RateLimiter_Validate_iff).
Qed.

Lemma Logger_Validate_iff m : Logger_Validate m = None ↔ Logger_valid m.
Proof. unfold Logger_Validate, Logger_valid. validate_iff fail. Qed.

Lemma CPUTemplate_Validate_iff m : CPUTemplate_Validate m = None ↔ m ∈ cpuTemplateEnum.
Proof.
  unfold CPUTemplate_Validate, CPUTemplate_validateCPUTemplateEnum.
  rewrite <- (validate_Enum_spec "" "body"). by destruct (validate_Enum _ _ _ _).
Qed.

Lemma MachineConfiguration_Validate_iff m :
  MachineConfiguration_Validate m = None ↔ MachineConfiguration_valid m.
Proof.
  unfold MachineConfiguration_Validate, MachineConfiguration_valid. validate_iff idtac.
  - destruct (String.eqb_spec (MachineConfiguration_CPUTemplate m) ""); [tauto|].
    rewrite validated_None, CPUTemplate_Validate_iff. unfold cpuTemplateEnum. tauto.
  - rewrite first_error_None, validate_MinimumInt_spec, validate_MaximumInt_spec. lia.
Qed.

Lemma Metrics_Validate_iff m : Metrics_Validate m = None ↔ Metrics_valid m.
Proof. unfold Metrics_Validate, Metrics_valid. validate_iff fail. Qed.

Lemma MmdsConfig_Validate_iff m : MmdsConfig_Validate m = None ↔ MmdsConfig_valid m.
Proof. unfold MmdsConfig_Validate, MmdsConfig_valid. validate_iff fail. Qed.

Lemma NetworkInterface_Validate_iff m :
  NetworkInterface_Validate m = None ↔ NetworkInterface_valid m.
Proof.
  unfold NetworkInterface_Validate, NetworkInterface_valid.
  validate_iff ltac:(apply RateLimiter_Validate_iff).
Qed.

Lemma Vsock_Validate_iff m : Vsock_Validate m = None ↔ Vsock_valid m.
Proof. unfold Vsock_Validate, Vsock_valid. validate_iff fail. Qed.


(** What the API description says in other ways is not checked. *)
Lemma MmdsConfig_address_unchecked address address' ids version :
  MmdsConfig_Validate (mkMmdsConfig address ids version) = MmdsConfig_Validate (mkMmdsConfig address' ids version).
Proof. done. Qed.

Lemma MachineConfiguration_odd_accepted :
  MachineConfiguration_Validate (mkMachineConfiguration "" (Some 128) None None (Some 3)) = None.
Proof.
  apply MachineConfiguration_Validate_iff. unfold MachineConfiguration_valid. simpl.
  split; [by left|]. split; [by eexists|lia].
Qed.
End validate_theorems.

(** An implementation of the primitives, for concrete runs. *)
#[export] Instance simple_validation : Validation := {
  validate_Required A path inn p :=
    match p with Some _ => None | None => Some (Errorf "%s in %s is required" [path; inn]) end;
  validate_Enum path inn value enum :=
    if decide (value ∈ enum) then None
    else Some (Errorf "%s in %s should be one of %v" (path :: inn :: enum));
  validate_MinimumInt path inn data bound exclusive :=
    if (if exclusive then bound <? data else bound <=? data) then None
    else Some (Errorf "%s in %s should be greater than or equal to %v" [path; inn]);
  validate_MaximumInt path inn data bound exclusive :=
    if (if exclusive then data <? bound else data <=? bound) then None
    else Some (Errorf "%s in %s should be less than or equal to %v" [path; inn]);
  CompositeValidationError res := hd (ErrorsNew "") res;
  is_Validation _ := false;
  ValidateName _ e := e;
}.

#[export] Instance simple_validation_laws : ValidationLaws.
Proof.
  split; intros; simpl.
  - destruct p; [by split; eauto|]. split; [done|]. by intros [? ?].
  - case_decide; by split.
  - destruct (Z.leb_spec bound data); split; (done || lia).
  - destruct (Z.leb_spec data bound); split; (done || lia).
Defined.

