(* ===== verification/Json.v ===== *)
(** * JSON encodings of the API models (src/client/models)

    The struct tags of the models say how [encoding/json] reads and writes them.
    [JsonCodec] is how a Go type is encoded and decoded; [field] is one tagged
    field of a struct, [encode_struct] and [decode_struct] what the package does
    with the list of them.  The text of a JSON value is go-openapi/swag's matter
    (class [Swag]). *)

From stdpp Require Import strings list.
From Stdlib Require Import Ascii ZArith Lia.
From S2P Require Import Prelude GoStrings Models.

Open Scope string_scope.
Open Scope list_scope.
Open Scope Z_scope.

(** ** JSON values *)

(** A number is its literal; the members of an object are in textual order, with
    their duplicates. *)
#[local] Set Warnings "-register-all".

Inductive json :=
  | JNull
  | JBool (b : bool)
  | JNumber (literal : string)
  | JString (s : string)
  | JArray (elements : list json)
  | JObject (members : list (string * json)).

(** Induction with the elements and members as hypotheses. *)
Section json_induction.
Variable P : json → Prop.
Hypothesis Hnull : P JNull.
Hypothesis Hbool : ∀ b, P (JBool b).
Hypothesis Hnumber : ∀ n, P (JNumber n).
Hypothesis Hstring : ∀ s, P (JString s).
Hypothesis Harray : ∀ l, Forall P l → P (JArray l).
Hypothesis Hobject : ∀ l, Forall (λ m, P m.2) l → P (JObject l).

Fixpoint json_nested_ind (j : json) : P j :=
  match j with
  | JNull => Hnull
  | JBool b => Hbool b
  | JNumber n => Hnumber n
  | JString s => Hstring s
  | JArray l =>
      Harray l ((fix go l : Forall P l :=
        match l with
        | [] => List.Forall_nil _
        | j :: l => List.Forall_cons _ _ _ (json_nested_ind j) (go l)
        end) l)
  | JObject l =>
      Hobject l ((fix go l : Forall (λ m, P m.2) l :=
        match l with
        | [] => List.Forall_nil _
        | m :: l => List.Forall_cons (λ m, P m.2) m l (json_nested_ind m.2) (go l)
        end) l)
  end.
End json_induction.

#[export] Instance json_eq_dec : EqDecision json.
Proof.
  refine (fix go (x y : json) : Decision (x = y) :=
    match x, y with
    | JNull, JNull => left eq_refl
    | JBool a, JBool b => cast_if (decide (a = b))
    | JNumber a, JNumber b => cast_if (decide (a = b))
    | JString a, JString b => cast_if (decide (a = b))
    | JArray a, JArray b => cast_if (@list_eq_dec json go a b)
    | JObject a, JObject b => cast_if (@list_eq_dec (string * json) (@prod_eq_dec string _ json go) a b)
    | _, _ => right _
    end); clear go; abstract congruence.
Defined.

(** ** Text *)

(** [utf8.ValidString] *)
Definition byte_in (lo hi : N) (a : ascii) : bool := ((lo <=? N_of_ascii a) && (N_of_ascii a <=? hi))%N.
Definition continuation : ascii → bool := byte_in 128 191.

Fixpoint utf8_valid (s : string) : bool :=
  match s with
  | "" => true
  | String a s1 =>
      if byte_in 0 127 a then utf8_valid s1
      else match s1 with
      | "" => false
      | String b s2 =>
          if byte_in 194 223 a then continuation b && utf8_valid s2
          else match s2 with
          | "" => false
          | String c s3 =>
              if byte_in 224 239 a then
                (if byte_in 224 224 a then byte_in 160 191 b
                 else if byte_in 237 237 a then byte_in 128 159 b
                 else continuation b) && continuation c && utf8_valid s3
              else match s3 with
              | "" => false
              | String d s4 =>
                  byte_in 240 244 a &&
                  (if byte_in 240 240 a then byte_in 144 191 b
                   else if byte_in 244 244 a then byte_in 128 143 b
                   else continuation b) && continuation c && continuation d && utf8_valid s4
              end
          end
      end
  end.

(** The numbers [strconv] writes for integers. *)
Definition integer_literal (n : string) : Prop := ∃ z : Z, n = strconv_Itoa z.

(** Values whose strings are texts and whose numbers are integers, as those the
    models are encoded to. *)
Fixpoint json_text (j : json) : Prop :=
  match j with
  | JNull | JBool _ => True
  | JNumber n => integer_literal n
  | JString s => utf8_valid s = true
  | JArray l => (fix go l := match l with [] => True | j :: l => json_text j ∧ go l end) l
  | JObject l =>
      (fix go l := match l with [] => True | m :: l => utf8_valid m.1 = true ∧ json_text m.2 ∧ go l end) l
  end.

Definition member_text (m : string * json) : Prop := utf8_valid m.1 = true ∧ json_text m.2.

Lemma json_text_array l : json_text (JArray l) ↔ Forall json_text l.
Proof.
  induction l as [|j l IH]; [by split|]. rewrite Forall_cons, <- IH. done.
Qed.

Lemma json_text_object l : json_text (JObject l) ↔ Forall member_text l.
Proof.
  induction l as [|m l IH]; [by split|]. rewrite Forall_cons, <- IH. unfold member_text. simpl. tauto.
Qed.

(** ** How Go types are encoded *)

(** [json_decode j old] decodes [j] into a variable that holds [old]; an error is
    the first of those [json.Unmarshal] meets.  [json_empty] is what [omitempty]
    omits.  [json_wf] bounds the integers and asks for valid strings. *)
Class JsonCodec (A : Type) := {
  json_zero : A;
  json_empty : A → bool;
  json_encode : A → json;
  json_decode : json → A → Err + A;
  json_wf : A → Prop
}.

(** Decoding into a zero variable what was encoded gives it back. *)
Class JsonLaws (A : Type) `{JsonCodec A} := {
  json_decode_encode (x : A) : json_wf x → json_decode (json_encode x) json_zero = inr x;
  json_encode_text (x : A) : json_wf x → json_text (json_encode x)
}.

(** A type whose omitted values can be told from what is missing. *)
Class JsonOmit (A : Type) `{JsonCodec A} := json_empty_zero (x : A) : json_empty x = true → x = json_zero.

(** A type whose values are never written [null]. *)
Class JsonPresent (A : Type) `{JsonCodec A} := json_encode_present (x : A) : json_encode x ≠ JNull.

Definition unmarshal_type_error (value type : string) : Err :=
  Errorf "json: cannot unmarshal %s into Go value of type %s" [value; type].

Definition json_kind (j : json) : string :=
  match j with
  | JNull => "null" | JBool _ => "bool" | JNumber _ => "number"
  | JString _ => "string" | JArray _ => "array" | JObject _ => "object"
  end.

#[export] Instance string_json : JsonCodec string := {
  json_zero := "";
  json_empty s := (s =? "")%string;
  json_encode := JString;
  json_decode j old :=
    match j with JString s => inr s | JNull => inr old | _ => inl (unmarshal_type_error (json_kind j) "string") end;
  json_wf s := utf8_valid s = true
}.

#[export] Instance bool_json : JsonCodec bool := {
  json_zero := false;
  json_empty := negb;
  json_encode := JBool;
  json_decode j old :=
    match j with JBool b => inr b | JNull => inr old | _ => inl (unmarshal_type_error (json_kind j) "bool") end;
  json_wf _ := True
}.

(** An [int64]: a literal with a fraction, an exponent or out of range is refused. *)
#[export] Instance int64_json : JsonCodec Z := {
  json_zero := 0;
  json_empty z := z =? 0;
  json_encode z := JNumber (strconv_Itoa z);
  json_decode j old :=
    match j with
    | JNumber n =>
        match strconv_Atoi n with
        | Some z => inr z
        | None => inl (unmarshal_type_error ("number " +:+ n) "int64")
        end
    | JNull => inr old
    | _ => inl (unmarshal_type_error (json_kind j) "int64")
    end;
  json_wf := int64_range
}.

Section containers.
Context {A : Type} `{JsonCodec A}.

(** A pointer: [null] is nil, and anything else is decoded into what it points to,
    which is allocated when it is nil. *)
#[export] Instance pointer_json : JsonCodec (option A) := {
  json_zero := None;
  json_empty p := match p with Some _ => false | None => true end;
  json_encode p := match p with Some x => json_encode x | None => JNull end;
  json_decode j old :=
    match j with
    | JNull => inr None
    | _ => match json_decode j (default json_zero old) with inr x => inr (Some x) | inl e => inl e end
    end;
  json_wf p := match p with Some x => json_wf x | None => True end
}.

(** The elements of an array, each into the element that is there already. *)
Fixpoint decode_elements (l : list json) (old : list A) : Err + list A :=
  match l with
  | [] => inr []
  | j :: l =>
      match json_decode j (hd json_zero old) with
      | inl e => inl e
      | inr x => match decode_elements l (tl old) with inr xs => inr (x :: xs) | inl e => inl e end
      end
  end.

(** A slice; [None] is the nil slice. *)
#[export] Instance slice_json : JsonCodec (option (list A)) := {
  json_zero := None;
  json_empty p := match p with Some (_ :: _) => false | _ => true end;
  json_encode p := match p with Some l => JArray (json_encode <$> l) | None => JNull end;
  json_decode j old :=
    match j with
    | JNull => inr None
    | JArray l => match decode_elements l (default [] old) with inr xs => inr (Some xs) | inl e => inl e end
    | _ => inl (unmarshal_type_error (json_kind j) "slice")
    end;
  json_wf p := match p with Some l => Forall json_wf l | None => True end
}.

Context `{!JsonLaws A}.

#[export] Instance pointer_laws : JsonPresent A → JsonLaws (option A).
Proof.
  intros Hp. split; intros [x|]; simpl; [|done| |done]; intros Hx; [|by apply json_encode_text].
  rewrite json_decode_encode by done. pose proof (Hp x). by destruct (json_encode x).
Qed.

Lemma decode_elements_encode (l : list A) :
  Forall json_wf l → decode_elements (json_encode <$> l) [] = inr l.
Proof.
  induction 1 as [|x l Hx _ IH]; [done|].
  rewrite fmap_cons. cbn [decode_elements hd tl]. by rewrite json_decode_encode, IH.
Qed.

#[export] Instance slice_laws : JsonLaws (option (list A)).
Proof.
  split; intros [l|]; try done; intros Hl.
  - cbn [json_decode json_encode slice_json]. simpl. by rewrite decode_elements_encode.
  - cbn [json_encode slice_json]. apply json_text_array. apply Forall_fmap.
    eapply Forall_impl; [exact Hl|]. intros x. apply json_encode_text.
Qed.
End containers.

#[export] Instance pointer_omit {A} `{JsonCodec A} : JsonOmit (option A).
Proof. by intros [x|]. Qed.

#[export] Instance string_present : JsonPresent string.
Proof. done. Qed.
#[export] Instance bool_present : JsonPresent bool.
Proof. done. Qed.
#[export] Instance int64_present : JsonPresent Z.
Proof. done. Qed.

#[export] Instance string_laws : JsonLaws string.
Proof. by split. Qed.
#[export] Instance string_omit : JsonOmit string.
Proof. intros s Hs. by apply String.eqb_eq. Qed.
#[export] Instance bool_laws : JsonLaws bool.
Proof. by split. Qed.
#[export] Instance bool_omit : JsonOmit bool.
Proof. by intros []. Qed.
#[export] Instance int64_laws : JsonLaws Z.
Proof.
  split; intros z Hz; simpl; [by rewrite strconv_Atoi_Itoa | by exists z].
Qed.
#[export] Instance int64_omit : JsonOmit Z.
Proof. intros z Hz. by apply Z.eqb_eq. Qed.

(** An [interface{}] that holds JSON data, known by the JSON it stands for; [None]
    is nil. *)
Definition interface_value : Type := option json.

#[export] Instance interface_json : JsonCodec interface_value := {
  json_zero := None;
  json_empty v := match v with Some _ => false | None => true end;
  json_encode v := match v with Some j => j | None => JNull end;
  json_decode j _ := inr (match j with JNull => None | _ => Some j end);
  json_wf v := match v with Some j => json_text j ∧ j ≠ JNull | None => True end
}.

#[export] Instance interface_laws : JsonLaws interface_value.
Proof. split; intros [j|]; try done; intros [Ht Hj]; [by destruct j | done]. Qed.

(** ** Structs *)

(** [json]'s comparison of a key with a field name when no name is equal to it:
    letters of either case, with the two other characters that fold to one. *)
Fixpoint fold_name (s : string) : string :=
  match s with
  | "" => ""
  | String "226"%char (String "132"%char (String "170"%char s)) => String "k"%char (fold_name s)
  | String "197"%char (String "191"%char s) => String "s"%char (fold_name s)
  | String a s =>
      String (if byte_in 65 90 a then ascii_of_N (N_of_ascii a + 32) else a) (fold_name s)
  end.

(** A field of a struct [S] and its tag. *)
Record json_field (S : Type) := mk_json_field {
  field_name : string;
  field_encode : S → list (string * json);
  field_decode : json → S → Err + S;
  field_wf : S → Prop
}.
Arguments mk_json_field {S} _ _ _ _.
Arguments field_name {S} _.
Arguments field_encode {S} _ _.
Arguments field_decode {S} _ _ _.
Arguments field_wf {S} _ _.

(** What a field of type [T] adds to the object. *)
Definition member {T} `{JsonCodec T} (name : string) (omitempty : bool) (x : T) : list (string * json) :=
  if omitempty && json_empty x then [] else [(name, json_encode x)].

(** A field tagged with the name, and with [,omitempty] or not. *)
Definition field {S T} `{JsonCodec T} (name : string) (omitempty : bool) (get : S → T) (set : T → S → S) : json_field S := {|
  field_name := name;
  field_encode s := member name omitempty (get s);
  field_decode j s := match json_decode j (get s) with inl e => inl e | inr x => inr (set x s) end;
  field_wf s := json_wf (get s)
|}.

Section structs.
Context {S : Type}.
Implicit Types (fs : list (json_field S)).

Definition encode_struct fs (s : S) : json := JObject (fs ≫= λ f, field_encode f s).

(** The field a key is for: the first with its name, or else the first whose name
    folds to the same. *)
Fixpoint first_field (p : string → bool) fs : option (json_field S) :=
  match fs with
  | [] => None
  | f :: fs => if p (field_name f) then Some f else first_field p fs
  end.

Definition find_field fs (key : string) : option (json_field S) :=
  match first_field (String.eqb key) fs with
  | Some f => Some f
  | None => first_field (λ name, String.eqb (fold_name key) (fold_name name)) fs
  end.

(** The members in order; unknown keys are ignored, repeated ones decoded again. *)
Fixpoint decode_members fs (ms : list (string * json)) (s : S) : Err + S :=
  match ms with
  | [] => inr s
  | (key, j) :: ms =>
      match find_field fs key with
      | None => decode_members fs ms s
      | Some f =>
          match field_decode f j s with
          | inl e => inl e
          | inr s => decode_members fs ms s
          end
      end
  end.

Definition decode_struct (type : string) fs (j : json) (old : S) : Err + S :=
  match j with
  | JObject ms => decode_members fs ms old
  | JNull => inr old
  | _ => inl (unmarshal_type_error (json_kind j) type)
  end.

Definition struct_codec (type : string) (zero : S) fs : JsonCodec S := {|
  json_zero := zero;
  json_empty _ := false;
  json_encode := encode_struct fs;
  json_decode := decode_struct type fs;
  json_wf s := Forall (λ f, field_wf f s) fs
|}.

(** Decoding the member a field wrote, or did not write, sets it. *)
Lemma decode_member {T} `{JsonLaws T} fs name (omitempty : bool) (get : S → T) set x rest s :
  find_field fs name = Some (field name omitempty get set) →
  json_wf x → get s = json_zero → set json_zero s = s → (omitempty = true → json_empty x = true → x = json_zero) →
  decode_members fs (member name omitempty x ++ rest) s = decode_members fs rest (set x s).
Proof.
  intros Hf Hx Hget Hset Ho. unfold member. destruct omitempty; simpl.
  - destruct (json_empty x) eqn:He; simpl.
    + by rewrite (Ho eq_refl eq_refl), Hset.
    + rewrite Hf. simpl. by rewrite Hget, json_decode_encode.
  - rewrite Hf. simpl. by rewrite Hget, json_decode_encode.
Qed.

Lemma encode_struct_text fs (s : S) :
  Forall (λ f, field_wf f s → Forall member_text (field_encode f s)) fs →
  Forall (λ f, field_wf f s) fs → json_text (encode_struct fs s).
Proof.
  intros Hfs Hs. apply json_text_object. unfold encode_struct. induction Hfs as [|f fs Hf _ IH]; [done|].
  apply Forall_cons in Hs as [Hw Hs]. simpl. apply Forall_app. auto.
Qed.

Lemma field_text {T} `{JsonLaws T} name omitempty (get : S → T) set s :
  utf8_valid name = true →
  field_wf (field name omitempty get set) s → Forall member_text (field_encode (field name omitempty get set) s).
Proof.
  intros Hn Hw. simpl. unfold member. destruct (omitempty && _); [done|].
  apply Forall_singleton. split; [done|]. by apply json_encode_text.
Qed.
End structs.

(** The laws of a struct, from its fields. *)
Lemma struct_laws {S} (type : string) (zero : S) (fs : list (json_field S)) :
  (∀ s, Forall (λ f, field_wf f s) fs → decode_members fs (fs ≫= λ f, field_encode f s) zero = inr s) →
  (∀ s, Forall (λ f, field_wf f s → Forall member_text (field_encode f s)) fs) →
  @JsonLaws S (struct_codec type zero fs).
Proof. intros Hd Ht. split; [exact Hd|]. intros s. apply (encode_struct_text fs s), Ht. Qed.

Ltac solve_struct_laws :=
  apply struct_laws; intros s;
    [ intros Hs; destruct s; repeat (apply Forall_cons in Hs as [? Hs]);
      cbn [mbind list_bind field_encode field];
      repeat (erewrite decode_member;
        [ cbv beta iota | reflexivity | assumption | reflexivity | reflexivity
        | first [discriminate | intros _; apply json_empty_zero] ]);
      reflexivity
    | repeat apply Forall_cons_2; try apply Forall_nil_2; (apply field_text; reflexivity) ].

(** ** Package swag *)

(** [swag.WriteJSON] and [swag.ReadJSON] write and read the text of a value, as
    [encoding/json] does for types without marshallers of their own. *)
Class Swag := {
  swag_write : json → Err + string;
  swag_read : string → Err + json
}.

(** Writing values made of valid text does not fail, and what was written is read
    back. *)
Class SwagLaws `{Swag} :=
  swag_read_write (j : json) : json_text j → ∃ b, swag_write j = inr b ∧ swag_read b = inr j.

Section swag.
Context `{Swag} {A : Type} `{JsonCodec A}.

Definition WriteJSON (x : A) : Err + option string :=
  match swag_write (json_encode x) with inl e => inl e | inr b => inr (Some b) end.

(** [swag.ReadJSON(b, &res)] *)
Definition ReadJSON (b : string) (res : A) : Err + A :=
  match swag_read b with inl e => inl e | inr j => json_decode j res end.

Lemma ReadJSON_WriteJSON `{!SwagLaws} `{!JsonLaws A} (x : A) :
  json_wf x → ∃ b, WriteJSON x = inr (Some b) ∧ ReadJSON b json_zero = inr x.
Proof.
  intros Hx. destruct (swag_read_write (json_encode x)) as (b & Hw & Hr); [by apply json_encode_text|].
  exists b. unfold WriteJSON, ReadJSON. rewrite Hw, Hr. by rewrite json_decode_encode.
Qed.
End swag.
