(* ===== verification/JsonText.v ===== *)
(** * Compact JSON text

    A writer and a reader of JSON text without spaces, and the round trip that
    makes them an instance of the class [Swag] of Json.v: what go-openapi/swag is
    asked to do can be done.  The examples of the other files run on it. *)

From stdpp Require Import strings list pretty.
From Stdlib Require Import Ascii ZArith Lia.
From S2P Require Import Prelude GoStrings Json.

Open Scope string_scope.
Open Scope list_scope.

(** ** Writing *)
Definition quote : ascii := "034".
Definition backslash : ascii := "\".

Definition hex_digit (n : N) : ascii := ascii_of_N (if n <? 10 then 48 + n else 87 + n)%N.

Definition escape_char (a : ascii) : string :=
  if (a =? quote)%char || (a =? backslash)%char then String backslash (String a "")
  else if byte_in 0 31 a then
    String backslash ("u00" +:+ String (hex_digit (N_of_ascii a / 16)) (String (hex_digit (N_of_ascii a mod 16)) ""))
  else String a "".

Fixpoint escape (s : string) : string :=
  match s with "" => "" | String a s => escape_char a +:+ escape s end.

Definition quoted_text (s : string) : string := String quote (escape s +:+ String quote "").

Fixpoint render (j : json) : string :=
  match j with
  | JNull => "null"
  | JBool true => "true"
  | JBool false => "false"
  | JNumber n => n
  | JString s => quoted_text s
  | JArray l =>
      "[" +:+ (fix go l :=
        match l with
        | [] => "]"
        | [j] => render j +:+ "]"
        | j :: l => render j +:+ "," +:+ go l
        end) l
  | JObject l =>
      "{" +:+ (fix go l :=
        match l with
        | [] => "}"
        | [m] => quoted_text m.1 +:+ ":" +:+ render m.2 +:+ "}"
        | m :: l => quoted_text m.1 +:+ ":" +:+ render m.2 +:+ "," +:+ go l
        end) l
  end.

(** The elements after the bracket, and the members after the brace. *)
Fixpoint render_elements (l : list json) : string :=
  match l with
  | [] => "]"
  | [j] => render j +:+ "]"
  | j :: l => render j +:+ "," +:+ render_elements l
  end.

Fixpoint render_members (l : list (string * json)) : string :=
  match l with
  | [] => "}"
  | [m] => quoted_text m.1 +:+ ":" +:+ render m.2 +:+ "}"
  | m :: l => quoted_text m.1 +:+ ":" +:+ render m.2 +:+ "," +:+ render_members l
  end.

(** ** Reading *)
Definition hex_value (a : ascii) : option N :=
  if byte_in 48 57 a then Some (N_of_ascii a - 48)%N
  else if byte_in 97 102 a then Some (N_of_ascii a - 87)%N
  else None.

(** [(String a) <$> x] on the text read so far. *)
Definition put_char (a : ascii) (r : option (string * string)) : option (string * string) :=
  match r with Some (s, rest) => Some (String a s, rest) | None => None end.

(** The text of a string after its opening quote, and what follows. *)
Fixpoint parse_string (s : string) : option (string * string) :=
  match s with
  | "" => None
  | String a s1 =>
      if (a =? quote)%char then Some ("", s1)
      else if (a =? backslash)%char then
        match s1 with
        | "" => None
        | String b s2 =>
            if (b =? quote)%char || (b =? backslash)%char then put_char b (parse_string s2)
            else match s2 with
            | String _ (String _ (String h (String l s3))) =>
                match hex_value h, hex_value l with
                | Some h, Some l => put_char (ascii_of_N (16 * h + l)) (parse_string s3)
                | _, _ => None
                end
            | _ => None
            end
        end
      else put_char a (parse_string s1)
  end.

(** The longest prefix that a number is made of. *)
Definition number_char (a : ascii) : bool :=
  is_digit a || (a =? "-")%char || (a =? "+")%char || (a =? ".")%char || (a =? "e")%char || (a =? "E")%char.

Fixpoint span_number (s : string) : string * string :=
  match s with
  | "" => ("", "")
  | String a s' =>
      if number_char a then let '(n, rest) := span_number s' in (String a n, rest) else ("", s)
  end.

(** [s] without the prefix [p]. *)
Fixpoint after (p s : string) : option string :=
  match p, s with
  | "", _ => Some s
  | String a p, String b s => if (a =? b)%char then after p s else None
  | _, "" => None
  end.

Definition parse_number (s : string) : option (json * string) :=
  match span_number s with
  | ("", _) => None
  | (n, rest) => Some (JNumber n, rest)
  end.

Fixpoint parse_value (fuel : nat) (s : string) : option (json * string) :=
  match fuel, s with
  | S fuel, String a s' =>
      if (a =? quote)%char then
        match parse_string s' with Some (t, rest) => Some (JString t, rest) | None => None end
      else if (a =? "[")%char then
        match after "]" s' with
        | Some rest => Some (JArray [], rest)
        | None => match parse_elements fuel s' with Some (l, rest) => Some (JArray l, rest) | None => None end
        end
      else if (a =? "{")%char then
        match after "}" s' with
        | Some rest => Some (JObject [], rest)
        | None => match parse_members fuel s' with Some (l, rest) => Some (JObject l, rest) | None => None end
        end
      else if (a =? "n")%char then
        match after "ull" s' with Some rest => Some (JNull, rest) | None => None end
      else if (a =? "t")%char then
        match after "rue" s' with Some rest => Some (JBool true, rest) | None => None end
      else if (a =? "f")%char then
        match after "alse" s' with Some rest => Some (JBool false, rest) | None => None end
      else parse_number s
  | _, _ => None
  end
with parse_elements (fuel : nat) (s : string) : option (list json * string) :=
  match fuel with
  | S fuel =>
      match parse_value fuel s with
      | Some (j, String c s') =>
          if (c =? ",")%char then
            match parse_elements fuel s' with Some (l, rest) => Some (j :: l, rest) | None => None end
          else if (c =? "]")%char then Some ([j], s')
          else None
      | _ => None
      end
  | _ => None
  end
with parse_members (fuel : nat) (s : string) : option (list (string * json) * string) :=
  match fuel, s with
  | S fuel, String q s0 =>
      if (q =? quote)%char then
        match parse_string s0 with
        | Some (key, String colon s1) =>
            if (colon =? ":")%char then
              match parse_value fuel s1 with
              | Some (j, String c s') =>
                  if (c =? ",")%char then
                    match parse_members fuel s' with Some (l, rest) => Some ((key, j) :: l, rest) | None => None end
                  else if (c =? "}")%char then Some ([(key, j)], s')
                  else None
              | _ => None
              end
            else None
        | _ => None
        end
      else None
  | _, _ => None
  end.

Definition parse (s : string) : option json :=
  match parse_value (String.length s) s with
  | Some (j, "") => Some j
  | _ => None
  end.

(** ** What was written is read back *)
Lemma parse_string_char a t : parse_string (escape_char a +:+ t) = put_char a (parse_string t).
Proof. by destruct a as [[] [] [] [] [] [] [] []]. Qed.

Lemma parse_string_escape s rest :
  parse_string (escape s +:+ String quote rest) = Some (s, rest).
Proof.
  induction s as [|a s IH]; [done|]. cbn [escape]. by rewrite string_app_assoc, parse_string_char, IH.
Qed.

Lemma span_number_app n rest :
  string_forall number_char n = true → (∀ a s, rest = String a s → number_char a = false) →
  span_number (n +:+ rest) = (n, rest).
Proof.
  intros Hn Hrest. induction n as [|a n IH].
  - change ("" +:+ rest) with rest. destruct rest as [|a s]; [done|]. simpl. by rewrite (Hrest a s).
  - simpl in Hn. apply andb_prop in Hn as [Ha Hn]. rewrite string_app_cons. simpl. by rewrite Ha, IH.
Qed.

(** The shape of an integer literal. *)
Lemma integer_literal_chars n :
  integer_literal n → ∃ a s, n = String a s ∧ (is_digit a || (a =? "-")%char) = true ∧ string_forall number_char n = true.
Proof.
  assert (∀ s, string_forall is_digit s = true → string_forall number_char s = true) as Hw.
  { induction s as [|a s IH]; [done|]. simpl. intros [Ha Hs]%andb_prop. rewrite IH by done. unfold number_char. by rewrite Ha. }
  assert (∀ x : N, string_forall is_digit (pretty x) = true) as Hd.
  { intros x. unfold pretty, pretty_N. case_decide; [done|]. by apply pretty_N_go_digits. }
  intros [z ->]. unfold strconv_Itoa. destruct z as [|x|x].
  - by exists "0"%char, "".
  - change (pretty (Z.pos x)) with (pretty (N.pos x)).
    destruct (pretty_N_digit_first (N.pos x)) as (a & s & He & Ha). specialize (Hd (N.pos x)). rewrite He in Hd |- *.
    exists a, s. rewrite Ha. auto.
  - change (pretty (Z.neg x)) with ("-" +:+ pretty (N.pos x)). rewrite string_app_cons.
    exists "-"%char, (pretty (N.pos x)). split; [done|]. split; [done|]. simpl. apply Hw, Hd.
Qed.

(** ** Values *)

(** What stands after a value: nothing that a number could go on with. *)
Definition stops (rest : string) : Prop := ∀ a s, rest = String a s → number_char a = false.

Fixpoint json_size (j : json) : nat :=
  match j with
  | JArray l => S ((fix go l := match l with [] => 0%nat | j :: l => S (json_size j + go l) end) l)
  | JObject l => S ((fix go l := match l with [] => 0%nat | m :: l => S (json_size m.2 + go l) end) l)
  | _ => 1%nat
  end.

Fixpoint elements_size (l : list json) : nat := match l with [] => 0%nat | j :: l => S (json_size j + elements_size l) end.
Fixpoint members_size (l : list (string * json)) : nat :=
  match l with [] => 0%nat | m :: l => S (json_size m.2 + members_size l) end.

(** [j] is read back from its text, with enough fuel. *)
Definition reads (j : json) : Prop :=
  ∀ fuel rest, (json_size j ≤ fuel)%nat → stops rest → parse_value fuel (render j +:+ rest) = Some (j, rest).

Lemma stops_char (a : ascii) s : number_char a = false → stops (String a s).
Proof. by intros Ha b t [= <- <-]. Qed.

Lemma render_array l : render (JArray l) = "[" +:+ render_elements l.
Proof. done. Qed.

Lemma render_object l : render (JObject l) = "{" +:+ render_members l.
Proof. done. Qed.

Lemma render_elements_cons j l : l ≠ [] → render_elements (j :: l) = render j +:+ "," +:+ render_elements l.
Proof. by destruct l. Qed.

Lemma render_members_cons key j l :
  l ≠ [] → render_members ((key, j) :: l) = quoted_text key +:+ ":" +:+ render j +:+ "," +:+ render_members l.
Proof. by destruct l. Qed.

Lemma string_app_nil_l (s : string) : "" +:+ s = s.
Proof. done. Qed.

(** The literal text at the head of a concatenation, character by character. *)
Ltac next_char := rewrite ?string_app_cons, ?string_app_nil_l; cbn.

(** A separator after a value. *)
Ltac separator := first [lia | by apply stops_char].

Lemma parse_elements_render l : l ≠ [] → Forall reads l → ∀ fuel rest,
  (elements_size l ≤ fuel)%nat → parse_elements fuel (render_elements l +:+ rest) = Some (l, rest).
Proof.
  intros Hne Hl. induction Hl as [|j l Hj Hl IH]; [done|]. intros [|fuel] rest Hf; [simpl in Hf; lia|].
  cbn [elements_size] in Hf. destruct (decide (l = [])) as [->|Hl'].
  - cbn [render_elements parse_elements]. rewrite ?string_app_assoc, Hj by separator. by next_char.
  - rewrite render_elements_cons by done. cbn [parse_elements]. rewrite ?string_app_assoc, Hj by separator. next_char.
    by rewrite IH by (done || lia).
Qed.

Lemma parse_key s rest : parse_string ((escape s +:+ String quote "") +:+ rest) = Some (s, rest).
Proof. rewrite string_app_assoc. apply parse_string_escape. Qed.

Lemma parse_members_render l : l ≠ [] → Forall (λ m, reads m.2) l → ∀ fuel rest,
  (members_size l ≤ fuel)%nat → parse_members fuel (render_members l +:+ rest) = Some (l, rest).
Proof.
  intros Hne Hl. induction Hl as [|[key j] l Hj Hl IH]; [done|]. intros [|fuel] rest Hf; [simpl in Hf; lia|].
  cbn [members_size snd] in Hf. cbn [snd] in Hj. destruct (decide (l = [])) as [->|Hl'].
  - cbn [render_members fst snd]. unfold quoted_text. rewrite string_app_assoc, string_app_cons. cbn [parse_members].
    rewrite Ascii.eqb_refl, parse_key. next_char. rewrite ?string_app_assoc, Hj by separator. by next_char.
  - rewrite render_members_cons by done. unfold quoted_text. rewrite string_app_assoc, string_app_cons.
    cbn [parse_members]. rewrite Ascii.eqb_refl, parse_key. next_char. rewrite ?string_app_assoc, Hj by separator. next_char.
    by rewrite IH by (done || lia).
Qed.

(** No value starts with a closing bracket. *)
Lemma render_first j : json_text j → ∃ a s, render j = String a s ∧ (a =? "]")%char = false.
Proof.
  destruct j as [|[]|n|s|l|l]; intros Ht; try (by eexists _, _).
  destruct (integer_literal_chars n Ht) as (a & s & -> & Ha & _). exists a, s. split; [done|]. revert Ha.
  by destruct a as [[] [] [] [] [] [] [] []].
Qed.

Lemma render_elements_first l rest :
  l ≠ [] → Forall json_text l → after "]" (render_elements l +:+ rest) = None.
Proof.
  intros Hl Ht. destruct Ht as [|j l Hj _]; [done|]. destruct (render_first j Hj) as (a & s & He & Ha).
  destruct l; cbn [render_elements]; rewrite He, !string_app_assoc, string_app_cons; cbn [after]; rewrite Ascii.eqb_sym;
    by rewrite Ha.
Qed.

Lemma render_members_first l rest : l ≠ [] → after "}" (render_members l +:+ rest) = None.
Proof. by destruct l as [|[key j] [|m l]]. Qed.

(** The text of a value of valid text is read back, whatever follows it that does
    not prolong it. *)
Lemma parse_value_render j : json_text j → reads j.
Proof.
  induction j as [|b|n|s|l IH|l IH] using json_nested_ind; intros Ht [|fuel] rest Hf Hr; try (simpl in Hf; lia).
  - done.
  - by destruct b.
  - destruct (integer_literal_chars n Ht) as (a & s & -> & Ha & Hn). cbn [render]. rewrite string_app_cons.
    assert (parse_number (String a (s +:+ rest)) = Some (JNumber (String a s), rest)) as Hp.
    { unfold parse_number. change (String a (s +:+ rest)) with (String a s +:+ rest).
      by rewrite (span_number_app (String a s) rest Hn Hr). }
    revert Ha Hp. generalize (s +:+ rest). clear. intros t Ha Hp. cbn [parse_value]. revert Hp.
    by destruct a as [[] [] [] [] [] [] [] []].
  - cbn [render]. unfold quoted_text. rewrite string_app_cons. cbn [parse_value]. by rewrite Ascii.eqb_refl, parse_key.
  - rewrite render_array. apply json_text_array in Ht. destruct (decide (l = [])) as [->|Hl]; [done|].
    assert (Forall reads l) as Hr' by (apply Forall_forall; rewrite !Forall_forall in *; auto).
    rewrite string_app_assoc, !string_app_cons, string_app_nil_l. cbn [parse_value]. simpl (_ =? _)%char. cbv iota.
    rewrite render_elements_first by done. rewrite parse_elements_render; [done..|]. change (json_size (JArray l)) with (S (elements_size l)) in Hf. lia.
  - rewrite render_object. apply json_text_object in Ht. destruct (decide (l = [])) as [->|Hl]; [done|].
    assert (Forall (λ m, reads m.2) l) as Hr'.
    { rewrite !Forall_forall in *. intros m Hm. apply (IH m Hm). by apply (Ht m Hm). }
    rewrite string_app_assoc, !string_app_cons, string_app_nil_l. cbn [parse_value]. simpl (_ =? _)%char. cbv iota.
    rewrite render_members_first by done. rewrite parse_members_render; [done..|]. change (json_size (JObject l)) with (S (members_size l)) in Hf. lia.
Qed.

(** ** The instance *)
Lemma app_length (s t : string) : String.length (s +:+ t) = (String.length s + String.length t)%nat.
Proof. induction s as [|a s IH]; [done|]. rewrite string_app_cons. simpl. by rewrite IH. Qed.

Lemma json_size_render j : json_text j → (json_size j ≤ String.length (render j))%nat.
Proof.
  induction j as [|[]|n|s|l IH|l IH] using json_nested_ind; intros Ht; try (simpl; lia).
  - by destruct (integer_literal_chars n Ht) as (a & s & -> & _); simpl; lia.
  - rewrite render_array, app_length. apply json_text_array in Ht.
    assert (elements_size l ≤ String.length (render_elements l))%nat.
    { induction IH as [|j l Hj Hl IHl]; [simpl; lia|]. apply Forall_cons in Ht as [Htj Htl]. specialize (Hj Htj).
      specialize (IHl Htl). destruct (decide (l = [])) as [->|Hne].
      - cbn [render_elements elements_size]. rewrite app_length. simpl. lia.
      - rewrite render_elements_cons, !app_length by done. cbn [elements_size]. simpl. lia. }
    change (json_size (JArray l)) with (S (elements_size l)). simpl. lia.
  - rewrite render_object, app_length. apply json_text_object in Ht.
    assert (members_size l ≤ String.length (render_members l))%nat.
    { induction IH as [|[key j] l Hj Hl IHl]; [simpl; lia|]. apply Forall_cons in Ht as [[_ Htj] Htl]. specialize (Hj Htj).
      specialize (IHl Htl). cbn [snd] in *. destruct (decide (l = [])) as [->|Hne].
      - cbn [render_members members_size fst snd]. rewrite !app_length. simpl. lia.
      - rewrite render_members_cons, !app_length by done. cbn [members_size snd]. simpl. lia. }
    change (json_size (JObject l)) with (S (members_size l)). simpl. lia.
Qed.

Lemma parse_render j : json_text j → parse (render j) = Some j.
Proof.
  intros Ht. unfold parse. assert (render j = render j +:+ "") as He by (by rewrite string_app_nil_r).
  rewrite He at 2. by rewrite (parse_value_render j Ht) by (by apply json_size_render || done).
Qed.

#[export] Instance text_swag : Swag := {
  swag_write j := inr (render j);
  swag_read b := match parse b with Some j => inr j | None => inl (ErrorsNew "invalid JSON") end
}.

#[export] Instance text_swag_laws : SwagLaws.
Proof. intros j Hj. exists (render j). simpl. by rewrite parse_render. Qed.

(** Text written with single quotes for double ones. *)
Fixpoint double_quotes (s : string) : string :=
  match s with
  | "" => ""
  | String a s => String (if (a =? "'")%char then quote else a) (double_quotes s)
  end.
