(* ===== verification/ModelsJson.v ===== *)
(** * The models as JSON (src/client/models)

    For each model the fields with their tags, the encoding they give, and the
    methods MarshalBinary and UnmarshalBinary.  [binary_roundtrip] is their
    round trip for every model. *)

From stdpp Require Import strings list.
From Stdlib Require Import ZArith Lia.
From S2P Require Import Prelude GoStrings Models Json JsonText.

Open Scope string_scope.
Open Scope list_scope.
Open Scope Z_scope.

(** ** src/client/models/cpu_template.go *)
#[export] Instance CPUTemplate_json : JsonCodec CPUTemplate := string_json.
#[export] Instance CPUTemplate_laws : JsonLaws CPUTemplate.
Proof. exact string_laws. Qed.
#[export] Instance CPUTemplate_omit : JsonOmit CPUTemplate.
Proof. exact string_omit. Qed.

(** ** src/client/models/token_bucket.go *)
Definition TokenBucket_fields : list (json_field TokenBucket) :=
  [field "one_time_burst" true TokenBucket_OneTimeBurst (λ v '(mkTokenBucket _ b c), mkTokenBucket v b c);
   field "refill_time" false TokenBucket_RefillTime (λ v '(mkTokenBucket a _ c), mkTokenBucket a v c);
   field "size" false TokenBucket_Size (λ v '(mkTokenBucket a b _), mkTokenBucket a b v)].

#[export] Instance TokenBucket_json : JsonCodec TokenBucket :=
  struct_codec "models.TokenBucket" (mkTokenBucket None None None) TokenBucket_fields.

#[export] Instance TokenBucket_laws : JsonLaws TokenBucket.
Proof. unfold TokenBucket_json, TokenBucket_fields. solve_struct_laws. Qed.
#[export] Instance TokenBucket_present : JsonPresent TokenBucket.
Proof. done. Qed.

Definition TokenBucket_MarshalBinary `{Swag} (m : option TokenBucket) : Err + option string :=
  match m with None => inr None | Some m => WriteJSON m end.
Definition TokenBucket_UnmarshalBinary `{Swag} (m : option TokenBucket) (b : string) : Outcome (error * option TokenBucket) :=
  match ReadJSON b (json_zero : TokenBucket) with
  | inl err => Val (Some err, m)
  | inr res => match m with Some _ => Val (None, Some res) | None => Panic "nil pointer dereference" end
  end.

(** ** src/client/models/rate_limiter.go *)
Definition RateLimiter_fields : list (json_field RateLimiter) :=
  [field "bandwidth" true RateLimiter_Bandwidth (λ v '(mkRateLimiter _ b), mkRateLimiter v b);
   field "ops" true RateLimiter_Ops (λ v '(mkRateLimiter a _), mkRateLimiter a v)].

#[export] Instance RateLimiter_json : JsonCodec RateLimiter :=
  struct_codec "models.RateLimiter" (mkRateLimiter None None) RateLimiter_fields.

#[export] Instance RateLimiter_laws : JsonLaws RateLimiter.
Proof. unfold RateLimiter_json, RateLimiter_fields. solve_struct_laws. Qed.
#[export] Instance RateLimiter_present : JsonPresent RateLimiter.
Proof. done. Qed.

Definition RateLimiter_MarshalBinary `{Swag} (m : option RateLimiter) : Err + option string :=
  match m with None => inr None | Some m => WriteJSON m end.
Definition RateLimiter_UnmarshalBinary `{Swag} (m : option RateLimiter) (b : string) : Outcome (error * option RateLimiter) :=
  match ReadJSON b (json_zero : RateLimiter) with
  | inl err => Val (Some err, m)
  | inr res => match m with Some _ => Val (None, Some res) | None => Panic "nil pointer dereference" end
  end.

(** ** src/client/models/balloon.go *)
Definition Balloon_fields : list (json_field Balloon) :=
  [field "amount_mib" false Balloon_AmountMib (λ v '(mkBalloon _ b c), mkBalloon v b c);
   field "deflate_on_oom" false Balloon_DeflateOnOom (λ v '(mkBalloon a _ c), mkBalloon a v c);
   field "stats_polling_interval_s" true Balloon_StatsPollingIntervals (λ v '(mkBalloon a b _), mkBalloon a b v)].

#[export] Instance Balloon_json : JsonCodec Balloon :=
  struct_codec "models.Balloon" (mkBalloon None None 0) Balloon_fields.

#[export] Instance Balloon_laws : JsonLaws Balloon.
Proof. unfold Balloon_json, Balloon_fields. solve_struct_laws. Qed.
#[export] Instance Balloon_present : JsonPresent Balloon.
Proof. done. Qed.

Definition Balloon_MarshalBinary `{Swag} (m : option Balloon) : Err + option string :=
  match m with None => inr None | Some m => WriteJSON m end.
Definition Balloon_UnmarshalBinary `{Swag} (m : option Balloon) (b : string) : Outcome (error * option Balloon) :=
  match ReadJSON b (json_zero : Balloon) with
  | inl err => Val (Some err, m)
  | inr res => match m with Some _ => Val (None, Some res) | None => Panic "nil pointer dereference" end
  end.

(** ** src/client/models/balloon_stats.go *)
Definition BalloonStats_fields : list (json_field BalloonStats) :=
  [field "actual_mib" false BalloonStats_ActualMib (λ v '(mkBalloonStats _ b c d e f g h i j k l m n), mkBalloonStats v b c d e f g h i j k l m n);
   field "actual_pages" false BalloonStats_ActualPages (λ v '(mkBalloonStats a _ c d e f g h i j k l m n), mkBalloonStats a v c d e f g h i j k l m n);
   field "available_memory" true BalloonStats_AvailableMemory (λ v '(mkBalloonStats a b _ d e f g h i j k l m n), mkBalloonStats a b v d e f g h i j k l m n);
   field "disk_caches" true BalloonStats_DiskCaches (λ v '(mkBalloonStats a b c _ e f g h i j k l m n), mkBalloonStats a b c v e f g h i j k l m n);
   field "free_memory" true BalloonStats_FreeMemory (λ v '(mkBalloonStats a b c d _ f g h i j k l m n), mkBalloonStats a b c d v f g h i j k l m n);
   field "hugetlb_allocations" true BalloonStats_HugetlbAllocations (λ v '(mkBalloonStats a b c d e _ g h i j k l m n), mkBalloonStats a b c d e v g h i j k l m n);
   field "hugetlb_failures" true BalloonStats_HugetlbFailures (λ v '(mkBalloonStats a b c d e f _ h i j k l m n), mkBalloonStats a b c d e f v h i j k l m n);
   field "major_faults" true BalloonStats_MajorFaults (λ v '(mkBalloonStats a b c d e f g _ i j k l m n), mkBalloonStats a b c d e f g v i j k l m n);
   field "minor_faults" true BalloonStats_MinorFaults (λ v '(mkBalloonStats a b c d e f g h _ j k l m n), mkBalloonStats a b c d e f g h v j k l m n);
   field "swap_in" true BalloonStats_SwapIn (λ v '(mkBalloonStats a b c d e f g h i _ k l m n), mkBalloonStats a b c d e f g h i v k l m n);
   field "swap_out" true BalloonStats_SwapOut (λ v '(mkBalloonStats a b c d e f g h i j _ l m n), mkBalloonStats a b c d e f g h i j v l m n);
   field "target_mib" false BalloonStats_TargetMib (λ v '(mkBalloonStats a b c d e f g h i j k _ m n), mkBalloonStats a b c d e f g h i j k v m n);
   field "target_pages" false BalloonStats_TargetPages (λ v '(mkBalloonStats a b c d e f g h i j k l _ n), mkBalloonStats a b c d e f g h i j k l v n);
   field "total_memory" true BalloonStats_TotalMemory (λ v '(mkBalloonStats a b c d e f g h i j k l m _), mkBalloonStats a b c d e f g h i j k l m v)].

#[export] Instance BalloonStats_json : JsonCodec BalloonStats :=
  struct_codec "models.BalloonStats" (mkBalloonStats None None 0 0 0 0 0 0 0 0 0 None None 0) BalloonStats_fields.

#[export] Instance BalloonStats_laws : JsonLaws BalloonStats.
Proof. unfold BalloonStats_json, BalloonStats_fields. solve_struct_laws. Qed.
#[export] Instance BalloonStats_present : JsonPresent BalloonStats.
Proof. done. Qed.

Definition BalloonStats_MarshalBinary `{Swag} (m : option BalloonStats) : Err + option string :=
  match m with None => inr None | Some m => WriteJSON m end.
Definition BalloonStats_UnmarshalBinary `{Swag} (m : option BalloonStats) (b : string) : Outcome (error * option BalloonStats) :=
  match ReadJSON b (json_zero : BalloonStats) with
  | inl err => Val (Some err, m)
  | inr res => match m with Some _ => Val (None, Some res) | None => Panic "nil pointer dereference" end
  end.

(** ** src/client/models/balloon_stats_update.go *)
Definition BalloonStatsUpdate_fields : list (json_field BalloonStatsUpdate) :=
  [field "stats_polling_interval_s" false BalloonStatsUpdate_StatsPollingIntervals (λ v '(mkBalloonStatsUpdate _), mkBalloonStatsUpdate v)].

#[export] Instance BalloonStatsUpdate_json : JsonCodec BalloonStatsUpdate :=
  struct_codec "models.BalloonStatsUpdate" (mkBalloonStatsUpdate None) BalloonStatsUpdate_fields.

#[export] Instance BalloonStatsUpdate_laws : JsonLaws BalloonStatsUpdate.
Proof. unfold BalloonStatsUpdate_json, BalloonStatsUpdate_fields. solve_struct_laws. Qed.
#[export] Instance BalloonStatsUpdate_present : JsonPresent BalloonStatsUpdate.
Proof. done. Qed.

Definition BalloonStatsUpdate_MarshalBinary `{Swag} (m : option BalloonStatsUpdate) : Err + option string :=
  match m with None => inr None | Some m => WriteJSON m end.
Definition BalloonStatsUpdate_UnmarshalBinary `{Swag} (m : option BalloonStatsUpdate) (b : string) : Outcome (error * option BalloonStatsUpdate) :=
  match ReadJSON b (json_zero : BalloonStatsUpdate) with
  | inl err => Val (Some err, m)
  | inr res => match m with Some _ => Val (None, Some res) | None => Panic "nil pointer dereference" end
  end.

(** ** src/client/models/balloon_update.go *)
Definition BalloonUpdate_fields : list (json_field BalloonUpdate) :=
  [field "amount_mib" false BalloonUpdate_AmountMib (λ v '(mkBalloonUpdate _), mkBalloonUpdate v)].

#[export] Instance BalloonUpdate_json : JsonCodec BalloonUpdate :=
  struct_codec "models.BalloonUpdate" (mkBalloonUpdate None) BalloonUpdate_fields.

#[export] Instance BalloonUpdate_laws : JsonLaws BalloonUpdate.
Proof. unfold BalloonUpdate_json, BalloonUpdate_fields. solve_struct_laws. Qed.
#[export] Instance BalloonUpdate_present : JsonPresent BalloonUpdate.
Proof. done. Qed.

Definition BalloonUpdate_MarshalBinary `{Swag} (m : option BalloonUpdate) : Err + option string :=
  match m with None => inr None | Some m => WriteJSON m end.
Definition BalloonUpdate_UnmarshalBinary `{Swag} (m : option BalloonUpdate) (b : string) : Outcome (error * option BalloonUpdate) :=
  match ReadJSON b (json_zero : BalloonUpdate) with
  | inl err => Val (Some err, m)
  | inr res => match m with Some _ => Val (None, Some res) | None => Panic "nil pointer dereference" end
  end.

(** ** src/client/models/boot_source.go *)
Definition BootSource_fields : list (json_field BootSource) :=
  [field "boot_args" true BootSource_BootArgs (λ v '(mkBootSource _ b c), mkBootSource v b c);
   field "initrd_path" true BootSource_InitrdPath (λ v '(mkBootSource a _ c), mkBootSource a v c);
   field "kernel_image_path" false BootSource_KernelImagePath (λ v '(mkBootSource a b _), mkBootSource a b v)].

#[export] Instance BootSource_json : JsonCodec BootSource :=
  struct_codec "models.BootSource" (mkBootSource "" "" None) BootSource_fields.

#[export] Instance BootSource_laws : JsonLaws BootSource.
Proof. unfold BootSource_json, BootSource_fields. solve_struct_laws. Qed.
#[export] Instance BootSource_present : JsonPresent BootSource.
Proof. done. Qed.

Definition BootSource_MarshalBinary `{Swag} (m : option BootSource) : Err + option string :=
  match m with None => inr None | Some m => WriteJSON m end.
Definition BootSource_UnmarshalBinary `{Swag} (m : option BootSource) (b : string) : Outcome (error * option BootSource) :=
  match ReadJSON b (json_zero : BootSource) with
  | inl err => Val (Some err, m)
  | inr res => match m with Some _ => Val (None, Some res) | None => Panic "nil pointer dereference" end
  end.

(** ** src/client/models/drive.go *)
Definition Drive_fields : list (json_field Drive) :=
  [field "cache_type" true Drive_CacheType (λ v '(mkDrive _ b c d e f g h), mkDrive v b c d e f g h);
   field "drive_id" false Drive_DriveID (λ v '(mkDrive a _ c d e f g h), mkDrive a v c d e f g h);
   field "io_engine" true Drive_IoEngine (λ v '(mkDrive a b _ d e f g h), mkDrive a b v d e f g h);
   field "is_read_only" false Drive_IsReadOnly (λ v '(mkDrive a b c _ e f g h), mkDrive a b c v e f g h);
   field "is_root_device" false Drive_IsRootDevice (λ v '(mkDrive a b c d _ f g h), mkDrive a b c d v f g h);
   field "partuuid" true Drive_Partuuid (λ v '(mkDrive a b c d e _ g h), mkDrive a b c d e v g h);
   field "path_on_host" false Drive_PathOnHost (λ v '(mkDrive a b c d e f _ h), mkDrive a b c d e f v h);
   field "rate_limiter" true Drive_RateLimiter (λ v '(mkDrive a b c d e f g _), mkDrive a b c d e f g v)].

#[export] Instance Drive_json : JsonCodec Drive :=
  struct_codec "models.Drive" (mkDrive None None None None None "" None None) Drive_fields.

#[export] Instance Drive_laws : JsonLaws Drive.
Proof. unfold Drive_json, Drive_fields. solve_struct_laws. Qed.
#[export] Instance Drive_present : JsonPresent Drive.
Proof. done. Qed.

Definition Drive_MarshalBinary `{Swag} (m : option Drive) : Err + option string :=
  match m with None => inr None | Some m => WriteJSON m end.
Definition Drive_UnmarshalBinary `{Swag} (m : option Drive) (b : string) : Outcome (error * option Drive) :=
  match ReadJSON b (json_zero : Drive) with
  | inl err => Val (Some err, m)
  | inr res => match m with Some _ => Val (None, Some res) | None => Panic "nil pointer dereference" end
  end.

(** ** src/client/models/entropy_device.go *)
Definition EntropyDevice_fields : list (json_field EntropyDevice) :=
  [field "rate_limiter" true EntropyDevice_RateLimiter (λ v '(mkEntropyDevice _), mkEntropyDevice v)].

#[export] Instance EntropyDevice_json : JsonCodec EntropyDevice :=
  struct_codec "models.EntropyDevice" (mkEntropyDevice None) EntropyDevice_fields.

#[export] Instance EntropyDevice_laws : JsonLaws EntropyDevice.
Proof. unfold EntropyDevice_json, EntropyDevice_fields. solve_struct_laws. Qed.
#[export] Instance EntropyDevice_present : JsonPresent EntropyDevice.
Proof. done. Qed.

Definition EntropyDevice_MarshalBinary `{Swag} (m : option EntropyDevice) : Err + option string :=
  match m with None => inr None | Some m => WriteJSON m end.
Definition EntropyDevice_UnmarshalBinary `{Swag} (m : option EntropyDevice) (b : string) : Outcome (error * option EntropyDevice) :=
  match ReadJSON b (json_zero : EntropyDevice) with
  | inl err => Val (Some err, m)
  | inr res => match m with Some _ => Val (None, Some res) | None => Panic "nil pointer dereference" end
  end.

(** ** src/client/models/error.go *)
Definition Error_fields : list (json_field Error) :=
  [field "fault_message" true Error_FaultMessage (λ v '(mkError _), mkError v)].

#[export] Instance Error_json : JsonCodec Error :=
  struct_codec "models.Error" (mkError "") Error_fields.

#[export] Instance Error_laws : JsonLaws Error.
Proof. unfold Error_json, Error_fields. solve_struct_laws. Qed.
#[export] Instance Error_present : JsonPresent Error.
Proof. done. Qed.

Definition Error_MarshalBinary `{Swag} (m : option Error) : Err + option string :=
  match m with None => inr None | Some m => WriteJSON m end.
Definition Error_UnmarshalBinary `{Swag} (m : option Error) (b : string) : Outcome (error * option Error) :=
  match ReadJSON b (json_zero : Error) with
  | inl err => Val (Some err, m)
  | inr res => match m with Some _ => Val (None, Some res) | None => Panic "nil pointer dereference" end
  end.

(** ** src/client/models/firecracker_version.go *)
Definition FirecrackerVersion_fields : list (json_field FirecrackerVersion) :=
  [field "firecracker_version" false FirecrackerVersion_FirecrackerVersion (λ v '(mkFirecrackerVersion _), mkFirecrackerVersion v)].

#[export] Instance FirecrackerVersion_json : JsonCodec FirecrackerVersion :=
  struct_codec "models.FirecrackerVersion" (mkFirecrackerVersion None) FirecrackerVersion_fields.

#[export] Instance FirecrackerVersion_laws : JsonLaws FirecrackerVersion.
Proof. unfold FirecrackerVersion_json, FirecrackerVersion_fields. solve_struct_laws. Qed.
#[export] Instance FirecrackerVersion_present : JsonPresent FirecrackerVersion.
Proof. done. Qed.

Definition FirecrackerVersion_MarshalBinary `{Swag} (m : option FirecrackerVersion) : Err + option string :=
  match m with None => inr None | Some m => WriteJSON m end.
Definition FirecrackerVersion_UnmarshalBinary `{Swag} (m : option FirecrackerVersion) (b : string) : Outcome (error * option FirecrackerVersion) :=
  match ReadJSON b (json_zero : FirecrackerVersion) with
  | inl err => Val (Some err, m)
  | inr res => match m with Some _ => Val (None, Some res) | None => Panic "nil pointer dereference" end
  end.

(** ** src/client/models/instance_action_info.go *)
Definition InstanceActionInfo_fields : list (json_field InstanceActionInfo) :=
  [field "action_type" false InstanceActionInfo_ActionType (λ v '(mkInstanceActionInfo _), mkInstanceActionInfo v)].

#[export] Instance InstanceActionInfo_json : JsonCodec InstanceActionInfo :=
  struct_codec "models.InstanceActionInfo" (mkInstanceActionInfo None) InstanceActionInfo_fields.

#[export] Instance InstanceActionInfo_laws : JsonLaws InstanceActionInfo.
Proof. unfold InstanceActionInfo_json, InstanceActionInfo_fields. solve_struct_laws. Qed.
#[export] Instance InstanceActionInfo_present : JsonPresent InstanceActionInfo.
Proof. done. Qed.

Definition InstanceActionInfo_MarshalBinary `{Swag} (m : option InstanceActionInfo) : Err + option string :=
  match m with None => inr None | Some m => WriteJSON m end.
Definition InstanceActionInfo_UnmarshalBinary `{Swag} (m : option InstanceActionInfo) (b : string) : Outcome (error * option InstanceActionInfo) :=
  match ReadJSON b (json_zero : InstanceActionInfo) with
  | inl err => Val (Some err, m)
  | inr res => match m with Some _ => Val (None, Some res) | None => Panic "nil pointer dereference" end
  end.

(** ** src/client/models/instance_info.go *)
Definition InstanceInfo_fields : list (json_field InstanceInfo) :=
  [field "app_name" false InstanceInfo_AppName (λ v '(mkInstanceInfo _ b c d), mkInstanceInfo v b c d);
   field "id" false InstanceInfo_ID (λ v '(mkInstanceInfo a _ c d), mkInstanceInfo a v c d);
   field "state" false InstanceInfo_State (λ v '(mkInstanceInfo a b _ d), mkInstanceInfo a b v d);
   field "vmm_version" false InstanceInfo_VmmVersion (λ v '(mkInstanceInfo a b c _), mkInstanceInfo a b c v)].

#[export] Instance InstanceInfo_json : JsonCodec InstanceInfo :=
  struct_codec "models.InstanceInfo" (mkInstanceInfo None None None None) InstanceInfo_fields.

#[export] Instance InstanceInfo_laws : JsonLaws InstanceInfo.
Proof. unfold InstanceInfo_json, InstanceInfo_fields. solve_struct_laws. Qed.
#[export] Instance InstanceInfo_present : JsonPresent InstanceInfo.
Proof. done. Qed.

Definition InstanceInfo_MarshalBinary `{Swag} (m : option InstanceInfo) : Err + option string :=
  match m with None => inr None | Some m => WriteJSON m end.
Definition InstanceInfo_UnmarshalBinary `{Swag} (m : option InstanceInfo) (b : string) : Outcome (error * option InstanceInfo) :=
  match ReadJSON b (json_zero : InstanceInfo) with
  | inl err => Val (Some err, m)
  | inr res => match m with Some _ => Val (None, Some res) | None => Panic "nil pointer dereference" end
  end.

(** ** src/client/models/logger.go *)
Definition Logger_fields : list (json_field Logger) :=
  [field "level" true Logger_Level (λ v '(mkLogger _ b c d), mkLogger v b c d);
   field "log_path" false Logger_LogPath (λ v '(mkLogger a _ c d), mkLogger a v c d);
   field "show_level" true Logger_ShowLevel (λ v '(mkLogger a b _ d), mkLogger a b v d);
   field "show_log_origin" true Logger_ShowLogOrigin (λ v '(mkLogger a b c _), mkLogger a b c v)].

#[export] Instance Logger_json : JsonCodec Logger :=
  struct_codec "models.Logger" (mkLogger None None None None) Logger_fields.

#[export] Instance Logger_laws : JsonLaws Logger.
Proof. unfold Logger_json, Logger_fields. solve_struct_laws. Qed.
#[export] Instance Logger_present : JsonPresent Logger.
Proof. done. Qed.

Definition Logger_MarshalBinary `{Swag} (m : option Logger) : Err + option string :=
  match m with None => inr None | Some m => WriteJSON m end.
Definition Logger_UnmarshalBinary `{Swag} (m : option Logger) (b : string) : Outcome (error * option Logger) :=
  match ReadJSON b (json_zero : Logger) with
  | inl err => Val (Some err, m)
  | inr res => match m with Some _ => Val (None, Some res) | None => Panic "nil pointer dereference" end
  end.

(** ** src/client/models/machine_configuration.go *)
Definition MachineConfiguration_fields : list (json_field MachineConfiguration) :=
  [field "cpu_template" true MachineConfiguration_CPUTemplate (λ v '(mkMachineConfiguration _ b c d e), mkMachineConfiguration v b c d e);
   field "mem_size_mib" false MachineConfiguration_MemSizeMib (λ v '(mkMachineConfiguration a _ c d e), mkMachineConfiguration a v c d e);
   field "smt" true MachineConfiguration_Smt (λ v '(mkMachineConfiguration a b _ d e), mkMachineConfiguration a b v d e);
   field "track_dirty_pages" true MachineConfiguration_TrackDirtyPages (λ v '(mkMachineConfiguration a b c _ e), mkMachineConfiguration a b c v e);
   field "vcpu_count" false MachineConfiguration_VcpuCount (λ v '(mkMachineConfiguration a b c d _), mkMachineConfiguration a b c d v)].

#[export] Instance MachineConfiguration_json : JsonCodec MachineConfiguration :=
  struct_codec "models.MachineConfiguration" (mkMachineConfiguration "" None None None None) MachineConfiguration_fields.

#[export] Instance MachineConfiguration_laws : JsonLaws MachineConfiguration.
Proof. unfold MachineConfiguration_json, MachineConfiguration_fields. solve_struct_laws. Qed.
#[export] Instance MachineConfiguration_present : JsonPresent MachineConfiguration.
Proof. done. Qed.

Definition MachineConfiguration_MarshalBinary `{Swag} (m : option MachineConfiguration) : Err + option string :=
  match m with None => inr None | Some m => WriteJSON m end.
Definition MachineConfiguration_UnmarshalBinary `{Swag} (m : option MachineConfiguration) (b : string) : Outcome (error * option MachineConfiguration) :=
  match ReadJSON b (json_zero : MachineConfiguration) with
  | inl err => Val (Some err, m)
  | inr res => match m with Some _ => Val (None, Some res) | None => Panic "nil pointer dereference" end
  end.

(** ** src/client/models/memory_backend.go *)
Definition MemoryBackend_fields : list (json_field MemoryBackend) :=
  [field "backend_path" false MemoryBackend_BackendPath (λ v '(mkMemoryBackend _ b), mkMemoryBackend v b);
   field "backend_type" false MemoryBackend_BackendType (λ v '(mkMemoryBackend a _), mkMemoryBackend a v)].

#[export] Instance MemoryBackend_json : JsonCodec MemoryBackend :=
  struct_codec "models.MemoryBackend" (mkMemoryBackend None None) MemoryBackend_fields.

#[export] Instance MemoryBackend_laws : JsonLaws MemoryBackend.
Proof. unfold MemoryBackend_json, MemoryBackend_fields. solve_struct_laws. Qed.
#[export] Instance MemoryBackend_present : JsonPresent MemoryBackend.
Proof. done. Qed.

Definition MemoryBackend_MarshalBinary `{Swag} (m : option MemoryBackend) : Err + option string :=
  match m with None => inr None | Some m => WriteJSON m end.
Definition MemoryBackend_UnmarshalBinary `{Swag} (m : option MemoryBackend) (b : string) : Outcome (error * option MemoryBackend) :=
  match ReadJSON b (json_zero : MemoryBackend) with
  | inl err => Val (Some err, m)
  | inr res => match m with Some _ => Val (None, Some res) | None => Panic "nil pointer dereference" end
  end.

(** ** src/client/models/metrics.go *)
Definition Metrics_fields : list (json_field Metrics) :=
  [field "metrics_path" false Metrics_MetricsPath (λ v '(mkMetrics _), mkMetrics v)].

#[export] Instance Metrics_json : JsonCodec Metrics :=
  struct_codec "models.Metrics" (mkMetrics None) Metrics_fields.

#[export] Instance Metrics_laws : JsonLaws Metrics.
Proof. unfold Metrics_json, Metrics_fields. solve_struct_laws. Qed.
#[export] Instance Metrics_present : JsonPresent Metrics.
Proof. done. Qed.

Definition Metrics_MarshalBinary `{Swag} (m : option Metrics) : Err + option string :=
  match m with None => inr None | Some m => WriteJSON m end.
Definition Metrics_UnmarshalBinary `{Swag} (m : option Metrics) (b : string) : Outcome (error * option Metrics) :=
  match ReadJSON b (json_zero : Metrics) with
  | inl err => Val (Some err, m)
  | inr res => match m with Some _ => Val (None, Some res) | None => Panic "nil pointer dereference" end
  end.

(** ** src/client/models/mmds_config.go *)
Definition MmdsConfig_fields : list (json_field MmdsConfig) :=
  [field "ipv4_address" true MmdsConfig_IPV4Address (λ v '(mkMmdsConfig _ b c), mkMmdsConfig v b c);
   field "network_interfaces" false MmdsConfig_NetworkInterfaces (λ v '(mkMmdsConfig a _ c), mkMmdsConfig a v c);
   field "version" true MmdsConfig_Version (λ v '(mkMmdsConfig a b _), mkMmdsConfig a b v)].

#[export] Instance MmdsConfig_json : JsonCodec MmdsConfig :=
  struct_codec "models.MmdsConfig" (mkMmdsConfig None None None) MmdsConfig_fields.

#[export] Instance MmdsConfig_laws : JsonLaws MmdsConfig.
Proof. unfold MmdsConfig_json, MmdsConfig_fields. solve_struct_laws. Qed.
#[export] Instance MmdsConfig_present : JsonPresent MmdsConfig.
Proof. done. Qed.

Definition MmdsConfig_MarshalBinary `{Swag} (m : option MmdsConfig) : Err + option string :=
  match m with None => inr None | Some m => WriteJSON m end.
Definition MmdsConfig_UnmarshalBinary `{Swag} (m : option MmdsConfig) (b : string) : Outcome (error * option MmdsConfig) :=
  match ReadJSON b (json_zero : MmdsConfig) with
  | inl err => Val (Some err, m)
  | inr res => match m with Some _ => Val (None, Some res) | None => Panic "nil pointer dereference" end
  end.

(** ** src/client/models/network_interface.go *)
Definition NetworkInterface_fields : list (json_field NetworkInterface) :=
  [field "guest_mac" true NetworkInterface_GuestMac (λ v '(mkNetworkInterface _ b c d e), mkNetworkInterface v b c d e);
   field "host_dev_name" false NetworkInterface_HostDevName (λ v '(mkNetworkInterface a _ c d e), mkNetworkInterface a v c d e);
   field "iface_id" false NetworkInterface_IfaceID (λ v '(mkNetworkInterface a b _ d e), mkNetworkInterface a b v d e);
   field "rx_rate_limiter" true NetworkInterface_RxRateLimiter (λ v '(mkNetworkInterface a b c _ e), mkNetworkInterface a b c v e);
   field "tx_rate_limiter" true NetworkInterface_TxRateLimiter (λ v '(mkNetworkInterface a b c d _), mkNetworkInterface a b c d v)].

#[export] Instance NetworkInterface_json : JsonCodec NetworkInterface :=
  struct_codec "models.NetworkInterface" (mkNetworkInterface "" None None None None) NetworkInterface_fields.

#[export] Instance NetworkInterface_laws : JsonLaws NetworkInterface.
Proof. unfold NetworkInterface_json, NetworkInterface_fields. solve_struct_laws. Qed.
#[export] Instance NetworkInterface_present : JsonPresent NetworkInterface.
Proof. done. Qed.

Definition NetworkInterface_MarshalBinary `{Swag} (m : option NetworkInterface) : Err + option string :=
  match m with None => inr None | Some m => WriteJSON m end.
Definition NetworkInterface_UnmarshalBinary `{Swag} (m : option NetworkInterface) (b : string) : Outcome (error * option NetworkInterface) :=
  match ReadJSON b (json_zero : NetworkInterface) with
  | inl err => Val (Some err, m)
  | inr res => match m with Some _ => Val (None, Some res) | None => Panic "nil pointer dereference" end
  end.

(** ** src/client/models/partial_drive.go *)
Definition PartialDrive_fields : list (json_field PartialDrive) :=
  [field "drive_id" false PartialDrive_DriveID (λ v '(mkPartialDrive _ b c), mkPartialDrive v b c);
   field "path_on_host" true PartialDrive_PathOnHost (λ v '(mkPartialDrive a _ c), mkPartialDrive a v c);
   field "rate_limiter" true PartialDrive_RateLimiter (λ v '(mkPartialDrive a b _), mkPartialDrive a b v)].

#[export] Instance PartialDrive_json : JsonCodec PartialDrive :=
  struct_codec "models.PartialDrive" (mkPartialDrive None "" None) PartialDrive_fields.

#[export] Instance PartialDrive_laws : JsonLaws PartialDrive.
Proof. unfold PartialDrive_json, PartialDrive_fields. solve_struct_laws. Qed.
#[export] Instance PartialDrive_present : JsonPresent PartialDrive.
Proof. done. Qed.

Definition PartialDrive_MarshalBinary `{Swag} (m : option PartialDrive) : Err + option string :=
  match m with None => inr None | Some m => WriteJSON m end.
Definition PartialDrive_UnmarshalBinary `{Swag} (m : option PartialDrive) (b : string) : Outcome (error * option PartialDrive) :=
  match ReadJSON b (json_zero : PartialDrive) with
  | inl err => Val (Some err, m)
  | inr res => match m with Some _ => Val (None, Some res) | None => Panic "nil pointer dereference" end
  end.

(** ** src/client/models/partial_network_interface.go *)
Definition PartialNetworkInterface_fields : list (json_field PartialNetworkInterface) :=
  [field "iface_id" false PartialNetworkInterface_IfaceID (λ v '(mkPartialNetworkInterface _ b c), mkPartialNetworkInterface v b c);
   field "rx_rate_limiter" true PartialNetworkInterface_RxRateLimiter (λ v '(mkPartialNetworkInterface a _ c), mkPartialNetworkInterface a v c);
   field "tx_rate_limiter" true PartialNetworkInterface_TxRateLimiter (λ v '(mkPartialNetworkInterface a b _), mkPartialNetworkInterface a b v)].

#[export] Instance PartialNetworkInterface_json : JsonCodec PartialNetworkInterface :=
  struct_codec "models.PartialNetworkInterface" (mkPartialNetworkInterface None None None) PartialNetworkInterface_fields.

#[export] Instance PartialNetworkInterface_laws : JsonLaws PartialNetworkInterface.
Proof. unfold PartialNetworkInterface_json, PartialNetworkInterface_fields. solve_struct_laws. Qed.
#[export] Instance PartialNetworkInterface_present : JsonPresent PartialNetworkInterface.
Proof. done. Qed.

Definition PartialNetworkInterface_MarshalBinary `{Swag} (m : option PartialNetworkInterface) : Err + option string :=
  match m with None => inr None | Some m => WriteJSON m end.
Definition PartialNetworkInterface_UnmarshalBinary `{Swag} (m : option PartialNetworkInterface) (b : string) : Outcome (error * option PartialNetworkInterface) :=
  match ReadJSON b (json_zero : PartialNetworkInterface) with
  | inl err => Val (Some err, m)
  | inr res => match m with Some _ => Val (None, Some res) | None => Panic "nil pointer dereference" end
  end.

(** ** src/client/models/snapshot_create_params.go *)
Definition SnapshotCreateParams_fields : list (json_field SnapshotCreateParams) :=
  [field "mem_file_path" false SnapshotCreateParams_MemFilePath (λ v '(mkSnapshotCreateParams _ b c d), mkSnapshotCreateParams v b c d);
   field "snapshot_path" false SnapshotCreateParams_SnapshotPath (λ v '(mkSnapshotCreateParams a _ c d), mkSnapshotCreateParams a v c d);
   field "snapshot_type" true SnapshotCreateParams_SnapshotType (λ v '(mkSnapshotCreateParams a b _ d), mkSnapshotCreateParams a b v d);
   field "version" true SnapshotCreateParams_Version (λ v '(mkSnapshotCreateParams a b c _), mkSnapshotCreateParams a b c v)].

#[export] Instance SnapshotCreateParams_json : JsonCodec SnapshotCreateParams :=
  struct_codec "models.SnapshotCreateParams" (mkSnapshotCreateParams None None "" "") SnapshotCreateParams_fields.

#[export] Instance SnapshotCreateParams_laws : JsonLaws SnapshotCreateParams.
Proof. unfold SnapshotCreateParams_json, SnapshotCreateParams_fields. solve_struct_laws. Qed.
#[export] Instance SnapshotCreateParams_present : JsonPresent SnapshotCreateParams.
Proof. done. Qed.

Definition SnapshotCreateParams_MarshalBinary `{Swag} (m : option SnapshotCreateParams) : Err + option string :=
  match m with None => inr None | Some m => WriteJSON m end.
Definition SnapshotCreateParams_UnmarshalBinary `{Swag} (m : option SnapshotCreateParams) (b : string) : Outcome (error * option SnapshotCreateParams) :=
  match ReadJSON b (json_zero : SnapshotCreateParams) with
  | inl err => Val (Some err, m)
  | inr res => match m with Some _ => Val (None, Some res) | None => Panic "nil pointer dereference" end
  end.

(** ** src/client/models/snapshot_load_params.go *)
Definition SnapshotLoadParams_fields : list (json_field SnapshotLoadParams) :=
  [field "enable_diff_snapshots" true SnapshotLoadParams_EnableDiffSnapshots (λ v '(mkSnapshotLoadParams _ b c d e), mkSnapshotLoadParams v b c d e);
   field "mem_backend" true SnapshotLoadParams_MemBackend (λ v '(mkSnapshotLoadParams a _ c d e), mkSnapshotLoadParams a v c d e);
   field "mem_file_path" true SnapshotLoadParams_MemFilePath (λ v '(mkSnapshotLoadParams a b _ d e), mkSnapshotLoadParams a b v d e);
   field "resume_vm" true SnapshotLoadParams_ResumeVM (λ v '(mkSnapshotLoadParams a b c _ e), mkSnapshotLoadParams a b c v e);
   field "snapshot_path" false SnapshotLoadParams_SnapshotPath (λ v '(mkSnapshotLoadParams a b c d _), mkSnapshotLoadParams a b c d v)].

#[export] Instance SnapshotLoadParams_json : JsonCodec SnapshotLoadParams :=
  struct_codec "models.SnapshotLoadParams" (mkSnapshotLoadParams false None "" false None) SnapshotLoadParams_fields.

#[export] Instance SnapshotLoadParams_laws : JsonLaws SnapshotLoadParams.
Proof. unfold SnapshotLoadParams_json, SnapshotLoadParams_fields. solve_struct_laws. Qed.
#[export] Instance SnapshotLoadParams_present : JsonPresent SnapshotLoadParams.
Proof. done. Qed.

Definition SnapshotLoadParams_MarshalBinary `{Swag} (m : option SnapshotLoadParams) : Err + option string :=
  match m with None => inr None | Some m => WriteJSON m end.
Definition SnapshotLoadParams_UnmarshalBinary `{Swag} (m : option SnapshotLoadParams) (b : string) : Outcome (error * option SnapshotLoadParams) :=
  match ReadJSON b (json_zero : SnapshotLoadParams) with
  | inl err => Val (Some err, m)
  | inr res => match m with Some _ => Val (None, Some res) | None => Panic "nil pointer dereference" end
  end.

(** ** src/client/models/vm.go *)
Definition VM_fields : list (json_field VM) :=
  [field "state" false VM_State (λ v '(mkVM _), mkVM v)].

#[export] Instance VM_json : JsonCodec VM :=
  struct_codec "models.VM" (mkVM None) VM_fields.

#[export] Instance VM_laws : JsonLaws VM.
Proof. unfold VM_json, VM_fields. solve_struct_laws. Qed.
#[export] Instance VM_present : JsonPresent VM.
Proof. done. Qed.

Definition VM_MarshalBinary `{Swag} (m : option VM) : Err + option string :=
  match m with None => inr None | Some m => WriteJSON m end.
Definition VM_UnmarshalBinary `{Swag} (m : option VM) (b : string) : Outcome (error * option VM) :=
  match ReadJSON b (json_zero : VM) with
  | inl err => Val (Some err, m)
  | inr res => match m with Some _ => Val (None, Some res) | None => Panic "nil pointer dereference" end
  end.

(** ** src/client/models/vsock.go *)
Definition Vsock_fields : list (json_field Vsock) :=
  [field "guest_cid" false Vsock_GuestCid (λ v '(mkVsock _ b c), mkVsock v b c);
   field "uds_path" false Vsock_UdsPath (λ v '(mkVsock a _ c), mkVsock a v c);
   field "vsock_id" true Vsock_VsockID (λ v '(mkVsock a b _), mkVsock a b v)].

#[export] Instance Vsock_json : JsonCodec Vsock :=
  struct_codec "models.Vsock" (mkVsock None None "") Vsock_fields.

#[export] Instance Vsock_laws : JsonLaws Vsock.
Proof. unfold Vsock_json, Vsock_fields. solve_struct_laws. Qed.
#[export] Instance Vsock_present : JsonPresent Vsock.
Proof. done. Qed.

Definition Vsock_MarshalBinary `{Swag} (m : option Vsock) : Err + option string :=
  match m with None => inr None | Some m => WriteJSON m end.
Definition Vsock_UnmarshalBinary `{Swag} (m : option Vsock) (b : string) : Outcome (error * option Vsock) :=
  match ReadJSON b (json_zero : Vsock) with
  | inl err => Val (Some err, m)
  | inr res => match m with Some _ => Val (None, Some res) | None => Panic "nil pointer dereference" end
  end.

(** ** src/client/models/full_vm_configuration.go *)
Definition FullVMConfiguration_fields : list (json_field FullVMConfiguration) :=
  [field "balloon" true FullVMConfiguration_Balloon (λ v '(mkFullVMConfiguration _ b c d e f g h i), mkFullVMConfiguration v b c d e f g h i);
   field "boot-source" true FullVMConfiguration_BootSource (λ v '(mkFullVMConfiguration a _ c d e f g h i), mkFullVMConfiguration a v c d e f g h i);
   field "drives" false FullVMConfiguration_Drives (λ v '(mkFullVMConfiguration a b _ d e f g h i), mkFullVMConfiguration a b v d e f g h i);
   field "logger" true FullVMConfiguration_Logger (λ v '(mkFullVMConfiguration a b c _ e f g h i), mkFullVMConfiguration a b c v e f g h i);
   field "machine-config" true FullVMConfiguration_MachineConfig (λ v '(mkFullVMConfiguration a b c d _ f g h i), mkFullVMConfiguration a b c d v f g h i);
   field "metrics" true FullVMConfiguration_Metrics (λ v '(mkFullVMConfiguration a b c d e _ g h i), mkFullVMConfiguration a b c d e v g h i);
   field "mmds-config" true FullVMConfiguration_MmdsConfig (λ v '(mkFullVMConfiguration a b c d e f _ h i), mkFullVMConfiguration a b c d e f v h i);
   field "network-interfaces" false FullVMConfiguration_NetworkInterfaces (λ v '(mkFullVMConfiguration a b c d e f g _ i), mkFullVMConfiguration a b c d e f g v i);
   field "vsock" true FullVMConfiguration_Vsock (λ v '(mkFullVMConfiguration a b c d e f g h _), mkFullVMConfiguration a b c d e f g h v)].

#[export] Instance FullVMConfiguration_json : JsonCodec FullVMConfiguration :=
  struct_codec "models.FullVMConfiguration" (mkFullVMConfiguration None None None None None None None None None) FullVMConfiguration_fields.

#[export] Instance FullVMConfiguration_laws : JsonLaws FullVMConfiguration.
Proof. unfold FullVMConfiguration_json, FullVMConfiguration_fields. solve_struct_laws. Qed.
#[export] Instance FullVMConfiguration_present : JsonPresent FullVMConfiguration.
Proof. done. Qed.

Definition FullVMConfiguration_MarshalBinary `{Swag} (m : option FullVMConfiguration) : Err + option string :=
  match m with None => inr None | Some m => WriteJSON m end.
Definition FullVMConfiguration_UnmarshalBinary `{Swag} (m : option FullVMConfiguration) (b : string) : Outcome (error * option FullVMConfiguration) :=
  match ReadJSON b (json_zero : FullVMConfiguration) with
  | inl err => Val (Some err, m)
  | inr res => match m with Some _ => Val (None, Some res) | None => Panic "nil pointer dereference" end
  end.

(** ** All models *)
Inductive model_type :=
  | TTokenBucket
  | TRateLimiter
  | TBalloon
  | TBalloonStats
  | TBalloonStatsUpdate
  | TBalloonUpdate
  | TBootSource
  | TDrive
  | TEntropyDevice
  | TError
  | TFirecrackerVersion
  | TInstanceActionInfo
  | TInstanceInfo
  | TLogger
  | TMachineConfiguration
  | TMemoryBackend
  | TMetrics
  | TMmdsConfig
  | TNetworkInterface
  | TPartialDrive
  | TPartialNetworkInterface
  | TSnapshotCreateParams
  | TSnapshotLoadParams
  | TVM
  | TVsock
  | TFullVMConfiguration.

Definition model (t : model_type) : Type :=
  match t with
  | TTokenBucket => TokenBucket
  | TRateLimiter => RateLimiter
  | TBalloon => Balloon
  | TBalloonStats => BalloonStats
  | TBalloonStatsUpdate => BalloonStatsUpdate
  | TBalloonUpdate => BalloonUpdate
  | TBootSource => BootSource
  | TDrive => Drive
  | TEntropyDevice => EntropyDevice
  | TError => Error
  | TFirecrackerVersion => FirecrackerVersion
  | TInstanceActionInfo => InstanceActionInfo
  | TInstanceInfo => InstanceInfo
  | TLogger => Logger
  | TMachineConfiguration => MachineConfiguration
  | TMemoryBackend => MemoryBackend
  | TMetrics => Metrics
  | TMmdsConfig => MmdsConfig
  | TNetworkInterface => NetworkInterface
  | TPartialDrive => PartialDrive
  | TPartialNetworkInterface => PartialNetworkInterface
  | TSnapshotCreateParams => SnapshotCreateParams
  | TSnapshotLoadParams => SnapshotLoadParams
  | TVM => VM
  | TVsock => Vsock
  | TFullVMConfiguration => FullVMConfiguration
  end.

#[export] Instance model_json (t : model_type) : JsonCodec (model t) :=
  match t with
  | TTokenBucket => TokenBucket_json
  | TRateLimiter => RateLimiter_json
  | TBalloon => Balloon_json
  | TBalloonStats => BalloonStats_json
  | TBalloonStatsUpdate => BalloonStatsUpdate_json
  | TBalloonUpdate => BalloonUpdate_json
  | TBootSource => BootSource_json
  | TDrive => Drive_json
  | TEntropyDevice => EntropyDevice_json
  | TError => Error_json
  | TFirecrackerVersion => FirecrackerVersion_json
  | TInstanceActionInfo => InstanceActionInfo_json
  | TInstanceInfo => InstanceInfo_json
  | TLogger => Logger_json
  | TMachineConfiguration => MachineConfiguration_json
  | TMemoryBackend => MemoryBackend_json
  | TMetrics => Metrics_json
  | TMmdsConfig => MmdsConfig_json
  | TNetworkInterface => NetworkInterface_json
  | TPartialDrive => PartialDrive_json
  | TPartialNetworkInterface => PartialNetworkInterface_json
  | TSnapshotCreateParams => SnapshotCreateParams_json
  | TSnapshotLoadParams => SnapshotLoadParams_json
  | TVM => VM_json
  | TVsock => Vsock_json
  | TFullVMConfiguration => FullVMConfiguration_json
  end.

#[export] Instance model_laws (t : model_type) : JsonLaws (model t).
Proof. destruct t; exact _. Qed.

Section binary.
Context `{Swag}.

Definition MarshalBinary (t : model_type) : option (model t) → Err + option string :=
  match t with
  | TTokenBucket => TokenBucket_MarshalBinary
  | TRateLimiter => RateLimiter_MarshalBinary
  | TBalloon => Balloon_MarshalBinary
  | TBalloonStats => BalloonStats_MarshalBinary
  | TBalloonStatsUpdate => BalloonStatsUpdate_MarshalBinary
  | TBalloonUpdate => BalloonUpdate_MarshalBinary
  | TBootSource => BootSource_MarshalBinary
  | TDrive => Drive_MarshalBinary
  | TEntropyDevice => EntropyDevice_MarshalBinary
  | TError => Error_MarshalBinary
  | TFirecrackerVersion => FirecrackerVersion_MarshalBinary
  | TInstanceActionInfo => InstanceActionInfo_MarshalBinary
  | TInstanceInfo => InstanceInfo_MarshalBinary
  | TLogger => Logger_MarshalBinary
  | TMachineConfiguration => MachineConfiguration_MarshalBinary
  | TMemoryBackend => MemoryBackend_MarshalBinary
  | TMetrics => Metrics_MarshalBinary
  | TMmdsConfig => MmdsConfig_MarshalBinary
  | TNetworkInterface => NetworkInterface_MarshalBinary
  | TPartialDrive => PartialDrive_MarshalBinary
  | TPartialNetworkInterface => PartialNetworkInterface_MarshalBinary
  | TSnapshotCreateParams => SnapshotCreateParams_MarshalBinary
  | TSnapshotLoadParams => SnapshotLoadParams_MarshalBinary
  | TVM => VM_MarshalBinary
  | TVsock => Vsock_MarshalBinary
  | TFullVMConfiguration => FullVMConfiguration_MarshalBinary
  end.

Definition UnmarshalBinary (t : model_type) : option (model t) → string → Outcome (error * option (model t)) :=
  match t with
  | TTokenBucket => TokenBucket_UnmarshalBinary
  | TRateLimiter => RateLimiter_UnmarshalBinary
  | TBalloon => Balloon_UnmarshalBinary
  | TBalloonStats => BalloonStats_UnmarshalBinary
  | TBalloonStatsUpdate => BalloonStatsUpdate_UnmarshalBinary
  | TBalloonUpdate => BalloonUpdate_UnmarshalBinary
  | TBootSource => BootSource_UnmarshalBinary
  | TDrive => Drive_UnmarshalBinary
  | TEntropyDevice => EntropyDevice_UnmarshalBinary
  | TError => Error_UnmarshalBinary
  | TFirecrackerVersion => FirecrackerVersion_UnmarshalBinary
  | TInstanceActionInfo => InstanceActionInfo_UnmarshalBinary
  | TInstanceInfo => InstanceInfo_UnmarshalBinary
  | TLogger => Logger_UnmarshalBinary
  | TMachineConfiguration => MachineConfiguration_UnmarshalBinary
  | TMemoryBackend => MemoryBackend_UnmarshalBinary
  | TMetrics => Metrics_UnmarshalBinary
  | TMmdsConfig => MmdsConfig_UnmarshalBinary
  | TNetworkInterface => NetworkInterface_UnmarshalBinary
  | TPartialDrive => PartialDrive_UnmarshalBinary
  | TPartialNetworkInterface => PartialNetworkInterface_UnmarshalBinary
  | TSnapshotCreateParams => SnapshotCreateParams_UnmarshalBinary
  | TSnapshotLoadParams => SnapshotLoadParams_UnmarshalBinary
  | TVM => VM_UnmarshalBinary
  | TVsock => Vsock_UnmarshalBinary
  | TFullVMConfiguration => FullVMConfiguration_UnmarshalBinary
  end.

Lemma MarshalBinary_json (t : model_type) (m : model t) : MarshalBinary t (Some m) = WriteJSON m.
Proof. by destruct t. Qed.

Lemma UnmarshalBinary_json (t : model_type) (m : option (model t)) b :
  UnmarshalBinary t m b =
    match ReadJSON b (json_zero : model t) with
    | inl err => Val (Some err, m)
    | inr res => match m with Some _ => Val (None, Some res) | None => Panic "nil pointer dereference" end
    end.
Proof. by destruct t. Qed.

(** C27. Round trip of the binary form of every model: a model within the range of
    its integers and with valid strings is written without error, and reading
    the bytes into any receiver gives the model back, whatever the receiver held.
    A nil model is written as no bytes, and bytes that cannot be read leave the
    receiver as it was. *)
Theorem binary_roundtrip `{!SwagLaws} (t : model_type) (x : model t) :
  json_wf x →
  ∃ b, MarshalBinary t (Some x) = inr (Some b) ∧
       (∀ m, UnmarshalBinary t (Some m) b = Val (None, Some x)) ∧
       MarshalBinary t None = inr None ∧
       (∀ b' m, match UnmarshalBinary t (Some m) b' with
                | Val (Some _, m') => m' = Some m
                | Val (None, m') => ReadJSON b' (json_zero : model t) = inr (default m m')
                | _ => False
                end).
Proof.
  intros Hx. destruct (ReadJSON_WriteJSON x Hx) as (b & Hw & Hr). exists b.
  rewrite MarshalBinary_json. split; [done|]. split; [|split; [by destruct t|]].
  - intros m. by rewrite UnmarshalBinary_json, Hr.
  - intros b' m. rewrite UnmarshalBinary_json. by destruct (ReadJSON b' _).
Qed.
End binary.

Module Examples.
Definition drive : Drive :=
  mkDrive None (Some "rootfs") None (Some false) (Some true) "" (Some "/images/root fs")
    (Some (mkRateLimiter (Some (mkTokenBucket None (Some 100) (Some (2^62)))) None)).

(** A drive with a rate limiter: the fields that are nil or empty and tagged
    omitempty are left out. *)
Lemma binary_roundtrip_witness :
  json_wf drive ∧
  ∃ b, MarshalBinary TDrive (Some drive) = inr (Some b) ∧
    b = double_quotes "{'drive_id':'rootfs','is_read_only':false,'is_root_device':true,'path_on_host':'/images/root fs','rate_limiter':{'bandwidth':{'refill_time':100,'size':4611686018427387904}}}" ∧
    UnmarshalBinary TDrive (Some (json_zero : Drive)) b = Val (None, Some drive).
Proof.
  assert (@json_wf (model TDrive) _ drive) as Hw.
  { repeat constructor; vm_compute; discriminate. }
  split; [exact Hw|]. destruct (binary_roundtrip TDrive drive Hw) as (b & Hb & Hr & _).
  exists b. split; [exact Hb|]. split; [|apply (Hr (json_zero : Drive))].
  vm_compute in Hb. injection Hb as <-. vm_compute. reflexivity.
Defined.

(** A number written with an exponent is not an integer for a model, and a key in
    another case is still that of the field. *)
Example unmarshal_exponent :
  UnmarshalBinary TTokenBucket (Some (json_zero : TokenBucket)) (double_quotes "{'size':1e3}") =
    Val (Some (unmarshal_type_error "number 1e3" "int64"), Some (json_zero : TokenBucket)).
Proof. vm_compute. reflexivity. Qed.
Example unmarshal_case :
  UnmarshalBinary TTokenBucket (Some (json_zero : TokenBucket)) (double_quotes "{'Size':7,'size':null,'other':[]}") =
    Val (None, Some (json_zero : TokenBucket)).
Proof. vm_compute. reflexivity. Qed.
End Examples.
