(* ===== verification/ApiParams.v ===== *)
(** * Parameters of the API operations (src/client/operations/*_parameters.go)

    One record per operation with its constructors and setters, and the
    interface [ClientIface] the SDK calls.  The default timeout of the go-openapi
    client is third-party code, hence the class [DefaultTimeout]. *)

From stdpp Require Import strings list.
From Stdlib Require Import ZArith.
From S2P Require Import Prelude Models Json.

Open Scope Z_scope.

(** The identity of an [*http.Client]. *)
Definition HTTPClient : Type := nat.

(** [interface{}] data for the metadata store
    (src/client/models/mmds_contents_object.go). *)
Definition MmdsContentsObject : Type := interface_value.
#[export] Instance MmdsContentsObject_json : JsonCodec MmdsContentsObject := interface_json.
#[export] Instance MmdsContentsObject_eq_dec : EqDecision MmdsContentsObject.
Proof. exact (@option_eq_dec json json_eq_dec). Defined.
#[export] Instance MmdsContentsObject_laws : JsonLaws MmdsContentsObject.
Proof. exact interface_laws. Qed.

(** src/client/models/cpu_config.go *)
Definition CPUConfig : Type := string.

(** [cr.DefaultTimeout] of go-openapi/runtime/client. *)
Class DefaultTimeout := cr_DefaultTimeout : Z.

(** ** CreateSnapshot (src/client/operations/create_snapshot_parameters.go) *)
Record CreateSnapshotParams := mkCreateSnapshotParams {
  CreateSnapshotParams_Body : option SnapshotCreateParams;
  CreateSnapshotParams_timeout : Z;
  CreateSnapshotParams_Context : option go_context;
  CreateSnapshotParams_HTTPClient : option HTTPClient
}.
Definition NewCreateSnapshotParams `{DefaultTimeout} : CreateSnapshotParams := mkCreateSnapshotParams None cr_DefaultTimeout None None.
Definition NewCreateSnapshotParamsWithTimeout (timeout : Z) : CreateSnapshotParams := mkCreateSnapshotParams None timeout None None.
Definition NewCreateSnapshotParamsWithContext (ctx : option go_context) : CreateSnapshotParams := mkCreateSnapshotParams None 0 ctx None.
Definition NewCreateSnapshotParamsWithHTTPClient (client : option HTTPClient) : CreateSnapshotParams := mkCreateSnapshotParams None 0 None client.
Definition CreateSnapshotParams_SetTimeout (o : CreateSnapshotParams) (timeout : Z) : CreateSnapshotParams :=
  mkCreateSnapshotParams (CreateSnapshotParams_Body o) timeout (CreateSnapshotParams_Context o) (CreateSnapshotParams_HTTPClient o).
Definition CreateSnapshotParams_WithTimeout (o : CreateSnapshotParams) (timeout : Z) : CreateSnapshotParams := CreateSnapshotParams_SetTimeout o timeout.
Definition CreateSnapshotParams_SetContext (o : CreateSnapshotParams) (ctx : option go_context) : CreateSnapshotParams :=
  mkCreateSnapshotParams (CreateSnapshotParams_Body o) (CreateSnapshotParams_timeout o) ctx (CreateSnapshotParams_HTTPClient o).
Definition CreateSnapshotParams_WithContext (o : CreateSnapshotParams) (ctx : option go_context) : CreateSnapshotParams := CreateSnapshotParams_SetContext o ctx.
Definition CreateSnapshotParams_SetHTTPClient (o : CreateSnapshotParams) (client : option HTTPClient) : CreateSnapshotParams :=
  mkCreateSnapshotParams (CreateSnapshotParams_Body o) (CreateSnapshotParams_timeout o) (CreateSnapshotParams_Context o) client.
Definition CreateSnapshotParams_WithHTTPClient (o : CreateSnapshotParams) (client : option HTTPClient) : CreateSnapshotParams := CreateSnapshotParams_SetHTTPClient o client.
Definition CreateSnapshotParams_SetBody (o : CreateSnapshotParams) (body : option SnapshotCreateParams) : CreateSnapshotParams :=
  mkCreateSnapshotParams body (CreateSnapshotParams_timeout o) (CreateSnapshotParams_Context o) (CreateSnapshotParams_HTTPClient o).
Definition CreateSnapshotParams_WithBody (o : CreateSnapshotParams) (body : option SnapshotCreateParams) : CreateSnapshotParams := CreateSnapshotParams_SetBody o body.

(** ** CreateSyncAction (src/client/operations/create_sync_action_parameters.go) *)
Record CreateSyncActionParams := mkCreateSyncActionParams {
  CreateSyncActionParams_Info : option InstanceActionInfo;
  CreateSyncActionParams_timeout : Z;
  CreateSyncActionParams_Context : option go_context;
  CreateSyncActionParams_HTTPClient : option HTTPClient
}.
Definition NewCreateSyncActionParams `{DefaultTimeout} : CreateSyncActionParams := mkCreateSyncActionParams None cr_DefaultTimeout None None.
Definition NewCreateSyncActionParamsWithTimeout (timeout : Z) : CreateSyncActionParams := mkCreateSyncActionParams None timeout None None.
Definition NewCreateSyncActionParamsWithContext (ctx : option go_context) : CreateSyncActionParams := mkCreateSyncActionParams None 0 ctx None.
Definition NewCreateSyncActionParamsWithHTTPClient (client : option HTTPClient) : CreateSyncActionParams := mkCreateSyncActionParams None 0 None client.
Definition CreateSyncActionParams_SetTimeout (o : CreateSyncActionParams) (timeout : Z) : CreateSyncActionParams :=
  mkCreateSyncActionParams (CreateSyncActionParams_Info o) timeout (CreateSyncActionParams_Context o) (CreateSyncActionParams_HTTPClient o).
Definition CreateSyncActionParams_WithTimeout (o : CreateSyncActionParams) (timeout : Z) : CreateSyncActionParams := CreateSyncActionParams_SetTimeout o timeout.
Definition CreateSyncActionParams_SetContext (o : CreateSyncActionParams) (ctx : option go_context) : CreateSyncActionParams :=
  mkCreateSyncActionParams (CreateSyncActionParams_Info o) (CreateSyncActionParams_timeout o) ctx (CreateSyncActionParams_HTTPClient o).
Definition CreateSyncActionParams_WithContext (o : CreateSyncActionParams) (ctx : option go_context) : CreateSyncActionParams := CreateSyncActionParams_SetContext o ctx.
Definition CreateSyncActionParams_SetHTTPClient (o : CreateSyncActionParams) (client : option HTTPClient) : CreateSyncActionParams :=
  mkCreateSyncActionParams (CreateSyncActionParams_Info o) (CreateSyncActionParams_timeout o) (CreateSyncActionParams_Context o) client.
Definition CreateSyncActionParams_WithHTTPClient (o : CreateSyncActionParams) (client : option HTTPClient) : CreateSyncActionParams := CreateSyncActionParams_SetHTTPClient o client.
Definition CreateSyncActionParams_SetInfo (o : CreateSyncActionParams) (info : option InstanceActionInfo) : CreateSyncActionParams :=
  mkCreateSyncActionParams info (CreateSyncActionParams_timeout o) (CreateSyncActionParams_Context o) (CreateSyncActionParams_HTTPClient o).
Definition CreateSyncActionParams_WithInfo (o : CreateSyncActionParams) (info : option InstanceActionInfo) : CreateSyncActionParams := CreateSyncActionParams_SetInfo o info.

(** ** DescribeBalloonConfig (src/client/operations/describe_balloon_config_parameters.go) *)
Record DescribeBalloonConfigParams := mkDescribeBalloonConfigParams {
  DescribeBalloonConfigParams_timeout : Z;
  DescribeBalloonConfigParams_Context : option go_context;
  DescribeBalloonConfigParams_HTTPClient : option HTTPClient
}.
Definition NewDescribeBalloonConfigParams `{DefaultTimeout} : DescribeBalloonConfigParams := mkDescribeBalloonConfigParams cr_DefaultTimeout None None.
Definition NewDescribeBalloonConfigParamsWithTimeout (timeout : Z) : DescribeBalloonConfigParams := mkDescribeBalloonConfigParams timeout None None.
Definition NewDescribeBalloonConfigParamsWithContext (ctx : option go_context) : DescribeBalloonConfigParams := mkDescribeBalloonConfigParams 0 ctx None.
Definition NewDescribeBalloonConfigParamsWithHTTPClient (client : option HTTPClient) : DescribeBalloonConfigParams := mkDescribeBalloonConfigParams 0 None client.
Definition DescribeBalloonConfigParams_SetTimeout (o : DescribeBalloonConfigParams) (timeout : Z) : DescribeBalloonConfigParams :=
  mkDescribeBalloonConfigParams timeout (DescribeBalloonConfigParams_Context o) (DescribeBalloonConfigParams_HTTPClient o).
Definition DescribeBalloonConfigParams_WithTimeout (o : DescribeBalloonConfigParams) (timeout : Z) : DescribeBalloonConfigParams := DescribeBalloonConfigParams_SetTimeout o timeout.
Definition DescribeBalloonConfigParams_SetContext (o : DescribeBalloonConfigParams) (ctx : option go_context) : DescribeBalloonConfigParams :=
  mkDescribeBalloonConfigParams (DescribeBalloonConfigParams_timeout o) ctx (DescribeBalloonConfigParams_HTTPClient o).
Definition DescribeBalloonConfigParams_WithContext (o : DescribeBalloonConfigParams) (ctx : option go_context) : DescribeBalloonConfigParams := DescribeBalloonConfigParams_SetContext o ctx.
Definition DescribeBalloonConfigParams_SetHTTPClient (o : DescribeBalloonConfigParams) (client : option HTTPClient) : DescribeBalloonConfigParams :=
  mkDescribeBalloonConfigParams (DescribeBalloonConfigParams_timeout o) (DescribeBalloonConfigParams_Context o) client.
Definition DescribeBalloonConfigParams_WithHTTPClient (o : DescribeBalloonConfigParams) (client : option HTTPClient) : DescribeBalloonConfigParams := DescribeBalloonConfigParams_SetHTTPClient o client.

(** ** DescribeBalloonStats (src/client/operations/describe_balloon_stats_parameters.go) *)
Record DescribeBalloonStatsParams := mkDescribeBalloonStatsParams {
  DescribeBalloonStatsParams_timeout : Z;
  DescribeBalloonStatsParams_Context : option go_context;
  DescribeBalloonStatsParams_HTTPClient : option HTTPClient
}.
Definition NewDescribeBalloonStatsParams `{DefaultTimeout} : DescribeBalloonStatsParams := mkDescribeBalloonStatsParams cr_DefaultTimeout None None.
Definition NewDescribeBalloonStatsParamsWithTimeout (timeout : Z) : DescribeBalloonStatsParams := mkDescribeBalloonStatsParams timeout None None.
Definition NewDescribeBalloonStatsParamsWithContext (ctx : option go_context) : DescribeBalloonStatsParams := mkDescribeBalloonStatsParams 0 ctx None.
Definition NewDescribeBalloonStatsParamsWithHTTPClient (client : option HTTPClient) : DescribeBalloonStatsParams := mkDescribeBalloonStatsParams 0 None client.
Definition DescribeBalloonStatsParams_SetTimeout (o : DescribeBalloonStatsParams) (timeout : Z) : DescribeBalloonStatsParams :=
  mkDescribeBalloonStatsParams timeout (DescribeBalloonStatsParams_Context o) (DescribeBalloonStatsParams_HTTPClient o).
Definition DescribeBalloonStatsParams_WithTimeout (o : DescribeBalloonStatsParams) (timeout : Z) : DescribeBalloonStatsParams := DescribeBalloonStatsParams_SetTimeout o timeout.
Definition DescribeBalloonStatsParams_SetContext (o : DescribeBalloonStatsParams) (ctx : option go_context) : DescribeBalloonStatsParams :=
  mkDescribeBalloonStatsParams (DescribeBalloonStatsParams_timeout o) ctx (DescribeBalloonStatsParams_HTTPClient o).
Definition DescribeBalloonStatsParams_WithContext (o : DescribeBalloonStatsParams) (ctx : option go_context) : DescribeBalloonStatsParams := DescribeBalloonStatsParams_SetContext o ctx.
Definition DescribeBalloonStatsParams_SetHTTPClient (o : DescribeBalloonStatsParams) (client : option HTTPClient) : DescribeBalloonStatsParams :=
  mkDescribeBalloonStatsParams (DescribeBalloonStatsParams_timeout o) (DescribeBalloonStatsParams_Context o) client.
Definition DescribeBalloonStatsParams_WithHTTPClient (o : DescribeBalloonStatsParams) (client : option HTTPClient) : DescribeBalloonStatsParams := DescribeBalloonStatsParams_SetHTTPClient o client.

(** ** DescribeInstance (src/client/operations/describe_instance_parameters.go) *)
Record DescribeInstanceParams := mkDescribeInstanceParams {
  DescribeInstanceParams_timeout : Z;
  DescribeInstanceParams_Context : option go_context;
  DescribeInstanceParams_HTTPClient : option HTTPClient
}.
Definition NewDescribeInstanceParams `{DefaultTimeout} : DescribeInstanceParams := mkDescribeInstanceParams cr_DefaultTimeout None None.
Definition NewDescribeInstanceParamsWithTimeout (timeout : Z) : DescribeInstanceParams := mkDescribeInstanceParams timeout None None.
Definition NewDescribeInstanceParamsWithContext (ctx : option go_context) : DescribeInstanceParams := mkDescribeInstanceParams 0 ctx None.
Definition NewDescribeInstanceParamsWithHTTPClient (client : option HTTPClient) : DescribeInstanceParams := mkDescribeInstanceParams 0 None client.
Definition DescribeInstanceParams_SetTimeout (o : DescribeInstanceParams) (timeout : Z) : DescribeInstanceParams :=
  mkDescribeInstanceParams timeout (DescribeInstanceParams_Context o) (DescribeInstanceParams_HTTPClient o).
Definition DescribeInstanceParams_WithTimeout (o : DescribeInstanceParams) (timeout : Z) : DescribeInstanceParams := DescribeInstanceParams_SetTimeout o timeout.
Definition DescribeInstanceParams_SetContext (o : DescribeInstanceParams) (ctx : option go_context) : DescribeInstanceParams :=
  mkDescribeInstanceParams (DescribeInstanceParams_timeout o) ctx (DescribeInstanceParams_HTTPClient o).
Definition DescribeInstanceParams_WithContext (o : DescribeInstanceParams) (ctx : option go_context) : DescribeInstanceParams := DescribeInstanceParams_SetContext o ctx.
Definition DescribeInstanceParams_SetHTTPClient (o : DescribeInstanceParams) (client : option HTTPClient) : DescribeInstanceParams :=
  mkDescribeInstanceParams (DescribeInstanceParams_timeout o) (DescribeInstanceParams_Context o) client.
Definition DescribeInstanceParams_WithHTTPClient (o : DescribeInstanceParams) (client : option HTTPClient) : DescribeInstanceParams := DescribeInstanceParams_SetHTTPClient o client.

(** ** GetExportVMConfig (src/client/operations/get_export_vm_config_parameters.go) *)
Record GetExportVMConfigParams := mkGetExportVMConfigParams {
  GetExportVMConfigParams_timeout : Z;
  GetExportVMConfigParams_Context : option go_context;
  GetExportVMConfigParams_HTTPClient : option HTTPClient
}.
Definition NewGetExportVMConfigParams `{DefaultTimeout} : GetExportVMConfigParams := mkGetExportVMConfigParams cr_DefaultTimeout None None.
Definition NewGetExportVMConfigParamsWithTimeout (timeout : Z) : GetExportVMConfigParams := mkGetExportVMConfigParams timeout None None.
Definition NewGetExportVMConfigParamsWithContext (ctx : option go_context) : GetExportVMConfigParams := mkGetExportVMConfigParams 0 ctx None.
Definition NewGetExportVMConfigParamsWithHTTPClient (client : option HTTPClient) : GetExportVMConfigParams := mkGetExportVMConfigParams 0 None client.
Definition GetExportVMConfigParams_SetTimeout (o : GetExportVMConfigParams) (timeout : Z) : GetExportVMConfigParams :=
  mkGetExportVMConfigParams timeout (GetExportVMConfigParams_Context o) (GetExportVMConfigParams_HTTPClient o).
Definition GetExportVMConfigParams_WithTimeout (o : GetExportVMConfigParams) (timeout : Z) : GetExportVMConfigParams := GetExportVMConfigParams_SetTimeout o timeout.
Definition GetExportVMConfigParams_SetContext (o : GetExportVMConfigParams) (ctx : option go_context) : GetExportVMConfigParams :=
  mkGetExportVMConfigParams (GetExportVMConfigParams_timeout o) ctx (GetExportVMConfigParams_HTTPClient o).
Definition GetExportVMConfigParams_WithContext (o : GetExportVMConfigParams) (ctx : option go_context) : GetExportVMConfigParams := GetExportVMConfigParams_SetContext o ctx.
Definition GetExportVMConfigParams_SetHTTPClient (o : GetExportVMConfigParams) (client : option HTTPClient) : GetExportVMConfigParams :=
  mkGetExportVMConfigParams (GetExportVMConfigParams_timeout o) (GetExportVMConfigParams_Context o) client.
Definition GetExportVMConfigParams_WithHTTPClient (o : GetExportVMConfigParams) (client : option HTTPClient) : GetExportVMConfigParams := GetExportVMConfigParams_SetHTTPClient o client.

(** ** GetFirecrackerVersion (src/client/operations/get_firecracker_version_parameters.go) *)
Record GetFirecrackerVersionParams := mkGetFirecrackerVersionParams {
  GetFirecrackerVersionParams_timeout : Z;
  GetFirecrackerVersionParams_Context : option go_context;
  GetFirecrackerVersionParams_HTTPClient : option HTTPClient
}.
Definition NewGetFirecrackerVersionParams `{DefaultTimeout} : GetFirecrackerVersionParams := mkGetFirecrackerVersionParams cr_DefaultTimeout None None.
Definition NewGetFirecrackerVersionParamsWithTimeout (timeout : Z) : GetFirecrackerVersionParams := mkGetFirecrackerVersionParams timeout None None.
Definition NewGetFirecrackerVersionParamsWithContext (ctx : option go_context) : GetFirecrackerVersionParams := mkGetFirecrackerVersionParams 0 ctx None.
Definition NewGetFirecrackerVersionParamsWithHTTPClient (client : option HTTPClient) : GetFirecrackerVersionParams := mkGetFirecrackerVersionParams 0 None client.
Definition GetFirecrackerVersionParams_SetTimeout (o : GetFirecrackerVersionParams) (timeout : Z) : GetFirecrackerVersionParams :=
  mkGetFirecrackerVersionParams timeout (GetFirecrackerVersionParams_Context o) (GetFirecrackerVersionParams_HTTPClient o).
Definition GetFirecrackerVersionParams_WithTimeout (o : GetFirecrackerVersionParams) (timeout : Z) : GetFirecrackerVersionParams := GetFirecrackerVersionParams_SetTimeout o timeout.
Definition GetFirecrackerVersionParams_SetContext (o : GetFirecrackerVersionParams) (ctx : option go_context) : GetFirecrackerVersionParams :=
  mkGetFirecrackerVersionParams (GetFirecrackerVersionParams_timeout o) ctx (GetFirecrackerVersionParams_HTTPClient o).
Definition GetFirecrackerVersionParams_WithContext (o : GetFirecrackerVersionParams) (ctx : option go_context) : GetFirecrackerVersionParams := GetFirecrackerVersionParams_SetContext o ctx.
Definition GetFirecrackerVersionParams_SetHTTPClient (o : GetFirecrackerVersionParams) (client : option HTTPClient) : GetFirecrackerVersionParams :=
  mkGetFirecrackerVersionParams (GetFirecrackerVersionParams_timeout o) (GetFirecrackerVersionParams_Context o) client.
Definition GetFirecrackerVersionParams_WithHTTPClient (o : GetFirecrackerVersionParams) (client : option HTTPClient) : GetFirecrackerVersionParams := GetFirecrackerVersionParams_SetHTTPClient o client.

(** ** GetMachineConfiguration (src/client/operations/get_machine_configuration_parameters.go) *)
Record GetMachineConfigurationParams := mkGetMachineConfigurationParams {
  GetMachineConfigurationParams_timeout : Z;
  GetMachineConfigurationParams_Context : option go_context;
  GetMachineConfigurationParams_HTTPClient : option HTTPClient
}.
Definition NewGetMachineConfigurationParams `{DefaultTimeout} : GetMachineConfigurationParams := mkGetMachineConfigurationParams cr_DefaultTimeout None None.
Definition NewGetMachineConfigurationParamsWithTimeout (timeout : Z) : GetMachineConfigurationParams := mkGetMachineConfigurationParams timeout None None.
Definition NewGetMachineConfigurationParamsWithContext (ctx : option go_context) : GetMachineConfigurationParams := mkGetMachineConfigurationParams 0 ctx None.
Definition NewGetMachineConfigurationParamsWithHTTPClient (client : option HTTPClient) : GetMachineConfigurationParams := mkGetMachineConfigurationParams 0 None client.
Definition GetMachineConfigurationParams_SetTimeout (o : GetMachineConfigurationParams) (timeout : Z) : GetMachineConfigurationParams :=
  mkGetMachineConfigurationParams timeout (GetMachineConfigurationParams_Context o) (GetMachineConfigurationParams_HTTPClient o).
Definition GetMachineConfigurationParams_WithTimeout (o : GetMachineConfigurationParams) (timeout : Z) : GetMachineConfigurationParams := GetMachineConfigurationParams_SetTimeout o timeout.
Definition GetMachineConfigurationParams_SetContext (o : GetMachineConfigurationParams) (ctx : option go_context) : GetMachineConfigurationParams :=
  mkGetMachineConfigurationParams (GetMachineConfigurationParams_timeout o) ctx (GetMachineConfigurationParams_HTTPClient o).
Definition GetMachineConfigurationParams_WithContext (o : GetMachineConfigurationParams) (ctx : option go_context) : GetMachineConfigurationParams := GetMachineConfigurationParams_SetContext o ctx.
Definition GetMachineConfigurationParams_SetHTTPClient (o : GetMachineConfigurationParams) (client : option HTTPClient) : GetMachineConfigurationParams :=
  mkGetMachineConfigurationParams (GetMachineConfigurationParams_timeout o) (GetMachineConfigurationParams_Context o) client.
Definition GetMachineConfigurationParams_WithHTTPClient (o : GetMachineConfigurationParams) (client : option HTTPClient) : GetMachineConfigurationParams := GetMachineConfigurationParams_SetHTTPClient o client.

(** ** GetMmds (src/client/operations/get_mmds_parameters.go) *)
Record GetMmdsParams := mkGetMmdsParams {
  GetMmdsParams_timeout : Z;
  GetMmdsParams_Context : option go_context;
  GetMmdsParams_HTTPClient : option HTTPClient
}.
Definition NewGetMmdsParams `{DefaultTimeout} : GetMmdsParams := mkGetMmdsParams cr_DefaultTimeout None None.
Definition NewGetMmdsParamsWithTimeout (timeout : Z) : GetMmdsParams := mkGetMmdsParams timeout None None.
Definition NewGetMmdsParamsWithContext (ctx : option go_context) : GetMmdsParams := mkGetMmdsParams 0 ctx None.
Definition NewGetMmdsParamsWithHTTPClient (client : option HTTPClient) : GetMmdsParams := mkGetMmdsParams 0 None client.
Definition GetMmdsParams_SetTimeout (o : GetMmdsParams) (timeout : Z) : GetMmdsParams :=
  mkGetMmdsParams timeout (GetMmdsParams_Context o) (GetMmdsParams_HTTPClient o).
Definition GetMmdsParams_WithTimeout (o : GetMmdsParams) (timeout : Z) : GetMmdsParams := GetMmdsParams_SetTimeout o timeout.
Definition GetMmdsParams_SetContext (o : GetMmdsParams) (ctx : option go_context) : GetMmdsParams :=
  mkGetMmdsParams (GetMmdsParams_timeout o) ctx (GetMmdsParams_HTTPClient o).
Definition GetMmdsParams_WithContext (o : GetMmdsParams) (ctx : option go_context) : GetMmdsParams := GetMmdsParams_SetContext o ctx.
Definition GetMmdsParams_SetHTTPClient (o : GetMmdsParams) (client : option HTTPClient) : GetMmdsParams :=
  mkGetMmdsParams (GetMmdsParams_timeout o) (GetMmdsParams_Context o) client.
Definition GetMmdsParams_WithHTTPClient (o : GetMmdsParams) (client : option HTTPClient) : GetMmdsParams := GetMmdsParams_SetHTTPClient o client.

(** ** LoadSnapshot (src/client/operations/load_snapshot_parameters.go) *)
Record LoadSnapshotParams := mkLoadSnapshotParams {
  LoadSnapshotParams_Body : option SnapshotLoadParams;
  LoadSnapshotParams_timeout : Z;
  LoadSnapshotParams_Context : option go_context;
  LoadSnapshotParams_HTTPClient : option HTTPClient
}.
Definition NewLoadSnapshotParams `{DefaultTimeout} : LoadSnapshotParams := mkLoadSnapshotParams None cr_DefaultTimeout None None.
Definition NewLoadSnapshotParamsWithTimeout (timeout : Z) : LoadSnapshotParams := mkLoadSnapshotParams None timeout None None.
Definition NewLoadSnapshotParamsWithContext (ctx : option go_context) : LoadSnapshotParams := mkLoadSnapshotParams None 0 ctx None.
Definition NewLoadSnapshotParamsWithHTTPClient (client : option HTTPClient) : LoadSnapshotParams := mkLoadSnapshotParams None 0 None client.
Definition LoadSnapshotParams_SetTimeout (o : LoadSnapshotParams) (timeout : Z) : LoadSnapshotParams :=
  mkLoadSnapshotParams (LoadSnapshotParams_Body o) timeout (LoadSnapshotParams_Context o) (LoadSnapshotParams_HTTPClient o).
Definition LoadSnapshotParams_WithTimeout (o : LoadSnapshotParams) (timeout : Z) : LoadSnapshotParams := LoadSnapshotParams_SetTimeout o timeout.
Definition LoadSnapshotParams_SetContext (o : LoadSnapshotParams) (ctx : option go_context) : LoadSnapshotParams :=
  mkLoadSnapshotParams (LoadSnapshotParams_Body o) (LoadSnapshotParams_timeout o) ctx (LoadSnapshotParams_HTTPClient o).
Definition LoadSnapshotParams_WithContext (o : LoadSnapshotParams) (ctx : option go_context) : LoadSnapshotParams := LoadSnapshotParams_SetContext o ctx.
Definition LoadSnapshotParams_SetHTTPClient (o : LoadSnapshotParams) (client : option HTTPClient) : LoadSnapshotParams :=
  mkLoadSnapshotParams (LoadSnapshotParams_Body o) (LoadSnapshotParams_timeout o) (LoadSnapshotParams_Context o) client.
Definition LoadSnapshotParams_WithHTTPClient (o : LoadSnapshotParams) (client : option HTTPClient) : LoadSnapshotParams := LoadSnapshotParams_SetHTTPClient o client.
Definition LoadSnapshotParams_SetBody (o : LoadSnapshotParams) (body : option SnapshotLoadParams) : LoadSnapshotParams :=
  mkLoadSnapshotParams body (LoadSnapshotParams_timeout o) (LoadSnapshotParams_Context o) (LoadSnapshotParams_HTTPClient o).
Definition LoadSnapshotParams_WithBody (o : LoadSnapshotParams) (body : option SnapshotLoadParams) : LoadSnapshotParams := LoadSnapshotParams_SetBody o body.

(** ** PatchBalloon (src/client/operations/patch_balloon_parameters.go) *)
Record PatchBalloonParams := mkPatchBalloonParams {
  PatchBalloonParams_Body : option BalloonUpdate;
  PatchBalloonParams_timeout : Z;
  PatchBalloonParams_Context : option go_context;
  PatchBalloonParams_HTTPClient : option HTTPClient
}.
Definition NewPatchBalloonParams `{DefaultTimeout} : PatchBalloonParams := mkPatchBalloonParams None cr_DefaultTimeout None None.
Definition NewPatchBalloonParamsWithTimeout (timeout : Z) : PatchBalloonParams := mkPatchBalloonParams None timeout None None.
Definition NewPatchBalloonParamsWithContext (ctx : option go_context) : PatchBalloonParams := mkPatchBalloonParams None 0 ctx None.
Definition NewPatchBalloonParamsWithHTTPClient (client : option HTTPClient) : PatchBalloonParams := mkPatchBalloonParams None 0 None client.
Definition PatchBalloonParams_SetTimeout (o : PatchBalloonParams) (timeout : Z) : PatchBalloonParams :=
  mkPatchBalloonParams (PatchBalloonParams_Body o) timeout (PatchBalloonParams_Context o) (PatchBalloonParams_HTTPClient o).
Definition PatchBalloonParams_WithTimeout (o : PatchBalloonParams) (timeout : Z) : PatchBalloonParams := PatchBalloonParams_SetTimeout o timeout.
Definition PatchBalloonParams_SetContext (o : PatchBalloonParams) (ctx : option go_context) : PatchBalloonParams :=
  mkPatchBalloonParams (PatchBalloonParams_Body o) (PatchBalloonParams_timeout o) ctx (PatchBalloonParams_HTTPClient o).
Definition PatchBalloonParams_WithContext (o : PatchBalloonParams) (ctx : option go_context) : PatchBalloonParams := PatchBalloonParams_SetContext o ctx.
Definition PatchBalloonParams_SetHTTPClient (o : PatchBalloonParams) (client : option HTTPClient) : PatchBalloonParams :=
  mkPatchBalloonParams (PatchBalloonParams_Body o) (PatchBalloonParams_timeout o) (PatchBalloonParams_Context o) client.
Definition PatchBalloonParams_WithHTTPClient (o : PatchBalloonParams) (client : option HTTPClient) : PatchBalloonParams := PatchBalloonParams_SetHTTPClient o client.
Definition PatchBalloonParams_SetBody (o : PatchBalloonParams) (body : option BalloonUpdate) : PatchBalloonParams :=
  mkPatchBalloonParams body (PatchBalloonParams_timeout o) (PatchBalloonParams_Context o) (PatchBalloonParams_HTTPClient o).
Definition PatchBalloonParams_WithBody (o : PatchBalloonParams) (body : option BalloonUpdate) : PatchBalloonParams := PatchBalloonParams_SetBody o body.

(** ** PatchBalloonStatsInterval (src/client/operations/patch_balloon_stats_interval_parameters.go) *)
Record PatchBalloonStatsIntervalParams := mkPatchBalloonStatsIntervalParams {
  PatchBalloonStatsIntervalParams_Body : option BalloonStatsUpdate;
  PatchBalloonStatsIntervalParams_timeout : Z;
  PatchBalloonStatsIntervalParams_Context : option go_context;
  PatchBalloonStatsIntervalParams_HTTPClient : option HTTPClient
}.
Definition NewPatchBalloonStatsIntervalParams `{DefaultTimeout} : PatchBalloonStatsIntervalParams := mkPatchBalloonStatsIntervalParams None cr_DefaultTimeout None None.
Definition NewPatchBalloonStatsIntervalParamsWithTimeout (timeout : Z) : PatchBalloonStatsIntervalParams := mkPatchBalloonStatsIntervalParams None timeout None None.
Definition NewPatchBalloonStatsIntervalParamsWithContext (ctx : option go_context) : PatchBalloonStatsIntervalParams := mkPatchBalloonStatsIntervalParams None 0 ctx None.
Definition NewPatchBalloonStatsIntervalParamsWithHTTPClient (client : option HTTPClient) : PatchBalloonStatsIntervalParams := mkPatchBalloonStatsIntervalParams None 0 None client.
Definition PatchBalloonStatsIntervalParams_SetTimeout (o : PatchBalloonStatsIntervalParams) (timeout : Z) : PatchBalloonStatsIntervalParams :=
  mkPatchBalloonStatsIntervalParams (PatchBalloonStatsIntervalParams_Body o) timeout (PatchBalloonStatsIntervalParams_Context o) (PatchBalloonStatsIntervalParams_HTTPClient o).
Definition PatchBalloonStatsIntervalParams_WithTimeout (o : PatchBalloonStatsIntervalParams) (timeout : Z) : PatchBalloonStatsIntervalParams := PatchBalloonStatsIntervalParams_SetTimeout o timeout.
Definition PatchBalloonStatsIntervalParams_SetContext (o : PatchBalloonStatsIntervalParams) (ctx : option go_context) : PatchBalloonStatsIntervalParams :=
  mkPatchBalloonStatsIntervalParams (PatchBalloonStatsIntervalParams_Body o) (PatchBalloonStatsIntervalParams_timeout o) ctx (PatchBalloonStatsIntervalParams_HTTPClient o).
Definition PatchBalloonStatsIntervalParams_WithContext (o : PatchBalloonStatsIntervalParams) (ctx : option go_context) : PatchBalloonStatsIntervalParams := PatchBalloonStatsIntervalParams_SetContext o ctx.
Definition PatchBalloonStatsIntervalParams_SetHTTPClient (o : PatchBalloonStatsIntervalParams) (client : option HTTPClient) : PatchBalloonStatsIntervalParams :=
  mkPatchBalloonStatsIntervalParams (PatchBalloonStatsIntervalParams_Body o) (PatchBalloonStatsIntervalParams_timeout o) (PatchBalloonStatsIntervalParams_Context o) client.
Definition PatchBalloonStatsIntervalParams_WithHTTPClient (o : PatchBalloonStatsIntervalParams) (client : option HTTPClient) : PatchBalloonStatsIntervalParams := PatchBalloonStatsIntervalParams_SetHTTPClient o client.
Definition PatchBalloonStatsIntervalParams_SetBody (o : PatchBalloonStatsIntervalParams) (body : option BalloonStatsUpdate) : PatchBalloonStatsIntervalParams :=
  mkPatchBalloonStatsIntervalParams body (PatchBalloonStatsIntervalParams_timeout o) (PatchBalloonStatsIntervalParams_Context o) (PatchBalloonStatsIntervalParams_HTTPClient o).
Definition PatchBalloonStatsIntervalParams_WithBody (o : PatchBalloonStatsIntervalParams) (body : option BalloonStatsUpdate) : PatchBalloonStatsIntervalParams := PatchBalloonStatsIntervalParams_SetBody o body.

(** ** PatchGuestDriveByID (src/client/operations/patch_guest_drive_by_id_parameters.go) *)
Record PatchGuestDriveByIDParams := mkPatchGuestDriveByIDParams {
  PatchGuestDriveByIDParams_Body : option PartialDrive;
  PatchGuestDriveByIDParams_DriveID : string;
  PatchGuestDriveByIDParams_timeout : Z;
  PatchGuestDriveByIDParams_Context : option go_context;
  PatchGuestDriveByIDParams_HTTPClient : option HTTPClient
}.
Definition NewPatchGuestDriveByIDParams `{DefaultTimeout} : PatchGuestDriveByIDParams := mkPatchGuestDriveByIDParams None "" cr_DefaultTimeout None None.
Definition NewPatchGuestDriveByIDParamsWithTimeout (timeout : Z) : PatchGuestDriveByIDParams := mkPatchGuestDriveByIDParams None "" timeout None None.
Definition NewPatchGuestDriveByIDParamsWithContext (ctx : option go_context) : PatchGuestDriveByIDParams := mkPatchGuestDriveByIDParams None "" 0 ctx None.
Definition NewPatchGuestDriveByIDParamsWithHTTPClient (client : option HTTPClient) : PatchGuestDriveByIDParams := mkPatchGuestDriveByIDParams None "" 0 None client.
Definition PatchGuestDriveByIDParams_SetTimeout (o : PatchGuestDriveByIDParams) (timeout : Z) : PatchGuestDriveByIDParams :=
  mkPatchGuestDriveByIDParams (PatchGuestDriveByIDParams_Body o) (PatchGuestDriveByIDParams_DriveID o) timeout (PatchGuestDriveByIDParams_Context o) (PatchGuestDriveByIDParams_HTTPClient o).
Definition PatchGuestDriveByIDParams_WithTimeout (o : PatchGuestDriveByIDParams) (timeout : Z) : PatchGuestDriveByIDParams := PatchGuestDriveByIDParams_SetTimeout o timeout.
Definition PatchGuestDriveByIDParams_SetContext (o : PatchGuestDriveByIDParams) (ctx : option go_context) : PatchGuestDriveByIDParams :=
  mkPatchGuestDriveByIDParams (PatchGuestDriveByIDParams_Body o) (PatchGuestDriveByIDParams_DriveID o) (PatchGuestDriveByIDParams_timeout o) ctx (PatchGuestDriveByIDParams_HTTPClient o).
Definition PatchGuestDriveByIDParams_WithContext (o : PatchGuestDriveByIDParams) (ctx : option go_context) : PatchGuestDriveByIDParams := PatchGuestDriveByIDParams_SetContext o ctx.
Definition PatchGuestDriveByIDParams_SetHTTPClient (o : PatchGuestDriveByIDParams) (client : option HTTPClient) : PatchGuestDriveByIDParams :=
  mkPatchGuestDriveByIDParams (PatchGuestDriveByIDParams_Body o) (PatchGuestDriveByIDParams_DriveID o) (PatchGuestDriveByIDParams_timeout o) (PatchGuestDriveByIDParams_Context o) client.
Definition PatchGuestDriveByIDParams_WithHTTPClient (o : PatchGuestDriveByIDParams) (client : option HTTPClient) : PatchGuestDriveByIDParams := PatchGuestDriveByIDParams_SetHTTPClient o client.
Definition PatchGuestDriveByIDParams_SetBody (o : PatchGuestDriveByIDParams) (body : option PartialDrive) : PatchGuestDriveByIDParams :=
  mkPatchGuestDriveByIDParams body (PatchGuestDriveByIDParams_DriveID o) (PatchGuestDriveByIDParams_timeout o) (PatchGuestDriveByIDParams_Context o) (PatchGuestDriveByIDParams_HTTPClient o).
Definition PatchGuestDriveByIDParams_WithBody (o : PatchGuestDriveByIDParams) (body : option PartialDrive) : PatchGuestDriveByIDParams := PatchGuestDriveByIDParams_SetBody o body.
Definition PatchGuestDriveByIDParams_SetDriveID (o : PatchGuestDriveByIDParams) (driveID : string) : PatchGuestDriveByIDParams :=
  mkPatchGuestDriveByIDParams (PatchGuestDriveByIDParams_Body o) driveID (PatchGuestDriveByIDParams_timeout o) (PatchGuestDriveByIDParams_Context o) (PatchGuestDriveByIDParams_HTTPClient o).
Definition PatchGuestDriveByIDParams_WithDriveID (o : PatchGuestDriveByIDParams) (driveID : string) : PatchGuestDriveByIDParams := PatchGuestDriveByIDParams_SetDriveID o driveID.

(** ** PatchGuestNetworkInterfaceByID (src/client/operations/patch_guest_network_interface_by_id_parameters.go) *)
Record PatchGuestNetworkInterfaceByIDParams := mkPatchGuestNetworkInterfaceByIDParams {
  PatchGuestNetworkInterfaceByIDParams_Body : option PartialNetworkInterface;
  PatchGuestNetworkInterfaceByIDParams_IfaceID : string;
  PatchGuestNetworkInterfaceByIDParams_timeout : Z;
  PatchGuestNetworkInterfaceByIDParams_Context : option go_context;
  PatchGuestNetworkInterfaceByIDParams_HTTPClient : option HTTPClient
}.
Definition NewPatchGuestNetworkInterfaceByIDParams `{DefaultTimeout} : PatchGuestNetworkInterfaceByIDParams := mkPatchGuestNetworkInterfaceByIDParams None "" cr_DefaultTimeout None None.
Definition NewPatchGuestNetworkInterfaceByIDParamsWithTimeout (timeout : Z) : PatchGuestNetworkInterfaceByIDParams := mkPatchGuestNetworkInterfaceByIDParams None "" timeout None None.
Definition NewPatchGuestNetworkInterfaceByIDParamsWithContext (ctx : option go_context) : PatchGuestNetworkInterfaceByIDParams := mkPatchGuestNetworkInterfaceByIDParams None "" 0 ctx None.
Definition NewPatchGuestNetworkInterfaceByIDParamsWithHTTPClient (client : option HTTPClient) : PatchGuestNetworkInterfaceByIDParams := mkPatchGuestNetworkInterfaceByIDParams None "" 0 None client.
Definition PatchGuestNetworkInterfaceByIDParams_SetTimeout (o : PatchGuestNetworkInterfaceByIDParams) (timeout : Z) : PatchGuestNetworkInterfaceByIDParams :=
  mkPatchGuestNetworkInterfaceByIDParams (PatchGuestNetworkInterfaceByIDParams_Body o) (PatchGuestNetworkInterfaceByIDParams_IfaceID o) timeout (PatchGuestNetworkInterfaceByIDParams_Context o) (PatchGuestNetworkInterfaceByIDParams_HTTPClient o).
Definition PatchGuestNetworkInterfaceByIDParams_WithTimeout (o : PatchGuestNetworkInterfaceByIDParams) (timeout : Z) : PatchGuestNetworkInterfaceByIDParams := PatchGuestNetworkInterfaceByIDParams_SetTimeout o timeout.
Definition PatchGuestNetworkInterfaceByIDParams_SetContext (o : PatchGuestNetworkInterfaceByIDParams) (ctx : option go_context) : PatchGuestNetworkInterfaceByIDParams :=
  mkPatchGuestNetworkInterfaceByIDParams (PatchGuestNetworkInterfaceByIDParams_Body o) (PatchGuestNetworkInterfaceByIDParams_IfaceID o) (PatchGuestNetworkInterfaceByIDParams_timeout o) ctx (PatchGuestNetworkInterfaceByIDParams_HTTPClient o).
Definition PatchGuestNetworkInterfaceByIDParams_WithContext (o : PatchGuestNetworkInterfaceByIDParams) (ctx : option go_context) : PatchGuestNetworkInterfaceByIDParams := PatchGuestNetworkInterfaceByIDParams_SetContext o ctx.
Definition PatchGuestNetworkInterfaceByIDParams_SetHTTPClient (o : PatchGuestNetworkInterfaceByIDParams) (client : option HTTPClient) : PatchGuestNetworkInterfaceByIDParams :=
  mkPatchGuestNetworkInterfaceByIDParams (PatchGuestNetworkInterfaceByIDParams_Body o) (PatchGuestNetworkInterfaceByIDParams_IfaceID o) (PatchGuestNetworkInterfaceByIDParams_timeout o) (PatchGuestNetworkInterfaceByIDParams_Context o) client.
Definition PatchGuestNetworkInterfaceByIDParams_WithHTTPClient (o : PatchGuestNetworkInterfaceByIDParams) (client : option HTTPClient) : PatchGuestNetworkInterfaceByIDParams := PatchGuestNetworkInterfaceByIDParams_SetHTTPClient o client.
Definition PatchGuestNetworkInterfaceByIDParams_SetBody (o : PatchGuestNetworkInterfaceByIDParams) (body : option PartialNetworkInterface) : PatchGuestNetworkInterfaceByIDParams :=
  mkPatchGuestNetworkInterfaceByIDParams body (PatchGuestNetworkInterfaceByIDParams_IfaceID o) (PatchGuestNetworkInterfaceByIDParams_timeout o) (PatchGuestNetworkInterfaceByIDParams_Context o) (PatchGuestNetworkInterfaceByIDParams_HTTPClient o).
Definition PatchGuestNetworkInterfaceByIDParams_WithBody (o : PatchGuestNetworkInterfaceByIDParams) (body : option PartialNetworkInterface) : PatchGuestNetworkInterfaceByIDParams := PatchGuestNetworkInterfaceByIDParams_SetBody o body.
Definition PatchGuestNetworkInterfaceByIDParams_SetIfaceID (o : PatchGuestNetworkInterfaceByIDParams) (ifaceID : string) : PatchGuestNetworkInterfaceByIDParams :=
  mkPatchGuestNetworkInterfaceByIDParams (PatchGuestNetworkInterfaceByIDParams_Body o) ifaceID (PatchGuestNetworkInterfaceByIDParams_timeout o) (PatchGuestNetworkInterfaceByIDParams_Context o) (PatchGuestNetworkInterfaceByIDParams_HTTPClient o).
Definition PatchGuestNetworkInterfaceByIDParams_WithIfaceID (o : PatchGuestNetworkInterfaceByIDParams) (ifaceID : string) : PatchGuestNetworkInterfaceByIDParams := PatchGuestNetworkInterfaceByIDParams_SetIfaceID o ifaceID.

(** ** PatchMachineConfiguration (src/client/operations/patch_machine_configuration_parameters.go) *)
Record PatchMachineConfigurationParams := mkPatchMachineConfigurationParams {
  PatchMachineConfigurationParams_Body : option MachineConfiguration;
  PatchMachineConfigurationParams_timeout : Z;
  PatchMachineConfigurationParams_Context : option go_context;
  PatchMachineConfigurationParams_HTTPClient : option HTTPClient
}.
Definition NewPatchMachineConfigurationParams `{DefaultTimeout} : PatchMachineConfigurationParams := mkPatchMachineConfigurationParams None cr_DefaultTimeout None None.
Definition NewPatchMachineConfigurationParamsWithTimeout (timeout : Z) : PatchMachineConfigurationParams := mkPatchMachineConfigurationParams None timeout None None.
Definition NewPatchMachineConfigurationParamsWithContext (ctx : option go_context) : PatchMachineConfigurationParams := mkPatchMachineConfigurationParams None 0 ctx None.
Definition NewPatchMachineConfigurationParamsWithHTTPClient (client : option HTTPClient) : PatchMachineConfigurationParams := mkPatchMachineConfigurationParams None 0 None client.
Definition PatchMachineConfigurationParams_SetTimeout (o : PatchMachineConfigurationParams) (timeout : Z) : PatchMachineConfigurationParams :=
  mkPatchMachineConfigurationParams (PatchMachineConfigurationParams_Body o) timeout (PatchMachineConfigurationParams_Context o) (PatchMachineConfigurationParams_HTTPClient o).
Definition PatchMachineConfigurationParams_WithTimeout (o : PatchMachineConfigurationParams) (timeout : Z) : PatchMachineConfigurationParams := PatchMachineConfigurationParams_SetTimeout o timeout.
Definition PatchMachineConfigurationParams_SetContext (o : PatchMachineConfigurationParams) (ctx : option go_context) : PatchMachineConfigurationParams :=
  mkPatchMachineConfigurationParams (PatchMachineConfigurationParams_Body o) (PatchMachineConfigurationParams_timeout o) ctx (PatchMachineConfigurationParams_HTTPClient o).
Definition PatchMachineConfigurationParams_WithContext (o : PatchMachineConfigurationParams) (ctx : option go_context) : PatchMachineConfigurationParams := PatchMachineConfigurationParams_SetContext o ctx.
Definition PatchMachineConfigurationParams_SetHTTPClient (o : PatchMachineConfigurationParams) (client : option HTTPClient) : PatchMachineConfigurationParams :=
  mkPatchMachineConfigurationParams (PatchMachineConfigurationParams_Body o) (PatchMachineConfigurationParams_timeout o) (PatchMachineConfigurationParams_Context o) client.
Definition PatchMachineConfigurationParams_WithHTTPClient (o : PatchMachineConfigurationParams) (client : option HTTPClient) : PatchMachineConfigurationParams := PatchMachineConfigurationParams_SetHTTPClient o client.
Definition PatchMachineConfigurationParams_SetBody (o : PatchMachineConfigurationParams) (body : option MachineConfiguration) : PatchMachineConfigurationParams :=
  mkPatchMachineConfigurationParams body (PatchMachineConfigurationParams_timeout o) (PatchMachineConfigurationParams_Context o) (PatchMachineConfigurationParams_HTTPClient o).
Definition PatchMachineConfigurationParams_WithBody (o : PatchMachineConfigurationParams) (body : option MachineConfiguration) : PatchMachineConfigurationParams := PatchMachineConfigurationParams_SetBody o body.

(** ** PatchMmds (src/client/operations/patch_mmds_parameters.go) *)
Record PatchMmdsParams := mkPatchMmdsParams {
  PatchMmdsParams_Body : MmdsContentsObject;
  PatchMmdsParams_timeout : Z;
  PatchMmdsParams_Context : option go_context;
  PatchMmdsParams_HTTPClient : option HTTPClient
}.
Definition NewPatchMmdsParams `{DefaultTimeout} : PatchMmdsParams := mkPatchMmdsParams None cr_DefaultTimeout None None.
Definition NewPatchMmdsParamsWithTimeout (timeout : Z) : PatchMmdsParams := mkPatchMmdsParams None timeout None None.
Definition NewPatchMmdsParamsWithContext (ctx : option go_context) : PatchMmdsParams := mkPatchMmdsParams None 0 ctx None.
Definition NewPatchMmdsParamsWithHTTPClient (client : option HTTPClient) : PatchMmdsParams := mkPatchMmdsParams None 0 None client.
Definition PatchMmdsParams_SetTimeout (o : PatchMmdsParams) (timeout : Z) : PatchMmdsParams :=
  mkPatchMmdsParams (PatchMmdsParams_Body o) timeout (PatchMmdsParams_Context o) (PatchMmdsParams_HTTPClient o).
Definition PatchMmdsParams_WithTimeout (o : PatchMmdsParams) (timeout : Z) : PatchMmdsParams := PatchMmdsParams_SetTimeout o timeout.
Definition PatchMmdsParams_SetContext (o : PatchMmdsParams) (ctx : option go_context) : PatchMmdsParams :=
  mkPatchMmdsParams (PatchMmdsParams_Body o) (PatchMmdsParams_timeout o) ctx (PatchMmdsParams_HTTPClient o).
Definition PatchMmdsParams_WithContext (o : PatchMmdsParams) (ctx : option go_context) : PatchMmdsParams := PatchMmdsParams_SetContext o ctx.
Definition PatchMmdsParams_SetHTTPClient (o : PatchMmdsParams) (client : option HTTPClient) : PatchMmdsParams :=
  mkPatchMmdsParams (PatchMmdsParams_Body o) (PatchMmdsParams_timeout o) (PatchMmdsParams_Context o) client.
Definition PatchMmdsParams_WithHTTPClient (o : PatchMmdsParams) (client : option HTTPClient) : PatchMmdsParams := PatchMmdsParams_SetHTTPClient o client.
Definition PatchMmdsParams_SetBody (o : PatchMmdsParams) (body : MmdsContentsObject) : PatchMmdsParams :=
  mkPatchMmdsParams body (PatchMmdsParams_timeout o) (PatchMmdsParams_Context o) (PatchMmdsParams_HTTPClient o).
Definition PatchMmdsParams_WithBody (o : PatchMmdsParams) (body : MmdsContentsObject) : PatchMmdsParams := PatchMmdsParams_SetBody o body.

(** ** PatchVM (src/client/operations/patch_vm_parameters.go) *)
Record PatchVMParams := mkPatchVMParams {
  PatchVMParams_Body : option VM;
  PatchVMParams_timeout : Z;
  PatchVMParams_Context : option go_context;
  PatchVMParams_HTTPClient : option HTTPClient
}.
Definition NewPatchVMParams `{DefaultTimeout} : PatchVMParams := mkPatchVMParams None cr_DefaultTimeout None None.
Definition NewPatchVMParamsWithTimeout (timeout : Z) : PatchVMParams := mkPatchVMParams None timeout None None.
Definition NewPatchVMParamsWithContext (ctx : option go_context) : PatchVMParams := mkPatchVMParams None 0 ctx None.
Definition NewPatchVMParamsWithHTTPClient (client : option HTTPClient) : PatchVMParams := mkPatchVMParams None 0 None client.
Definition PatchVMParams_SetTimeout (o : PatchVMParams) (timeout : Z) : PatchVMParams :=
  mkPatchVMParams (PatchVMParams_Body o) timeout (PatchVMParams_Context o) (PatchVMParams_HTTPClient o).
Definition PatchVMParams_WithTimeout (o : PatchVMParams) (timeout : Z) : PatchVMParams := PatchVMParams_SetTimeout o timeout.
Definition PatchVMParams_SetContext (o : PatchVMParams) (ctx : option go_context) : PatchVMParams :=
  mkPatchVMParams (PatchVMParams_Body o) (PatchVMParams_timeout o) ctx (PatchVMParams_HTTPClient o).
Definition PatchVMParams_WithContext (o : PatchVMParams) (ctx : option go_context) : PatchVMParams := PatchVMParams_SetContext o ctx.
Definition PatchVMParams_SetHTTPClient (o : PatchVMParams) (client : option HTTPClient) : PatchVMParams :=
  mkPatchVMParams (PatchVMParams_Body o) (PatchVMParams_timeout o) (PatchVMParams_Context o) client.
Definition PatchVMParams_WithHTTPClient (o : PatchVMParams) (client : option HTTPClient) : PatchVMParams := PatchVMParams_SetHTTPClient o client.
Definition PatchVMParams_SetBody (o : PatchVMParams) (body : option VM) : PatchVMParams :=
  mkPatchVMParams body (PatchVMParams_timeout o) (PatchVMParams_Context o) (PatchVMParams_HTTPClient o).
Definition PatchVMParams_WithBody (o : PatchVMParams) (body : option VM) : PatchVMParams := PatchVMParams_SetBody o body.

(** ** PutBalloon (src/client/operations/put_balloon_parameters.go) *)
Record PutBalloonParams := mkPutBalloonParams {
  PutBalloonParams_Body : option Balloon;
  PutBalloonParams_timeout : Z;
  PutBalloonParams_Context : option go_context;
  PutBalloonParams_HTTPClient : option HTTPClient
}.
Definition NewPutBalloonParams `{DefaultTimeout} : PutBalloonParams := mkPutBalloonParams None cr_DefaultTimeout None None.
Definition NewPutBalloonParamsWithTimeout (timeout : Z) : PutBalloonParams := mkPutBalloonParams None timeout None None.
Definition NewPutBalloonParamsWithContext (ctx : option go_context) : PutBalloonParams := mkPutBalloonParams None 0 ctx None.
Definition NewPutBalloonParamsWithHTTPClient (client : option HTTPClient) : PutBalloonParams := mkPutBalloonParams None 0 None client.
Definition PutBalloonParams_SetTimeout (o : PutBalloonParams) (timeout : Z) : PutBalloonParams :=
  mkPutBalloonParams (PutBalloonParams_Body o) timeout (PutBalloonParams_Context o) (PutBalloonParams_HTTPClient o).
Definition PutBalloonParams_WithTimeout (o : PutBalloonParams) (timeout : Z) : PutBalloonParams := PutBalloonParams_SetTimeout o timeout.
Definition PutBalloonParams_SetContext (o : PutBalloonParams) (ctx : option go_context) : PutBalloonParams :=
  mkPutBalloonParams (PutBalloonParams_Body o) (PutBalloonParams_timeout o) ctx (PutBalloonParams_HTTPClient o).
Definition PutBalloonParams_WithContext (o : PutBalloonParams) (ctx : option go_context) : PutBalloonParams := PutBalloonParams_SetContext o ctx.
Definition PutBalloonParams_SetHTTPClient (o : PutBalloonParams) (client : option HTTPClient) : PutBalloonParams :=
  mkPutBalloonParams (PutBalloonParams_Body o) (PutBalloonParams_timeout o) (PutBalloonParams_Context o) client.
Definition PutBalloonParams_WithHTTPClient (o : PutBalloonParams) (client : option HTTPClient) : PutBalloonParams := PutBalloonParams_SetHTTPClient o client.
Definition PutBalloonParams_SetBody (o : PutBalloonParams) (body : option Balloon) : PutBalloonParams :=
  mkPutBalloonParams body (PutBalloonParams_timeout o) (PutBalloonParams_Context o) (PutBalloonParams_HTTPClient o).
Definition PutBalloonParams_WithBody (o : PutBalloonParams) (body : option Balloon) : PutBalloonParams := PutBalloonParams_SetBody o body.

(** ** PutCPUConfiguration (src/client/operations/put_cpu_configuration_parameters.go) *)
Record PutCPUConfigurationParams := mkPutCPUConfigurationParams {
  PutCPUConfigurationParams_Body : option CPUConfig;
  PutCPUConfigurationParams_timeout : Z;
  PutCPUConfigurationParams_Context : option go_context;
  PutCPUConfigurationParams_HTTPClient : option HTTPClient
}.
Definition NewPutCPUConfigurationParams `{DefaultTimeout} : PutCPUConfigurationParams := mkPutCPUConfigurationParams None cr_DefaultTimeout None None.
Definition NewPutCPUConfigurationParamsWithTimeout (timeout : Z) : PutCPUConfigurationParams := mkPutCPUConfigurationParams None timeout None None.
Definition NewPutCPUConfigurationParamsWithContext (ctx : option go_context) : PutCPUConfigurationParams := mkPutCPUConfigurationParams None 0 ctx None.
Definition NewPutCPUConfigurationParamsWithHTTPClient (client : option HTTPClient) : PutCPUConfigurationParams := mkPutCPUConfigurationParams None 0 None client.
Definition PutCPUConfigurationParams_SetTimeout (o : PutCPUConfigurationParams) (timeout : Z) : PutCPUConfigurationParams :=
  mkPutCPUConfigurationParams (PutCPUConfigurationParams_Body o) timeout (PutCPUConfigurationParams_Context o) (PutCPUConfigurationParams_HTTPClient o).
Definition PutCPUConfigurationParams_WithTimeout (o : PutCPUConfigurationParams) (timeout : Z) : PutCPUConfigurationParams := PutCPUConfigurationParams_SetTimeout o timeout.
Definition PutCPUConfigurationParams_SetContext (o : PutCPUConfigurationParams) (ctx : option go_context) : PutCPUConfigurationParams :=
  mkPutCPUConfigurationParams (PutCPUConfigurationParams_Body o) (PutCPUConfigurationParams_timeout o) ctx (PutCPUConfigurationParams_HTTPClient o).
Definition PutCPUConfigurationParams_WithContext (o : PutCPUConfigurationParams) (ctx : option go_context) : PutCPUConfigurationParams := PutCPUConfigurationParams_SetContext o ctx.
Definition PutCPUConfigurationParams_SetHTTPClient (o : PutCPUConfigurationParams) (client : option HTTPClient) : PutCPUConfigurationParams :=
  mkPutCPUConfigurationParams (PutCPUConfigurationParams_Body o) (PutCPUConfigurationParams_timeout o) (PutCPUConfigurationParams_Context o) client.
Definition PutCPUConfigurationParams_WithHTTPClient (o : PutCPUConfigurationParams) (client : option HTTPClient) : PutCPUConfigurationParams := PutCPUConfigurationParams_SetHTTPClient o client.
Definition PutCPUConfigurationParams_SetBody (o : PutCPUConfigurationParams) (body : option CPUConfig) : PutCPUConfigurationParams :=
  mkPutCPUConfigurationParams body (PutCPUConfigurationParams_timeout o) (PutCPUConfigurationParams_Context o) (PutCPUConfigurationParams_HTTPClient o).
Definition PutCPUConfigurationParams_WithBody (o : PutCPUConfigurationParams) (body : option CPUConfig) : PutCPUConfigurationParams := PutCPUConfigurationParams_SetBody o body.

(** ** PutEntropyDevice (src/client/operations/put_entropy_device_parameters.go) *)
Record PutEntropyDeviceParams := mkPutEntropyDeviceParams {
  PutEntropyDeviceParams_Body : option EntropyDevice;
  PutEntropyDeviceParams_timeout : Z;
  PutEntropyDeviceParams_Context : option go_context;
  PutEntropyDeviceParams_HTTPClient : option HTTPClient
}.
Definition NewPutEntropyDeviceParams `{DefaultTimeout} : PutEntropyDeviceParams := mkPutEntropyDeviceParams None cr_DefaultTimeout None None.
Definition NewPutEntropyDeviceParamsWithTimeout (timeout : Z) : PutEntropyDeviceParams := mkPutEntropyDeviceParams None timeout None None.
Definition NewPutEntropyDeviceParamsWithContext (ctx : option go_context) : PutEntropyDeviceParams := mkPutEntropyDeviceParams None 0 ctx None.
Definition NewPutEntropyDeviceParamsWithHTTPClient (client : option HTTPClient) : PutEntropyDeviceParams := mkPutEntropyDeviceParams None 0 None client.
Definition PutEntropyDeviceParams_SetTimeout (o : PutEntropyDeviceParams) (timeout : Z) : PutEntropyDeviceParams :=
  mkPutEntropyDeviceParams (PutEntropyDeviceParams_Body o) timeout (PutEntropyDeviceParams_Context o) (PutEntropyDeviceParams_HTTPClient o).
Definition PutEntropyDeviceParams_WithTimeout (o : PutEntropyDeviceParams) (timeout : Z) : PutEntropyDeviceParams := PutEntropyDeviceParams_SetTimeout o timeout.
Definition PutEntropyDeviceParams_SetContext (o : PutEntropyDeviceParams) (ctx : option go_context) : PutEntropyDeviceParams :=
  mkPutEntropyDeviceParams (PutEntropyDeviceParams_Body o) (PutEntropyDeviceParams_timeout o) ctx (PutEntropyDeviceParams_HTTPClient o).
Definition PutEntropyDeviceParams_WithContext (o : PutEntropyDeviceParams) (ctx : option go_context) : PutEntropyDeviceParams := PutEntropyDeviceParams_SetContext o ctx.
Definition PutEntropyDeviceParams_SetHTTPClient (o : PutEntropyDeviceParams) (client : option HTTPClient) : PutEntropyDeviceParams :=
  mkPutEntropyDeviceParams (PutEntropyDeviceParams_Body o) (PutEntropyDeviceParams_timeout o) (PutEntropyDeviceParams_Context o) client.
Definition PutEntropyDeviceParams_WithHTTPClient (o : PutEntropyDeviceParams) (client : option HTTPClient) : PutEntropyDeviceParams := PutEntropyDeviceParams_SetHTTPClient o client.
Definition PutEntropyDeviceParams_SetBody (o : PutEntropyDeviceParams) (body : option EntropyDevice) : PutEntropyDeviceParams :=
  mkPutEntropyDeviceParams body (PutEntropyDeviceParams_timeout o) (PutEntropyDeviceParams_Context o) (PutEntropyDeviceParams_HTTPClient o).
Definition PutEntropyDeviceParams_WithBody (o : PutEntropyDeviceParams) (body : option EntropyDevice) : PutEntropyDeviceParams := PutEntropyDeviceParams_SetBody o body.

(** ** PutGuestBootSource (src/client/operations/put_guest_boot_source_parameters.go) *)
Record PutGuestBootSourceParams := mkPutGuestBootSourceParams {
  PutGuestBootSourceParams_Body : option BootSource;
  PutGuestBootSourceParams_timeout : Z;
  PutGuestBootSourceParams_Context : option go_context;
  PutGuestBootSourceParams_HTTPClient : option HTTPClient
}.
Definition NewPutGuestBootSourceParams `{DefaultTimeout} : PutGuestBootSourceParams := mkPutGuestBootSourceParams None cr_DefaultTimeout None None.
Definition NewPutGuestBootSourceParamsWithTimeout (timeout : Z) : PutGuestBootSourceParams := mkPutGuestBootSourceParams None timeout None None.
Definition NewPutGuestBootSourceParamsWithContext (ctx : option go_context) : PutGuestBootSourceParams := mkPutGuestBootSourceParams None 0 ctx None.
Definition NewPutGuestBootSourceParamsWithHTTPClient (client : option HTTPClient) : PutGuestBootSourceParams := mkPutGuestBootSourceParams None 0 None client.
Definition PutGuestBootSourceParams_SetTimeout (o : PutGuestBootSourceParams) (timeout : Z) : PutGuestBootSourceParams :=
  mkPutGuestBootSourceParams (PutGuestBootSourceParams_Body o) timeout (PutGuestBootSourceParams_Context o) (PutGuestBootSourceParams_HTTPClient o).
Definition PutGuestBootSourceParams_WithTimeout (o : PutGuestBootSourceParams) (timeout : Z) : PutGuestBootSourceParams := PutGuestBootSourceParams_SetTimeout o timeout.
Definition PutGuestBootSourceParams_SetContext (o : PutGuestBootSourceParams) (ctx : option go_context) : PutGuestBootSourceParams :=
  mkPutGuestBootSourceParams (PutGuestBootSourceParams_Body o) (PutGuestBootSourceParams_timeout o) ctx (PutGuestBootSourceParams_HTTPClient o).
Definition PutGuestBootSourceParams_WithContext (o : PutGuestBootSourceParams) (ctx : option go_context) : PutGuestBootSourceParams := PutGuestBootSourceParams_SetContext o ctx.
Definition PutGuestBootSourceParams_SetHTTPClient (o : PutGuestBootSourceParams) (client : option HTTPClient) : PutGuestBootSourceParams :=
  mkPutGuestBootSourceParams (PutGuestBootSourceParams_Body o) (PutGuestBootSourceParams_timeout o) (PutGuestBootSourceParams_Context o) client.
Definition PutGuestBootSourceParams_WithHTTPClient (o : PutGuestBootSourceParams) (client : option HTTPClient) : PutGuestBootSourceParams := PutGuestBootSourceParams_SetHTTPClient o client.
Definition PutGuestBootSourceParams_SetBody (o : PutGuestBootSourceParams) (body : option BootSource) : PutGuestBootSourceParams :=
  mkPutGuestBootSourceParams body (PutGuestBootSourceParams_timeout o) (PutGuestBootSourceParams_Context o) (PutGuestBootSourceParams_HTTPClient o).
Definition PutGuestBootSourceParams_WithBody (o : PutGuestBootSourceParams) (body : option BootSource) : PutGuestBootSourceParams := PutGuestBootSourceParams_SetBody o body.

(** ** PutGuestDriveByID (src/client/operations/put_guest_drive_by_id_parameters.go) *)
Record PutGuestDriveByIDParams := mkPutGuestDriveByIDParams {
  PutGuestDriveByIDParams_Body : option Drive;
  PutGuestDriveByIDParams_DriveID : string;
  PutGuestDriveByIDParams_timeout : Z;
  PutGuestDriveByIDParams_Context : option go_context;
  PutGuestDriveByIDParams_HTTPClient : option HTTPClient
}.
Definition NewPutGuestDriveByIDParams `{DefaultTimeout} : PutGuestDriveByIDParams := mkPutGuestDriveByIDParams None "" cr_DefaultTimeout None None.
Definition NewPutGuestDriveByIDParamsWithTimeout (timeout : Z) : PutGuestDriveByIDParams := mkPutGuestDriveByIDParams None "" timeout None None.
Definition NewPutGuestDriveByIDParamsWithContext (ctx : option go_context) : PutGuestDriveByIDParams := mkPutGuestDriveByIDParams None "" 0 ctx None.
Definition NewPutGuestDriveByIDParamsWithHTTPClient (client : option HTTPClient) : PutGuestDriveByIDParams := mkPutGuestDriveByIDParams None "" 0 None client.
Definition PutGuestDriveByIDParams_SetTimeout (o : PutGuestDriveByIDParams) (timeout : Z) : PutGuestDriveByIDParams :=
  mkPutGuestDriveByIDParams (PutGuestDriveByIDParams_Body o) (PutGuestDriveByIDParams_DriveID o) timeout (PutGuestDriveByIDParams_Context o) (PutGuestDriveByIDParams_HTTPClient o).
Definition PutGuestDriveByIDParams_WithTimeout (o : PutGuestDriveByIDParams) (timeout : Z) : PutGuestDriveByIDParams := PutGuestDriveByIDParams_SetTimeout o timeout.
Definition PutGuestDriveByIDParams_SetContext (o : PutGuestDriveByIDParams) (ctx : option go_context) : PutGuestDriveByIDParams :=
  mkPutGuestDriveByIDParams (PutGuestDriveByIDParams_Body o) (PutGuestDriveByIDParams_DriveID o) (PutGuestDriveByIDParams_timeout o) ctx (PutGuestDriveByIDParams_HTTPClient o).
Definition PutGuestDriveByIDParams_WithContext (o : PutGuestDriveByIDParams) (ctx : option go_context) : PutGuestDriveByIDParams := PutGuestDriveByIDParams_SetContext o ctx.
Definition PutGuestDriveByIDParams_SetHTTPClient (o : PutGuestDriveByIDParams) (client : option HTTPClient) : PutGuestDriveByIDParams :=
  mkPutGuestDriveByIDParams (PutGuestDriveByIDParams_Body o) (PutGuestDriveByIDParams_DriveID o) (PutGuestDriveByIDParams_timeout o) (PutGuestDriveByIDParams_Context o) client.
Definition PutGuestDriveByIDParams_WithHTTPClient (o : PutGuestDriveByIDParams) (client : option HTTPClient) : PutGuestDriveByIDParams := PutGuestDriveByIDParams_SetHTTPClient o client.
Definition PutGuestDriveByIDParams_SetBody (o : PutGuestDriveByIDParams) (body : option Drive) : PutGuestDriveByIDParams :=
  mkPutGuestDriveByIDParams body (PutGuestDriveByIDParams_DriveID o) (PutGuestDriveByIDParams_timeout o) (PutGuestDriveByIDParams_Context o) (PutGuestDriveByIDParams_HTTPClient o).
Definition PutGuestDriveByIDParams_WithBody (o : PutGuestDriveByIDParams) (body : option Drive) : PutGuestDriveByIDParams := PutGuestDriveByIDParams_SetBody o body.
Definition PutGuestDriveByIDParams_SetDriveID (o : PutGuestDriveByIDParams) (driveID : string) : PutGuestDriveByIDParams :=
  mkPutGuestDriveByIDParams (PutGuestDriveByIDParams_Body o) driveID (PutGuestDriveByIDParams_timeout o) (PutGuestDriveByIDParams_Context o) (PutGuestDriveByIDParams_HTTPClient o).
Definition PutGuestDriveByIDParams_WithDriveID (o : PutGuestDriveByIDParams) (driveID : string) : PutGuestDriveByIDParams := PutGuestDriveByIDParams_SetDriveID o driveID.

(** ** PutGuestNetworkInterfaceByID (src/client/operations/put_guest_network_interface_by_id_parameters.go) *)
Record PutGuestNetworkInterfaceByIDParams := mkPutGuestNetworkInterfaceByIDParams {
  PutGuestNetworkInterfaceByIDParams_Body : option NetworkInterface;
  PutGuestNetworkInterfaceByIDParams_IfaceID : string;
  PutGuestNetworkInterfaceByIDParams_timeout : Z;
  PutGuestNetworkInterfaceByIDParams_Context : option go_context;
  PutGuestNetworkInterfaceByIDParams_HTTPClient : option HTTPClient
}.
Definition NewPutGuestNetworkInterfaceByIDParams `{DefaultTimeout} : PutGuestNetworkInterfaceByIDParams := mkPutGuestNetworkInterfaceByIDParams None "" cr_DefaultTimeout None None.
Definition NewPutGuestNetworkInterfaceByIDParamsWithTimeout (timeout : Z) : PutGuestNetworkInterfaceByIDParams := mkPutGuestNetworkInterfaceByIDParams None "" timeout None None.
Definition NewPutGuestNetworkInterfaceByIDParamsWithContext (ctx : option go_context) : PutGuestNetworkInterfaceByIDParams := mkPutGuestNetworkInterfaceByIDParams None "" 0 ctx None.
Definition NewPutGuestNetworkInterfaceByIDParamsWithHTTPClient (client : option HTTPClient) : PutGuestNetworkInterfaceByIDParams := mkPutGuestNetworkInterfaceByIDParams None "" 0 None client.
Definition PutGuestNetworkInterfaceByIDParams_SetTimeout (o : PutGuestNetworkInterfaceByIDParams) (timeout : Z) : PutGuestNetworkInterfaceByIDParams :=
  mkPutGuestNetworkInterfaceByIDParams (PutGuestNetworkInterfaceByIDParams_Body o) (PutGuestNetworkInterfaceByIDParams_IfaceID o) timeout (PutGuestNetworkInterfaceByIDParams_Context o) (PutGuestNetworkInterfaceByIDParams_HTTPClient o).
Definition PutGuestNetworkInterfaceByIDParams_WithTimeout (o : PutGuestNetworkInterfaceByIDParams) (timeout : Z) : PutGuestNetworkInterfaceByIDParams := PutGuestNetworkInterfaceByIDParams_SetTimeout o timeout.
Definition PutGuestNetworkInterfaceByIDParams_SetContext (o : PutGuestNetworkInterfaceByIDParams) (ctx : option go_context) : PutGuestNetworkInterfaceByIDParams :=
  mkPutGuestNetworkInterfaceByIDParams (PutGuestNetworkInterfaceByIDParams_Body o) (PutGuestNetworkInterfaceByIDParams_IfaceID o) (PutGuestNetworkInterfaceByIDParams_timeout o) ctx (PutGuestNetworkInterfaceByIDParams_HTTPClient o).
Definition PutGuestNetworkInterfaceByIDParams_WithContext (o : PutGuestNetworkInterfaceByIDParams) (ctx : option go_context) : PutGuestNetworkInterfaceByIDParams := PutGuestNetworkInterfaceByIDParams_SetContext o ctx.
Definition PutGuestNetworkInterfaceByIDParams_SetHTTPClient (o : PutGuestNetworkInterfaceByIDParams) (client : option HTTPClient) : PutGuestNetworkInterfaceByIDParams :=
  mkPutGuestNetworkInterfaceByIDParams (PutGuestNetworkInterfaceByIDParams_Body o) (PutGuestNetworkInterfaceByIDParams_IfaceID o) (PutGuestNetworkInterfaceByIDParams_timeout o) (PutGuestNetworkInterfaceByIDParams_Context o) client.
Definition PutGuestNetworkInterfaceByIDParams_WithHTTPClient (o : PutGuestNetworkInterfaceByIDParams) (client : option HTTPClient) : PutGuestNetworkInterfaceByIDParams := PutGuestNetworkInterfaceByIDParams_SetHTTPClient o client.
Definition PutGuestNetworkInterfaceByIDParams_SetBody (o : PutGuestNetworkInterfaceByIDParams) (body : option NetworkInterface) : PutGuestNetworkInterfaceByIDParams :=
  mkPutGuestNetworkInterfaceByIDParams body (PutGuestNetworkInterfaceByIDParams_IfaceID o) (PutGuestNetworkInterfaceByIDParams_timeout o) (PutGuestNetworkInterfaceByIDParams_Context o) (PutGuestNetworkInterfaceByIDParams_HTTPClient o).
Definition PutGuestNetworkInterfaceByIDParams_WithBody (o : PutGuestNetworkInterfaceByIDParams) (body : option NetworkInterface) : PutGuestNetworkInterfaceByIDParams := PutGuestNetworkInterfaceByIDParams_SetBody o body.
Definition PutGuestNetworkInterfaceByIDParams_SetIfaceID (o : PutGuestNetworkInterfaceByIDParams) (ifaceID : string) : PutGuestNetworkInterfaceByIDParams :=
  mkPutGuestNetworkInterfaceByIDParams (PutGuestNetworkInterfaceByIDParams_Body o) ifaceID (PutGuestNetworkInterfaceByIDParams_timeout o) (PutGuestNetworkInterfaceByIDParams_Context o) (PutGuestNetworkInterfaceByIDParams_HTTPClient o).
Definition PutGuestNetworkInterfaceByIDParams_WithIfaceID (o : PutGuestNetworkInterfaceByIDParams) (ifaceID : string) : PutGuestNetworkInterfaceByIDParams := PutGuestNetworkInterfaceByIDParams_SetIfaceID o ifaceID.

(** ** PutGuestVsock (src/client/operations/put_guest_vsock_parameters.go) *)
Record PutGuestVsockParams := mkPutGuestVsockParams {
  PutGuestVsockParams_Body : option Vsock;
  PutGuestVsockParams_timeout : Z;
  PutGuestVsockParams_Context : option go_context;
  PutGuestVsockParams_HTTPClient : option HTTPClient
}.
Definition NewPutGuestVsockParams `{DefaultTimeout} : PutGuestVsockParams := mkPutGuestVsockParams None cr_DefaultTimeout None None.
Definition NewPutGuestVsockParamsWithTimeout (timeout : Z) : PutGuestVsockParams := mkPutGuestVsockParams None timeout None None.
Definition NewPutGuestVsockParamsWithContext (ctx : option go_context) : PutGuestVsockParams := mkPutGuestVsockParams None 0 ctx None.
Definition NewPutGuestVsockParamsWithHTTPClient (client : option HTTPClient) : PutGuestVsockParams := mkPutGuestVsockParams None 0 None client.
Definition PutGuestVsockParams_SetTimeout (o : PutGuestVsockParams) (timeout : Z) : PutGuestVsockParams :=
  mkPutGuestVsockParams (PutGuestVsockParams_Body o) timeout (PutGuestVsockParams_Context o) (PutGuestVsockParams_HTTPClient o).
Definition PutGuestVsockParams_WithTimeout (o : PutGuestVsockParams) (timeout : Z) : PutGuestVsockParams := PutGuestVsockParams_SetTimeout o timeout.
Definition PutGuestVsockParams_SetContext (o : PutGuestVsockParams) (ctx : option go_context) : PutGuestVsockParams :=
  mkPutGuestVsockParams (PutGuestVsockParams_Body o) (PutGuestVsockParams_timeout o) ctx (PutGuestVsockParams_HTTPClient o).
Definition PutGuestVsockParams_WithContext (o : PutGuestVsockParams) (ctx : option go_context) : PutGuestVsockParams := PutGuestVsockParams_SetContext o ctx.
Definition PutGuestVsockParams_SetHTTPClient (o : PutGuestVsockParams) (client : option HTTPClient) : PutGuestVsockParams :=
  mkPutGuestVsockParams (PutGuestVsockParams_Body o) (PutGuestVsockParams_timeout o) (PutGuestVsockParams_Context o) client.
Definition PutGuestVsockParams_WithHTTPClient (o : PutGuestVsockParams) (client : option HTTPClient) : PutGuestVsockParams := PutGuestVsockParams_SetHTTPClient o client.
Definition PutGuestVsockParams_SetBody (o : PutGuestVsockParams) (body : option Vsock) : PutGuestVsockParams :=
  mkPutGuestVsockParams body (PutGuestVsockParams_timeout o) (PutGuestVsockParams_Context o) (PutGuestVsockParams_HTTPClient o).
Definition PutGuestVsockParams_WithBody (o : PutGuestVsockParams) (body : option Vsock) : PutGuestVsockParams := PutGuestVsockParams_SetBody o body.

(** ** PutLogger (src/client/operations/put_logger_parameters.go) *)
Record PutLoggerParams := mkPutLoggerParams {
  PutLoggerParams_Body : option Logger;
  PutLoggerParams_timeout : Z;
  PutLoggerParams_Context : option go_context;
  PutLoggerParams_HTTPClient : option HTTPClient
}.
Definition NewPutLoggerParams `{DefaultTimeout} : PutLoggerParams := mkPutLoggerParams None cr_DefaultTimeout None None.
Definition NewPutLoggerParamsWithTimeout (timeout : Z) : PutLoggerParams := mkPutLoggerParams None timeout None None.
Definition NewPutLoggerParamsWithContext (ctx : option go_context) : PutLoggerParams := mkPutLoggerParams None 0 ctx None.
Definition NewPutLoggerParamsWithHTTPClient (client : option HTTPClient) : PutLoggerParams := mkPutLoggerParams None 0 None client.
Definition PutLoggerParams_SetTimeout (o : PutLoggerParams) (timeout : Z) : PutLoggerParams :=
  mkPutLoggerParams (PutLoggerParams_Body o) timeout (PutLoggerParams_Context o) (PutLoggerParams_HTTPClient o).
Definition PutLoggerParams_WithTimeout (o : PutLoggerParams) (timeout : Z) : PutLoggerParams := PutLoggerParams_SetTimeout o timeout.
Definition PutLoggerParams_SetContext (o : PutLoggerParams) (ctx : option go_context) : PutLoggerParams :=
  mkPutLoggerParams (PutLoggerParams_Body o) (PutLoggerParams_timeout o) ctx (PutLoggerParams_HTTPClient o).
Definition PutLoggerParams_WithContext (o : PutLoggerParams) (ctx : option go_context) : PutLoggerParams := PutLoggerParams_SetContext o ctx.
Definition PutLoggerParams_SetHTTPClient (o : PutLoggerParams) (client : option HTTPClient) : PutLoggerParams :=
  mkPutLoggerParams (PutLoggerParams_Body o) (PutLoggerParams_timeout o) (PutLoggerParams_Context o) client.
Definition PutLoggerParams_WithHTTPClient (o : PutLoggerParams) (client : option HTTPClient) : PutLoggerParams := PutLoggerParams_SetHTTPClient o client.
Definition PutLoggerParams_SetBody (o : PutLoggerParams) (body : option Logger) : PutLoggerParams :=
  mkPutLoggerParams body (PutLoggerParams_timeout o) (PutLoggerParams_Context o) (PutLoggerParams_HTTPClient o).
Definition PutLoggerParams_WithBody (o : PutLoggerParams) (body : option Logger) : PutLoggerParams := PutLoggerParams_SetBody o body.

(** ** PutMachineConfiguration (src/client/operations/put_machine_configuration_parameters.go) *)
Record PutMachineConfigurationParams := mkPutMachineConfigurationParams {
  PutMachineConfigurationParams_Body : option MachineConfiguration;
  PutMachineConfigurationParams_timeout : Z;
  PutMachineConfigurationParams_Context : option go_context;
  PutMachineConfigurationParams_HTTPClient : option HTTPClient
}.
Definition NewPutMachineConfigurationParams `{DefaultTimeout} : PutMachineConfigurationParams := mkPutMachineConfigurationParams None cr_DefaultTimeout None None.
Definition NewPutMachineConfigurationParamsWithTimeout (timeout : Z) : PutMachineConfigurationParams := mkPutMachineConfigurationParams None timeout None None.
Definition NewPutMachineConfigurationParamsWithContext (ctx : option go_context) : PutMachineConfigurationParams := mkPutMachineConfigurationParams None 0 ctx None.
Definition NewPutMachineConfigurationParamsWithHTTPClient (client : option HTTPClient) : PutMachineConfigurationParams := mkPutMachineConfigurationParams None 0 None client.
Definition PutMachineConfigurationParams_SetTimeout (o : PutMachineConfigurationParams) (timeout : Z) : PutMachineConfigurationParams :=
  mkPutMachineConfigurationParams (PutMachineConfigurationParams_Body o) timeout (PutMachineConfigurationParams_Context o) (PutMachineConfigurationParams_HTTPClient o).
Definition PutMachineConfigurationParams_WithTimeout (o : PutMachineConfigurationParams) (timeout : Z) : PutMachineConfigurationParams := PutMachineConfigurationParams_SetTimeout o timeout.
Definition PutMachineConfigurationParams_SetContext (o : PutMachineConfigurationParams) (ctx : option go_context) : PutMachineConfigurationParams :=
  mkPutMachineConfigurationParams (PutMachineConfigurationParams_Body o) (PutMachineConfigurationParams_timeout o) ctx (PutMachineConfigurationParams_HTTPClient o).
Definition PutMachineConfigurationParams_WithContext (o : PutMachineConfigurationParams) (ctx : option go_context) : PutMachineConfigurationParams := PutMachineConfigurationParams_SetContext o ctx.
Definition PutMachineConfigurationParams_SetHTTPClient (o : PutMachineConfigurationParams) (client : option HTTPClient) : PutMachineConfigurationParams :=
  mkPutMachineConfigurationParams (PutMachineConfigurationParams_Body o) (PutMachineConfigurationParams_timeout o) (PutMachineConfigurationParams_Context o) client.
Definition PutMachineConfigurationParams_WithHTTPClient (o : PutMachineConfigurationParams) (client : option HTTPClient) : PutMachineConfigurationParams := PutMachineConfigurationParams_SetHTTPClient o client.
Definition PutMachineConfigurationParams_SetBody (o : PutMachineConfigurationParams) (body : option MachineConfiguration) : PutMachineConfigurationParams :=
  mkPutMachineConfigurationParams body (PutMachineConfigurationParams_timeout o) (PutMachineConfigurationParams_Context o) (PutMachineConfigurationParams_HTTPClient o).
Definition PutMachineConfigurationParams_WithBody (o : PutMachineConfigurationParams) (body : option MachineConfiguration) : PutMachineConfigurationParams := PutMachineConfigurationParams_SetBody o body.

(** ** PutMetrics (src/client/operations/put_metrics_parameters.go) *)
Record PutMetricsParams := mkPutMetricsParams {
  PutMetricsParams_Body : option Metrics;
  PutMetricsParams_timeout : Z;
  PutMetricsParams_Context : option go_context;
  PutMetricsParams_HTTPClient : option HTTPClient
}.
Definition NewPutMetricsParams `{DefaultTimeout} : PutMetricsParams := mkPutMetricsParams None cr_DefaultTimeout None None.
Definition NewPutMetricsParamsWithTimeout (timeout : Z) : PutMetricsParams := mkPutMetricsParams None timeout None None.
Definition NewPutMetricsParamsWithContext (ctx : option go_context) : PutMetricsParams := mkPutMetricsParams None 0 ctx None.
Definition NewPutMetricsParamsWithHTTPClient (client : option HTTPClient) : PutMetricsParams := mkPutMetricsParams None 0 None client.
Definition PutMetricsParams_SetTimeout (o : PutMetricsParams) (timeout : Z) : PutMetricsParams :=
  mkPutMetricsParams (PutMetricsParams_Body o) timeout (PutMetricsParams_Context o) (PutMetricsParams_HTTPClient o).
Definition PutMetricsParams_WithTimeout (o : PutMetricsParams) (timeout : Z) : PutMetricsParams := PutMetricsParams_SetTimeout o timeout.
Definition PutMetricsParams_SetContext (o : PutMetricsParams) (ctx : option go_context) : PutMetricsParams :=
  mkPutMetricsParams (PutMetricsParams_Body o) (PutMetricsParams_timeout o) ctx (PutMetricsParams_HTTPClient o).
Definition PutMetricsParams_WithContext (o : PutMetricsParams) (ctx : option go_context) : PutMetricsParams := PutMetricsParams_SetContext o ctx.
Definition PutMetricsParams_SetHTTPClient (o : PutMetricsParams) (client : option HTTPClient) : PutMetricsParams :=
  mkPutMetricsParams (PutMetricsParams_Body o) (PutMetricsParams_timeout o) (PutMetricsParams_Context o) client.
Definition PutMetricsParams_WithHTTPClient (o : PutMetricsParams) (client : option HTTPClient) : PutMetricsParams := PutMetricsParams_SetHTTPClient o client.
Definition PutMetricsParams_SetBody (o : PutMetricsParams) (body : option Metrics) : PutMetricsParams :=
  mkPutMetricsParams body (PutMetricsParams_timeout o) (PutMetricsParams_Context o) (PutMetricsParams_HTTPClient o).
Definition PutMetricsParams_WithBody (o : PutMetricsParams) (body : option Metrics) : PutMetricsParams := PutMetricsParams_SetBody o body.

(** ** PutMmds (src/client/operations/put_mmds_parameters.go) *)
Record PutMmdsParams := mkPutMmdsParams {
  PutMmdsParams_Body : MmdsContentsObject;
  PutMmdsParams_timeout : Z;
  PutMmdsParams_Context : option go_context;
  PutMmdsParams_HTTPClient : option HTTPClient
}.
Definition NewPutMmdsParams `{DefaultTimeout} : PutMmdsParams := mkPutMmdsParams None cr_DefaultTimeout None None.
Definition NewPutMmdsParamsWithTimeout (timeout : Z) : PutMmdsParams := mkPutMmdsParams None timeout None None.
Definition NewPutMmdsParamsWithContext (ctx : option go_context) : PutMmdsParams := mkPutMmdsParams None 0 ctx None.
Definition NewPutMmdsParamsWithHTTPClient (client : option HTTPClient) : PutMmdsParams := mkPutMmdsParams None 0 None client.
Definition PutMmdsParams_SetTimeout (o : PutMmdsParams) (timeout : Z) : PutMmdsParams :=
  mkPutMmdsParams (PutMmdsParams_Body o) timeout (PutMmdsParams_Context o) (PutMmdsParams_HTTPClient o).
Definition PutMmdsParams_WithTimeout (o : PutMmdsParams) (timeout : Z) : PutMmdsParams := PutMmdsParams_SetTimeout o timeout.
Definition PutMmdsParams_SetContext (o : PutMmdsParams) (ctx : option go_context) : PutMmdsParams :=
  mkPutMmdsParams (PutMmdsParams_Body o) (PutMmdsParams_timeout o) ctx (PutMmdsParams_HTTPClient o).
Definition PutMmdsParams_WithContext (o : PutMmdsParams) (ctx : option go_context) : PutMmdsParams := PutMmdsParams_SetContext o ctx.
Definition PutMmdsParams_SetHTTPClient (o : PutMmdsParams) (client : option HTTPClient) : PutMmdsParams :=
  mkPutMmdsParams (PutMmdsParams_Body o) (PutMmdsParams_timeout o) (PutMmdsParams_Context o) client.
Definition PutMmdsParams_WithHTTPClient (o : PutMmdsParams) (client : option HTTPClient) : PutMmdsParams := PutMmdsParams_SetHTTPClient o client.
Definition PutMmdsParams_SetBody (o : PutMmdsParams) (body : MmdsContentsObject) : PutMmdsParams :=
  mkPutMmdsParams body (PutMmdsParams_timeout o) (PutMmdsParams_Context o) (PutMmdsParams_HTTPClient o).
Definition PutMmdsParams_WithBody (o : PutMmdsParams) (body : MmdsContentsObject) : PutMmdsParams := PutMmdsParams_SetBody o body.

(** ** PutMmdsConfig (src/client/operations/put_mmds_config_parameters.go) *)
Record PutMmdsConfigParams := mkPutMmdsConfigParams {
  PutMmdsConfigParams_Body : option MmdsConfig;
  PutMmdsConfigParams_timeout : Z;
  PutMmdsConfigParams_Context : option go_context;
  PutMmdsConfigParams_HTTPClient : option HTTPClient
}.
Definition NewPutMmdsConfigParams `{DefaultTimeout} : PutMmdsConfigParams := mkPutMmdsConfigParams None cr_DefaultTimeout None None.
Definition NewPutMmdsConfigParamsWithTimeout (timeout : Z) : PutMmdsConfigParams := mkPutMmdsConfigParams None timeout None None.
Definition NewPutMmdsConfigParamsWithContext (ctx : option go_context) : PutMmdsConfigParams := mkPutMmdsConfigParams None 0 ctx None.
Definition NewPutMmdsConfigParamsWithHTTPClient (client : option HTTPClient) : PutMmdsConfigParams := mkPutMmdsConfigParams None 0 None client.
Definition PutMmdsConfigParams_SetTimeout (o : PutMmdsConfigParams) (timeout : Z) : PutMmdsConfigParams :=
  mkPutMmdsConfigParams (PutMmdsConfigParams_Body o) timeout (PutMmdsConfigParams_Context o) (PutMmdsConfigParams_HTTPClient o).
Definition PutMmdsConfigParams_WithTimeout (o : PutMmdsConfigParams) (timeout : Z) : PutMmdsConfigParams := PutMmdsConfigParams_SetTimeout o timeout.
Definition PutMmdsConfigParams_SetContext (o : PutMmdsConfigParams) (ctx : option go_context) : PutMmdsConfigParams :=
  mkPutMmdsConfigParams (PutMmdsConfigParams_Body o) (PutMmdsConfigParams_timeout o) ctx (PutMmdsConfigParams_HTTPClient o).
Definition PutMmdsConfigParams_WithContext (o : PutMmdsConfigParams) (ctx : option go_context) : PutMmdsConfigParams := PutMmdsConfigParams_SetContext o ctx.
Definition PutMmdsConfigParams_SetHTTPClient (o : PutMmdsConfigParams) (client : option HTTPClient) : PutMmdsConfigParams :=
  mkPutMmdsConfigParams (PutMmdsConfigParams_Body o) (PutMmdsConfigParams_timeout o) (PutMmdsConfigParams_Context o) client.
Definition PutMmdsConfigParams_WithHTTPClient (o : PutMmdsConfigParams) (client : option HTTPClient) : PutMmdsConfigParams := PutMmdsConfigParams_SetHTTPClient o client.
Definition PutMmdsConfigParams_SetBody (o : PutMmdsConfigParams) (body : option MmdsConfig) : PutMmdsConfigParams :=
  mkPutMmdsConfigParams body (PutMmdsConfigParams_timeout o) (PutMmdsConfigParams_Context o) (PutMmdsConfigParams_HTTPClient o).
Definition PutMmdsConfigParams_WithBody (o : PutMmdsConfigParams) (body : option MmdsConfig) : PutMmdsConfigParams := PutMmdsConfigParams_SetBody o body.

(** ** Successful responses with a payload *)
Record DescribeBalloonConfigOK := mkDescribeBalloonConfigOK { DescribeBalloonConfigOK_Payload : option Balloon }.
Record DescribeBalloonStatsOK := mkDescribeBalloonStatsOK { DescribeBalloonStatsOK_Payload : option BalloonStats }.
Record DescribeInstanceOK := mkDescribeInstanceOK { DescribeInstanceOK_Payload : option InstanceInfo }.
Record GetExportVMConfigOK := mkGetExportVMConfigOK { GetExportVMConfigOK_Payload : option FullVMConfiguration }.
Record GetFirecrackerVersionOK := mkGetFirecrackerVersionOK { GetFirecrackerVersionOK_Payload : option FirecrackerVersion }.
Record GetMachineConfigurationOK := mkGetMachineConfigurationOK { GetMachineConfigurationOK_Payload : option MachineConfiguration }.
Record GetMmdsOK := mkGetMmdsOK { GetMmdsOK_Payload : MmdsContentsObject }.

(** ** The operations interface (src/client/operations/operations_client.go)

    [ClientIface] as a signature of calls.  An operation whose success has no
    content answers with its error alone; the others answer with an error or the
    successful response. *)
Inductive ClientIface : Type → Type :=
  | Ops_CreateSnapshot (params : CreateSnapshotParams) : ClientIface error
  | Ops_CreateSyncAction (params : CreateSyncActionParams) : ClientIface error
  | Ops_DescribeBalloonConfig (params : DescribeBalloonConfigParams) : ClientIface (Err + DescribeBalloonConfigOK)
  | Ops_DescribeBalloonStats (params : DescribeBalloonStatsParams) : ClientIface (Err + DescribeBalloonStatsOK)
  | Ops_DescribeInstance (params : DescribeInstanceParams) : ClientIface (Err + DescribeInstanceOK)
  | Ops_GetExportVMConfig (params : GetExportVMConfigParams) : ClientIface (Err + GetExportVMConfigOK)
  | Ops_GetFirecrackerVersion (params : GetFirecrackerVersionParams) : ClientIface (Err + GetFirecrackerVersionOK)
  | Ops_GetMachineConfiguration (params : GetMachineConfigurationParams) : ClientIface (Err + GetMachineConfigurationOK)
  | Ops_GetMmds (params : GetMmdsParams) : ClientIface (Err + GetMmdsOK)
  | Ops_LoadSnapshot (params : LoadSnapshotParams) : ClientIface error
  | Ops_PatchBalloon (params : PatchBalloonParams) : ClientIface error
  | Ops_PatchBalloonStatsInterval (params : PatchBalloonStatsIntervalParams) : ClientIface error
  | Ops_PatchGuestDriveByID (params : PatchGuestDriveByIDParams) : ClientIface error
  | Ops_PatchGuestNetworkInterfaceByID (params : PatchGuestNetworkInterfaceByIDParams) : ClientIface error
  | Ops_PatchMachineConfiguration (params : PatchMachineConfigurationParams) : ClientIface error
  | Ops_PatchMmds (params : PatchMmdsParams) : ClientIface error
  | Ops_PatchVM (params : PatchVMParams) : ClientIface error
  | Ops_PutBalloon (params : PutBalloonParams) : ClientIface error
  | Ops_PutCPUConfiguration (params : PutCPUConfigurationParams) : ClientIface error
  | Ops_PutEntropyDevice (params : PutEntropyDeviceParams) : ClientIface error
  | Ops_PutGuestBootSource (params : PutGuestBootSourceParams) : ClientIface error
  | Ops_PutGuestDriveByID (params : PutGuestDriveByIDParams) : ClientIface error
  | Ops_PutGuestNetworkInterfaceByID (params : PutGuestNetworkInterfaceByIDParams) : ClientIface error
  | Ops_PutGuestVsock (params : PutGuestVsockParams) : ClientIface error
  | Ops_PutLogger (params : PutLoggerParams) : ClientIface error
  | Ops_PutMachineConfiguration (params : PutMachineConfigurationParams) : ClientIface error
  | Ops_PutMetrics (params : PutMetricsParams) : ClientIface error
  | Ops_PutMmds (params : PutMmdsParams) : ClientIface error
  | Ops_PutMmdsConfig (params : PutMmdsConfigParams) : ClientIface error.
