(* ===== verification/Slices.v ===== *)
(** * Go slices

    A slice is a window on a backing array that other slices may share.
    [append] writes into the array while the capacity lasts and allocates a
    larger one when it does not, so two slices grown from a common one can
    overwrite each other.  The heap of arrays is explicit here; the growth rule
    of the Go run time is a parameter with the one law the language gives. *)

From stdpp Require Import gmap list.
From Stdlib Require Import Lia.
From S2P Require Import Prelude.

Open Scope nat_scope.

Record slice := mkSlice { arr : nat; off : nat; len : nat; cap : nat }.

Definition nil_slice : slice := mkSlice 0 0 0 0.

(** The capacity [append] gives a new array, from the old capacity and the
    length needed. *)
Class Growth := {
  growslice : nat → nat → nat;
  growslice_ge c n : n ≤ growslice c n;
}.

Section slices.
Context {A : Type} `{Inhabited A} `{Growth}.

Abbreviation heap := (gmap nat (list A)).

Definition array (h : heap) (s : slice) : list A := default [] (h !! arr s).

(** The elements of a slice, what ranging over it visits. *)
Definition elems (h : heap) (s : slice) : list A := take (len s) (drop (off s) (array h s)).

Definition slice_wf (h : heap) (s : slice) : Prop :=
  len s ≤ cap s ∧
  (cap s = 0 ∨ is_Some (h !! arr s) ∧ off s + cap s ≤ length (array h s)).

(** Overwrite the elements of an array from index [i]. *)
Definition write_at (i : nat) (xs a : list A) : list A :=
  take i a ++ xs ++ drop (i + length xs) a.

(** [make] and composite literals: a fresh array, full. *)
Definition new_slice (h : heap) (xs : list A) : slice * heap :=
  let r := fresh (dom h) in
  (mkSlice r 0 (length xs) (length xs), <[r := xs]> h).

(** [append(s, xs...)] *)
Definition append (h : heap) (s : slice) (xs : list A) : slice * heap :=
  let n := len s + length xs in
  if n <=? cap s then
    (mkSlice (arr s) (off s) n (cap s),
     if decide (xs = []) then h else <[arr s := write_at (off s + len s) xs (array h s)]> h)
  else
    let c := growslice (cap s) n in
    let r := fresh (dom h) in
    (mkSlice r 0 n c,
     <[r := elems h s ++ xs ++ replicate (c - n) inhabitant]> h).

(** [s[0:0]] *)
Definition reslice_empty (s : slice) : slice := mkSlice (arr s) (off s) 0 (cap s).

(** A loop that ranges over [s] and appends [f x] to a slice that is nil at
    first, for each element [x]. *)
Definition range_append (h : heap) (s : slice) (f : A → list A) : slice * heap :=
  foldl (λ '(acc, h), λ x, append h acc (f x)) (nil_slice, h) (elems h s).

(** The written part of the array is outside [t]. *)
Definition spared (s t : slice) (n : nat) : Prop :=
  n = 0 ∨ cap t = 0 ∨ cap s < len s + n ∨ arr t ≠ arr s ∨ off t + len t ≤ off s + len s ∨
  off s + len s + n ≤ off t.

(** ** Lemmas *)
Implicit Types (h : heap) (s t : slice) (xs : list A).

Lemma elems_length h s : slice_wf h s → length (elems h s) = len s.
Proof.
  intros [Hlen Hcap]. unfold elems. rewrite length_take, length_drop. lia.
Qed.

Lemma nil_slice_wf h : slice_wf h nil_slice.
Proof. split; [done|]. by left. Qed.

Lemma elems_nil h : elems h nil_slice = [].
Proof. done. Qed.

Lemma array_insert_ne h s r a : r ≠ arr s → array (<[r := a]> h) s = array h s.
Proof. intros. unfold array. by rewrite lookup_insert_ne. Qed.

Lemma fresh_not_arr h s : is_Some (h !! arr s) → fresh (dom h) ≠ arr s.
Proof.
  intros Hs Heq. apply elem_of_dom in Hs. rewrite <- Heq in Hs.
  by apply is_fresh in Hs.
Qed.

Lemma elems_fresh h t a : slice_wf h t → elems (<[fresh (dom h) := a]> h) t = elems h t.
Proof.
  intros [Hlen [Hcap|[Harr Hcap]]]; unfold elems.
  - replace (len t) with 0 by lia. by rewrite !take_0.
  - by rewrite array_insert_ne by (by apply fresh_not_arr).
Qed.

Lemma length_write_at i xs (a : list A) :
  i + length xs ≤ length a → length (write_at i xs a) = length a.
Proof. intros. unfold write_at. rewrite !length_app, length_take, length_drop. lia. Qed.

Lemma write_at_elems i n xs (a : list A) :
  i + n + length xs ≤ length a →
  take (n + length xs) (drop i (write_at (i + n) xs a)) = take n (drop i a) ++ xs.
Proof.
  intros Hi. unfold write_at.
  rewrite drop_app_le by (rewrite length_take; lia).
  rewrite skipn_firstn_comm. replace (i + n - i) with n by lia.
  assert (length (take n (drop i a)) = n) as Hp by (rewrite length_take, length_drop; lia).
  rewrite (take_app_ge (take n (drop i a))) by lia. rewrite Hp.
  replace (n + length xs - n) with (length xs) by lia.
  by rewrite take_app_length.
Qed.

Lemma write_at_before i xs (a : list A) j n :
  j + n ≤ i → i ≤ length a → take n (drop j (write_at i xs a)) = take n (drop j a).
Proof.
  intros. unfold write_at. rewrite drop_app_le by (rewrite length_take; lia).
  rewrite skipn_firstn_comm, take_app_le by (rewrite length_take, length_drop; lia).
  rewrite take_take. f_equal. lia.
Qed.

Lemma write_at_after i xs (a : list A) j :
  i + length xs ≤ j → i + length xs ≤ length a → drop j (write_at i xs a) = drop j a.
Proof.
  intros. unfold write_at.
  rewrite drop_app_ge by (rewrite length_take; lia).
  rewrite drop_app_ge by (rewrite length_take; lia).
  rewrite drop_drop, length_take. f_equal. lia.
Qed.

(** [append] gives the elements followed by the new ones. *)
Lemma append_elems h s xs :
  slice_wf h s →
  let '(s', h') := append h s xs in
  slice_wf h' s' ∧ elems h' s' = elems h s ++ xs.
Proof.
  intros Hwf. pose proof (elems_length h s Hwf) as Hel. unfold append.
  destruct (Nat.leb_spec (len s + length xs) (cap s)) as [Hle|Hgt].
  - destruct Hwf as [Hlen [Hcap|[Harr Hcap]]].
    + assert (xs = []) as -> by (apply length_zero_iff_nil; lia).
      rewrite decide_True by done. split.
      * split; simpl; [simpl in Hle; lia|by left].
      * unfold elems. simpl. replace (len s) with 0 by lia. by rewrite Nat.add_0_r, !take_0.
    + case_decide as Hxs.
      { subst xs. rewrite app_nil_r. split.
        - split; simpl; [simpl in Hle; lia|by right].
        - unfold elems. simpl. by rewrite Nat.add_0_r. }
      split.
      * split; [done|]. right. unfold array. simpl. rewrite lookup_insert_eq. simpl.
        split; [by eexists|]. rewrite length_write_at by (unfold array in *; lia).
        unfold array in *. lia.
      * unfold elems at 1. unfold array at 1. simpl. rewrite lookup_insert_eq. simpl.
        apply write_at_elems. lia.
  - pose proof (growslice_ge (cap s) (len s + length xs)). split.
    + split; simpl; [lia|]. right. unfold array. simpl. rewrite lookup_insert_eq. simpl.
      split; [by eexists|]. rewrite !length_app, length_replicate. lia.
    + unfold elems at 1. unfold array at 1. simpl. rewrite lookup_insert_eq. simpl.
      rewrite drop_0, (assoc_L (++)), take_app_le by (rewrite length_app; lia).
      apply take_ge. rewrite length_app. lia.
Qed.

(** A slice outside the part that [append] writes keeps its elements. *)
Lemma append_frame h s xs t :
  slice_wf h s → slice_wf h t → spared s t (length xs) →
  let '(_, h') := append h s xs in slice_wf h' t ∧ elems h' t = elems h t.
Proof.
  intros Hs Ht Hsp. unfold append.
  destruct (Nat.leb_spec (len s + length xs) (cap s)) as [Hle|Hgt].
  - case_decide; [done|]. destruct Hs as [Hlen [Hcap|[Harr Hcap]]].
    { destruct xs; simpl in *; [done|lia]. }
    destruct (decide (arr t = arr s)) as [Heq|Hne].
    + destruct Hsp as [Hn|[Hct|[?|[?|Hout]]]]; [by destruct xs|..|lia|done|].
      { destruct Ht as [Htl _]. split; [split; [done|by left]|].
        unfold elems. replace (len t) with 0 by lia. by rewrite !take_0. }
      assert (array (<[arr s:=write_at (off s + len s) xs (array h s)]> h) t =
              write_at (off s + len s) xs (array h s)) as Harr'.
      { unfold array at 1. by rewrite Heq, lookup_insert_eq. }
      assert (array h t = array h s) as Hts by (unfold array; by rewrite Heq).
      destruct Ht as [Htl Htc]. split.
      * split; [done|]. destruct Htc as [?|[_ Htc]]; [by left|right].
        rewrite Harr', length_write_at by lia. rewrite Heq, lookup_insert_eq, <- Hts.
        split; [by eexists|done].
      * unfold elems. rewrite Harr', Hts. destruct Hout.
        -- apply write_at_before; lia.
        -- by rewrite write_at_after by lia.
    + assert (array (<[arr s:=write_at (off s + len s) xs (array h s)]> h) t = array h t)
        as Harr' by (by apply array_insert_ne).
      unfold slice_wf, elems. rewrite Harr', lookup_insert_ne by done. by destruct Ht.
  - split; [|by apply elems_fresh]. destruct Ht as [Htl [Htc|[Harr Htc]]]; split; try done.
    + by left.
    + right. rewrite array_insert_ne, lookup_insert_ne by (by apply fresh_not_arr). done.
Qed.

(** What [append] writes when the capacity allows it: a slice over the same
    window of the array sees the new elements. *)
Lemma append_overwrites h s xs t :
  slice_wf h s → len s + length xs ≤ cap s → xs ≠ [] →
  arr t = arr s → off t = off s → len t = len s + length xs →
  let '(_, h') := append h s xs in elems h' t = elems h s ++ xs.
Proof.
  intros Hs Hle Hxs Harr Hoff Hlen. pose proof (append_elems h s xs Hs) as Happ.
  unfold append in *. destruct (Nat.leb_spec (len s + length xs) (cap s)); [|lia].
  rewrite decide_False in * by done. destruct Happ as [_ Happ].
  rewrite <- Happ. unfold elems, array. simpl. by rewrite Harr, Hoff, Hlen.
Qed.

(** The slice a loop builds from nil lives in arrays of its own. *)
Definition owned (h0 : heap) (s : slice) : Prop := cap s = 0 ∨ arr s ∉ dom h0.

Lemma append_owned h0 h s xs :
  owned h0 s → dom h0 ⊆ dom h →
  let '(s', h') := append h s xs in owned h0 s' ∧ dom h0 ⊆ dom h'.
Proof.
  intros Hown Hdom. unfold append. destruct (Nat.leb_spec (len s + length xs) (cap s)).
  - split; [by destruct Hown; [left|right]|]. case_decide; [done|]. rewrite dom_insert. set_solver.
  - split; [|rewrite dom_insert; set_solver]. right. simpl.
    pose proof (is_fresh (dom h)). set_solver.
Qed.

Lemma owned_spared h0 s t n : owned h0 s → slice_wf h0 t → len s ≤ cap s → spared s t n.
Proof.
  unfold spared. intros [Hc|Hs] [Htl [Htc|[Harr _]]] Hlen; [lia|lia|lia|].
  right. right. right. left. intros Heq. apply Hs, elem_of_dom. by rewrite <- Heq.
Qed.

Lemma range_append_spec h s (f : A → list A) :
  let '(s', h') := range_append h s f in
  slice_wf h' s' ∧ elems h' s' = (elems h s ≫= f) ∧
  (∀ t, slice_wf h t → slice_wf h' t ∧ elems h' t = elems h t).
Proof.
  unfold range_append. generalize (elems h s). clear s. intros l.
  enough (∀ acc h1,
    slice_wf h1 acc → owned h acc → dom h ⊆ dom h1 →
    (∀ t, slice_wf h t → slice_wf h1 t ∧ elems h1 t = elems h t) →
    let '(s', h') := foldl (λ '(acc, h), λ x, append h acc (f x)) (acc, h1) l in
    slice_wf h' s' ∧ elems h' s' = elems h1 acc ++ (l ≫= f) ∧
    (∀ t, slice_wf h t → slice_wf h' t ∧ elems h' t = elems h t)) as Hgen.
  { specialize (Hgen nil_slice h (nil_slice_wf h)). rewrite elems_nil in Hgen.
    apply Hgen; [by left | done | done]. }
  induction l as [|x l IH]; intros acc h1 Hacc Hown Hdom Hold; cbn [foldl].
  { cbn. rewrite app_nil_r. auto. }
  pose proof (append_elems h1 acc (f x) Hacc) as Happ.
  pose proof (λ t, append_frame h1 acc (f x) t Hacc) as Hframe.
  pose proof (append_owned h h1 acc (f x) Hown Hdom) as Hown'.
  destruct (append h1 acc (f x)) as [acc' h2].
  destruct Happ as [Hacc' Hel], Hown' as [Hown' Hdom'].
  specialize (IH acc' h2 Hacc' Hown' Hdom').
  rewrite bind_cons, (assoc_L (++)), <- Hel. apply IH.
  intros t Ht. destruct (Hold t Ht) as [Ht1 <-]. apply Hframe; [done|].
  eapply owned_spared; [done..|]. by destruct Hacc.
Qed.
End slices.
