(* ===== verification/Handlers.v ===== *)
(** * Handler lists (src/handlers.go)

    A [HandlerList] wraps a Go slice of named handlers.  The operations are
    modelled twice: on slices over a heap of backing arrays, as the code runs,
    and on plain lists ([Module Spec]), as its callers think of it.
    [handler_list_refines] relates the two; [Append_shared] and [Clear_Append]
    show where sharing breaks the list view.  The function a handler carries is
    a parameter [F], interpreted by the component that runs the handlers. *)

From stdpp Require Import gmap strings list.
From Stdlib Require Import Lia.
From S2P Require Import Prelude Slices.

Open Scope string_scope.
Open Scope list_scope.

(** ** Handler names *)
Definition StartVMMHandlerName : string := "fcinit.StartVMM".
Definition BootstrapLoggingHandlerName : string := "fcinit.BootstrapLogging".
Definition CreateLogFilesHandlerName : string := "fcinit.CreateLogFilesHandler".
Definition CreateMachineHandlerName : string := "fcinit.CreateMachine".
Definition CreateBootSourceHandlerName : string := "fcinit.CreateBootSource".
Definition AttachDrivesHandlerName : string := "fcinit.AttachDrives".
Definition CreateNetworkInterfacesHandlerName : string := "fcinit.CreateNetworkInterfaces".
Definition AddVsocksHandlerName : string := "fcinit.AddVsocks".
Definition SetMetadataHandlerName : string := "fcinit.SetMetadata".
Definition ConfigMmdsHandlerName : string := "fcinit.ConfigMmds".
Definition LinkFilesToRootFSHandlerName : string := "fcinit.LinkFilesToRootFS".
Definition SetupNetworkHandlerName : string := "fcinit.SetupNetwork".
Definition SetupKernelArgsHandlerName : string := "fcinit.SetupKernelArgs".
Definition CreateBalloonHandlerName : string := "fcinit.CreateBalloon".
Definition LoadSnapshotHandlerName : string := "fcinit.LoadSnapshot".
Definition ValidateCfgHandlerName : string := "validate.Cfg".
Definition ValidateJailerCfgHandlerName : string := "validate.JailerCfg".
Definition ValidateNetworkCfgHandlerName : string := "validate.NetworkCfg".
Definition ValidateLoadSnapshotCfgHandlerName : string := "validate.LoadSnapshotCfg".

Record Handler (F : Type) := mkHandler { Handler_Name : string; Handler_Fn : F }.
Arguments mkHandler {F} _ _.
Arguments Handler_Name {F} _.
Arguments Handler_Fn {F} _.

#[export] Instance Handler_eq_dec {F} `{EqDecision F} : EqDecision (Handler F).
Proof. solve_decision. Defined.

(** Where the loops of [AppendAfter], [Swap] and [Remove] send an element. *)
Definition after_element {F} (name : string) (handler h : Handler F) : list (Handler F) :=
  if (Handler_Name h =? name)%string then [h; handler] else [h].
Definition swap_element {F} (handler h : Handler F) : list (Handler F) :=
  if (Handler_Name h =? Handler_Name handler)%string then [handler] else [h].
Definition remove_element {F} (name : string) (h : Handler F) : list (Handler F) :=
  if (Handler_Name h =? name)%string then [] else [h].

(** ** The list view

    What a caller expects of each operation, on the whole list and without the loops
    of the code. *)
Module Spec.
Section spec.
Context {F : Type}.
Implicit Types (l handlers : list (Handler F)).

Definition Prepend l handlers := handlers ++ l.
Definition Append l handlers := l ++ handlers.
Fixpoint AppendAfter l (name : string) (handler : Handler F) : list (Handler F) :=
  match l with
  | [] => []
  | h :: l => if decide (Handler_Name h = name) then h :: handler :: AppendAfter l name handler
              else h :: AppendAfter l name handler
  end.
Definition Has l (name : string) : bool := bool_decide (name ∈ Handler_Name <$> l).
Definition Swap l (handler : Handler F) :=
  (λ h, if decide (Handler_Name h = Handler_Name handler) then handler else h) <$> l.
Definition Swappend l (handler : Handler F) :=
  if Has l (Handler_Name handler) then Swap l handler else Append l [handler].
Definition Remove l (name : string) := filter (λ h, Handler_Name h ≠ name) l.
End spec.
End Spec.

(** ** The operations on slices *)
Section handler_list.
Context {F : Type} `{Inhabited (Handler F)} `{Growth}.

Abbreviation heap := (gmap nat (list (Handler F))).

(** [append(handlers, l.list...)] *)
Definition HandlerList_Prepend (h : heap) (l handlers : slice) : slice * heap :=
  append h handlers (elems h l).

(** [append(l.list, handlers...)] *)
Definition HandlerList_Append (h : heap) (l handlers : slice) : slice * heap :=
  append h l (elems h handlers).

Definition HandlerList_AppendAfter (h : heap) (l : slice) (name : string)
    (handler : Handler F) : slice * heap :=
  range_append h l (after_element name handler).

Definition HandlerList_Len (l : slice) : nat := len l.

Definition HandlerList_Has (h : heap) (l : slice) (name : string) : bool :=
  existsb (λ x, Handler_Name x =? name)%string (elems h l).

Definition HandlerList_Swap (h : heap) (l : slice) (handler : Handler F) : slice * heap :=
  range_append h l (swap_element handler).

Definition HandlerList_Swappend (h : heap) (l : slice) (handler : Handler F) : slice * heap :=
  if HandlerList_Has h l (Handler_Name handler) then HandlerList_Swap h l handler
  else
    let '(handlers, h) := new_slice h [handler] in
    HandlerList_Append h l handlers.

Definition HandlerList_Remove (h : heap) (l : slice) (name : string) : slice * heap :=
  range_append h l (remove_element name).

Definition HandlerList_Clear (l : slice) : slice := reslice_empty l.

(** ** Running *)
Definition HandlerList_Run {E S} (exec : F → GoM E S error) (l : list (Handler F)) :
    GoM E S error :=
  range_err (λ handler, exec (Handler_Fn handler)) l.

(** [func (h Handlers) Run]: the lists flattened, validation first unless it is
    disabled. *)
Definition Handlers_Run {E S} (exec : F → GoM E S error) (disable_validation : bool)
    (validation fcinit : list (Handler F)) : GoM E S error :=
  let l := if disable_validation then [] else Spec.Append [] validation in
  HandlerList_Run exec (Spec.Append l fcinit).
End handler_list.

(** ** Lemmas on the list view *)
Section spec_lemmas.
Context {F : Type}.
Implicit Types (l : list (Handler F)) (h : Handler F).

Lemma after_loop l name x : l ≫= after_element name x = Spec.AppendAfter l name x.
Proof.
  unfold after_element. induction l as [|h l IH]; [done|]. rewrite bind_cons, IH. simpl.
  destruct (String.eqb_spec (Handler_Name h) name); by case_decide.
Qed.

Lemma remove_loop l name : l ≫= remove_element name = Spec.Remove l name.
Proof.
  unfold Spec.Remove, remove_element. induction l as [|h l IH]; [done|].
  rewrite bind_cons, IH, filter_cons.
  destruct (String.eqb_spec (Handler_Name h) name); case_decide; done || congruence.
Qed.

Lemma swap_loop l x : l ≫= swap_element x = Spec.Swap l x.
Proof.
  unfold Spec.Swap, swap_element. induction l as [|h l IH]; [done|].
  rewrite bind_cons, IH, fmap_cons.
  destruct (String.eqb_spec (Handler_Name h) (Handler_Name x)); case_decide; done || congruence.
Qed.

Lemma has_loop l name : existsb (λ h, Handler_Name h =? name)%string l = Spec.Has l name.
Proof.
  apply eq_true_iff_eq. unfold Spec.Has. rewrite bool_decide_eq_true, existsb_exists, list_elem_of_fmap.
  setoid_rewrite String.eqb_eq. setoid_rewrite <- list_elem_of_In. naive_solver.
Qed.

Lemma append_after_split l1 x l2 name h :
  Handler_Name x = name → name ∉ Handler_Name <$> l1 → name ∉ Handler_Name <$> l2 →
  Spec.AppendAfter (l1 ++ x :: l2) name h = l1 ++ x :: h :: l2.
Proof.
  intros Hx Hl1 Hl2.
  assert (∀ l l', name ∉ Handler_Name <$> l → Spec.AppendAfter (l ++ l') name h = l ++ Spec.AppendAfter l' name h) as Hid.
  { intros l l'. induction l as [|y l IH]; [done|]. rewrite fmap_cons, not_elem_of_cons.
    intros [Hy Hl]. simpl. rewrite IH by done. by case_decide. }
  rewrite Hid by done. simpl. rewrite decide_True by done.
  rewrite <- (app_nil_r l2) at 1. rewrite Hid by done. simpl. by rewrite app_nil_r.
Qed.
End spec_lemmas.

(** ** Theorems *)
Section theorems.
Context {F : Type} `{Inhabited (Handler F)} `{Growth}.

(** What every operation promises: the list it computes, and that the lists
    which existed before are as they were. *)
Definition refines (h : gmap nat (list (Handler F))) (r : slice * gmap nat (list (Handler F)))
    (l : list (Handler F)) : Prop :=
  slice_wf r.2 r.1 ∧ elems r.2 r.1 = l.

Definition preserves (h h' : gmap nat (list (Handler F))) : Prop :=
  ∀ t, slice_wf h t → slice_wf h' t ∧ elems h' t = elems h t.

Lemma append_refines h l xs : slice_wf h l → refines h (append h l xs) (elems h l ++ xs).
Proof.
  intros Hl. pose proof (append_elems h l xs Hl) as Ha. unfold refines.
  by destruct (append h l xs).
Qed.

Lemma range_append_refines h l (f : Handler F → list (Handler F)) :
  refines h (range_append h l f) (elems h l ≫= f) ∧ preserves h (range_append h l f).2.
Proof.
  pose proof (range_append_spec h l f) as Ha. unfold refines, preserves.
  destruct (range_append h l f). simpl. by destruct Ha as (? & ? & ?).
Qed.

Lemma new_slice_refines h (xs : list (Handler F)) :
  refines h (new_slice h xs) xs ∧ preserves h (new_slice h xs).2.
Proof.
  split; [split|].
  - split; simpl; [lia|]. right. unfold array. simpl. rewrite lookup_insert_eq. simpl.
    split; [by eexists|lia].
  - unfold elems, array. simpl. rewrite lookup_insert_eq. simpl. by rewrite drop_0, take_ge.
  - intros t Ht. split; [|by apply elems_fresh]. destruct Ht as [Htl [Htc|[Harr Htc]]].
    + split; [done|by left].
    + split; [done|]. right. unfold new_slice, snd.
      rewrite array_insert_ne, lookup_insert_ne by (by apply fresh_not_arr). done.
Qed.

(** [h'] holds the list [t] as [h] does. *)
Definition keeps_list (h h' : gmap nat (list (Handler F))) (t : slice) : Prop :=
  slice_wf h' t ∧ elems h' t = elems h t.

Lemma append_keeps h l xs t :
  slice_wf h l → slice_wf h t → spared l t (length xs) → keeps_list h (append h l xs).2 t.
Proof. intros Hl Ht Hs. pose proof (append_frame h l xs t Hl Ht Hs) as Hf. by destruct (append h l xs). Qed.

Lemma Swappend_refines h l (handler : Handler F) :
  slice_wf h l →
  refines h (HandlerList_Swappend h l handler) (Spec.Swappend (elems h l) handler) ∧
  ∀ t, slice_wf h t → spared l t 1 → keeps_list h (HandlerList_Swappend h l handler).2 t.
Proof.
  intros Hl. unfold HandlerList_Swappend, Spec.Swappend, HandlerList_Has. rewrite has_loop.
  destruct (Spec.Has _ _).
  - destruct (range_append_refines h l (swap_element handler)) as [Hsw Hp]. rewrite swap_loop in Hsw.
    split; [exact Hsw|]. intros t Ht _. by apply Hp.
  - destruct (new_slice_refines h [handler]) as [[_ Hne] Hpres].
    destruct (new_slice h [handler]) as [s h'] eqn:Hnew. simpl in *. unfold HandlerList_Append. rewrite Hne.
    destruct (Hpres l Hl) as [Hl' <-]. split; [by apply append_refines|].
    intros t Ht Hs. destruct (Hpres t Ht) as [Ht' Hel]. destruct (append_keeps h' l [handler] t Hl' Ht' Hs) as [? Hel'].
    split; [done|]. by rewrite Hel', Hel.
Qed.

(** C29. Seen as lists, the handler-list operations are the expected ones:
    [Prepend] and [Append] concatenate, [AppendAfter] inserts behind each handler
    of the name, [Swap] replaces the handlers of the name, [Swappend] replaces or adds
    at the end, [Remove] filters and [Clear] empties.  [AppendAfter], [Swap] and
    [Remove] leave every existing list as it was ([Clear], [Len] and [Has] write
    nothing); [Prepend], [Append] and [Swappend] every one that does not reach into
    the spare capacity they write to: that of the handlers for [Prepend], that of the
    list for the others.  In particular a list is as it was after its own operation. *)
Theorem handler_list_refines (h : gmap nat (list (Handler F))) (l handlers : slice)
    (name : string) (handler : Handler F) :
  slice_wf h l → slice_wf h handlers →
  refines h (HandlerList_Prepend h l handlers) (Spec.Prepend (elems h l) (elems h handlers)) ∧
  refines h (HandlerList_Append h l handlers) (Spec.Append (elems h l) (elems h handlers)) ∧
  refines h (HandlerList_AppendAfter h l name handler) (Spec.AppendAfter (elems h l) name handler) ∧
  refines h (HandlerList_Swap h l handler) (Spec.Swap (elems h l) handler) ∧
  refines h (HandlerList_Swappend h l handler) (Spec.Swappend (elems h l) handler) ∧
  refines h (HandlerList_Remove h l name) (Spec.Remove (elems h l) name) ∧
  refines h (HandlerList_Clear l, h) [] ∧
  HandlerList_Len l = length (elems h l) ∧
  HandlerList_Has h l name = Spec.Has (elems h l) name ∧
  preserves h (HandlerList_AppendAfter h l name handler).2 ∧
  preserves h (HandlerList_Swap h l handler).2 ∧
  preserves h (HandlerList_Remove h l name).2 ∧
  (∀ t, slice_wf h t → spared handlers t (len l) → keeps_list h (HandlerList_Prepend h l handlers).2 t) ∧
  (∀ t, slice_wf h t → spared l t (len handlers) → keeps_list h (HandlerList_Append h l handlers).2 t) ∧
  (∀ t, slice_wf h t → spared l t 1 → keeps_list h (HandlerList_Swappend h l handler).2 t) ∧
  (∀ n, spared l l n).
Proof.
  intros Hl Hhs. pose proof (range_append_refines h l) as Hra.
  pose proof (Hra (after_element name handler)) as [Haa Haa']. rewrite after_loop in Haa.
  pose proof (Hra (swap_element handler)) as [Hsw Hsw']. rewrite swap_loop in Hsw.
  pose proof (Hra (remove_element name)) as [Hrm Hrm']. rewrite remove_loop in Hrm.
  destruct (Swappend_refines h l handler Hl) as [Hsa Hsa'].
  assert (refines h (HandlerList_Clear l, h) []).
  { split; [|done]. simpl. destruct Hl as [? [?|?]]; (split; simpl; [lia|]); [by left|by right]. }
  split_and!; try (by apply append_refines); try assumption.
  - unfold HandlerList_Len. by rewrite elems_length.
  - apply has_loop.
  - intros t Ht Hs. apply append_keeps; [done..|]. by rewrite elems_length.
  - intros t Ht Hs. apply append_keeps; [done..|]. by rewrite elems_length.
  - intros n. unfold spared. lia.
Qed.

(** Two lists grown from one list that has spare capacity share the slot
    behind it: after [l1 := l.Append(x)] and [l2 := l.Append(y)] the first list
    ends with [y]. *)
Theorem Append_shared (h : gmap nat (list (Handler F))) (l : slice) (x y : Handler F) :
  slice_wf h l → len l < cap l →
  let '(l1, h1) := append h l [x] in
  let '(l2, h2) := append h1 l [y] in
  elems h1 l1 = elems h l ++ [x] ∧ elems h2 l1 = elems h l ++ [y] ∧
  elems h2 l2 = elems h l ++ [y].
Proof.
  intros Hl Hcap. pose proof (append_elems h l [x] Hl) as Hx.
  pose proof (append_frame h l [x] l Hl Hl) as Hfr.
  assert (spared l l (length [x])) as Hsp by (unfold spared; lia). specialize (Hfr Hsp).
  assert ((append h l [x]).1 = mkSlice (arr l) (off l) (len l + 1) (cap l)) as Hl1.
  { unfold append. simpl. by destruct (Nat.leb_spec (len l + 1) (cap l)); [|lia]. }
  destruct (append h l [x]) as [l1 h1]. simpl in Hl1. subst l1.
  destruct Hfr as [Hl' Hel], Hx as [_ Hx].
  pose proof (append_elems h1 l [y] Hl') as Hy.
  pose proof (append_overwrites h1 l [y] (mkSlice (arr l) (off l) (len l + 1) (cap l)) Hl') as Hov.
  destruct (append h1 l [y]) as [l2 h2]. destruct Hy as [_ Hy].
  rewrite Hel in Hy, Hov. split; [done|]. split; [|done]. apply Hov; simpl; done || lia.
Qed.

(** [Clear] keeps the backing array: appending to the cleared list
    overwrites the first handler of every list that shares the array. *)
Theorem Clear_Append (h : gmap nat (list (Handler F))) (l : slice) (x y : Handler F) rest :
  slice_wf h l → elems h l = y :: rest →
  let '(_, h') := append h (HandlerList_Clear l) [x] in elems h' l = x :: rest.
Proof.
  intros Hl Hel. pose proof (elems_length h l Hl) as Hlen. rewrite Hel in Hlen. simpl in Hlen.
  destruct Hl as [Hle [Hc|[Harr Hc]]]; [lia|].
  unfold append, HandlerList_Clear, reslice_empty.
  change (cap (mkSlice (arr l) (off l) 0 (cap l))) with (cap l).
  replace (_ <=? cap l)%nat with true by (symmetry; apply Nat.leb_le; simpl; lia).
  unfold elems, array in *. simpl. rewrite lookup_insert_eq. simpl.
  rewrite Nat.add_0_r. unfold write_at. rewrite drop_app_ge by (rewrite length_take; lia).
  rewrite length_take. replace (off l - off l `min` _) with 0 by lia. rewrite drop_0.
  rewrite <- Hlen in *. simpl. f_equal. rewrite <- drop_drop.
  destruct (drop (off l) (default [] (h !! arr l))) as [|z a]; [done|].
  by injection Hel.
Qed.
End theorems.

Section run.
Context {F : Type} {E : Type → Type} {S : Type} (exec : F → GoM E S error).
Implicit Types (l : list (Handler F)).

Lemma HandlerList_Run_cons x l o s h :
  HandlerList_Run exec (x :: l) o s h =
  (try exec (Handler_Fn x) ;; HandlerList_Run exec l) o s h.
Proof. done. Qed.

Lemma HandlerList_Run_app l1 l2 o s h :
  HandlerList_Run exec (l1 ++ l2) o s h =
  (try HandlerList_Run exec l1 ;; HandlerList_Run exec l2) o s h.
Proof.
  revert s h. induction l1 as [|x l1 IH]; intros s h; [done|].
  rewrite <- app_comm_cons. rewrite HandlerList_Run_cons. unfold go_bind at 1 2.
  rewrite HandlerList_Run_cons. unfold go_bind at 1.
  destruct (exec (Handler_Fn x) o s h) as [[[[e|]| |] s1] h1]; done.
Qed.

(** A run of a handler list returns an error exactly when the handlers
    before some handler all ran, in order, without error, and this handler
    returned the error: nothing after it runs and the state is the one it left. *)
Theorem HandlerList_Run_stops l o s h e s' h' :
  HandlerList_Run exec l o s h = (Val (Some e), s', h') ↔
  ∃ l1 x l2 s1 h1, l = l1 ++ x :: l2 ∧
    HandlerList_Run exec l1 o s h = (Val None, s1, h1) ∧
    exec (Handler_Fn x) o s1 h1 = (Val (Some e), s', h').
Proof.
  split.
  - revert s h. induction l as [|x l IH]; intros s h; [done|].
    rewrite HandlerList_Run_cons. unfold go_bind.
    destruct (exec (Handler_Fn x) o s h) as [[[[e'|]| |] s1] h1] eqn:Hx; try done.
    + intros [= -> -> ->]. exists [], x, l, s, h. done.
    + intros Hrun. destruct (IH _ _ Hrun) as (l1 & y & l2 & s2 & h2 & -> & Hl1 & Hy).
      exists (x :: l1), y, l2, s2, h2. split_and!; [done| |done].
      rewrite HandlerList_Run_cons. unfold go_bind. by rewrite Hx.
  - intros (l1 & x & l2 & s1 & h1 & -> & Hl1 & Hx).
    rewrite HandlerList_Run_app. unfold go_bind. rewrite Hl1, HandlerList_Run_cons.
    unfold go_bind. by rewrite Hx.
Qed.
End run.

(** ** Concrete runs *)
Module Examples.
#[local] Instance growth : Growth.
Proof. refine {| growslice c n := Nat.max n (2 * c) |}. intros. apply Nat.le_max_l. Defined.
#[local] Instance zero_handler : Inhabited (Handler nat) := populate (mkHandler "" 0).

Definition a : Handler nat := mkHandler "a" 1.
Definition b : Handler nat := mkHandler "b" 2.
Definition c : Handler nat := mkHandler "c" 3.
(** One handler in an array with room for a second one. *)
Definition shared_heap : gmap nat (list (Handler nat)) := {[ 0 := [a; inhabitant] ]}.
Definition shared : slice := mkSlice 0 0 1 2.

Lemma shared_wf : slice_wf shared_heap shared.
Proof. split; [simpl; lia|]. right. split; [by eexists|]. vm_compute. lia. Qed.

Lemma handler_list_refines_witness :
  slice_wf shared_heap shared ∧
  refines shared_heap (HandlerList_Append shared_heap shared shared) [a; a] ∧
  refines shared_heap (HandlerList_Remove shared_heap shared "a") [].
Proof.
  pose proof (handler_list_refines shared_heap shared shared "a" c shared_wf shared_wf) as Hr.
  split; [exact shared_wf|]. split; [exact (proj1 (proj2 Hr))|].
  exact (proj1 (proj2 (proj2 (proj2 (proj2 (proj2 Hr)))))).
Defined.

Lemma Append_shared_witness :
  slice_wf shared_heap shared ∧
  (let '(l1, h1) := append shared_heap shared [b] in
   let '(l2, h2) := append h1 shared [c] in
   elems h1 l1 = [a; b] ∧ elems h2 l1 = [a; c] ∧ elems h2 l2 = [a; c]).
Proof.
  split; [exact shared_wf|].
  assert (len shared < cap shared) as Hcap by (simpl; lia).
  exact (Append_shared shared_heap shared b c shared_wf Hcap).
Defined.

Lemma Clear_Append_witness :
  elems shared_heap shared = [a] ∧
  (let '(_, h') := append shared_heap (HandlerList_Clear shared) [c] in elems h' shared = [c]).
Proof.
  split; [reflexivity|].
  exact (Clear_Append shared_heap shared c a [] shared_wf eq_refl).
Defined.
End Examples.
