(* ===== verification/Builders.v ===== *)
(** * Builders of API objects

    src/pointer_helpers.go, src/rate_limiter.go, src/balloon.go, src/drives.go
    and src/snapshot.go.  A functional option is a function on the object; the
    slice of drives lives on the heap of Go arrays (file Slices). *)

From stdpp Require Import gmap strings list pretty.
From Stdlib Require Import ZArith Lia.
From S2P Require Import Prelude GoStrings Models Slices.

Open Scope string_scope.
Open Scope list_scope.

(** ** Pointer helpers *)
Definition BoolValue (b : option bool) : bool := match b with None => false | Some b => b end.
Definition Bool (b : bool) : option bool := Some b.
Definition StringValue (str : option string) : string := match str with None => "" | Some s => s end.
Definition String_ (str : string) : option string := Some str.
Definition Int64 (v : Z) : option Z := Some v.
Definition Int64Value (v : option Z) : Z := match v with None => 0%Z | Some v => v end.
Definition IntValue (v : option Z) : Z := match v with None => 0%Z | Some v => v end.
Definition Int (v : Z) : option Z := Some v.

(** ** Rate limiters *)
Definition RateLimiterOpt : Type := RateLimiter → RateLimiter.

Definition NewRateLimiter (bandwidth ops : TokenBucket) (opts : list RateLimiterOpt) : RateLimiter :=
  foldl (λ limiter opt, opt limiter) (mkRateLimiter (Some bandwidth) (Some ops)) opts.

Record TokenBucketBuilder := mkTokenBucketBuilder { TokenBucketBuilder_bucket : TokenBucket }.

Definition WithBucketSize (b : TokenBucketBuilder) (size : Z) : TokenBucketBuilder :=
  let bucket := TokenBucketBuilder_bucket b in
  mkTokenBucketBuilder
    (mkTokenBucket (TokenBucket_OneTimeBurst bucket) (TokenBucket_RefillTime bucket) (Some size)).

(** [ms := dur.Nanoseconds(); ms /= int64(time.Millisecond)] *)
Definition WithRefillDuration (b : TokenBucketBuilder) (dur : Z) : TokenBucketBuilder :=
  let bucket := TokenBucketBuilder_bucket b in
  let ms := int64_div dur Millisecond in
  mkTokenBucketBuilder
    (mkTokenBucket (TokenBucket_OneTimeBurst bucket) (Some ms) (TokenBucket_Size bucket)).

Definition WithInitialSize (b : TokenBucketBuilder) (size : Z) : TokenBucketBuilder :=
  let bucket := TokenBucketBuilder_bucket b in
  mkTokenBucketBuilder
    (mkTokenBucket (Some size) (TokenBucket_RefillTime bucket) (TokenBucket_Size bucket)).

Definition TokenBucketBuilder_Build (b : TokenBucketBuilder) : TokenBucket :=
  TokenBucketBuilder_bucket b.

(** ** Balloons *)
Record BalloonDevice := mkBalloonDevice { BalloonDevice_balloon : Balloon }.

Definition BalloonOpt : Type := Balloon → Balloon.

Definition NewBalloonDevice (amountMib : Z) (deflateOnOom : bool) (opts : list BalloonOpt) : BalloonDevice :=
  mkBalloonDevice
    (foldl (λ b opt, opt b) (mkBalloon (Some amountMib) (Some deflateOnOom) 0) opts).

Definition BalloonDevice_Build (b : BalloonDevice) : Balloon := BalloonDevice_balloon b.

Definition WithStatsPollingIntervals (statsPollingIntervals : Z) : BalloonOpt :=
  λ d, mkBalloon (Balloon_AmountMib d) (Balloon_DeflateOnOom d) statsPollingIntervals.

Definition UpdateAmountMib (b : BalloonDevice) (amountMib : Z) : BalloonDevice :=
  let d := BalloonDevice_balloon b in
  mkBalloonDevice
    (mkBalloon (Some amountMib) (Balloon_DeflateOnOom d) (Balloon_StatsPollingIntervals d)).

Definition UpdateStatsPollingIntervals (b : BalloonDevice) (statsPollingIntervals : Z) : BalloonDevice :=
  let d := BalloonDevice_balloon b in
  mkBalloonDevice
    (mkBalloon (Balloon_AmountMib d) (Balloon_DeflateOnOom d) statsPollingIntervals).

(** ** Snapshot configuration *)
Record SnapshotConfig := mkSnapshotConfig {
  Snapshot_MemFilePath : string;
  Snapshot_MemBackend : option MemoryBackend;
  Snapshot_SnapshotPath : string;
  Snapshot_EnableDiffSnapshots : bool;
  Snapshot_ResumeVM : bool
}.

Definition GetMemBackendPath (cfg : SnapshotConfig) : string :=
  match Snapshot_MemBackend cfg with
  | Some backend =>
      match MemoryBackend_BackendPath backend with
      | Some path => path
      | None => Snapshot_MemFilePath cfg
      end
  | None => Snapshot_MemFilePath cfg
  end.

(** ** Drives *)
Definition rootDriveName : string := "root_drive".

Definition DriveOpt : Type := Drive → Drive.

(** The zero value of [models.Drive]. *)
#[export] Instance zero_drive : Inhabited Drive :=
  populate (mkDrive None None None None None "" None None).

Record DrivesBuilder := mkDrivesBuilder {
  DrivesBuilder_rootDrive : Drive;
  DrivesBuilder_drives : slice
}.

Definition WithRootDrive (b : DrivesBuilder) (rootDrivePath : string) (opts : list DriveOpt) : DrivesBuilder :=
  let rootDrive :=
    mkDrive None (String_ rootDriveName) None (Bool false) (Bool true) "" (Some rootDrivePath) None in
  mkDrivesBuilder (foldl (λ d opt, opt d) rootDrive opts) (DrivesBuilder_drives b).

Definition NewDrivesBuilder (rootDrivePath : string) : DrivesBuilder :=
  WithRootDrive (mkDrivesBuilder inhabitant nil_slice) rootDrivePath [].

Section drives.
Context `{Growth}.

Abbreviation heap := (gmap nat (list Drive)).

Definition AddDrive (h : heap) (b : DrivesBuilder) (path : string) (readOnly : bool)
    (opts : list DriveOpt) : DrivesBuilder * heap :=
  let drive :=
    mkDrive None (String_ (strconv_Itoa (Z.of_nat (len (DrivesBuilder_drives b))))) None
      (Some readOnly) (Bool false) "" (Some path) None in
  let drive := foldl (λ d opt, opt d) drive opts in
  let '(drives, h) := append h (DrivesBuilder_drives b) [drive] in
  (mkDrivesBuilder (DrivesBuilder_rootDrive b) drives, h).

(** [append(b.drives, b.rootDrive)] *)
Definition DrivesBuilder_Build (h : heap) (b : DrivesBuilder) : slice * heap :=
  append h (DrivesBuilder_drives b) [DrivesBuilder_rootDrive b].

(** A builder that starts from a root drive and adds drives without options. *)
Definition add_drives (h : heap) (b : DrivesBuilder) (l : list (string * bool)) : DrivesBuilder * heap :=
  foldl (λ '(b, h), λ '(path, readOnly), AddDrive h b path readOnly []) (b, h) l.
End drives.

Definition WithDriveID (id : string) : DriveOpt := λ d,
  mkDrive (Drive_CacheType d) (String_ id) (Drive_IoEngine d) (Drive_IsReadOnly d)
    (Drive_IsRootDevice d) (Drive_Partuuid d) (Drive_PathOnHost d) (Drive_RateLimiter d).

Definition WithReadOnly (flag : bool) : DriveOpt := λ d,
  mkDrive (Drive_CacheType d) (Drive_DriveID d) (Drive_IoEngine d) (Bool flag)
    (Drive_IsRootDevice d) (Drive_Partuuid d) (Drive_PathOnHost d) (Drive_RateLimiter d).

Definition WithPartuuid (uuid : string) : DriveOpt := λ d,
  mkDrive (Drive_CacheType d) (Drive_DriveID d) (Drive_IoEngine d) (Drive_IsReadOnly d)
    (Drive_IsRootDevice d) uuid (Drive_PathOnHost d) (Drive_RateLimiter d).

Definition WithRateLimiter (limiter : RateLimiter) : DriveOpt := λ d,
  mkDrive (Drive_CacheType d) (Drive_DriveID d) (Drive_IoEngine d) (Drive_IsReadOnly d)
    (Drive_IsRootDevice d) (Drive_Partuuid d) (Drive_PathOnHost d) (Some limiter).

Definition WithCacheType (cacheType : string) : DriveOpt := λ d,
  mkDrive (String_ cacheType) (Drive_DriveID d) (Drive_IoEngine d) (Drive_IsReadOnly d)
    (Drive_IsRootDevice d) (Drive_Partuuid d) (Drive_PathOnHost d) (Drive_RateLimiter d).

Definition WithIoEngine (ioEngine : string) : DriveOpt := λ d,
  mkDrive (Drive_CacheType d) (Drive_DriveID d) (String_ ioEngine) (Drive_IsReadOnly d)
    (Drive_IsRootDevice d) (Drive_Partuuid d) (Drive_PathOnHost d) (Drive_RateLimiter d).

(** ** Lemmas *)

(** The drive [AddDrive] appends at position [i] when it is given no option. *)
Definition numbered_drive (i : nat) (d : string * bool) : Drive :=
  mkDrive None (Some (strconv_Itoa (Z.of_nat i))) None (Some d.2) (Some false) "" (Some d.1) None.

Section drives_lemmas.
Context `{Growth}.

Lemma add_drives_spec (h : gmap nat (list Drive)) b l :
  slice_wf h (DrivesBuilder_drives b) →
  let '(b', h') := add_drives h b l in
  slice_wf h' (DrivesBuilder_drives b') ∧
  DrivesBuilder_rootDrive b' = DrivesBuilder_rootDrive b ∧
  elems h' (DrivesBuilder_drives b') =
    elems h (DrivesBuilder_drives b) ++
    imap (λ i, numbered_drive (len (DrivesBuilder_drives b) + i)) l.
Proof.
  revert h b. induction l as [|[path ro] l IH]; intros h b Hb; simpl.
  { by rewrite app_nil_r. }
  unfold add_drives in *. cbn [foldl]. unfold AddDrive at 2.
  pose proof (append_elems h (DrivesBuilder_drives b) [numbered_drive (len (DrivesBuilder_drives b)) (path, ro)] Hb) as Ha.
  cbn [foldl]. unfold numbered_drive in Ha at 1. simpl in Ha. unfold String_, Bool.
  destruct (append h (DrivesBuilder_drives b) _) as [drives h1].
  destruct Ha as [Hwf Hel].
  specialize (IH h1 (mkDrivesBuilder (DrivesBuilder_rootDrive b) drives) Hwf).
  destruct (foldl _ _ l) as [b' h']. simpl in IH. destruct IH as (Hwf' & Hroot & Hel').
  split; [done|]. split; [done|]. rewrite Hel', Hel, <- app_assoc. f_equal. simpl.
  rewrite Nat.add_0_r. f_equal. apply imap_ext. intros i x _. simpl. f_equal.
  apply elems_length in Hwf. rewrite Hel, length_app, elems_length in Hwf by done. simpl in Hwf. lia.
Qed.

Lemma imap_numbered_ids l n :
  Drive_DriveID <$> imap (λ i, numbered_drive (n + i)) l =
  (λ i, Some (strconv_Itoa (Z.of_nat i))) <$> seq n (length l).
Proof.
  revert n. induction l as [|d l IH]; intros n; [done|]. simpl. rewrite Nat.add_0_r. f_equal.
  rewrite <- IH. f_equal. apply imap_ext. intros i x _. simpl. by rewrite Nat.add_succ_r.
Qed.

(** Drives added to a new builder come out of [Build] in the order they
    were added, with the root drive last, and the IDs they are given (0, 1, ...
    and the root drive's name) are pairwise distinct. *)
Theorem DrivesBuilder_drives_built (h : gmap nat (list Drive)) (root : string)
    (l : list (string * bool)) :
  let '(b, h1) := add_drives h (NewDrivesBuilder root) l in
  let '(drives, h2) := DrivesBuilder_Build h1 b in
  elems h2 drives =
    imap (λ i, numbered_drive i) l ++
    [mkDrive None (Some rootDriveName) None (Some false) (Some true) "" (Some root) None] ∧
  NoDup (Drive_DriveID <$> elems h2 drives).
Proof.
  pose proof (add_drives_spec h (NewDrivesBuilder root) l (nil_slice_wf h)) as Hadd.
  destruct (add_drives h (NewDrivesBuilder root) l) as [b h1].
  destruct Hadd as (Hwf & Hroot & Hel). unfold DrivesBuilder_Build.
  pose proof (append_elems h1 _ [DrivesBuilder_rootDrive b] Hwf) as Hb.
  destruct (append h1 (DrivesBuilder_drives b) [DrivesBuilder_rootDrive b]) as [drives h2].
  destruct Hb as [_ Hb]. rewrite Hb, Hel, Hroot. split; [done|].
  change (elems h _) with (@nil Drive). rewrite app_nil_l, fmap_app.
  change (imap _ l) with (imap (λ i, numbered_drive (0 + i)) l). rewrite imap_numbered_ids.
  apply NoDup_app. split_and!.
  - apply NoDup_fmap_2; [|apply NoDup_seq].
    intros i j [= Hij]. apply strconv_Itoa_inj in Hij. lia.
  - intros id Hid [Heq|Hin]%elem_of_cons; [|by apply not_elem_of_nil in Hin].
    apply list_elem_of_fmap in Hid as (i & -> & _). injection Heq as Heq.
    pose proof (strconv_Itoa_digits i) as Hd. by rewrite Heq in Hd.
  - apply NoDup_singleton.
Qed.
End drives_lemmas.

(** ** Rate limiters built from durations *)

(** A refill duration is rounded toward zero to milliseconds; a limiter made
    of two buckets built with a size and a duration is accepted by the API
    exactly when sizes are not negative and durations exceed minus one
    millisecond. *)
Theorem NewRateLimiter_valid (size1 size2 dur1 dur2 : Z) :
  int64_range dur1 → int64_range dur2 →
  let bucket size dur :=
    TokenBucketBuilder_Build (WithRefillDuration (WithBucketSize
      (mkTokenBucketBuilder (mkTokenBucket None None None)) size) dur) in
  TokenBucket_RefillTime (bucket size1 dur1) = Some (Z.quot dur1 Millisecond) ∧
  (RateLimiter_valid (NewRateLimiter (bucket size1 dur1) (bucket size2 dur2) []) ↔
   (0 ≤ size1 ∧ 0 ≤ size2 ∧ - Millisecond < dur1 ∧ - Millisecond < dur2)%Z).
Proof.
  intros H1 H2 bucket.
  assert (∀ dur, int64_range dur → int64_div dur Millisecond = Z.quot dur Millisecond ∧
            (0 ≤ Z.quot dur Millisecond ↔ - Millisecond < dur)%Z) as Hdiv.
  { intros dur Hdur. unfold int64_div, int64_range, Millisecond in *. split.
    - apply wrap64_id. unfold int64_range. Z.to_euclidean_division_equations. lia.
    - Z.to_euclidean_division_equations. lia. }
  destruct (Hdiv dur1 H1) as [Hd1 Hp1], (Hdiv dur2 H2) as [Hd2 Hp2].
  unfold bucket, TokenBucketBuilder_Build, WithRefillDuration. simpl. rewrite Hd1.
  split; [done|]. unfold RateLimiter_valid, TokenBucket_valid. simpl.
  rewrite Hd2, Hp1, Hp2. tauto.
Qed.

Lemma NewRateLimiter_valid_witness :
  let bucket size dur :=
    TokenBucketBuilder_Build (WithRefillDuration (WithBucketSize
      (mkTokenBucketBuilder (mkTokenBucket None None None)) size) dur) in
  RateLimiter_valid (NewRateLimiter (bucket 1024%Z 1500000%Z) (bucket 1%Z (-5)%Z) []).
Proof.
  intros bucket.
  assert (int64_range 1500000 ∧ int64_range (-5)%Z) as [H1 H2] by (unfold int64_range; lia).
  apply (NewRateLimiter_valid 1024 1 1500000 (-5)%Z H1 H2). unfold Millisecond. lia.
Defined.
