(* ===== verification/Commands.v ===== *)
(** * Command builders (src/command_builder.go, src/jailer.go)

    The builders of the Firecracker and jailer command lines.  An [io.Reader]
    or [io.Writer] is an opaque value of type [stdio]; an [exec.Cmd] is the data
    the SDK sets on it and the process once it has started. *)

From stdpp Require Import strings list.
From Stdlib Require Import ZArith Lia Ascii.
From S2P Require Import Prelude GoStrings.

Open Scope string_scope.
Open Scope list_scope.

Inductive stdio := OsStdin | OsStdout | OsStderr | UserStream (id : nat).

(** [exec.Cmd]: [Args] starts with the command itself. *)
Record Cmd := mkCmd {
  Cmd_Args : list string;
  Cmd_Stdin : option stdio;
  Cmd_Stdout : option stdio;
  Cmd_Stderr : option stdio;
  (** the process id, when the process has been started *)
  Cmd_Process : option Z
}.

Definition exec_Command (name : string) (args : list string) : Cmd :=
  mkCmd (name :: args) None None None None.

(** [if v := ...; v != nil { cmd.Stdin = v }] *)
Definition set_stdin (v : option stdio) (cmd : Cmd) : Cmd :=
  match v with
  | None => cmd
  | Some _ => mkCmd (Cmd_Args cmd) v (Cmd_Stdout cmd) (Cmd_Stderr cmd) (Cmd_Process cmd)
  end.
Definition set_stdout (v : option stdio) (cmd : Cmd) : Cmd :=
  match v with
  | None => cmd
  | Some _ => mkCmd (Cmd_Args cmd) (Cmd_Stdin cmd) v (Cmd_Stderr cmd) (Cmd_Process cmd)
  end.
Definition set_stderr (v : option stdio) (cmd : Cmd) : Cmd :=
  match v with
  | None => cmd
  | Some _ => mkCmd (Cmd_Args cmd) (Cmd_Stdin cmd) (Cmd_Stdout cmd) v (Cmd_Process cmd)
  end.

(** ** Firecracker *)
Definition defaultFcBin : string := "firecracker".

Record VMCommandBuilder := mkVMCommandBuilder {
  VM_bin : string;
  VM_args : option (list string);
  VM_socketPath : string;
  VM_stdin : option stdio;
  VM_stdout : option stdio;
  VM_stderr : option stdio
}.

Definition VM_Args (b : VMCommandBuilder) : option (list string) := VM_args b.

Definition VM_WithArgs (b : VMCommandBuilder) (args : option (list string)) : VMCommandBuilder :=
  mkVMCommandBuilder (VM_bin b) args (VM_socketPath b) (VM_stdin b) (VM_stdout b) (VM_stderr b).

(** [append(b.args, args...)]: nil stays nil when nothing is added. *)
Definition VM_AddArgs (b : VMCommandBuilder) (args : list string) : VMCommandBuilder :=
  let args := match VM_args b, args with
              | None, [] => None
              | old, _ => Some (default [] old ++ args)
              end in
  mkVMCommandBuilder (VM_bin b) args (VM_socketPath b) (VM_stdin b) (VM_stdout b) (VM_stderr b).

Definition VM_Bin (b : VMCommandBuilder) : string :=
  if (String.length (VM_bin b) =? 0)%nat then defaultFcBin else VM_bin b.

Definition VM_WithBin (b : VMCommandBuilder) (bin : string) : VMCommandBuilder :=
  mkVMCommandBuilder bin (VM_args b) (VM_socketPath b) (VM_stdin b) (VM_stdout b) (VM_stderr b).

Definition VM_SocketPath (b : VMCommandBuilder) : option (list string) :=
  if (String.length (VM_socketPath b) =? 0)%nat then None
  else Some ["--api-sock"; VM_socketPath b].

Definition VM_WithSocketPath (b : VMCommandBuilder) (path : string) : VMCommandBuilder :=
  mkVMCommandBuilder (VM_bin b) (VM_args b) path (VM_stdin b) (VM_stdout b) (VM_stderr b).

Definition VM_Stdout (b : VMCommandBuilder) : option stdio := VM_stdout b.
Definition VM_WithStdout (b : VMCommandBuilder) (stdout : option stdio) : VMCommandBuilder :=
  mkVMCommandBuilder (VM_bin b) (VM_args b) (VM_socketPath b) (VM_stdin b) stdout (VM_stderr b).
Definition VM_Stderr (b : VMCommandBuilder) : option stdio := VM_stderr b.
Definition VM_WithStderr (b : VMCommandBuilder) (stderr : option stdio) : VMCommandBuilder :=
  mkVMCommandBuilder (VM_bin b) (VM_args b) (VM_socketPath b) (VM_stdin b) (VM_stdout b) stderr.
Definition VM_Stdin (b : VMCommandBuilder) : option stdio := VM_stdin b.
Definition VM_WithStdin (b : VMCommandBuilder) (stdin : option stdio) : VMCommandBuilder :=
  mkVMCommandBuilder (VM_bin b) (VM_args b) (VM_socketPath b) stdin (VM_stdout b) (VM_stderr b).

Definition VM_Build (b : VMCommandBuilder) : Cmd :=
  let args := [] in
  let args := match VM_SocketPath b with Some socketPath => args ++ socketPath | None => args end in
  let args := match VM_Args b with Some v => args ++ v | None => args end in
  let cmd := exec_Command (VM_Bin b) args in
  let cmd := set_stdout (VM_Stdout b) cmd in
  let cmd := set_stderr (VM_Stderr b) cmd in
  set_stdin (VM_Stdin b) cmd.

Definition defaultFirecrackerVMMCommandBuilder : VMCommandBuilder :=
  VM_WithStderr
    (VM_WithStdout
       (VM_WithStdin
          (VM_WithBin (mkVMCommandBuilder "" None "" None None None) defaultFcBin)
          (Some OsStdin))
       (Some OsStdout))
    (Some OsStderr).

(** ** The jailer *)
Definition defaultJailerPath : string := "/srv/jailer".
Definition defaultJailerBin : string := "jailer".
Definition rootfsFolderName : string := "root".
Definition defaultSocketPath : string := "/run/firecracker.socket".

Record JailerCommandBuilder := mkJailerCommandBuilder {
  J_bin : string;
  J_id : string;
  J_uid : Z;
  J_gid : Z;
  J_execFile : string;
  J_node : Z;
  J_chrootBaseDir : string;
  J_netNS : string;
  J_daemonize : bool;
  J_firecrackerArgs : list string;
  J_cgroupVersion : string;
  J_cgroupArgs : list string;
  J_parentCgroup : string;
  J_stdin : option stdio;
  J_stdout : option stdio;
  J_stderr : option stdio
}.

Definition J_zero : JailerCommandBuilder :=
  mkJailerCommandBuilder "" "" 0 0 "" 0 "" "" false [] "" [] "" None None None.

(** The file [getNumaCpuset] reads. *)
Definition numa_cpulist_path (node : Z) : string :=
  "/sys/devices/system/node/node" +:+ strconv_Itoa node +:+ "/cpulist".

(** The file system is read through [ReadFile]: [None] is an error. *)
Definition getNumaCpuset (ReadFile : string → option string) (node : Z) : string :=
  match ReadFile (numa_cpulist_path node) with
  | Some cpus => strings_TrimSuffix cpus (String "010"%char "")
  | None => ""
  end.

Definition nonempty (s : string) : bool := negb (String.length s =? 0)%nat.

Definition J_Args (ReadFile : string → option string) (b : JailerCommandBuilder) : list string :=
  let args := [] in
  let args := args ++ ["--id"; J_id b] in
  let args := args ++ ["--uid"; strconv_Itoa (J_uid b)] in
  let args := args ++ ["--gid"; strconv_Itoa (J_gid b)] in
  let args := args ++ ["--exec-file"; J_execFile b] in
  let cpulist := getNumaCpuset ReadFile (J_node b) in
  let args :=
    if nonempty cpulist then
      args ++ ["--cgroup"; "cpuset.mems=" +:+ strconv_Itoa (J_node b)]
           ++ ["--cgroup"; "cpuset.cpus=" +:+ cpulist]
    else args in
  let args := foldl (λ args cgroupArg, args ++ ["--cgroup"; cgroupArg]) args (J_cgroupArgs b) in
  let args := if nonempty (J_cgroupVersion b) then args ++ ["--cgroup-version"; J_cgroupVersion b] else args in
  let args := if nonempty (J_parentCgroup b) then args ++ ["--parent-cgroup"; J_parentCgroup b] else args in
  let args := if nonempty (J_chrootBaseDir b) then args ++ ["--chroot-base-dir"; J_chrootBaseDir b] else args in
  let args := if nonempty (J_netNS b) then args ++ ["--netns"; J_netNS b] else args in
  let args := if J_daemonize b then args ++ ["--daemonize"] else args in
  if negb (length (J_firecrackerArgs b) =? 0)%nat
  then args ++ ["--"] ++ J_firecrackerArgs b
  else args.

Definition J_Bin (b : JailerCommandBuilder) : string := J_bin b.
Definition J_WithBin (b : JailerCommandBuilder) (bin : string) : JailerCommandBuilder :=
  mkJailerCommandBuilder bin (J_id b) (J_uid b) (J_gid b) (J_execFile b) (J_node b)
     (J_chrootBaseDir b) (J_netNS b) (J_daemonize b) (J_firecrackerArgs b) (J_cgroupVersion b)
     (J_cgroupArgs b) (J_parentCgroup b) (J_stdin b) (J_stdout b) (J_stderr b).
Definition J_WithID (b : JailerCommandBuilder) (id : string) : JailerCommandBuilder :=
  mkJailerCommandBuilder (J_bin b) id (J_uid b) (J_gid b) (J_execFile b) (J_node b)
     (J_chrootBaseDir b) (J_netNS b) (J_daemonize b) (J_firecrackerArgs b) (J_cgroupVersion b)
     (J_cgroupArgs b) (J_parentCgroup b) (J_stdin b) (J_stdout b) (J_stderr b).
Definition J_WithUID (b : JailerCommandBuilder) (uid : Z) : JailerCommandBuilder :=
  mkJailerCommandBuilder (J_bin b) (J_id b) uid (J_gid b) (J_execFile b) (J_node b)
     (J_chrootBaseDir b) (J_netNS b) (J_daemonize b) (J_firecrackerArgs b) (J_cgroupVersion b)
     (J_cgroupArgs b) (J_parentCgroup b) (J_stdin b) (J_stdout b) (J_stderr b).
Definition J_WithGID (b : JailerCommandBuilder) (gid : Z) : JailerCommandBuilder :=
  mkJailerCommandBuilder (J_bin b) (J_id b) (J_uid b) gid (J_execFile b) (J_node b)
     (J_chrootBaseDir b) (J_netNS b) (J_daemonize b) (J_firecrackerArgs b) (J_cgroupVersion b)
     (J_cgroupArgs b) (J_parentCgroup b) (J_stdin b) (J_stdout b) (J_stderr b).
Definition J_WithExecFile (b : JailerCommandBuilder) (path : string) : JailerCommandBuilder :=
  mkJailerCommandBuilder (J_bin b) (J_id b) (J_uid b) (J_gid b) path (J_node b)
     (J_chrootBaseDir b) (J_netNS b) (J_daemonize b) (J_firecrackerArgs b) (J_cgroupVersion b)
     (J_cgroupArgs b) (J_parentCgroup b) (J_stdin b) (J_stdout b) (J_stderr b).
Definition J_WithNumaNode (b : JailerCommandBuilder) (node : Z) : JailerCommandBuilder :=
  mkJailerCommandBuilder (J_bin b) (J_id b) (J_uid b) (J_gid b) (J_execFile b) node
     (J_chrootBaseDir b) (J_netNS b) (J_daemonize b) (J_firecrackerArgs b) (J_cgroupVersion b)
     (J_cgroupArgs b) (J_parentCgroup b) (J_stdin b) (J_stdout b) (J_stderr b).
Definition J_WithCgroupArgs (b : JailerCommandBuilder) (cgroupArgs : list string) : JailerCommandBuilder :=
  mkJailerCommandBuilder (J_bin b) (J_id b) (J_uid b) (J_gid b) (J_execFile b) (J_node b)
     (J_chrootBaseDir b) (J_netNS b) (J_daemonize b) (J_firecrackerArgs b) (J_cgroupVersion b)
     cgroupArgs (J_parentCgroup b) (J_stdin b) (J_stdout b) (J_stderr b).
Definition J_WithParentCgroup (b : JailerCommandBuilder) (parentCgroup : string) : JailerCommandBuilder :=
  mkJailerCommandBuilder (J_bin b) (J_id b) (J_uid b) (J_gid b) (J_execFile b) (J_node b)
     (J_chrootBaseDir b) (J_netNS b) (J_daemonize b) (J_firecrackerArgs b) (J_cgroupVersion b)
     (J_cgroupArgs b) parentCgroup (J_stdin b) (J_stdout b) (J_stderr b).
Definition J_WithChrootBaseDir (b : JailerCommandBuilder) (path : string) : JailerCommandBuilder :=
  mkJailerCommandBuilder (J_bin b) (J_id b) (J_uid b) (J_gid b) (J_execFile b) (J_node b) path
     (J_netNS b) (J_daemonize b) (J_firecrackerArgs b) (J_cgroupVersion b) (J_cgroupArgs b)
     (J_parentCgroup b) (J_stdin b) (J_stdout b) (J_stderr b).
Definition J_WithNetNS (b : JailerCommandBuilder) (path : string) : JailerCommandBuilder :=
  mkJailerCommandBuilder (J_bin b) (J_id b) (J_uid b) (J_gid b) (J_execFile b) (J_node b)
     (J_chrootBaseDir b) path (J_daemonize b) (J_firecrackerArgs b) (J_cgroupVersion b)
     (J_cgroupArgs b) (J_parentCgroup b) (J_stdin b) (J_stdout b) (J_stderr b).
Definition J_WithDaemonize (b : JailerCommandBuilder) (daemonize : bool) : JailerCommandBuilder :=
  mkJailerCommandBuilder (J_bin b) (J_id b) (J_uid b) (J_gid b) (J_execFile b) (J_node b)
     (J_chrootBaseDir b) (J_netNS b) daemonize (J_firecrackerArgs b) (J_cgroupVersion b)
     (J_cgroupArgs b) (J_parentCgroup b) (J_stdin b) (J_stdout b) (J_stderr b).
Definition J_WithStdout (b : JailerCommandBuilder) (stdout : option stdio) : JailerCommandBuilder :=
  mkJailerCommandBuilder (J_bin b) (J_id b) (J_uid b) (J_gid b) (J_execFile b) (J_node b)
     (J_chrootBaseDir b) (J_netNS b) (J_daemonize b) (J_firecrackerArgs b) (J_cgroupVersion b)
     (J_cgroupArgs b) (J_parentCgroup b) (J_stdin b) stdout (J_stderr b).
Definition J_WithStderr (b : JailerCommandBuilder) (stderr : option stdio) : JailerCommandBuilder :=
  mkJailerCommandBuilder (J_bin b) (J_id b) (J_uid b) (J_gid b) (J_execFile b) (J_node b)
     (J_chrootBaseDir b) (J_netNS b) (J_daemonize b) (J_firecrackerArgs b) (J_cgroupVersion b)
     (J_cgroupArgs b) (J_parentCgroup b) (J_stdin b) (J_stdout b) stderr.
Definition J_WithStdin (b : JailerCommandBuilder) (stdin : option stdio) : JailerCommandBuilder :=
  mkJailerCommandBuilder (J_bin b) (J_id b) (J_uid b) (J_gid b) (J_execFile b) (J_node b)
     (J_chrootBaseDir b) (J_netNS b) (J_daemonize b) (J_firecrackerArgs b) (J_cgroupVersion b)
     (J_cgroupArgs b) (J_parentCgroup b) stdin (J_stdout b) (J_stderr b).
Definition J_WithFirecrackerArgs (b : JailerCommandBuilder) (args : list string) : JailerCommandBuilder :=
  mkJailerCommandBuilder (J_bin b) (J_id b) (J_uid b) (J_gid b) (J_execFile b) (J_node b)
     (J_chrootBaseDir b) (J_netNS b) (J_daemonize b) args (J_cgroupVersion b) (J_cgroupArgs b)
     (J_parentCgroup b) (J_stdin b) (J_stdout b) (J_stderr b).
Definition J_WithCgroupVersion (b : JailerCommandBuilder) (version : string) : JailerCommandBuilder :=
  mkJailerCommandBuilder (J_bin b) (J_id b) (J_uid b) (J_gid b) (J_execFile b) (J_node b)
     (J_chrootBaseDir b) (J_netNS b) (J_daemonize b) (J_firecrackerArgs b) version
     (J_cgroupArgs b) (J_parentCgroup b) (J_stdin b) (J_stdout b) (J_stderr b).
Definition J_Stdout (b : JailerCommandBuilder) : option stdio := J_stdout b.
Definition J_Stderr (b : JailerCommandBuilder) : option stdio := J_stderr b.
Definition J_Stdin (b : JailerCommandBuilder) : option stdio := J_stdin b.

Definition NewJailerCommandBuilder : JailerCommandBuilder := J_WithBin J_zero defaultJailerBin.

Definition J_Build (ReadFile : string → option string) (b : JailerCommandBuilder) : Cmd :=
  let cmd := exec_Command (J_Bin b) (J_Args ReadFile b) in
  let cmd := set_stdin (J_Stdin b) cmd in
  let cmd := set_stdout (J_Stdout b) cmd in
  set_stderr (J_Stderr b) cmd.

(** ** The command line the jailer reads

    The option grammar of the jailer: flags with a value, [--daemonize], and
    [--] before the arguments of Firecracker. *)
Record jailer_options := mkJailerOptions {
  opt_values : list (string * string);
  opt_daemonize : bool;
  opt_firecracker : list string
}.

Definition value_flags : list string :=
  ["--id"; "--uid"; "--gid"; "--exec-file"; "--cgroup"; "--cgroup-version";
   "--parent-cgroup"; "--chroot-base-dir"; "--netns"].

Fixpoint parse_jailer (l : list string) : option jailer_options :=
  match l with
  | [] => Some (mkJailerOptions [] false [])
  | f :: l1 =>
      if (f =? "--")%string then Some (mkJailerOptions [] false l1)
      else if (f =? "--daemonize")%string then
        (λ o, mkJailerOptions (opt_values o) true (opt_firecracker o)) <$> parse_jailer l1
      else if bool_decide (f ∈ value_flags) then
        match l1 with
        | [] => None
        | v :: l2 =>
            (λ o, mkJailerOptions ((f, v) :: opt_values o) (opt_daemonize o) (opt_firecracker o))
              <$> parse_jailer l2
        end
      else None
  end.

(** What the builder means to say. *)
Definition when_set (flag v : string) : list (string * string) :=
  if nonempty v then [(flag, v)] else [].

Definition J_options (ReadFile : string → option string) (b : JailerCommandBuilder) : jailer_options :=
  let cpulist := getNumaCpuset ReadFile (J_node b) in
  mkJailerOptions
    ([("--id", J_id b); ("--uid", strconv_Itoa (J_uid b)); ("--gid", strconv_Itoa (J_gid b));
      ("--exec-file", J_execFile b)] ++
     (if nonempty cpulist then
        [("--cgroup", "cpuset.mems=" +:+ strconv_Itoa (J_node b));
         ("--cgroup", "cpuset.cpus=" +:+ cpulist)]
      else []) ++
     ((λ a, ("--cgroup", a)) <$> J_cgroupArgs b) ++
     when_set "--cgroup-version" (J_cgroupVersion b) ++
     when_set "--parent-cgroup" (J_parentCgroup b) ++
     when_set "--chroot-base-dir" (J_chrootBaseDir b) ++
     when_set "--netns" (J_netNS b))
    (J_daemonize b) (J_firecrackerArgs b).

(** ** Theorems *)
Definition flatten (l : list (string * string)) : list string := l ≫= λ '(f, v), [f; v].

(** Membership of closed strings in a closed list, by computation. *)
Ltac flag := simpl; apply (bool_decide_unpack _); vm_compute; exact I.

Lemma parse_jailer_values vs rest :
  Forall (λ fv, fv.1 ∈ value_flags) vs →
  parse_jailer (flatten vs ++ rest) =
  (λ o, mkJailerOptions (vs ++ opt_values o) (opt_daemonize o) (opt_firecracker o)) <$> parse_jailer rest.
Proof.
  induction 1 as [|[f v] vs Hf Hvs IH].
  { simpl. destruct (parse_jailer rest) as [[]|]; done. }
  change (flatten ((f, v) :: vs) ++ rest) with (f :: v :: flatten vs ++ rest).
  cbn [parse_jailer]. simpl in Hf. destruct (String.eqb_spec f "--") as [->|]; [by apply (bool_decide_eq_true_2 _) in Hf|].
  destruct (String.eqb_spec f "--daemonize") as [->|]; [by apply (bool_decide_eq_true_2 _) in Hf|].
  rewrite bool_decide_true by done. rewrite IH.
  by destruct (parse_jailer rest).
Qed.

Lemma foldl_cgroup args l :
  foldl (λ args cgroupArg, args ++ ["--cgroup"; cgroupArg]) args l =
  args ++ flatten ((λ a, ("--cgroup", a)) <$> l).
Proof.
  revert args. induction l as [|a l IH]; intros args; simpl; [by rewrite app_nil_r|].
  by rewrite IH, <- app_assoc.
Qed.

Lemma flatten_app l1 l2 : flatten (l1 ++ l2) = flatten l1 ++ flatten l2.
Proof. apply bind_app. Qed.

Lemma if_app {A} (c : bool) (l1 l2 : list A) :
  (if c then l1 ++ l2 else l1) = l1 ++ (if c then l2 else []).
Proof. destruct c; by rewrite ?app_nil_r. Qed.

Lemma flatten_if (c : bool) l : flatten (if c then l else []) = if c then flatten l else [].
Proof. by destruct c. Qed.

Lemma J_Args_flatten ReadFile b :
  J_Args ReadFile b =
  flatten (opt_values (J_options ReadFile b)) ++
  (if J_daemonize b then ["--daemonize"] else []) ++
  (if negb (length (J_firecrackerArgs b) =? 0)%nat then "--" :: J_firecrackerArgs b else []).
Proof.
  unfold J_Args, J_options, when_set. cbn [opt_values].
  rewrite !if_app, foldl_cgroup, !flatten_app, !flatten_if, <- !app_assoc. done.
Qed.

(** The jailer reads back from the arguments exactly what was set on the builder:
    every flag with its value, in order, whether to daemonize, and the Firecracker
    arguments, whatever strings the values are. *)
Lemma parse_J_Args (ReadFile : string → option string) (b : JailerCommandBuilder) :
  parse_jailer (J_Args ReadFile b) = Some (J_options ReadFile b).
Proof.
  rewrite J_Args_flatten, parse_jailer_values.
  - unfold J_options. cbn [opt_values].
    destruct (J_daemonize b), (J_firecrackerArgs b); cbn; rewrite ?app_nil_r; done.
  - unfold J_options, when_set. cbn [opt_values].
    rewrite !Forall_app, Forall_fmap. split_and!; try (case_match; repeat constructor; flag).
    + repeat constructor; flag.
    + apply Forall_forall. intros. flag.
Qed.

(** The Firecracker command is the binary (the default one if none is set),
    the socket option when a path is set, then the arguments; the standard
    streams are those of the builder. *)
Lemma VM_Build_spec (b : VMCommandBuilder) :
  VM_Build b =
  mkCmd
    ((if (VM_bin b =? "")%string then "firecracker" else VM_bin b) ::
     (if (VM_socketPath b =? "")%string then [] else ["--api-sock"; VM_socketPath b]) ++
     default [] (VM_args b))
    (VM_stdin b) (VM_stdout b) (VM_stderr b) None.
Proof.
  destruct b as [bin args sock i o e].
  unfold VM_Build, VM_SocketPath, VM_Bin, VM_Args, VM_Stdout, VM_Stderr, VM_Stdin. simpl.
  destruct bin, sock, args, i, o, e; simpl; rewrite ?app_nil_r; done.
Qed.
