(* ===== verification/Vmconf.v ===== *)
(** * IP addresses and VM network configuration

    [net.IP] and [net.IPNet] of Go's standard library, the helpers of
    src/cni/internal/cniutil.go on CNI results, and the kernel boot parameter of
    src/cni/vmconf/vmconf.go. *)

From stdpp Require Import strings list sets.
From Stdlib Require Import ZArith Lia Ascii.
From S2P Require Import Prelude GoStrings.

Open Scope string_scope.
Open Scope list_scope.

(** ** Package [net] *)

(** A byte is a [Z] in 0..255; a nil IP is the empty list. *)
Definition IP : Type := list Z.

Record IPNet := mkIPNet { IPNet_IP : IP; IPNet_Mask : list Z }.

Definition To4 (ip : IP) : option IP :=
  if (length ip =? 4)%nat then Some ip
  else if (length ip =? 16)%nat && forallb (Z.eqb 0) (take 10 ip)
            && forallb (Z.eqb 255) (take 2 (drop 10 ip))
  then Some (drop 12 ip)
  else None.

Definition dotted (b : list Z) : string := strings_Join (strconv_Itoa <$> b) ".".

Definition hex_digit (d : Z) : ascii :=
  Ascii.ascii_of_N (Z.to_N (if (d <? 10)%Z then d + 48 else d + 87)).

Definition hex_byte (b : Z) : string :=
  String (hex_digit (b / 16)) (String (hex_digit (b mod 16)) "").

(** A 16-bit group in hexadecimal without leading zeros. *)
Definition hex_group (g : Z) : string :=
  let d i := String (hex_digit ((g / 16 ^ i) mod 16)) "" in
  if (g <? 16)%Z then d 0%Z
  else if (g <? 256)%Z then d 1%Z +:+ d 0%Z
  else if (g <? 4096)%Z then d 2%Z +:+ d 1%Z +:+ d 0%Z
  else d 3%Z +:+ d 2%Z +:+ d 1%Z +:+ d 0%Z.

Fixpoint groups (b : list Z) : list Z :=
  match b with x :: y :: b => (256 * x + y)%Z :: groups b | _ => [] end.

Fixpoint zeros (l : list Z) : nat :=
  match l with 0%Z :: l => Datatypes.S (zeros l) | _ => 0 end.

(** The first longest run of at least two zero groups: its bounds. *)
Fixpoint zero_run (i : nat) (l : list Z) (best : nat * nat) : nat * nat :=
  match l with
  | [] => best
  | _ :: l' =>
      let n := zeros l in
      let best := if ((2 <=? n) && (best.2 - best.1 <? n))%nat then (i, i + n)%nat else best in
      zero_run (Datatypes.S i) l' best
  end.

Definition ip6_string (b : list Z) : string :=
  let gs := groups b in
  let '(a, z) := zero_run 0 gs (255, 255)%nat in
  if (a =? 255)%nat then strings_Join (hex_group <$> gs) ":"
  else strings_Join (hex_group <$> take a gs) ":" +:+ "::" +:+
       strings_Join (hex_group <$> drop z gs) ":".

(** [func (ip IP) String() string] *)
Definition IP_String (ip : IP) : string :=
  if (length ip =? 0)%nat then "<nil>"
  else if negb ((length ip =? 4) || (length ip =? 16))%nat
  then "?" +:+ strings_Join (hex_byte <$> ip) ""
  else match To4 ip with
       | Some p4 => dotted p4
       | None => ip6_string ip
       end.

(** ** CNI results (version 1.0.0 of the result type) *)
Record Interface := mkInterface {
  Interface_Name : string;
  Interface_Mac : string;
  Interface_Sandbox : string
}.

Record IPConfig := mkIPConfig {
  IPConfig_Interface : option Z;
  IPConfig_Address : IPNet;
  IPConfig_Gateway : IP
}.

Record Route := mkRoute { Route_Dst : IPNet; Route_GW : IP }.

Record DNS := mkDNS {
  DNS_Nameservers : list string;
  DNS_Domain : string;
  DNS_Search : list string;
  DNS_Options : list string
}.

Record Result := mkResult {
  Result_Interfaces : list Interface;
  Result_IPs : list IPConfig;
  Result_Routes : list Route;
  Result_DNS : DNS
}.

#[export] Instance Interface_eq_dec : EqDecision Interface.
Proof. solve_decision. Defined.

(** ** src/cni/internal/cniutil.go *)

(** Indexing a Go slice with an [int]. *)
Definition index {A} (l : list A) (i : Z) : option A :=
  if (i <? 0)%Z then None else l !! Z.to_nat i.

Fixpoint InterfaceIPs_loop (ifaces : list Interface) (ifaceName sandbox : string)
    (ips ifaceIPs : list IPConfig) : Outcome (list IPConfig) :=
  match ips with
  | [] => Val ifaceIPs
  | ipconfig :: ips =>
      match IPConfig_Interface ipconfig with
      | None => InterfaceIPs_loop ifaces ifaceName sandbox ips ifaceIPs
      | Some i =>
          match index ifaces i with
          | None => Panic "index out of range"
          | Some iface =>
              InterfaceIPs_loop ifaces ifaceName sandbox ips
                (if ((Interface_Name iface =? ifaceName) && (Interface_Sandbox iface =? sandbox))%string
                 then ifaceIPs ++ [ipconfig] else ifaceIPs)
          end
      end
  end.

Definition InterfaceIPs (result : Result) (ifaceName sandbox : string) : Outcome (list IPConfig) :=
  InterfaceIPs_loop (Result_Interfaces result) ifaceName sandbox (Result_IPs result) [].

Definition FilterBySandbox (sandbox : string) (ifaces : list Interface) :
    list Interface * list Interface :=
  foldl (λ '(inn, out), λ iface,
           if (Interface_Sandbox iface =? sandbox)%string then (inn ++ [iface], out)
           else (inn, out ++ [iface])) ([], []) ifaces.

Definition IfacesWithName (name : string) (ifaces : list Interface) : list Interface :=
  foldl (λ found iface,
           if (Interface_Name iface =? name)%string then found ++ [iface] else found) [] ifaces.

Definition VMTapPair (result : Result) (vmID : string) : Err + Interface * Interface :=
  let '(vmIfaces, otherIfaces) := FilterBySandbox vmID (Result_Interfaces result) in
  match vmIfaces with
  | _ :: _ :: _ =>
      inl (Errorf "expected to find at most 1 interface in sandbox %q, but instead found %d"
             [vmID; strconv_Itoa (Z.of_nat (length vmIfaces))])
  | [] => inl (DeviceError LinkNotFound ("pseudo-device for " +:+ vmID))
  | [vmIface] =>
      let tapName := Interface_Name vmIface in
      let tapIfaces := IfacesWithName tapName otherIfaces in
      match tapIfaces with
      | _ :: _ :: _ =>
          inl (Errorf "expected to find at most 1 interface with name %q, but instead found %d"
                 [tapName; strconv_Itoa (Z.of_nat (length tapIfaces))])
      | [] => inl (DeviceError LinkNotFound tapName)
      | [tapIface] => inr (vmIface, tapIface)
      end
  end.

(** ** src/cni/vmconf/vmconf.go *)
Record StaticNetworkConf := mkStaticNetworkConf {
  TapName : string;
  NetNSPath : string;
  VMIfName : string;
  VMMacAddr : string;
  VMMTU : Z;
  VMIPConfig : option IPConfig;
  VMRoutes : list Route;
  VMNameservers : list string;
  VMDomain : string;
  VMSearchDomains : list string;
  VMResolverOptions : list string
}.

Definition IPBootParam (c : StaticNetworkConf) : Outcome string :=
  match VMIPConfig c with
  | None => Panic "invalid memory address or nil pointer dereference"
  | Some ipconfig =>
      let clientIP := IP_String (IPNet_IP (IPConfig_Address ipconfig)) in
      let serverIP := "" in
      let defaultGateway := IP_String (IPConfig_Gateway ipconfig) in
      match IPNet_Mask (IPConfig_Address ipconfig) with
      | m0 :: m1 :: m2 :: m3 :: _ =>
          let subnetMask :=
            strconv_Itoa m0 +:+ "." +:+ strconv_Itoa m1 +:+ "." +:+
            strconv_Itoa m2 +:+ "." +:+ strconv_Itoa m3 in
          let dhcpHostname := "" in
          let device := VMIfName c in
          let autoconfiguration := "off" in
          let nameservers := take 2 (VMNameservers c ++ ["";  ""]) in
          let ntpServer := "" in
          Val (strings_Join
                 ([clientIP; serverIP; defaultGateway; subnetMask; dhcpHostname; device;
                   autoconfiguration] ++ nameservers ++ [ntpServer]) ":")
      | _ => Panic "index out of range"
      end
  end.

Example ip6_string_run :
  IP_String [32;1;13;184;0;0;0;0;0;0;0;0;0;0;0;1]%Z = "2001:db8::1" ∧
  IP_String [0;0;0;0;0;0;0;0;0;0;255;255;10;0;0;1]%Z = "10.0.0.1" ∧
  IP_String (replicate 16 0%Z) = "::" ∧ IP_String [] = "<nil>".
Proof. vm_compute. done. Qed.

(** ** Addresses *)
Definition bytes (l : list Z) : Prop := Forall (λ b, 0 ≤ b < 256)%Z l.

Lemma To4_length ip ip4 : To4 ip = Some ip4 → length ip4 = 4.
Proof.
  unfold To4. destruct (Nat.eqb_spec (length ip) 4); [by intros [= <-]|].
  destruct (Nat.eqb_spec (length ip) 16) as [Hl|]; simpl; [|done].
  case_match; [|done]. intros [= <-]. rewrite length_drop. lia.
Qed.

Lemma To4_bytes ip ip4 : bytes ip → To4 ip = Some ip4 → bytes ip4.
Proof.
  intros Hip. unfold To4. repeat case_match; try done; intros [= <-]; [done|].
  by apply Forall_drop.
Qed.

Lemma IP_String_To4 ip ip4 : To4 ip = Some ip4 → IP_String ip = dotted ip4.
Proof.
  intros H4. unfold IP_String. rewrite H4.
  assert (length ip = 4 ∨ length ip = 16) as [-> | ->]; [|done..].
  unfold To4 in H4. destruct (Nat.eqb_spec (length ip) 4); [by left|].
  destruct (Nat.eqb_spec (length ip) 16); [by right|done].
Qed.

Lemma dotted_no_colon l : bytes l → cut ":" (dotted l) = None.
Proof.
  intros Hl. apply cut_None_Join; [done|]. apply Forall_fmap.
  eapply Forall_impl; [exact Hl|]. intros b Hb. simpl in *. apply cut_None_Itoa; [done|lia].
Qed.

(** For an IPv4 address, gateway and mask, the ["ip="] parameter splits at
    its colons into the ten fields of the kernel documentation: client, server
    (empty), gateway, mask, host name (empty), device, "off", the first two name
    servers (empty if missing), NTP server (empty). *)
Theorem IPBootParam_fields (c : StaticNetworkConf) (ipconfig : IPConfig) (ip4 gw4 : IP) :
  VMIPConfig c = Some ipconfig →
  To4 (IPNet_IP (IPConfig_Address ipconfig)) = Some ip4 → bytes ip4 →
  To4 (IPConfig_Gateway ipconfig) = Some gw4 → bytes gw4 →
  length (IPNet_Mask (IPConfig_Address ipconfig)) = 4 →
  bytes (IPNet_Mask (IPConfig_Address ipconfig)) →
  cut ":" (VMIfName c) = None → Forall (λ s, cut ":" s = None) (VMNameservers c) →
  ∃ param, IPBootParam c = Val param ∧
    strings_Split param ":" =
      [dotted ip4; ""; dotted gw4; dotted (IPNet_Mask (IPConfig_Address ipconfig)); "";
       VMIfName c; "off"; default "" (VMNameservers c !! 0); default "" (VMNameservers c !! 1); ""].
Proof.
  intros Hc Hip Hipb Hgw Hgwb Hlen Hmb Hif Hns. unfold IPBootParam. rewrite Hc.
  destruct (IPNet_Mask (IPConfig_Address ipconfig)) as [|m0 [|m1 [|m2 [|m3 [|]]]]] eqn:Hm; try done.
  rewrite (IP_String_To4 _ _ Hip), (IP_String_To4 _ _ Hgw).
  eexists. split; [reflexivity|].
  change (strconv_Itoa m0 +:+ _) with (dotted [m0; m1; m2; m3]).
  assert (take 2 (VMNameservers c ++ [""; ""]) =
          [default "" (VMNameservers c !! 0); default "" (VMNameservers c !! 1)]) as ->.
  { by destruct (VMNameservers c) as [|? [|]]. }
  apply strings_Split_Join; [done|].
  assert (∀ i, cut ":" (default "" (VMNameservers c !! i)) = None) as Hns'.
  { intros i. destruct (VMNameservers c !! i) eqn:Hi; [|done].
    by apply (Forall_lookup_1 _ _ _ _ Hns Hi). }
  repeat constructor; try done; by apply dotted_no_colon.
Qed.

Lemma IPBootParam_fields_witness :
  let c := mkStaticNetworkConf "" "" "eth0" "" 0
             (Some (mkIPConfig None (mkIPNet [10; 0; 0; 2] [255; 255; 255; 0])%Z [10; 0; 0; 1]%Z))
             [] ["8.8.8.8"] "" [] [] in
  ∃ param, IPBootParam c = Val param ∧
    strings_Split param ":" =
      ["10.0.0.2"; ""; "10.0.0.1"; "255.255.255.0"; ""; "eth0"; "off"; "8.8.8.8"; ""; ""].
Proof.
  intros c.
  assert (∀ l, forallb (λ b, (0 <=? b) && (b <? 256))%Z l = true → bytes l) as Hb.
  { intros l Hl. apply Forall_forall. intros b Hin. apply list_elem_of_In in Hin.
    rewrite forallb_forall in Hl. specialize (Hl b Hin). simpl in Hl. lia. }
  destruct (IPBootParam_fields c
    (mkIPConfig None (mkIPNet [10; 0; 0; 2] [255; 255; 255; 0])%Z [10; 0; 0; 1]%Z)
    [10; 0; 0; 2]%Z [10; 0; 0; 1]%Z eq_refl eq_refl (Hb [10; 0; 0; 2]%Z eq_refl) eq_refl
    (Hb [10; 0; 0; 1]%Z eq_refl) eq_refl (Hb [255; 255; 255; 0]%Z eq_refl) eq_refl) as (param & Hp & Hs).
  { by repeat constructor. }
  exists param. split; [exact Hp|]. rewrite Hs. vm_compute. reflexivity.
Defined.

(** ** Interfaces of a CNI result *)
Lemma FilterBySandbox_filter sandbox ifaces :
  FilterBySandbox sandbox ifaces =
  (filter (λ i, Interface_Sandbox i = sandbox) ifaces,
   filter (λ i, Interface_Sandbox i ≠ sandbox) ifaces).
Proof.
  unfold FilterBySandbox. induction ifaces as [|i l IH] using rev_ind; [done|].
  rewrite foldl_app, !filter_app, IH. simpl. rewrite !filter_cons, !filter_nil.
  destruct (String.eqb_spec (Interface_Sandbox i) sandbox);
    repeat case_decide; done || by rewrite ?app_nil_r.
Qed.

Lemma IfacesWithName_filter name ifaces :
  IfacesWithName name ifaces = filter (λ i, Interface_Name i = name) ifaces.
Proof.
  unfold IfacesWithName. induction ifaces as [|i l IH] using rev_ind; [done|].
  rewrite foldl_app, filter_app, IH. simpl. rewrite filter_cons, filter_nil.
  destruct (String.eqb_spec (Interface_Name i) name);
    repeat case_decide; done || by rewrite ?app_nil_r.
Qed.

(** [VMTapPair] succeeds exactly when the result has one interface in the
    sandbox of the VM and one interface of the same name outside it, and returns
    the two. *)
Theorem VMTapPair_spec (result : Result) (vmID : string) (vm tap : Interface) :
  VMTapPair result vmID = inr (vm, tap) ↔
  filter (λ i, Interface_Sandbox i = vmID) (Result_Interfaces result) = [vm] ∧
  filter (λ i, Interface_Name i = Interface_Name vm ∧ Interface_Sandbox i ≠ vmID)
    (Result_Interfaces result) = [tap].
Proof.
  unfold VMTapPair. rewrite FilterBySandbox_filter.
  destruct (filter (λ i, Interface_Sandbox i = vmID) _) as [|vm' [|]];
    [naive_solver| |naive_solver].
  rewrite IfacesWithName_filter, list_filter_filter.
  split.
  - destruct (filter _ _) as [|tap' [|]] eqn:Hf; naive_solver.
  - intros [[= ->] Hf]. by rewrite Hf.
Qed.

(** The IP configurations that name the interface, when every index is good. *)
Definition ip_of (ifaces : list Interface) (ifaceName sandbox : string) (c : IPConfig) : Prop :=
  ∃ i iface, IPConfig_Interface c = Some i ∧ index ifaces i = Some iface ∧
    Interface_Name iface = ifaceName ∧ Interface_Sandbox iface = sandbox.

Definition index_ok (ifaces : list Interface) (c : IPConfig) : Prop :=
  match IPConfig_Interface c with
  | None => True
  | Some i => (0 ≤ i < Z.of_nat (length ifaces))%Z
  end.

#[export] Instance index_ok_dec ifaces c : Decision (index_ok ifaces c).
Proof. unfold index_ok. destruct (IPConfig_Interface c); apply _. Defined.

Lemma index_Some {A} (l : list A) i : is_Some (index l i) ↔ (0 ≤ i < Z.of_nat (length l))%Z.
Proof.
  unfold index. destruct (Z.ltb_spec i 0).
  - split; [by intros [? ?]|lia].
  - rewrite lookup_lt_is_Some. lia.
Qed.

Lemma InterfaceIPs_loop_spec ifaces name sandbox ips acc :
  (Forall (index_ok ifaces) ips →
   ∃ l, InterfaceIPs_loop ifaces name sandbox ips acc = Val (acc ++ l) ∧
        sublist l ips ∧ ∀ c, c ∈ l ↔ c ∈ ips ∧ ip_of ifaces name sandbox c) ∧
  (¬ Forall (index_ok ifaces) ips →
   InterfaceIPs_loop ifaces name sandbox ips acc = Panic "index out of range").
Proof.
  revert acc. induction ips as [|c ips IH]; intros acc; simpl.
  { split; [|intros []; constructor]. intros _. exists []. rewrite app_nil_r.
    split_and!; [done..|]. set_solver. }
  rewrite Forall_cons. unfold index_ok at 1 3, ip_of.
  destruct (IPConfig_Interface c) as [i|] eqn:Hc.
  - destruct (index ifaces i) as [iface|] eqn:Hi.
    + assert (0 ≤ i < Z.of_nat (length ifaces))%Z as Hrange by (apply index_Some; by eexists).
      destruct (decide (Interface_Name iface = name ∧ Interface_Sandbox iface = sandbox)) as [[Hn Hs]|Hno].
      * rewrite Hn, Hs, !String.eqb_refl. simpl. destruct (IH (acc ++ [c])) as [IH1 IH2].
        split; [|intros Hnf; apply IH2; tauto].
        intros [_ Hall]. destruct (IH1 Hall) as (l & -> & Hsub & Hl). exists (c :: l).
        rewrite <- app_assoc. split_and!; [done|by constructor|].
        intros c'. rewrite !elem_of_cons, Hl. split.
        -- intros [->|[]]; [|auto]. split; [by left|]. by exists i, iface.
        -- intros [[->|] ?]; auto.
      * assert ((Interface_Name iface =? name) && (Interface_Sandbox iface =? sandbox) = false)%string as ->.
        { destruct (String.eqb_spec (Interface_Name iface) name),
            (String.eqb_spec (Interface_Sandbox iface) sandbox); tauto. }
        destruct (IH acc) as [IH1 IH2]. split; [|intros Hnf; apply IH2; tauto].
        intros [_ Hall]. destruct (IH1 Hall) as (l & -> & Hsub & Hl). exists l.
        split_and!; [done|by constructor|]. intros c'. rewrite elem_of_cons, Hl.
        split; [intros []; auto|]. intros [[->|Hin] Hip]; [|auto].
        destruct Hip as (i' & iface' & ? & ? & ?). exfalso. apply Hno. by simplify_eq.
    + assert (¬ (0 ≤ i < Z.of_nat (length ifaces))%Z) as Hrange.
      { rewrite <- index_Some, Hi. by intros [? ?]. }
      split; [tauto|done].
  - destruct (IH acc) as [IH1 IH2]. split; [|intros Hnf; apply IH2; tauto].
    intros [_ Hall]. destruct (IH1 Hall) as (l & -> & Hsub & Hl). exists l.
    split_and!; [done|by constructor|]. intros c'. rewrite elem_of_cons, Hl.
    split; [intros []; auto|]. intros [[->|Hin] Hip]; [|auto].
    destruct Hip as (? & ? & ? & _). congruence.
Qed.

(** [InterfaceIPs] panics exactly when some IP configuration of the result
    names an interface index out of range; otherwise it returns, in order, the
    configurations of the interface with the name and sandbox asked for. *)
Theorem InterfaceIPs_spec (result : Result) (ifaceName sandbox : string) :
  (Forall (index_ok (Result_Interfaces result)) (Result_IPs result) →
   ∃ l, InterfaceIPs result ifaceName sandbox = Val l ∧ sublist l (Result_IPs result) ∧
        ∀ c, c ∈ l ↔ c ∈ Result_IPs result ∧ ip_of (Result_Interfaces result) ifaceName sandbox c) ∧
  (is_panic (InterfaceIPs result ifaceName sandbox) ↔
   ¬ Forall (index_ok (Result_Interfaces result)) (Result_IPs result)).
Proof.
  destruct (InterfaceIPs_loop_spec (Result_Interfaces result) ifaceName sandbox (Result_IPs result) [])
    as [Hok Hbad]. unfold InterfaceIPs. split; [done|]. split.
  - intros [w Hw] Hall. destruct (Hok Hall) as (l & Hl & _). congruence.
  - intros Hnf. eexists. by apply Hbad.
Qed.

Lemma InterfaceIPs_spec_witness :
  let c := mkIPConfig (Some 0%Z) (mkIPNet [] []) [] in
  let result := mkResult [mkInterface "tap0" "aa" "vm"] [c] [] (mkDNS [] "" [] []) in
  Forall (index_ok (Result_Interfaces result)) (Result_IPs result) ∧
  ∃ l, InterfaceIPs result "tap0" "vm" = Val l ∧ c ∈ l.
Proof.
  intros c result.
  assert (Forall (index_ok (Result_Interfaces result)) (Result_IPs result)) as Hok.
  { repeat constructor; vm_compute; congruence. }
  split; [exact Hok|].
  destruct (proj1 (InterfaceIPs_spec result "tap0" "vm") Hok) as (l & Hl & _ & Hin).
  exists l. split; [exact Hl|]. apply Hin. split; [by left|].
  exists 0%Z, (mkInterface "tap0" "aa" "vm"). done.
Defined.
