(* ===== verification/Transport.v ===== *)
(** * The HTTP transport of a client

    src/client_transports.go, src/client/firecracker_client.go,
    [newFirecrackerClient] of src/firecracker.go and the constructors of
    src/client/operations/operations_client.go.  The go-openapi runtime behind a
    transport is third-party code: the class [HttpRuntime], whose laws say that
    assigning its exported field, and the setters, change nothing else.  The
    function that opens connections is a value, interpreted by [RoundTrip_dial]. *)

From stdpp Require Import strings list.
From Stdlib Require Import ZArith.
From S2P Require Import Prelude.

Open Scope string_scope.
Open Scope list_scope.

(** ** Opening connections *)

(** A resolved address and a connection of package net. *)
Definition UnixAddr : Type := nat.
Definition Connection : Type := nat.

Inductive NetCalls : Type → Type :=
  | ResolveUnixAddr (network address : string) : NetCalls (Err + UnixAddr)
  | DialUnix (network : string) (laddr : option UnixAddr) (raddr : UnixAddr) : NetCalls (Err + Connection)
  | DefaultDial (ctx : go_context) (network address : string) : NetCalls (Err + Connection).

(** [http.RoundTripper]: the one of the runtime, or the [*http.Transport] whose
    [DialContext] [NewUnixSocketTransport] sets. *)
Inductive RoundTripper := DefaultTripper | SocketTripper (socketPath : string).

(** [DialContext] of a round tripper; the one of this repository looks at neither
    its context nor the address asked for. *)
Definition RoundTrip_dial (t : RoundTripper) (ctx : go_context) (network path : string) :
    GoM NetCalls unit (Err + Connection) :=
  match t with
  | DefaultTripper => call (DefaultDial ctx network path)
  | SocketTripper socketPath =>
      addr <- call (ResolveUnixAddr "unix" socketPath) ;
      match addr with
      | inl err => go_ret (inl err)
      | inr addr => call (DialUnix "unix" None addr)
      end
  end.

(** ** The runtime of go-openapi *)
Class HttpRuntime := {
  Runtime : Type;
  Registry : Type;
  strfmt_Default : Registry;
  strfmt_NewFormats : Registry;
  Runtime_Logger : Type;
  httptransport_New : string → string → list string → Runtime;
  Runtime_Transport : Runtime → RoundTripper;
  set_Runtime_Transport : RoundTripper → Runtime → Runtime;
  SetDebug : bool → Runtime → Runtime;
  SetLogger : Runtime_Logger → Runtime → Runtime
}.

Class HttpRuntimeLaws `{HttpRuntime} := {
  Transport_set t r : Runtime_Transport (set_Runtime_Transport t r) = t;
  Transport_SetDebug b r : Runtime_Transport (SetDebug b r) = Runtime_Transport r;
  Transport_SetLogger l r : Runtime_Transport (SetLogger l r) = Runtime_Transport r
}.

Section client.
Context `{HttpRuntime}.

(** ** The operations client *)
Record OperationsClient := mkOperationsClient { transport : Runtime; formats : option Registry }.

Definition operations_New (transport : Runtime) (formats : option Registry) : OperationsClient :=
  mkOperationsClient transport formats.
Definition operations_NewClient (transport : Runtime) (formats : option Registry) : OperationsClient :=
  mkOperationsClient transport formats.

(** ** The Firecracker client *)
Definition DefaultHost : string := "localhost".
Definition DefaultBasePath : string := "/".
Definition DefaultSchemes : list string := ["http"].

Record TransportConfig := mkTransportConfig { Host : string; BasePath : string; TransportSchemes : list string }.

Definition DefaultTransportConfig : TransportConfig :=
  mkTransportConfig DefaultHost DefaultBasePath DefaultSchemes.

(** The methods of [*TransportConfig] assign and return their receiver. *)
Definition WithHost (cfg : TransportConfig) (host : string) : TransportConfig :=
  mkTransportConfig host (BasePath cfg) (TransportSchemes cfg).
Definition WithBasePath (cfg : TransportConfig) (basePath : string) : TransportConfig :=
  mkTransportConfig (Host cfg) basePath (TransportSchemes cfg).
Definition WithSchemes (cfg : TransportConfig) (schemes : list string) : TransportConfig :=
  mkTransportConfig (Host cfg) (BasePath cfg) schemes.

Record Firecracker := mkFirecracker { Operations : OperationsClient; Firecracker_Transport : Runtime }.

Definition Firecracker_New (transport : Runtime) (formats : option Registry) : Firecracker :=
  let formats := match formats with None => strfmt_Default | Some f => f end in
  mkFirecracker (operations_New transport (Some formats)) transport.

Definition NewHTTPClientWithConfig (formats : option Registry) (cfg : option TransportConfig) : Firecracker :=
  let cfg := match cfg with None => DefaultTransportConfig | Some cfg => cfg end in
  let transport := httptransport_New (Host cfg) (BasePath cfg) (TransportSchemes cfg) in
  Firecracker_New transport formats.

Definition NewHTTPClient (formats : option Registry) : Firecracker := NewHTTPClientWithConfig formats None.

Definition SetTransport (c : Firecracker) (transport : Runtime) : Firecracker :=
  mkFirecracker (operations_NewClient transport None) transport.

(** ** The client of a machine *)
Definition NewUnixSocketTransport (socketPath : string) (logger : option Runtime_Logger) (debug : bool) : Runtime :=
  let socketTransport := SocketTripper socketPath in
  let transport := httptransport_New DefaultHost DefaultBasePath DefaultSchemes in
  let transport := set_Runtime_Transport socketTransport transport in
  let transport := if debug then SetDebug debug transport else transport in
  match logger with Some logger => SetLogger logger transport | None => transport end.

Definition newFirecrackerClient (socketPath : string) (logger : option Runtime_Logger) (debug : bool) : Firecracker :=
  let httpClient := NewHTTPClient (Some strfmt_NewFormats) in
  let transport := NewUnixSocketTransport socketPath logger debug in
  SetTransport httpClient transport.

(** ** Properties *)
Context `{!HttpRuntimeLaws}.

Lemma NewUnixSocketTransport_socket socketPath logger debug :
  Runtime_Transport (NewUnixSocketTransport socketPath logger debug) = SocketTripper socketPath.
Proof.
  unfold NewUnixSocketTransport. destruct logger, debug;
    by rewrite ?Transport_SetLogger, ?Transport_SetDebug, Transport_set.
Qed.

(** Every connection of the operations client of a new client goes to its socket,
    whatever address a request names, debugging and logging or not; the registry
    of formats given to [NewHTTPClient] is lost when the transport is set. *)
Theorem newFirecrackerClient_socket (socketPath : string) (logger : option Runtime_Logger) (debug : bool)
    (ctx : go_context) (network path : string) (o : Oracle NetCalls) h :
  let c := newFirecrackerClient socketPath logger debug in
  transport (Operations c) = Firecracker_Transport c ∧ formats (Operations c) = None ∧
  wp (RoundTrip_dial (Runtime_Transport (transport (Operations c))) ctx network path)
    (λ r _ h', ∃ resolved,
      match resolved, r with
      | inl err, Val (inl err') => err' = err ∧ h' = h ++ [Event (ResolveUnixAddr "unix" socketPath) (inl err)]
      | inr addr, Val conn => h' = h ++ [Event (ResolveUnixAddr "unix" socketPath) (inr addr);
                                         Event (DialUnix "unix" None addr) conn]
      | _, _ => False
      end) o tt h.
Proof.
  cbv zeta. split; [done|]. split; [done|]. cbn [newFirecrackerClient SetTransport Operations operations_NewClient transport].
  rewrite NewUnixSocketTransport_socket. apply wp_bind, wp_call. destruct (o h _ _) as [err|addr] eqn:Ho.
  - apply wp_ret. by exists (inl err).
  - apply wp_call. exists (inr addr). by rewrite <- app_assoc.
Qed.
End client.
