(* ===== verification/Client.v ===== *)
(** * The SDK client (src/firecracker.go, src/utils.go)

    [Client] wraps the operations client of the API.  The calls of the operations
    client are an interface ([HasOps]) of the environment: the generated client
    behind it is modelled in ApiOperations.v. *)

From stdpp Require Import strings list.
From Stdlib Require Import ZArith Lia.
From S2P Require Import Prelude GoStrings Models ApiParams.

Open Scope string_scope.
Open Scope list_scope.
Open Scope Z_scope.

(** ** What every request carries *)
Definition params_Context {T} (c : ClientIface T) : option go_context :=
  match c with
  | Ops_CreateSnapshot params => CreateSnapshotParams_Context params
  | Ops_CreateSyncAction params => CreateSyncActionParams_Context params
  | Ops_DescribeBalloonConfig params => DescribeBalloonConfigParams_Context params
  | Ops_DescribeBalloonStats params => DescribeBalloonStatsParams_Context params
  | Ops_DescribeInstance params => DescribeInstanceParams_Context params
  | Ops_GetExportVMConfig params => GetExportVMConfigParams_Context params
  | Ops_GetFirecrackerVersion params => GetFirecrackerVersionParams_Context params
  | Ops_GetMachineConfiguration params => GetMachineConfigurationParams_Context params
  | Ops_GetMmds params => GetMmdsParams_Context params
  | Ops_LoadSnapshot params => LoadSnapshotParams_Context params
  | Ops_PatchBalloon params => PatchBalloonParams_Context params
  | Ops_PatchBalloonStatsInterval params => PatchBalloonStatsIntervalParams_Context params
  | Ops_PatchGuestDriveByID params => PatchGuestDriveByIDParams_Context params
  | Ops_PatchGuestNetworkInterfaceByID params => PatchGuestNetworkInterfaceByIDParams_Context params
  | Ops_PatchMachineConfiguration params => PatchMachineConfigurationParams_Context params
  | Ops_PatchMmds params => PatchMmdsParams_Context params
  | Ops_PatchVM params => PatchVMParams_Context params
  | Ops_PutBalloon params => PutBalloonParams_Context params
  | Ops_PutCPUConfiguration params => PutCPUConfigurationParams_Context params
  | Ops_PutEntropyDevice params => PutEntropyDeviceParams_Context params
  | Ops_PutGuestBootSource params => PutGuestBootSourceParams_Context params
  | Ops_PutGuestDriveByID params => PutGuestDriveByIDParams_Context params
  | Ops_PutGuestNetworkInterfaceByID params => PutGuestNetworkInterfaceByIDParams_Context params
  | Ops_PutGuestVsock params => PutGuestVsockParams_Context params
  | Ops_PutLogger params => PutLoggerParams_Context params
  | Ops_PutMachineConfiguration params => PutMachineConfigurationParams_Context params
  | Ops_PutMetrics params => PutMetricsParams_Context params
  | Ops_PutMmds params => PutMmdsParams_Context params
  | Ops_PutMmdsConfig params => PutMmdsConfigParams_Context params
  end.

Definition params_timeout {T} (c : ClientIface T) : Z :=
  match c with
  | Ops_CreateSnapshot params => CreateSnapshotParams_timeout params
  | Ops_CreateSyncAction params => CreateSyncActionParams_timeout params
  | Ops_DescribeBalloonConfig params => DescribeBalloonConfigParams_timeout params
  | Ops_DescribeBalloonStats params => DescribeBalloonStatsParams_timeout params
  | Ops_DescribeInstance params => DescribeInstanceParams_timeout params
  | Ops_GetExportVMConfig params => GetExportVMConfigParams_timeout params
  | Ops_GetFirecrackerVersion params => GetFirecrackerVersionParams_timeout params
  | Ops_GetMachineConfiguration params => GetMachineConfigurationParams_timeout params
  | Ops_GetMmds params => GetMmdsParams_timeout params
  | Ops_LoadSnapshot params => LoadSnapshotParams_timeout params
  | Ops_PatchBalloon params => PatchBalloonParams_timeout params
  | Ops_PatchBalloonStatsInterval params => PatchBalloonStatsIntervalParams_timeout params
  | Ops_PatchGuestDriveByID params => PatchGuestDriveByIDParams_timeout params
  | Ops_PatchGuestNetworkInterfaceByID params => PatchGuestNetworkInterfaceByIDParams_timeout params
  | Ops_PatchMachineConfiguration params => PatchMachineConfigurationParams_timeout params
  | Ops_PatchMmds params => PatchMmdsParams_timeout params
  | Ops_PatchVM params => PatchVMParams_timeout params
  | Ops_PutBalloon params => PutBalloonParams_timeout params
  | Ops_PutCPUConfiguration params => PutCPUConfigurationParams_timeout params
  | Ops_PutEntropyDevice params => PutEntropyDeviceParams_timeout params
  | Ops_PutGuestBootSource params => PutGuestBootSourceParams_timeout params
  | Ops_PutGuestDriveByID params => PutGuestDriveByIDParams_timeout params
  | Ops_PutGuestNetworkInterfaceByID params => PutGuestNetworkInterfaceByIDParams_timeout params
  | Ops_PutGuestVsock params => PutGuestVsockParams_timeout params
  | Ops_PutLogger params => PutLoggerParams_timeout params
  | Ops_PutMachineConfiguration params => PutMachineConfigurationParams_timeout params
  | Ops_PutMetrics params => PutMetricsParams_timeout params
  | Ops_PutMmds params => PutMmdsParams_timeout params
  | Ops_PutMmdsConfig params => PutMmdsConfigParams_timeout params
  end.

Definition params_HTTPClient {T} (c : ClientIface T) : option HTTPClient :=
  match c with
  | Ops_CreateSnapshot params => CreateSnapshotParams_HTTPClient params
  | Ops_CreateSyncAction params => CreateSyncActionParams_HTTPClient params
  | Ops_DescribeBalloonConfig params => DescribeBalloonConfigParams_HTTPClient params
  | Ops_DescribeBalloonStats params => DescribeBalloonStatsParams_HTTPClient params
  | Ops_DescribeInstance params => DescribeInstanceParams_HTTPClient params
  | Ops_GetExportVMConfig params => GetExportVMConfigParams_HTTPClient params
  | Ops_GetFirecrackerVersion params => GetFirecrackerVersionParams_HTTPClient params
  | Ops_GetMachineConfiguration params => GetMachineConfigurationParams_HTTPClient params
  | Ops_GetMmds params => GetMmdsParams_HTTPClient params
  | Ops_LoadSnapshot params => LoadSnapshotParams_HTTPClient params
  | Ops_PatchBalloon params => PatchBalloonParams_HTTPClient params
  | Ops_PatchBalloonStatsInterval params => PatchBalloonStatsIntervalParams_HTTPClient params
  | Ops_PatchGuestDriveByID params => PatchGuestDriveByIDParams_HTTPClient params
  | Ops_PatchGuestNetworkInterfaceByID params => PatchGuestNetworkInterfaceByIDParams_HTTPClient params
  | Ops_PatchMachineConfiguration params => PatchMachineConfigurationParams_HTTPClient params
  | Ops_PatchMmds params => PatchMmdsParams_HTTPClient params
  | Ops_PatchVM params => PatchVMParams_HTTPClient params
  | Ops_PutBalloon params => PutBalloonParams_HTTPClient params
  | Ops_PutCPUConfiguration params => PutCPUConfigurationParams_HTTPClient params
  | Ops_PutEntropyDevice params => PutEntropyDeviceParams_HTTPClient params
  | Ops_PutGuestBootSource params => PutGuestBootSourceParams_HTTPClient params
  | Ops_PutGuestDriveByID params => PutGuestDriveByIDParams_HTTPClient params
  | Ops_PutGuestNetworkInterfaceByID params => PutGuestNetworkInterfaceByIDParams_HTTPClient params
  | Ops_PutGuestVsock params => PutGuestVsockParams_HTTPClient params
  | Ops_PutLogger params => PutLoggerParams_HTTPClient params
  | Ops_PutMachineConfiguration params => PutMachineConfigurationParams_HTTPClient params
  | Ops_PutMetrics params => PutMetricsParams_HTTPClient params
  | Ops_PutMmds params => PutMmdsParams_HTTPClient params
  | Ops_PutMmdsConfig params => PutMmdsConfigParams_HTTPClient params
  end.

(** The bounds on the time a request may take: the timeout of its parameters, when it
    is not zero, and those of its context. *)
Fixpoint context_timeouts (ctx : go_context) : list Z :=
  match ctx with WithTimeout parent d => d :: context_timeouts parent | _ => [] end.

Definition timeouts {T} (c : ClientIface T) : list Z :=
  (if params_timeout c =? 0 then [] else [params_timeout c]) ++
  match params_Context c with Some ctx => context_timeouts ctx | None => [] end.

(** ** The client *)

(** [client.Firecracker.Operations]: the generated client on the Unix socket, or
    an implementation of the caller's. *)
Inductive Operations :=
  | GeneratedClient (socketPath : string)
  | CallerOperations (id : nat).

Record Client := mkClient {
  Client_Operations : Operations;
  firecrackerRequestTimeout : Z;
  firecrackerInitTimeout : Z
}.

Definition firecrackerRequestTimeoutEnv : string := "FIRECRACKER_GO_SDK_REQUEST_TIMEOUT_MILLISECONDS".
Definition firecrackerInitTimeoutEnv : string := "FIRECRACKER_GO_SDK_INIT_TIMEOUT_SECONDS".
Definition defaultFirecrackerRequestTimeout : Z := 500.
Definition defaultFirecrackerInitTimeoutSeconds : Z := 3.

(** The interfaces a client needs: the operations, and reading the environment. *)
Class HasOps (E : Type → Type) := ops_call : ∀ {T}, Operations → ClientIface T → E T.
Class HasEnv (E : Type → Type) := os_Getenv : string → E string.

(** What [select] in a polling loop finds: the context done, or a tick. *)
Inductive poll := CtxDone (e : Err) | Tick.
Class HasPoll (E : Type → Type) := poll_select : go_context → E poll.

(** [envValueOrDefaultInt] on the value of the variable. *)
Definition int_or_default (value : string) (def : Z) : Z :=
  match strconv_Atoi value with
  | Some envVal => if envVal =? 0 then def else envVal
  | None => def
  end.

(** ** Options of the requests (firecracker.go) *)
Definition GetFirecrackerVersionOpt : Type := GetFirecrackerVersionParams → GetFirecrackerVersionParams.
Definition PutLoggerOpt : Type := PutLoggerParams → PutLoggerParams.
Definition PutMetricsOpt : Type := PutMetricsParams → PutMetricsParams.
Definition PutMachineConfigurationOpt : Type := PutMachineConfigurationParams → PutMachineConfigurationParams.
Definition PutGuestBootSourceOpt : Type := PutGuestBootSourceParams → PutGuestBootSourceParams.
Definition PutGuestNetworkInterfaceByIDOpt : Type := PutGuestNetworkInterfaceByIDParams → PutGuestNetworkInterfaceByIDParams.
Definition PatchGuestNetworkInterfaceByIDOpt : Type := PatchGuestNetworkInterfaceByIDParams → PatchGuestNetworkInterfaceByIDParams.
Definition PutGuestDriveByIDOpt : Type := PutGuestDriveByIDParams → PutGuestDriveByIDParams.
Definition PutGuestVsockOpt : Type := PutGuestVsockParams → PutGuestVsockParams.
Definition PatchVMOpt : Type := PatchVMParams → PatchVMParams.
Definition CreateSnapshotOpt : Type := CreateSnapshotParams → CreateSnapshotParams.
Definition LoadSnapshotOpt : Type := LoadSnapshotParams → LoadSnapshotParams.
Definition CreateSyncActionOpt : Type := CreateSyncActionParams → CreateSyncActionParams.
Definition PutMmdsOpt : Type := PutMmdsParams → PutMmdsParams.
Definition GetMmdsOpt : Type := GetMmdsParams → GetMmdsParams.
Definition PatchMmdsOpt : Type := PatchMmdsParams → PatchMmdsParams.
Definition GetMachineConfigurationOpt : Type := GetMachineConfigurationParams → GetMachineConfigurationParams.
Definition DescribeInstanceOpt : Type := DescribeInstanceParams → DescribeInstanceParams.
Definition PatchGuestDriveByIDOpt : Type := PatchGuestDriveByIDParams → PatchGuestDriveByIDParams.
Definition PutBalloonOpt : Type := PutBalloonParams → PutBalloonParams.
Definition PatchBalloonOpt : Type := PatchBalloonParams → PatchBalloonParams.
Definition PatchBalloonStatsIntervalOpt : Type := PatchBalloonStatsIntervalParams → PatchBalloonStatsIntervalParams.
Definition GetExportVMConfigOpt : Type := GetExportVMConfigParams → GetExportVMConfigParams.

(** [for _, opt := range opts { opt(params) }] *)
Definition apply_opts {P} (opts : list (P → P)) (params : P) : P :=
  foldl (λ p opt, opt p) params opts.

Section client.
Context {E : Type → Type} {S : Type} `{HasOps E} `{DefaultTimeout}.

Definition operations {T} (f : Client) (c : ClientIface T) : GoM E S T :=
  call (ops_call (Client_Operations f) c).

Definition envValueOrDefaultInt `{HasEnv E} (envName : string) (def : Z) : GoM E S Z :=
  envVal <- call (os_Getenv envName) ;
  go_ret (int_or_default envVal def).

(** The operations of a new Firecracker client, known by the socket its transport
    dials (Transport.v). *)
Definition operations_at (socketPath : string) : Operations := GeneratedClient socketPath.

Definition ClientOpt : Type := Client → Client.

Definition WithOpsClient (opsClient : nat) : ClientOpt := λ c,
  mkClient (CallerOperations opsClient) (firecrackerRequestTimeout c) (firecrackerInitTimeout c).

Definition NewClient `{HasEnv E} (socketPath : string) (opts : list ClientOpt) : GoM E S Client :=
  let httpClient := operations_at socketPath in
  requestTimeout <- envValueOrDefaultInt firecrackerRequestTimeoutEnv defaultFirecrackerRequestTimeout ;
  initTimeout <- envValueOrDefaultInt firecrackerInitTimeoutEnv defaultFirecrackerInitTimeoutSeconds ;
  go_ret (apply_opts opts (mkClient httpClient requestTimeout initTimeout)).

Definition Client_GetFirecrackerVersion (f : Client) (ctx : go_context) (opts : list GetFirecrackerVersionOpt) :
    GoM E S (Err + GetFirecrackerVersionOK) :=
  let params := NewGetFirecrackerVersionParams in
  let params := GetFirecrackerVersionParams_SetContext params (Some ctx) in
  let params := apply_opts opts params in
  operations f (Ops_GetFirecrackerVersion params).

Definition Client_PutLogger (f : Client) (ctx : go_context) (logger : option Logger) (opts : list PutLoggerOpt) :
    GoM E S error :=
  let timeout := WithTimeout ctx (int64_mul (firecrackerRequestTimeout f) Millisecond) in
  let params := NewPutLoggerParamsWithContext (Some timeout) in
  let params := PutLoggerParams_SetBody params logger in
  let params := apply_opts opts params in
  operations f (Ops_PutLogger params).

Definition Client_PutMetrics (f : Client) (ctx : go_context) (metrics : option Metrics) (opts : list PutMetricsOpt) :
    GoM E S error :=
  let timeout := WithTimeout ctx (int64_mul (firecrackerRequestTimeout f) Millisecond) in
  let params := NewPutMetricsParamsWithContext (Some timeout) in
  let params := PutMetricsParams_SetBody params metrics in
  let params := apply_opts opts params in
  operations f (Ops_PutMetrics params).

Definition Client_PutMachineConfiguration (f : Client) (ctx : go_context) (cfg : option MachineConfiguration) (opts : list PutMachineConfigurationOpt) :
    GoM E S error :=
  let timeout := WithTimeout ctx (int64_mul (firecrackerRequestTimeout f) Millisecond) in
  let params := NewPutMachineConfigurationParamsWithContext (Some timeout) in
  let params := PutMachineConfigurationParams_SetBody params cfg in
  let params := apply_opts opts params in
  operations f (Ops_PutMachineConfiguration params).

Definition Client_PutGuestBootSource (f : Client) (ctx : go_context) (source : option BootSource) (opts : list PutGuestBootSourceOpt) :
    GoM E S error :=
  let timeout := WithTimeout ctx (int64_mul (firecrackerRequestTimeout f) Millisecond) in
  let params := NewPutGuestBootSourceParamsWithContext (Some timeout) in
  let params := PutGuestBootSourceParams_SetBody params source in
  let params := apply_opts opts params in
  operations f (Ops_PutGuestBootSource params).

Definition Client_PutGuestNetworkInterfaceByID (f : Client) (ctx : go_context) (ifaceID : string) (ifaceCfg : option NetworkInterface) (opts : list PutGuestNetworkInterfaceByIDOpt) :
    GoM E S error :=
  let timeout := WithTimeout ctx (int64_mul (firecrackerRequestTimeout f) Millisecond) in
  let params := NewPutGuestNetworkInterfaceByIDParamsWithContext (Some timeout) in
  let params := PutGuestNetworkInterfaceByIDParams_SetBody params ifaceCfg in
  let params := PutGuestNetworkInterfaceByIDParams_SetIfaceID params ifaceID in
  let params := apply_opts opts params in
  operations f (Ops_PutGuestNetworkInterfaceByID params).

Definition Client_PatchGuestNetworkInterfaceByID (f : Client) (ctx : go_context) (ifaceID : string) (ifaceCfg : option PartialNetworkInterface) (opts : list PatchGuestNetworkInterfaceByIDOpt) :
    GoM E S error :=
  let timeout := WithTimeout ctx (int64_mul (firecrackerRequestTimeout f) Millisecond) in
  let params := NewPatchGuestNetworkInterfaceByIDParamsWithContext (Some timeout) in
  let params := PatchGuestNetworkInterfaceByIDParams_SetBody params ifaceCfg in
  let params := PatchGuestNetworkInterfaceByIDParams_SetIfaceID params ifaceID in
  let params := apply_opts opts params in
  operations f (Ops_PatchGuestNetworkInterfaceByID params).

Definition Client_PutGuestDriveByID (f : Client) (ctx : go_context) (driveID : string) (drive : option Drive) (opts : list PutGuestDriveByIDOpt) :
    GoM E S error :=
  let timeout := WithTimeout ctx (int64_mul (int64_div (firecrackerRequestTimeout f) 2) Millisecond) in
  let params := NewPutGuestDriveByIDParamsWithContext (Some timeout) in
  let params := PutGuestDriveByIDParams_SetDriveID params driveID in
  let params := PutGuestDriveByIDParams_SetBody params drive in
  let params := apply_opts opts params in
  operations f (Ops_PutGuestDriveByID params).

Definition Client_PutGuestVsock (f : Client) (ctx : go_context) (vsock : option Vsock) (opts : list PutGuestVsockOpt) :
    GoM E S error :=
  let params := NewPutGuestVsockParams in
  let params := PutGuestVsockParams_SetContext params (Some ctx) in
  let params := PutGuestVsockParams_SetBody params vsock in
  let params := apply_opts opts params in
  operations f (Ops_PutGuestVsock params).

Definition Client_PatchVM (f : Client) (ctx : go_context) (vm : option VM) (opts : list PatchVMOpt) :
    GoM E S error :=
  let timeout := WithTimeout ctx (int64_mul (firecrackerRequestTimeout f) Millisecond) in
  let params := NewPatchVMParamsWithContext (Some timeout) in
  let params := PatchVMParams_SetBody params vm in
  let params := apply_opts opts params in
  operations f (Ops_PatchVM params).

Definition Client_CreateSnapshot (f : Client) (ctx : go_context) (snapshotParams : option SnapshotCreateParams) (opts : list CreateSnapshotOpt) :
    GoM E S error :=
  let params := NewCreateSnapshotParamsWithContext (Some ctx) in
  let params := CreateSnapshotParams_SetBody params snapshotParams in
  let params := apply_opts opts params in
  operations f (Ops_CreateSnapshot params).

Definition Client_LoadSnapshot (f : Client) (ctx : go_context) (snapshotParams : option SnapshotLoadParams) (opts : list LoadSnapshotOpt) :
    GoM E S error :=
  let params := NewLoadSnapshotParamsWithContext (Some ctx) in
  let params := LoadSnapshotParams_SetBody params snapshotParams in
  let params := apply_opts opts params in
  operations f (Ops_LoadSnapshot params).

Definition Client_CreateSyncAction (f : Client) (ctx : go_context) (info : option InstanceActionInfo) (opts : list CreateSyncActionOpt) :
    GoM E S error :=
  let params := NewCreateSyncActionParams in
  let params := CreateSyncActionParams_SetContext params (Some ctx) in
  let params := CreateSyncActionParams_SetInfo params info in
  let params := apply_opts opts params in
  operations f (Ops_CreateSyncAction params).

Definition Client_PutMmds (f : Client) (ctx : go_context) (metadata : MmdsContentsObject) (opts : list PutMmdsOpt) :
    GoM E S error :=
  let params := NewPutMmdsParams in
  let params := PutMmdsParams_SetContext params (Some ctx) in
  let params := PutMmdsParams_SetBody params metadata in
  let params := apply_opts opts params in
  operations f (Ops_PutMmds params).

Definition Client_GetMmds (f : Client) (ctx : go_context) (opts : list GetMmdsOpt) :
    GoM E S (Err + GetMmdsOK) :=
  let params := NewGetMmdsParams in
  let params := GetMmdsParams_SetContext params (Some ctx) in
  let params := apply_opts opts params in
  operations f (Ops_GetMmds params).

Definition Client_PatchMmds (f : Client) (ctx : go_context) (metadata : MmdsContentsObject) (opts : list PatchMmdsOpt) :
    GoM E S error :=
  let params := NewPatchMmdsParams in
  let params := PatchMmdsParams_SetContext params (Some ctx) in
  let params := PatchMmdsParams_SetBody params metadata in
  let params := apply_opts opts params in
  operations f (Ops_PatchMmds params).

Definition Client_PutMmdsConfig (f : Client) (ctx : go_context) (config : option MmdsConfig) :
    GoM E S error :=
  let params := NewPutMmdsConfigParams in
  let params := PutMmdsConfigParams_SetContext params (Some ctx) in
  let params := PutMmdsConfigParams_SetBody params config in
  operations f (Ops_PutMmdsConfig params).

Definition Client_GetMachineConfiguration (f : Client) (opts : list GetMachineConfigurationOpt) :
    GoM E S (Err + GetMachineConfigurationOK) :=
  let params := NewGetMachineConfigurationParams in
  let params := GetMachineConfigurationParams_SetTimeout params (int64_mul (firecrackerRequestTimeout f) Millisecond) in
  let params := apply_opts opts params in
  operations f (Ops_GetMachineConfiguration params).

Definition Client_GetInstanceInfo (f : Client) (ctx : go_context) (opts : list DescribeInstanceOpt) :
    GoM E S (Err + DescribeInstanceOK) :=
  let params := NewDescribeInstanceParams in
  let params := DescribeInstanceParams_SetContext params (Some ctx) in
  let params := apply_opts opts params in
  operations f (Ops_DescribeInstance params).

Definition Client_PatchGuestDriveByID (f : Client) (ctx : go_context) (driveID pathOnHost : string) (opts : list PatchGuestDriveByIDOpt) :
    GoM E S error :=
  let params := NewPatchGuestDriveByIDParams in
  let params := PatchGuestDriveByIDParams_SetContext params (Some ctx) in
  let partialDrive := mkPartialDrive (Some driveID) pathOnHost None in
  let params := PatchGuestDriveByIDParams_SetBody params (Some partialDrive) in
  let params := PatchGuestDriveByIDParams_SetDriveID params driveID in
  let params := apply_opts opts params in
  operations f (Ops_PatchGuestDriveByID params).

Definition Client_PutBalloon (f : Client) (ctx : go_context) (balloon : option Balloon) (opts : list PutBalloonOpt) :
    GoM E S error :=
  let timeout := WithTimeout ctx (int64_mul (firecrackerRequestTimeout f) Millisecond) in
  let params := NewPutBalloonParamsWithContext (Some timeout) in
  let params := PutBalloonParams_SetBody params balloon in
  let params := apply_opts opts params in
  operations f (Ops_PutBalloon params).

Definition Client_DescribeBalloonConfig (f : Client) (ctx : go_context) :
    GoM E S (Err + DescribeBalloonConfigOK) :=
  let params := NewDescribeBalloonConfigParams in
  let params := DescribeBalloonConfigParams_SetContext params (Some ctx) in
  let params := DescribeBalloonConfigParams_SetTimeout params (int64_mul (firecrackerRequestTimeout f) Millisecond) in
  operations f (Ops_DescribeBalloonConfig params).

Definition Client_PatchBalloon (f : Client) (ctx : go_context) (ballonUpdate : option BalloonUpdate) (opts : list PatchBalloonOpt) :
    GoM E S error :=
  let timeout := WithTimeout ctx (int64_mul (firecrackerRequestTimeout f) Millisecond) in
  let params := NewPatchBalloonParamsWithContext (Some timeout) in
  let params := PatchBalloonParams_SetBody params ballonUpdate in
  let params := apply_opts opts params in
  operations f (Ops_PatchBalloon params).

Definition Client_DescribeBalloonStats (f : Client) (ctx : go_context) :
    GoM E S (Err + DescribeBalloonStatsOK) :=
  let params := NewDescribeBalloonStatsParams in
  let params := DescribeBalloonStatsParams_SetContext params (Some ctx) in
  let params := DescribeBalloonStatsParams_SetTimeout params (int64_mul (firecrackerRequestTimeout f) Millisecond) in
  operations f (Ops_DescribeBalloonStats params).

Definition Client_PatchBalloonStatsInterval (f : Client) (ctx : go_context) (balloonStatsUpdate : option BalloonStatsUpdate) (opts : list PatchBalloonStatsIntervalOpt) :
    GoM E S error :=
  let timeout := WithTimeout ctx (int64_mul (firecrackerRequestTimeout f) Millisecond) in
  let params := NewPatchBalloonStatsIntervalParamsWithContext (Some timeout) in
  let params := PatchBalloonStatsIntervalParams_SetBody params balloonStatsUpdate in
  let params := apply_opts opts params in
  operations f (Ops_PatchBalloonStatsInterval params).

Definition Client_GetExportVMConfig (f : Client) (opts : list GetExportVMConfigOpt) :
    GoM E S (Err + GetExportVMConfigOK) :=
  let params := NewGetExportVMConfigParams in
  let params := GetExportVMConfigParams_SetTimeout params (int64_mul (firecrackerRequestTimeout f) Millisecond) in
  let params := apply_opts opts params in
  operations f (Ops_GetExportVMConfig params).

(** [waitForAliveVMM]: poll until the API answers or the context is done. *)
Fixpoint waitForAliveVMM `{HasPoll E} (fuel : nat) (ctx : go_context) (client : Client) : GoM E S error :=
  match fuel with
  | O => go_pending
  | Datatypes.S fuel =>
      p <- call (poll_select ctx) ;
      match p with
      | CtxDone e => go_ret (Some e)
      | Tick =>
          resp <- Client_GetMachineConfiguration client [] ;
          match resp with
          | inr _ => go_ret None
          | inl _ => waitForAliveVMM fuel ctx client
          end
      end
  end.
End client.

(** ** Properties *)
Section theorems.
Context {E : Type → Type} {S : Type} `{HasOps E} `{DefaultTimeout} `{HasEnv E} `{HasPoll E}.

Definition milliseconds (t : Z) : Z := t * 1000000.

Lemma milliseconds_mul t : 0 < t → milliseconds t < 2^63 → int64_mul t Millisecond = milliseconds t.
Proof.
  intros. unfold int64_mul. apply wrap64_id. unfold int64_range, Millisecond, milliseconds in *. lia.
Qed.

Lemma milliseconds_half t :
  0 < t → milliseconds t < 2^63 →
  int64_mul (int64_div t 2) Millisecond = milliseconds (t / 2).
Proof.
  unfold milliseconds. intros. unfold int64_mul, int64_div. rewrite Z.quot_div_nonneg by lia.
  assert (0 <= t / 2 <= t) by (split; [apply Z.div_pos | apply Z.div_le_upper_bound]; lia).
  rewrite (wrap64_id (t / 2)) by (unfold int64_range; lia).
  apply wrap64_id. unfold int64_range, Millisecond. lia.
Qed.

(** [NewClient] reads its two timeouts from the environment and nothing else:
    a decimal 64-bit number other than zero is used (a negative one too), any
    other value gives the defaults of 500 milliseconds and 3 seconds. *)
Theorem NewClient_timeouts (socketPath : string) (o : Oracle E) (s : S) h :
  ∃ request init,
    NewClient socketPath [] o s h =
      (Val (mkClient (GeneratedClient socketPath)
              (int_or_default request 500) (int_or_default init 3)), s,
       h ++ [Event (os_Getenv firecrackerRequestTimeoutEnv) request;
             Event (os_Getenv firecrackerInitTimeoutEnv) init]) ∧
    (int_or_default request 500 ≠ 0 ∧ int_or_default init 3 ≠ 0) ∧
    int64_range (int_or_default request 500).
Proof.
  assert (∀ v def, def ≠ 0 → int_or_default v def ≠ 0) as Hnz.
  { intros v def Hdef. unfold int_or_default. repeat case_match; lia. }
  do 2 eexists. split.
  { unfold NewClient, envValueOrDefaultInt, go_bind, call, go_ret. rewrite <- app_assoc. reflexivity. }
  split; [split; by apply Hnz|].
  unfold int_or_default. destruct (strconv_Atoi _) as [z|] eqn:Hz; [|done].
  case_match; [done|]. by eapply strconv_Atoi_range.
Qed.

(** C34. [waitForAliveVMM] returns no error only right after the API answered, and
    an error only when its context is done; if it is still polling, every poll so
    far was a tick whose request failed. *)
Theorem waitForAliveVMM_result (fuel : nat) (ctx : go_context) (client : Client) (o : Oracle E) (s : S) h :
  ∃ params,
  wp (waitForAliveVMM fuel ctx client)
    (λ r s' h', s' = s ∧
      ∃ failures : list Err,
        let polls := failures ≫= λ e,
          [Event (poll_select ctx) Tick;
           Event (ops_call (Client_Operations client) (Ops_GetMachineConfiguration params)) (inl e)] in
        match r with
        | Val None => ∃ cfg, h' = h ++ polls ++
            [Event (poll_select ctx) Tick;
             Event (ops_call (Client_Operations client) (Ops_GetMachineConfiguration params)) (inr cfg)]
        | Val (Some e) => h' = h ++ polls ++ [Event (poll_select ctx) (CtxDone e)]
        | Pending => h' = h ++ polls ∧ length failures = fuel
        | Panic _ => False
        end) o s h.
Proof.
  eexists (GetMachineConfigurationParams_SetTimeout NewGetMachineConfigurationParams _).
  revert h. induction fuel as [|fuel IH]; intros h; cbn [waitForAliveVMM].
  { unfold wp, go_pending. split; [done|]. exists []. simpl. by rewrite app_nil_r. }
  apply wp_bind, wp_call. destruct (o h _ _) as [e|] eqn:Hp.
  { apply wp_ret. split; [done|]. by exists []. }
  apply wp_bind. unfold Client_GetMachineConfiguration. cbn [apply_opts foldl].
  apply wp_call. destruct (o _ _ (ops_call _ _)) as [e|cfg] eqn:Hc.
  2:{ apply wp_ret. split; [done|]. exists []. exists cfg. simpl. by rewrite <- app_assoc. }
  eapply wp_mono; [apply IH|]. intros r s' h' [-> [failures Hr]]. split; [done|].
  exists (e :: failures).
  cbv zeta in *. destruct r as [[e'|]| |].
  - by rewrite snoc2_app in Hr.
  - destruct Hr as [cfg Hr]. exists cfg. by rewrite snoc2_app in Hr.
  - done.
  - destruct Hr as [-> ?]. rewrite snoc2_app. split; [done | simpl; lia].
Qed.
End theorems.
