(* ===== verification/ApiOperations.v ===== *)
(** * The generated operations client (src/client/operations)

    Writing the parameters of every operation to a request, reading every
    response, and the client methods that submit them.  The request, the
    transport and the consumer that decodes bodies are the interfaces of
    go-openapi/runtime: classes here.  [Submit] hands the response of the server
    to the reader of the operation and returns what it read; the transport's
    answer is therefore its own error or the response handed to the reader. *)

From stdpp Require Import strings list.
From Stdlib Require Import Ascii ZArith Lia.
From S2P Require Import Prelude GoStrings Models Json ModelsJson ApiParams Client.

Open Scope string_scope.
Open Scope list_scope.
Open Scope Z_scope.

(** ** go-openapi/runtime *)

(** A body parameter, as the [interface{}] the request is given. *)
Inductive AnyBody :=
  | Body_SnapshotCreateParams (body : SnapshotCreateParams)
  | Body_InstanceActionInfo (body : InstanceActionInfo)
  | Body_SnapshotLoadParams (body : SnapshotLoadParams)
  | Body_BalloonUpdate (body : BalloonUpdate)
  | Body_BalloonStatsUpdate (body : BalloonStatsUpdate)
  | Body_PartialDrive (body : PartialDrive)
  | Body_PartialNetworkInterface (body : PartialNetworkInterface)
  | Body_MachineConfiguration (body : MachineConfiguration)
  | Body_MmdsContentsObject (body : json)
  | Body_VM (body : VM)
  | Body_Balloon (body : Balloon)
  | Body_CPUConfig (body : CPUConfig)
  | Body_EntropyDevice (body : EntropyDevice)
  | Body_BootSource (body : BootSource)
  | Body_Drive (body : Drive)
  | Body_NetworkInterface (body : NetworkInterface)
  | Body_Vsock (body : Vsock)
  | Body_Logger (body : Logger)
  | Body_Metrics (body : Metrics)
  | Body_MmdsConfig (body : MmdsConfig).

(** [runtime.ClientRequest] *)
Class ClientRequest := {
  Request : Type;
  Request_SetTimeout : Request → Z → error * Request;
  Request_SetBodyParam : Request → AnyBody → error * Request;
  Request_SetPathParam : Request → string → string → error * Request
}.

(** [runtime.Consumer]: decode a response body into a value; the value is what the
    target holds afterwards, also when an error is returned. *)
Class Consumer := {
  ResponseBody : Type;
  Consume : ∀ {T} `{JsonCodec T}, ResponseBody → T → error * T
}.

(** [runtime.ClientResponse] *)
Record Response `{Consumer} := mkResponse { Response_Code : Z; Response_Body : ResponseBody }.

(** [runtime.ClientOperation], its parameters as the writer they are; the reader
    is applied by the client methods. *)
Record ClientOperation `{ClientRequest} := mkClientOperation {
  ID : string;
  Method : string;
  PathPattern : string;
  ProducesMediaTypes : list string;
  ConsumesMediaTypes : list string;
  Schemes : list string;
  Params : Request → error * Request;
  Operation_Context : option go_context;
  Operation_Client : option HTTPClient
}.

Arguments mkClientOperation {_} _ _ _ _ _ _ _ _ _.
Arguments ID {_} _.
Arguments Method {_} _.
Arguments PathPattern {_} _.
Arguments Params {_} _.
Arguments Operation_Context {_} _.
Arguments mkResponse {_} _ _.
Arguments Response_Code {_} _.
Arguments Response_Body {_} _.

(** [runtime.ClientTransport] *)
Inductive Transport `{ClientRequest} `{Consumer} : Type → Type :=
  | Submit (op : ClientOperation) : Transport (Err + Response).

Definition io_EOF : Err := Ext OtherExt "EOF".

Section operations.
Context `{ClientRequest} `{Consumer} `{DefaultTimeout} {S : Type}.

(** [if err := m; err != nil { return err }] on a request. *)
Definition try_request (m : error * Request) (k : Request → error * Request) : error * Request :=
  match m with
  | (Some err, r) => (Some err, r)
  | (None, r) => k r
  end.

(** [if err := consumer.Consume(...); err != nil && err != io.EOF { return err }] *)
Definition consume_payload {T} `{JsonCodec T} (response : Response) (zero : T) : Err + T :=
  let '(err, payload) := Consume (Response_Body response) zero in
  match err with
  | Some e => if decide (e = io_EOF) then inr payload else inl e
  | None => inr payload
  end.

(** [if err := result.readResponse(...); err != nil { return nil, err }] *)
Definition try_read {T U} (m : Err + T) (k : T → Err + U) : Err + U :=
  match m with inl e => inl e | inr result => k result end.

(** The status code and message of an error response. *)
Definition fault (payload : option Error) : string :=
  match payload with Some p => Error_FaultMessage p | None => "" end.

(** ** Zero values of the payloads *)
Definition zero_Error : Error := mkError "".
Definition zero_Balloon : Balloon := mkBalloon None None 0.
Definition zero_BalloonStats : BalloonStats := mkBalloonStats None None 0 0 0 0 0 0 0 0 0 None None 0.
Definition zero_InstanceInfo : InstanceInfo := mkInstanceInfo None None None None.
Definition zero_FullVMConfiguration : FullVMConfiguration := mkFullVMConfiguration None None None None None None None None None.
Definition zero_FirecrackerVersion : FirecrackerVersion := mkFirecrackerVersion None.
Definition zero_MachineConfiguration : MachineConfiguration := mkMachineConfiguration "" None None None None.
(** ** CreateSnapshot (src/client/operations/create_snapshot_parameters.go, create_snapshot_responses.go) *)
Definition CreateSnapshotParams_WriteToRequest (o : CreateSnapshotParams) (r : Request) : error * Request :=
  try_request (Request_SetTimeout r (CreateSnapshotParams_timeout o)) (λ r,
  try_request match CreateSnapshotParams_Body o with Some body => Request_SetBodyParam r (Body_SnapshotCreateParams body) | None => (None, r) end (λ r,
  (None, r))).
Inductive CreateSnapshotNoContent := mkCreateSnapshotNoContent.
Definition NewCreateSnapshotNoContent : CreateSnapshotNoContent := mkCreateSnapshotNoContent.
Definition CreateSnapshotNoContent_Error (o : CreateSnapshotNoContent) : Err := ApiError "[PUT /snapshot/create][%d] createSnapshotNoContent " 204 "".
Definition CreateSnapshotNoContent_readResponse (o : CreateSnapshotNoContent) (response : Response) : Err + CreateSnapshotNoContent := inr o.
Record CreateSnapshotBadRequest := mkCreateSnapshotBadRequest { CreateSnapshotBadRequest_Payload : option Error }.
Definition NewCreateSnapshotBadRequest : CreateSnapshotBadRequest := mkCreateSnapshotBadRequest None.
Definition CreateSnapshotBadRequest_Error (o : CreateSnapshotBadRequest) : Err := ApiError "[PUT /snapshot/create][%d] createSnapshotBadRequest  %+v" 400 (fault (CreateSnapshotBadRequest_Payload o)).
Definition CreateSnapshotBadRequest_GetPayload (o : CreateSnapshotBadRequest) : option Error := CreateSnapshotBadRequest_Payload o.
Definition CreateSnapshotBadRequest_readResponse (o : CreateSnapshotBadRequest) (response : Response) : Err + CreateSnapshotBadRequest :=
  try_read (consume_payload response zero_Error) (λ payload, inr (mkCreateSnapshotBadRequest (Some payload))).
Record CreateSnapshotDefault := mkCreateSnapshotDefault { CreateSnapshotDefault_statusCode : Z; CreateSnapshotDefault_Payload : option Error }.
Definition NewCreateSnapshotDefault (code : Z) : CreateSnapshotDefault := mkCreateSnapshotDefault code None.
Definition CreateSnapshotDefault_Code (o : CreateSnapshotDefault) : Z := CreateSnapshotDefault_statusCode o.
Definition CreateSnapshotDefault_Error (o : CreateSnapshotDefault) : Err := ApiError "[PUT /snapshot/create][%d] createSnapshot default  %+v" (CreateSnapshotDefault_statusCode o) (fault (CreateSnapshotDefault_Payload o)).
Definition CreateSnapshotDefault_GetPayload (o : CreateSnapshotDefault) : option Error := CreateSnapshotDefault_Payload o.
Definition CreateSnapshotDefault_readResponse (o : CreateSnapshotDefault) (response : Response) : Err + CreateSnapshotDefault :=
  try_read (consume_payload response zero_Error) (λ payload, inr (mkCreateSnapshotDefault (CreateSnapshotDefault_statusCode o) (Some payload))).
Definition CreateSnapshotReader_ReadResponse (response : Response) : Err + (CreateSnapshotNoContent + CreateSnapshotDefault) :=
  let code := Response_Code response in
  if code =? 204 then
    try_read (CreateSnapshotNoContent_readResponse NewCreateSnapshotNoContent response) (λ result, inr (inl result))
  else if code =? 400 then
    try_read (CreateSnapshotBadRequest_readResponse NewCreateSnapshotBadRequest response) (λ result, inl (CreateSnapshotBadRequest_Error result))
  else
    try_read (CreateSnapshotDefault_readResponse (NewCreateSnapshotDefault code) response) (λ result,
      if Z.quot code 100 =? 2 then inr (inr result) else inl (CreateSnapshotDefault_Error result)).
Definition OpsClient_CreateSnapshot (params : option CreateSnapshotParams) : GoM Transport S error :=
  let params := match params with Some params => params | None => NewCreateSnapshotParams end in
  answer <- call (Submit (mkClientOperation "createSnapshot" "PUT" "/snapshot/create" ["application/json"] ["application/json"] ["http"]
    (CreateSnapshotParams_WriteToRequest params) (CreateSnapshotParams_Context params) (CreateSnapshotParams_HTTPClient params))) ;
  match try_read answer CreateSnapshotReader_ReadResponse with
  | inl err => go_ret (Some err)
  | inr (inl _) => go_ret None
  | inr (inr _) => go_panic "interface conversion"
  end.

(** ** CreateSyncAction (src/client/operations/create_sync_action_parameters.go, create_sync_action_responses.go) *)
Definition CreateSyncActionParams_WriteToRequest (o : CreateSyncActionParams) (r : Request) : error * Request :=
  try_request (Request_SetTimeout r (CreateSyncActionParams_timeout o)) (λ r,
  try_request match CreateSyncActionParams_Info o with Some body => Request_SetBodyParam r (Body_InstanceActionInfo body) | None => (None, r) end (λ r,
  (None, r))).
Inductive CreateSyncActionNoContent := mkCreateSyncActionNoContent.
Definition NewCreateSyncActionNoContent : CreateSyncActionNoContent := mkCreateSyncActionNoContent.
Definition CreateSyncActionNoContent_Error (o : CreateSyncActionNoContent) : Err := ApiError "[PUT /actions][%d] createSyncActionNoContent " 204 "".
Definition CreateSyncActionNoContent_readResponse (o : CreateSyncActionNoContent) (response : Response) : Err + CreateSyncActionNoContent := inr o.
Record CreateSyncActionBadRequest := mkCreateSyncActionBadRequest { CreateSyncActionBadRequest_Payload : option Error }.
Definition NewCreateSyncActionBadRequest : CreateSyncActionBadRequest := mkCreateSyncActionBadRequest None.
Definition CreateSyncActionBadRequest_Error (o : CreateSyncActionBadRequest) : Err := ApiError "[PUT /actions][%d] createSyncActionBadRequest  %+v" 400 (fault (CreateSyncActionBadRequest_Payload o)).
Definition CreateSyncActionBadRequest_GetPayload (o : CreateSyncActionBadRequest) : option Error := CreateSyncActionBadRequest_Payload o.
Definition CreateSyncActionBadRequest_readResponse (o : CreateSyncActionBadRequest) (response : Response) : Err + CreateSyncActionBadRequest :=
  try_read (consume_payload response zero_Error) (λ payload, inr (mkCreateSyncActionBadRequest (Some payload))).
Record CreateSyncActionDefault := mkCreateSyncActionDefault { CreateSyncActionDefault_statusCode : Z; CreateSyncActionDefault_Payload : option Error }.
Definition NewCreateSyncActionDefault (code : Z) : CreateSyncActionDefault := mkCreateSyncActionDefault code None.
Definition CreateSyncActionDefault_Code (o : CreateSyncActionDefault) : Z := CreateSyncActionDefault_statusCode o.
Definition CreateSyncActionDefault_Error (o : CreateSyncActionDefault) : Err := ApiError "[PUT /actions][%d] createSyncAction default  %+v" (CreateSyncActionDefault_statusCode o) (fault (CreateSyncActionDefault_Payload o)).
Definition CreateSyncActionDefault_GetPayload (o : CreateSyncActionDefault) : option Error := CreateSyncActionDefault_Payload o.
Definition CreateSyncActionDefault_readResponse (o : CreateSyncActionDefault) (response : Response) : Err + CreateSyncActionDefault :=
  try_read (consume_payload response zero_Error) (λ payload, inr (mkCreateSyncActionDefault (CreateSyncActionDefault_statusCode o) (Some payload))).
Definition CreateSyncActionReader_ReadResponse (response : Response) : Err + (CreateSyncActionNoContent + CreateSyncActionDefault) :=
  let code := Response_Code response in
  if code =? 204 then
    try_read (CreateSyncActionNoContent_readResponse NewCreateSyncActionNoContent response) (λ result, inr (inl result))
  else if code =? 400 then
    try_read (CreateSyncActionBadRequest_readResponse NewCreateSyncActionBadRequest response) (λ result, inl (CreateSyncActionBadRequest_Error result))
  else
    try_read (CreateSyncActionDefault_readResponse (NewCreateSyncActionDefault code) response) (λ result,
      if Z.quot code 100 =? 2 then inr (inr result) else inl (CreateSyncActionDefault_Error result)).
Definition OpsClient_CreateSyncAction (params : option CreateSyncActionParams) : GoM Transport S error :=
  let params := match params with Some params => params | None => NewCreateSyncActionParams end in
  answer <- call (Submit (mkClientOperation "createSyncAction" "PUT" "/actions" ["application/json"] ["application/json"] ["http"]
    (CreateSyncActionParams_WriteToRequest params) (CreateSyncActionParams_Context params) (CreateSyncActionParams_HTTPClient params))) ;
  match try_read answer CreateSyncActionReader_ReadResponse with
  | inl err => go_ret (Some err)
  | inr (inl _) => go_ret None
  | inr (inr _) => go_panic "interface conversion"
  end.

(** ** DescribeBalloonConfig (src/client/operations/describe_balloon_config_parameters.go, describe_balloon_config_responses.go) *)
Definition DescribeBalloonConfigParams_WriteToRequest (o : DescribeBalloonConfigParams) (r : Request) : error * Request :=
  try_request (Request_SetTimeout r (DescribeBalloonConfigParams_timeout o)) (λ r,
  (None, r)).
Definition NewDescribeBalloonConfigOK : DescribeBalloonConfigOK := mkDescribeBalloonConfigOK None.
Definition DescribeBalloonConfigOK_readResponse (o : DescribeBalloonConfigOK) (response : Response) : Err + DescribeBalloonConfigOK :=
  try_read (consume_payload response zero_Balloon) (λ payload, inr (mkDescribeBalloonConfigOK (Some payload))).
Definition DescribeBalloonConfigOK_GetPayload (o : DescribeBalloonConfigOK) := DescribeBalloonConfigOK_Payload o.
Record DescribeBalloonConfigBadRequest := mkDescribeBalloonConfigBadRequest { DescribeBalloonConfigBadRequest_Payload : option Error }.
Definition NewDescribeBalloonConfigBadRequest : DescribeBalloonConfigBadRequest := mkDescribeBalloonConfigBadRequest None.
Definition DescribeBalloonConfigBadRequest_Error (o : DescribeBalloonConfigBadRequest) : Err := ApiError "[GET /balloon][%d] describeBalloonConfigBadRequest  %+v" 400 (fault (DescribeBalloonConfigBadRequest_Payload o)).
Definition DescribeBalloonConfigBadRequest_GetPayload (o : DescribeBalloonConfigBadRequest) : option Error := DescribeBalloonConfigBadRequest_Payload o.
Definition DescribeBalloonConfigBadRequest_readResponse (o : DescribeBalloonConfigBadRequest) (response : Response) : Err + DescribeBalloonConfigBadRequest :=
  try_read (consume_payload response zero_Error) (λ payload, inr (mkDescribeBalloonConfigBadRequest (Some payload))).
Record DescribeBalloonConfigDefault := mkDescribeBalloonConfigDefault { DescribeBalloonConfigDefault_statusCode : Z; DescribeBalloonConfigDefault_Payload : option Error }.
Definition NewDescribeBalloonConfigDefault (code : Z) : DescribeBalloonConfigDefault := mkDescribeBalloonConfigDefault code None.
Definition DescribeBalloonConfigDefault_Code (o : DescribeBalloonConfigDefault) : Z := DescribeBalloonConfigDefault_statusCode o.
Definition DescribeBalloonConfigDefault_Error (o : DescribeBalloonConfigDefault) : Err := ApiError "[GET /balloon][%d] describeBalloonConfig default  %+v" (DescribeBalloonConfigDefault_statusCode o) (fault (DescribeBalloonConfigDefault_Payload o)).
Definition DescribeBalloonConfigDefault_GetPayload (o : DescribeBalloonConfigDefault) : option Error := DescribeBalloonConfigDefault_Payload o.
Definition DescribeBalloonConfigDefault_readResponse (o : DescribeBalloonConfigDefault) (response : Response) : Err + DescribeBalloonConfigDefault :=
  try_read (consume_payload response zero_Error) (λ payload, inr (mkDescribeBalloonConfigDefault (DescribeBalloonConfigDefault_statusCode o) (Some payload))).
Definition DescribeBalloonConfigReader_ReadResponse (response : Response) : Err + (DescribeBalloonConfigOK + DescribeBalloonConfigDefault) :=
  let code := Response_Code response in
  if code =? 200 then
    try_read (DescribeBalloonConfigOK_readResponse NewDescribeBalloonConfigOK response) (λ result, inr (inl result))
  else if code =? 400 then
    try_read (DescribeBalloonConfigBadRequest_readResponse NewDescribeBalloonConfigBadRequest response) (λ result, inl (DescribeBalloonConfigBadRequest_Error result))
  else
    try_read (DescribeBalloonConfigDefault_readResponse (NewDescribeBalloonConfigDefault code) response) (λ result,
      if Z.quot code 100 =? 2 then inr (inr result) else inl (DescribeBalloonConfigDefault_Error result)).
Definition OpsClient_DescribeBalloonConfig (params : option DescribeBalloonConfigParams) : GoM Transport S (Err + DescribeBalloonConfigOK) :=
  let params := match params with Some params => params | None => NewDescribeBalloonConfigParams end in
  answer <- call (Submit (mkClientOperation "describeBalloonConfig" "GET" "/balloon" ["application/json"] ["application/json"] ["http"]
    (DescribeBalloonConfigParams_WriteToRequest params) (DescribeBalloonConfigParams_Context params) (DescribeBalloonConfigParams_HTTPClient params))) ;
  match try_read answer DescribeBalloonConfigReader_ReadResponse with
  | inl err => go_ret (inl err)
  | inr (inl result) => go_ret (inr result)
  | inr (inr _) => go_panic "interface conversion"
  end.

(** ** DescribeBalloonStats (src/client/operations/describe_balloon_stats_parameters.go, describe_balloon_stats_responses.go) *)
Definition DescribeBalloonStatsParams_WriteToRequest (o : DescribeBalloonStatsParams) (r : Request) : error * Request :=
  try_request (Request_SetTimeout r (DescribeBalloonStatsParams_timeout o)) (λ r,
  (None, r)).
Definition NewDescribeBalloonStatsOK : DescribeBalloonStatsOK := mkDescribeBalloonStatsOK None.
Definition DescribeBalloonStatsOK_readResponse (o : DescribeBalloonStatsOK) (response : Response) : Err + DescribeBalloonStatsOK :=
  try_read (consume_payload response zero_BalloonStats) (λ payload, inr (mkDescribeBalloonStatsOK (Some payload))).
Definition DescribeBalloonStatsOK_GetPayload (o : DescribeBalloonStatsOK) := DescribeBalloonStatsOK_Payload o.
Record DescribeBalloonStatsBadRequest := mkDescribeBalloonStatsBadRequest { DescribeBalloonStatsBadRequest_Payload : option Error }.
Definition NewDescribeBalloonStatsBadRequest : DescribeBalloonStatsBadRequest := mkDescribeBalloonStatsBadRequest None.
Definition DescribeBalloonStatsBadRequest_Error (o : DescribeBalloonStatsBadRequest) : Err := ApiError "[GET /balloon/statistics][%d] describeBalloonStatsBadRequest  %+v" 400 (fault (DescribeBalloonStatsBadRequest_Payload o)).
Definition DescribeBalloonStatsBadRequest_GetPayload (o : DescribeBalloonStatsBadRequest) : option Error := DescribeBalloonStatsBadRequest_Payload o.
Definition DescribeBalloonStatsBadRequest_readResponse (o : DescribeBalloonStatsBadRequest) (response : Response) : Err + DescribeBalloonStatsBadRequest :=
  try_read (consume_payload response zero_Error) (λ payload, inr (mkDescribeBalloonStatsBadRequest (Some payload))).
Record DescribeBalloonStatsDefault := mkDescribeBalloonStatsDefault { DescribeBalloonStatsDefault_statusCode : Z; DescribeBalloonStatsDefault_Payload : option Error }.
Definition NewDescribeBalloonStatsDefault (code : Z) : DescribeBalloonStatsDefault := mkDescribeBalloonStatsDefault code None.
Definition DescribeBalloonStatsDefault_Code (o : DescribeBalloonStatsDefault) : Z := DescribeBalloonStatsDefault_statusCode o.
Definition DescribeBalloonStatsDefault_Error (o : DescribeBalloonStatsDefault) : Err := ApiError "[GET /balloon/statistics][%d] describeBalloonStats default  %+v" (DescribeBalloonStatsDefault_statusCode o) (fault (DescribeBalloonStatsDefault_Payload o)).
Definition DescribeBalloonStatsDefault_GetPayload (o : DescribeBalloonStatsDefault) : option Error := DescribeBalloonStatsDefault_Payload o.
Definition DescribeBalloonStatsDefault_readResponse (o : DescribeBalloonStatsDefault) (response : Response) : Err + DescribeBalloonStatsDefault :=
  try_read (consume_payload response zero_Error) (λ payload, inr (mkDescribeBalloonStatsDefault (DescribeBalloonStatsDefault_statusCode o) (Some payload))).
Definition DescribeBalloonStatsReader_ReadResponse (response : Response) : Err + (DescribeBalloonStatsOK + DescribeBalloonStatsDefault) :=
  let code := Response_Code response in
  if code =? 200 then
    try_read (DescribeBalloonStatsOK_readResponse NewDescribeBalloonStatsOK response) (λ result, inr (inl result))
  else if code =? 400 then
    try_read (DescribeBalloonStatsBadRequest_readResponse NewDescribeBalloonStatsBadRequest response) (λ result, inl (DescribeBalloonStatsBadRequest_Error result))
  else
    try_read (DescribeBalloonStatsDefault_readResponse (NewDescribeBalloonStatsDefault code) response) (λ result,
      if Z.quot code 100 =? 2 then inr (inr result) else inl (DescribeBalloonStatsDefault_Error result)).
Definition OpsClient_DescribeBalloonStats (params : option DescribeBalloonStatsParams) : GoM Transport S (Err + DescribeBalloonStatsOK) :=
  let params := match params with Some params => params | None => NewDescribeBalloonStatsParams end in
  answer <- call (Submit (mkClientOperation "describeBalloonStats" "GET" "/balloon/statistics" ["application/json"] ["application/json"] ["http"]
    (DescribeBalloonStatsParams_WriteToRequest params) (DescribeBalloonStatsParams_Context params) (DescribeBalloonStatsParams_HTTPClient params))) ;
  match try_read answer DescribeBalloonStatsReader_ReadResponse with
  | inl err => go_ret (inl err)
  | inr (inl result) => go_ret (inr result)
  | inr (inr _) => go_panic "interface conversion"
  end.

(** ** DescribeInstance (src/client/operations/describe_instance_parameters.go, describe_instance_responses.go) *)
Definition DescribeInstanceParams_WriteToRequest (o : DescribeInstanceParams) (r : Request) : error * Request :=
  try_request (Request_SetTimeout r (DescribeInstanceParams_timeout o)) (λ r,
  (None, r)).
Definition NewDescribeInstanceOK : DescribeInstanceOK := mkDescribeInstanceOK None.
Definition DescribeInstanceOK_readResponse (o : DescribeInstanceOK) (response : Response) : Err + DescribeInstanceOK :=
  try_read (consume_payload response zero_InstanceInfo) (λ payload, inr (mkDescribeInstanceOK (Some payload))).
Definition DescribeInstanceOK_GetPayload (o : DescribeInstanceOK) := DescribeInstanceOK_Payload o.
Record DescribeInstanceDefault := mkDescribeInstanceDefault { DescribeInstanceDefault_statusCode : Z; DescribeInstanceDefault_Payload : option Error }.
Definition NewDescribeInstanceDefault (code : Z) : DescribeInstanceDefault := mkDescribeInstanceDefault code None.
Definition DescribeInstanceDefault_Code (o : DescribeInstanceDefault) : Z := DescribeInstanceDefault_statusCode o.
Definition DescribeInstanceDefault_Error (o : DescribeInstanceDefault) : Err := ApiError "[GET /][%d] describeInstance default  %+v" (DescribeInstanceDefault_statusCode o) (fault (DescribeInstanceDefault_Payload o)).
Definition DescribeInstanceDefault_GetPayload (o : DescribeInstanceDefault) : option Error := DescribeInstanceDefault_Payload o.
Definition DescribeInstanceDefault_readResponse (o : DescribeInstanceDefault) (response : Response) : Err + DescribeInstanceDefault :=
  try_read (consume_payload response zero_Error) (λ payload, inr (mkDescribeInstanceDefault (DescribeInstanceDefault_statusCode o) (Some payload))).
Definition DescribeInstanceReader_ReadResponse (response : Response) : Err + (DescribeInstanceOK + DescribeInstanceDefault) :=
  let code := Response_Code response in
  if code =? 200 then
    try_read (DescribeInstanceOK_readResponse NewDescribeInstanceOK response) (λ result, inr (inl result))
  else
    try_read (DescribeInstanceDefault_readResponse (NewDescribeInstanceDefault code) response) (λ result,
      if Z.quot code 100 =? 2 then inr (inr result) else inl (DescribeInstanceDefault_Error result)).
Definition OpsClient_DescribeInstance (params : option DescribeInstanceParams) : GoM Transport S (Err + DescribeInstanceOK) :=
  let params := match params with Some params => params | None => NewDescribeInstanceParams end in
  answer <- call (Submit (mkClientOperation "describeInstance" "GET" "/" ["application/json"] ["application/json"] ["http"]
    (DescribeInstanceParams_WriteToRequest params) (DescribeInstanceParams_Context params) (DescribeInstanceParams_HTTPClient params))) ;
  match try_read answer DescribeInstanceReader_ReadResponse with
  | inl err => go_ret (inl err)
  | inr (inl result) => go_ret (inr result)
  | inr (inr _) => go_panic "interface conversion"
  end.

(** ** GetExportVMConfig (src/client/operations/get_export_vm_config_parameters.go, get_export_vm_config_responses.go) *)
Definition GetExportVMConfigParams_WriteToRequest (o : GetExportVMConfigParams) (r : Request) : error * Request :=
  try_request (Request_SetTimeout r (GetExportVMConfigParams_timeout o)) (λ r,
  (None, r)).
Definition NewGetExportVMConfigOK : GetExportVMConfigOK := mkGetExportVMConfigOK None.
Definition GetExportVMConfigOK_readResponse (o : GetExportVMConfigOK) (response : Response) : Err + GetExportVMConfigOK :=
  try_read (consume_payload response zero_FullVMConfiguration) (λ payload, inr (mkGetExportVMConfigOK (Some payload))).
Definition GetExportVMConfigOK_GetPayload (o : GetExportVMConfigOK) := GetExportVMConfigOK_Payload o.
Record GetExportVMConfigDefault := mkGetExportVMConfigDefault { GetExportVMConfigDefault_statusCode : Z; GetExportVMConfigDefault_Payload : option Error }.
Definition NewGetExportVMConfigDefault (code : Z) : GetExportVMConfigDefault := mkGetExportVMConfigDefault code None.
Definition GetExportVMConfigDefault_Code (o : GetExportVMConfigDefault) : Z := GetExportVMConfigDefault_statusCode o.
Definition GetExportVMConfigDefault_Error (o : GetExportVMConfigDefault) : Err := ApiError "[GET /vm/config][%d] getExportVmConfig default  %+v" (GetExportVMConfigDefault_statusCode o) (fault (GetExportVMConfigDefault_Payload o)).
Definition GetExportVMConfigDefault_GetPayload (o : GetExportVMConfigDefault) : option Error := GetExportVMConfigDefault_Payload o.
Definition GetExportVMConfigDefault_readResponse (o : GetExportVMConfigDefault) (response : Response) : Err + GetExportVMConfigDefault :=
  try_read (consume_payload response zero_Error) (λ payload, inr (mkGetExportVMConfigDefault (GetExportVMConfigDefault_statusCode o) (Some payload))).
Definition GetExportVMConfigReader_ReadResponse (response : Response) : Err + (GetExportVMConfigOK + GetExportVMConfigDefault) :=
  let code := Response_Code response in
  if code =? 200 then
    try_read (GetExportVMConfigOK_readResponse NewGetExportVMConfigOK response) (λ result, inr (inl result))
  else
    try_read (GetExportVMConfigDefault_readResponse (NewGetExportVMConfigDefault code) response) (λ result,
      if Z.quot code 100 =? 2 then inr (inr result) else inl (GetExportVMConfigDefault_Error result)).
Definition OpsClient_GetExportVMConfig (params : option GetExportVMConfigParams) : GoM Transport S (Err + GetExportVMConfigOK) :=
  let params := match params with Some params => params | None => NewGetExportVMConfigParams end in
  answer <- call (Submit (mkClientOperation "getExportVmConfig" "GET" "/vm/config" ["application/json"] ["application/json"] ["http"]
    (GetExportVMConfigParams_WriteToRequest params) (GetExportVMConfigParams_Context params) (GetExportVMConfigParams_HTTPClient params))) ;
  match try_read answer GetExportVMConfigReader_ReadResponse with
  | inl err => go_ret (inl err)
  | inr (inl result) => go_ret (inr result)
  | inr (inr _) => go_panic "interface conversion"
  end.

(** ** GetFirecrackerVersion (src/client/operations/get_firecracker_version_parameters.go, get_firecracker_version_responses.go) *)
Definition GetFirecrackerVersionParams_WriteToRequest (o : GetFirecrackerVersionParams) (r : Request) : error * Request :=
  try_request (Request_SetTimeout r (GetFirecrackerVersionParams_timeout o)) (λ r,
  (None, r)).
Definition NewGetFirecrackerVersionOK : GetFirecrackerVersionOK := mkGetFirecrackerVersionOK None.
Definition GetFirecrackerVersionOK_readResponse (o : GetFirecrackerVersionOK) (response : Response) : Err + GetFirecrackerVersionOK :=
  try_read (consume_payload response zero_FirecrackerVersion) (λ payload, inr (mkGetFirecrackerVersionOK (Some payload))).
Definition GetFirecrackerVersionOK_GetPayload (o : GetFirecrackerVersionOK) := GetFirecrackerVersionOK_Payload o.
Record GetFirecrackerVersionDefault := mkGetFirecrackerVersionDefault { GetFirecrackerVersionDefault_statusCode : Z; GetFirecrackerVersionDefault_Payload : option Error }.
Definition NewGetFirecrackerVersionDefault (code : Z) : GetFirecrackerVersionDefault := mkGetFirecrackerVersionDefault code None.
Definition GetFirecrackerVersionDefault_Code (o : GetFirecrackerVersionDefault) : Z := GetFirecrackerVersionDefault_statusCode o.
Definition GetFirecrackerVersionDefault_Error (o : GetFirecrackerVersionDefault) : Err := ApiError "[GET /version][%d] getFirecrackerVersion default  %+v" (GetFirecrackerVersionDefault_statusCode o) (fault (GetFirecrackerVersionDefault_Payload o)).
Definition GetFirecrackerVersionDefault_GetPayload (o : GetFirecrackerVersionDefault) : option Error := GetFirecrackerVersionDefault_Payload o.
Definition GetFirecrackerVersionDefault_readResponse (o : GetFirecrackerVersionDefault) (response : Response) : Err + GetFirecrackerVersionDefault :=
  try_read (consume_payload response zero_Error) (λ payload, inr (mkGetFirecrackerVersionDefault (GetFirecrackerVersionDefault_statusCode o) (Some payload))).
Definition GetFirecrackerVersionReader_ReadResponse (response : Response) : Err + (GetFirecrackerVersionOK + GetFirecrackerVersionDefault) :=
  let code := Response_Code response in
  if code =? 200 then
    try_read (GetFirecrackerVersionOK_readResponse NewGetFirecrackerVersionOK response) (λ result, inr (inl result))
  else
    try_read (GetFirecrackerVersionDefault_readResponse (NewGetFirecrackerVersionDefault code) response) (λ result,
      if Z.quot code 100 =? 2 then inr (inr result) else inl (GetFirecrackerVersionDefault_Error result)).
Definition OpsClient_GetFirecrackerVersion (params : option GetFirecrackerVersionParams) : GoM Transport S (Err + GetFirecrackerVersionOK) :=
  let params := match params with Some params => params | None => NewGetFirecrackerVersionParams end in
  answer <- call (Submit (mkClientOperation "getFirecrackerVersion" "GET" "/version" ["application/json"] ["application/json"] ["http"]
    (GetFirecrackerVersionParams_WriteToRequest params) (GetFirecrackerVersionParams_Context params) (GetFirecrackerVersionParams_HTTPClient params))) ;
  match try_read answer GetFirecrackerVersionReader_ReadResponse with
  | inl err => go_ret (inl err)
  | inr (inl result) => go_ret (inr result)
  | inr (inr _) => go_panic "interface conversion"
  end.

(** ** GetMachineConfiguration (src/client/operations/get_machine_configuration_parameters.go, get_machine_configuration_responses.go) *)
Definition GetMachineConfigurationParams_WriteToRequest (o : GetMachineConfigurationParams) (r : Request) : error * Request :=
  try_request (Request_SetTimeout r (GetMachineConfigurationParams_timeout o)) (λ r,
  (None, r)).
Definition NewGetMachineConfigurationOK : GetMachineConfigurationOK := mkGetMachineConfigurationOK None.
Definition GetMachineConfigurationOK_readResponse (o : GetMachineConfigurationOK) (response : Response) : Err + GetMachineConfigurationOK :=
  try_read (consume_payload response zero_MachineConfiguration) (λ payload, inr (mkGetMachineConfigurationOK (Some payload))).
Definition GetMachineConfigurationOK_GetPayload (o : GetMachineConfigurationOK) := GetMachineConfigurationOK_Payload o.
Record GetMachineConfigurationDefault := mkGetMachineConfigurationDefault { GetMachineConfigurationDefault_statusCode : Z; GetMachineConfigurationDefault_Payload : option Error }.
Definition NewGetMachineConfigurationDefault (code : Z) : GetMachineConfigurationDefault := mkGetMachineConfigurationDefault code None.
Definition GetMachineConfigurationDefault_Code (o : GetMachineConfigurationDefault) : Z := GetMachineConfigurationDefault_statusCode o.
Definition GetMachineConfigurationDefault_Error (o : GetMachineConfigurationDefault) : Err := ApiError "[GET /machine-config][%d] getMachineConfiguration default  %+v" (GetMachineConfigurationDefault_statusCode o) (fault (GetMachineConfigurationDefault_Payload o)).
Definition GetMachineConfigurationDefault_GetPayload (o : GetMachineConfigurationDefault) : option Error := GetMachineConfigurationDefault_Payload o.
Definition GetMachineConfigurationDefault_readResponse (o : GetMachineConfigurationDefault) (response : Response) : Err + GetMachineConfigurationDefault :=
  try_read (consume_payload response zero_Error) (λ payload, inr (mkGetMachineConfigurationDefault (GetMachineConfigurationDefault_statusCode o) (Some payload))).
Definition GetMachineConfigurationReader_ReadResponse (response : Response) : Err + (GetMachineConfigurationOK + GetMachineConfigurationDefault) :=
  let code := Response_Code response in
  if code =? 200 then
    try_read (GetMachineConfigurationOK_readResponse NewGetMachineConfigurationOK response) (λ result, inr (inl result))
  else
    try_read (GetMachineConfigurationDefault_readResponse (NewGetMachineConfigurationDefault code) response) (λ result,
      if Z.quot code 100 =? 2 then inr (inr result) else inl (GetMachineConfigurationDefault_Error result)).
Definition OpsClient_GetMachineConfiguration (params : option GetMachineConfigurationParams) : GoM Transport S (Err + GetMachineConfigurationOK) :=
  let params := match params with Some params => params | None => NewGetMachineConfigurationParams end in
  answer <- call (Submit (mkClientOperation "getMachineConfiguration" "GET" "/machine-config" ["application/json"] ["application/json"] ["http"]
    (GetMachineConfigurationParams_WriteToRequest params) (GetMachineConfigurationParams_Context params) (GetMachineConfigurationParams_HTTPClient params))) ;
  match try_read answer GetMachineConfigurationReader_ReadResponse with
  | inl err => go_ret (inl err)
  | inr (inl result) => go_ret (inr result)
  | inr (inr _) => go_panic "interface conversion"
  end.

(** ** GetMmds (src/client/operations/get_mmds_parameters.go, get_mmds_responses.go) *)
Definition GetMmdsParams_WriteToRequest (o : GetMmdsParams) (r : Request) : error * Request :=
  try_request (Request_SetTimeout r (GetMmdsParams_timeout o)) (λ r,
  (None, r)).
Definition NewGetMmdsOK : GetMmdsOK := mkGetMmdsOK None.
Definition GetMmdsOK_readResponse (o : GetMmdsOK) (response : Response) : Err + GetMmdsOK :=
  try_read (consume_payload response (GetMmdsOK_Payload o)) (λ payload, inr (mkGetMmdsOK payload)).
Definition GetMmdsOK_GetPayload (o : GetMmdsOK) := GetMmdsOK_Payload o.
Record GetMmdsNotFound := mkGetMmdsNotFound { GetMmdsNotFound_Payload : option Error }.
Definition NewGetMmdsNotFound : GetMmdsNotFound := mkGetMmdsNotFound None.
Definition GetMmdsNotFound_Error (o : GetMmdsNotFound) : Err := ApiError "[GET /mmds][%d] getMmdsNotFound  %+v" 404 (fault (GetMmdsNotFound_Payload o)).
Definition GetMmdsNotFound_GetPayload (o : GetMmdsNotFound) : option Error := GetMmdsNotFound_Payload o.
Definition GetMmdsNotFound_readResponse (o : GetMmdsNotFound) (response : Response) : Err + GetMmdsNotFound :=
  try_read (consume_payload response zero_Error) (λ payload, inr (mkGetMmdsNotFound (Some payload))).
Record GetMmdsDefault := mkGetMmdsDefault { GetMmdsDefault_statusCode : Z; GetMmdsDefault_Payload : option Error }.
Definition NewGetMmdsDefault (code : Z) : GetMmdsDefault := mkGetMmdsDefault code None.
Definition GetMmdsDefault_Code (o : GetMmdsDefault) : Z := GetMmdsDefault_statusCode o.
Definition GetMmdsDefault_Error (o : GetMmdsDefault) : Err := ApiError "[GET /mmds][%d] getMmds default  %+v" (GetMmdsDefault_statusCode o) (fault (GetMmdsDefault_Payload o)).
Definition GetMmdsDefault_GetPayload (o : GetMmdsDefault) : option Error := GetMmdsDefault_Payload o.
Definition GetMmdsDefault_readResponse (o : GetMmdsDefault) (response : Response) : Err + GetMmdsDefault :=
  try_read (consume_payload response zero_Error) (λ payload, inr (mkGetMmdsDefault (GetMmdsDefault_statusCode o) (Some payload))).
Definition GetMmdsReader_ReadResponse (response : Response) : Err + (GetMmdsOK + GetMmdsDefault) :=
  let code := Response_Code response in
  if code =? 200 then
    try_read (GetMmdsOK_readResponse NewGetMmdsOK response) (λ result, inr (inl result))
  else if code =? 404 then
    try_read (GetMmdsNotFound_readResponse NewGetMmdsNotFound response) (λ result, inl (GetMmdsNotFound_Error result))
  else
    try_read (GetMmdsDefault_readResponse (NewGetMmdsDefault code) response) (λ result,
      if Z.quot code 100 =? 2 then inr (inr result) else inl (GetMmdsDefault_Error result)).
Definition OpsClient_GetMmds (params : option GetMmdsParams) : GoM Transport S (Err + GetMmdsOK) :=
  let params := match params with Some params => params | None => NewGetMmdsParams end in
  answer <- call (Submit (mkClientOperation "getMmds" "GET" "/mmds" ["application/json"] ["application/json"] ["http"]
    (GetMmdsParams_WriteToRequest params) (GetMmdsParams_Context params) (GetMmdsParams_HTTPClient params))) ;
  match try_read answer GetMmdsReader_ReadResponse with
  | inl err => go_ret (inl err)
  | inr (inl result) => go_ret (inr result)
  | inr (inr _) => go_panic "interface conversion"
  end.

(** ** LoadSnapshot (src/client/operations/load_snapshot_parameters.go, load_snapshot_responses.go) *)
Definition LoadSnapshotParams_WriteToRequest (o : LoadSnapshotParams) (r : Request) : error * Request :=
  try_request (Request_SetTimeout r (LoadSnapshotParams_timeout o)) (λ r,
  try_request match LoadSnapshotParams_Body o with Some body => Request_SetBodyParam r (Body_SnapshotLoadParams body) | None => (None, r) end (λ r,
  (None, r))).
Inductive LoadSnapshotNoContent := mkLoadSnapshotNoContent.
Definition NewLoadSnapshotNoContent : LoadSnapshotNoContent := mkLoadSnapshotNoContent.
Definition LoadSnapshotNoContent_Error (o : LoadSnapshotNoContent) : Err := ApiError "[PUT /snapshot/load][%d] loadSnapshotNoContent " 204 "".
Definition LoadSnapshotNoContent_readResponse (o : LoadSnapshotNoContent) (response : Response) : Err + LoadSnapshotNoContent := inr o.
Record LoadSnapshotBadRequest := mkLoadSnapshotBadRequest { LoadSnapshotBadRequest_Payload : option Error }.
Definition NewLoadSnapshotBadRequest : LoadSnapshotBadRequest := mkLoadSnapshotBadRequest None.
Definition LoadSnapshotBadRequest_Error (o : LoadSnapshotBadRequest) : Err := ApiError "[PUT /snapshot/load][%d] loadSnapshotBadRequest  %+v" 400 (fault (LoadSnapshotBadRequest_Payload o)).
Definition LoadSnapshotBadRequest_GetPayload (o : LoadSnapshotBadRequest) : option Error := LoadSnapshotBadRequest_Payload o.
Definition LoadSnapshotBadRequest_readResponse (o : LoadSnapshotBadRequest) (response : Response) : Err + LoadSnapshotBadRequest :=
  try_read (consume_payload response zero_Error) (λ payload, inr (mkLoadSnapshotBadRequest (Some payload))).
Record LoadSnapshotDefault := mkLoadSnapshotDefault { LoadSnapshotDefault_statusCode : Z; LoadSnapshotDefault_Payload : option Error }.
Definition NewLoadSnapshotDefault (code : Z) : LoadSnapshotDefault := mkLoadSnapshotDefault code None.
Definition LoadSnapshotDefault_Code (o : LoadSnapshotDefault) : Z := LoadSnapshotDefault_statusCode o.
Definition LoadSnapshotDefault_Error (o : LoadSnapshotDefault) : Err := ApiError "[PUT /snapshot/load][%d] loadSnapshot default  %+v" (LoadSnapshotDefault_statusCode o) (fault (LoadSnapshotDefault_Payload o)).
Definition LoadSnapshotDefault_GetPayload (o : LoadSnapshotDefault) : option Error := LoadSnapshotDefault_Payload o.
Definition LoadSnapshotDefault_readResponse (o : LoadSnapshotDefault) (response : Response) : Err + LoadSnapshotDefault :=
  try_read (consume_payload response zero_Error) (λ payload, inr (mkLoadSnapshotDefault (LoadSnapshotDefault_statusCode o) (Some payload))).
Definition LoadSnapshotReader_ReadResponse (response : Response) : Err + (LoadSnapshotNoContent + LoadSnapshotDefault) :=
  let code := Response_Code response in
  if code =? 204 then
    try_read (LoadSnapshotNoContent_readResponse NewLoadSnapshotNoContent response) (λ result, inr (inl result))
  else if code =? 400 then
    try_read (LoadSnapshotBadRequest_readResponse NewLoadSnapshotBadRequest response) (λ result, inl (LoadSnapshotBadRequest_Error result))
  else
    try_read (LoadSnapshotDefault_readResponse (NewLoadSnapshotDefault code) response) (λ result,
      if Z.quot code 100 =? 2 then inr (inr result) else inl (LoadSnapshotDefault_Error result)).
Definition OpsClient_LoadSnapshot (params : option LoadSnapshotParams) : GoM Transport S error :=
  let params := match params with Some params => params | None => NewLoadSnapshotParams end in
  answer <- call (Submit (mkClientOperation "loadSnapshot" "PUT" "/snapshot/load" ["application/json"] ["application/json"] ["http"]
    (LoadSnapshotParams_WriteToRequest params) (LoadSnapshotParams_Context params) (LoadSnapshotParams_HTTPClient params))) ;
  match try_read answer LoadSnapshotReader_ReadResponse with
  | inl err => go_ret (Some err)
  | inr (inl _) => go_ret None
  | inr (inr _) => go_panic "interface conversion"
  end.

(** ** PatchBalloon (src/client/operations/patch_balloon_parameters.go, patch_balloon_responses.go) *)
Definition PatchBalloonParams_WriteToRequest (o : PatchBalloonParams) (r : Request) : error * Request :=
  try_request (Request_SetTimeout r (PatchBalloonParams_timeout o)) (λ r,
  try_request match PatchBalloonParams_Body o with Some body => Request_SetBodyParam r (Body_BalloonUpdate body) | None => (None, r) end (λ r,
  (None, r))).
Inductive PatchBalloonNoContent := mkPatchBalloonNoContent.
Definition NewPatchBalloonNoContent : PatchBalloonNoContent := mkPatchBalloonNoContent.
Definition PatchBalloonNoContent_Error (o : PatchBalloonNoContent) : Err := ApiError "[PATCH /balloon][%d] patchBalloonNoContent " 204 "".
Definition PatchBalloonNoContent_readResponse (o : PatchBalloonNoContent) (response : Response) : Err + PatchBalloonNoContent := inr o.
Record PatchBalloonBadRequest := mkPatchBalloonBadRequest { PatchBalloonBadRequest_Payload : option Error }.
Definition NewPatchBalloonBadRequest : PatchBalloonBadRequest := mkPatchBalloonBadRequest None.
Definition PatchBalloonBadRequest_Error (o : PatchBalloonBadRequest) : Err := ApiError "[PATCH /balloon][%d] patchBalloonBadRequest  %+v" 400 (fault (PatchBalloonBadRequest_Payload o)).
Definition PatchBalloonBadRequest_GetPayload (o : PatchBalloonBadRequest) : option Error := PatchBalloonBadRequest_Payload o.
Definition PatchBalloonBadRequest_readResponse (o : PatchBalloonBadRequest) (response : Response) : Err + PatchBalloonBadRequest :=
  try_read (consume_payload response zero_Error) (λ payload, inr (mkPatchBalloonBadRequest (Some payload))).
Record PatchBalloonDefault := mkPatchBalloonDefault { PatchBalloonDefault_statusCode : Z; PatchBalloonDefault_Payload : option Error }.
Definition NewPatchBalloonDefault (code : Z) : PatchBalloonDefault := mkPatchBalloonDefault code None.
Definition PatchBalloonDefault_Code (o : PatchBalloonDefault) : Z := PatchBalloonDefault_statusCode o.
Definition PatchBalloonDefault_Error (o : PatchBalloonDefault) : Err := ApiError "[PATCH /balloon][%d] patchBalloon default  %+v" (PatchBalloonDefault_statusCode o) (fault (PatchBalloonDefault_Payload o)).
Definition PatchBalloonDefault_GetPayload (o : PatchBalloonDefault) : option Error := PatchBalloonDefault_Payload o.
Definition PatchBalloonDefault_readResponse (o : PatchBalloonDefault) (response : Response) : Err + PatchBalloonDefault :=
  try_read (consume_payload response zero_Error) (λ payload, inr (mkPatchBalloonDefault (PatchBalloonDefault_statusCode o) (Some payload))).
Definition PatchBalloonReader_ReadResponse (response : Response) : Err + (PatchBalloonNoContent + PatchBalloonDefault) :=
  let code := Response_Code response in
  if code =? 204 then
    try_read (PatchBalloonNoContent_readResponse NewPatchBalloonNoContent response) (λ result, inr (inl result))
  else if code =? 400 then
    try_read (PatchBalloonBadRequest_readResponse NewPatchBalloonBadRequest response) (λ result, inl (PatchBalloonBadRequest_Error result))
  else
    try_read (PatchBalloonDefault_readResponse (NewPatchBalloonDefault code) response) (λ result,
      if Z.quot code 100 =? 2 then inr (inr result) else inl (PatchBalloonDefault_Error result)).
Definition OpsClient_PatchBalloon (params : option PatchBalloonParams) : GoM Transport S error :=
  let params := match params with Some params => params | None => NewPatchBalloonParams end in
  answer <- call (Submit (mkClientOperation "patchBalloon" "PATCH" "/balloon" ["application/json"] ["application/json"] ["http"]
    (PatchBalloonParams_WriteToRequest params) (PatchBalloonParams_Context params) (PatchBalloonParams_HTTPClient params))) ;
  match try_read answer PatchBalloonReader_ReadResponse with
  | inl err => go_ret (Some err)
  | inr (inl _) => go_ret None
  | inr (inr _) => go_panic "interface conversion"
  end.

(** ** PatchBalloonStatsInterval (src/client/operations/patch_balloon_stats_interval_parameters.go, patch_balloon_stats_interval_responses.go) *)
Definition PatchBalloonStatsIntervalParams_WriteToRequest (o : PatchBalloonStatsIntervalParams) (r : Request) : error * Request :=
  try_request (Request_SetTimeout r (PatchBalloonStatsIntervalParams_timeout o)) (λ r,
  try_request match PatchBalloonStatsIntervalParams_Body o with Some body => Request_SetBodyParam r (Body_BalloonStatsUpdate body) | None => (None, r) end (λ r,
  (None, r))).
Inductive PatchBalloonStatsIntervalNoContent := mkPatchBalloonStatsIntervalNoContent.
Definition NewPatchBalloonStatsIntervalNoContent : PatchBalloonStatsIntervalNoContent := mkPatchBalloonStatsIntervalNoContent.
Definition PatchBalloonStatsIntervalNoContent_Error (o : PatchBalloonStatsIntervalNoContent) : Err := ApiError "[PATCH /balloon/statistics][%d] patchBalloonStatsIntervalNoContent " 204 "".
Definition PatchBalloonStatsIntervalNoContent_readResponse (o : PatchBalloonStatsIntervalNoContent) (response : Response) : Err + PatchBalloonStatsIntervalNoContent := inr o.
Record PatchBalloonStatsIntervalBadRequest := mkPatchBalloonStatsIntervalBadRequest { PatchBalloonStatsIntervalBadRequest_Payload : option Error }.
Definition NewPatchBalloonStatsIntervalBadRequest : PatchBalloonStatsIntervalBadRequest := mkPatchBalloonStatsIntervalBadRequest None.
Definition PatchBalloonStatsIntervalBadRequest_Error (o : PatchBalloonStatsIntervalBadRequest) : Err := ApiError "[PATCH /balloon/statistics][%d] patchBalloonStatsIntervalBadRequest  %+v" 400 (fault (PatchBalloonStatsIntervalBadRequest_Payload o)).
Definition PatchBalloonStatsIntervalBadRequest_GetPayload (o : PatchBalloonStatsIntervalBadRequest) : option Error := PatchBalloonStatsIntervalBadRequest_Payload o.
Definition PatchBalloonStatsIntervalBadRequest_readResponse (o : PatchBalloonStatsIntervalBadRequest) (response : Response) : Err + PatchBalloonStatsIntervalBadRequest :=
  try_read (consume_payload response zero_Error) (λ payload, inr (mkPatchBalloonStatsIntervalBadRequest (Some payload))).
Record PatchBalloonStatsIntervalDefault := mkPatchBalloonStatsIntervalDefault { PatchBalloonStatsIntervalDefault_statusCode : Z; PatchBalloonStatsIntervalDefault_Payload : option Error }.
Definition NewPatchBalloonStatsIntervalDefault (code : Z) : PatchBalloonStatsIntervalDefault := mkPatchBalloonStatsIntervalDefault code None.
Definition PatchBalloonStatsIntervalDefault_Code (o : PatchBalloonStatsIntervalDefault) : Z := PatchBalloonStatsIntervalDefault_statusCode o.
Definition PatchBalloonStatsIntervalDefault_Error (o : PatchBalloonStatsIntervalDefault) : Err := ApiError "[PATCH /balloon/statistics][%d] patchBalloonStatsInterval default  %+v" (PatchBalloonStatsIntervalDefault_statusCode o) (fault (PatchBalloonStatsIntervalDefault_Payload o)).
Definition PatchBalloonStatsIntervalDefault_GetPayload (o : PatchBalloonStatsIntervalDefault) : option Error := PatchBalloonStatsIntervalDefault_Payload o.
Definition PatchBalloonStatsIntervalDefault_readResponse (o : PatchBalloonStatsIntervalDefault) (response : Response) : Err + PatchBalloonStatsIntervalDefault :=
  try_read (consume_payload response zero_Error) (λ payload, inr (mkPatchBalloonStatsIntervalDefault (PatchBalloonStatsIntervalDefault_statusCode o) (Some payload))).
Definition PatchBalloonStatsIntervalReader_ReadResponse (response : Response) : Err + (PatchBalloonStatsIntervalNoContent + PatchBalloonStatsIntervalDefault) :=
  let code := Response_Code response in
  if code =? 204 then
    try_read (PatchBalloonStatsIntervalNoContent_readResponse NewPatchBalloonStatsIntervalNoContent response) (λ result, inr (inl result))
  else if code =? 400 then
    try_read (PatchBalloonStatsIntervalBadRequest_readResponse NewPatchBalloonStatsIntervalBadRequest response) (λ result, inl (PatchBalloonStatsIntervalBadRequest_Error result))
  else
    try_read (PatchBalloonStatsIntervalDefault_readResponse (NewPatchBalloonStatsIntervalDefault code) response) (λ result,
      if Z.quot code 100 =? 2 then inr (inr result) else inl (PatchBalloonStatsIntervalDefault_Error result)).
Definition OpsClient_PatchBalloonStatsInterval (params : option PatchBalloonStatsIntervalParams) : GoM Transport S error :=
  let params := match params with Some params => params | None => NewPatchBalloonStatsIntervalParams end in
  answer <- call (Submit (mkClientOperation "patchBalloonStatsInterval" "PATCH" "/balloon/statistics" ["application/json"] ["application/json"] ["http"]
    (PatchBalloonStatsIntervalParams_WriteToRequest params) (PatchBalloonStatsIntervalParams_Context params) (PatchBalloonStatsIntervalParams_HTTPClient params))) ;
  match try_read answer PatchBalloonStatsIntervalReader_ReadResponse with
  | inl err => go_ret (Some err)
  | inr (inl _) => go_ret None
  | inr (inr _) => go_panic "interface conversion"
  end.

(** ** PatchGuestDriveByID (src/client/operations/patch_guest_drive_by_id_parameters.go, patch_guest_drive_by_id_responses.go) *)
Definition PatchGuestDriveByIDParams_WriteToRequest (o : PatchGuestDriveByIDParams) (r : Request) : error * Request :=
  try_request (Request_SetTimeout r (PatchGuestDriveByIDParams_timeout o)) (λ r,
  try_request match PatchGuestDriveByIDParams_Body o with Some body => Request_SetBodyParam r (Body_PartialDrive body) | None => (None, r) end (λ r,
  try_request (Request_SetPathParam r "drive_id" (PatchGuestDriveByIDParams_DriveID o)) (λ r,
  (None, r)))).
Inductive PatchGuestDriveByIDNoContent := mkPatchGuestDriveByIDNoContent.
Definition NewPatchGuestDriveByIDNoContent : PatchGuestDriveByIDNoContent := mkPatchGuestDriveByIDNoContent.
Definition PatchGuestDriveByIDNoContent_Error (o : PatchGuestDriveByIDNoContent) : Err := ApiError "[PATCH /drives/{drive_id}][%d] patchGuestDriveByIdNoContent " 204 "".
Definition PatchGuestDriveByIDNoContent_readResponse (o : PatchGuestDriveByIDNoContent) (response : Response) : Err + PatchGuestDriveByIDNoContent := inr o.
Record PatchGuestDriveByIDBadRequest := mkPatchGuestDriveByIDBadRequest { PatchGuestDriveByIDBadRequest_Payload : option Error }.
Definition NewPatchGuestDriveByIDBadRequest : PatchGuestDriveByIDBadRequest := mkPatchGuestDriveByIDBadRequest None.
Definition PatchGuestDriveByIDBadRequest_Error (o : PatchGuestDriveByIDBadRequest) : Err := ApiError "[PATCH /drives/{drive_id}][%d] patchGuestDriveByIdBadRequest  %+v" 400 (fault (PatchGuestDriveByIDBadRequest_Payload o)).
Definition PatchGuestDriveByIDBadRequest_GetPayload (o : PatchGuestDriveByIDBadRequest) : option Error := PatchGuestDriveByIDBadRequest_Payload o.
Definition PatchGuestDriveByIDBadRequest_readResponse (o : PatchGuestDriveByIDBadRequest) (response : Response) : Err + PatchGuestDriveByIDBadRequest :=
  try_read (consume_payload response zero_Error) (λ payload, inr (mkPatchGuestDriveByIDBadRequest (Some payload))).
Record PatchGuestDriveByIDDefault := mkPatchGuestDriveByIDDefault { PatchGuestDriveByIDDefault_statusCode : Z; PatchGuestDriveByIDDefault_Payload : option Error }.
Definition NewPatchGuestDriveByIDDefault (code : Z) : PatchGuestDriveByIDDefault := mkPatchGuestDriveByIDDefault code None.
Definition PatchGuestDriveByIDDefault_Code (o : PatchGuestDriveByIDDefault) : Z := PatchGuestDriveByIDDefault_statusCode o.
Definition PatchGuestDriveByIDDefault_Error (o : PatchGuestDriveByIDDefault) : Err := ApiError "[PATCH /drives/{drive_id}][%d] patchGuestDriveByID default  %+v" (PatchGuestDriveByIDDefault_statusCode o) (fault (PatchGuestDriveByIDDefault_Payload o)).
Definition PatchGuestDriveByIDDefault_GetPayload (o : PatchGuestDriveByIDDefault) : option Error := PatchGuestDriveByIDDefault_Payload o.
Definition PatchGuestDriveByIDDefault_readResponse (o : PatchGuestDriveByIDDefault) (response : Response) : Err + PatchGuestDriveByIDDefault :=
  try_read (consume_payload response zero_Error) (λ payload, inr (mkPatchGuestDriveByIDDefault (PatchGuestDriveByIDDefault_statusCode o) (Some payload))).
Definition PatchGuestDriveByIDReader_ReadResponse (response : Response) : Err + (PatchGuestDriveByIDNoContent + PatchGuestDriveByIDDefault) :=
  let code := Response_Code response in
  if code =? 204 then
    try_read (PatchGuestDriveByIDNoContent_readResponse NewPatchGuestDriveByIDNoContent response) (λ result, inr (inl result))
  else if code =? 400 then
    try_read (PatchGuestDriveByIDBadRequest_readResponse NewPatchGuestDriveByIDBadRequest response) (λ result, inl (PatchGuestDriveByIDBadRequest_Error result))
  else
    try_read (PatchGuestDriveByIDDefault_readResponse (NewPatchGuestDriveByIDDefault code) response) (λ result,
      if Z.quot code 100 =? 2 then inr (inr result) else inl (PatchGuestDriveByIDDefault_Error result)).
Definition OpsClient_PatchGuestDriveByID (params : option PatchGuestDriveByIDParams) : GoM Transport S error :=
  let params := match params with Some params => params | None => NewPatchGuestDriveByIDParams end in
  answer <- call (Submit (mkClientOperation "patchGuestDriveByID" "PATCH" "/drives/{drive_id}" ["application/json"] ["application/json"] ["http"]
    (PatchGuestDriveByIDParams_WriteToRequest params) (PatchGuestDriveByIDParams_Context params) (PatchGuestDriveByIDParams_HTTPClient params))) ;
  match try_read answer PatchGuestDriveByIDReader_ReadResponse with
  | inl err => go_ret (Some err)
  | inr (inl _) => go_ret None
  | inr (inr _) => go_panic "interface conversion"
  end.

(** ** PatchGuestNetworkInterfaceByID (src/client/operations/patch_guest_network_interface_by_id_parameters.go, patch_guest_network_interface_by_id_responses.go) *)
Definition PatchGuestNetworkInterfaceByIDParams_WriteToRequest (o : PatchGuestNetworkInterfaceByIDParams) (r : Request) : error * Request :=
  try_request (Request_SetTimeout r (PatchGuestNetworkInterfaceByIDParams_timeout o)) (λ r,
  try_request match PatchGuestNetworkInterfaceByIDParams_Body o with Some body => Request_SetBodyParam r (Body_PartialNetworkInterface body) | None => (None, r) end (λ r,
  try_request (Request_SetPathParam r "iface_id" (PatchGuestNetworkInterfaceByIDParams_IfaceID o)) (λ r,
  (None, r)))).
Inductive PatchGuestNetworkInterfaceByIDNoContent := mkPatchGuestNetworkInterfaceByIDNoContent.
Definition NewPatchGuestNetworkInterfaceByIDNoContent : PatchGuestNetworkInterfaceByIDNoContent := mkPatchGuestNetworkInterfaceByIDNoContent.
Definition PatchGuestNetworkInterfaceByIDNoContent_Error (o : PatchGuestNetworkInterfaceByIDNoContent) : Err := ApiError "[PATCH /network-interfaces/{iface_id}][%d] patchGuestNetworkInterfaceByIdNoContent " 204 "".
Definition PatchGuestNetworkInterfaceByIDNoContent_readResponse (o : PatchGuestNetworkInterfaceByIDNoContent) (response : Response) : Err + PatchGuestNetworkInterfaceByIDNoContent := inr o.
Record PatchGuestNetworkInterfaceByIDBadRequest := mkPatchGuestNetworkInterfaceByIDBadRequest { PatchGuestNetworkInterfaceByIDBadRequest_Payload : option Error }.
Definition NewPatchGuestNetworkInterfaceByIDBadRequest : PatchGuestNetworkInterfaceByIDBadRequest := mkPatchGuestNetworkInterfaceByIDBadRequest None.
Definition PatchGuestNetworkInterfaceByIDBadRequest_Error (o : PatchGuestNetworkInterfaceByIDBadRequest) : Err := ApiError "[PATCH /network-interfaces/{iface_id}][%d] patchGuestNetworkInterfaceByIdBadRequest  %+v" 400 (fault (PatchGuestNetworkInterfaceByIDBadRequest_Payload o)).
Definition PatchGuestNetworkInterfaceByIDBadRequest_GetPayload (o : PatchGuestNetworkInterfaceByIDBadRequest) : option Error := PatchGuestNetworkInterfaceByIDBadRequest_Payload o.
Definition PatchGuestNetworkInterfaceByIDBadRequest_readResponse (o : PatchGuestNetworkInterfaceByIDBadRequest) (response : Response) : Err + PatchGuestNetworkInterfaceByIDBadRequest :=
  try_read (consume_payload response zero_Error) (λ payload, inr (mkPatchGuestNetworkInterfaceByIDBadRequest (Some payload))).
Record PatchGuestNetworkInterfaceByIDDefault := mkPatchGuestNetworkInterfaceByIDDefault { PatchGuestNetworkInterfaceByIDDefault_statusCode : Z; PatchGuestNetworkInterfaceByIDDefault_Payload : option Error }.
Definition NewPatchGuestNetworkInterfaceByIDDefault (code : Z) : PatchGuestNetworkInterfaceByIDDefault := mkPatchGuestNetworkInterfaceByIDDefault code None.
Definition PatchGuestNetworkInterfaceByIDDefault_Code (o : PatchGuestNetworkInterfaceByIDDefault) : Z := PatchGuestNetworkInterfaceByIDDefault_statusCode o.
Definition PatchGuestNetworkInterfaceByIDDefault_Error (o : PatchGuestNetworkInterfaceByIDDefault) : Err := ApiError "[PATCH /network-interfaces/{iface_id}][%d] patchGuestNetworkInterfaceByID default  %+v" (PatchGuestNetworkInterfaceByIDDefault_statusCode o) (fault (PatchGuestNetworkInterfaceByIDDefault_Payload o)).
Definition PatchGuestNetworkInterfaceByIDDefault_GetPayload (o : PatchGuestNetworkInterfaceByIDDefault) : option Error := PatchGuestNetworkInterfaceByIDDefault_Payload o.
Definition PatchGuestNetworkInterfaceByIDDefault_readResponse (o : PatchGuestNetworkInterfaceByIDDefault) (response : Response) : Err + PatchGuestNetworkInterfaceByIDDefault :=
  try_read (consume_payload response zero_Error) (λ payload, inr (mkPatchGuestNetworkInterfaceByIDDefault (PatchGuestNetworkInterfaceByIDDefault_statusCode o) (Some payload))).
Definition PatchGuestNetworkInterfaceByIDReader_ReadResponse (response : Response) : Err + (PatchGuestNetworkInterfaceByIDNoContent + PatchGuestNetworkInterfaceByIDDefault) :=
  let code := Response_Code response in
  if code =? 204 then
    try_read (PatchGuestNetworkInterfaceByIDNoContent_readResponse NewPatchGuestNetworkInterfaceByIDNoContent response) (λ result, inr (inl result))
  else if code =? 400 then
    try_read (PatchGuestNetworkInterfaceByIDBadRequest_readResponse NewPatchGuestNetworkInterfaceByIDBadRequest response) (λ result, inl (PatchGuestNetworkInterfaceByIDBadRequest_Error result))
  else
    try_read (PatchGuestNetworkInterfaceByIDDefault_readResponse (NewPatchGuestNetworkInterfaceByIDDefault code) response) (λ result,
      if Z.quot code 100 =? 2 then inr (inr result) else inl (PatchGuestNetworkInterfaceByIDDefault_Error result)).
Definition OpsClient_PatchGuestNetworkInterfaceByID (params : option PatchGuestNetworkInterfaceByIDParams) : GoM Transport S error :=
  let params := match params with Some params => params | None => NewPatchGuestNetworkInterfaceByIDParams end in
  answer <- call (Submit (mkClientOperation "patchGuestNetworkInterfaceByID" "PATCH" "/network-interfaces/{iface_id}" ["application/json"] ["application/json"] ["http"]
    (PatchGuestNetworkInterfaceByIDParams_WriteToRequest params) (PatchGuestNetworkInterfaceByIDParams_Context params) (PatchGuestNetworkInterfaceByIDParams_HTTPClient params))) ;
  match try_read answer PatchGuestNetworkInterfaceByIDReader_ReadResponse with
  | inl err => go_ret (Some err)
  | inr (inl _) => go_ret None
  | inr (inr _) => go_panic "interface conversion"
  end.

(** ** PatchMachineConfiguration (src/client/operations/patch_machine_configuration_parameters.go, patch_machine_configuration_responses.go) *)
Definition PatchMachineConfigurationParams_WriteToRequest (o : PatchMachineConfigurationParams) (r : Request) : error * Request :=
  try_request (Request_SetTimeout r (PatchMachineConfigurationParams_timeout o)) (λ r,
  try_request match PatchMachineConfigurationParams_Body o with Some body => Request_SetBodyParam r (Body_MachineConfiguration body) | None => (None, r) end (λ r,
  (None, r))).
Inductive PatchMachineConfigurationNoContent := mkPatchMachineConfigurationNoContent.
Definition NewPatchMachineConfigurationNoContent : PatchMachineConfigurationNoContent := mkPatchMachineConfigurationNoContent.
Definition PatchMachineConfigurationNoContent_Error (o : PatchMachineConfigurationNoContent) : Err := ApiError "[PATCH /machine-config][%d] patchMachineConfigurationNoContent " 204 "".
Definition PatchMachineConfigurationNoContent_readResponse (o : PatchMachineConfigurationNoContent) (response : Response) : Err + PatchMachineConfigurationNoContent := inr o.
Record PatchMachineConfigurationBadRequest := mkPatchMachineConfigurationBadRequest { PatchMachineConfigurationBadRequest_Payload : option Error }.
Definition NewPatchMachineConfigurationBadRequest : PatchMachineConfigurationBadRequest := mkPatchMachineConfigurationBadRequest None.
Definition PatchMachineConfigurationBadRequest_Error (o : PatchMachineConfigurationBadRequest) : Err := ApiError "[PATCH /machine-config][%d] patchMachineConfigurationBadRequest  %+v" 400 (fault (PatchMachineConfigurationBadRequest_Payload o)).
Definition PatchMachineConfigurationBadRequest_GetPayload (o : PatchMachineConfigurationBadRequest) : option Error := PatchMachineConfigurationBadRequest_Payload o.
Definition PatchMachineConfigurationBadRequest_readResponse (o : PatchMachineConfigurationBadRequest) (response : Response) : Err + PatchMachineConfigurationBadRequest :=
  try_read (consume_payload response zero_Error) (λ payload, inr (mkPatchMachineConfigurationBadRequest (Some payload))).
Record PatchMachineConfigurationDefault := mkPatchMachineConfigurationDefault { PatchMachineConfigurationDefault_statusCode : Z; PatchMachineConfigurationDefault_Payload : option Error }.
Definition NewPatchMachineConfigurationDefault (code : Z) : PatchMachineConfigurationDefault := mkPatchMachineConfigurationDefault code None.
Definition PatchMachineConfigurationDefault_Code (o : PatchMachineConfigurationDefault) : Z := PatchMachineConfigurationDefault_statusCode o.
Definition PatchMachineConfigurationDefault_Error (o : PatchMachineConfigurationDefault) : Err := ApiError "[PATCH /machine-config][%d] patchMachineConfiguration default  %+v" (PatchMachineConfigurationDefault_statusCode o) (fault (PatchMachineConfigurationDefault_Payload o)).
Definition PatchMachineConfigurationDefault_GetPayload (o : PatchMachineConfigurationDefault) : option Error := PatchMachineConfigurationDefault_Payload o.
Definition PatchMachineConfigurationDefault_readResponse (o : PatchMachineConfigurationDefault) (response : Response) : Err + PatchMachineConfigurationDefault :=
  try_read (consume_payload response zero_Error) (λ payload, inr (mkPatchMachineConfigurationDefault (PatchMachineConfigurationDefault_statusCode o) (Some payload))).
Definition PatchMachineConfigurationReader_ReadResponse (response : Response) : Err + (PatchMachineConfigurationNoContent + PatchMachineConfigurationDefault) :=
  let code := Response_Code response in
  if code =? 204 then
    try_read (PatchMachineConfigurationNoContent_readResponse NewPatchMachineConfigurationNoContent response) (λ result, inr (inl result))
  else if code =? 400 then
    try_read (PatchMachineConfigurationBadRequest_readResponse NewPatchMachineConfigurationBadRequest response) (λ result, inl (PatchMachineConfigurationBadRequest_Error result))
  else
    try_read (PatchMachineConfigurationDefault_readResponse (NewPatchMachineConfigurationDefault code) response) (λ result,
      if Z.quot code 100 =? 2 then inr (inr result) else inl (PatchMachineConfigurationDefault_Error result)).
Definition OpsClient_PatchMachineConfiguration (params : option PatchMachineConfigurationParams) : GoM Transport S error :=
  let params := match params with Some params => params | None => NewPatchMachineConfigurationParams end in
  answer <- call (Submit (mkClientOperation "patchMachineConfiguration" "PATCH" "/machine-config" ["application/json"] ["application/json"] ["http"]
    (PatchMachineConfigurationParams_WriteToRequest params) (PatchMachineConfigurationParams_Context params) (PatchMachineConfigurationParams_HTTPClient params))) ;
  match try_read answer PatchMachineConfigurationReader_ReadResponse with
  | inl err => go_ret (Some err)
  | inr (inl _) => go_ret None
  | inr (inr _) => go_panic "interface conversion"
  end.

(** ** PatchMmds (src/client/operations/patch_mmds_parameters.go, patch_mmds_responses.go) *)
Definition PatchMmdsParams_WriteToRequest (o : PatchMmdsParams) (r : Request) : error * Request :=
  try_request (Request_SetTimeout r (PatchMmdsParams_timeout o)) (λ r,
  try_request match PatchMmdsParams_Body o with Some body => Request_SetBodyParam r (Body_MmdsContentsObject body) | None => (None, r) end (λ r,
  (None, r))).
Inductive PatchMmdsNoContent := mkPatchMmdsNoContent.
Definition NewPatchMmdsNoContent : PatchMmdsNoContent := mkPatchMmdsNoContent.
Definition PatchMmdsNoContent_Error (o : PatchMmdsNoContent) : Err := ApiError "[PATCH /mmds][%d] patchMmdsNoContent " 204 "".
Definition PatchMmdsNoContent_readResponse (o : PatchMmdsNoContent) (response : Response) : Err + PatchMmdsNoContent := inr o.
Record PatchMmdsBadRequest := mkPatchMmdsBadRequest { PatchMmdsBadRequest_Payload : option Error }.
Definition NewPatchMmdsBadRequest : PatchMmdsBadRequest := mkPatchMmdsBadRequest None.
Definition PatchMmdsBadRequest_Error (o : PatchMmdsBadRequest) : Err := ApiError "[PATCH /mmds][%d] patchMmdsBadRequest  %+v" 400 (fault (PatchMmdsBadRequest_Payload o)).
Definition PatchMmdsBadRequest_GetPayload (o : PatchMmdsBadRequest) : option Error := PatchMmdsBadRequest_Payload o.
Definition PatchMmdsBadRequest_readResponse (o : PatchMmdsBadRequest) (response : Response) : Err + PatchMmdsBadRequest :=
  try_read (consume_payload response zero_Error) (λ payload, inr (mkPatchMmdsBadRequest (Some payload))).
Record PatchMmdsDefault := mkPatchMmdsDefault { PatchMmdsDefault_statusCode : Z; PatchMmdsDefault_Payload : option Error }.
Definition NewPatchMmdsDefault (code : Z) : PatchMmdsDefault := mkPatchMmdsDefault code None.
Definition PatchMmdsDefault_Code (o : PatchMmdsDefault) : Z := PatchMmdsDefault_statusCode o.
Definition PatchMmdsDefault_Error (o : PatchMmdsDefault) : Err := ApiError "[PATCH /mmds][%d] patchMmds default  %+v" (PatchMmdsDefault_statusCode o) (fault (PatchMmdsDefault_Payload o)).
Definition PatchMmdsDefault_GetPayload (o : PatchMmdsDefault) : option Error := PatchMmdsDefault_Payload o.
Definition PatchMmdsDefault_readResponse (o : PatchMmdsDefault) (response : Response) : Err + PatchMmdsDefault :=
  try_read (consume_payload response zero_Error) (λ payload, inr (mkPatchMmdsDefault (PatchMmdsDefault_statusCode o) (Some payload))).
Definition PatchMmdsReader_ReadResponse (response : Response) : Err + (PatchMmdsNoContent + PatchMmdsDefault) :=
  let code := Response_Code response in
  if code =? 204 then
    try_read (PatchMmdsNoContent_readResponse NewPatchMmdsNoContent response) (λ result, inr (inl result))
  else if code =? 400 then
    try_read (PatchMmdsBadRequest_readResponse NewPatchMmdsBadRequest response) (λ result, inl (PatchMmdsBadRequest_Error result))
  else
    try_read (PatchMmdsDefault_readResponse (NewPatchMmdsDefault code) response) (λ result,
      if Z.quot code 100 =? 2 then inr (inr result) else inl (PatchMmdsDefault_Error result)).
Definition OpsClient_PatchMmds (params : option PatchMmdsParams) : GoM Transport S error :=
  let params := match params with Some params => params | None => NewPatchMmdsParams end in
  answer <- call (Submit (mkClientOperation "patchMmds" "PATCH" "/mmds" ["application/json"] ["application/json"] ["http"]
    (PatchMmdsParams_WriteToRequest params) (PatchMmdsParams_Context params) (PatchMmdsParams_HTTPClient params))) ;
  match try_read answer PatchMmdsReader_ReadResponse with
  | inl err => go_ret (Some err)
  | inr (inl _) => go_ret None
  | inr (inr _) => go_panic "interface conversion"
  end.

(** ** PatchVM (src/client/operations/patch_vm_parameters.go, patch_vm_responses.go) *)
Definition PatchVMParams_WriteToRequest (o : PatchVMParams) (r : Request) : error * Request :=
  try_request (Request_SetTimeout r (PatchVMParams_timeout o)) (λ r,
  try_request match PatchVMParams_Body o with Some body => Request_SetBodyParam r (Body_VM body) | None => (None, r) end (λ r,
  (None, r))).
Inductive PatchVMNoContent := mkPatchVMNoContent.
Definition NewPatchVMNoContent : PatchVMNoContent := mkPatchVMNoContent.
Definition PatchVMNoContent_Error (o : PatchVMNoContent) : Err := ApiError "[PATCH /vm][%d] patchVmNoContent " 204 "".
Definition PatchVMNoContent_readResponse (o : PatchVMNoContent) (response : Response) : Err + PatchVMNoContent := inr o.
Record PatchVMBadRequest := mkPatchVMBadRequest { PatchVMBadRequest_Payload : option Error }.
Definition NewPatchVMBadRequest : PatchVMBadRequest := mkPatchVMBadRequest None.
Definition PatchVMBadRequest_Error (o : PatchVMBadRequest) : Err := ApiError "[PATCH /vm][%d] patchVmBadRequest  %+v" 400 (fault (PatchVMBadRequest_Payload o)).
Definition PatchVMBadRequest_GetPayload (o : PatchVMBadRequest) : option Error := PatchVMBadRequest_Payload o.
Definition PatchVMBadRequest_readResponse (o : PatchVMBadRequest) (response : Response) : Err + PatchVMBadRequest :=
  try_read (consume_payload response zero_Error) (λ payload, inr (mkPatchVMBadRequest (Some payload))).
Record PatchVMDefault := mkPatchVMDefault { PatchVMDefault_statusCode : Z; PatchVMDefault_Payload : option Error }.
Definition NewPatchVMDefault (code : Z) : PatchVMDefault := mkPatchVMDefault code None.
Definition PatchVMDefault_Code (o : PatchVMDefault) : Z := PatchVMDefault_statusCode o.
Definition PatchVMDefault_Error (o : PatchVMDefault) : Err := ApiError "[PATCH /vm][%d] patchVm default  %+v" (PatchVMDefault_statusCode o) (fault (PatchVMDefault_Payload o)).
Definition PatchVMDefault_GetPayload (o : PatchVMDefault) : option Error := PatchVMDefault_Payload o.
Definition PatchVMDefault_readResponse (o : PatchVMDefault) (response : Response) : Err + PatchVMDefault :=
  try_read (consume_payload response zero_Error) (λ payload, inr (mkPatchVMDefault (PatchVMDefault_statusCode o) (Some payload))).
Definition PatchVMReader_ReadResponse (response : Response) : Err + (PatchVMNoContent + PatchVMDefault) :=
  let code := Response_Code response in
  if code =? 204 then
    try_read (PatchVMNoContent_readResponse NewPatchVMNoContent response) (λ result, inr (inl result))
  else if code =? 400 then
    try_read (PatchVMBadRequest_readResponse NewPatchVMBadRequest response) (λ result, inl (PatchVMBadRequest_Error result))
  else
    try_read (PatchVMDefault_readResponse (NewPatchVMDefault code) response) (λ result,
      if Z.quot code 100 =? 2 then inr (inr result) else inl (PatchVMDefault_Error result)).
Definition OpsClient_PatchVM (params : option PatchVMParams) : GoM Transport S error :=
  let params := match params with Some params => params | None => NewPatchVMParams end in
  answer <- call (Submit (mkClientOperation "patchVm" "PATCH" "/vm" ["application/json"] ["application/json"] ["http"]
    (PatchVMParams_WriteToRequest params) (PatchVMParams_Context params) (PatchVMParams_HTTPClient params))) ;
  match try_read answer PatchVMReader_ReadResponse with
  | inl err => go_ret (Some err)
  | inr (inl _) => go_ret None
  | inr (inr _) => go_panic "interface conversion"
  end.

(** ** PutBalloon (src/client/operations/put_balloon_parameters.go, put_balloon_responses.go) *)
Definition PutBalloonParams_WriteToRequest (o : PutBalloonParams) (r : Request) : error * Request :=
  try_request (Request_SetTimeout r (PutBalloonParams_timeout o)) (λ r,
  try_request match PutBalloonParams_Body o with Some body => Request_SetBodyParam r (Body_Balloon body) | None => (None, r) end (λ r,
  (None, r))).
Inductive PutBalloonNoContent := mkPutBalloonNoContent.
Definition NewPutBalloonNoContent : PutBalloonNoContent := mkPutBalloonNoContent.
Definition PutBalloonNoContent_Error (o : PutBalloonNoContent) : Err := ApiError "[PUT /balloon][%d] putBalloonNoContent " 204 "".
Definition PutBalloonNoContent_readResponse (o : PutBalloonNoContent) (response : Response) : Err + PutBalloonNoContent := inr o.
Record PutBalloonBadRequest := mkPutBalloonBadRequest { PutBalloonBadRequest_Payload : option Error }.
Definition NewPutBalloonBadRequest : PutBalloonBadRequest := mkPutBalloonBadRequest None.
Definition PutBalloonBadRequest_Error (o : PutBalloonBadRequest) : Err := ApiError "[PUT /balloon][%d] putBalloonBadRequest  %+v" 400 (fault (PutBalloonBadRequest_Payload o)).
Definition PutBalloonBadRequest_GetPayload (o : PutBalloonBadRequest) : option Error := PutBalloonBadRequest_Payload o.
Definition PutBalloonBadRequest_readResponse (o : PutBalloonBadRequest) (response : Response) : Err + PutBalloonBadRequest :=
  try_read (consume_payload response zero_Error) (λ payload, inr (mkPutBalloonBadRequest (Some payload))).
Record PutBalloonDefault := mkPutBalloonDefault { PutBalloonDefault_statusCode : Z; PutBalloonDefault_Payload : option Error }.
Definition NewPutBalloonDefault (code : Z) : PutBalloonDefault := mkPutBalloonDefault code None.
Definition PutBalloonDefault_Code (o : PutBalloonDefault) : Z := PutBalloonDefault_statusCode o.
Definition PutBalloonDefault_Error (o : PutBalloonDefault) : Err := ApiError "[PUT /balloon][%d] putBalloon default  %+v" (PutBalloonDefault_statusCode o) (fault (PutBalloonDefault_Payload o)).
Definition PutBalloonDefault_GetPayload (o : PutBalloonDefault) : option Error := PutBalloonDefault_Payload o.
Definition PutBalloonDefault_readResponse (o : PutBalloonDefault) (response : Response) : Err + PutBalloonDefault :=
  try_read (consume_payload response zero_Error) (λ payload, inr (mkPutBalloonDefault (PutBalloonDefault_statusCode o) (Some payload))).
Definition PutBalloonReader_ReadResponse (response : Response) : Err + (PutBalloonNoContent + PutBalloonDefault) :=
  let code := Response_Code response in
  if code =? 204 then
    try_read (PutBalloonNoContent_readResponse NewPutBalloonNoContent response) (λ result, inr (inl result))
  else if code =? 400 then
    try_read (PutBalloonBadRequest_readResponse NewPutBalloonBadRequest response) (λ result, inl (PutBalloonBadRequest_Error result))
  else
    try_read (PutBalloonDefault_readResponse (NewPutBalloonDefault code) response) (λ result,
      if Z.quot code 100 =? 2 then inr (inr result) else inl (PutBalloonDefault_Error result)).
Definition OpsClient_PutBalloon (params : option PutBalloonParams) : GoM Transport S error :=
  let params := match params with Some params => params | None => NewPutBalloonParams end in
  answer <- call (Submit (mkClientOperation "putBalloon" "PUT" "/balloon" ["application/json"] ["application/json"] ["http"]
    (PutBalloonParams_WriteToRequest params) (PutBalloonParams_Context params) (PutBalloonParams_HTTPClient params))) ;
  match try_read answer PutBalloonReader_ReadResponse with
  | inl err => go_ret (Some err)
  | inr (inl _) => go_ret None
  | inr (inr _) => go_panic "interface conversion"
  end.

(** ** PutCPUConfiguration (src/client/operations/put_cpu_configuration_parameters.go, put_cpu_configuration_responses.go) *)
Definition PutCPUConfigurationParams_WriteToRequest (o : PutCPUConfigurationParams) (r : Request) : error * Request :=
  try_request (Request_SetTimeout r (PutCPUConfigurationParams_timeout o)) (λ r,
  try_request match PutCPUConfigurationParams_Body o with Some body => Request_SetBodyParam r (Body_CPUConfig body) | None => (None, r) end (λ r,
  (None, r))).
Inductive PutCPUConfigurationNoContent := mkPutCPUConfigurationNoContent.
Definition NewPutCPUConfigurationNoContent : PutCPUConfigurationNoContent := mkPutCPUConfigurationNoContent.
Definition PutCPUConfigurationNoContent_Error (o : PutCPUConfigurationNoContent) : Err := ApiError "[PUT /cpu-config][%d] putCpuConfigurationNoContent " 204 "".
Definition PutCPUConfigurationNoContent_readResponse (o : PutCPUConfigurationNoContent) (response : Response) : Err + PutCPUConfigurationNoContent := inr o.
Record PutCPUConfigurationBadRequest := mkPutCPUConfigurationBadRequest { PutCPUConfigurationBadRequest_Payload : option Error }.
Definition NewPutCPUConfigurationBadRequest : PutCPUConfigurationBadRequest := mkPutCPUConfigurationBadRequest None.
Definition PutCPUConfigurationBadRequest_Error (o : PutCPUConfigurationBadRequest) : Err := ApiError "[PUT /cpu-config][%d] putCpuConfigurationBadRequest  %+v" 400 (fault (PutCPUConfigurationBadRequest_Payload o)).
Definition PutCPUConfigurationBadRequest_GetPayload (o : PutCPUConfigurationBadRequest) : option Error := PutCPUConfigurationBadRequest_Payload o.
Definition PutCPUConfigurationBadRequest_readResponse (o : PutCPUConfigurationBadRequest) (response : Response) : Err + PutCPUConfigurationBadRequest :=
  try_read (consume_payload response zero_Error) (λ payload, inr (mkPutCPUConfigurationBadRequest (Some payload))).
Record PutCPUConfigurationDefault := mkPutCPUConfigurationDefault { PutCPUConfigurationDefault_statusCode : Z; PutCPUConfigurationDefault_Payload : option Error }.
Definition NewPutCPUConfigurationDefault (code : Z) : PutCPUConfigurationDefault := mkPutCPUConfigurationDefault code None.
Definition PutCPUConfigurationDefault_Code (o : PutCPUConfigurationDefault) : Z := PutCPUConfigurationDefault_statusCode o.
Definition PutCPUConfigurationDefault_Error (o : PutCPUConfigurationDefault) : Err := ApiError "[PUT /cpu-config][%d] putCpuConfiguration default  %+v" (PutCPUConfigurationDefault_statusCode o) (fault (PutCPUConfigurationDefault_Payload o)).
Definition PutCPUConfigurationDefault_GetPayload (o : PutCPUConfigurationDefault) : option Error := PutCPUConfigurationDefault_Payload o.
Definition PutCPUConfigurationDefault_readResponse (o : PutCPUConfigurationDefault) (response : Response) : Err + PutCPUConfigurationDefault :=
  try_read (consume_payload response zero_Error) (λ payload, inr (mkPutCPUConfigurationDefault (PutCPUConfigurationDefault_statusCode o) (Some payload))).
Definition PutCPUConfigurationReader_ReadResponse (response : Response) : Err + (PutCPUConfigurationNoContent + PutCPUConfigurationDefault) :=
  let code := Response_Code response in
  if code =? 204 then
    try_read (PutCPUConfigurationNoContent_readResponse NewPutCPUConfigurationNoContent response) (λ result, inr (inl result))
  else if code =? 400 then
    try_read (PutCPUConfigurationBadRequest_readResponse NewPutCPUConfigurationBadRequest response) (λ result, inl (PutCPUConfigurationBadRequest_Error result))
  else
    try_read (PutCPUConfigurationDefault_readResponse (NewPutCPUConfigurationDefault code) response) (λ result,
      if Z.quot code 100 =? 2 then inr (inr result) else inl (PutCPUConfigurationDefault_Error result)).
Definition OpsClient_PutCPUConfiguration (params : option PutCPUConfigurationParams) : GoM Transport S error :=
  let params := match params with Some params => params | None => NewPutCPUConfigurationParams end in
  answer <- call (Submit (mkClientOperation "putCpuConfiguration" "PUT" "/cpu-config" ["application/json"] ["application/json"] ["http"]
    (PutCPUConfigurationParams_WriteToRequest params) (PutCPUConfigurationParams_Context params) (PutCPUConfigurationParams_HTTPClient params))) ;
  match try_read answer PutCPUConfigurationReader_ReadResponse with
  | inl err => go_ret (Some err)
  | inr (inl _) => go_ret None
  | inr (inr _) => go_panic "interface conversion"
  end.

(** ** PutEntropyDevice (src/client/operations/put_entropy_device_parameters.go, put_entropy_device_responses.go) *)
Definition PutEntropyDeviceParams_WriteToRequest (o : PutEntropyDeviceParams) (r : Request) : error * Request :=
  try_request (Request_SetTimeout r (PutEntropyDeviceParams_timeout o)) (λ r,
  try_request match PutEntropyDeviceParams_Body o with Some body => Request_SetBodyParam r (Body_EntropyDevice body) | None => (None, r) end (λ r,
  (None, r))).
Inductive PutEntropyDeviceNoContent := mkPutEntropyDeviceNoContent.
Definition NewPutEntropyDeviceNoContent : PutEntropyDeviceNoContent := mkPutEntropyDeviceNoContent.
Definition PutEntropyDeviceNoContent_Error (o : PutEntropyDeviceNoContent) : Err := ApiError "[PUT /entropy][%d] putEntropyDeviceNoContent " 204 "".
Definition PutEntropyDeviceNoContent_readResponse (o : PutEntropyDeviceNoContent) (response : Response) : Err + PutEntropyDeviceNoContent := inr o.
Record PutEntropyDeviceDefault := mkPutEntropyDeviceDefault { PutEntropyDeviceDefault_statusCode : Z; PutEntropyDeviceDefault_Payload : option Error }.
Definition NewPutEntropyDeviceDefault (code : Z) : PutEntropyDeviceDefault := mkPutEntropyDeviceDefault code None.
Definition PutEntropyDeviceDefault_Code (o : PutEntropyDeviceDefault) : Z := PutEntropyDeviceDefault_statusCode o.
Definition PutEntropyDeviceDefault_Error (o : PutEntropyDeviceDefault) : Err := ApiError "[PUT /entropy][%d] putEntropyDevice default  %+v" (PutEntropyDeviceDefault_statusCode o) (fault (PutEntropyDeviceDefault_Payload o)).
Definition PutEntropyDeviceDefault_GetPayload (o : PutEntropyDeviceDefault) : option Error := PutEntropyDeviceDefault_Payload o.
Definition PutEntropyDeviceDefault_readResponse (o : PutEntropyDeviceDefault) (response : Response) : Err + PutEntropyDeviceDefault :=
  try_read (consume_payload response zero_Error) (λ payload, inr (mkPutEntropyDeviceDefault (PutEntropyDeviceDefault_statusCode o) (Some payload))).
Definition PutEntropyDeviceReader_ReadResponse (response : Response) : Err + (PutEntropyDeviceNoContent + PutEntropyDeviceDefault) :=
  let code := Response_Code response in
  if code =? 204 then
    try_read (PutEntropyDeviceNoContent_readResponse NewPutEntropyDeviceNoContent response) (λ result, inr (inl result))
  else
    try_read (PutEntropyDeviceDefault_readResponse (NewPutEntropyDeviceDefault code) response) (λ result,
      if Z.quot code 100 =? 2 then inr (inr result) else inl (PutEntropyDeviceDefault_Error result)).
Definition OpsClient_PutEntropyDevice (params : option PutEntropyDeviceParams) : GoM Transport S error :=
  let params := match params with Some params => params | None => NewPutEntropyDeviceParams end in
  answer <- call (Submit (mkClientOperation "putEntropyDevice" "PUT" "/entropy" ["application/json"] ["application/json"] ["http"]
    (PutEntropyDeviceParams_WriteToRequest params) (PutEntropyDeviceParams_Context params) (PutEntropyDeviceParams_HTTPClient params))) ;
  match try_read answer PutEntropyDeviceReader_ReadResponse with
  | inl err => go_ret (Some err)
  | inr (inl _) => go_ret None
  | inr (inr _) => go_panic "interface conversion"
  end.

(** ** PutGuestBootSource (src/client/operations/put_guest_boot_source_parameters.go, put_guest_boot_source_responses.go) *)
Definition PutGuestBootSourceParams_WriteToRequest (o : PutGuestBootSourceParams) (r : Request) : error * Request :=
  try_request (Request_SetTimeout r (PutGuestBootSourceParams_timeout o)) (λ r,
  try_request match PutGuestBootSourceParams_Body o with Some body => Request_SetBodyParam r (Body_BootSource body) | None => (None, r) end (λ r,
  (None, r))).
Inductive PutGuestBootSourceNoContent := mkPutGuestBootSourceNoContent.
Definition NewPutGuestBootSourceNoContent : PutGuestBootSourceNoContent := mkPutGuestBootSourceNoContent.
Definition PutGuestBootSourceNoContent_Error (o : PutGuestBootSourceNoContent) : Err := ApiError "[PUT /boot-source][%d] putGuestBootSourceNoContent " 204 "".
Definition PutGuestBootSourceNoContent_readResponse (o : PutGuestBootSourceNoContent) (response : Response) : Err + PutGuestBootSourceNoContent := inr o.
Record PutGuestBootSourceBadRequest := mkPutGuestBootSourceBadRequest { PutGuestBootSourceBadRequest_Payload : option Error }.
Definition NewPutGuestBootSourceBadRequest : PutGuestBootSourceBadRequest := mkPutGuestBootSourceBadRequest None.
Definition PutGuestBootSourceBadRequest_Error (o : PutGuestBootSourceBadRequest) : Err := ApiError "[PUT /boot-source][%d] putGuestBootSourceBadRequest  %+v" 400 (fault (PutGuestBootSourceBadRequest_Payload o)).
Definition PutGuestBootSourceBadRequest_GetPayload (o : PutGuestBootSourceBadRequest) : option Error := PutGuestBootSourceBadRequest_Payload o.
Definition PutGuestBootSourceBadRequest_readResponse (o : PutGuestBootSourceBadRequest) (response : Response) : Err + PutGuestBootSourceBadRequest :=
  try_read (consume_payload response zero_Error) (λ payload, inr (mkPutGuestBootSourceBadRequest (Some payload))).
Record PutGuestBootSourceDefault := mkPutGuestBootSourceDefault { PutGuestBootSourceDefault_statusCode : Z; PutGuestBootSourceDefault_Payload : option Error }.
Definition NewPutGuestBootSourceDefault (code : Z) : PutGuestBootSourceDefault := mkPutGuestBootSourceDefault code None.
Definition PutGuestBootSourceDefault_Code (o : PutGuestBootSourceDefault) : Z := PutGuestBootSourceDefault_statusCode o.
Definition PutGuestBootSourceDefault_Error (o : PutGuestBootSourceDefault) : Err := ApiError "[PUT /boot-source][%d] putGuestBootSource default  %+v" (PutGuestBootSourceDefault_statusCode o) (fault (PutGuestBootSourceDefault_Payload o)).
Definition PutGuestBootSourceDefault_GetPayload (o : PutGuestBootSourceDefault) : option Error := PutGuestBootSourceDefault_Payload o.
Definition PutGuestBootSourceDefault_readResponse (o : PutGuestBootSourceDefault) (response : Response) : Err + PutGuestBootSourceDefault :=
  try_read (consume_payload response zero_Error) (λ payload, inr (mkPutGuestBootSourceDefault (PutGuestBootSourceDefault_statusCode o) (Some payload))).
Definition PutGuestBootSourceReader_ReadResponse (response : Response) : Err + (PutGuestBootSourceNoContent + PutGuestBootSourceDefault) :=
  let code := Response_Code response in
  if code =? 204 then
    try_read (PutGuestBootSourceNoContent_readResponse NewPutGuestBootSourceNoContent response) (λ result, inr (inl result))
  else if code =? 400 then
    try_read (PutGuestBootSourceBadRequest_readResponse NewPutGuestBootSourceBadRequest response) (λ result, inl (PutGuestBootSourceBadRequest_Error result))
  else
    try_read (PutGuestBootSourceDefault_readResponse (NewPutGuestBootSourceDefault code) response) (λ result,
      if Z.quot code 100 =? 2 then inr (inr result) else inl (PutGuestBootSourceDefault_Error result)).
Definition OpsClient_PutGuestBootSource (params : option PutGuestBootSourceParams) : GoM Transport S error :=
  let params := match params with Some params => params | None => NewPutGuestBootSourceParams end in
  answer <- call (Submit (mkClientOperation "putGuestBootSource" "PUT" "/boot-source" ["application/json"] ["application/json"] ["http"]
    (PutGuestBootSourceParams_WriteToRequest params) (PutGuestBootSourceParams_Context params) (PutGuestBootSourceParams_HTTPClient params))) ;
  match try_read answer PutGuestBootSourceReader_ReadResponse with
  | inl err => go_ret (Some err)
  | inr (inl _) => go_ret None
  | inr (inr _) => go_panic "interface conversion"
  end.

(** ** PutGuestDriveByID (src/client/operations/put_guest_drive_by_id_parameters.go, put_guest_drive_by_id_responses.go) *)
Definition PutGuestDriveByIDParams_WriteToRequest (o : PutGuestDriveByIDParams) (r : Request) : error * Request :=
  try_request (Request_SetTimeout r (PutGuestDriveByIDParams_timeout o)) (λ r,
  try_request match PutGuestDriveByIDParams_Body o with Some body => Request_SetBodyParam r (Body_Drive body) | None => (None, r) end (λ r,
  try_request (Request_SetPathParam r "drive_id" (PutGuestDriveByIDParams_DriveID o)) (λ r,
  (None, r)))).
Inductive PutGuestDriveByIDNoContent := mkPutGuestDriveByIDNoContent.
Definition NewPutGuestDriveByIDNoContent : PutGuestDriveByIDNoContent := mkPutGuestDriveByIDNoContent.
Definition PutGuestDriveByIDNoContent_Error (o : PutGuestDriveByIDNoContent) : Err := ApiError "[PUT /drives/{drive_id}][%d] putGuestDriveByIdNoContent " 204 "".
Definition PutGuestDriveByIDNoContent_readResponse (o : PutGuestDriveByIDNoContent) (response : Response) : Err + PutGuestDriveByIDNoContent := inr o.
Record PutGuestDriveByIDBadRequest := mkPutGuestDriveByIDBadRequest { PutGuestDriveByIDBadRequest_Payload : option Error }.
Definition NewPutGuestDriveByIDBadRequest : PutGuestDriveByIDBadRequest := mkPutGuestDriveByIDBadRequest None.
Definition PutGuestDriveByIDBadRequest_Error (o : PutGuestDriveByIDBadRequest) : Err := ApiError "[PUT /drives/{drive_id}][%d] putGuestDriveByIdBadRequest  %+v" 400 (fault (PutGuestDriveByIDBadRequest_Payload o)).
Definition PutGuestDriveByIDBadRequest_GetPayload (o : PutGuestDriveByIDBadRequest) : option Error := PutGuestDriveByIDBadRequest_Payload o.
Definition PutGuestDriveByIDBadRequest_readResponse (o : PutGuestDriveByIDBadRequest) (response : Response) : Err + PutGuestDriveByIDBadRequest :=
  try_read (consume_payload response zero_Error) (λ payload, inr (mkPutGuestDriveByIDBadRequest (Some payload))).
Record PutGuestDriveByIDDefault := mkPutGuestDriveByIDDefault { PutGuestDriveByIDDefault_statusCode : Z; PutGuestDriveByIDDefault_Payload : option Error }.
Definition NewPutGuestDriveByIDDefault (code : Z) : PutGuestDriveByIDDefault := mkPutGuestDriveByIDDefault code None.
Definition PutGuestDriveByIDDefault_Code (o : PutGuestDriveByIDDefault) : Z := PutGuestDriveByIDDefault_statusCode o.
Definition PutGuestDriveByIDDefault_Error (o : PutGuestDriveByIDDefault) : Err := ApiError "[PUT /drives/{drive_id}][%d] putGuestDriveByID default  %+v" (PutGuestDriveByIDDefault_statusCode o) (fault (PutGuestDriveByIDDefault_Payload o)).
Definition PutGuestDriveByIDDefault_GetPayload (o : PutGuestDriveByIDDefault) : option Error := PutGuestDriveByIDDefault_Payload o.
Definition PutGuestDriveByIDDefault_readResponse (o : PutGuestDriveByIDDefault) (response : Response) : Err + PutGuestDriveByIDDefault :=
  try_read (consume_payload response zero_Error) (λ payload, inr (mkPutGuestDriveByIDDefault (PutGuestDriveByIDDefault_statusCode o) (Some payload))).
Definition PutGuestDriveByIDReader_ReadResponse (response : Response) : Err + (PutGuestDriveByIDNoContent + PutGuestDriveByIDDefault) :=
  let code := Response_Code response in
  if code =? 204 then
    try_read (PutGuestDriveByIDNoContent_readResponse NewPutGuestDriveByIDNoContent response) (λ result, inr (inl result))
  else if code =? 400 then
    try_read (PutGuestDriveByIDBadRequest_readResponse NewPutGuestDriveByIDBadRequest response) (λ result, inl (PutGuestDriveByIDBadRequest_Error result))
  else
    try_read (PutGuestDriveByIDDefault_readResponse (NewPutGuestDriveByIDDefault code) response) (λ result,
      if Z.quot code 100 =? 2 then inr (inr result) else inl (PutGuestDriveByIDDefault_Error result)).
Definition OpsClient_PutGuestDriveByID (params : option PutGuestDriveByIDParams) : GoM Transport S error :=
  let params := match params with Some params => params | None => NewPutGuestDriveByIDParams end in
  answer <- call (Submit (mkClientOperation "putGuestDriveByID" "PUT" "/drives/{drive_id}" ["application/json"] ["application/json"] ["http"]
    (PutGuestDriveByIDParams_WriteToRequest params) (PutGuestDriveByIDParams_Context params) (PutGuestDriveByIDParams_HTTPClient params))) ;
  match try_read answer PutGuestDriveByIDReader_ReadResponse with
  | inl err => go_ret (Some err)
  | inr (inl _) => go_ret None
  | inr (inr _) => go_panic "interface conversion"
  end.

(** ** PutGuestNetworkInterfaceByID (src/client/operations/put_guest_network_interface_by_id_parameters.go, put_guest_network_interface_by_id_responses.go) *)
Definition PutGuestNetworkInterfaceByIDParams_WriteToRequest (o : PutGuestNetworkInterfaceByIDParams) (r : Request) : error * Request :=
  try_request (Request_SetTimeout r (PutGuestNetworkInterfaceByIDParams_timeout o)) (λ r,
  try_request match PutGuestNetworkInterfaceByIDParams_Body o with Some body => Request_SetBodyParam r (Body_NetworkInterface body) | None => (None, r) end (λ r,
  try_request (Request_SetPathParam r "iface_id" (PutGuestNetworkInterfaceByIDParams_IfaceID o)) (λ r,
  (None, r)))).
Inductive PutGuestNetworkInterfaceByIDNoContent := mkPutGuestNetworkInterfaceByIDNoContent.
Definition NewPutGuestNetworkInterfaceByIDNoContent : PutGuestNetworkInterfaceByIDNoContent := mkPutGuestNetworkInterfaceByIDNoContent.
Definition PutGuestNetworkInterfaceByIDNoContent_Error (o : PutGuestNetworkInterfaceByIDNoContent) : Err := ApiError "[PUT /network-interfaces/{iface_id}][%d] putGuestNetworkInterfaceByIdNoContent " 204 "".
Definition PutGuestNetworkInterfaceByIDNoContent_readResponse (o : PutGuestNetworkInterfaceByIDNoContent) (response : Response) : Err + PutGuestNetworkInterfaceByIDNoContent := inr o.
Record PutGuestNetworkInterfaceByIDBadRequest := mkPutGuestNetworkInterfaceByIDBadRequest { PutGuestNetworkInterfaceByIDBadRequest_Payload : option Error }.
Definition NewPutGuestNetworkInterfaceByIDBadRequest : PutGuestNetworkInterfaceByIDBadRequest := mkPutGuestNetworkInterfaceByIDBadRequest None.
Definition PutGuestNetworkInterfaceByIDBadRequest_Error (o : PutGuestNetworkInterfaceByIDBadRequest) : Err := ApiError "[PUT /network-interfaces/{iface_id}][%d] putGuestNetworkInterfaceByIdBadRequest  %+v" 400 (fault (PutGuestNetworkInterfaceByIDBadRequest_Payload o)).
Definition PutGuestNetworkInterfaceByIDBadRequest_GetPayload (o : PutGuestNetworkInterfaceByIDBadRequest) : option Error := PutGuestNetworkInterfaceByIDBadRequest_Payload o.
Definition PutGuestNetworkInterfaceByIDBadRequest_readResponse (o : PutGuestNetworkInterfaceByIDBadRequest) (response : Response) : Err + PutGuestNetworkInterfaceByIDBadRequest :=
  try_read (consume_payload response zero_Error) (λ payload, inr (mkPutGuestNetworkInterfaceByIDBadRequest (Some payload))).
Record PutGuestNetworkInterfaceByIDDefault := mkPutGuestNetworkInterfaceByIDDefault { PutGuestNetworkInterfaceByIDDefault_statusCode : Z; PutGuestNetworkInterfaceByIDDefault_Payload : option Error }.
Definition NewPutGuestNetworkInterfaceByIDDefault (code : Z) : PutGuestNetworkInterfaceByIDDefault := mkPutGuestNetworkInterfaceByIDDefault code None.
Definition PutGuestNetworkInterfaceByIDDefault_Code (o : PutGuestNetworkInterfaceByIDDefault) : Z := PutGuestNetworkInterfaceByIDDefault_statusCode o.
Definition PutGuestNetworkInterfaceByIDDefault_Error (o : PutGuestNetworkInterfaceByIDDefault) : Err := ApiError "[PUT /network-interfaces/{iface_id}][%d] putGuestNetworkInterfaceByID default  %+v" (PutGuestNetworkInterfaceByIDDefault_statusCode o) (fault (PutGuestNetworkInterfaceByIDDefault_Payload o)).
Definition PutGuestNetworkInterfaceByIDDefault_GetPayload (o : PutGuestNetworkInterfaceByIDDefault) : option Error := PutGuestNetworkInterfaceByIDDefault_Payload o.
Definition PutGuestNetworkInterfaceByIDDefault_readResponse (o : PutGuestNetworkInterfaceByIDDefault) (response : Response) : Err + PutGuestNetworkInterfaceByIDDefault :=
  try_read (consume_payload response zero_Error) (λ payload, inr (mkPutGuestNetworkInterfaceByIDDefault (PutGuestNetworkInterfaceByIDDefault_statusCode o) (Some payload))).
Definition PutGuestNetworkInterfaceByIDReader_ReadResponse (response : Response) : Err + (PutGuestNetworkInterfaceByIDNoContent + PutGuestNetworkInterfaceByIDDefault) :=
  let code := Response_Code response in
  if code =? 204 then
    try_read (PutGuestNetworkInterfaceByIDNoContent_readResponse NewPutGuestNetworkInterfaceByIDNoContent response) (λ result, inr (inl result))
  else if code =? 400 then
    try_read (PutGuestNetworkInterfaceByIDBadRequest_readResponse NewPutGuestNetworkInterfaceByIDBadRequest response) (λ result, inl (PutGuestNetworkInterfaceByIDBadRequest_Error result))
  else
    try_read (PutGuestNetworkInterfaceByIDDefault_readResponse (NewPutGuestNetworkInterfaceByIDDefault code) response) (λ result,
      if Z.quot code 100 =? 2 then inr (inr result) else inl (PutGuestNetworkInterfaceByIDDefault_Error result)).
Definition OpsClient_PutGuestNetworkInterfaceByID (params : option PutGuestNetworkInterfaceByIDParams) : GoM Transport S error :=
  let params := match params with Some params => params | None => NewPutGuestNetworkInterfaceByIDParams end in
  answer <- call (Submit (mkClientOperation "putGuestNetworkInterfaceByID" "PUT" "/network-interfaces/{iface_id}" ["application/json"] ["application/json"] ["http"]
    (PutGuestNetworkInterfaceByIDParams_WriteToRequest params) (PutGuestNetworkInterfaceByIDParams_Context params) (PutGuestNetworkInterfaceByIDParams_HTTPClient params))) ;
  match try_read answer PutGuestNetworkInterfaceByIDReader_ReadResponse with
  | inl err => go_ret (Some err)
  | inr (inl _) => go_ret None
  | inr (inr _) => go_panic "interface conversion"
  end.

(** ** PutGuestVsock (src/client/operations/put_guest_vsock_parameters.go, put_guest_vsock_responses.go) *)
Definition PutGuestVsockParams_WriteToRequest (o : PutGuestVsockParams) (r : Request) : error * Request :=
  try_request (Request_SetTimeout r (PutGuestVsockParams_timeout o)) (λ r,
  try_request match PutGuestVsockParams_Body o with Some body => Request_SetBodyParam r (Body_Vsock body) | None => (None, r) end (λ r,
  (None, r))).
Inductive PutGuestVsockNoContent := mkPutGuestVsockNoContent.
Definition NewPutGuestVsockNoContent : PutGuestVsockNoContent := mkPutGuestVsockNoContent.
Definition PutGuestVsockNoContent_Error (o : PutGuestVsockNoContent) : Err := ApiError "[PUT /vsock][%d] putGuestVsockNoContent " 204 "".
Definition PutGuestVsockNoContent_readResponse (o : PutGuestVsockNoContent) (response : Response) : Err + PutGuestVsockNoContent := inr o.
Record PutGuestVsockBadRequest := mkPutGuestVsockBadRequest { PutGuestVsockBadRequest_Payload : option Error }.
Definition NewPutGuestVsockBadRequest : PutGuestVsockBadRequest := mkPutGuestVsockBadRequest None.
Definition PutGuestVsockBadRequest_Error (o : PutGuestVsockBadRequest) : Err := ApiError "[PUT /vsock][%d] putGuestVsockBadRequest  %+v" 400 (fault (PutGuestVsockBadRequest_Payload o)).
Definition PutGuestVsockBadRequest_GetPayload (o : PutGuestVsockBadRequest) : option Error := PutGuestVsockBadRequest_Payload o.
Definition PutGuestVsockBadRequest_readResponse (o : PutGuestVsockBadRequest) (response : Response) : Err + PutGuestVsockBadRequest :=
  try_read (consume_payload response zero_Error) (λ payload, inr (mkPutGuestVsockBadRequest (Some payload))).
Record PutGuestVsockDefault := mkPutGuestVsockDefault { PutGuestVsockDefault_statusCode : Z; PutGuestVsockDefault_Payload : option Error }.
Definition NewPutGuestVsockDefault (code : Z) : PutGuestVsockDefault := mkPutGuestVsockDefault code None.
Definition PutGuestVsockDefault_Code (o : PutGuestVsockDefault) : Z := PutGuestVsockDefault_statusCode o.
Definition PutGuestVsockDefault_Error (o : PutGuestVsockDefault) : Err := ApiError "[PUT /vsock][%d] putGuestVsock default  %+v" (PutGuestVsockDefault_statusCode o) (fault (PutGuestVsockDefault_Payload o)).
Definition PutGuestVsockDefault_GetPayload (o : PutGuestVsockDefault) : option Error := PutGuestVsockDefault_Payload o.
Definition PutGuestVsockDefault_readResponse (o : PutGuestVsockDefault) (response : Response) : Err + PutGuestVsockDefault :=
  try_read (consume_payload response zero_Error) (λ payload, inr (mkPutGuestVsockDefault (PutGuestVsockDefault_statusCode o) (Some payload))).
Definition PutGuestVsockReader_ReadResponse (response : Response) : Err + (PutGuestVsockNoContent + PutGuestVsockDefault) :=
  let code := Response_Code response in
  if code =? 204 then
    try_read (PutGuestVsockNoContent_readResponse NewPutGuestVsockNoContent response) (λ result, inr (inl result))
  else if code =? 400 then
    try_read (PutGuestVsockBadRequest_readResponse NewPutGuestVsockBadRequest response) (λ result, inl (PutGuestVsockBadRequest_Error result))
  else
    try_read (PutGuestVsockDefault_readResponse (NewPutGuestVsockDefault code) response) (λ result,
      if Z.quot code 100 =? 2 then inr (inr result) else inl (PutGuestVsockDefault_Error result)).
Definition OpsClient_PutGuestVsock (params : option PutGuestVsockParams) : GoM Transport S error :=
  let params := match params with Some params => params | None => NewPutGuestVsockParams end in
  answer <- call (Submit (mkClientOperation "putGuestVsock" "PUT" "/vsock" ["application/json"] ["application/json"] ["http"]
    (PutGuestVsockParams_WriteToRequest params) (PutGuestVsockParams_Context params) (PutGuestVsockParams_HTTPClient params))) ;
  match try_read answer PutGuestVsockReader_ReadResponse with
  | inl err => go_ret (Some err)
  | inr (inl _) => go_ret None
  | inr (inr _) => go_panic "interface conversion"
  end.

(** ** PutLogger (src/client/operations/put_logger_parameters.go, put_logger_responses.go) *)
Definition PutLoggerParams_WriteToRequest (o : PutLoggerParams) (r : Request) : error * Request :=
  try_request (Request_SetTimeout r (PutLoggerParams_timeout o)) (λ r,
  try_request match PutLoggerParams_Body o with Some body => Request_SetBodyParam r (Body_Logger body) | None => (None, r) end (λ r,
  (None, r))).
Inductive PutLoggerNoContent := mkPutLoggerNoContent.
Definition NewPutLoggerNoContent : PutLoggerNoContent := mkPutLoggerNoContent.
Definition PutLoggerNoContent_Error (o : PutLoggerNoContent) : Err := ApiError "[PUT /logger][%d] putLoggerNoContent " 204 "".
Definition PutLoggerNoContent_readResponse (o : PutLoggerNoContent) (response : Response) : Err + PutLoggerNoContent := inr o.
Record PutLoggerBadRequest := mkPutLoggerBadRequest { PutLoggerBadRequest_Payload : option Error }.
Definition NewPutLoggerBadRequest : PutLoggerBadRequest := mkPutLoggerBadRequest None.
Definition PutLoggerBadRequest_Error (o : PutLoggerBadRequest) : Err := ApiError "[PUT /logger][%d] putLoggerBadRequest  %+v" 400 (fault (PutLoggerBadRequest_Payload o)).
Definition PutLoggerBadRequest_GetPayload (o : PutLoggerBadRequest) : option Error := PutLoggerBadRequest_Payload o.
Definition PutLoggerBadRequest_readResponse (o : PutLoggerBadRequest) (response : Response) : Err + PutLoggerBadRequest :=
  try_read (consume_payload response zero_Error) (λ payload, inr (mkPutLoggerBadRequest (Some payload))).
Record PutLoggerDefault := mkPutLoggerDefault { PutLoggerDefault_statusCode : Z; PutLoggerDefault_Payload : option Error }.
Definition NewPutLoggerDefault (code : Z) : PutLoggerDefault := mkPutLoggerDefault code None.
Definition PutLoggerDefault_Code (o : PutLoggerDefault) : Z := PutLoggerDefault_statusCode o.
Definition PutLoggerDefault_Error (o : PutLoggerDefault) : Err := ApiError "[PUT /logger][%d] putLogger default  %+v" (PutLoggerDefault_statusCode o) (fault (PutLoggerDefault_Payload o)).
Definition PutLoggerDefault_GetPayload (o : PutLoggerDefault) : option Error := PutLoggerDefault_Payload o.
Definition PutLoggerDefault_readResponse (o : PutLoggerDefault) (response : Response) : Err + PutLoggerDefault :=
  try_read (consume_payload response zero_Error) (λ payload, inr (mkPutLoggerDefault (PutLoggerDefault_statusCode o) (Some payload))).
Definition PutLoggerReader_ReadResponse (response : Response) : Err + (PutLoggerNoContent + PutLoggerDefault) :=
  let code := Response_Code response in
  if code =? 204 then
    try_read (PutLoggerNoContent_readResponse NewPutLoggerNoContent response) (λ result, inr (inl result))
  else if code =? 400 then
    try_read (PutLoggerBadRequest_readResponse NewPutLoggerBadRequest response) (λ result, inl (PutLoggerBadRequest_Error result))
  else
    try_read (PutLoggerDefault_readResponse (NewPutLoggerDefault code) response) (λ result,
      if Z.quot code 100 =? 2 then inr (inr result) else inl (PutLoggerDefault_Error result)).
Definition OpsClient_PutLogger (params : option PutLoggerParams) : GoM Transport S error :=
  let params := match params with Some params => params | None => NewPutLoggerParams end in
  answer <- call (Submit (mkClientOperation "putLogger" "PUT" "/logger" ["application/json"] ["application/json"] ["http"]
    (PutLoggerParams_WriteToRequest params) (PutLoggerParams_Context params) (PutLoggerParams_HTTPClient params))) ;
  match try_read answer PutLoggerReader_ReadResponse with
  | inl err => go_ret (Some err)
  | inr (inl _) => go_ret None
  | inr (inr _) => go_panic "interface conversion"
  end.

(** ** PutMachineConfiguration (src/client/operations/put_machine_configuration_parameters.go, put_machine_configuration_responses.go) *)
Definition PutMachineConfigurationParams_WriteToRequest (o : PutMachineConfigurationParams) (r : Request) : error * Request :=
  try_request (Request_SetTimeout r (PutMachineConfigurationParams_timeout o)) (λ r,
  try_request match PutMachineConfigurationParams_Body o with Some body => Request_SetBodyParam r (Body_MachineConfiguration body) | None => (None, r) end (λ r,
  (None, r))).
Inductive PutMachineConfigurationNoContent := mkPutMachineConfigurationNoContent.
Definition NewPutMachineConfigurationNoContent : PutMachineConfigurationNoContent := mkPutMachineConfigurationNoContent.
Definition PutMachineConfigurationNoContent_Error (o : PutMachineConfigurationNoContent) : Err := ApiError "[PUT /machine-config][%d] putMachineConfigurationNoContent " 204 "".
Definition PutMachineConfigurationNoContent_readResponse (o : PutMachineConfigurationNoContent) (response : Response) : Err + PutMachineConfigurationNoContent := inr o.
Record PutMachineConfigurationBadRequest := mkPutMachineConfigurationBadRequest { PutMachineConfigurationBadRequest_Payload : option Error }.
Definition NewPutMachineConfigurationBadRequest : PutMachineConfigurationBadRequest := mkPutMachineConfigurationBadRequest None.
Definition PutMachineConfigurationBadRequest_Error (o : PutMachineConfigurationBadRequest) : Err := ApiError "[PUT /machine-config][%d] putMachineConfigurationBadRequest  %+v" 400 (fault (PutMachineConfigurationBadRequest_Payload o)).
Definition PutMachineConfigurationBadRequest_GetPayload (o : PutMachineConfigurationBadRequest) : option Error := PutMachineConfigurationBadRequest_Payload o.
Definition PutMachineConfigurationBadRequest_readResponse (o : PutMachineConfigurationBadRequest) (response : Response) : Err + PutMachineConfigurationBadRequest :=
  try_read (consume_payload response zero_Error) (λ payload, inr (mkPutMachineConfigurationBadRequest (Some payload))).
Record PutMachineConfigurationDefault := mkPutMachineConfigurationDefault { PutMachineConfigurationDefault_statusCode : Z; PutMachineConfigurationDefault_Payload : option Error }.
Definition NewPutMachineConfigurationDefault (code : Z) : PutMachineConfigurationDefault := mkPutMachineConfigurationDefault code None.
Definition PutMachineConfigurationDefault_Code (o : PutMachineConfigurationDefault) : Z := PutMachineConfigurationDefault_statusCode o.
Definition PutMachineConfigurationDefault_Error (o : PutMachineConfigurationDefault) : Err := ApiError "[PUT /machine-config][%d] putMachineConfiguration default  %+v" (PutMachineConfigurationDefault_statusCode o) (fault (PutMachineConfigurationDefault_Payload o)).
Definition PutMachineConfigurationDefault_GetPayload (o : PutMachineConfigurationDefault) : option Error := PutMachineConfigurationDefault_Payload o.
Definition PutMachineConfigurationDefault_readResponse (o : PutMachineConfigurationDefault) (response : Response) : Err + PutMachineConfigurationDefault :=
  try_read (consume_payload response zero_Error) (λ payload, inr (mkPutMachineConfigurationDefault (PutMachineConfigurationDefault_statusCode o) (Some payload))).
Definition PutMachineConfigurationReader_ReadResponse (response : Response) : Err + (PutMachineConfigurationNoContent + PutMachineConfigurationDefault) :=
  let code := Response_Code response in
  if code =? 204 then
    try_read (PutMachineConfigurationNoContent_readResponse NewPutMachineConfigurationNoContent response) (λ result, inr (inl result))
  else if code =? 400 then
    try_read (PutMachineConfigurationBadRequest_readResponse NewPutMachineConfigurationBadRequest response) (λ result, inl (PutMachineConfigurationBadRequest_Error result))
  else
    try_read (PutMachineConfigurationDefault_readResponse (NewPutMachineConfigurationDefault code) response) (λ result,
      if Z.quot code 100 =? 2 then inr (inr result) else inl (PutMachineConfigurationDefault_Error result)).
Definition OpsClient_PutMachineConfiguration (params : option PutMachineConfigurationParams) : GoM Transport S error :=
  let params := match params with Some params => params | None => NewPutMachineConfigurationParams end in
  answer <- call (Submit (mkClientOperation "putMachineConfiguration" "PUT" "/machine-config" ["application/json"] ["application/json"] ["http"]
    (PutMachineConfigurationParams_WriteToRequest params) (PutMachineConfigurationParams_Context params) (PutMachineConfigurationParams_HTTPClient params))) ;
  match try_read answer PutMachineConfigurationReader_ReadResponse with
  | inl err => go_ret (Some err)
  | inr (inl _) => go_ret None
  | inr (inr _) => go_panic "interface conversion"
  end.

(** ** PutMetrics (src/client/operations/put_metrics_parameters.go, put_metrics_responses.go) *)
Definition PutMetricsParams_WriteToRequest (o : PutMetricsParams) (r : Request) : error * Request :=
  try_request (Request_SetTimeout r (PutMetricsParams_timeout o)) (λ r,
  try_request match PutMetricsParams_Body o with Some body => Request_SetBodyParam r (Body_Metrics body) | None => (None, r) end (λ r,
  (None, r))).
Inductive PutMetricsNoContent := mkPutMetricsNoContent.
Definition NewPutMetricsNoContent : PutMetricsNoContent := mkPutMetricsNoContent.
Definition PutMetricsNoContent_Error (o : PutMetricsNoContent) : Err := ApiError "[PUT /metrics][%d] putMetricsNoContent " 204 "".
Definition PutMetricsNoContent_readResponse (o : PutMetricsNoContent) (response : Response) : Err + PutMetricsNoContent := inr o.
Record PutMetricsBadRequest := mkPutMetricsBadRequest { PutMetricsBadRequest_Payload : option Error }.
Definition NewPutMetricsBadRequest : PutMetricsBadRequest := mkPutMetricsBadRequest None.
Definition PutMetricsBadRequest_Error (o : PutMetricsBadRequest) : Err := ApiError "[PUT /metrics][%d] putMetricsBadRequest  %+v" 400 (fault (PutMetricsBadRequest_Payload o)).
Definition PutMetricsBadRequest_GetPayload (o : PutMetricsBadRequest) : option Error := PutMetricsBadRequest_Payload o.
Definition PutMetricsBadRequest_readResponse (o : PutMetricsBadRequest) (response : Response) : Err + PutMetricsBadRequest :=
  try_read (consume_payload response zero_Error) (λ payload, inr (mkPutMetricsBadRequest (Some payload))).
Record PutMetricsDefault := mkPutMetricsDefault { PutMetricsDefault_statusCode : Z; PutMetricsDefault_Payload : option Error }.
Definition NewPutMetricsDefault (code : Z) : PutMetricsDefault := mkPutMetricsDefault code None.
Definition PutMetricsDefault_Code (o : PutMetricsDefault) : Z := PutMetricsDefault_statusCode o.
Definition PutMetricsDefault_Error (o : PutMetricsDefault) : Err := ApiError "[PUT /metrics][%d] putMetrics default  %+v" (PutMetricsDefault_statusCode o) (fault (PutMetricsDefault_Payload o)).
Definition PutMetricsDefault_GetPayload (o : PutMetricsDefault) : option Error := PutMetricsDefault_Payload o.
Definition PutMetricsDefault_readResponse (o : PutMetricsDefault) (response : Response) : Err + PutMetricsDefault :=
  try_read (consume_payload response zero_Error) (λ payload, inr (mkPutMetricsDefault (PutMetricsDefault_statusCode o) (Some payload))).
Definition PutMetricsReader_ReadResponse (response : Response) : Err + (PutMetricsNoContent + PutMetricsDefault) :=
  let code := Response_Code response in
  if code =? 204 then
    try_read (PutMetricsNoContent_readResponse NewPutMetricsNoContent response) (λ result, inr (inl result))
  else if code =? 400 then
    try_read (PutMetricsBadRequest_readResponse NewPutMetricsBadRequest response) (λ result, inl (PutMetricsBadRequest_Error result))
  else
    try_read (PutMetricsDefault_readResponse (NewPutMetricsDefault code) response) (λ result,
      if Z.quot code 100 =? 2 then inr (inr result) else inl (PutMetricsDefault_Error result)).
Definition OpsClient_PutMetrics (params : option PutMetricsParams) : GoM Transport S error :=
  let params := match params with Some params => params | None => NewPutMetricsParams end in
  answer <- call (Submit (mkClientOperation "putMetrics" "PUT" "/metrics" ["application/json"] ["application/json"] ["http"]
    (PutMetricsParams_WriteToRequest params) (PutMetricsParams_Context params) (PutMetricsParams_HTTPClient params))) ;
  match try_read answer PutMetricsReader_ReadResponse with
  | inl err => go_ret (Some err)
  | inr (inl _) => go_ret None
  | inr (inr _) => go_panic "interface conversion"
  end.

(** ** PutMmds (src/client/operations/put_mmds_parameters.go, put_mmds_responses.go) *)
Definition PutMmdsParams_WriteToRequest (o : PutMmdsParams) (r : Request) : error * Request :=
  try_request (Request_SetTimeout r (PutMmdsParams_timeout o)) (λ r,
  try_request match PutMmdsParams_Body o with Some body => Request_SetBodyParam r (Body_MmdsContentsObject body) | None => (None, r) end (λ r,
  (None, r))).
Inductive PutMmdsNoContent := mkPutMmdsNoContent.
Definition NewPutMmdsNoContent : PutMmdsNoContent := mkPutMmdsNoContent.
Definition PutMmdsNoContent_Error (o : PutMmdsNoContent) : Err := ApiError "[PUT /mmds][%d] putMmdsNoContent " 204 "".
Definition PutMmdsNoContent_readResponse (o : PutMmdsNoContent) (response : Response) : Err + PutMmdsNoContent := inr o.
Record PutMmdsBadRequest := mkPutMmdsBadRequest { PutMmdsBadRequest_Payload : option Error }.
Definition NewPutMmdsBadRequest : PutMmdsBadRequest := mkPutMmdsBadRequest None.
Definition PutMmdsBadRequest_Error (o : PutMmdsBadRequest) : Err := ApiError "[PUT /mmds][%d] putMmdsBadRequest  %+v" 400 (fault (PutMmdsBadRequest_Payload o)).
Definition PutMmdsBadRequest_GetPayload (o : PutMmdsBadRequest) : option Error := PutMmdsBadRequest_Payload o.
Definition PutMmdsBadRequest_readResponse (o : PutMmdsBadRequest) (response : Response) : Err + PutMmdsBadRequest :=
  try_read (consume_payload response zero_Error) (λ payload, inr (mkPutMmdsBadRequest (Some payload))).
Record PutMmdsDefault := mkPutMmdsDefault { PutMmdsDefault_statusCode : Z; PutMmdsDefault_Payload : option Error }.
Definition NewPutMmdsDefault (code : Z) : PutMmdsDefault := mkPutMmdsDefault code None.
Definition PutMmdsDefault_Code (o : PutMmdsDefault) : Z := PutMmdsDefault_statusCode o.
Definition PutMmdsDefault_Error (o : PutMmdsDefault) : Err := ApiError "[PUT /mmds][%d] putMmds default  %+v" (PutMmdsDefault_statusCode o) (fault (PutMmdsDefault_Payload o)).
Definition PutMmdsDefault_GetPayload (o : PutMmdsDefault) : option Error := PutMmdsDefault_Payload o.
Definition PutMmdsDefault_readResponse (o : PutMmdsDefault) (response : Response) : Err + PutMmdsDefault :=
  try_read (consume_payload response zero_Error) (λ payload, inr (mkPutMmdsDefault (PutMmdsDefault_statusCode o) (Some payload))).
Definition PutMmdsReader_ReadResponse (response : Response) : Err + (PutMmdsNoContent + PutMmdsDefault) :=
  let code := Response_Code response in
  if code =? 204 then
    try_read (PutMmdsNoContent_readResponse NewPutMmdsNoContent response) (λ result, inr (inl result))
  else if code =? 400 then
    try_read (PutMmdsBadRequest_readResponse NewPutMmdsBadRequest response) (λ result, inl (PutMmdsBadRequest_Error result))
  else
    try_read (PutMmdsDefault_readResponse (NewPutMmdsDefault code) response) (λ result,
      if Z.quot code 100 =? 2 then inr (inr result) else inl (PutMmdsDefault_Error result)).
Definition OpsClient_PutMmds (params : option PutMmdsParams) : GoM Transport S error :=
  let params := match params with Some params => params | None => NewPutMmdsParams end in
  answer <- call (Submit (mkClientOperation "putMmds" "PUT" "/mmds" ["application/json"] ["application/json"] ["http"]
    (PutMmdsParams_WriteToRequest params) (PutMmdsParams_Context params) (PutMmdsParams_HTTPClient params))) ;
  match try_read answer PutMmdsReader_ReadResponse with
  | inl err => go_ret (Some err)
  | inr (inl _) => go_ret None
  | inr (inr _) => go_panic "interface conversion"
  end.

(** ** PutMmdsConfig (src/client/operations/put_mmds_config_parameters.go, put_mmds_config_responses.go) *)
Definition PutMmdsConfigParams_WriteToRequest (o : PutMmdsConfigParams) (r : Request) : error * Request :=
  try_request (Request_SetTimeout r (PutMmdsConfigParams_timeout o)) (λ r,
  try_request match PutMmdsConfigParams_Body o with Some body => Request_SetBodyParam r (Body_MmdsConfig body) | None => (None, r) end (λ r,
  (None, r))).
Inductive PutMmdsConfigNoContent := mkPutMmdsConfigNoContent.
Definition NewPutMmdsConfigNoContent : PutMmdsConfigNoContent := mkPutMmdsConfigNoContent.
Definition PutMmdsConfigNoContent_Error (o : PutMmdsConfigNoContent) : Err := ApiError "[PUT /mmds/config][%d] putMmdsConfigNoContent " 204 "".
Definition PutMmdsConfigNoContent_readResponse (o : PutMmdsConfigNoContent) (response : Response) : Err + PutMmdsConfigNoContent := inr o.
Record PutMmdsConfigBadRequest := mkPutMmdsConfigBadRequest { PutMmdsConfigBadRequest_Payload : option Error }.
Definition NewPutMmdsConfigBadRequest : PutMmdsConfigBadRequest := mkPutMmdsConfigBadRequest None.
Definition PutMmdsConfigBadRequest_Error (o : PutMmdsConfigBadRequest) : Err := ApiError "[PUT /mmds/config][%d] putMmdsConfigBadRequest  %+v" 400 (fault (PutMmdsConfigBadRequest_Payload o)).
Definition PutMmdsConfigBadRequest_GetPayload (o : PutMmdsConfigBadRequest) : option Error := PutMmdsConfigBadRequest_Payload o.
Definition PutMmdsConfigBadRequest_readResponse (o : PutMmdsConfigBadRequest) (response : Response) : Err + PutMmdsConfigBadRequest :=
  try_read (consume_payload response zero_Error) (λ payload, inr (mkPutMmdsConfigBadRequest (Some payload))).
Record PutMmdsConfigDefault := mkPutMmdsConfigDefault { PutMmdsConfigDefault_statusCode : Z; PutMmdsConfigDefault_Payload : option Error }.
Definition NewPutMmdsConfigDefault (code : Z) : PutMmdsConfigDefault := mkPutMmdsConfigDefault code None.
Definition PutMmdsConfigDefault_Code (o : PutMmdsConfigDefault) : Z := PutMmdsConfigDefault_statusCode o.
Definition PutMmdsConfigDefault_Error (o : PutMmdsConfigDefault) : Err := ApiError "[PUT /mmds/config][%d] putMmdsConfig default  %+v" (PutMmdsConfigDefault_statusCode o) (fault (PutMmdsConfigDefault_Payload o)).
Definition PutMmdsConfigDefault_GetPayload (o : PutMmdsConfigDefault) : option Error := PutMmdsConfigDefault_Payload o.
Definition PutMmdsConfigDefault_readResponse (o : PutMmdsConfigDefault) (response : Response) : Err + PutMmdsConfigDefault :=
  try_read (consume_payload response zero_Error) (λ payload, inr (mkPutMmdsConfigDefault (PutMmdsConfigDefault_statusCode o) (Some payload))).
Definition PutMmdsConfigReader_ReadResponse (response : Response) : Err + (PutMmdsConfigNoContent + PutMmdsConfigDefault) :=
  let code := Response_Code response in
  if code =? 204 then
    try_read (PutMmdsConfigNoContent_readResponse NewPutMmdsConfigNoContent response) (λ result, inr (inl result))
  else if code =? 400 then
    try_read (PutMmdsConfigBadRequest_readResponse NewPutMmdsConfigBadRequest response) (λ result, inl (PutMmdsConfigBadRequest_Error result))
  else
    try_read (PutMmdsConfigDefault_readResponse (NewPutMmdsConfigDefault code) response) (λ result,
      if Z.quot code 100 =? 2 then inr (inr result) else inl (PutMmdsConfigDefault_Error result)).
Definition OpsClient_PutMmdsConfig (params : option PutMmdsConfigParams) : GoM Transport S error :=
  let params := match params with Some params => params | None => NewPutMmdsConfigParams end in
  answer <- call (Submit (mkClientOperation "putMmdsConfig" "PUT" "/mmds/config" ["application/json"] ["application/json"] ["http"]
    (PutMmdsConfigParams_WriteToRequest params) (PutMmdsConfigParams_Context params) (PutMmdsConfigParams_HTTPClient params))) ;
  match try_read answer PutMmdsConfigReader_ReadResponse with
  | inl err => go_ret (Some err)
  | inr (inl _) => go_ret None
  | inr (inr _) => go_panic "interface conversion"
  end.

(** ** The client as an implementation of [ClientIface] *)
Definition OpsClient {T} (c : ClientIface T) : GoM Transport S T :=
  match c with
  | Ops_CreateSnapshot params => OpsClient_CreateSnapshot (Some params)
  | Ops_CreateSyncAction params => OpsClient_CreateSyncAction (Some params)
  | Ops_DescribeBalloonConfig params => OpsClient_DescribeBalloonConfig (Some params)
  | Ops_DescribeBalloonStats params => OpsClient_DescribeBalloonStats (Some params)
  | Ops_DescribeInstance params => OpsClient_DescribeInstance (Some params)
  | Ops_GetExportVMConfig params => OpsClient_GetExportVMConfig (Some params)
  | Ops_GetFirecrackerVersion params => OpsClient_GetFirecrackerVersion (Some params)
  | Ops_GetMachineConfiguration params => OpsClient_GetMachineConfiguration (Some params)
  | Ops_GetMmds params => OpsClient_GetMmds (Some params)
  | Ops_LoadSnapshot params => OpsClient_LoadSnapshot (Some params)
  | Ops_PatchBalloon params => OpsClient_PatchBalloon (Some params)
  | Ops_PatchBalloonStatsInterval params => OpsClient_PatchBalloonStatsInterval (Some params)
  | Ops_PatchGuestDriveByID params => OpsClient_PatchGuestDriveByID (Some params)
  | Ops_PatchGuestNetworkInterfaceByID params => OpsClient_PatchGuestNetworkInterfaceByID (Some params)
  | Ops_PatchMachineConfiguration params => OpsClient_PatchMachineConfiguration (Some params)
  | Ops_PatchMmds params => OpsClient_PatchMmds (Some params)
  | Ops_PatchVM params => OpsClient_PatchVM (Some params)
  | Ops_PutBalloon params => OpsClient_PutBalloon (Some params)
  | Ops_PutCPUConfiguration params => OpsClient_PutCPUConfiguration (Some params)
  | Ops_PutEntropyDevice params => OpsClient_PutEntropyDevice (Some params)
  | Ops_PutGuestBootSource params => OpsClient_PutGuestBootSource (Some params)
  | Ops_PutGuestDriveByID params => OpsClient_PutGuestDriveByID (Some params)
  | Ops_PutGuestNetworkInterfaceByID params => OpsClient_PutGuestNetworkInterfaceByID (Some params)
  | Ops_PutGuestVsock params => OpsClient_PutGuestVsock (Some params)
  | Ops_PutLogger params => OpsClient_PutLogger (Some params)
  | Ops_PutMachineConfiguration params => OpsClient_PutMachineConfiguration (Some params)
  | Ops_PutMetrics params => OpsClient_PutMetrics (Some params)
  | Ops_PutMmds params => OpsClient_PutMmds (Some params)
  | Ops_PutMmdsConfig params => OpsClient_PutMmdsConfig (Some params)
  end.

(** The writer of the parameters of a call. *)
Definition WriteToRequest {T} (c : ClientIface T) : Request → error * Request :=
  match c with
  | Ops_CreateSnapshot params => CreateSnapshotParams_WriteToRequest params
  | Ops_CreateSyncAction params => CreateSyncActionParams_WriteToRequest params
  | Ops_DescribeBalloonConfig params => DescribeBalloonConfigParams_WriteToRequest params
  | Ops_DescribeBalloonStats params => DescribeBalloonStatsParams_WriteToRequest params
  | Ops_DescribeInstance params => DescribeInstanceParams_WriteToRequest params
  | Ops_GetExportVMConfig params => GetExportVMConfigParams_WriteToRequest params
  | Ops_GetFirecrackerVersion params => GetFirecrackerVersionParams_WriteToRequest params
  | Ops_GetMachineConfiguration params => GetMachineConfigurationParams_WriteToRequest params
  | Ops_GetMmds params => GetMmdsParams_WriteToRequest params
  | Ops_LoadSnapshot params => LoadSnapshotParams_WriteToRequest params
  | Ops_PatchBalloon params => PatchBalloonParams_WriteToRequest params
  | Ops_PatchBalloonStatsInterval params => PatchBalloonStatsIntervalParams_WriteToRequest params
  | Ops_PatchGuestDriveByID params => PatchGuestDriveByIDParams_WriteToRequest params
  | Ops_PatchGuestNetworkInterfaceByID params => PatchGuestNetworkInterfaceByIDParams_WriteToRequest params
  | Ops_PatchMachineConfiguration params => PatchMachineConfigurationParams_WriteToRequest params
  | Ops_PatchMmds params => PatchMmdsParams_WriteToRequest params
  | Ops_PatchVM params => PatchVMParams_WriteToRequest params
  | Ops_PutBalloon params => PutBalloonParams_WriteToRequest params
  | Ops_PutCPUConfiguration params => PutCPUConfigurationParams_WriteToRequest params
  | Ops_PutEntropyDevice params => PutEntropyDeviceParams_WriteToRequest params
  | Ops_PutGuestBootSource params => PutGuestBootSourceParams_WriteToRequest params
  | Ops_PutGuestDriveByID params => PutGuestDriveByIDParams_WriteToRequest params
  | Ops_PutGuestNetworkInterfaceByID params => PutGuestNetworkInterfaceByIDParams_WriteToRequest params
  | Ops_PutGuestVsock params => PutGuestVsockParams_WriteToRequest params
  | Ops_PutLogger params => PutLoggerParams_WriteToRequest params
  | Ops_PutMachineConfiguration params => PutMachineConfigurationParams_WriteToRequest params
  | Ops_PutMetrics params => PutMetricsParams_WriteToRequest params
  | Ops_PutMmds params => PutMmdsParams_WriteToRequest params
  | Ops_PutMmdsConfig params => PutMmdsConfigParams_WriteToRequest params
  end.
End operations.

(** ** The API of the server (src/client/swagger.yaml) *)

(** Method and path of each operation. *)
Definition endpoint {T} (c : ClientIface T) : string * string :=
  match c with
  | Ops_CreateSnapshot _ => ("PUT", "/snapshot/create")
  | Ops_CreateSyncAction _ => ("PUT", "/actions")
  | Ops_DescribeBalloonConfig _ => ("GET", "/balloon")
  | Ops_DescribeBalloonStats _ => ("GET", "/balloon/statistics")
  | Ops_DescribeInstance _ => ("GET", "/")
  | Ops_GetExportVMConfig _ => ("GET", "/vm/config")
  | Ops_GetFirecrackerVersion _ => ("GET", "/version")
  | Ops_GetMachineConfiguration _ => ("GET", "/machine-config")
  | Ops_GetMmds _ => ("GET", "/mmds")
  | Ops_LoadSnapshot _ => ("PUT", "/snapshot/load")
  | Ops_PatchBalloon _ => ("PATCH", "/balloon")
  | Ops_PatchBalloonStatsInterval _ => ("PATCH", "/balloon/statistics")
  | Ops_PatchGuestDriveByID _ => ("PATCH", "/drives/{drive_id}")
  | Ops_PatchGuestNetworkInterfaceByID _ => ("PATCH", "/network-interfaces/{iface_id}")
  | Ops_PatchMachineConfiguration _ => ("PATCH", "/machine-config")
  | Ops_PatchMmds _ => ("PATCH", "/mmds")
  | Ops_PatchVM _ => ("PATCH", "/vm")
  | Ops_PutBalloon _ => ("PUT", "/balloon")
  | Ops_PutCPUConfiguration _ => ("PUT", "/cpu-config")
  | Ops_PutEntropyDevice _ => ("PUT", "/entropy")
  | Ops_PutGuestBootSource _ => ("PUT", "/boot-source")
  | Ops_PutGuestDriveByID _ => ("PUT", "/drives/{drive_id}")
  | Ops_PutGuestNetworkInterfaceByID _ => ("PUT", "/network-interfaces/{iface_id}")
  | Ops_PutGuestVsock _ => ("PUT", "/vsock")
  | Ops_PutLogger _ => ("PUT", "/logger")
  | Ops_PutMachineConfiguration _ => ("PUT", "/machine-config")
  | Ops_PutMetrics _ => ("PUT", "/metrics")
  | Ops_PutMmds _ => ("PUT", "/mmds")
  | Ops_PutMmdsConfig _ => ("PUT", "/mmds/config")
  end.

(** The one success code each operation documents. *)
Definition success_code {T} (c : ClientIface T) : Z :=
  match c with
  | Ops_CreateSnapshot _ => 204
  | Ops_CreateSyncAction _ => 204
  | Ops_DescribeBalloonConfig _ => 200
  | Ops_DescribeBalloonStats _ => 200
  | Ops_DescribeInstance _ => 200
  | Ops_GetExportVMConfig _ => 200
  | Ops_GetFirecrackerVersion _ => 200
  | Ops_GetMachineConfiguration _ => 200
  | Ops_GetMmds _ => 200
  | Ops_LoadSnapshot _ => 204
  | Ops_PatchBalloon _ => 204
  | Ops_PatchBalloonStatsInterval _ => 204
  | Ops_PatchGuestDriveByID _ => 204
  | Ops_PatchGuestNetworkInterfaceByID _ => 204
  | Ops_PatchMachineConfiguration _ => 204
  | Ops_PatchMmds _ => 204
  | Ops_PatchVM _ => 204
  | Ops_PutBalloon _ => 204
  | Ops_PutCPUConfiguration _ => 204
  | Ops_PutEntropyDevice _ => 204
  | Ops_PutGuestBootSource _ => 204
  | Ops_PutGuestDriveByID _ => 204
  | Ops_PutGuestNetworkInterfaceByID _ => 204
  | Ops_PutGuestVsock _ => 204
  | Ops_PutLogger _ => 204
  | Ops_PutMachineConfiguration _ => 204
  | Ops_PutMetrics _ => 204
  | Ops_PutMmds _ => 204
  | Ops_PutMmdsConfig _ => 204
  end.

(** The result of an operation that failed with an error. *)
Definition failed {T} (c : ClientIface T) (err : Err) : T :=
  match c in ClientIface T return T with
  | Ops_CreateSnapshot _ => Some err
  | Ops_CreateSyncAction _ => Some err
  | Ops_DescribeBalloonConfig _ => inl err
  | Ops_DescribeBalloonStats _ => inl err
  | Ops_DescribeInstance _ => inl err
  | Ops_GetExportVMConfig _ => inl err
  | Ops_GetFirecrackerVersion _ => inl err
  | Ops_GetMachineConfiguration _ => inl err
  | Ops_GetMmds _ => inl err
  | Ops_LoadSnapshot _ => Some err
  | Ops_PatchBalloon _ => Some err
  | Ops_PatchBalloonStatsInterval _ => Some err
  | Ops_PatchGuestDriveByID _ => Some err
  | Ops_PatchGuestNetworkInterfaceByID _ => Some err
  | Ops_PatchMachineConfiguration _ => Some err
  | Ops_PatchMmds _ => Some err
  | Ops_PatchVM _ => Some err
  | Ops_PutBalloon _ => Some err
  | Ops_PutCPUConfiguration _ => Some err
  | Ops_PutEntropyDevice _ => Some err
  | Ops_PutGuestBootSource _ => Some err
  | Ops_PutGuestDriveByID _ => Some err
  | Ops_PutGuestNetworkInterfaceByID _ => Some err
  | Ops_PutGuestVsock _ => Some err
  | Ops_PutLogger _ => Some err
  | Ops_PutMachineConfiguration _ => Some err
  | Ops_PutMetrics _ => Some err
  | Ops_PutMmds _ => Some err
  | Ops_PutMmdsConfig _ => Some err
  end.

(** The writers, to be unfolded together. *)
Create HintDb writers.
#[export] Hint Unfold CreateSnapshotParams_WriteToRequest CreateSyncActionParams_WriteToRequest DescribeBalloonConfigParams_WriteToRequest DescribeBalloonStatsParams_WriteToRequest : writers.
#[export] Hint Unfold DescribeInstanceParams_WriteToRequest GetExportVMConfigParams_WriteToRequest GetFirecrackerVersionParams_WriteToRequest GetMachineConfigurationParams_WriteToRequest : writers.
#[export] Hint Unfold GetMmdsParams_WriteToRequest LoadSnapshotParams_WriteToRequest PatchBalloonParams_WriteToRequest PatchBalloonStatsIntervalParams_WriteToRequest : writers.
#[export] Hint Unfold PatchGuestDriveByIDParams_WriteToRequest PatchGuestNetworkInterfaceByIDParams_WriteToRequest PatchMachineConfigurationParams_WriteToRequest PatchMmdsParams_WriteToRequest : writers.
#[export] Hint Unfold PatchVMParams_WriteToRequest PutBalloonParams_WriteToRequest PutCPUConfigurationParams_WriteToRequest PutEntropyDeviceParams_WriteToRequest : writers.
#[export] Hint Unfold PutGuestBootSourceParams_WriteToRequest PutGuestDriveByIDParams_WriteToRequest PutGuestNetworkInterfaceByIDParams_WriteToRequest PutGuestVsockParams_WriteToRequest : writers.
#[export] Hint Unfold PutLoggerParams_WriteToRequest PutMachineConfigurationParams_WriteToRequest PutMetricsParams_WriteToRequest PutMmdsParams_WriteToRequest : writers.
#[export] Hint Unfold PutMmdsConfigParams_WriteToRequest : writers.
(** The definitions of the operations, to be unfolded together. *)
Create HintDb api.
#[export] Hint Unfold OpsClient_CreateSnapshot CreateSnapshotReader_ReadResponse CreateSnapshotDefault_readResponse CreateSnapshotNoContent_readResponse CreateSnapshotBadRequest_readResponse OpsClient_CreateSyncAction : api.
#[export] Hint Unfold CreateSyncActionReader_ReadResponse CreateSyncActionDefault_readResponse CreateSyncActionNoContent_readResponse CreateSyncActionBadRequest_readResponse OpsClient_DescribeBalloonConfig DescribeBalloonConfigReader_ReadResponse : api.
#[export] Hint Unfold DescribeBalloonConfigDefault_readResponse DescribeBalloonConfigOK_readResponse DescribeBalloonConfigBadRequest_readResponse OpsClient_DescribeBalloonStats DescribeBalloonStatsReader_ReadResponse DescribeBalloonStatsDefault_readResponse : api.
#[export] Hint Unfold DescribeBalloonStatsOK_readResponse DescribeBalloonStatsBadRequest_readResponse OpsClient_DescribeInstance DescribeInstanceReader_ReadResponse DescribeInstanceDefault_readResponse DescribeInstanceOK_readResponse : api.
#[export] Hint Unfold OpsClient_GetExportVMConfig GetExportVMConfigReader_ReadResponse GetExportVMConfigDefault_readResponse GetExportVMConfigOK_readResponse OpsClient_GetFirecrackerVersion GetFirecrackerVersionReader_ReadResponse : api.
#[export] Hint Unfold GetFirecrackerVersionDefault_readResponse GetFirecrackerVersionOK_readResponse OpsClient_GetMachineConfiguration GetMachineConfigurationReader_ReadResponse GetMachineConfigurationDefault_readResponse GetMachineConfigurationOK_readResponse : api.
#[export] Hint Unfold OpsClient_GetMmds GetMmdsReader_ReadResponse GetMmdsDefault_readResponse GetMmdsOK_readResponse GetMmdsNotFound_readResponse OpsClient_LoadSnapshot : api.
#[export] Hint Unfold LoadSnapshotReader_ReadResponse LoadSnapshotDefault_readResponse LoadSnapshotNoContent_readResponse LoadSnapshotBadRequest_readResponse OpsClient_PatchBalloon PatchBalloonReader_ReadResponse : api.
#[export] Hint Unfold PatchBalloonDefault_readResponse PatchBalloonNoContent_readResponse PatchBalloonBadRequest_readResponse OpsClient_PatchBalloonStatsInterval PatchBalloonStatsIntervalReader_ReadResponse PatchBalloonStatsIntervalDefault_readResponse : api.
#[export] Hint Unfold PatchBalloonStatsIntervalNoContent_readResponse PatchBalloonStatsIntervalBadRequest_readResponse OpsClient_PatchGuestDriveByID PatchGuestDriveByIDReader_ReadResponse PatchGuestDriveByIDDefault_readResponse PatchGuestDriveByIDNoContent_readResponse : api.
#[export] Hint Unfold PatchGuestDriveByIDBadRequest_readResponse OpsClient_PatchGuestNetworkInterfaceByID PatchGuestNetworkInterfaceByIDReader_ReadResponse PatchGuestNetworkInterfaceByIDDefault_readResponse PatchGuestNetworkInterfaceByIDNoContent_readResponse PatchGuestNetworkInterfaceByIDBadRequest_readResponse : api.
#[export] Hint Unfold OpsClient_PatchMachineConfiguration PatchMachineConfigurationReader_ReadResponse PatchMachineConfigurationDefault_readResponse PatchMachineConfigurationNoContent_readResponse PatchMachineConfigurationBadRequest_readResponse OpsClient_PatchMmds : api.
#[export] Hint Unfold PatchMmdsReader_ReadResponse PatchMmdsDefault_readResponse PatchMmdsNoContent_readResponse PatchMmdsBadRequest_readResponse OpsClient_PatchVM PatchVMReader_ReadResponse : api.
#[export] Hint Unfold PatchVMDefault_readResponse PatchVMNoContent_readResponse PatchVMBadRequest_readResponse OpsClient_PutBalloon PutBalloonReader_ReadResponse PutBalloonDefault_readResponse : api.
#[export] Hint Unfold PutBalloonNoContent_readResponse PutBalloonBadRequest_readResponse OpsClient_PutCPUConfiguration PutCPUConfigurationReader_ReadResponse PutCPUConfigurationDefault_readResponse PutCPUConfigurationNoContent_readResponse : api.
#[export] Hint Unfold PutCPUConfigurationBadRequest_readResponse OpsClient_PutEntropyDevice PutEntropyDeviceReader_ReadResponse PutEntropyDeviceDefault_readResponse PutEntropyDeviceNoContent_readResponse OpsClient_PutGuestBootSource : api.
#[export] Hint Unfold PutGuestBootSourceReader_ReadResponse PutGuestBootSourceDefault_readResponse PutGuestBootSourceNoContent_readResponse PutGuestBootSourceBadRequest_readResponse OpsClient_PutGuestDriveByID PutGuestDriveByIDReader_ReadResponse : api.
#[export] Hint Unfold PutGuestDriveByIDDefault_readResponse PutGuestDriveByIDNoContent_readResponse PutGuestDriveByIDBadRequest_readResponse OpsClient_PutGuestNetworkInterfaceByID PutGuestNetworkInterfaceByIDReader_ReadResponse PutGuestNetworkInterfaceByIDDefault_readResponse : api.
#[export] Hint Unfold PutGuestNetworkInterfaceByIDNoContent_readResponse PutGuestNetworkInterfaceByIDBadRequest_readResponse OpsClient_PutGuestVsock PutGuestVsockReader_ReadResponse PutGuestVsockDefault_readResponse PutGuestVsockNoContent_readResponse : api.
#[export] Hint Unfold PutGuestVsockBadRequest_readResponse OpsClient_PutLogger PutLoggerReader_ReadResponse PutLoggerDefault_readResponse PutLoggerNoContent_readResponse PutLoggerBadRequest_readResponse : api.
#[export] Hint Unfold OpsClient_PutMachineConfiguration PutMachineConfigurationReader_ReadResponse PutMachineConfigurationDefault_readResponse PutMachineConfigurationNoContent_readResponse PutMachineConfigurationBadRequest_readResponse OpsClient_PutMetrics : api.
#[export] Hint Unfold PutMetricsReader_ReadResponse PutMetricsDefault_readResponse PutMetricsNoContent_readResponse PutMetricsBadRequest_readResponse OpsClient_PutMmds PutMmdsReader_ReadResponse : api.
#[export] Hint Unfold PutMmdsDefault_readResponse PutMmdsNoContent_readResponse PutMmdsBadRequest_readResponse OpsClient_PutMmdsConfig PutMmdsConfigReader_ReadResponse PutMmdsConfigDefault_readResponse : api.
#[export] Hint Unfold PutMmdsConfigNoContent_readResponse PutMmdsConfigBadRequest_readResponse : api.
(** ** Properties *)
Section theorems.
Context `{ClientRequest} `{Consumer} `{DefaultTimeout} {S : Type}.

(** The value of the operations whose success has no content: nil. *)
Definition no_content {T} (c : ClientIface T) : option T :=
  match c in ClientIface T return option T with
  | Ops_DescribeBalloonConfig _ => None
  | Ops_DescribeBalloonStats _ => None
  | Ops_DescribeInstance _ => None
  | Ops_GetExportVMConfig _ => None
  | Ops_GetFirecrackerVersion _ => None
  | Ops_GetMachineConfiguration _ => None
  | Ops_GetMmds _ => None
  | Ops_CreateSnapshot _ => Some None
  | Ops_CreateSyncAction _ => Some None
  | Ops_LoadSnapshot _ => Some None
  | Ops_PatchBalloon _ => Some None
  | Ops_PatchBalloonStatsInterval _ => Some None
  | Ops_PatchGuestDriveByID _ => Some None
  | Ops_PatchGuestNetworkInterfaceByID _ => Some None
  | Ops_PatchMachineConfiguration _ => Some None
  | Ops_PatchMmds _ => Some None
  | Ops_PatchVM _ => Some None
  | Ops_PutBalloon _ => Some None
  | Ops_PutCPUConfiguration _ => Some None
  | Ops_PutEntropyDevice _ => Some None
  | Ops_PutGuestBootSource _ => Some None
  | Ops_PutGuestDriveByID _ => Some None
  | Ops_PutGuestNetworkInterfaceByID _ => Some None
  | Ops_PutGuestVsock _ => Some None
  | Ops_PutLogger _ => Some None
  | Ops_PutMachineConfiguration _ => Some None
  | Ops_PutMetrics _ => Some None
  | Ops_PutMmds _ => Some None
  | Ops_PutMmdsConfig _ => Some None
  end.

(** What a call returns for a response: a value for the documented success code (nil
    where it has no content).  Any other body is read as an [Error]: when that fails
    its error is returned; otherwise a code outside 2xx gives an error with the code
    and the fault message, and another 2xx code a panic (the type assertion on the
    result of the reader). *)
Definition response_outcome {T} (c : ClientIface T) (response : Response) (r : Outcome T) : Prop :=
  let code := Response_Code response in
  if decide (code = success_code c) then is_val r ∧ (∀ v, no_content c = Some v → r = Val v)
  else match consume_payload response zero_Error with
       | inl err => r = Val (failed c err)
       | inr payload =>
           if decide (Z.quot code 100 = 2) then is_panic r
           else ∃ format, r = Val (failed c (ApiError format code (fault (Some payload))))
       end.

(** Case analysis along the reader of an operation. *)
Ltac read_cases :=
  repeat match goal with
    | |- context [Response_Code ?r =? ?n] => destruct (Z.eqb_spec (Response_Code r) n)
    | |- context [Z.quot ?n ?m =? 2] => destruct (Z.eqb_spec (Z.quot n m) 2)
    | |- context [consume_payload ?r ?z] => destruct (consume_payload r z) eqn:?
    end.

Ltac solve_outcome :=
  unfold response_outcome, is_val, is_panic; cbn [success_code failed no_content];
  repeat match goal with
    | H : Response_Code ?r = _ |- context [Response_Code ?r] => rewrite H
    | H : consume_payload ?r ?z = _ |- context [consume_payload ?r ?z] => rewrite H
    | |- context [decide ?P] => destruct (decide P)
    end; first [split; [|intros v Hv; simplify_eq; reflexivity]|idtac]; solve [eauto | congruence | discriminate].

(** The submission, the outcome for each answer, and that nothing else happens. *)
Lemma OpsClient_run {T} (c : ClientIface T) (o : Oracle Transport) (s : S) h :
  ∃ op r, let a := o h _ (Submit op) in
    (Method op, PathPattern op) = endpoint c ∧ Params op = WriteToRequest c ∧
    Operation_Context op = params_Context c ∧
    OpsClient c o s h = (r, s, h ++ [Event (Submit op) a]) ∧
    match a with
    | inl err => r = Val (failed c err)
    | inr response => response_outcome c response r
    end.
Proof.
  destruct c; cbn [OpsClient]; autounfold with api; unfold go_bind, call, try_read;
    match goal with |- context [Submit ?op] =>
      exists op; destruct (o h _ (Submit op)) as [err|response] eqn:Ha;
      cbv zeta;
      [ eexists; repeat (split; [reflexivity|]); reflexivity
      | read_cases; eexists; repeat (split; [reflexivity|]); solve_outcome ]
    end.
Qed.

(** C25. Every operation of the generated client makes exactly one submission, with
    the method and path of the API, the context of its parameters and the writer
    of its parameters.  A transport error is returned; a response with the
    documented success code gives a value (nil where there is no content), one
    outside 2xx an error with its code and fault message, and a 2xx response with
    another code panics. *)
Theorem OpsClient_outcome {T} (c : ClientIface T) (o : Oracle Transport) (s : S) h :
  ∃ op r, let a := o h _ (Submit op) in
    (Method op, PathPattern op) = endpoint c ∧ Params op = WriteToRequest c ∧
    Operation_Context op = params_Context c ∧
    OpsClient c o s h = (r, s, h ++ [Event (Submit op) a]) ∧
    match a with
    | inl err => r = Val (failed c err)
    | inr response => response_outcome c response r
    end.
Proof. apply OpsClient_run. Qed.
End theorems.

(** ** What the writers put in a request *)

(** One call on the request. *)
Inductive setting :=
  | SetTimeout (timeout : Z)
  | SetBodyParam (body : AnyBody)
  | SetPathParam (name value : string).

(** A request that accepts and records every setting. *)
#[export] Instance recorder : ClientRequest := {
  Request := list setting;
  Request_SetTimeout r timeout := (None, r ++ [SetTimeout timeout]);
  Request_SetBodyParam r body := (None, r ++ [SetBodyParam body]);
  Request_SetPathParam r name value := (None, r ++ [SetPathParam name value])
}.

Definition path_param (x : setting) : option string :=
  match x with SetPathParam name _ => Some name | _ => None end.
Definition is_body (x : setting) : bool :=
  match x with SetBodyParam _ => true | _ => false end.

(** The names in braces of a path pattern. *)
Definition placeholders (path : string) : list string :=
  omap (λ segment,
    match segment with
    | String "{" name => Some (strings_TrimSuffix name "}")
    | _ => None
    end) (strings_Split path "/"%char).

(** The writer of every operation sets the timeout of its parameters first,
    then exactly the path parameters the pattern of the operation names, gives at
    most one body, and none to a GET request. *)
Theorem WriteToRequest_settings {T} (c : ClientIface T) (r : list setting) :
  ∃ settings,
    WriteToRequest c r = (None, r ++ SetTimeout (params_timeout c) :: settings) ∧
    omap path_param settings = placeholders (endpoint c).2 ∧
    (length (filter is_body settings) ≤ 1)%nat ∧
    ((endpoint c).1 = "GET" → settings = []).
Proof.
  destruct c as [p|p|p|p|p|p|p|p|p|p|p|p|p|p|p|p|p|p|p|p|p|p|p|p|p|p|p|p|p];
    cbn [WriteToRequest]; autounfold with writers; unfold try_request; cbn;
    rewrite <- ?app_assoc; cbn;
    try (match goal with |- context [match ?b with Some _ => _ | None => _ end] => destruct b end;
         rewrite <- ?app_assoc; cbn);
    (eexists; split; [reflexivity|]; split; [reflexivity|]; split; [vm_compute; lia | first [done | discriminate]]).
Qed.
