(* ===== verification/Netlink.v ===== *)
(** * Netlink operations (src/cni/internal/netlink.go)

    [defaultNetlinkOps] over the calls of github.com/vishvananda/netlink and
    golang.org/x/sys/unix, which are calls of the environment; the numeric
    constants of those packages are the class [NetlinkConstants].  The interface
    [NetlinkOps] is a class with [DefaultNetlinkOps] as its instance. *)

From stdpp Require Import strings list.
From Stdlib Require Import ZArith Lia.
From S2P Require Import Prelude GoStrings.

Open Scope string_scope.
Open Scope list_scope.
Open Scope Z_scope.

(** ** Data of the netlink package the code reads or writes *)
Record Link := mkLink { Link_Name : string; Link_Index : Z; Link_MTU : Z }.
Record Qdisc := mkQdisc { Qdisc_LinkIndex : Z; Qdisc_Parent : Z }.

#[export] Instance Qdisc_eq_dec : EqDecision Qdisc.
Proof. solve_decision. Defined.

Record MirredAction := mkMirredAction { Mirred_Action : Z; Mirred_Kind : Z; Mirred_Ifindex : Z }.

(** A filter with its dynamic type: a [*netlink.U32] or another one. *)
Inductive Filter :=
  | U32 (LinkIndex Parent Protocol RedirIndex : Z) (Actions : list MirredAction)
  | OtherFilter.

Record Tuntap := mkTuntap {
  Tuntap_Name : string;
  Tuntap_Mode : Z;
  Tuntap_Queues : Z;
  Tuntap_Flags : Z
}.

Class NetlinkConstants := {
  MakeHandle : Z → Z → Z;
  HANDLE_INGRESS : Z;
  ETH_P_ALL : Z;
  TC_ACT_STOLEN : Z;
  TCA_EGRESS_REDIR : Z;
  TUNTAP_MODE_TAP : Z;
  TUNTAP_ONE_QUEUE : Z;
  TUNTAP_VNET_HDR : Z;
  TUNSETOWNER : Z;
  TUNSETGROUP : Z
}.

(** [LinkAdd] of a tap fills in the link and its file descriptors. *)
Inductive NetlinkCall : Type → Type :=
  | QdiscAdd (qdisc : Qdisc) : NetlinkCall error
  | QdiscDel (qdisc : Qdisc) : NetlinkCall error
  | QdiscList (link : Link) : NetlinkCall (Err + list Qdisc)
  | FilterAdd (filter : Filter) : NetlinkCall error
  | FilterList (link : Link) (parent : Z) : NetlinkCall (Err + list Filter)
  | LinkByName (name : string) : NetlinkCall (Err + Link)
  | LinkDel (link : Link) : NetlinkCall error
  | LinkAdd (tap : Tuntap) : NetlinkCall (Err + Link * list Z)
  | IoctlSetInt (fd req value : Z) : NetlinkCall error
  | LinkSetMTU (link : Link) (mtu : Z) : NetlinkCall error
  | LinkSetUp (link : Link) : NetlinkCall error.

Class HasNetlink (E : Type → Type) := netlink_call : ∀ {T}, NetlinkCall T → E T.

(** ** The interface *)
Class NetlinkOps (E : Type → Type) (S : Type) := {
  CreateTap : string → Z → Z → Z → GoM E S (Err + Link);
  AddIngressQdisc : Link → GoM E S error;
  GetIngressQdisc : Link → GoM E S (Err + Qdisc);
  RemoveIngressQdisc : Link → GoM E S error;
  AddRedirectFilter : Link → Link → GoM E S error;
  GetRedirectFilter : Link → Link → GoM E S (Err + Filter);
  GetLink : string → GoM E S (Err + Link);
  RemoveLink : string → GoM E S error
}.

(** The text of an error about a device, as its format with its argument. *)
Definition device_error_Error (kind : device_error) (device : string) : string * list string :=
  (match kind with
   | QdiscNotFound => "did not find expected Qdisc on device %q"
   | FilterNotFound => "did not find expected filter on device %q"
   | LinkNotFound => "did not find expected network device with name %q"
   end, [device]).

Definition is_netlink_LinkNotFound (e : Err) : bool :=
  match e with Ext NetlinkLinkNotFound _ => true | _ => false end.

Module Default.
Section ops.
Context {E : Type → Type} {S : Type} `{HasNetlink E} `{NetlinkConstants}.

Definition RootFilterHandle : Z := MakeHandle 65535 0.

Definition ingressQdisc (link : Link) : Qdisc := mkQdisc (Link_Index link) HANDLE_INGRESS.

Definition AddIngressQdisc (link : Link) : GoM E S error :=
  err <- call (netlink_call (QdiscAdd (ingressQdisc link))) ;
  go_ret match err with
         | Some e => Some (ErrorfW "failed to add ingress qdisc to device %q: %w" [Link_Name link] e)
         | None => None
         end.

Definition GetIngressQdisc (link : Link) : GoM E S (Err + Qdisc) :=
  qdiscs <- call (netlink_call (QdiscList link)) ;
  match qdiscs with
  | inl e => go_ret (inl (ErrorfW "failed to list qdiscs for link %q: %w" [Link_Name link] e))
  | inr qdiscs =>
      let expectedQdisc := ingressQdisc link in
      match List.find (λ qdisc, Qdisc_Parent qdisc =? Qdisc_Parent expectedQdisc) qdiscs with
      | Some qdisc => go_ret (inr qdisc)
      | None => go_ret (inl (DeviceError QdiscNotFound (Link_Name link)))
      end
  end.

Definition RemoveIngressQdisc (link : Link) : GoM E S error :=
  qdisc <- GetIngressQdisc link ;
  match qdisc with
  | inl err => go_ret (Some err)
  | inr qdisc =>
      err <- call (netlink_call (QdiscDel qdisc)) ;
      go_ret match err with
             | Some e => Some (ErrorfW "failed to remove ingress qdisc from device %q: %w" [Link_Name link] e)
             | None => None
             end
  end.

(** The filter [AddRedirectFilter] asks for. Its [RedirIndex] field is not set. *)
Definition redirect_filter (sourceLink targetLink : Link) : Filter :=
  U32 (Link_Index sourceLink) RootFilterHandle ETH_P_ALL 0
    [mkMirredAction TC_ACT_STOLEN TCA_EGRESS_REDIR (Link_Index targetLink)].

Definition AddRedirectFilter (sourceLink targetLink : Link) : GoM E S error :=
  err <- call (netlink_call (FilterAdd (redirect_filter sourceLink targetLink))) ;
  go_ret match err with
         | Some e => Some (ErrorfW "failed to add u32 filter redirecting from device %q to device %q, does %q exist and have a qdisc attached to its ingress?: %w"
             [Link_Name sourceLink; Link_Name targetLink; Link_Name sourceLink] e)
         | None => None
         end.

Definition redirects_to (targetLink : Link) (filter : Filter) : bool :=
  match filter with
  | U32 _ _ _ RedirIndex _ => RedirIndex =? Link_Index targetLink
  | OtherFilter => false
  end.

Definition GetRedirectFilter (sourceLink targetLink : Link) : GoM E S (Err + Filter) :=
  filters <- call (netlink_call (FilterList sourceLink RootFilterHandle)) ;
  match filters with
  | inl e => go_ret (inl (ErrorfW "failed to list filters for device %q: %w" [Link_Name sourceLink] e))
  | inr filters =>
      match List.find (redirects_to targetLink) filters with
      | Some filter => go_ret (inr filter)
      | None => go_ret (inl (DeviceError FilterNotFound (Link_Name sourceLink)))
      end
  end.

Definition GetLink (name : string) : GoM E S (Err + Link) :=
  link <- call (netlink_call (LinkByName name)) ;
  match link with
  | inl err =>
      if is_netlink_LinkNotFound err then go_ret (inl (DeviceError LinkNotFound name))
      else go_ret (inl err)
  | inr link => go_ret (inr link)
  end.

Definition RemoveLink (name : string) : GoM E S error :=
  link <- GetLink name ;
  match link with
  | inl err => go_ret (Some err)
  | inr link =>
      err <- call (netlink_call (LinkDel link)) ;
      match err with
      | Some e =>
          if is_netlink_LinkNotFound e then go_ret (Some (DeviceError LinkNotFound (Link_Name link)))
          else go_ret (Some e)
      | None => go_ret None
      end
  end.

(** The body of the loop over the file descriptors of a new tap. *)
Definition set_tap_owner (name : string) (ownerUID ownerGID : Z) (tapFd : Z) : GoM E S error :=
  err <- call (netlink_call (IoctlSetInt tapFd TUNSETOWNER ownerUID)) ;
  match err with
  | Some e => go_ret (Some (ErrorfW "failed to set tap %s owner to uid %d: %w" [name; strconv_Itoa ownerUID] e))
  | None =>
      err <- call (netlink_call (IoctlSetInt tapFd TUNSETGROUP ownerGID)) ;
      match err with
      | Some e => go_ret (Some (ErrorfW "failed to set tap %s group to gid %d: %w" [name; strconv_Itoa ownerGID] e))
      | None => go_ret None
      end
  end.

Definition CreateTap (name : string) (mtu ownerUID ownerGID : Z) : GoM E S (Err + Link) :=
  let tapLink := mkTuntap name TUNTAP_MODE_TAP 1 (Z.lor TUNTAP_ONE_QUEUE TUNTAP_VNET_HDR) in
  added <- call (netlink_call (LinkAdd tapLink)) ;
  match added with
  | inl e => go_ret (inl (ErrorfW "failed to create tap device: %w" [] e))
  | inr (tapLink, fds) =>
      err <- range_err (set_tap_owner name ownerUID ownerGID) fds ;
      match err with
      | Some e => go_ret (inl e)
      | None =>
          err <- call (netlink_call (LinkSetMTU tapLink mtu)) ;
          match err with
          | Some e => go_ret (inl (ErrorfW "failed to set tap device MTU to %d: %w" [strconv_Itoa mtu] e))
          | None =>
              err <- call (netlink_call (LinkSetUp tapLink)) ;
              match err with
              | Some e => go_ret (inl (ErrorfW "failed to set tap up: %w" [] e))
              | None => go_ret (inr tapLink)
              end
          end
      end
  end.
End ops.
End Default.

#[export] Instance DefaultNetlinkOps {E S} `{HasNetlink E} `{NetlinkConstants} : NetlinkOps E S := {
  CreateTap := Default.CreateTap;
  AddIngressQdisc := Default.AddIngressQdisc;
  GetIngressQdisc := Default.GetIngressQdisc;
  RemoveIngressQdisc := Default.RemoveIngressQdisc;
  AddRedirectFilter := Default.AddRedirectFilter;
  GetRedirectFilter := Default.GetRedirectFilter;
  GetLink := Default.GetLink;
  RemoveLink := Default.RemoveLink
}.

(** ** Properties *)

(** The ingress qdiscs the kernel holds after a history of calls. *)
Definition kernel_step (st : list Qdisc) (ev : event NetlinkCall) : list Qdisc :=
  match ev with
  | Event c r =>
      match c in NetlinkCall T return T → list Qdisc with
      | QdiscAdd q => λ r, match r with None => q :: st | Some _ => st end
      | QdiscDel q => λ r, match r with None => List.filter (λ q', negb (bool_decide (q' = q))) st | Some _ => st end
      | _ => λ _, st
      end r
  end.

Definition qdiscs_of (h : trace NetlinkCall) (link : Link) : list Qdisc :=
  List.filter (λ q, Qdisc_LinkIndex q =? Link_Index link) (foldl kernel_step [] h).

#[export] Instance netlink_direct : HasNetlink NetlinkCall := λ _ c, c.

Section ingress.
Context `{NetlinkConstants} {S : Type} (o : Oracle NetlinkCall).

(** The kernel lists a device's qdiscs truthfully. *)
Definition lists_truthfully : Prop :=
  ∀ h link, o h _ (QdiscList link) = inr (qdiscs_of h link).

(** The specification: whether a device has an ingress qdisc. *)
Definition has_ingress (h : trace NetlinkCall) (link : Link) : Prop :=
  mkQdisc (Link_Index link) HANDLE_INGRESS ∈ foldl kernel_step [] h.

Lemma elem_of_List_filter {A} (p : A → bool) l (x : A) : x ∈ List.filter p l ↔ x ∈ l ∧ p x = true.
Proof. rewrite !list_elem_of_In. apply filter_In. Qed.

Lemma kernel_snoc h ev : foldl kernel_step [] (h ++ [ev]) = kernel_step (foldl kernel_step [] h) ev.
Proof. by rewrite foldl_app. Qed.

Lemma qdiscs_of_find h link :
  match List.find (λ q, Qdisc_Parent q =? HANDLE_INGRESS) (qdiscs_of h link) with
  | Some q => q = mkQdisc (Link_Index link) HANDLE_INGRESS ∧ has_ingress h link
  | None => ¬ has_ingress h link
  end.
Proof.
  unfold has_ingress. destruct (List.find _ _) as [q|] eqn:Hf.
  - apply find_some in Hf as [Hin Hp]. apply list_elem_of_In, elem_of_List_filter in Hin as [Hin Hl].
    destruct q as [i p]. simpl in *. apply Z.eqb_eq in Hp, Hl. by subst.
  - intros Hin. assert (mkQdisc (Link_Index link) HANDLE_INGRESS ∈ qdiscs_of h link) as Hq.
    { apply elem_of_List_filter. split; [done|]. apply Z.eqb_refl. }
    apply list_elem_of_In in Hq. pose proof (find_none _ _ Hf _ Hq) as Hn. simpl in Hn. lia.
Qed.

(** C32. The ingress qdisc operations implement a set of devices: a successful
    [AddIngressQdisc] puts the device in, [GetIngressQdisc] finds a qdisc exactly
    for the devices in the set and otherwise reports [QdiscNotFoundError], and a
    successful [RemoveIngressQdisc] takes the device out, reporting
    [QdiscNotFoundError] for a device that is not in. *)
Theorem ingress_qdisc_refines (link : Link) (s : S) h :
  lists_truthfully →
  wp (Default.AddIngressQdisc link)
    (λ r _ h', r = Val None → has_ingress h' link) o s h ∧
  wp (Default.GetIngressQdisc link)
    (λ r _ h', (has_ingress h link → r = Val (inr (mkQdisc (Link_Index link) HANDLE_INGRESS))) ∧
               (¬ has_ingress h link → r = Val (inl (DeviceError QdiscNotFound (Link_Name link)))) ∧
               (has_ingress h' link ↔ has_ingress h link)) o s h ∧
  wp (Default.RemoveIngressQdisc link)
    (λ r _ h', (r = Val None → has_ingress h link ∧ ¬ has_ingress h' link) ∧
               (¬ has_ingress h link → r = Val (Some (DeviceError QdiscNotFound (Link_Name link))))) o s h.
Proof.
  intros Ho. pose proof (qdiscs_of_find h link) as Hfind. split_and!.
  - apply wp_bind, wp_call, wp_ret. unfold has_ingress, netlink_call, netlink_direct.
    rewrite kernel_snoc. simpl. destruct (o h _ _); [done|]. intros _. left.
  - apply wp_bind, wp_call. unfold netlink_call, netlink_direct. rewrite Ho. simpl.
    destruct (List.find _ _) as [q|]; apply wp_ret; [destruct Hfind as [-> ?]|];
      unfold has_ingress in *; rewrite kernel_snoc; simpl; naive_solver.
  - apply wp_bind. unfold Default.GetIngressQdisc. apply wp_bind, wp_call.
    unfold netlink_call, netlink_direct. rewrite Ho. simpl.
    destruct (List.find _ _) as [q|]; apply wp_ret; [destruct Hfind as [-> ?]|by apply wp_ret].
    apply wp_bind, wp_call, wp_ret. unfold has_ingress in *. rewrite !kernel_snoc. simpl.
    destruct (o _ _ _); simpl; (split; [|done]); [done|]. intros _. split; [done|].
    rewrite elem_of_List_filter. intros [_ Hb]. by rewrite bool_decide_eq_true_2 in Hb.
Qed.
End ingress.

Module Examples.
#[local] Instance constants : NetlinkConstants := {
  MakeHandle major minor := Z.lor (Z.shiftl major 16) minor;
  HANDLE_INGRESS := 4294967281;
  ETH_P_ALL := 3; TC_ACT_STOLEN := 4; TCA_EGRESS_REDIR := 1;
  TUNTAP_MODE_TAP := 2; TUNTAP_ONE_QUEUE := 8192; TUNTAP_VNET_HDR := 16384;
  TUNSETOWNER := 1074025676; TUNSETGROUP := 1074025678
}.

(** A kernel on which every operation succeeds. *)
Definition kernel : Oracle NetlinkCall := λ h T c,
  match c in NetlinkCall T return T with
  | QdiscAdd _ => None
  | QdiscDel _ => None
  | QdiscList link => inr (qdiscs_of h link)
  | FilterAdd _ => None
  | FilterList _ _ => inr []
  | LinkByName name => inr (mkLink name 7 1500)
  | LinkDel _ => None
  | LinkAdd tap => inr (mkLink (Tuntap_Name tap) 7 1500, [3])
  | IoctlSetInt _ _ _ => None
  | LinkSetMTU _ _ => None
  | LinkSetUp _ => None
  end.

Lemma ingress_qdisc_refines_witness :
  lists_truthfully kernel ∧
  wp (Default.RemoveIngressQdisc (mkLink "eth0" 7 1500))
    (λ r _ _, r = Val (Some (DeviceError QdiscNotFound "eth0"))) kernel tt [].
Proof.
  assert (lists_truthfully kernel) as Hk by done. split; [exact Hk|].
  destruct (ingress_qdisc_refines kernel (mkLink "eth0" 7 1500) tt [] Hk) as (_ & _ & Hr).
  eapply wp_mono; [exact Hr|]. intros r s' h' [_ Hn]. apply Hn.
  unfold has_ingress. simpl. intros Hin. inversion Hin.
Defined.
End Examples.
