(* ===== verification/Sys.v ===== *)
(** * The environment of the SDK

    [Sys] is the signature of the calls the SDK makes to the operating system, to
    third-party packages (CNI, network namespaces, UUIDs, FIFOs), to the
    operations client and to netlink, with the answer of each.  Answers are
    chosen by an oracle, so a theorem holds whatever the environment does. *)

From stdpp Require Import gmap strings list.
From Stdlib Require Import ZArith.
From S2P Require Import Prelude GoStrings KernelArgs Models Json ApiParams Client Commands Vmconf Netlink.

Open Scope string_scope.
Open Scope Z_scope.

Inductive open_flag := O_RDWR | O_CREATE | O_APPEND | O_EXCL.

Inductive os_signal := SIGINT | SIGQUIT | SIGTERM | SIGHUP | SIGABRT | OtherSignal (n : Z).

#[export] Instance os_signal_eq_dec : EqDecision os_signal.
Proof. solve_decision. Defined.

(** ** Data of github.com/containernetworking/cni *)

(** [*libcni.NetworkConfigList] and [types.Result], by identity. *)
Definition NetworkConfigList : Type := nat.
Definition types_Result : Type := nat.

Record RuntimeConf := mkRuntimeConf {
  RuntimeConf_ContainerID : string;
  RuntimeConf_NetNS : string;
  RuntimeConf_IfName : string;
  RuntimeConf_Args : list (string * string)
}.

(** [libcni.NewCNIConfigWithCacheDir(path, cacheDir, nil)] *)
Record CNIConfig := mkCNIConfig { CNIConfig_Path : list string; CNIConfig_CacheDir : string }.

(** What [waitForSocket] finds in one [select]: the deadline, the end of the
    process with the error of [cmd.Wait], or a tick. *)
Inductive socket_event :=
  | SocketDeadline (e : Err)
  | ProcessExited (waitErr : error)
  | SocketTick.

Inductive Sys : Type → Type :=
  | OsStat (path : string) : Sys error
  | OsRemove (path : string) : Sys error
  | OsLink (oldname newname : string) : Sys error
  | OsChown (path : string) (uid gid : Z) : Sys error
  | OsOpenFile (path : string) (flags : list open_flag) (perm : Z) : Sys error
  | OsMkdirAll (path : string) (perm : Z) : Sys error
  | OsReadFile (path : string) : Sys (option string)
  | OsGetenv (name : string) : Sys string
  | SyscallMkfifo (path : string) (mode : Z) : Sys error
  | OpenFifo (ctx : go_context) (path : string) : Sys error
  | UuidNewRandom : Sys (Err + string)
  (* network namespaces *)
  | NsIsNSorErr (path : string) : Sys error
  | NsEnter (path : string) : Sys error
  | NsGetNS (path : string) : Sys error
  | UnixUnshare : Sys error
  | UnixMount (target : string) : Sys error
  | UnixUnmount (target : string) : Sys error
  (* CNI *)
  | LoadConfList (dir name : string) : Sys (Err + NetworkConfigList)
  | DelNetworkList (plugin : CNIConfig) (ctx : go_context) (list : NetworkConfigList) (rt : RuntimeConf) : Sys error
  | AddNetworkList (plugin : CNIConfig) (ctx : go_context) (list : NetworkConfigList) (rt : RuntimeConf) : Sys (Err + types_Result)
  | NewResultFromResult (result : types_Result) : Sys (Err + Result)
  (* the VMM process *)
  | CmdStart (cmd : Cmd) : Sys (Err + Z)
  | WaitSelect (ctx : go_context) : Sys error
  | ProcessSignal (sig : os_signal) : Sys error
  | AwaitProcess : Sys (option error)
  | SignalNotify (signals : list os_signal) : Sys unit
  | SocketSelect (timeout : Z) : Sys socket_event
  | PollSelect (ctx : go_context) : Sys poll
  (* the language *)
  | MapRange (m : kernelArgs) : Sys { order : list (string * option string) | iteration_order m order }
  | JsonUnmarshal (data : json) : Sys error
  (* other components *)
  | Api {T} (target : Operations) (c : ClientIface T) : Sys T
  | NL {T} (c : NetlinkCall T) : Sys T.

#[export] Instance sys_ops : HasOps Sys := @Api.
#[export] Instance sys_env : HasEnv Sys := OsGetenv.
#[export] Instance sys_poll : HasPoll Sys := PollSelect.
#[export] Instance sys_netlink : HasNetlink Sys := @NL.
