(* ===== verification/Network.v ===== *)
(** * Network configuration (src/network.go, src/cni/vmconf/vmconf.go)

    The configuration of a VM's network interfaces: its validation, invoking CNI
    for the interface that asks for it, and turning the result of CNI into the
    static configuration of the interface.  Callbacks that undo the setup are
    values of [network_cleanup] run by [run_network_cleanup].  A CNI
    configuration is a value here: two interfaces or machines do not share one. *)

From stdpp Require Import gmap strings list.
From Stdlib Require Import ZArith Lia.
From S2P Require Import Prelude GoStrings KernelArgs Models Vmconf Netlink Sys.

Open Scope string_scope.
Open Scope nat_scope.
Open Scope list_scope.

(** ** Data *)
Definition defaultCNIBinDir : string := "/opt/cni/bin".
Definition defaultCNIConfDir : string := "/etc/cni/conf.d".
Definition defaultCNICacheDir : string := "/var/lib/cni".

Record CNIConfiguration := mkCNIConfiguration {
  NetworkName : string;
  NetworkConfig : option NetworkConfigList;
  IfName : string;
  CNI_VMIfName : string;
  Args : list (string * string);
  BinPath : list string;
  ConfDir : string;
  CacheDir : string;
  containerID : string;
  netNSPath : string;
  Force : bool
}.

Record IPConfiguration := mkIPConfiguration {
  IPAddr : IPNet;
  Gateway : IP;
  Nameservers : list string;
  IP_IfName : string
}.

Record StaticNetworkConfiguration := mkStaticNetworkConfiguration {
  MacAddress : string;
  HostDevName : string;
  IPConfiguration_ : option IPConfiguration
}.

(** [firecracker.NetworkInterface] (the API model of the same name is in Models.v). *)
Record FcNetworkInterface := mkFcNetworkInterface {
  StaticConfiguration : option StaticNetworkConfiguration;
  CNIConfiguration_ : option CNIConfiguration;
  AllowMMDS : bool;
  InRateLimiter : option RateLimiter;
  OutRateLimiter : option RateLimiter
}.

Abbreviation NetworkInterfaces := (list FcNetworkInterface).

(** Callbacks that undo a step of the setup. *)
Inductive network_cleanup :=
  | DeleteNetwork (plugin : CNIConfig) (ctx : go_context) (networkConf : NetworkConfigList)
      (runtimeConf : RuntimeConf) (networkName : string)
  | RemoveNetNSParentDir (parentDir : string)
  | RemoveNetNSPath (path : string)
  | UnmountNetNS (path : string).

(** ** Validation *)
Definition IPConfiguration_validate (ipConf : IPConfiguration) : error :=
  if existsb (λ ip, match To4 ip with None => true | Some _ => false end)
       [IPNet_IP (IPAddr ipConf); Gateway ipConf]
  then Some (Errorf "invalid ip, only ipv4 addresses are supported: %+v" [])
  else if (2 <? length (Nameservers ipConf))%nat
  then Some (Errorf "cannot specify more than 2 nameservers: %+v" (Nameservers ipConf))
  else None.

Definition StaticNetworkConfiguration_validate (staticConf : StaticNetworkConfiguration) : error :=
  if (HostDevName staticConf =? "")%string
  then Some (Errorf "HostDevName must be provided if StaticNetworkConfiguration is provided: %+v" [])
  else match IPConfiguration_ staticConf with
       | Some ipConf => IPConfiguration_validate ipConf
       | None => None
       end.

Definition CNIConfiguration_validate (cniConf : CNIConfiguration) : error :=
  if (NetworkName cniConf =? "")%string && bool_decide (NetworkConfig cniConf = None)
  then Some (Errorf "must specify either NetworkName or NetworkConfig in CNIConfiguration: %+v" [])
  else if negb (NetworkName cniConf =? "")%string && bool_decide (NetworkConfig cniConf ≠ None)
  then Some (Errorf "must not specify both NetworkName and NetworkConfig in CNIConfiguration: %+v" [])
  else None.

Definition hasCNI (iface : FcNetworkInterface) : bool :=
  match CNIConfiguration_ iface with Some _ => true | None => false end.
Definition hasStaticInterface (iface : FcNetworkInterface) : bool :=
  match StaticConfiguration iface with Some _ => true | None => false end.
Definition hasStaticIP (iface : FcNetworkInterface) : bool :=
  match StaticConfiguration iface with
  | Some staticConf => match IPConfiguration_ staticConf with Some _ => true | None => false end
  | None => false
  end.

(** The body of the loop of [NetworkInterfaces.validate]. *)
Definition validate_iface (count : nat) (args : kernelArgs) (iface : FcNetworkInterface) : error :=
  if negb (hasCNI iface) && negb (hasStaticInterface iface)
  then Some (Errorf "must specify at least one of CNIConfiguration or StaticConfiguration for network interfaces: %+v" [])
  else if hasCNI iface && hasStaticInterface iface
  then Some (Errorf "cannot provide both CNIConfiguration and StaticConfiguration for a network interface: %+v" [])
  else if (hasCNI iface || hasStaticIP iface) && (1 <? count)%nat
  then Some (Errorf "cannot specify CNIConfiguration or IPConfiguration when multiple network interfaces are provided: %+v" [])
  else if (hasCNI iface || hasStaticIP iface) && bool_decide (is_Some (args !! "ip"))
  then Some (Errorf "CNIConfiguration or IPConfiguration cannot be specified when ip= provided in kernel boot args, value found: %v" [])
  else
    match match CNIConfiguration_ iface with Some c => CNIConfiguration_validate c | None => None end with
    | Some err => Some err
    | None =>
        match StaticConfiguration iface with
        | Some staticConf => StaticNetworkConfiguration_validate staticConf
        | None => None
        end
    end.

(** The first error of a list of checks. *)
Fixpoint first_error {A} (check : A → error) (l : list A) : error :=
  match l with
  | [] => None
  | x :: l => match check x with Some err => Some err | None => first_error check l end
  end.

Definition NetworkInterfaces_validate (ifaces : NetworkInterfaces) (args : kernelArgs) : error :=
  first_error (validate_iface (length ifaces) args) ifaces.

(** ** Selecting interfaces: the index of the interface the Go function points to *)
Fixpoint index_of {A} (p : A → bool) (l : list A) : option nat :=
  match l with
  | [] => None
  | x :: l => if p x then Some O else Datatypes.S <$> index_of p l
  end.

Definition cniInterface (ifaces : NetworkInterfaces) : option nat := index_of hasCNI ifaces.
Definition staticIPInterface (ifaces : NetworkInterfaces) : option nat := index_of hasStaticIP ifaces.

(** ** CNI configurations *)
Definition with_runtime (cniConf : CNIConfiguration) (vmID nsPath : string) : CNIConfiguration :=
  mkCNIConfiguration (NetworkName cniConf) (NetworkConfig cniConf) (IfName cniConf) (CNI_VMIfName cniConf)
    (Args cniConf) (BinPath cniConf) (ConfDir cniConf) (CacheDir cniConf) vmID nsPath (Force cniConf).

Definition setDefaults (cniConf : CNIConfiguration) : CNIConfiguration :=
  mkCNIConfiguration (NetworkName cniConf) (NetworkConfig cniConf) (IfName cniConf) (CNI_VMIfName cniConf)
    (Args cniConf)
    (match BinPath cniConf with [] => [defaultCNIBinDir] | p => p end)
    (if (ConfDir cniConf =? "")%string then defaultCNIConfDir else ConfDir cniConf)
    (if (CacheDir cniConf =? "")%string then filepath_Join [defaultCNICacheDir; containerID cniConf]
     else CacheDir cniConf)
    (containerID cniConf) (netNSPath cniConf) (Force cniConf).

Definition asCNIRuntimeConf (cniConf : CNIConfiguration) : RuntimeConf :=
  mkRuntimeConf (containerID cniConf) (netNSPath cniConf) (IfName cniConf) (Args cniConf).

Section network.
Context {S : Type} `{NetlinkConstants}.
Implicit Types (ctx : go_context).

Definition run_network_cleanup (f : network_cleanup) : GoM Sys S error :=
  match f with
  | DeleteNetwork plugin ctx networkConf runtimeConf networkName =>
      err <- call (DelNetworkList plugin ctx networkConf runtimeConf) ;
      go_ret match err with
             | Some e => Some (ErrorfW "failed to delete CNI network list %q: %w" [networkName] e)
             | None => None
             end
  | RemoveNetNSParentDir parentDir =>
      err <- call (OsRemove parentDir) ;
      go_ret match err with
             | Some e => Some (ErrorfW "failed to remove netns parent dir %q: %w" [parentDir] e)
             | None => None
             end
  | RemoveNetNSPath path =>
      err <- call (OsRemove path) ;
      go_ret match err with
             | Some e => Some (ErrorfW "failed to remove netns path %q: %w" [path] e)
             | None => None
             end
  | UnmountNetNS path =>
      err <- call (UnixUnmount path) ;
      go_ret match err with
             | Some e => Some (ErrorfW "failed to unmount netns at %q: %w" [path] e)
             | None => None
             end
  end.

(** [invokeCNI] once the network configuration is known. *)
Definition invokeCNI_with (cniConf : CNIConfiguration) ctx (networkConf : NetworkConfigList) :
    GoM Sys S ((Err + types_Result) * list network_cleanup) :=
  let cniPlugin := mkCNIConfig (BinPath cniConf) (CacheDir cniConf) in
  let runtimeConf := asCNIRuntimeConf cniConf in
  let delNetworkFunc := DeleteNetwork cniPlugin ctx networkConf runtimeConf (NetworkName cniConf) in
  let add :=
    cniResult <- call (AddNetworkList cniPlugin ctx networkConf runtimeConf) ;
    go_ret (match cniResult with
            | inl e => inl (ErrorfW "failed to create CNI network: %w" [] e)
            | inr result => inr result
            end, [delNetworkFunc]) in
  err <- run_network_cleanup delNetworkFunc ;
  match err with
  | Some e =>
      if negb (Force cniConf)
      then go_ret (inl (ErrorfW "failed to delete pre-existing CNI network: %w" [] e), [])
      else add
  | None => add
  end.

Definition invokeCNI (cniConf : CNIConfiguration) ctx :
    GoM Sys S ((Err + types_Result) * list network_cleanup) :=
  match NetworkConfig cniConf with
  | Some networkConf => invokeCNI_with cniConf ctx networkConf
  | None =>
      networkConf <- call (LoadConfList (ConfDir cniConf) (NetworkName cniConf)) ;
      match networkConf with
      | inl e => go_ret (inl (ErrorfW "failed to load CNI configuration from dir %q for network %q: %w"
                               [ConfDir cniConf; NetworkName cniConf] e), [])
      | inr networkConf => invokeCNI_with cniConf ctx networkConf
      end
  end.

(** The part of [initializeNetNS] that creates a namespace, after the parent
    directory exists. *)
Definition mount_netns (path : string) (cleanupFuncs : list network_cleanup) :
    GoM Sys S (error * list network_cleanup) :=
  fd <- call (OsOpenFile path [O_RDWR; O_CREATE; O_EXCL] 384) ;
  match fd with
  | Some e => go_ret (Some (ErrorfW "failed to open new netns path at %q: %w" [path] e), cleanupFuncs)
  | None =>
      let cleanupFuncs := cleanupFuncs ++ [RemoveNetNSPath path] in
      err <- call UnixUnshare ;
      match err with
      | Some e => go_ret (Some (ErrorfW "failed to unshare netns: %w" [] e), cleanupFuncs)
      | None =>
          err <- call (UnixMount path) ;
          match err with
          | Some e => go_ret (Some (ErrorfW "failed to mount netns at path %q: %w" [path] e), cleanupFuncs)
          | None => go_ret (None, cleanupFuncs ++ [UnmountNetNS path])
          end
      end
  end.

Definition initializeNetNS (cniConf : CNIConfiguration) : GoM Sys S (error * list network_cleanup) :=
  let path := netNSPath cniConf in
  err <- call (NsIsNSorErr path) ;
  match err with
  | None => go_ret (None, [])
  | Some (Ext NSPathNotNS _ as e) =>
      go_ret (Some (ErrorfW "path %q does not appear to be a mounted netns: %w" [path] e), [])
  | Some (Ext NSPathNotExist _) =>
      let parentDir := filepath_Dir path in
      err <- call (OsStat parentDir) ;
      if os_IsNotExist err then
        err <- call (OsMkdirAll parentDir 384) ;
        match err with
        | Some e => go_ret (Some (ErrorfW "failed to create netns parent dir at %q: %w" [parentDir] e), [])
        | None => mount_netns path [RemoveNetNSParentDir parentDir]
        end
      else match err with
           | Some e => go_ret (Some (ErrorfW "failed to check if netns parent dir exists at %q: %w" [parentDir] e), [])
           | None => mount_netns path []
           end
  | Some e => go_ret (Some (ErrorfW "failure checking if %q is a mounted netns: %w" [path] e), [])
  end.

(** ** From a CNI result to a static configuration (vmconf.go) *)
Definition mtuOf `{ops : NetlinkOps Sys S} (ifaceName nsPath : string) : GoM Sys S (Err + Z) :=
  let failed e := inl (ErrorfW "failed to find MTU: %w" [] e) in
  entered <- call (NsEnter nsPath) ;
  match entered with
  | Some e => go_ret (failed e)
  | None =>
      link <- GetLink ifaceName ;
      match link with
      | inl e => go_ret (failed (ErrorfW "failed to find device %q in netns %q: %w" [ifaceName; nsPath] e))
      | inr link => go_ret (inr (Link_MTU link))
      end
  end.

Definition StaticNetworkConfFrom (result : types_Result) (vmID : string) : GoM Sys S (Err + StaticNetworkConf) :=
  currentResult <- call (NewResultFromResult result) ;
  match currentResult with
  | inl e => go_ret (inl (ErrorfW "failed to parse cni result: %w" [] e))
  | inr currentResult =>
      match VMTapPair currentResult vmID with
      | inl e => go_ret (inl e)
      | inr (vmIface, tapIface) =>
          vmIPs <- go_lift (InterfaceIPs currentResult (Interface_Name vmIface) (Interface_Sandbox vmIface)) ;
          match vmIPs with
          | [vmIP] =>
              netNS <- call (NsGetNS (Interface_Sandbox tapIface)) ;
              match netNS with
              | Some e => go_ret (inl (ErrorfW "failed to find netns at path %q: %w" [Interface_Sandbox tapIface] e))
              | None =>
                  tapMTU <- mtuOf (Interface_Name tapIface) (Interface_Sandbox tapIface) ;
                  match tapMTU with
                  | inl e => go_ret (inl e)
                  | inr tapMTU =>
                      go_ret (inr (mkStaticNetworkConf
                        (Interface_Name tapIface) (Interface_Sandbox tapIface) "" (Interface_Mac vmIface)
                        tapMTU (Some vmIP) (Result_Routes currentResult)
                        (DNS_Nameservers (Result_DNS currentResult)) (DNS_Domain (Result_DNS currentResult))
                        (DNS_Search (Result_DNS currentResult)) (DNS_Options (Result_DNS currentResult))))
                  end
              end
          | _ => go_ret (inl (Errorf "expected to find 1 IP for vm interface %q, but instead found %+v"
                               [Interface_Name vmIface]))
          end
      end
  end.

(** The static configuration [setupNetwork] fills in from the CNI result. *)
Definition static_from (vmNetConf : StaticNetworkConf) (cniConf : CNIConfiguration) : StaticNetworkConfiguration :=
  mkStaticNetworkConfiguration (VMMacAddr vmNetConf) (TapName vmNetConf)
    ((λ vmIP, mkIPConfiguration (IPConfig_Address vmIP) (IPConfig_Gateway vmIP)
                (take 2 (VMNameservers vmNetConf)) (CNI_VMIfName cniConf)) <$> VMIPConfig vmNetConf).

Definition set_static (iface : FcNetworkInterface) (c : StaticNetworkConfiguration) : FcNetworkInterface :=
  mkFcNetworkInterface (Some c) (CNIConfiguration_ iface) (AllowMMDS iface) (InRateLimiter iface) (OutRateLimiter iface).
Definition set_cni (iface : FcNetworkInterface) (c : CNIConfiguration) : FcNetworkInterface :=
  mkFcNetworkInterface (StaticConfiguration iface) (Some c) (AllowMMDS iface) (InRateLimiter iface) (OutRateLimiter iface).

(** [setupNetwork] on the interface with CNI configuration [cniConf], defaults set. *)
Definition setup_cni_interface ctx (iface : FcNetworkInterface) (cniConf : CNIConfiguration) :
    GoM Sys S (error * list network_cleanup * FcNetworkInterface) :=
  netns <- initializeNetNS cniConf ;
  let '(err, cleanupFuncs) := netns in
  match err with
  | Some e => go_ret (Some (ErrorfW "failed to initialize netns: %w" [] e), cleanupFuncs, iface)
  | None =>
      invoked <- invokeCNI cniConf ctx ;
      let '(cniResult, cniCleanupFuncs) := invoked in
      let cleanupFuncs := cleanupFuncs ++ cniCleanupFuncs in
      match cniResult with
      | inl e => go_ret (Some (ErrorfW "failure when invoking CNI: %w" [] e), cleanupFuncs, iface)
      | inr cniResult =>
          match StaticConfiguration iface with
          | Some _ => go_ret (None, cleanupFuncs, iface)
          | None =>
              vmNetConf <- StaticNetworkConfFrom cniResult (containerID cniConf) ;
              match vmNetConf with
              | inl e => go_ret (Some (ErrorfW "failed to parse VM network configuration from CNI output, ensure CNI is configured with a plugin that supports automatic VM network configuration such as tc-redirect-tap: %w" [] e),
                                 cleanupFuncs, iface)
              | inr vmNetConf => go_ret (None, cleanupFuncs, set_static iface (static_from vmNetConf cniConf))
              end
          end
      end
  end.

(** [setupNetwork]: the error, the cleanup functions, and the interfaces as the
    function leaves them. *)
Definition NetworkInterfaces_setupNetwork ctx (ifaces : NetworkInterfaces) (vmID nsPath : string) :
    GoM Sys S (error * list network_cleanup * NetworkInterfaces) :=
  match cniInterface ifaces with
  | None => go_ret (None, [], ifaces)
  | Some i =>
      iface <- deref (ifaces !! i) ;
      cniConf <- deref (CNIConfiguration_ iface) ;
      let cniConf := setDefaults (with_runtime cniConf vmID nsPath) in
      result <- setup_cni_interface ctx (set_cni iface cniConf) cniConf ;
      let '(err, cleanupFuncs, iface) := result in
      go_ret (err, cleanupFuncs, <[i := iface]> ifaces)
  end.

Definition ipBootParam (conf : IPConfiguration) : GoM Sys S string :=
  go_lift (IPBootParam (mkStaticNetworkConf "" "" (IP_IfName conf) "" 0
    (Some (mkIPConfig None (IPAddr conf) (Gateway conf))) [] (Nameservers conf) "" [] [])).
End network.

(** ** Properties *)

(** A well-formed network configuration, as the comments of network.go state it. *)
Definition IPConfiguration_valid (c : IPConfiguration) : Prop :=
  is_Some (To4 (IPNet_IP (IPAddr c))) ∧ is_Some (To4 (Gateway c)) ∧ length (Nameservers c) ≤ 2.

Definition CNIConfiguration_valid (c : CNIConfiguration) : Prop :=
  (NetworkName c ≠ "" ∧ NetworkConfig c = None) ∨ (NetworkName c = "" ∧ is_Some (NetworkConfig c)).

Definition iface_valid (iface : FcNetworkInterface) : Prop :=
  match StaticConfiguration iface, CNIConfiguration_ iface with
  | Some c, None =>
      HostDevName c ≠ "" ∧ ∀ ip, IPConfiguration_ c = Some ip → IPConfiguration_valid ip
  | None, Some c => CNIConfiguration_valid c
  | _, _ => False
  end.

(** The interface takes its address from the boot parameters. *)
Definition needs_ip (iface : FcNetworkInterface) : bool := hasCNI iface || hasStaticIP iface.

Lemma first_failing_None {A} (check : A → error) l :
  first_error check l = None ↔ Forall (λ x, check x = None) l.
Proof.
  induction l as [|x l IH]; simpl; [by split|].
  rewrite Forall_cons, <- IH. destruct (check x); naive_solver.
Qed.

Lemma index_of_Some {A} (p : A → bool) l i :
  index_of p l = Some i → ∃ x, l !! i = Some x ∧ p x = true.
Proof.
  revert i. induction l as [|x l IH]; intros i; simpl; [done|].
  destruct (p x) eqn:Hp; [intros [= <-]; eauto|].
  destruct (index_of p l) as [j|] eqn:Hj; [|done]. intros [= <-]. by apply IH.
Qed.

Lemma index_of_None {A} (p : A → bool) l : index_of p l = None ↔ Forall (λ x, p x = false) l.
Proof.
  induction l as [|x l IH]; simpl; [by split|].
  rewrite Forall_cons, <- IH. destruct (p x), (index_of p l); naive_solver.
Qed.

Lemma IPConfiguration_validate_None c :
  IPConfiguration_validate c = None ↔ IPConfiguration_valid c.
Proof.
  unfold IPConfiguration_validate, IPConfiguration_valid. simpl.
  destruct (To4 (IPNet_IP (IPAddr c))), (To4 (Gateway c)); simpl;
    try (split; [done|intros (?&?&?)]; by (exfalso; eapply is_Some_None)).
  destruct (Nat.ltb_spec 2 (length (Nameservers c))); split; try done; naive_solver lia.
Qed.

Lemma StaticNetworkConfiguration_validate_None c :
  StaticNetworkConfiguration_validate c = None ↔
  HostDevName c ≠ "" ∧ ∀ ip, IPConfiguration_ c = Some ip → IPConfiguration_valid ip.
Proof.
  unfold StaticNetworkConfiguration_validate.
  destruct (String.eqb_spec (HostDevName c) ""); [naive_solver|].
  destruct (IPConfiguration_ c) as [ip|]; [rewrite IPConfiguration_validate_None|]; naive_solver.
Qed.

Lemma CNIConfiguration_validate_None c :
  CNIConfiguration_validate c = None ↔ CNIConfiguration_valid c.
Proof.
  unfold CNIConfiguration_validate, CNIConfiguration_valid.
  destruct (String.eqb_spec (NetworkName c) ""), (NetworkConfig c); simpl; split;
    rewrite ?is_Some_alt; naive_solver.
Qed.

(** Case analysis on the conditions for boot parameters. *)
Ltac by_ip n args :=
  destruct (Nat.ltb_spec 1 n); simpl; [naive_solver lia|];
  destruct (args !! "ip") as [v|] eqn:Hip;
  [rewrite bool_decide_eq_true_2 by eauto; naive_solver
  |rewrite bool_decide_eq_false_2 by (by intros [? ?])].

Lemma validate_iface_None n args iface :
  validate_iface n args iface = None ↔
  iface_valid iface ∧ (needs_ip iface = true → n ≤ 1 ∧ args !! "ip" = None).
Proof.
  unfold validate_iface, iface_valid, needs_ip.
  destruct (CNIConfiguration_ iface) as [c|] eqn:Hc, (StaticConfiguration iface) as [st|] eqn:Hs;
    unfold hasCNI, hasStaticIP, hasStaticInterface; rewrite ?Hc, ?Hs; simpl; [naive_solver| | |naive_solver].
  - rewrite <- CNIConfiguration_validate_None. by_ip n args.
    destruct (CNIConfiguration_validate c); naive_solver.
  - rewrite <- StaticNetworkConfiguration_validate_None.
    destruct (IPConfiguration_ st); simpl; [by_ip n args|]; naive_solver.
Qed.

(** C24. [NetworkInterfaces.validate] accepts exactly the configurations in which
    every interface is either static (with a device name and, for a static IP, IPv4
    addresses and at most two nameservers) or CNI (with either a network name or a
    network configuration), and an interface that takes its address from the boot
    parameters is the only interface and the [ip] argument is still free. *)
Theorem NetworkInterfaces_validate_iff (ifaces : NetworkInterfaces) (args : kernelArgs) :
  NetworkInterfaces_validate ifaces args = None ↔
  Forall iface_valid ifaces ∧
  (Exists (λ iface, needs_ip iface = true) ifaces → length ifaces = 1 ∧ args !! "ip" = None).
Proof.
  unfold NetworkInterfaces_validate. rewrite first_failing_None.
  setoid_rewrite validate_iface_None. rewrite Forall_and, !Forall_forall, Exists_exists.
  split; intros [Hv Hip]; (split; [done|]).
  - intros (x & Hx & Hn). destruct (Hip x Hx Hn) as [Hl Ha]. split; [|done].
    destruct ifaces; simpl in *; [by apply elem_of_nil in Hx|lia].
  - intros x Hx Hn. destruct Hip as [Hl Ha]; [by exists x|]. split; [lia|done].
Qed.

(** After validation the first interface with CNI configuration, or with a
    static IP, is the only interface of the machine (what [cniInterface] and
    [staticIPInterface] assume), and an absent result means there is none. *)
Theorem selected_interface_unique (ifaces : NetworkInterfaces) (args : kernelArgs) :
  NetworkInterfaces_validate ifaces args = None →
  match cniInterface ifaces with
  | Some i => ∃ iface, ifaces = [iface] ∧ i = 0 ∧ hasCNI iface = true ∧ staticIPInterface ifaces = None
  | None => Forall (λ iface, hasCNI iface = false) ifaces
  end ∧
  match staticIPInterface ifaces with
  | Some i => ∃ iface, ifaces = [iface] ∧ i = 0 ∧ hasStaticIP iface = true ∧ args !! "ip" = None
  | None => Forall (λ iface, hasStaticIP iface = false) ifaces
  end.
Proof.
  unfold NetworkInterfaces_validate. rewrite first_failing_None.
  setoid_rewrite validate_iface_None. intros Hall.
  assert (∀ i iface, ifaces !! i = Some iface → needs_ip iface = true →
            ifaces = [iface] ∧ i = 0 ∧ iface_valid iface ∧ args !! "ip" = None) as Hone.
  { intros i iface Hi Hn. rewrite Forall_lookup in Hall. destruct (Hall _ _ Hi) as [Hv Hip].
    destruct (Hip Hn) as [Hl Ha]. destruct ifaces as [|x [|y ?]]; simpl in Hl; [done| |lia].
    destruct i; simplify_eq/=. done. }
  split.
  - destruct (cniInterface ifaces) as [i|] eqn:Hi; [|by apply index_of_None].
    apply index_of_Some in Hi as (iface & Hi & Hc). exists iface.
    destruct (Hone i iface Hi) as (-> & -> & Hv & _); [unfold needs_ip; by rewrite Hc|].
    split_and!; [done..|]. unfold staticIPInterface. simpl.
    unfold iface_valid, hasCNI, hasStaticIP in *. repeat case_match; done.
  - destruct (staticIPInterface ifaces) as [i|] eqn:Hi; [|by apply index_of_None].
    apply index_of_Some in Hi as (iface & Hi & Hc). exists iface.
    destruct (Hone i iface Hi) as (-> & -> & Hv & Ha); [unfold needs_ip; by rewrite Hc, orb_true_r|].
    done.
Qed.

(** A static IP configuration is turned into a boot parameter, except when its
    mask has fewer than four bytes: then [ipBootParam] panics.  Validation does not
    prevent it, since [validate] does not look at the mask. *)
Theorem ipBootParam_panics {S} (conf : IPConfiguration) (o : Oracle Sys) (s : S) h :
  ∃ r, ipBootParam conf o s h = (r, s, h) ∧
    (is_panic r ↔ length (IPNet_Mask (IPAddr conf)) < 4) ∧
    (is_val r ↔ 4 ≤ length (IPNet_Mask (IPAddr conf))) ∧
    ∀ mask, IPConfiguration_validate
              (mkIPConfiguration (mkIPNet (IPNet_IP (IPAddr conf)) mask) (Gateway conf)
                 (Nameservers conf) (IP_IfName conf)) = IPConfiguration_validate conf.
Proof.
  unfold ipBootParam, go_lift. eexists. split; [reflexivity|].
  unfold IPBootParam, is_panic, is_val. simpl. split_and!; [| |done];
    destruct (IPNet_Mask (IPAddr conf)) as [|? [|? [|? [|? ?]]]]; simpl; split;
    intros; try lia; eauto; repeat match goal with H : ∃ _, _ |- _ => destruct H end; done.
Qed.

(** ** Undoing the setup *)

(** The callback that undoes an event of the setup, if the event needs one:
    creating the parent directory, creating the file to mount on, mounting the
    namespace, and asking for the network, whether or not the plugin succeeds. *)
Definition undo (networkName : string) (ev : event Sys) : option network_cleanup :=
  match ev with
  | Event c r =>
      match c in Sys T return T → option network_cleanup with
      | OsMkdirAll path _ => λ r, match r with None => Some (RemoveNetNSParentDir path) | Some _ => None end
      | OsOpenFile path _ _ => λ r, match r with None => Some (RemoveNetNSPath path) | Some _ => None end
      | UnixMount target => λ r, match r with None => Some (UnmountNetNS target) | Some _ => None end
      | AddNetworkList plugin ctx list rt => λ _, Some (DeleteNetwork plugin ctx list rt networkName)
      | _ => λ _, None
      end r
  end.

(** The program's cleanup functions undo exactly what it did, in order. *)
Definition undoes {A} (networkName : string) (cleanupFuncs : A → list network_cleanup)
    (r : Outcome A) (h h' : trace Sys) : Prop :=
  ∃ t, h' = h ++ t ∧ ∀ a, r = Val a → cleanupFuncs a = omap (undo networkName) t.

Section undo.
Context {S : Type} `{NetlinkConstants} (o : Oracle Sys).

Lemma initializeNetNS_undoes name cniConf (s : S) h :
  wp (initializeNetNS cniConf) (λ r s' h', s' = s ∧ undoes name snd r h h') o s h.
Proof.
  unfold initializeNetNS, mount_netns. wp_steps; (split; [done|]); unfold undoes;
    rewrite <- ?app_assoc; (eexists; split; [reflexivity|]); intros a [= <-]; simpl;
    repeat match goal with H : _ = Some _ |- _ => rewrite H | H : _ = None |- _ => rewrite H end; reflexivity.
Qed.

(** Case analysis along the program, then comparing the events with the list. *)
Ltac solve_undoes :=
  wp_steps; (split; [done|]); unfold undoes; rewrite <- ?app_assoc;
  (eexists; split; [reflexivity|]); intros ? [= <-]; simpl;
  repeat match goal with H : _ = Some _ |- _ => rewrite H | H : _ = None |- _ => rewrite H end;
  reflexivity.

Lemma invokeCNI_with_undoes cniConf ctx networkConf (s : S) h :
  wp (invokeCNI_with cniConf ctx networkConf)
    (λ r s' h', s' = s ∧ undoes (NetworkName cniConf) snd r h h') o s h.
Proof. unfold invokeCNI_with, run_network_cleanup. solve_undoes. Qed.

(** Parsing the result of CNI changes nothing. *)
Lemma StaticNetworkConfFrom_undoes name result vmID (s : S) h :
  wp (StaticNetworkConfFrom result vmID) (λ r s' h', s' = s ∧ undoes name (λ _, []) r h h') o s h.
Proof.
  unfold StaticNetworkConfFrom, mtuOf, GetLink, DefaultNetlinkOps, Default.GetLink, netlink_call, sys_netlink.
  wp_steps; (split; [done|]); unfold undoes; rewrite <- ?app_assoc;
    first [eexists; split; [reflexivity|]; intros ? [= <-]; reflexivity
          | exists []; rewrite app_nil_r; split; [done|]; intros ? [= <-]; reflexivity].
Qed.

Lemma undoes_refl {A} name (a : A) f h : f a = [] → undoes name f (Val a) h h.
Proof. intros Hf. exists []. rewrite app_nil_r. split; [done|]. by intros ? [= <-]. Qed.

Lemma undoes_trans {A B} name (f : A → list network_cleanup) (g : B → list network_cleanup) a r h h1 h2 :
  undoes name f (Val a) h h1 → undoes name g r h1 h2 →
  undoes name (λ b, f a ++ g b) r h h2.
Proof.
  intros (t1 & -> & H1) (t2 & -> & H2). exists (t1 ++ t2). rewrite <- app_assoc. split; [done|].
  intros b ->. by rewrite (H1 _ eq_refl), (H2 _ eq_refl), omap_app.
Qed.

Lemma undoes_stop {A B} name (f : A → list network_cleanup) (g : B → list network_cleanup) r h h' :
  undoes name f r h h' → (∀ a, r ≠ Val a) →
  ∀ r' : Outcome B, (∀ b, r' ≠ Val b) → undoes name g r' h h'.
Proof. intros (t & -> & _) _ r' Hr'. exists t. split; [done|]. intros b ->. by destruct (Hr' b). Qed.

Lemma undoes_map {A B} name (f : A → list network_cleanup) (g : B → list network_cleanup) a b h h' :
  undoes name f (Val a) h h' → g b = f a → undoes name g (Val b) h h'.
Proof. intros (t & -> & Hf) Hg. exists t. split; [done|]. intros ? [= <-]. rewrite Hg. by apply Hf. Qed.

Lemma invokeCNI_undoes cniConf ctx (s : S) h :
  wp (invokeCNI cniConf ctx) (λ r s' h', s' = s ∧ undoes (NetworkName cniConf) snd r h h') o s h.
Proof.
  unfold invokeCNI. destruct (NetworkConfig cniConf); [apply invokeCNI_with_undoes|].
  do 2 wp_step. destruct (o _ _ _) eqn:Hl.
  - wp_step. split; [done|]. eexists. split; [done|]. by intros ? [= <-].
  - eapply wp_mono; [apply invokeCNI_with_undoes|]. intros r s' h' [-> (t & -> & Hu)]. split; [done|].
    eexists. rewrite <- app_assoc. split; [done|]. intros a Ha. rewrite omap_app. by apply Hu.
Qed.

Lemma setup_cni_interface_undoes ctx iface cniConf (s : S) h :
  wp (setup_cni_interface ctx iface cniConf)
    (λ r s' h', s' = s ∧ undoes (NetworkName cniConf) (λ a, a.1.2) r h h') o s h.
Proof.
  unfold setup_cni_interface. apply wp_bind.
  eapply wp_mono; [apply (initializeNetNS_undoes (NetworkName cniConf))|].
  intros r1 s1 h1 [-> Hu1]. destruct r1 as [[[e|] cs1]|w|].
  - wp_step. split; [done|]. by eapply undoes_map.
  - apply wp_bind. eapply wp_mono; [apply invokeCNI_undoes|].
    intros r2 s2 h2 [-> Hu2]. pose proof (undoes_trans _ _ _ _ _ _ _ _ Hu1 Hu2) as Hu.
    destruct r2 as [[[e|result] cs2]|w|]; [| |split; [done|]; by eapply undoes_stop..].
    + wp_step. split; [done|]. by eapply undoes_map.
    + destruct (StaticConfiguration iface); [wp_step; split; [done|]; by eapply undoes_map|].
      apply wp_bind. eapply wp_mono; [apply (StaticNetworkConfFrom_undoes (NetworkName cniConf))|].
      intros r3 s3 h3 [-> Hu3]. pose proof (undoes_trans _ _ _ _ _ _ _ _ Hu Hu3) as Hu'.
      destruct r3 as [[e|c]|w|]; [wp_step..| |]; (split; [done|]);
        first [by eapply undoes_stop | eapply undoes_map; [exact Hu'|]; simpl; by rewrite app_nil_r].
  - split; [done|]. by eapply undoes_stop.
  - split; [done|]. by eapply undoes_stop.
Qed.
End undo.

(** C21. The cleanup functions [setupNetwork] returns undo exactly what it did, in
    the order it did it and whether it succeeds or fails: one for the parent
    directory it created, for the file it created to mount the namespace on, for
    the mount, and for the network it asked CNI to add (added or not).  It changes
    no other state. *)
Theorem setupNetwork_cleanup {S} `{NetlinkConstants} (o : Oracle Sys) ctx (ifaces : NetworkInterfaces)
    (vmID nsPath : string) (s : S) h :
  let name :=
    match cniInterface ifaces ≫= λ i, ifaces !! i ≫= CNIConfiguration_ with
    | Some c => NetworkName c | None => "" end in
  wp (NetworkInterfaces_setupNetwork ctx ifaces vmID nsPath)
    (λ r s' h', s' = s ∧ ∃ t, h' = h ++ t ∧
       ∀ err cleanupFuncs ifaces', r = Val (err, cleanupFuncs, ifaces') →
         cleanupFuncs = omap (undo name) t) o s h.
Proof.
  cbv zeta. unfold NetworkInterfaces_setupNetwork.
  destruct (cniInterface ifaces) as [i|] eqn:Hi; simpl.
  2:{ wp_step. split; [done|]. exists []. rewrite app_nil_r. split; [done|]. by intros ??? [= <- <- <-]. }
  destruct (index_of_Some _ _ _ Hi) as (iface & Hl & Hc). rewrite Hl. simpl.
  unfold hasCNI in Hc. destruct (CNIConfiguration_ iface) as [c|] eqn:Hcni; [|done].
  do 4 (wp_step; simplify_eq/=). apply wp_bind.
  eapply wp_mono; [apply setup_cni_interface_undoes|]. intros r s' h' [-> (t & -> & Hu)].
  destruct r as [[[err cs] iface']|w|]; [wp_step|..]; (split; [done|]); exists t; (split; [done|]);
    intros ??? Heq; simplify_eq. by apply (Hu _ eq_refl).
Qed.

(** What the API is told of an interface besides its static configuration. *)
Definition device (iface : FcNetworkInterface) : bool * option RateLimiter * option RateLimiter :=
  (AllowMMDS iface, InRateLimiter iface, OutRateLimiter iface).

Lemma setupNetwork_devices {S} `{NetlinkConstants} ctx ifaces vmID nsPath :
  returns (λ '(_, _, ifaces'), device <$> ifaces' = device <$> ifaces)
    (NetworkInterfaces_setupNetwork (S := S) ctx ifaces vmID nsPath).
Proof.
  unfold NetworkInterfaces_setupNetwork. destruct (cniInterface ifaces) as [i|]; [|by apply returns_ret].
  apply (returns_bind_with (λ iface, ifaces !! i = Some iface)).
  { intros o s h. by destruct (ifaces !! i). }
  intros iface Hi. apply returns_bind. intros cniConf. cbv zeta.
  apply (returns_bind_with (λ '(_, _, iface'), device iface' = device iface)).
  2:{ intros [[err fs] iface'] Hd. apply returns_ret. rewrite list_fmap_insert, Hd. apply list_insert_id. by rewrite list_lookup_fmap, Hi. }
  unfold setup_cni_interface. apply returns_bind. intros [[e|] fs]; [by apply returns_ret|].
  apply returns_bind. intros [[e|result] fs']; cbv zeta; [by apply returns_ret|].
  destruct (StaticConfiguration _); [by apply returns_ret|].
  apply returns_bind. intros [e|conf]; by apply returns_ret.
Qed.

(** What a CNI result says of the VM [vmID]: it has one interface in the sandbox of
    the VM, one tap of the same name outside it, and one address of the interface; the
    static configuration made of them has its MAC address, the name of the tap, and
    the address, the gateway and the first two nameservers. *)
Definition configured_by (result : Result) (vmID vmIfName : string) (static : StaticNetworkConfiguration) : Prop :=
  ∃ vm tap ip,
    filter (λ i, Interface_Sandbox i = vmID) (Result_Interfaces result) = [vm] ∧
    filter (λ i, Interface_Name i = Interface_Name vm ∧ Interface_Sandbox i ≠ vmID) (Result_Interfaces result) = [tap] ∧
    (∀ c, c ∈ Result_IPs result ∧ ip_of (Result_Interfaces result) (Interface_Name vm) (Interface_Sandbox vm) c ↔ c = ip) ∧
    static = mkStaticNetworkConfiguration (Interface_Mac vm) (Interface_Name tap)
      (Some (mkIPConfiguration (IPConfig_Address ip) (IPConfig_Gateway ip)
               (take 2 (DNS_Nameservers (Result_DNS result))) vmIfName)).

(** The calls that hand over the CNI result. *)
Definition cni_calls ctx (cniConf : CNIConfiguration) (answer : types_Result) (result : Result) (t : trace Sys) : Prop :=
  ∃ t1 networkConf t2,
    t = t1 ++ Event (AddNetworkList (mkCNIConfig (BinPath cniConf) (CacheDir cniConf)) ctx networkConf
                       (asCNIRuntimeConf cniConf)) (inr answer)
           :: Event (NewResultFromResult answer) (inr result) :: t2.

Section done.
Context {S : Type} `{NetlinkConstants} (o : Oracle Sys).

Lemma StaticNetworkConfFrom_done answer cniConf (s : S) h :
  wp (StaticNetworkConfFrom answer (containerID cniConf)) (λ r _ h', ∀ conf, r = Val (inr conf) → ∃ result t,
    h' = h ++ Event (NewResultFromResult answer) (inr result) :: t ∧
    configured_by result (containerID cniConf) (CNI_VMIfName cniConf) (static_from conf cniConf)) o s h.
Proof.
  unfold StaticNetworkConfFrom. apply wp_bind, wp_call.
  destruct (o h _ (NewResultFromResult answer)) as [e|result]; [by apply wp_ret|].
  destruct (VMTapPair result _) as [e|[vm tap]] eqn:Hpair; [by apply wp_ret|]. apply VMTapPair_spec in Hpair as [Hvm Htap].
  apply wp_bind, wp_lift. destruct (InterfaceIPs result _ _) as [ips| |] eqn:Hips; [|done..].
  destruct ips as [|ip [|]]; [by apply wp_ret| |by apply wp_ret].
  apply wp_bind, wp_call. destruct (o _ _ (NsGetNS _)); [by apply wp_ret|]. apply wp_bind.
  set (h1 := _ ++ _). assert (extends (mtuOf (S := S) (Interface_Name tap) (Interface_Sandbox tap))) as Hmtu
    by (unfold mtuOf, GetLink, DefaultNetlinkOps, Default.GetLink, netlink_call, sys_netlink; go_extends).
  destruct (Hmtu o s h1) as [t Ht]. unfold wp at 1. destruct (mtuOf _ _ o s h1) as [[[[e|mtu]| |] s1] h2]; [by apply wp_ret| |done..].
  simpl in Ht. subst h2. apply wp_ret. intros ? [= <-]. exists result. eexists. split; [unfold h1; by rewrite <- !app_assoc|].
  exists vm, tap, ip. split; [done|]. split; [done|]. split; [|done].
  destruct (InterfaceIPs_spec result (Interface_Name vm) (Interface_Sandbox vm)) as [Hok Hbad].
  destruct (decide (Forall (index_ok (Result_Interfaces result)) (Result_IPs result))) as [Hall|Hall].
  - destruct (Hok Hall) as (l & Hl & _ & Hin). rewrite Hips in Hl. injection Hl as <-. intros c. rewrite <- Hin. set_solver.
  - apply Hbad in Hall as [why Hall]. by rewrite Hips in Hall.
Qed.

(** The call that adds the network, whose answer is the result of CNI. *)
Definition added ctx (cniConf : CNIConfiguration) (networkConf : NetworkConfigList) (answer : types_Result) : event Sys :=
  Event (AddNetworkList (mkCNIConfig (BinPath cniConf) (CacheDir cniConf)) ctx networkConf (asCNIRuntimeConf cniConf))
    (inr answer).

Lemma invokeCNI_with_done cniConf ctx networkConf (s : S) h t0 :
  wp (invokeCNI_with cniConf ctx networkConf) (λ r _ h', ∀ answer cs, r = Val (inr answer, cs) →
    ∃ t, h' = h ++ t ++ [added ctx cniConf networkConf answer]) o s (h ++ t0).
Proof.
  unfold invokeCNI_with. set (plugin := mkCNIConfig _ _). set (rt := asCNIRuntimeConf cniConf). cbv zeta.
  set (add := go_bind (call (AddNetworkList _ _ _ _)) _).
  assert (∀ t1, wp add (λ r _ h', ∀ answer cs, r = Val (inr answer, cs) →
    ∃ t, h' = h ++ t ++ [added ctx cniConf networkConf answer]) o s (h ++ t1)) as Hadd.
  { intros t1. unfold add, added. apply wp_bind, wp_call, wp_ret. fold plugin rt. intros answer cs.
    destruct (o (h ++ t1) _ (AddNetworkList plugin ctx networkConf rt)) as [e|result]; [done|]. intros [= <- <-].
    exists t1. by rewrite <- app_assoc. }
  unfold run_network_cleanup. apply wp_bind, wp_bind, wp_call, wp_ret. rewrite <- app_assoc.
  destruct (o _ _ (DelNetworkList _ _ _ _)); [|apply Hadd]. destruct (negb (Force cniConf)); [by apply wp_ret|apply Hadd].
Qed.

Lemma invokeCNI_done cniConf ctx (s : S) h :
  wp (invokeCNI cniConf ctx) (λ r _ h', ∀ answer cs, r = Val (inr answer, cs) →
    ∃ t networkConf, h' = h ++ t ++ [added ctx cniConf networkConf answer]) o s h.
Proof.
  assert (∀ networkConf t0, wp (invokeCNI_with cniConf ctx networkConf) (λ r _ h', ∀ answer cs, r = Val (inr answer, cs) →
    ∃ t networkConf, h' = h ++ t ++ [added ctx cniConf networkConf answer]) o s (h ++ t0)) as Hwith.
  { intros networkConf t0. eapply wp_mono; [apply invokeCNI_with_done|]. intros r s' h' Hr answer cs Heq.
    destruct (Hr answer cs Heq) as [t ->]. by exists t, networkConf. }
  unfold invokeCNI. destruct (NetworkConfig cniConf) as [networkConf|].
  - pose proof (Hwith networkConf []) as Hw. by rewrite app_nil_r in Hw.
  - apply wp_bind, wp_call. destruct (o h _ (LoadConfList _ _)); [by apply wp_ret|apply Hwith].
Qed.

Lemma setup_cni_interface_done ctx iface cniConf (s : S) h :
  wp (setup_cni_interface ctx iface cniConf)
    (λ r _ h', ∀ cs iface', r = Val (None, cs, iface') →
       (StaticConfiguration iface ≠ None ∧ iface' = iface) ∨
       (StaticConfiguration iface = None ∧ ∃ static, iface' = set_static iface static ∧
          ∃ answer result t, h' = h ++ t ∧ cni_calls ctx cniConf answer result t ∧
            configured_by result (containerID cniConf) (CNI_VMIfName cniConf) static)) o s h.
Proof.
  assert (extends (initializeNetNS (S := S) cniConf)) as Hns by (unfold initializeNetNS, mount_netns; go_extends).
  unfold setup_cni_interface. apply wp_bind. destruct (Hns o s h) as [t1 Ht1]. unfold wp at 1.
  destruct (initializeNetNS cniConf o s h) as [[[[[e|] cs1]|w|] s1] h1]; [wp_step; naive_solver| |naive_solver..].
  simpl in Ht1. subst h1. apply wp_bind. eapply wp_mono; [apply invokeCNI_done|].
  intros [[[e|answer] cs2]| |] s2 h2 Hcni; [wp_step; naive_solver| |naive_solver..].
  destruct (StaticConfiguration iface) eqn:Hs; [wp_step; naive_solver|].
  destruct (Hcni _ _ eq_refl) as (t2 & networkConf & ->). clear Hcni.
  apply wp_bind. eapply wp_mono; [apply StaticNetworkConfFrom_done|].
  intros [[e|c]| |] s3 h3 Hconf; [wp_step; naive_solver| |naive_solver..].
  destruct (Hconf _ eq_refl) as (result & t3 & -> & Hc). apply wp_ret. intros ?? [= <- <-]. right. split; [done|].
  eexists. split; [done|]. exists answer, result,
    (t1 ++ t2 ++ [added ctx cniConf networkConf answer] ++ Event (NewResultFromResult answer) (inr result) :: t3).
  split; [by rewrite <- !app_assoc|]. split; [|done]. exists (t1 ++ t2), networkConf, t3. by rewrite <- !app_assoc.
Qed.
End done.

(** The interface after [setupNetwork] succeeded on it, having made the calls [t]. *)
Definition cni_done ctx (vmID nsPath : string) (iface iface' : FcNetworkInterface) (t : trace Sys) : Prop :=
  ∃ c, CNIConfiguration_ iface = Some c ∧
    let c' := setDefaults (with_runtime c vmID nsPath) in
    CNIConfiguration_ iface' = Some c' ∧ device iface' = device iface ∧
    match StaticConfiguration iface with
    | Some static => StaticConfiguration iface' = Some static
    | None => ∃ static answer result,
        StaticConfiguration iface' = Some static ∧ cni_calls ctx c' answer result t ∧
        configured_by result vmID (CNI_VMIfName c) static
    end.

(** C22. When [setupNetwork] succeeds, it has changed only the interface with CNI
    configuration, and of it neither the access to the MMDS nor the rate limiters: its
    CNI configuration carries the identifier of the VM, the path of the namespace and
    the default directories, and it has a static configuration, the user's own, or the
    one the result of CNI says: the MAC address of the one interface in the sandbox of
    the VM, the name of its one tap, its one address with the gateway, and the first
    two nameservers.  Without such an interface it does nothing. *)
Theorem setupNetwork_success {S} `{NetlinkConstants} (o : Oracle Sys) ctx (ifaces : NetworkInterfaces)
    (vmID nsPath : string) (s : S) h :
  wp (NetworkInterfaces_setupNetwork ctx ifaces vmID nsPath)
    (λ r _ h', ∀ cleanupFuncs ifaces', r = Val (None, cleanupFuncs, ifaces') →
       match cniInterface ifaces with
       | None => ifaces' = ifaces ∧ cleanupFuncs = [] ∧ h' = h
       | Some i => ∃ iface iface' t, ifaces !! i = Some iface ∧ ifaces' = <[i := iface']> ifaces ∧
                                     (StaticConfiguration iface = None → h' = h ++ t) ∧
                                     cni_done ctx vmID nsPath iface iface' t
       end) o s h.
Proof.
  unfold NetworkInterfaces_setupNetwork.
  destruct (cniInterface ifaces) as [i|] eqn:Hi; [|wp_step; naive_solver].
  destruct (index_of_Some _ _ _ Hi) as (iface & Hl & Hc).
  unfold hasCNI in Hc. destruct (CNIConfiguration_ iface) as [c|] eqn:Hcni; [|done].
  do 4 (wp_step; simplify_eq/=). apply wp_bind.
  eapply wp_mono; [apply setup_cni_interface_done|]. intros r s' h' Hr.
  destruct r as [[[err cs] iface']|w|]; [wp_step|naive_solver..].
  intros cs' ifaces' [= -> -> <-]. exists iface, iface'. specialize (Hr _ _ eq_refl). simpl in Hr.
  destruct Hr as [[Hs ->]|[Hs (static & -> & answer & result & t & -> & Hcalls & Hconf)]].
  - exists []. split; [done|]. split; [done|]. split; [done|]. exists c. split; [done|]. split; [done|]. split; [done|].
    simpl. by destruct (StaticConfiguration iface).
  - exists t. split; [done|]. split; [done|]. split; [done|]. exists c. split; [done|]. split; [done|]. split; [done|].
    rewrite Hs. by exists static, answer, result.
Qed.

Module Examples.
Definition cni_iface : FcNetworkInterface :=
  mkFcNetworkInterface None
    (Some (mkCNIConfiguration "fcnet" None "veth0" "" [] [] "" "" "" "" false)) false None None.

Lemma selected_interface_unique_witness :
  NetworkInterfaces_validate [cni_iface] (parseKernelArgs "console=ttyS0") = None ∧
  ∃ iface, [cni_iface] = [iface] ∧ 0 = 0 ∧ hasCNI iface = true ∧ staticIPInterface [cni_iface] = None.
Proof.
  assert (NetworkInterfaces_validate [cni_iface] (parseKernelArgs "console=ttyS0") = None) as Hv
    by (vm_compute; reflexivity).
  split; [exact Hv|]. exact (proj1 (selected_interface_unique [cni_iface] _ Hv)).
Defined.
End Examples.
