(* ===== verification/Config.v ===== *)
(** * Configuration and state of a machine (src/machine.go, src/jailer.go, src/handlers.go)

    The records [Config], [JailerConfig] and [Machine], the handlers a machine can
    run and the callbacks that undo its start, both as the values of a type
    ([HandlerFn], [CleanupFunc]) interpreted where the code runs them, and the
    validation of configurations.

    A channel that is only ever closed is a boolean.  [errCh] is the unbuffered
    channel on which the goroutine that waits for the process offers its error.
    The logger is not modelled. *)

From stdpp Require Import gmap strings list.
From Stdlib Require Import ZArith Lia.
From S2P Require Import Prelude GoStrings KernelArgs Models Slices Handlers Builders Commands Vmconf Client Sys Network.

Open Scope string_scope.
Open Scope Z_scope.
Open Scope list_scope.

(** ** Handlers *)
Inductive HandlerFn :=
  | ConfigValidation
  | LoadSnapshotConfigValidation
  | JailerConfigValidation
  | NetworkConfigValidation
  | StartVMM
  | CreateLogFiles
  | BootstrapLogging
  | CreateMachine
  | CreateBootSource
  | AttachDrives
  | CreateNetworkInterfaces
  | SetupNetwork
  | SetupKernelArgs
  | AddVsocks
  | SetMetadataFn (metadata : ApiParams.MmdsContentsObject)
  | ConfigMmds
  | CreateBalloonFn (amountMib : Z) (deflateOnOom : bool) (StatsPollingIntervals : Z)
  | LoadSnapshotFn
  | LinkFiles (kernelImageFileName : string).

#[export] Instance HandlerFn_eq_dec : EqDecision HandlerFn.
Proof. intros x y. unfold Decision. decide equality; first [apply (decide (_ = _)) | apply ApiParams.MmdsContentsObject_eq_dec]. Defined.

#[export] Instance zero_handler : Inhabited (Handler HandlerFn) :=
  populate (mkHandler "" ConfigValidation).

Definition ConfigValidationHandler := mkHandler ValidateCfgHandlerName ConfigValidation.
Definition LoadSnapshotConfigValidationHandler :=
  mkHandler ValidateLoadSnapshotCfgHandlerName LoadSnapshotConfigValidation.
Definition JailerConfigValidationHandler := mkHandler ValidateJailerCfgHandlerName JailerConfigValidation.
Definition NetworkConfigValidationHandler := mkHandler ValidateNetworkCfgHandlerName NetworkConfigValidation.
Definition StartVMMHandler := mkHandler StartVMMHandlerName StartVMM.
Definition CreateLogFilesHandler := mkHandler CreateLogFilesHandlerName CreateLogFiles.
Definition BootstrapLoggingHandler := mkHandler BootstrapLoggingHandlerName BootstrapLogging.
Definition CreateMachineHandler := mkHandler CreateMachineHandlerName CreateMachine.
Definition CreateBootSourceHandler := mkHandler CreateBootSourceHandlerName CreateBootSource.
Definition AttachDrivesHandler := mkHandler AttachDrivesHandlerName AttachDrives.
Definition CreateNetworkInterfacesHandler := mkHandler CreateNetworkInterfacesHandlerName CreateNetworkInterfaces.
Definition SetupNetworkHandler := mkHandler SetupNetworkHandlerName SetupNetwork.
Definition SetupKernelArgsHandler := mkHandler SetupKernelArgsHandlerName SetupKernelArgs.
Definition AddVsocksHandler := mkHandler AddVsocksHandlerName AddVsocks.
Definition NewSetMetadataHandler (metadata : ApiParams.MmdsContentsObject) :=
  mkHandler SetMetadataHandlerName (SetMetadataFn metadata).
Definition ConfigMmdsHandler := mkHandler ConfigMmdsHandlerName ConfigMmds.
Definition NewCreateBalloonHandler (amountMib : Z) (deflateOnOom : bool) (StatsPollingIntervals : Z) :=
  mkHandler CreateBalloonHandlerName (CreateBalloonFn amountMib deflateOnOom StatsPollingIntervals).
Definition LoadSnapshotHandler := mkHandler LoadSnapshotHandlerName LoadSnapshotFn.
Definition LinkFilesHandler (kernelImageFileName : string) :=
  mkHandler LinkFilesToRootFSHandlerName (LinkFiles kernelImageFileName).

(** The backing arrays of all handler lists. *)
Abbreviation handler_heap := (gmap nat (list (Handler HandlerFn))).

Record Handlers := mkHandlers { Validation : slice; FcInit : slice }.

(** [interface HandlersAdapter]: a strategy changes the handlers and may fail. *)
Record HandlersAdapter := mkHandlersAdapter {
  AdaptHandlers : handler_heap → Handlers → error * Handlers * handler_heap
}.

(** A variadic call: the arguments are a fresh slice. *)
Definition Append_handlers `{Growth} (h : handler_heap) (l : slice) (handlers : list (Handler HandlerFn)) :
    slice * handler_heap :=
  let '(args, h) := new_slice h handlers in HandlerList_Append h l args.

Definition defaultFcInitHandlerList : list (Handler HandlerFn) :=
  [SetupNetworkHandler; SetupKernelArgsHandler; StartVMMHandler; CreateLogFilesHandler;
   BootstrapLoggingHandler; CreateMachineHandler; CreateBootSourceHandler; AttachDrivesHandler;
   CreateNetworkInterfacesHandler; AddVsocksHandler; ConfigMmdsHandler].

Definition loadSnapshotRemoveHandlerList : list (Handler HandlerFn) :=
  [SetupKernelArgsHandler; CreateMachineHandler; CreateBootSourceHandler; AttachDrivesHandler;
   CreateNetworkInterfacesHandler; ConfigMmdsHandler].

Definition defaultValidationHandlerList : list (Handler HandlerFn) := [NetworkConfigValidationHandler].

(** The package variable [defaultHandlers], shared by all machines, and the heap
    its initialisation leaves. *)
Definition init_defaultHandlers `{Growth} : Handlers * handler_heap :=
  let '(fcinit, h) := Append_handlers ∅ nil_slice defaultFcInitHandlerList in
  let '(validation, h) := Append_handlers h nil_slice defaultValidationHandlerList in
  (mkHandlers validation fcinit, h).
Definition defaultHandlers `{Growth} : Handlers := init_defaultHandlers.1.

(** ** Configuration *)
Record SeccompConfig := mkSeccompConfig { Seccomp_Enabled : bool; Seccomp_Filter : string }.

Record VsockDevice := mkVsockDevice { VsockDevice_ID : string; VsockDevice_Path : string; VsockDevice_CID : Z }.

Record RateLimiterSet := mkRateLimiterSet {
  Set_InRateLimiter : option RateLimiter;
  Set_OutRateLimiter : option RateLimiter
}.

Definition MMDSv1 : string := "V1".
Definition MMDSv2 : string := "V2".

Definition defaultNetNSDir : string := "/var/run/netns".

Record JailerConfig := mkJailerConfig {
  GID : option Z;
  UID : option Z;
  Jailer_ID : string;
  NumaNode : option Z;
  ExecFile : string;
  JailerBinary : string;
  ChrootBaseDir : string;
  Daemonize : bool;
  ChrootStrategy : option HandlersAdapter;
  CgroupVersion : string;
  CgroupArgs : list string;
  ParentCgroup : string;
  Jailer_Stdout : option stdio;
  Jailer_Stderr : option stdio;
  Jailer_Stdin : option stdio
}.

Record Config := mkConfig {
  SocketPath : string;
  LogPath : string;
  LogFifo : string;
  LogLevel : string;
  MetricsPath : string;
  MetricsFifo : string;
  KernelImagePath : string;
  InitrdPath : string;
  KernelArgs_ : string;
  Drives : list Drive;
  Cfg_NetworkInterfaces : NetworkInterfaces;
  FifoLogWriter : option nat;
  VsockDevices : list VsockDevice;
  MachineCfg : MachineConfiguration;
  DisableValidation : bool;
  JailerCfg : option JailerConfig;
  VMID : string;
  NetNS : string;
  ForwardSignals : option (list os_signal);
  Seccomp : SeccompConfig;
  MmdsAddress : option IP;
  MmdsVersion : string;
  Snapshot : SnapshotConfig
}.

Definition set_SocketPath (v : string) (c : Config) : Config :=
  mkConfig v (LogPath c) (LogFifo c) (LogLevel c) (MetricsPath c) (MetricsFifo c) (KernelImagePath c) (InitrdPath c) (KernelArgs_ c) (Drives c) (Cfg_NetworkInterfaces c) (FifoLogWriter c) (VsockDevices c) (MachineCfg c) (DisableValidation c) (JailerCfg c) (VMID c) (NetNS c) (ForwardSignals c) (Seccomp c) (MmdsAddress c) (MmdsVersion c) (Snapshot c).
Definition set_LogFifo (v : string) (c : Config) : Config :=
  mkConfig (SocketPath c) (LogPath c) v (LogLevel c) (MetricsPath c) (MetricsFifo c) (KernelImagePath c) (InitrdPath c) (KernelArgs_ c) (Drives c) (Cfg_NetworkInterfaces c) (FifoLogWriter c) (VsockDevices c) (MachineCfg c) (DisableValidation c) (JailerCfg c) (VMID c) (NetNS c) (ForwardSignals c) (Seccomp c) (MmdsAddress c) (MmdsVersion c) (Snapshot c).
Definition set_MetricsFifo (v : string) (c : Config) : Config :=
  mkConfig (SocketPath c) (LogPath c) (LogFifo c) (LogLevel c) (MetricsPath c) v (KernelImagePath c) (InitrdPath c) (KernelArgs_ c) (Drives c) (Cfg_NetworkInterfaces c) (FifoLogWriter c) (VsockDevices c) (MachineCfg c) (DisableValidation c) (JailerCfg c) (VMID c) (NetNS c) (ForwardSignals c) (Seccomp c) (MmdsAddress c) (MmdsVersion c) (Snapshot c).
Definition set_KernelImagePath (v : string) (c : Config) : Config :=
  mkConfig (SocketPath c) (LogPath c) (LogFifo c) (LogLevel c) (MetricsPath c) (MetricsFifo c) v (InitrdPath c) (KernelArgs_ c) (Drives c) (Cfg_NetworkInterfaces c) (FifoLogWriter c) (VsockDevices c) (MachineCfg c) (DisableValidation c) (JailerCfg c) (VMID c) (NetNS c) (ForwardSignals c) (Seccomp c) (MmdsAddress c) (MmdsVersion c) (Snapshot c).
Definition set_InitrdPath (v : string) (c : Config) : Config :=
  mkConfig (SocketPath c) (LogPath c) (LogFifo c) (LogLevel c) (MetricsPath c) (MetricsFifo c) (KernelImagePath c) v (KernelArgs_ c) (Drives c) (Cfg_NetworkInterfaces c) (FifoLogWriter c) (VsockDevices c) (MachineCfg c) (DisableValidation c) (JailerCfg c) (VMID c) (NetNS c) (ForwardSignals c) (Seccomp c) (MmdsAddress c) (MmdsVersion c) (Snapshot c).
Definition set_KernelArgs_ (v : string) (c : Config) : Config :=
  mkConfig (SocketPath c) (LogPath c) (LogFifo c) (LogLevel c) (MetricsPath c) (MetricsFifo c) (KernelImagePath c) (InitrdPath c) v (Drives c) (Cfg_NetworkInterfaces c) (FifoLogWriter c) (VsockDevices c) (MachineCfg c) (DisableValidation c) (JailerCfg c) (VMID c) (NetNS c) (ForwardSignals c) (Seccomp c) (MmdsAddress c) (MmdsVersion c) (Snapshot c).
Definition set_Drives (v : list Drive) (c : Config) : Config :=
  mkConfig (SocketPath c) (LogPath c) (LogFifo c) (LogLevel c) (MetricsPath c) (MetricsFifo c) (KernelImagePath c) (InitrdPath c) (KernelArgs_ c) v (Cfg_NetworkInterfaces c) (FifoLogWriter c) (VsockDevices c) (MachineCfg c) (DisableValidation c) (JailerCfg c) (VMID c) (NetNS c) (ForwardSignals c) (Seccomp c) (MmdsAddress c) (MmdsVersion c) (Snapshot c).
Definition set_Cfg_NetworkInterfaces (v : NetworkInterfaces) (c : Config) : Config :=
  mkConfig (SocketPath c) (LogPath c) (LogFifo c) (LogLevel c) (MetricsPath c) (MetricsFifo c) (KernelImagePath c) (InitrdPath c) (KernelArgs_ c) (Drives c) v (FifoLogWriter c) (VsockDevices c) (MachineCfg c) (DisableValidation c) (JailerCfg c) (VMID c) (NetNS c) (ForwardSignals c) (Seccomp c) (MmdsAddress c) (MmdsVersion c) (Snapshot c).
Definition set_VMID (v : string) (c : Config) : Config :=
  mkConfig (SocketPath c) (LogPath c) (LogFifo c) (LogLevel c) (MetricsPath c) (MetricsFifo c) (KernelImagePath c) (InitrdPath c) (KernelArgs_ c) (Drives c) (Cfg_NetworkInterfaces c) (FifoLogWriter c) (VsockDevices c) (MachineCfg c) (DisableValidation c) (JailerCfg c) v (NetNS c) (ForwardSignals c) (Seccomp c) (MmdsAddress c) (MmdsVersion c) (Snapshot c).
Definition set_NetNS (v : string) (c : Config) : Config :=
  mkConfig (SocketPath c) (LogPath c) (LogFifo c) (LogLevel c) (MetricsPath c) (MetricsFifo c) (KernelImagePath c) (InitrdPath c) (KernelArgs_ c) (Drives c) (Cfg_NetworkInterfaces c) (FifoLogWriter c) (VsockDevices c) (MachineCfg c) (DisableValidation c) (JailerCfg c) (VMID c) v (ForwardSignals c) (Seccomp c) (MmdsAddress c) (MmdsVersion c) (Snapshot c).
Definition set_ForwardSignals (v : option (list os_signal)) (c : Config) : Config :=
  mkConfig (SocketPath c) (LogPath c) (LogFifo c) (LogLevel c) (MetricsPath c) (MetricsFifo c) (KernelImagePath c) (InitrdPath c) (KernelArgs_ c) (Drives c) (Cfg_NetworkInterfaces c) (FifoLogWriter c) (VsockDevices c) (MachineCfg c) (DisableValidation c) (JailerCfg c) (VMID c) (NetNS c) v (Seccomp c) (MmdsAddress c) (MmdsVersion c) (Snapshot c).
Definition set_Snapshot (v : SnapshotConfig) (c : Config) : Config :=
  mkConfig (SocketPath c) (LogPath c) (LogFifo c) (LogLevel c) (MetricsPath c) (MetricsFifo c) (KernelImagePath c) (InitrdPath c) (KernelArgs_ c) (Drives c) (Cfg_NetworkInterfaces c) (FifoLogWriter c) (VsockDevices c) (MachineCfg c) (DisableValidation c) (JailerCfg c) (VMID c) (NetNS c) (ForwardSignals c) (Seccomp c) (MmdsAddress c) (MmdsVersion c) v.

Definition hasSnapshot (cfg : Config) : bool :=
  negb (GetMemBackendPath (Snapshot cfg) =? "")%string ||
  negb (Snapshot_SnapshotPath (Snapshot cfg) =? "")%string.

(** ** The machine *)

(** Callbacks run when the machine is torn down. *)
Inductive CleanupFunc :=
  | NetworkCleanup (f : network_cleanup)
  | RemoveFifo (fifo : string)
  | RemoveSocket.

(** The error channel of the goroutine that waits for the process: not yet made,
    empty, empty while that goroutine waits for [Shutdown], a value offered to a
    receiver, closed. *)
Inductive errCh_state := ErrChNone | ErrChEmpty | ErrChBlocked | ErrChOffer (e : error) | ErrChClosed.

Record Machine := mkMachine {
  Handlers_ : Handlers;
  Cfg : Config;
  client : option Client;
  cmd : option Cmd;
  machineConfig : MachineConfiguration;
  started : bool;
  exitCh : bool;
  shutdownCh : bool;
  fatalErr : error;
  cleanupDone : bool;
  cleanupFuncs : list CleanupFunc;
  cleanupCh : bool;
  errCh : errCh_state;
  watching : bool
}.

Definition set_Handlers_ (v : Handlers) (m : Machine) : Machine :=
  mkMachine v (Cfg m) (client m) (cmd m) (machineConfig m) (started m) (exitCh m) (shutdownCh m) (fatalErr m) (cleanupDone m) (cleanupFuncs m) (cleanupCh m) (errCh m) (watching m).
Definition set_Cfg (v : Config) (m : Machine) : Machine :=
  mkMachine (Handlers_ m) v (client m) (cmd m) (machineConfig m) (started m) (exitCh m) (shutdownCh m) (fatalErr m) (cleanupDone m) (cleanupFuncs m) (cleanupCh m) (errCh m) (watching m).
Definition set_client (v : option Client) (m : Machine) : Machine :=
  mkMachine (Handlers_ m) (Cfg m) v (cmd m) (machineConfig m) (started m) (exitCh m) (shutdownCh m) (fatalErr m) (cleanupDone m) (cleanupFuncs m) (cleanupCh m) (errCh m) (watching m).
Definition set_cmd (v : option Cmd) (m : Machine) : Machine :=
  mkMachine (Handlers_ m) (Cfg m) (client m) v (machineConfig m) (started m) (exitCh m) (shutdownCh m) (fatalErr m) (cleanupDone m) (cleanupFuncs m) (cleanupCh m) (errCh m) (watching m).
Definition set_machineConfig (v : MachineConfiguration) (m : Machine) : Machine :=
  mkMachine (Handlers_ m) (Cfg m) (client m) (cmd m) v (started m) (exitCh m) (shutdownCh m) (fatalErr m) (cleanupDone m) (cleanupFuncs m) (cleanupCh m) (errCh m) (watching m).
Definition set_started (v : bool) (m : Machine) : Machine :=
  mkMachine (Handlers_ m) (Cfg m) (client m) (cmd m) (machineConfig m) v (exitCh m) (shutdownCh m) (fatalErr m) (cleanupDone m) (cleanupFuncs m) (cleanupCh m) (errCh m) (watching m).
Definition set_exitCh (v : bool) (m : Machine) : Machine :=
  mkMachine (Handlers_ m) (Cfg m) (client m) (cmd m) (machineConfig m) (started m) v (shutdownCh m) (fatalErr m) (cleanupDone m) (cleanupFuncs m) (cleanupCh m) (errCh m) (watching m).
Definition set_shutdownCh (v : bool) (m : Machine) : Machine :=
  mkMachine (Handlers_ m) (Cfg m) (client m) (cmd m) (machineConfig m) (started m) (exitCh m) v (fatalErr m) (cleanupDone m) (cleanupFuncs m) (cleanupCh m) (errCh m) (watching m).
Definition set_fatalErr (v : error) (m : Machine) : Machine :=
  mkMachine (Handlers_ m) (Cfg m) (client m) (cmd m) (machineConfig m) (started m) (exitCh m) (shutdownCh m) v (cleanupDone m) (cleanupFuncs m) (cleanupCh m) (errCh m) (watching m).
Definition set_cleanupDone (v : bool) (m : Machine) : Machine :=
  mkMachine (Handlers_ m) (Cfg m) (client m) (cmd m) (machineConfig m) (started m) (exitCh m) (shutdownCh m) (fatalErr m) v (cleanupFuncs m) (cleanupCh m) (errCh m) (watching m).
Definition set_cleanupFuncs (v : list CleanupFunc) (m : Machine) : Machine :=
  mkMachine (Handlers_ m) (Cfg m) (client m) (cmd m) (machineConfig m) (started m) (exitCh m) (shutdownCh m) (fatalErr m) (cleanupDone m) v (cleanupCh m) (errCh m) (watching m).
Definition set_cleanupCh (v : bool) (m : Machine) : Machine :=
  mkMachine (Handlers_ m) (Cfg m) (client m) (cmd m) (machineConfig m) (started m) (exitCh m) (shutdownCh m) (fatalErr m) (cleanupDone m) (cleanupFuncs m) v (errCh m) (watching m).
Definition set_errCh (v : errCh_state) (m : Machine) : Machine :=
  mkMachine (Handlers_ m) (Cfg m) (client m) (cmd m) (machineConfig m) (started m) (exitCh m) (shutdownCh m) (fatalErr m) (cleanupDone m) (cleanupFuncs m) (cleanupCh m) v (watching m).
Definition set_watching (v : bool) (m : Machine) : Machine :=
  mkMachine (Handlers_ m) (Cfg m) (client m) (cmd m) (machineConfig m) (started m) (exitCh m) (shutdownCh m) (fatalErr m) (cleanupDone m) (cleanupFuncs m) (cleanupCh m) (errCh m) v.

(** A machine and the heap of handler lists it shares with others. *)
Record World := mkWorld { heap_ : handler_heap; machine : Machine }.
Definition set_heap (v : handler_heap) (w : World) : World := mkWorld v (machine w).
Definition set_machine (v : Machine) (w : World) : World := mkWorld (heap_ w) v.

(** ** Programs on a machine *)
Abbreviation M := (GoM Sys World).

Definition get_machine : M Machine := w <- get ; go_ret (machine w).
Definition get_cfg : M Config := m <- get_machine ; go_ret (Cfg m).
Definition modify_machine (f : Machine → Machine) : M unit :=
  modify (λ w, mkWorld (heap_ w) (f (machine w))).
Definition modify_cfg (f : Config → Config) : M unit :=
  modify_machine (λ m, set_Cfg (f (Cfg m)) m).
Definition add_cleanup (fs : list CleanupFunc) : M unit :=
  modify_machine (λ m, set_cleanupFuncs (cleanupFuncs m ++ fs) m).

(** ** Validation *)

(** [if _, err := os.Stat(path); err != nil { return wrap(err) }] *)
Definition require_file (path : string) (wrap : Err → Err) : M error :=
  err <- call (OsStat path) ;
  go_ret (option_map wrap err).

(** [if _, err := os.Stat(path); err == nil { return ... }] *)
Definition require_no_socket (path : string) : M error :=
  err <- call (OsStat path) ;
  go_ret match err with
         | None => Some (Errorf "socket %s already exists" [path])
         | Some _ => None
         end.

(** The first root drive of the configuration must exist. *)
Fixpoint validate_root_drive (drives : list Drive) : M error :=
  match drives with
  | [] => go_ret None
  | drive :: drives =>
      if BoolValue (Drive_IsRootDevice drive) then
        let rootPath := StringValue (Drive_PathOnHost drive) in
        require_file rootPath (λ e, ErrorfV "failed to stat host drive path, %q: %v" [rootPath] e)
      else validate_root_drive drives
  end.

Definition Config_Validate (cfg : Config) : M error :=
  if DisableValidation cfg then go_ret None
  else
    try require_file (KernelImagePath cfg)
          (λ e, ErrorfV "failed to stat kernel image path, %q: %v" [KernelImagePath cfg] e) ;;
    try (if (InitrdPath cfg =? "")%string then go_ret None
         else require_file (InitrdPath cfg)
                (λ e, ErrorfV "failed to stat initrd image path, %q: %v" [InitrdPath cfg] e)) ;;
    try validate_root_drive (Drives cfg) ;;
    try require_no_socket (SocketPath cfg) ;;
    if Int64Value (MachineConfiguration_VcpuCount (MachineCfg cfg)) <? 1
    then go_ret (Some (Errorf "machine needs a nonzero VcpuCount" []))
    else if Int64Value (MachineConfiguration_MemSizeMib (MachineCfg cfg)) <? 1
    then go_ret (Some (Errorf "machine needs a nonzero amount of memory" []))
    else go_ret None.

Definition Config_ValidateLoadSnapshot (cfg : Config) : M error :=
  if DisableValidation cfg then go_ret None
  else
    try range_err (λ drive,
          let rootPath := StringValue (Drive_PathOnHost drive) in
          require_file rootPath (λ e, ErrorfV "failed to stat drive path, %q: %v" [rootPath] e)) (Drives cfg) ;;
    try require_no_socket (SocketPath cfg) ;;
    try require_file (GetMemBackendPath (Snapshot cfg)) id ;;
    require_file (Snapshot_SnapshotPath (Snapshot cfg)) id.

Definition Config_ValidateNetwork (cfg : Config) : error :=
  if DisableValidation cfg then None
  else NetworkInterfaces_validate (Cfg_NetworkInterfaces cfg) (parseKernelArgs (KernelArgs_ cfg)).

(** The function of [JailerConfigValidationHandler]. *)
Definition validate_jailer (cfg : Config) : error :=
  match JailerCfg cfg with
  | None => None
  | Some j =>
      let hasRoot := negb (InitrdPath cfg =? "")%string ||
                     existsb (λ drive, BoolValue (Drive_IsRootDevice drive)) (Drives cfg) in
      if negb hasRoot then Some (Errorf "A root drive must be present in the drive list" [])
      else match ChrootStrategy j with
      | None => Some (Errorf "ChrootStrategy cannot be nil" [])
      | Some _ =>
      if (ExecFile j =? "")%string then Some (Errorf "exec file must be specified when using jailer mode" [])
      else if (Jailer_ID j =? "")%string then Some (Errorf "id must be specified when using jailer mode" [])
      else match GID j with
      | None => Some (Errorf "GID must be specified when using jailer mode" [])
      | Some _ =>
      match UID j with
      | None => Some (Errorf "UID must be specified when using jailer mode" [])
      | Some _ =>
      match NumaNode j with
      | None => Some (Errorf "ID must be specified when using jailer mode" [])
      | Some _ => None
      end end end end
  end.
