(* ===== verification/MachineApi.v ===== *)
(** * The API methods of a machine (src/machine.go)

    The methods of [Machine] that talk to the Firecracker API through the client:
    configuring the machine before it starts, and controlling it afterwards. *)

From stdpp Require Import gmap strings list.
From Stdlib Require Import ZArith Lia.
From S2P Require Import Prelude GoStrings KernelArgs Models Json ApiParams Builders Commands Vmconf Client Sys Network Config.

Open Scope string_scope.
Open Scope Z_scope.
Open Scope list_scope.

Section api.
Context `{DefaultTimeout}.
Implicit Types (ctx : go_context).

Definition get_client : M Client := m <- get_machine ; deref (client m).

(** [if err != nil { return err }; k(resp)] on a response with a payload. *)
Definition with_payload {R P A} (resp : Err + R) (payload : R → option P) (k : P → M (Err + A)) : M (Err + A) :=
  match resp with
  | inl err => go_ret (inl err)
  | inr resp => p <- deref (payload resp) ; k p
  end.

Definition LogFile (m : Machine) : string := LogFifo (Cfg m).
Definition Machine_LogLevel (m : Machine) : string := LogLevel (Cfg m).

(** ** Configuring *)
Definition setupLogging ctx : M error :=
  cfg <- get_cfg ;
  let path := if (LogFifo cfg =? "")%string then LogPath cfg else LogFifo cfg in
  if (path =? "")%string then go_ret None
  else
    let level := String_ (LogLevel cfg) in
    let level := if (StringValue level =? "")%string then None else level in
    c <- get_client ;
    Client_PutLogger c ctx (Some (mkLogger level (String_ path) (Bool true) (Bool false))) [].

Definition setupMetrics ctx : M error :=
  cfg <- get_cfg ;
  let path := if (MetricsFifo cfg =? "")%string then MetricsPath cfg else MetricsFifo cfg in
  if (path =? "")%string then go_ret None
  else
    c <- get_client ;
    Client_PutMetrics c ctx (Some (mkMetrics (String_ path))) [].

Definition refreshMachineConfiguration : M error :=
  c <- get_client ;
  resp <- Client_GetMachineConfiguration c [] ;
  match resp with
  | inl err => go_ret (Some err)
  | inr resp =>
      payload <- deref (GetMachineConfigurationOK_Payload resp) ;
      modify_machine (set_machineConfig payload) ;;
      go_ret None
  end.

Definition createMachine ctx : M error :=
  cfg <- get_cfg ;
  c <- get_client ;
  try Client_PutMachineConfiguration c ctx (Some (MachineCfg cfg)) [] ;;
  refreshMachineConfiguration.

Definition createBootSource ctx (imagePath initrdPath kernelArgs : string) : M error :=
  let bsrc := mkBootSource kernelArgs initrdPath (Some imagePath) in
  c <- get_client ;
  Client_PutGuestBootSource c ctx (Some bsrc) [].

(** The model of an interface that [createNetworkInterface] sends. *)
Definition iface_model (iface : FcNetworkInterface) (static : StaticNetworkConfiguration) (ifaceID : string) :
    NetworkInterface :=
  mkNetworkInterface (MacAddress static) (String_ (HostDevName static)) (Some ifaceID)
    (InRateLimiter iface) (OutRateLimiter iface).

Definition createNetworkInterface ctx (iface : FcNetworkInterface) (iid : Z) : M error :=
  let ifaceID := strconv_Itoa iid in
  match StaticConfiguration iface with
  | None => go_ret (Some (ErrorsNew "invalid nil state for network interface"))
  | Some static =>
      c <- get_client ;
      Client_PutGuestNetworkInterfaceByID c ctx ifaceID (Some (iface_model iface static ifaceID)) []
  end.

Definition createNetworkInterfaces ctx (ifaces : NetworkInterfaces) : M error :=
  range_err (λ '(id, iface), createNetworkInterface ctx iface (Z.of_nat id + 1)) (imap pair ifaces).

Definition attachDrive ctx (dev : Drive) : M error :=
  c <- get_client ;
  Client_PutGuestDriveByID c ctx (StringValue (Drive_DriveID dev)) (Some dev) [].

Definition attachDrives ctx (drives : list Drive) : M error := range_err (attachDrive ctx) drives.

Definition addVsock ctx (dev : VsockDevice) : M error :=
  let vsockCfg := mkVsock (Int64 (VsockDevice_CID dev)) (Some (VsockDevice_Path dev)) (VsockDevice_ID dev) in
  c <- get_client ;
  Client_PutGuestVsock c ctx (Some vsockCfg) [].

(** The argument is ignored: the devices of the configuration are added. *)
Definition addVsocks ctx (vsocks : list VsockDevice) : M error :=
  cfg <- get_cfg ;
  range_err (addVsock ctx) (VsockDevices cfg).

Definition allowed_ids (ifaces : NetworkInterfaces) : list string :=
  omap (λ '(id, iface), if AllowMMDS iface then Some (strconv_Itoa (Z.of_nat id + 1)) else None)
    (imap pair ifaces).

Definition setMmdsConfig ctx (address : option IP) (ifaces : NetworkInterfaces) (version : string) : M error :=
  let version := if ((version =? MMDSv1) || (version =? MMDSv2))%string then version else MMDSv1 in
  match allowed_ids ifaces with
  | [] => go_ret None
  | ids =>
      c <- get_client ;
      Client_PutMmdsConfig c ctx (Some (mkMmdsConfig (IP_String <$> address) (Some ids) (Some version)))
  end.

Definition startInstance ctx : M error :=
  cfg <- get_cfg ;
  if hasSnapshot cfg then go_ret None
  else
    c <- get_client ;
    Client_CreateSyncAction c ctx
      (Some (mkInstanceActionInfo (Some InstanceActionInfoActionTypeInstanceStart))) [].

Definition sendCtrlAltDel ctx : M error :=
  c <- get_client ;
  Client_CreateSyncAction c ctx
    (Some (mkInstanceActionInfo (Some InstanceActionInfoActionTypeSendCtrlAltDel))) [].

Definition loadSnapshot ctx (snapshot : SnapshotConfig) : M error :=
  let snapshotParams := mkSnapshotLoadParams (Snapshot_EnableDiffSnapshots snapshot)
    (Snapshot_MemBackend snapshot) (Snapshot_MemFilePath snapshot) (Snapshot_ResumeVM snapshot)
    (Some (Snapshot_SnapshotPath snapshot)) in
  c <- get_client ;
  err <- Client_LoadSnapshot c ctx (Some snapshotParams) [] ;
  go_ret (option_map (ErrorfV "failed to load a snapshot for VM: %v" []) err).

(** ** Controlling *)
Definition Machine_GetFirecrackerVersion ctx : M (Err + string) :=
  c <- get_client ;
  resp <- Client_GetFirecrackerVersion c ctx [] ;
  with_payload resp GetFirecrackerVersionOK_Payload (λ p,
  version <- deref (FirecrackerVersion_FirecrackerVersion p) ;
  go_ret (inr version)).

Definition SetMetadata ctx (metadata : MmdsContentsObject) : M error :=
  c <- get_client ; Client_PutMmds c ctx metadata [].

Definition UpdateMetadata ctx (metadata : MmdsContentsObject) : M error :=
  c <- get_client ; Client_PatchMmds c ctx metadata [].

(** [json.Marshal] of decoded JSON data is its text, [null] for nil. *)
Definition json_Marshal (v : MmdsContentsObject) : json := json_encode v.

Definition GetMetadata ctx : M error :=
  c <- get_client ;
  resp <- Client_GetMmds c ctx [] ;
  match resp with
  | inl err => go_ret (Some err)
  | inr resp => call (JsonUnmarshal (json_Marshal (GetMmdsOK_Payload resp)))
  end.

Definition UpdateGuestDrive ctx (driveID pathOnHost : string)
    (opts : list PatchGuestDriveByIDOpt) : M error :=
  c <- get_client ; Client_PatchGuestDriveByID c ctx driveID pathOnHost opts.

(** The update [UpdateGuestNetworkInterfaceRateLimit] sends: the outbound limiter
    is given the inbound one. *)
Definition rate_limit_update (ifaceID : string) (rateLimiters : RateLimiterSet) : PartialNetworkInterface :=
  mkPartialNetworkInterface (Some ifaceID) (Set_InRateLimiter rateLimiters)
    (match Set_OutRateLimiter rateLimiters with
     | Some _ => Set_InRateLimiter rateLimiters
     | None => None
     end).

Definition UpdateGuestNetworkInterfaceRateLimit ctx (ifaceID : string) (rateLimiters : RateLimiterSet)
    (opts : list PatchGuestNetworkInterfaceByIDOpt) : M error :=
  c <- get_client ;
  Client_PatchGuestNetworkInterfaceByID c ctx ifaceID (Some (rate_limit_update ifaceID rateLimiters)) opts.

Definition DescribeInstanceInfo ctx : M (Err + InstanceInfo) :=
  c <- get_client ;
  resp <- Client_GetInstanceInfo c ctx [] ;
  with_payload resp DescribeInstanceOK_Payload (λ p, go_ret (inr p)).

Definition patch_vm ctx (state : string) (opts : list PatchVMOpt) : M error :=
  c <- get_client ; Client_PatchVM c ctx (Some (mkVM (String_ state))) opts.
Definition PauseVM ctx opts : M error := patch_vm ctx VMStatePaused opts.
Definition ResumeVM ctx opts : M error := patch_vm ctx VMStateResumed opts.

Definition CreateSnapshot ctx (memFilePath snapshotPath : string)
    (opts : list CreateSnapshotOpt) : M error :=
  c <- get_client ;
  Client_CreateSnapshot c ctx
    (Some (mkSnapshotCreateParams (String_ memFilePath) (String_ snapshotPath) "" "")) opts.

Definition CreateBalloon ctx (amountMib : Z) (deflateOnOom : bool) (statsPollingIntervals : Z)
    (opts : list PutBalloonOpt) : M error :=
  c <- get_client ;
  Client_PutBalloon c ctx (Some (mkBalloon (Some amountMib) (Some deflateOnOom) statsPollingIntervals)) opts.

Definition GetBalloonConfig ctx : M (Err + Balloon) :=
  c <- get_client ;
  resp <- Client_DescribeBalloonConfig c ctx ;
  with_payload resp DescribeBalloonConfigOK_Payload (λ p, go_ret (inr p)).

Definition UpdateBalloon ctx (amountMib : Z) (opts : list PatchBalloonOpt) : M error :=
  c <- get_client ; Client_PatchBalloon c ctx (Some (mkBalloonUpdate (Some amountMib))) opts.

Definition GetBalloonStats ctx : M (Err + BalloonStats) :=
  c <- get_client ;
  resp <- Client_DescribeBalloonStats c ctx ;
  with_payload resp DescribeBalloonStatsOK_Payload (λ p, go_ret (inr p)).

Definition UpdateBalloonStats ctx (statsPollingIntervals : Z)
    (opts : list PatchBalloonStatsIntervalOpt) : M error :=
  c <- get_client ;
  Client_PatchBalloonStatsInterval c ctx (Some (mkBalloonStatsUpdate (Some statsPollingIntervals))) opts.
End api.
