(* ===== verification/Vmm.v ===== *)
(** * The VMM process (src/machine.go, src/handlers.go)

    Starting the process, waiting for its socket, stopping it and cleaning up, as
    the goroutine of the caller runs them.  The goroutine that waits for the
    process runs [exit_goroutine] when the process ends; here that happens when
    the caller waits for it (in [waitForSocket] and [stopVMM]) or as a step of its
    own between two calls.  All interleavings are the subject of Lifecycle.v. *)

From stdpp Require Import gmap strings list.
From Stdlib Require Import ZArith Lia.
From S2P Require Import Prelude GoStrings Models ApiParams Builders Commands Client Netlink Sys Network Config MachineApi.

Open Scope string_scope.
Open Scope Z_scope.
Open Scope list_scope.

(** ** github.com/hashicorp/go-multierror *)
Class Multierror := {
  multierror : Type;
  (** [multierror.Append(err, e)] for a possibly nil [*multierror.Error] *)
  merr_Append : option multierror → error → multierror;
  (** [multierror.Append(err, e)] for any error *)
  merr_AppendErr : error → error → multierror;
  merr_ErrorOrNil : multierror → error
}.

(** Documented behaviour: nil errors are skipped, and [ErrorOrNil] is nil exactly
    when no error was added. *)
Class MultierrorLaws `{Multierror} := {
  merr_Append_nil m e : merr_ErrorOrNil (merr_Append m e) = None ↔
    match m with Some m => merr_ErrorOrNil m = None | None => True end ∧ e = None;
  merr_AppendErr_nil e1 e2 : merr_ErrorOrNil (merr_AppendErr e1 e2) = None ↔ e1 = None ∧ e2 = None
}.

Definition close_panic : string := "close of closed channel".

Section vmm.
Context `{DefaultTimeout} `{Multierror}.
Implicit Types (ctx : go_context).

(** ** Cleanup *)
Definition remove_if_exists (path : string) : M error :=
  err <- call (OsRemove path) ;
  go_ret (if os_IsNotExist err then None else err).

Definition run_cleanup (f : CleanupFunc) : M error :=
  match f with
  | NetworkCleanup f => run_network_cleanup f
  | RemoveFifo fifo => remove_if_exists fifo
  | RemoveSocket => cfg <- get_cfg ; remove_if_exists (SocketPath cfg)
  end.

(** The loop of [doCleanup] on the functions in the order they are run. *)
Fixpoint run_cleanups (fs : list CleanupFunc) (err : option multierror) : M (option multierror) :=
  match fs with
  | [] => go_ret err
  | f :: fs => e <- run_cleanup f ; run_cleanups fs (Some (merr_Append err e))
  end.

Definition doCleanup : M error :=
  m <- get_machine ;
  if cleanupDone m then go_ret None
  else
    modify_machine (set_cleanupDone true) ;;
    err <- run_cleanups (reverse (cleanupFuncs m)) None ;
    go_ret match err with Some err => merr_ErrorOrNil err | None => None end.

(** ** Channels *)
Definition close_exitCh : M unit :=
  m <- get_machine ;
  if exitCh m then go_panic close_panic else modify_machine (set_exitCh true).

Definition close_shutdownCh : M unit :=
  m <- get_machine ;
  if shutdownCh m then go_panic close_panic else modify_machine (set_shutdownCh true).

(** [m.fatalErr = e; close(m.exitCh)] *)
Definition finish (e : error) : M unit :=
  modify_machine (set_fatalErr e) ;; close_exitCh.

(** A receiver takes the value the waiting goroutine offers: that goroutine goes on
    to close [errCh] and [cleanupCh]. *)
Definition take_offer : M unit :=
  modify_machine (λ m, set_cleanupCh true (set_errCh ErrChClosed m)).

Definition is_daemonized (cfg : Config) : bool :=
  match JailerCfg cfg with Some j => Daemonize j | None => false end.

(** The goroutine that waits for the process blocks on [shutdownCh]: the parent of
    a daemonized jailer exited cleanly and nobody called [Shutdown]. *)
Definition exit_blocked (m : Machine) (waitErr : error) : bool :=
  is_daemonized (Cfg m) && match waitErr with None => true | Some _ => false end && negb (shutdownCh m).

(** The goroutine of [startVMM] that waits for the process: it cleans up and offers
    its error. *)
Definition offer_error (waitErr : error) : M unit :=
  cleanupErr <- doCleanup ;
  modify_machine (set_errCh (ErrChOffer (merr_ErrorOrNil (merr_AppendErr waitErr cleanupErr)))).

(** The same goroutine from the return of [cmd.Wait], as far as it goes. *)
Definition exit_goroutine (waitErr : error) : M unit :=
  m <- get_machine ;
  if exit_blocked m waitErr then modify_machine (set_errCh ErrChBlocked) else offer_error waitErr.

(** The goroutine of [startVMM] that closes [exitCh], once there is a value. *)
Definition watch_goroutine : M unit :=
  m <- get_machine ;
  if watching m then
    match errCh m with
    | ErrChOffer e => take_offer ;; modify_machine (set_watching false) ;; finish e
    | ErrChClosed => modify_machine (set_watching false) ;; finish None
    | _ => go_ret tt
    end
  else go_ret tt.

(** The process ends, if it runs: both goroutines run as far as they can. *)
Definition process_exits (waitErr : error) : M unit :=
  m <- get_machine ;
  match errCh m with
  | ErrChEmpty => exit_goroutine waitErr ;; watch_goroutine
  | _ => go_ret tt
  end.

(** The waiting goroutine goes on when [shutdownCh] is closed. *)
Definition unblock : M unit :=
  m <- get_machine ;
  match errCh m with
  | ErrChBlocked => offer_error None ;; watch_goroutine
  | _ => go_ret tt
  end.

(** ** Waiting for the socket *)
Fixpoint waitForSocket (fuel : nat) (timeout : Z) : M error :=
  match fuel with
  | O => go_pending
  | Datatypes.S fuel =>
      ev <- call (SocketSelect timeout) ;
      match ev with
      | SocketDeadline e => go_ret (Some e)
      | ProcessExited waitErr =>
          m <- get_machine ;
          match errCh m with
          | ErrChEmpty =>
              exit_goroutine waitErr ;;
              m <- get_machine ;
              match errCh m with
              | ErrChOffer e => take_offer ;; go_ret e
              | _ => waitForSocket fuel timeout
              end
          | _ => waitForSocket fuel timeout (* nothing to receive *)
          end
      | SocketTick =>
          cfg <- get_cfg ;
          err <- call (OsStat (SocketPath cfg)) ;
          match err with
          | Some _ => waitForSocket fuel timeout
          | None =>
              c <- get_client ;
              resp <- Client_GetMachineConfiguration c [] ;
              match resp with
              | inl _ => waitForSocket fuel timeout
              | inr _ => go_ret None
              end
          end
      end
  end.

(** ** Starting *)

(** [startCmd()], which records the process in the command. *)
Definition startCmd : M error :=
  m <- get_machine ;
  cmd <- deref (cmd m) ;
  started <- call (CmdStart cmd) ;
  match started with
  | inl err => go_ret (Some err)
  | inr pid =>
      modify_machine (set_cmd (Some (mkCmd (Cmd_Args cmd) (Cmd_Stdin cmd) (Cmd_Stdout cmd) (Cmd_Stderr cmd)
                                           (Some pid)))) ;;
      go_ret None
  end.

Definition start_process : M error :=
  cfg <- get_cfg ;
  if negb (NetNS cfg =? "")%string && match JailerCfg cfg with None => true | Some _ => false end
  then
    entered <- call (NsEnter (NetNS cfg)) ;
    match entered with
    | Some err => go_ret (Some err)
    | None => startCmd
    end
  else startCmd.

(** [m.setupSignals()]; the goroutine it starts and the buffered channel are those of
    Workers.v. *)
Definition Machine_setupSignals : M unit :=
  cfg <- get_cfg ;
  match ForwardSignals cfg with
  | Some (_ :: _ as signals) => call (SignalNotify signals)
  | _ => go_ret tt
  end.

(** [startVMM] once the process runs. *)
Definition await_socket (fuel : nat) : M error :=
  add_cleanup [RemoveSocket] ;;
  modify_machine (set_errCh ErrChEmpty) ;;
  Machine_setupSignals ;;
  c <- get_client ;
  err <- waitForSocket fuel (int64_mul (firecrackerInitTimeout c) Second) ;
  match err with
  | Some e =>
      cfg <- get_cfg ;
      let err := ErrorfW "Firecracker did not create API socket %s: %w" [SocketPath cfg] e in
      finish (Some err) ;;
      go_ret (Some err)
  | None =>
      modify_machine (set_watching true) ;;
      watch_goroutine ;;
      go_ret None
  end.

Definition startVMM (fuel : nat) : M error :=
  err <- start_process ;
  match err with
  | Some err => finish (Some err) ;; go_ret (Some err)
  | None => await_socket fuel
  end.

(** ** Stopping *)
Definition err_text (e : Err) : string :=
  match e with Ext _ text => text | ErrorsNew text => text | CtxErr text => text | _ => "" end.

Definition finished_text : string := "os: process already finished".

Definition has_process (m : Machine) : bool :=
  match cmd m with Some c => match Cmd_Process c with Some _ => true | None => false end | None => false end.

(** [<-m.cleanupCh]: the channel is closed, or the process ends and its goroutine
    closes it, or the receive blocks for ever. *)
Definition await_cleanupCh : M unit :=
  m <- get_machine ;
  if cleanupCh m then go_ret tt
  else
    match errCh m with
    | ErrChEmpty =>
        exited <- call AwaitProcess ;
        match exited with
        | None => go_pending
        | Some waitErr =>
            process_exits waitErr ;;
            m <- get_machine ;
            if cleanupCh m then go_ret tt else go_pending
        end
    | _ => go_pending
    end.

Definition stopVMM : M error :=
  m <- get_machine ;
  if has_process m then
    err <- call (ProcessSignal SIGTERM) ;
    match err with
    | Some e =>
        if strings_Contains (err_text e) finished_text
        then await_cleanupCh ;; go_ret None
        else go_ret (Some e)
    | None => await_cleanupCh ;; go_ret None
    end
  else go_ret None.

Definition StopVMM : M error := stopVMM.

Definition PID : M (Err + Z) :=
  m <- get_machine ;
  match cmd m ≫= Cmd_Process with
  | None => go_ret (inl (Errorf "machine is not running" []))
  | Some pid =>
      if exitCh m then go_ret (inl (Errorf "machine process has exited" [])) else go_ret (inr pid)
  end.

(** [runtime.GOARCH != "arm64"] is the argument [amd64]. *)
Definition Shutdown (amd64 : bool) ctx : M error :=
  close_shutdownCh ;;
  unblock ;;
  if amd64 then sendCtrlAltDel ctx else StopVMM.

(** [select] between the context and [exitCh]: when both are ready either is
    taken; when neither is, the call blocks until the environment decides. *)
Definition Wait ctx : M error :=
  done <- call (WaitSelect ctx) ;
  match done with
  | Some err => go_ret (Some err)
  | None =>
      m <- get_machine ;
      if exitCh m then go_ret (fatalErr m) else go_pending
  end.

(** ** Log files *)
Definition createFifo (path : string) : M error :=
  err <- call (SyscallMkfifo path 448) ;
  go_ret (option_map (ErrorfV "Failed to create log fifo: %v" []) err).

Definition createFifoOrFile (fifo path : string) : M error :=
  if negb (fifo =? "")%string then
    try createFifo fifo ;;
    add_cleanup [RemoveFifo fifo] ;;
    go_ret None
  else if negb (path =? "")%string then call (OsOpenFile path [O_RDWR; O_CREATE; O_APPEND] 384)
  else go_ret None.

(** Opening the fifo; the goroutines that copy it are those of Workers.v. *)
Definition captureFifoToFile ctx (fifoPath : string) : M error :=
  err <- call (OpenFifo ctx fifoPath) ;
  go_ret (option_map (ErrorfV "Failed to open fifo path at %q: %v" [fifoPath]) err).

(** The function of [CreateLogFilesHandler]; an error of the capture is logged. *)
Definition createLogFiles ctx : M error :=
  cfg <- get_cfg ;
  try createFifoOrFile (MetricsFifo cfg) (MetricsPath cfg) ;;
  cfg <- get_cfg ;
  try createFifoOrFile (LogFifo cfg) (LogPath cfg) ;;
  match FifoLogWriter cfg with
  | Some _ => captureFifoToFile ctx (LogFifo cfg) ;; go_ret None
  | None => go_ret None
  end.

(** ** Network *)
Definition setupNetwork `{NetlinkConstants} ctx : M error :=
  cfg <- get_cfg ;
  result <- NetworkInterfaces_setupNetwork ctx (Cfg_NetworkInterfaces cfg) (VMID cfg) (NetNS cfg) ;
  let '(err, cleanupFuncs, ifaces) := result in
  modify_cfg (set_Cfg_NetworkInterfaces ifaces) ;;
  add_cleanup (NetworkCleanup <$> cleanupFuncs) ;;
  go_ret err.

Definition setupKernelArgs : M error :=
  cfg <- get_cfg ;
  let kernelArgs := KernelArgs.parseKernelArgs (KernelArgs_ cfg) in
  kernelArgs <-
    match staticIPInterface (Cfg_NetworkInterfaces cfg) with
    | None => go_ret kernelArgs
    | Some i =>
        iface <- deref (Cfg_NetworkInterfaces cfg !! i) ;
        static <- deref (StaticConfiguration iface) ;
        ipConf <- deref (IPConfiguration_ static) ;
        param <- ipBootParam ipConf ;
        go_ret (<["ip" := Some param]> kernelArgs)
    end ;
  order <- call (MapRange kernelArgs) ;
  modify_cfg (set_KernelArgs_ (KernelArgs.kernelArgs_String (proj1_sig order))) ;;
  go_ret None.
End vmm.
