(* ===== verification/Machine.v ===== *)
(** * Creating and starting a machine (src/machine.go, src/jailer.go, src/opts.go)

    [NewMachine] with its options and the jailer, the interpretation of the
    handlers, and [Start]. *)

From stdpp Require Import gmap strings list.
From Stdlib Require Import ZArith Lia.
From S2P Require Import Prelude GoStrings KernelArgs Models ApiParams Slices Handlers Builders Commands Vmconf Client Netlink Sys Network Config MachineApi Vmm.

Open Scope string_scope.
Open Scope Z_scope.
Open Scope list_scope.

(** ** The jailer *)

(** The chroot directory [jail] gives the jailer. *)
Definition jailerWorkspaceDir (j : JailerConfig) : string :=
  filepath_Join [if (ChrootBaseDir j =? "")%string then defaultJailerPath else ChrootBaseDir j;
                 filepath_Base (ExecFile j); Jailer_ID j; rootfsFolderName].

(** The directory [LinkFilesHandler] links into. *)
Definition link_rootfs (j : JailerConfig) : string :=
  filepath_Join [ChrootBaseDir j; filepath_Base (ExecFile j); Jailer_ID j; rootfsFolderName].

Definition ErrMissingJailerConfig : Err := Errorf "jailer config was not set for use" [].
Definition ErrRequiredHandlerMissing : Err := Errorf "required handler is missing from FcInit's list" [].
Definition ErrAlreadyStarted : Err := ErrorsNew "firecracker: machine already started".

Record NaiveChrootStrategy := mkNaiveChrootStrategy { Rootfs : string; Naive_KernelImagePath : string }.

Definition NewNaiveChrootStrategy (kernelImagePath : string) : NaiveChrootStrategy :=
  mkNaiveChrootStrategy "" kernelImagePath.

Definition seccompArgs (cfg : Config) : list string :=
  if negb (Seccomp_Enabled (Seccomp cfg)) then ["--no-seccomp"]
  else if negb (Seccomp_Filter (Seccomp cfg) =? "")%string
  then ["--seccomp-filter"; Seccomp_Filter (Seccomp cfg)]
  else [].

Definition configureBuilder (builder : VMCommandBuilder) (cfg : Config) : VMCommandBuilder :=
  VM_AddArgs
    (VM_AddArgs (VM_WithSocketPath builder (SocketPath cfg)) ["--id"; VMID cfg])
    (seccompArgs cfg).

Definition nonempty_or (s def : string) : string := if (s =? "")%string then def else s.
Definition stdio_or (s : option stdio) (def : stdio) : option stdio :=
  match s with None => Some def | Some s => Some s end.

(** The command builder of [jail] for a machine socket. *)
Definition jail_builder (cfg : Config) (j : JailerConfig) (uid gid node : Z) (machineSocketPath : string) :
    JailerCommandBuilder :=
  let fcArgs := seccompArgs cfg ++ ["--api-sock"; machineSocketPath] in
  let b := NewJailerCommandBuilder in
  let b := J_WithID b (Jailer_ID j) in
  let b := J_WithUID b uid in
  let b := J_WithGID b gid in
  let b := J_WithNumaNode b node in
  let b := J_WithExecFile b (ExecFile j) in
  let b := J_WithChrootBaseDir b (ChrootBaseDir j) in
  let b := J_WithDaemonize b (Daemonize j) in
  let b := J_WithCgroupVersion b (CgroupVersion j) in
  let b := J_WithCgroupArgs b (CgroupArgs j) in
  let b := J_WithParentCgroup b (ParentCgroup j) in
  let b := J_WithFirecrackerArgs b fcArgs in
  let b := J_WithStdout b (stdio_or (Jailer_Stdout j) OsStdout) in
  let b := J_WithStderr b (stdio_or (Jailer_Stderr j) OsStderr) in
  let b := if (JailerBinary j =? "")%string then b else J_WithBin b (JailerBinary j) in
  let b := if (NetNS cfg =? "")%string then b else J_WithNetNS b (NetNS cfg) in
  match Jailer_Stdin j with Some stdin => J_WithStdin b (Some stdin) | None => b end.

Section machine.
Context `{Growth} `{DefaultTimeout} `{Multierror} `{NetlinkConstants}.
Implicit Types (ctx : go_context).

(** [HandlerList] methods on the machine's lists. *)
Definition update_FcInit (f : handler_heap → slice → slice * handler_heap) (h : handler_heap) (hs : Handlers) :
    Handlers * handler_heap :=
  let '(l, h) := f h (FcInit hs) in (mkHandlers (Validation hs) l, h).
Definition update_Validation (f : handler_heap → slice → slice * handler_heap) (h : handler_heap) (hs : Handlers) :
    Handlers * handler_heap :=
  let '(l, h) := f h (Validation hs) in (mkHandlers l (FcInit hs), h).

Definition NaiveChroot_AdaptHandlers (s : NaiveChrootStrategy) (h : handler_heap) (handlers : Handlers) :
    error * Handlers * handler_heap :=
  if negb (HandlerList_Has h (FcInit handlers) CreateLogFilesHandlerName)
  then (Some ErrRequiredHandlerMissing, handlers, h)
  else
    let '(handlers, h) :=
      update_FcInit (λ h l, HandlerList_AppendAfter h l CreateLogFilesHandlerName
                              (LinkFilesHandler (filepath_Base (Naive_KernelImagePath s)))) h handlers in
    (None, handlers, h).

(** A [NaiveChrootStrategy] as a [HandlersAdapter]. *)
Definition naive_adapter (s : NaiveChrootStrategy) : HandlersAdapter :=
  mkHandlersAdapter (NaiveChroot_AdaptHandlers s).

(** Hard-linking a file into the chroot under a name. *)
Definition link_into (rootfs file name : string) : M error :=
  call (OsLink file (filepath_Join [rootfs; name])).

(** The loop of [LinkFilesHandler] over the drives, from index [i]. *)
Fixpoint link_drives (rootfs : string) (i : nat) (drives : list Drive) : M error :=
  match drives with
  | [] => go_ret None
  | drive :: drives =>
      let hostPath := StringValue (Drive_PathOnHost drive) in
      let driveFileName := filepath_Base hostPath in
      try link_into rootfs hostPath driveFileName ;;
      modify_cfg (λ cfg, set_Drives (alter (λ d,
        mkDrive (Drive_CacheType d) (Drive_DriveID d) (Drive_IoEngine d) (Drive_IsReadOnly d)
          (Drive_IsRootDevice d) (Drive_Partuuid d) (String_ driveFileName) (Drive_RateLimiter d))
        i (Drives cfg)) cfg) ;;
      link_drives rootfs (Datatypes.S i) drives
  end.

(** One iteration of the loop over the fifos. *)
Definition link_fifo (rootfs : string) (j : JailerConfig) (fifo : Config → string)
    (set_fifo : string → Config → Config) : M error :=
  cfg <- get_cfg ;
  let fifoPath := fifo cfg in
  if (fifoPath =? "")%string then go_ret None
  else
    let fileName := filepath_Base fifoPath in
    try link_into rootfs fifoPath fileName ;;
    uid <- deref (UID j) ;
    gid <- deref (GID j) ;
    try call (OsChown (filepath_Join [rootfs; fileName]) uid gid) ;;
    modify_cfg (set_fifo fileName) ;;
    go_ret None.

(** The function of [LinkFilesHandler]. *)
Definition linkFiles (kernelImageFileName : string) : M error :=
  cfg <- get_cfg ;
  match JailerCfg cfg with
  | None => go_ret (Some ErrMissingJailerConfig)
  | Some j =>
      let rootfs := link_rootfs j in
      try link_into rootfs (KernelImagePath cfg) kernelImageFileName ;;
      let initrdFilename := if (InitrdPath cfg =? "")%string then "" else filepath_Base (InitrdPath cfg) in
      try (if (InitrdPath cfg =? "")%string then go_ret None
           else link_into rootfs (InitrdPath cfg) initrdFilename) ;;
      try link_drives rootfs 0 (Drives cfg) ;;
      modify_cfg (set_KernelImagePath kernelImageFileName) ;;
      (if (InitrdPath cfg =? "")%string then go_ret tt else modify_cfg (set_InitrdPath initrdFilename)) ;;
      try link_fifo rootfs j LogFifo set_LogFifo ;;
      link_fifo rootfs j MetricsFifo set_MetricsFifo
  end.

(** [jail]: the machine's command and handlers for a configuration with a jailer;
    the configuration as [jail] leaves it. *)
Definition jail (cfg : Config) : M (Err + Config) :=
  j <- deref (JailerCfg cfg) ;
  let machineSocketPath := nonempty_or (SocketPath cfg) defaultSocketPath in
  let cfg := set_SocketPath (filepath_Join [jailerWorkspaceDir j; machineSocketPath]) cfg in
  uid <- deref (UID j) ;
  gid <- deref (GID j) ;
  node <- deref (NumaNode j) ;
  let builder := jail_builder cfg j uid gid node machineSocketPath in
  cpulist <- call (OsReadFile (numa_cpulist_path node)) ;
  modify_machine (set_cmd (Some (J_Build (λ _, cpulist) builder))) ;;
  strategy <- deref (ChrootStrategy j) ;
  w <- get ;
  let '(err, handlers, h) := AdaptHandlers strategy (heap_ w) (Handlers_ (machine w)) in
  put (mkWorld h (set_Handlers_ handlers (machine w))) ;;
  go_ret match err with Some e => inl e | None => inr cfg end.

(** ** Options *)

(** [type Opt func( *Machine)] *)
Definition Opt : Type := World → World.

Definition WithClient (c : option Client) : Opt := λ w, set_machine (set_client c (machine w)) w.
Definition WithProcessRunner (c : option Cmd) : Opt := λ w, set_machine (set_cmd c (machine w)) w.

Definition WithSnapshotOpt : Type := SnapshotConfig → SnapshotConfig.

Definition WithMemoryBackend (backendType backendPath : string) : WithSnapshotOpt := λ cfg,
  mkSnapshotConfig (Snapshot_MemFilePath cfg) (Some (mkMemoryBackend (String_ backendPath) (String_ backendType)))
    (Snapshot_SnapshotPath cfg) (Snapshot_EnableDiffSnapshots cfg) (Snapshot_ResumeVM cfg).

Fixpoint remove_all (h : handler_heap) (l : slice) (handlers : list (Handler HandlerFn)) : slice * handler_heap :=
  match handlers with
  | [] => (l, h)
  | x :: handlers => let '(l, h) := HandlerList_Remove h l (Handler_Name x) in remove_all h l handlers
  end.

Definition modifyHandlersForLoadSnapshot (h : handler_heap) (l : slice) : slice * handler_heap :=
  let '(l, h) := remove_all h l loadSnapshotRemoveHandlerList in
  Append_handlers h l [LoadSnapshotHandler].

Definition WithSnapshot (memFilePath snapshotPath : string) (opts : list WithSnapshotOpt) : Opt := λ w,
  let m := machine w in
  let s := Snapshot (Cfg m) in
  let s := mkSnapshotConfig memFilePath (Snapshot_MemBackend s) snapshotPath
             (Snapshot_EnableDiffSnapshots s) (Snapshot_ResumeVM s) in
  let s := apply_opts opts s in
  let '(handlers, h) :=
    update_Validation (λ h l,
      let '(l, h) := HandlerList_Remove h l ValidateCfgHandlerName in
      Append_handlers h l [LoadSnapshotConfigValidationHandler]) (heap_ w) (Handlers_ m) in
  let '(handlers, h) := update_FcInit modifyHandlersForLoadSnapshot h handlers in
  mkWorld h (set_Handlers_ handlers (set_Cfg (set_Snapshot s (Cfg m)) m)).

(** ** NewMachine *)
Definition defaultForwardSignals : list os_signal := [SIGINT; SIGQUIT; SIGTERM; SIGHUP; SIGABRT].

Definition zero_MachineConfiguration : MachineConfiguration := mkMachineConfiguration "" None None None None.

Definition zero_SnapshotConfig : SnapshotConfig := mkSnapshotConfig "" None "" false false.

Definition zero_Config : Config :=
  mkConfig "" "" "" "" "" "" "" "" "" [] [] None [] zero_MachineConfiguration false None "" "" None
    (mkSeccompConfig false "") None "" zero_SnapshotConfig.

(** A machine with its three channels made. *)
Definition new_machine : Machine :=
  mkMachine (mkHandlers nil_slice nil_slice) zero_Config None None zero_MachineConfiguration
    false false false None false [] false ErrChNone false.

Definition defaultNetNSPath (m : Machine) : string := filepath_Join [defaultNetNSDir; VMID (Cfg m)].

(** The identifier of the machine. *)
Definition with_vmid (cfg : Config) : M (Err + Config) :=
  if (VMID cfg =? "")%string then
    id <- call UuidNewRandom ;
    go_ret match id with
           | inl err => inl (ErrorfW "failed to create random ID for VMID: %w" [] err)
           | inr id => inr (set_VMID id cfg)
           end
  else go_ret (inr cfg).

(** [m.Handlers.Validation = m.Handlers.Validation.Append(handler)] *)
Definition append_validation (handler : Handler HandlerFn) : M unit :=
  modify (λ w,
    let '(handlers, h) := update_Validation (λ h l, Append_handlers h l [handler]) (heap_ w) (Handlers_ (machine w)) in
    mkWorld h (set_Handlers_ handlers (machine w))).

(** The command of the machine, jailed or not. *)
Definition build_command (cfg : Config) : M (Err + Config) :=
  match JailerCfg cfg with
  | Some _ =>
      append_validation JailerConfigValidationHandler ;;
      jail cfg
  | None =>
      append_validation ConfigValidationHandler ;;
      modify_machine (set_cmd (Some (VM_Build (configureBuilder defaultFirecrackerVMMCommandBuilder cfg)))) ;;
      go_ret (inr cfg)
  end.

(** The end of [NewMachine]: client, defaults and options. *)
Definition finish_machine (cfg : Config) (opts : list Opt) : M unit :=
  m <- get_machine ;
  (match client m with
   | None => c <- NewClient (SocketPath cfg) [] ; modify_machine (set_client (Some c))
   | Some _ => go_ret tt
   end) ;;
  let cfg := match ForwardSignals cfg with
             | None => set_ForwardSignals (Some defaultForwardSignals) cfg
             | Some _ => cfg end in
  modify_machine (λ m, set_Cfg cfg (set_machineConfig (MachineCfg cfg) m)) ;;
  (if (NetNS cfg =? "")%string && bool_decide (is_Some (cniInterface (Cfg_NetworkInterfaces cfg)))
   then modify_machine (λ m, set_Cfg (set_NetNS (defaultNetNSPath m) (Cfg m)) m)
   else go_ret tt) ;;
  modify (apply_opts opts).

(** On an error there is no machine to use. *)
Definition NewMachine (cfg : Config) (opts : list Opt) : M error :=
  modify (set_machine new_machine) ;;
  id <- with_vmid cfg ;
  match id with
  | inl err => go_ret (Some err)
  | inr cfg =>
      modify_machine (set_Handlers_ defaultHandlers) ;;
      built <- build_command cfg ;
      match built with
      | inl err => go_ret (Some err)
      | inr cfg => finish_machine cfg opts ;; go_ret None
      end
  end.

(** ** Handlers *)
Variable fuel : nat.

(** What the handler functions do; [fuel] bounds the polls for the socket. *)
Definition exec_handler ctx (fn : HandlerFn) : M error :=
  match fn with
  | ConfigValidation => cfg <- get_cfg ; Config_Validate cfg
  | LoadSnapshotConfigValidation => cfg <- get_cfg ; Config_ValidateLoadSnapshot cfg
  | JailerConfigValidation => cfg <- get_cfg ; go_ret (validate_jailer cfg)
  | NetworkConfigValidation => cfg <- get_cfg ; go_ret (Config_ValidateNetwork cfg)
  | StartVMM => startVMM fuel
  | CreateLogFiles => createLogFiles ctx
  | BootstrapLogging => try setupLogging ctx ;; setupMetrics ctx
  | CreateMachine => createMachine ctx
  | CreateBootSource =>
      cfg <- get_cfg ; createBootSource ctx (KernelImagePath cfg) (InitrdPath cfg) (KernelArgs_ cfg)
  | AttachDrives => cfg <- get_cfg ; attachDrives ctx (Drives cfg)
  | CreateNetworkInterfaces => cfg <- get_cfg ; createNetworkInterfaces ctx (Cfg_NetworkInterfaces cfg)
  | SetupNetwork => setupNetwork ctx
  | SetupKernelArgs => setupKernelArgs
  | AddVsocks => cfg <- get_cfg ; addVsocks ctx (VsockDevices cfg)
  | SetMetadataFn metadata => SetMetadata ctx metadata
  | ConfigMmds =>
      cfg <- get_cfg ; setMmdsConfig ctx (MmdsAddress cfg) (Cfg_NetworkInterfaces cfg) (MmdsVersion cfg)
  | CreateBalloonFn amountMib deflateOnOom statsPollingIntervals =>
      CreateBalloon ctx amountMib deflateOnOom statsPollingIntervals []
  | LoadSnapshotFn => cfg <- get_cfg ; loadSnapshot ctx (Snapshot cfg)
  | LinkFiles kernelImageFileName => linkFiles kernelImageFileName
  end.

Definition run_handlers ctx : M error :=
  w <- get ;
  let hs := Handlers_ (machine w) in
  Handlers_Run (exec_handler ctx) (DisableValidation (Cfg (machine w)))
    (elems (heap_ w) (Validation hs)) (elems (heap_ w) (FcInit hs)).

(** ** Start *)
Definition Start ctx : M error :=
  m <- get_machine ;
  if started m then go_ret (Some ErrAlreadyStarted)
  else
    modify_machine (set_started true) ;;
    err <- (try run_handlers ctx ;; startInstance ctx) ;
    match err with
    | Some e => doCleanup ;; go_ret (Some e)
    | None => go_ret None
    end.
End machine.
