(* ===== verification/Concrete.v ===== *)
(** * A concrete environment

    Instances of the third-party interfaces and an environment in which every call
    succeeds, on which the witnesses of the theorems run the programs. *)

From stdpp Require Import gmap strings list.
From Stdlib Require Import ZArith Lia.
From S2P Require Import Prelude GoStrings KernelArgs Models Json ApiParams Slices Handlers Builders Commands Vmconf Client Netlink Sys Network Config MachineApi Vmm Machine.

Open Scope string_scope.
Open Scope Z_scope.
Open Scope list_scope.

(** Growing an array to exactly the length needed. *)
#[export] Instance exact_growth : Growth := { growslice _ needed := needed; growslice_ge _ needed := le_n needed }.

#[export] Instance default_timeout : DefaultTimeout := 30 * Second.

#[export] Instance multierror_list : Multierror := {
  multierror := list Err;
  merr_Append m e := default [] m ++ match e with Some e => [e] | None => [] end;
  merr_AppendErr e1 e2 := match e1 with Some e => [e] | None => [] end ++ match e2 with Some e => [e] | None => [] end;
  merr_ErrorOrNil m := match m with [] => None | e :: _ => Some e end
}.

#[export] Instance multierror_list_laws : MultierrorLaws.
Proof. split; [intros [[|x l]|] [y|]|intros [x|] [y|]]; simpl; naive_solver. Qed.

#[export] Instance netlink_constants : NetlinkConstants := {
  MakeHandle major minor := Z.lor (Z.shiftl major 16) minor;
  HANDLE_INGRESS := 4294967281;
  ETH_P_ALL := 3; TC_ACT_STOLEN := 4; TCA_EGRESS_REDIR := 1;
  TUNTAP_MODE_TAP := 2; TUNTAP_ONE_QUEUE := 8192; TUNTAP_VNET_HDR := 16384;
  TUNSETOWNER := 1074025676; TUNSETGROUP := 1074025678
}.

Definition not_exist : Err := Ext NotExist "no such file or directory".
Definition connection_error : Err := Ext OtherExt "connection refused".

Definition is_start (ev : event Sys) : bool :=
  match ev with Event c _ => match c with CmdStart _ => true | _ => false end end.

(** The answers of the API to valid requests. *)
Definition api_answer {T} (c : ClientIface T) : T :=
  match c in ClientIface T return T with
  | Ops_DescribeBalloonConfig _ => inr (mkDescribeBalloonConfigOK (Some (mkBalloon (Some 64) (Some true) 0)))
  | Ops_DescribeBalloonStats _ => inl connection_error
  | Ops_DescribeInstance _ => inr (mkDescribeInstanceOK None)
  | Ops_GetExportVMConfig _ => inl connection_error
  | Ops_GetFirecrackerVersion _ => inr (mkGetFirecrackerVersionOK (Some (mkFirecrackerVersion (Some "1.4.1"))))
  | Ops_GetMachineConfiguration _ =>
      inr (mkGetMachineConfigurationOK (Some (mkMachineConfiguration "" (Some 512) (Some false) None (Some 2))))
  | Ops_GetMmds _ => inr (mkGetMmdsOK (Some (JObject [])))
  | _ => None
  end.

Definition netlink_answer {T} (c : NetlinkCall T) : T :=
  match c in NetlinkCall T return T with
  | QdiscList _ => inr []
  | FilterList _ _ => inr []
  | LinkByName name => inr (mkLink name 7 1500)
  | LinkAdd tap => inr (mkLink (Tuntap_Name tap) 7 1500, [3])
  | _ => None
  end.

(** A host on which every call succeeds: the file [socket] exists once a process
    was started, every other file exists, and the first poll finds the API. *)
Definition host (socket : string) : Oracle Sys := λ h T c,
  match c in Sys T return T with
  | OsStat path => if (path =? socket)%string && negb (existsb is_start h) then Some not_exist else None
  | OsReadFile _ => None
  | OsGetenv _ => ""
  | UuidNewRandom => inr "00000000-0000-4000-8000-000000000000"
  | LoadConfList _ _ => inr 0%nat
  | AddNetworkList _ _ _ _ => inr 0%nat
  | NewResultFromResult _ =>
      inr (mkResult [mkInterface "tap0" "02:00:00:00:00:01" "vm"; mkInterface "tap0" "" "/var/run/netns/vm"]
             [mkIPConfig (Some 0) (mkIPNet [10; 0; 0; 2] [255; 255; 255; 0]) [10; 0; 0; 1]] []
             (mkDNS ["8.8.8.8"; "8.8.4.4"; "1.1.1.1"] "" [] []))
  | CmdStart _ => inr 4242
  | AwaitProcess => Some None
  | SignalNotify _ => tt
  | SocketSelect _ => SocketTick
  | PollSelect _ => Tick
  | MapRange m => exist _ (map_to_list m) (Permutation_refl _)
  | Api _ c => api_answer c
  | NL c => netlink_answer c
  | _ => None
  end.

Definition is_select (ev : event Sys) : bool :=
  match ev with Event c _ => match c with SocketSelect _ => true | _ => false end end.

(** The same host where the VMM never opens [socket], until a deadline after
    [n] polls. *)
Definition silent_host (socket : string) (n : nat) : Oracle Sys := λ h T c,
  match c in Sys T return T with
  | OsStat path => if (path =? socket)%string then Some not_exist else None
  | SocketSelect _ =>
      if (n <=? length (List.filter is_select h))%nat then SocketDeadline (CtxErr "context deadline exceeded")
      else SocketTick
  | c => host socket h _ c
  end.

(** A small machine: one root drive, no network. *)
Definition sample_config : Config :=
  mkConfig "/tmp/fc.sock" "" "" "" "" "" "/vmlinux" "" "console=ttyS0"
    [mkDrive None (Some "1") None (Some false) (Some true) "" (Some "/rootfs") None] [] None []
    (mkMachineConfiguration "" (Some 512) None None (Some 2)) false None "vm" "" None
    (mkSeccompConfig false "") None "" zero_SnapshotConfig.

(** The same machine in a jail, with a CNI interface and a fifo for its log. *)
Definition sample_jailer : JailerConfig :=
  mkJailerConfig (Some 123) (Some 100) "vm" (Some 0) "/bin/firecracker" "" "/jail" false
    (Some (naive_adapter (NewNaiveChrootStrategy "/vmlinux"))) "2" [] "" None None None.

Definition jailed_config : Config :=
  mkConfig "/fc.sock" "" "/log.fifo" "" "" "" "/vmlinux" "" "console=ttyS0"
    [mkDrive None (Some "1") None (Some false) (Some true) "" (Some "/images/rootfs") None]
    [mkFcNetworkInterface None (Some (mkCNIConfiguration "net" None "veth0" "eth0" [] [] "" "" "" "" false)) true None None]
    None [] (mkMachineConfiguration "" (Some 512) None None (Some 2)) false (Some sample_jailer) "vm" "" None
    (mkSeccompConfig true "") None "" zero_SnapshotConfig.

(** The same machine with a static address. *)
Definition static_config : Config :=
  set_Cfg_NetworkInterfaces
    [mkFcNetworkInterface
       (Some (mkStaticNetworkConfiguration "02:00:00:00:00:01" "tap0"
          (Some (mkIPConfiguration (mkIPNet [10; 0; 0; 2] [255; 255; 255; 0]) [10; 0; 0; 1] ["8.8.8.8"] "eth0"))))
       None false None None] sample_config.

Definition sample_host : Oracle Sys := host "/tmp/fc.sock".

(** The world when the package is loaded. *)
Definition initial_world : World := mkWorld init_defaultHandlers.2 new_machine.

(** The state a program leaves. *)
Definition after {A} (m : M A) (o : Oracle Sys) (w : World) : World := (m o w []).1.2.

Lemma run_after {A} (m : M A) (o : Oracle Sys) w r :
  (m o w []).1.1 = r → m o w [] = (r, after m o w, (m o w []).2).
Proof. unfold after. destruct (m o w []) as [[? ?] ?]. by intros <-. Qed.

Definition created : World := after (NewMachine sample_config []) sample_host initial_world.
Definition running : World := after (Start 5 Background) sample_host created.
Definition exited : World := after (process_exits None) sample_host running.
