(* ===== verification/MachineFacts.v ===== *)
(** * How a machine evolves (src/machine.go)

    One relation, [evolves], collects what no operation of a machine undoes: the
    flags and closed channels stay set, cleanup functions are only appended, the
    fatal error is fixed once [exitCh] is closed, and the handlers, the client and
    the identity of the machine do not change.  Every operation keeps it. *)

From stdpp Require Import gmap strings list.
From Stdlib Require Import ZArith Lia.
From S2P Require Import Prelude GoStrings KernelArgs Models ApiParams Slices Handlers Builders Commands Vmconf Client Netlink Sys Network Config MachineApi Vmm Machine Concrete.

Open Scope string_scope.
Open Scope Z_scope.
Open Scope list_scope.

Definition stays (b b' : bool) : Prop := b = true → b' = true.

Record evolves (w w' : World) : Prop := {
  ev_heap : heap_ w' = heap_ w;
  ev_handlers : Handlers_ (machine w') = Handlers_ (machine w);
  ev_client : client (machine w') = client (machine w);
  ev_socket : SocketPath (Cfg (machine w')) = SocketPath (Cfg (machine w));
  ev_vmid : VMID (Cfg (machine w')) = VMID (Cfg (machine w));
  ev_jailer : JailerCfg (Cfg (machine w')) = JailerCfg (Cfg (machine w));
  ev_started : stays (started (machine w)) (started (machine w'));
  ev_exitCh : stays (exitCh (machine w)) (exitCh (machine w'));
  ev_shutdownCh : stays (shutdownCh (machine w)) (shutdownCh (machine w'));
  ev_cleanupCh : stays (cleanupCh (machine w)) (cleanupCh (machine w'));
  ev_cleanupDone : stays (cleanupDone (machine w)) (cleanupDone (machine w'));
  ev_cleanupFuncs : cleanupFuncs (machine w) `prefix_of` cleanupFuncs (machine w');
  ev_fatalErr : exitCh (machine w) = true → fatalErr (machine w') = fatalErr (machine w)
}.

#[export] Instance evolves_preorder : PreOrder evolves.
Proof.
  split.
  - intros w. constructor; unfold stays; eauto; done.
  - intros w1 w2 w3 [] []. constructor; unfold stays in *; eauto; try congruence.
    + by etransitivity.
    + intros He. rewrite ev_fatalErr1 by auto. auto.
Qed.

(** A change of fields [evolves] does not constrain. *)
Ltac evolve := intros; constructor; unfold stays; simpl; auto; try done.

Section evolves.
Context `{Growth} `{DefaultTimeout} `{Multierror} `{NetlinkConstants}.
Implicit Types (ctx : go_context).

Lemma keeps_get_machine : keeps evolves get_machine.
Proof. unfold get_machine. go_keeps. Qed.
Lemma keeps_get_cfg : keeps evolves get_cfg.
Proof. unfold get_cfg. pose proof keeps_get_machine. go_keeps. Qed.
Lemma keeps_modify_machine f :
  (∀ w, evolves w (mkWorld (heap_ w) (f (machine w)))) → keeps evolves (modify_machine f).
Proof. intros Hf. unfold modify_machine. by apply keeps_modify. Qed.
Lemma keeps_modify_cfg f :
  (∀ c, SocketPath (f c) = SocketPath c ∧ VMID (f c) = VMID c ∧ JailerCfg (f c) = JailerCfg c) →
  keeps evolves (modify_cfg f).
Proof.
  intros Hf. apply keeps_modify_machine. intros w. destruct (Hf (Cfg (machine w))) as (? & ? & ?). evolve.
Qed.
Lemma keeps_add_cleanup fs : keeps evolves (add_cleanup fs).
Proof. apply keeps_modify_machine. evolve. by exists fs. Qed.
End evolves.

#[export] Hint Resolve keeps_get_machine keeps_get_cfg keeps_add_cleanup : go_keeps.
#[export] Hint Extern 3 (keeps evolves (modify_machine _)) => apply keeps_modify_machine; evolve : go_keeps.
#[export] Hint Extern 3 (keeps evolves (modify_cfg _)) => apply keeps_modify_cfg; done : go_keeps.

Section operations.
Context `{Growth} `{DefaultTimeout} `{Multierror} `{NetlinkConstants}.
Implicit Types (ctx : go_context).

Lemma keeps_finish e : keeps evolves (finish e).
Proof.
  intros o w h. unfold finish, modify_machine, close_exitCh, get_machine. run_unfold. simpl.
  destruct (exitCh (machine w)) eqn:He; [done|]. simpl. constructor; unfold stays; simpl; auto; congruence.
Qed.
#[local] Hint Resolve keeps_finish : go_keeps.

Lemma keeps_run_cleanup f : keeps evolves (run_cleanup f).
Proof. unfold run_cleanup, remove_if_exists, run_network_cleanup. go_keeps. Qed.
#[local] Hint Resolve keeps_run_cleanup : go_keeps.

Lemma keeps_run_cleanups fs err : keeps evolves (run_cleanups fs err).
Proof. revert err. induction fs as [|f fs IH]; simpl; go_keeps. Qed.
#[local] Hint Resolve keeps_run_cleanups : go_keeps.

Lemma keeps_doCleanup : keeps evolves doCleanup.
Proof. unfold doCleanup. go_keeps. Qed.
#[local] Hint Resolve keeps_doCleanup : go_keeps.

Lemma keeps_offer_error e : keeps evolves (offer_error e).
Proof. unfold offer_error. go_keeps. Qed.
#[local] Hint Resolve keeps_offer_error : go_keeps.
Lemma keeps_exit_goroutine e : keeps evolves (exit_goroutine e).
Proof. unfold exit_goroutine. go_keeps. Qed.
Lemma keeps_take_offer : keeps evolves take_offer.
Proof. unfold take_offer. go_keeps. Qed.
#[local] Hint Resolve keeps_exit_goroutine keeps_take_offer : go_keeps.
Lemma keeps_watch_goroutine : keeps evolves watch_goroutine.
Proof. unfold watch_goroutine. go_keeps. Qed.
#[local] Hint Resolve keeps_watch_goroutine : go_keeps.
Lemma keeps_process_exits e : keeps evolves (process_exits e).
Proof. unfold process_exits. go_keeps. Qed.
Lemma keeps_unblock : keeps evolves unblock.
Proof. unfold unblock. go_keeps. Qed.
#[local] Hint Resolve keeps_process_exits keeps_unblock : go_keeps.

Lemma keeps_get_client : keeps evolves get_client.
Proof. unfold get_client. go_keeps. Qed.
#[local] Hint Resolve keeps_get_client : go_keeps.

Lemma keeps_operations {T} (c : Client) (r : ClientIface T) : keeps evolves (operations (E := Sys) c r).
Proof. unfold operations. go_keeps. Qed.
#[local] Hint Resolve keeps_operations : go_keeps.

Lemma keeps_waitForSocket fuel timeout : keeps evolves (waitForSocket fuel timeout).
Proof. induction fuel as [|fuel IH]; simpl; unfold Client_GetMachineConfiguration; go_keeps. Qed.
#[local] Hint Resolve keeps_waitForSocket : go_keeps.

Lemma keeps_startVMM fuel : keeps evolves (startVMM fuel).
Proof. unfold startVMM, start_process, startCmd, await_socket. go_keeps. Qed.
#[local] Hint Resolve keeps_startVMM : go_keeps.

Lemma keeps_stopVMM : keeps evolves stopVMM.
Proof. unfold stopVMM, await_cleanupCh. go_keeps. Qed.
#[local] Hint Resolve keeps_stopVMM : go_keeps.

Lemma keeps_Shutdown amd64 ctx : keeps evolves (Shutdown amd64 ctx).
Proof. unfold Shutdown, close_shutdownCh, StopVMM, sendCtrlAltDel, Client_CreateSyncAction. go_keeps. Qed.

Lemma keeps_createLogFiles ctx : keeps evolves (createLogFiles ctx).
Proof. unfold createLogFiles, createFifoOrFile, createFifo, captureFifoToFile. go_keeps. Qed.
#[local] Hint Resolve keeps_createLogFiles : go_keeps.

(** Setting up the network changes no state of its own. *)
Lemma keeps_setupNetwork_eq ctx ifaces vmID nsPath :
  keeps eq (NetworkInterfaces_setupNetwork (S := World) ctx ifaces vmID nsPath).
Proof.
  unfold NetworkInterfaces_setupNetwork, setup_cni_interface, initializeNetNS, mount_netns, invokeCNI,
    invokeCNI_with, run_network_cleanup, StaticNetworkConfFrom, mtuOf, GetLink, DefaultNetlinkOps, Default.GetLink.
  go_keeps.
Qed.

Lemma keeps_setupNetwork_run ctx ifaces vmID nsPath :
  keeps evolves (NetworkInterfaces_setupNetwork (S := World) ctx ifaces vmID nsPath).
Proof. apply keeps_eq; [exact _|apply keeps_setupNetwork_eq]. Qed.
#[local] Hint Resolve keeps_setupNetwork_run : go_keeps.

Lemma keeps_setupNetwork ctx : keeps evolves (setupNetwork ctx).
Proof. unfold setupNetwork. go_keeps. Qed.
#[local] Hint Resolve keeps_setupNetwork : go_keeps.

Lemma keeps_setupKernelArgs : keeps evolves setupKernelArgs.
Proof. unfold setupKernelArgs, ipBootParam. go_keeps. Qed.
#[local] Hint Resolve keeps_setupKernelArgs : go_keeps.

Lemma keeps_linkFiles name : keeps evolves (linkFiles name).
Proof.
  assert (∀ rootfs i drives, keeps evolves (link_drives rootfs i drives)) as Hd.
  { intros rootfs i drives. revert i. induction drives as [|d drives IH]; simpl; unfold link_into; go_keeps. }
  unfold linkFiles, link_fifo, link_into. go_keeps.
Qed.
#[local] Hint Resolve keeps_linkFiles : go_keeps.

Lemma keeps_validation cfg : keeps evolves (Config_Validate cfg) ∧ keeps evolves (Config_ValidateLoadSnapshot cfg).
Proof.
  assert (∀ drives, keeps evolves (validate_root_drive drives)) as Hd.
  { induction drives as [|d drives IH]; simpl; unfold require_file; go_keeps. }
  unfold Config_Validate, Config_ValidateLoadSnapshot, require_file, require_no_socket. split; go_keeps.
Qed.

Lemma keeps_exec_handler fuel ctx fn : keeps evolves (exec_handler fuel ctx fn).
Proof.
  pose proof (λ cfg, proj1 (keeps_validation cfg)). pose proof (λ cfg, proj2 (keeps_validation cfg)).
  destruct fn; cbn [exec_handler];
    unfold setupLogging, setupMetrics, createMachine, refreshMachineConfiguration, createBootSource, attachDrives,
      attachDrive, createNetworkInterfaces, createNetworkInterface, addVsocks, addVsock, SetMetadata,
      setMmdsConfig, CreateBalloon, loadSnapshot, Client_PutLogger, Client_PutMetrics,
      Client_PutMachineConfiguration, Client_GetMachineConfiguration, Client_PutGuestBootSource,
      Client_PutGuestDriveByID, Client_PutGuestNetworkInterfaceByID, Client_PutGuestVsock, Client_PutMmds,
      Client_PutMmdsConfig, Client_PutBalloon, Client_LoadSnapshot; go_keeps.
Qed.
#[local] Hint Resolve keeps_exec_handler : go_keeps.

Lemma keeps_startInstance ctx : keeps evolves (startInstance ctx).
Proof. unfold startInstance, Client_CreateSyncAction. go_keeps. Qed.
#[local] Hint Resolve keeps_startInstance : go_keeps.

Lemma keeps_run_handlers fuel ctx : keeps evolves (run_handlers fuel ctx).
Proof. unfold run_handlers, Handlers_Run, HandlerList_Run. go_keeps. Qed.
#[local] Hint Resolve keeps_run_handlers : go_keeps.

Lemma keeps_Start fuel ctx : keeps evolves (Start fuel ctx).
Proof. unfold Start. go_keeps. Qed.

(** ** [MachineIface] (src/machineiface.go)

    The interface for callers that may be given another implementation than
    [Machine]; that of [Machine] is its methods, with the parameters of the model
    (the fuel of [Start], the architecture [Shutdown] asks for). *)
Class MachineIface (E : Type → Type) (S : Type) := {
  Iface_Start : go_context → GoM E S error;
  Iface_StopVMM : GoM E S error;
  Iface_Shutdown : go_context → GoM E S error;
  Iface_Wait : go_context → GoM E S error;
  Iface_SetMetadata : go_context → MmdsContentsObject → GoM E S error;
  Iface_UpdateGuestDrive : go_context → string → string →
    list PatchGuestDriveByIDOpt → GoM E S error;
  Iface_UpdateGuestNetworkInterfaceRateLimit : go_context → string → RateLimiterSet →
    list PatchGuestNetworkInterfaceByIDOpt → GoM E S error
}.

Definition machine_iface (fuel : nat) (amd64 : bool) : MachineIface Sys World := {|
  Iface_Start := Start fuel;
  Iface_StopVMM := StopVMM;
  Iface_Shutdown := Shutdown amd64;
  Iface_Wait := Wait;
  Iface_SetMetadata := SetMetadata;
  Iface_UpdateGuestDrive := UpdateGuestDrive;
  Iface_UpdateGuestNetworkInterfaceRateLimit := UpdateGuestNetworkInterfaceRateLimit
|}.

(** ** The operations of a running machine *)

(** The methods a caller may use after [NewMachine], and the end of the process. *)
Inductive operation :=
  | DoStart (fuel : nat) (ctx : go_context)
  | DoStopVMM
  | DoShutdown (amd64 : bool) (ctx : go_context)
  | DoWait (ctx : go_context)
  | DoPID
  | DoGetFirecrackerVersion (ctx : go_context)
  | DoSetMetadata (ctx : go_context) (metadata : MmdsContentsObject)
  | DoUpdateMetadata (ctx : go_context) (metadata : MmdsContentsObject)
  | DoGetMetadata (ctx : go_context)
  | DoUpdateGuestDrive (ctx : go_context) (driveID pathOnHost : string)
  | DoUpdateRateLimit (ctx : go_context) (ifaceID : string) (rateLimiters : RateLimiterSet)
  | DoDescribeInstanceInfo (ctx : go_context)
  | DoPauseVM (ctx : go_context)
  | DoResumeVM (ctx : go_context)
  | DoCreateSnapshot (ctx : go_context) (memFilePath snapshotPath : string)
  | DoCreateBalloon (ctx : go_context) (amountMib : Z) (deflateOnOom : bool) (statsPollingIntervals : Z)
  | DoGetBalloonConfig (ctx : go_context)
  | DoUpdateBalloon (ctx : go_context) (amountMib : Z)
  | DoGetBalloonStats (ctx : go_context)
  | DoUpdateBalloonStats (ctx : go_context) (statsPollingIntervals : Z)
  | ProcessEnds (waitErr : error).

Definition ignore {A} (m : M A) : M unit := m ;; go_ret tt.

Definition run_operation (op : operation) : M unit :=
  match op with
  | DoStart fuel ctx => ignore (Start fuel ctx)
  | DoStopVMM => ignore StopVMM
  | DoShutdown amd64 ctx => ignore (Shutdown amd64 ctx)
  | DoWait ctx => ignore (Wait ctx)
  | DoPID => ignore PID
  | DoGetFirecrackerVersion ctx => ignore (Machine_GetFirecrackerVersion ctx)
  | DoSetMetadata ctx metadata => ignore (SetMetadata ctx metadata)
  | DoUpdateMetadata ctx metadata => ignore (UpdateMetadata ctx metadata)
  | DoGetMetadata ctx => ignore (GetMetadata ctx)
  | DoUpdateGuestDrive ctx driveID path => ignore (UpdateGuestDrive ctx driveID path [])
  | DoUpdateRateLimit ctx ifaceID l => ignore (UpdateGuestNetworkInterfaceRateLimit ctx ifaceID l [])
  | DoDescribeInstanceInfo ctx => ignore (DescribeInstanceInfo ctx)
  | DoPauseVM ctx => ignore (PauseVM ctx [])
  | DoResumeVM ctx => ignore (ResumeVM ctx [])
  | DoCreateSnapshot ctx mem snap => ignore (CreateSnapshot ctx mem snap [])
  | DoCreateBalloon ctx a d i => ignore (CreateBalloon ctx a d i [])
  | DoGetBalloonConfig ctx => ignore (GetBalloonConfig ctx)
  | DoUpdateBalloon ctx a => ignore (UpdateBalloon ctx a [])
  | DoGetBalloonStats ctx => ignore (GetBalloonStats ctx)
  | DoUpdateBalloonStats ctx i => ignore (UpdateBalloonStats ctx i [])
  | ProcessEnds waitErr => process_exits waitErr
  end.

(** A caller of the interface runs these operations. *)
Lemma iface_operations fuel amd64 ctx :
  ignore (Iface_Start (MachineIface := machine_iface fuel amd64) ctx) = run_operation (DoStart fuel ctx) ∧
  ignore (Iface_StopVMM (MachineIface := machine_iface fuel amd64)) = run_operation DoStopVMM ∧
  ignore (Iface_Shutdown (MachineIface := machine_iface fuel amd64) ctx) = run_operation (DoShutdown amd64 ctx) ∧
  ignore (Iface_Wait (MachineIface := machine_iface fuel amd64) ctx) = run_operation (DoWait ctx).
Proof. done. Qed.

(** A sequence of operations that all return, in some environment. *)
Inductive runs : list operation → World → World → Prop :=
  | runs_nil w : runs [] w w
  | runs_cons op ops o w1 w2 w3 h h' :
      run_operation op o w1 h = (Val tt, w2, h') → runs ops w2 w3 → runs (op :: ops) w1 w3.

Lemma keeps_run_operation op : keeps evolves (run_operation op).
Proof.
  pose proof keeps_Start. pose proof keeps_Shutdown.
  destruct op; cbn [run_operation]; unfold ignore, Wait, StopVMM, PID, Machine_GetFirecrackerVersion,
    SetMetadata, UpdateMetadata, GetMetadata, UpdateGuestDrive, UpdateGuestNetworkInterfaceRateLimit,
    DescribeInstanceInfo, PauseVM, ResumeVM, patch_vm, CreateSnapshot, CreateBalloon, GetBalloonConfig,
    UpdateBalloon, GetBalloonStats, UpdateBalloonStats, Client_GetFirecrackerVersion, Client_PutMmds,
    Client_PatchMmds, Client_GetMmds, Client_PatchGuestDriveByID, Client_PatchGuestNetworkInterfaceByID,
    Client_GetInstanceInfo, Client_PatchVM, Client_CreateSnapshot, Client_PutBalloon,
    Client_DescribeBalloonConfig, Client_PatchBalloon, Client_DescribeBalloonStats,
    Client_PatchBalloonStatsInterval, with_payload; go_keeps.
Qed.

Lemma runs_evolves ops w w' : runs ops w w' → evolves w w'.
Proof.
  induction 1 as [|op ops o w1 w2 w3 h h' Hop _ IH]; [reflexivity|].
  pose proof (keeps_run_operation op o w1 h) as Hk. rewrite Hop in Hk. by transitivity w2.
Qed.

(** C14. Once [exitCh] is closed, [Wait] answers every caller with the same error,
    whatever operations run in between: subject to the caller's context it returns
    the fatal error recorded when the channel was closed. *)
Theorem Wait_same_error (ops : list operation) (w w' : World) ctx (o : Oracle Sys) h :
  exitCh (machine w) = true → runs ops w w' →
  ∃ done, Wait ctx o w' h = (Val done, w', h ++ [Event (WaitSelect ctx) (o h _ (WaitSelect ctx))]) ∧
    done = match o h _ (WaitSelect ctx) with
           | Some ctxErr => Some ctxErr
           | None => fatalErr (machine w)
           end.
Proof.
  intros He Hr. apply runs_evolves in Hr. unfold Wait, get_machine. run_unfold.
  destruct (o h _ (WaitSelect ctx)); [by eexists|].
  pose proof (ev_exitCh _ _ Hr He) as He'. rewrite He'. eexists. split; [reflexivity|].
  by apply ev_fatalErr.
Qed.

(** C13. A machine starts at most once: after the first [Start], whatever it
    returned and whatever operations follow, [Start] returns [ErrAlreadyStarted],
    makes no call and changes nothing. *)
Theorem Start_at_most_once (fuel fuel' : nat) (ops : list operation) ctx ctx' (o o' : Oracle Sys)
    (w w1 w2 : World) (r : error) h h1 h2 :
  Start fuel ctx o w h = (Val r, w1, h1) → runs ops w1 w2 →
  Start fuel' ctx' o' w2 h2 = (Val (Some ErrAlreadyStarted), w2, h2).
Proof.
  intros Hs Hr. apply runs_evolves in Hr.
  assert (started (machine w1) = true) as Hst1.
  { revert Hs. unfold Start at 1. unfold get_machine at 1. run_unfold.
    destruct (started (machine w)) eqn:Hst; [by intros [= <- <- <-]|]. unfold modify_machine at 1. run_unfold.
    pose proof (keeps_run_handlers fuel ctx o (mkWorld (heap_ w) (set_started true (machine w))) h) as Hk.
    destruct (run_handlers _ _ _ _ _) as [[[[e|]| |] wh] hh]; [| |done..].
    - pose proof (keeps_doCleanup o wh hh) as Hd.
      destruct (doCleanup o wh hh) as [[[?| |] wd] hd]; [|done..]. intros [= <- <- <-].
      by apply (ev_started _ _ Hd), (ev_started _ _ Hk).
    - pose proof (keeps_startInstance ctx o wh hh) as Hi.
      destruct (startInstance ctx o wh hh) as [[[[e|]| |] wi] hi]; [| |done..].
      + pose proof (keeps_doCleanup o wi hi) as Hd.
        destruct (doCleanup o wi hi) as [[[?| |] wd] hd]; [|done..]. intros [= <- <- <-].
        by apply (ev_started _ _ Hd), (ev_started _ _ Hi), (ev_started _ _ Hk).
      + intros [= <- <- <-]. by apply (ev_started _ _ Hi), (ev_started _ _ Hk). }
  unfold Start, get_machine. run_unfold. by rewrite (ev_started _ _ Hr Hst1).
Qed.
End operations.

(** ** What only starting the process and its goroutines change *)
Section unshown.
Context `{Growth} `{DefaultTimeout} `{Multierror} `{NetlinkConstants}.
Implicit Types (ctx : go_context).

(** What a machine shares with the goroutines of [startVMM]. *)
Definition shown (w : World) :=
  let m := machine w in
  (started m, is_daemonized (Cfg m), SocketPath (Cfg m), (exitCh m, shutdownCh m, cleanupCh m),
   (fatalErr m, cleanupDone m), (watching m, errCh m)).
Definition unshown (w w' : World) : Prop := shown w' = shown w.
#[export] Instance unshown_preorder : PreOrder unshown.
Proof. split; unfold unshown; [done|]. intros ??? Ha Hb. by rewrite Hb. Qed.

Lemma unshown_modify_machine f :
  (∀ w, unshown w (mkWorld (heap_ w) (f (machine w)))) → keeps unshown (modify_machine f).
Proof. intros Hf. by apply keeps_modify. Qed.
Lemma unshown_modify_cfg f :
  (∀ c, SocketPath (f c) = SocketPath c ∧ JailerCfg (f c) = JailerCfg c) → keeps unshown (modify_cfg f).
Proof.
  intros Hf. apply unshown_modify_machine. intros w. destruct (Hf (Cfg (machine w))) as (Hs & Hj).
  unfold unshown, shown, is_daemonized. simpl. by rewrite Hs, Hj.
Qed.
#[local] Hint Extern 3 (keeps unshown (modify_machine _)) => apply unshown_modify_machine; intros; reflexivity : go_keeps.
#[local] Hint Extern 3 (keeps unshown (modify_cfg _)) => apply unshown_modify_cfg; done : go_keeps.
#[local] Hint Extern 1 (keeps unshown (add_cleanup _)) => apply unshown_modify_machine; intros; reflexivity : go_keeps.
#[local] Hint Extern 1 (keeps unshown (get_machine)) => unfold get_machine; go_keeps : go_keeps.
#[local] Hint Extern 1 (keeps unshown get_cfg) => unfold get_cfg; go_keeps : go_keeps.
#[local] Hint Extern 1 (keeps unshown get_client) => unfold get_client; go_keeps : go_keeps.
#[local] Hint Extern 1 (keeps unshown (operations _ _)) => unfold operations; go_keeps : go_keeps.

Lemma unshown_link_drives rootfs i drives : keeps unshown (link_drives rootfs i drives).
Proof. revert i. induction drives as [|d drives IH]; simpl; unfold link_into; go_keeps. Qed.
#[local] Hint Resolve unshown_link_drives : go_keeps.

Lemma unshown_validate_root_drive drives : keeps unshown (validate_root_drive drives).
Proof. induction drives as [|d drives IH]; simpl; unfold require_file; go_keeps. Qed.
#[local] Hint Resolve unshown_validate_root_drive : go_keeps.

Lemma unshown_network ctx ifaces vmID nsPath : keeps unshown (NetworkInterfaces_setupNetwork (S := World) ctx ifaces vmID nsPath).
Proof. apply keeps_eq; [exact _|apply keeps_setupNetwork_eq]. Qed.
#[local] Hint Resolve unshown_network : go_keeps.

Lemma unshown_startInstance ctx : keeps unshown (startInstance ctx).
Proof. unfold startInstance, Client_CreateSyncAction. go_keeps. Qed.

Lemma unshown_exec_handler fuel ctx fn : fn ≠ StartVMM → keeps unshown (exec_handler fuel ctx fn).
Proof.
  intros Hne. destruct fn; try done; cbn [exec_handler];
    unfold Config_Validate, Config_ValidateLoadSnapshot, require_file, require_no_socket,
      createLogFiles, createFifoOrFile, createFifo, captureFifoToFile, setupNetwork, setupKernelArgs, ipBootParam,
      linkFiles, link_fifo, link_into, setupLogging, setupMetrics, createMachine, refreshMachineConfiguration,
      createBootSource, attachDrives, attachDrive, createNetworkInterfaces, createNetworkInterface, addVsocks, addVsock,
      SetMetadata, setMmdsConfig, CreateBalloon, loadSnapshot, Client_PutLogger, Client_PutMetrics,
      Client_PutMachineConfiguration, Client_GetMachineConfiguration, Client_PutGuestBootSource,
      Client_PutGuestDriveByID, Client_PutGuestNetworkInterfaceByID, Client_PutGuestVsock, Client_PutMmds,
      Client_PutMmdsConfig, Client_PutBalloon, Client_LoadSnapshot; go_keeps.
Qed.

Lemma unshown_handlers fuel ctx (l : list (Handler HandlerFn)) :
  Forall (λ x, Handler_Fn x ≠ StartVMM) l → keeps unshown (HandlerList_Run (exec_handler fuel ctx) l).
Proof.
  induction 1 as [|x l Hx _ IH]; unfold HandlerList_Run in *; simpl; [go_keeps|].
  apply keeps_bind; [exact _|by apply unshown_exec_handler|]. intros [e|]; [go_keeps|exact IH].
Qed.

Lemma unshown_start_process : keeps unshown start_process.
Proof. unfold start_process, startCmd. go_keeps. Qed.
End unshown.

Lemma runs_compute `{Growth} `{DefaultTimeout} `{Multierror} `{NetlinkConstants} op ops o w1 w3 h :
  (run_operation op o w1 h).1.1 = Val tt → runs ops (run_operation op o w1 h).1.2 w3 →
  runs (op :: ops) w1 w3.
Proof.
  intros Hv Hr. destruct (run_operation op o w1 h) as [[r w2] h'] eqn:Hrun. simpl in *. subst r.
  by eapply runs_cons.
Qed.

Module Examples.
Lemma Wait_same_error_witness :
  exitCh (machine exited) = true ∧
  (Wait Background sample_host (after (run_operation DoStopVMM) sample_host exited) []).1.1 =
    Val (fatalErr (machine exited)).
Proof.
  assert (exitCh (machine exited) = true) as He by (vm_compute; reflexivity).
  assert (runs [DoStopVMM] exited (after (run_operation DoStopVMM) sample_host exited)) as Hr.
  { eapply (runs_compute _ _ sample_host _ _ []); [vm_compute; reflexivity | apply runs_nil]. }
  split; [exact He|].
  destruct (Wait_same_error [DoStopVMM] exited _ Background sample_host [] He Hr) as (done & -> & ->).
  reflexivity.
Defined.

Lemma Start_at_most_once_witness :
  Start 5 Background sample_host running [] = (Val (Some ErrAlreadyStarted), running, []).
Proof.
  assert (∃ h, Start 5 Background sample_host created [] = (Val None, running, h)) as [h1 Hs].
  { exists (Start 5 Background sample_host created []).2.
    assert ((Start 5 Background sample_host created []).1.1 = Val None) as Hv by (vm_compute; reflexivity).
    revert Hv. unfold running, after. destruct (Start _ _ _ _ _) as [[r w] h]. simpl. by intros ->. }
  exact (Start_at_most_once 5 5 [] Background Background sample_host sample_host
           created running running None [] h1 [] Hs (runs_nil running)).
Defined.
End Examples.
