(* ===== verification/RequestFacts.v ===== *)
(** * The requests a machine sends to start (src/machine.go, src/handlers.go)

    The requests that change the VMM are projected out of the history of calls
    ([writes]); each handler is shown to send the requests its part of the
    configuration asks for, and [Start] the whole sequence. *)

From stdpp Require Import gmap strings list.
From Stdlib Require Import ZArith Lia.
From S2P Require Import Prelude GoStrings KernelArgs Models ApiParams Slices Handlers Builders Commands Vmconf Client Netlink Sys Network Config MachineApi Vmm Machine MachineFacts Concrete.

Open Scope string_scope.
Open Scope Z_scope.
Open Scope list_scope.

(** ** The requests that change the VMM *)
Inductive api_write :=
  | WLogger (body : option Logger)
  | WMetrics (body : option Metrics)
  | WMachineConfiguration (body : option MachineConfiguration)
  | WBootSource (body : option BootSource)
  | WDrive (id : string) (body : option Drive)
  | WNetworkInterface (id : string) (body : option NetworkInterface)
  | WVsock (body : option Vsock)
  | WMmdsConfig (body : option MmdsConfig)
  | WMmds (body : MmdsContentsObject)
  | WBalloon (body : option Balloon)
  | WLoadSnapshot (body : option SnapshotLoadParams)
  | WAction (body : option InstanceActionInfo)
  | WOther.

(** A changing request with its answer; reading requests are not counted. *)
Definition api_write_of {T} (c : ClientIface T) : T → option (api_write * error) :=
  match c in ClientIface T return T → option (api_write * error) with
  | Ops_DescribeBalloonConfig _ => λ _, None
  | Ops_DescribeBalloonStats _ => λ _, None
  | Ops_DescribeInstance _ => λ _, None
  | Ops_GetExportVMConfig _ => λ _, None
  | Ops_GetFirecrackerVersion _ => λ _, None
  | Ops_GetMachineConfiguration _ => λ _, None
  | Ops_GetMmds _ => λ _, None
  | Ops_PutLogger p => λ r, Some (WLogger (PutLoggerParams_Body p), r)
  | Ops_PutMetrics p => λ r, Some (WMetrics (PutMetricsParams_Body p), r)
  | Ops_PutMachineConfiguration p => λ r, Some (WMachineConfiguration (PutMachineConfigurationParams_Body p), r)
  | Ops_PutGuestBootSource p => λ r, Some (WBootSource (PutGuestBootSourceParams_Body p), r)
  | Ops_PutGuestDriveByID p => λ r, Some (WDrive (PutGuestDriveByIDParams_DriveID p) (PutGuestDriveByIDParams_Body p), r)
  | Ops_PutGuestNetworkInterfaceByID p =>
      λ r, Some (WNetworkInterface (PutGuestNetworkInterfaceByIDParams_IfaceID p)
                   (PutGuestNetworkInterfaceByIDParams_Body p), r)
  | Ops_PutGuestVsock p => λ r, Some (WVsock (PutGuestVsockParams_Body p), r)
  | Ops_PutMmdsConfig p => λ r, Some (WMmdsConfig (PutMmdsConfigParams_Body p), r)
  | Ops_PutMmds p => λ r, Some (WMmds (PutMmdsParams_Body p), r)
  | Ops_PutBalloon p => λ r, Some (WBalloon (PutBalloonParams_Body p), r)
  | Ops_LoadSnapshot p => λ r, Some (WLoadSnapshot (LoadSnapshotParams_Body p), r)
  | Ops_CreateSyncAction p => λ r, Some (WAction (CreateSyncActionParams_Info p), r)
  | Ops_CreateSnapshot _ => λ r, Some (WOther, r)
  | Ops_PatchBalloon _ => λ r, Some (WOther, r)
  | Ops_PatchBalloonStatsInterval _ => λ r, Some (WOther, r)
  | Ops_PatchGuestDriveByID _ => λ r, Some (WOther, r)
  | Ops_PatchGuestNetworkInterfaceByID _ => λ r, Some (WOther, r)
  | Ops_PatchMachineConfiguration _ => λ r, Some (WOther, r)
  | Ops_PatchMmds _ => λ r, Some (WOther, r)
  | Ops_PatchVM _ => λ r, Some (WOther, r)
  | Ops_PutCPUConfiguration _ => λ r, Some (WOther, r)
  | Ops_PutEntropyDevice _ => λ r, Some (WOther, r)
  end.

Definition write_of (ev : event Sys) : option (api_write * error) :=
  match ev with
  | Event c r =>
      match c in Sys T return T → option (api_write * error) with
      | Api _ c => api_write_of c
      | _ => λ _, None
      end r
  end.

Definition writes (t : trace Sys) : list (api_write * error) := omap write_of t.

Definition accepted (a : api_write) : api_write * error := (a, None).

Lemma accepted_fst l : (accepted <$> l).*1 = l.
Proof. rewrite <- list_fmap_compose. by apply list_fmap_id. Qed.

(** ** What the configuration asks for *)
Definition logger_writes (cfg : Config) : list api_write :=
  let path := nonempty_or (LogFifo cfg) (LogPath cfg) in
  if (path =? "")%string then []
  else [WLogger (Some (mkLogger (if (LogLevel cfg =? "")%string then None else Some (LogLevel cfg))
                         (Some path) (Some true) (Some false)))].

Definition metrics_writes (cfg : Config) : list api_write :=
  let path := nonempty_or (MetricsFifo cfg) (MetricsPath cfg) in
  if (path =? "")%string then [] else [WMetrics (Some (mkMetrics (Some path)))].

Definition drive_write (d : Drive) : api_write := WDrive (StringValue (Drive_DriveID d)) (Some d).

(** The interface at position [i] is named [i + 1]. *)
Definition iface_writes (i : nat) (iface : FcNetworkInterface) : list api_write :=
  match StaticConfiguration iface with
  | Some static =>
      let id := strconv_Itoa (Z.of_nat i + 1) in
      [WNetworkInterface id (Some (iface_model iface static id))]
  | None => []
  end.

Definition vsock_write (v : VsockDevice) : api_write :=
  WVsock (Some (mkVsock (Some (VsockDevice_CID v)) (Some (VsockDevice_Path v)) (VsockDevice_ID v))).

Definition mmds_writes (cfg : Config) : list api_write :=
  match allowed_ids (Cfg_NetworkInterfaces cfg) with
  | [] => []
  | ids => [WMmdsConfig (Some (mkMmdsConfig (IP_String <$> MmdsAddress cfg) (Some ids)
              (Some (if (MmdsVersion cfg =? "V2")%string then "V2" else "V1"))))]
  end.

Definition snapshot_write (s : SnapshotConfig) : api_write :=
  WLoadSnapshot (Some (mkSnapshotLoadParams (Snapshot_EnableDiffSnapshots s) (Snapshot_MemBackend s)
    (Snapshot_MemFilePath s) (Snapshot_ResumeVM s) (Some (Snapshot_SnapshotPath s)))).

(** The requests of each handler for the configuration it runs with. *)
Definition handler_writes (cfg : Config) (fn : HandlerFn) : list api_write :=
  match fn with
  | BootstrapLogging => logger_writes cfg ++ metrics_writes cfg
  | CreateMachine => [WMachineConfiguration (Some (MachineCfg cfg))]
  | CreateBootSource =>
      [WBootSource (Some (mkBootSource (KernelArgs_ cfg) (InitrdPath cfg) (Some (KernelImagePath cfg))))]
  | AttachDrives => drive_write <$> Drives cfg
  | CreateNetworkInterfaces => concat (imap iface_writes (Cfg_NetworkInterfaces cfg))
  | AddVsocks => vsock_write <$> VsockDevices cfg
  | SetMetadataFn metadata => [WMmds metadata]
  | ConfigMmds => mmds_writes cfg
  | CreateBalloonFn a d s => [WBalloon (Some (mkBalloon (Some a) (Some d) s))]
  | LoadSnapshotFn => [snapshot_write (Snapshot cfg)]
  | _ => []
  end.

Definition start_write : api_write :=
  WAction (Some (mkInstanceActionInfo (Some "InstanceStart"))).

(** ** Programs that send no changing request *)
Definition silent {A} (m : M A) : Prop :=
  ∀ o w h, ∃ t, (m o w h).2 = h ++ t ∧ writes t = [].

(** A call that is not a changing request, whatever its answer. *)
Definition quiet {T} (c : Sys T) : Prop := ∀ r, write_of (Event c r) = None.

Create HintDb silent.

Section silent.
Implicit Types (o : Oracle Sys).

Lemma silent_state {A} (m : M A) : (∀ o w h, (m o w h).2 = h) → silent m.
Proof. intros Hm o w h. exists []. by rewrite app_nil_r. Qed.

Lemma silent_call {T} (c : Sys T) : quiet c → silent (call c).
Proof. intros Hq o w h. eexists. split; [reflexivity|].
  unfold writes. cbn [omap list_omap]. by rewrite Hq.
Qed.

Lemma silent_deref {A} (p : option A) : silent (deref p).
Proof. by destruct p; apply silent_state. Qed.

Lemma silent_bind {A B} (m : M A) (k : A → M B) : silent m → (∀ a, silent (k a)) → silent (go_bind m k).
Proof.
  intros Hm Hk o w h. unfold go_bind. destruct (Hm o w h) as (t & Ht & Hw).
  destruct (m o w h) as [[[a| |] w'] h']; simpl in Ht; subst h'; [|by exists t..].
  destruct (Hk a o w' (h ++ t)) as (t' & -> & Hw'). exists (t ++ t'). rewrite app_assoc. split; [done|].
  unfold writes in *. by rewrite omap_app, Hw, Hw'.
Qed.

Lemma silent_range_err {A} (f : A → M error) l : (∀ x, silent (f x)) → silent (range_err f l).
Proof.
  intros Hf. induction l as [|x l IH]; simpl; [by apply silent_state|].
  apply silent_bind; [done|]. intros [e|]; [by apply silent_state | done].
Qed.
End silent.

#[export] Hint Extern 1 (silent (call _)) => apply silent_call; intros ?; reflexivity : silent.
#[export] Hint Extern 2 (silent (go_ret _)) => by apply silent_state : silent.
#[export] Hint Extern 2 (silent (go_panic _)) => by apply silent_state : silent.
#[export] Hint Extern 2 (silent go_pending) => by apply silent_state : silent.
#[export] Hint Extern 2 (silent (go_lift _)) => by apply silent_state : silent.
#[export] Hint Extern 2 (silent get) => by apply silent_state : silent.
#[export] Hint Extern 2 (silent get_machine) => by apply silent_state : silent.
#[export] Hint Extern 2 (silent get_cfg) => by apply silent_state : silent.
#[export] Hint Extern 2 (silent (modify _)) => by apply silent_state : silent.
#[export] Hint Extern 2 (silent (modify_machine _)) => by apply silent_state : silent.
#[export] Hint Extern 2 (silent (modify_cfg _)) => by apply silent_state : silent.
#[export] Hint Extern 2 (silent (add_cleanup _)) => by apply silent_state : silent.
#[export] Hint Extern 2 (silent (deref _)) => apply silent_deref : silent.

Ltac go_silent :=
  repeat first
    [ intro_arg
    | solve [eauto with silent]
    | apply silent_bind
    | apply silent_range_err
    | case_match ].

Section handlers.
Context `{Growth} `{DefaultTimeout} `{Multierror} `{NetlinkConstants}.
Implicit Types (ctx : go_context) (o : Oracle Sys).

Lemma silent_get_client : silent get_client.
Proof. unfold get_client. go_silent. Qed.
#[local] Hint Resolve silent_get_client : silent.

(** Reading the machine configuration is not a changing request. *)
Lemma silent_GetMachineConfiguration c : silent (Client_GetMachineConfiguration c []).
Proof. unfold Client_GetMachineConfiguration, operations. by apply silent_call. Qed.
#[local] Hint Resolve silent_GetMachineConfiguration : silent.

Lemma silent_doCleanup : silent doCleanup.
Proof.
  assert (∀ fs err, silent (run_cleanups fs err)).
  { induction fs as [|f fs IH]; intros err; simpl; unfold run_cleanup, remove_if_exists, run_network_cleanup; go_silent. }
  unfold doCleanup. go_silent.
Qed.
#[local] Hint Resolve silent_doCleanup : silent.

Lemma silent_finish e : silent (finish e).
Proof. unfold finish, close_exitCh. go_silent. Qed.
#[local] Hint Resolve silent_finish : silent.

Lemma silent_startVMM fuel : silent (startVMM fuel).
Proof.
  assert (∀ timeout, silent (waitForSocket fuel timeout)).
  { induction fuel as [|fuel IH]; intros timeout; simpl; unfold exit_goroutine, take_offer; go_silent. }
  unfold startVMM, start_process, startCmd, await_socket, watch_goroutine, take_offer. go_silent.
Qed.

Lemma silent_createLogFiles ctx : silent (createLogFiles ctx).
Proof. unfold createLogFiles, createFifoOrFile, createFifo, captureFifoToFile. go_silent. Qed.

Lemma silent_setupNetwork_run ctx ifaces vmID nsPath :
  silent (NetworkInterfaces_setupNetwork (S := World) ctx ifaces vmID nsPath).
Proof.
  unfold NetworkInterfaces_setupNetwork, setup_cni_interface, initializeNetNS, mount_netns, invokeCNI,
    invokeCNI_with, run_network_cleanup, StaticNetworkConfFrom, mtuOf, GetLink, DefaultNetlinkOps, Default.GetLink.
  go_silent.
Qed.
#[local] Hint Resolve silent_setupNetwork_run : silent.

Lemma silent_setupNetwork ctx : silent (setupNetwork ctx).
Proof. unfold setupNetwork. go_silent. Qed.

Lemma silent_setupKernelArgs : silent setupKernelArgs.
Proof. unfold setupKernelArgs, ipBootParam. go_silent. Qed.

Lemma silent_linkFiles name : silent (linkFiles name).
Proof.
  assert (∀ rootfs i drives, silent (link_drives rootfs i drives)) as Hd.
  { intros rootfs i drives. revert i. induction drives as [|d drives IH]; simpl; unfold link_into; go_silent. }
  unfold linkFiles, link_fifo, link_into. go_silent.
Qed.

Lemma silent_validation cfg : silent (Config_Validate cfg) ∧ silent (Config_ValidateLoadSnapshot cfg).
Proof.
  assert (∀ drives, silent (validate_root_drive drives)) as Hd.
  { induction drives as [|d drives IH]; simpl; unfold require_file; go_silent. }
  unfold Config_Validate, Config_ValidateLoadSnapshot, require_file, require_no_socket. split; go_silent.
Qed.
End handlers.

(** ** Handlers that leave the configuration alone *)
Definition same_cfg (w w' : World) : Prop := Cfg (machine w') = Cfg (machine w).

#[export] Instance same_cfg_preorder : PreOrder same_cfg.
Proof. split; unfold same_cfg; [done|]. intros ??? H1 H2. by rewrite H2. Qed.

#[export] Hint Extern 1 (keeps same_cfg get_machine) => apply keeps_bind; [exact _|apply keeps_get; exact _|intros ?; apply keeps_ret; exact _] : go_keeps.
#[export] Hint Extern 1 (keeps same_cfg get_cfg) => unfold get_cfg, get_machine; apply keeps_bind; [exact _|apply keeps_bind; [exact _|apply keeps_get; exact _|intros ?; apply keeps_ret; exact _]|intros ?; apply keeps_ret; exact _] : go_keeps.
#[export] Hint Extern 3 (keeps same_cfg (modify_machine _)) => apply keeps_modify; intros; reflexivity : go_keeps.
#[export] Hint Extern 3 (keeps same_cfg (add_cleanup _)) => apply keeps_modify; intros; reflexivity : go_keeps.

Section handlers2.
Context `{Growth} `{DefaultTimeout} `{Multierror} `{NetlinkConstants}.
Implicit Types (ctx : go_context) (o : Oracle Sys).

Lemma same_cfg_get_client : keeps same_cfg get_client.
Proof. unfold get_client. go_keeps. Qed.
#[local] Hint Resolve same_cfg_get_client : go_keeps.

Lemma same_cfg_doCleanup : keeps same_cfg doCleanup.
Proof.
  assert (∀ fs err, keeps same_cfg (run_cleanups fs err)).
  { induction fs as [|f fs IH]; intros err; simpl; unfold run_cleanup, remove_if_exists, run_network_cleanup; go_keeps. }
  unfold doCleanup. go_keeps.
Qed.
#[local] Hint Resolve same_cfg_doCleanup : go_keeps.

Lemma same_cfg_startVMM fuel : keeps same_cfg (startVMM fuel).
Proof.
  assert (∀ timeout, keeps same_cfg (waitForSocket fuel timeout)).
  { induction fuel as [|fuel IH]; intros timeout; simpl;
      unfold exit_goroutine, take_offer, Client_GetMachineConfiguration, operations; go_keeps. }
  unfold startVMM, start_process, startCmd, await_socket, watch_goroutine, take_offer, finish, close_exitCh. go_keeps.
Qed.

Lemma same_cfg_createLogFiles ctx : keeps same_cfg (createLogFiles ctx).
Proof. unfold createLogFiles, createFifoOrFile, createFifo, captureFifoToFile. go_keeps. Qed.

Lemma same_cfg_validation cfg :
  keeps same_cfg (Config_Validate cfg) ∧ keeps same_cfg (Config_ValidateLoadSnapshot cfg).
Proof.
  assert (∀ drives, keeps same_cfg (validate_root_drive drives)) as Hd.
  { induction drives as [|d drives IH]; simpl; unfold require_file; go_keeps. }
  unfold Config_Validate, Config_ValidateLoadSnapshot, require_file, require_no_socket. split; go_keeps.
Qed.

(** How the error of a refused request is returned: as it is, or formatted when it
    is that of loading a snapshot. *)
Definition returned_as (refusal e : Err) : Prop :=
  e = refusal ∨ e = ErrorfV "failed to load a snapshot for VM: %v" [] refusal.

(** What has been sent of [ws] by a program that returns [a]: all of it, accepted,
    when it succeeds; when it fails, an accepted part from the start, and at most
    the next request, refused with the error returned. *)
Definition sent_of_list (a : error) (t : trace Sys) (ws : list api_write) : Prop :=
  match a with
  | None => writes t = accepted <$> ws
  | Some e => ∃ done rest, ws = done ++ rest ∧
      (writes t = accepted <$> done ∨
       ∃ x rest' refusal, rest = x :: rest' ∧
         writes t = (accepted <$> done) ++ [(x, Some refusal)] ∧ returned_as refusal e)
  end.

Lemma writes_app t t' : writes (t ++ t') = writes t ++ writes t'.
Proof. apply omap_app. Qed.

Lemma sent_nothing e t ws : writes t = [] → sent_of_list (Some e) t ws.
Proof. intros Ht. exists [], ws. split; [done|]. by left. Qed.

(** A failure after a success, and before other requests. *)
Lemma sent_after e t t' ws ws' :
  writes t = accepted <$> ws → sent_of_list (Some e) t' ws' → sent_of_list (Some e) (t ++ t') (ws ++ ws').
Proof.
  intros Ht (done & rest & -> & [Hd|(x & rest' & e' & -> & Hd & He)]).
  - exists (ws ++ done), rest. rewrite (assoc (++)). split; [done|]. left. by rewrite writes_app, Ht, Hd, fmap_app.
  - exists (ws ++ done), (x :: rest'). rewrite (assoc (++)). split; [done|]. right. exists x, rest', e'.
    split; [done|]. split; [|done]. by rewrite writes_app, Ht, Hd, fmap_app, (assoc (++)).
Qed.

Lemma sent_before e t ws ws' : sent_of_list (Some e) t ws → sent_of_list (Some e) t (ws ++ ws').
Proof.
  intros (done & rest & -> & Hd). exists done, (rest ++ ws'). rewrite <- (assoc (++)). split; [done|].
  destruct Hd as [?|(x & rest' & e' & -> & ? & ?)]; [by left|right]. by exists x, (rest' ++ ws'), e'.
Qed.

(** [m] leaves the configuration alone and sends [ws]. *)
Definition sends (m : M error) (ws : Config → list api_write) : Prop :=
  ∀ o w h, wp m (λ r w' h', ∀ a, r = Val a → same_cfg w w' ∧
    ∃ t, h' = h ++ t ∧ sent_of_list a t (ws (Cfg (machine w)))) o w h.

Lemma sends_silent m : silent m → keeps same_cfg m → sends m (λ _, []).
Proof.
  intros Hs Hk o w h. destruct (Hs o w h) as (t & Ht & Hw). specialize (Hk o w h). unfold wp.
  destruct (m o w h) as [[[a| |] w'] h']; [|done..]. simpl in Ht. intros ? [= <-].
  split; [done|]. exists t. split; [done|]. destruct a; [by apply sent_nothing|done].
Qed.

Lemma sends_try m m' ws ws' :
  sends m ws → sends m' ws' → sends (try m ;; m') (λ cfg, ws cfg ++ ws' cfg).
Proof.
  intros Hm Hm' o w h. apply wp_bind. specialize (Hm o w h). unfold wp in Hm |- * at 1.
  destruct (m o w h) as [[[a| |] w'] h']; [|done..]. destruct (Hm a eq_refl) as (Hc & t & -> & Hw).
  destruct a as [e|].
  { apply wp_ret. intros ? [= <-]. split; [done|]. exists t. split; [done|]. by apply sent_before. }
  specialize (Hm' o w' (h ++ t)). unfold wp in *.
  destruct (m' o w' (h ++ t)) as [[[a| |] w''] h'']; [|done..]. intros ? [= <-].
  destruct (Hm' a eq_refl) as (Hc' & t' & -> & Hw'). split; [by transitivity w'|].
  exists (t ++ t'). rewrite app_assoc. split; [done|]. unfold same_cfg in Hc. rewrite Hc in Hw'.
  destruct a as [e|]; [by apply sent_after|]. simpl in *. by rewrite writes_app, Hw, Hw', fmap_app.
Qed.

Lemma sends_range_err {A} (f : A → M error) (g : A → list api_write) l :
  (∀ x, sends (f x) (λ _, g x)) → sends (range_err f l) (λ _, l ≫= g).
Proof.
  intros Hf. induction l as [|x l IH]; simpl.
  - apply sends_silent; [by apply silent_state|]. go_keeps.
  - apply (sends_try _ _ _ _ (Hf x) IH).
Qed.

Lemma sends_get_cfg (k : Config → M error) (ws : Config → list api_write) :
  (∀ cfg, sends (k cfg) (λ _, ws cfg)) → sends (cfg <- get_cfg ; k cfg) ws.
Proof. intros Hk o w h. exact (Hk (Cfg (machine w)) o w h). Qed.

Lemma sends_client (k : Client → M error) ws : (∀ c, sends (k c) ws) → sends (c <- get_client ; k c) ws.
Proof.
  intros Hk o w h. unfold get_client, get_machine, deref. apply wp_bind, wp_bind, wp_bind, wp_get, wp_ret.
  destruct (client (machine w)) as [c|]; [|done]. apply wp_ret, Hk.
Qed.

Lemma writes_call (target : Operations) (c : ClientIface error) a r :
  api_write_of c r = Some (a, r) → writes [Event (ops_call target c) r] = [(a, r)].
Proof. intros Hc. unfold writes, ops_call, sys_ops. cbn [omap list_omap write_of]. by rewrite Hc. Qed.

Lemma sends_write (f : Client) (c : ClientIface error) a :
  (∀ r, api_write_of c r = Some (a, r)) → sends (operations f c) (λ _, [a]).
Proof.
  intros Hc o w h. unfold operations. apply wp_call. intros ? [= <-]. split; [done|].
  eexists. split; [reflexivity|]. destruct (o h _ _) as [e|]; [|by apply writes_call].
  exists [], [a]. split; [done|]. right. exists a, [], e. split; [done|]. split; [by apply writes_call|by left].
Qed.

Lemma sends_ret ws : ws = (λ _, []) → sends (go_ret None) ws.
Proof. intros ->. apply sends_silent; [by apply silent_state|]. go_keeps. Qed.

(** A program that may also change the configuration, with the requests it sends
    for the configuration it leaves. *)
Lemma sends_fail e ws : sends (go_ret (Some e)) ws.
Proof.
  intros o w h. apply wp_ret. intros ? [= <-]. split; [done|]. exists []. rewrite app_nil_r. split; [done|].
  by apply sent_nothing.
Qed.
End handlers2.

Section start.
Context `{Growth} `{DefaultTimeout} `{Multierror} `{NetlinkConstants}.
Implicit Types (ctx : go_context) (o : Oracle Sys).

(** Handlers that may change the configuration. *)
Definition plain (fn : HandlerFn) : bool :=
  match fn with SetupNetwork | SetupKernelArgs | LinkFiles _ => false | _ => true end.

(** Handlers that send no changing request. *)
Definition is_silent (fn : HandlerFn) : bool :=
  match fn with
  | ConfigValidation | LoadSnapshotConfigValidation | JailerConfigValidation | NetworkConfigValidation
  | StartVMM | CreateLogFiles | SetupNetwork | SetupKernelArgs | LinkFiles _ => true
  | _ => false
  end.

#[local] Hint Resolve silent_startVMM silent_createLogFiles silent_setupNetwork silent_setupKernelArgs
  silent_linkFiles : silent.
#[local] Hint Extern 1 (silent (Config_Validate _)) => apply silent_validation : silent.
#[local] Hint Extern 1 (silent (Config_ValidateLoadSnapshot _)) => apply silent_validation : silent.
#[local] Hint Resolve same_cfg_startVMM same_cfg_createLogFiles : go_keeps.
#[local] Hint Extern 1 (keeps same_cfg (Config_Validate _)) => apply same_cfg_validation : go_keeps.
#[local] Hint Extern 1 (keeps same_cfg (Config_ValidateLoadSnapshot _)) => apply same_cfg_validation : go_keeps.

Lemma silent_exec_handler fuel ctx fn : is_silent fn = true → silent (exec_handler fuel ctx fn).
Proof. destruct fn; try done; intros _; cbn [exec_handler]; go_silent. Qed.

Lemma sends_logging ctx : sends (setupLogging ctx) logger_writes.
Proof.
  apply sends_get_cfg. intros cfg. unfold logger_writes, nonempty_or, String_, StringValue, Bool.
  cbv zeta. destruct (LogFifo cfg =? "")%string; (destruct (_ =? "")%string eqn:Hp; [by apply sends_ret|]);
    apply sends_client; intros c; by apply sends_write.
Qed.

Lemma sends_metrics ctx : sends (setupMetrics ctx) metrics_writes.
Proof.
  apply sends_get_cfg. intros cfg. unfold metrics_writes, nonempty_or, String_. cbv zeta.
  destruct (MetricsFifo cfg =? "")%string; (destruct (_ =? "")%string eqn:Hp; [by apply sends_ret|]);
    apply sends_client; intros c; by apply sends_write.
Qed.

Lemma sends_refresh : sends refreshMachineConfiguration (λ _, []).
Proof.
  pose proof silent_get_client. pose proof silent_GetMachineConfiguration. pose proof same_cfg_get_client.
  unfold refreshMachineConfiguration. apply sends_silent; [go_silent|].
  unfold Client_GetMachineConfiguration, operations. go_keeps.
Qed.

Lemma sends_createMachine ctx :
  sends (createMachine ctx) (λ cfg, [WMachineConfiguration (Some (MachineCfg cfg))]).
Proof.
  apply sends_get_cfg. intros cfg. apply sends_client. intros c.
  apply (sends_try _ _ (λ _, [_]) (λ _, [])); [by apply sends_write | apply sends_refresh].
Qed.

Lemma concat_imap {A B} (f : nat → A → list B) (g : nat → nat) l :
  concat (imap (λ i, f (g i)) l) = imap (λ i x, (g i, x)) l ≫= λ '(i, x), f i x.
Proof.
  revert g. induction l as [|x l IH]; intros g; simpl; [done|]. f_equal. apply (IH (g ∘ S)).
Qed.

Lemma sends_interfaces ctx ifaces :
  sends (createNetworkInterfaces ctx ifaces) (λ _, concat (imap iface_writes ifaces)).
Proof.
  unfold createNetworkInterfaces. 
  change (imap iface_writes ifaces) with (imap (λ i, iface_writes (id i)) ifaces). rewrite concat_imap.
  apply (sends_range_err _ (λ '(i, x), iface_writes i x)). intros [i iface].
  unfold createNetworkInterface, iface_writes. destruct (StaticConfiguration iface); [|apply sends_fail].
  apply sends_client. intros c. by apply sends_write.
Qed.

Lemma sends_map {A} (f : A → M error) (g : A → api_write) l :
  (∀ x, sends (f x) (λ _, [g x])) → sends (range_err f l) (λ _, g <$> l).
Proof.
  intros Hf. replace (g <$> l) with (l ≫= λ x, [g x]) by (induction l; simpl; f_equal; auto).
  by apply (sends_range_err f (λ x, [g x])).
Qed.

Lemma sends_exec_handler fuel ctx fn :
  plain fn = true → sends (exec_handler fuel ctx fn) (λ cfg, handler_writes cfg fn).
Proof.
  destruct fn; try done; intros _; cbn [exec_handler handler_writes];
    try (apply sends_silent; [go_silent | go_keeps]; fail).
  - apply sends_try; [apply sends_logging | apply sends_metrics].
  - apply sends_createMachine.
  - apply sends_get_cfg. intros cfg. apply sends_client. intros c. by apply sends_write.
  - apply sends_get_cfg. intros cfg. apply sends_map. intros d. apply sends_client. intros c. by apply sends_write.
  - apply sends_get_cfg. intros cfg. apply sends_interfaces.
  - assert (sends (addVsocks ctx []) (λ cfg, vsock_write <$> VsockDevices cfg)) as Hv.
    { apply sends_get_cfg. intros cfg. apply sends_map. intros v. apply sends_client. intros c. by apply sends_write. }
    intros o w h. exact (Hv o w h).
  - apply sends_client. intros c. by apply sends_write.
  - apply sends_get_cfg. intros cfg. unfold setMmdsConfig, mmds_writes.
    destruct (allowed_ids _) as [|id ids]; [by apply sends_ret|]. cbv zeta.
    apply sends_client. intros c. apply sends_write. intros r. cbn. unfold MMDSv1, MMDSv2.
    destruct (String.eqb_spec (MmdsVersion cfg) "V1") as [HV|_]; [by rewrite HV|].
    destruct (String.eqb_spec (MmdsVersion cfg) "V2") as [HV|_]; [by rewrite HV | done].
  - apply sends_client. intros c. by apply sends_write.
  - apply sends_get_cfg. intros cfg. unfold loadSnapshot. cbv zeta. apply sends_client. intros c.
    intros o w h. unfold Client_LoadSnapshot, operations. apply wp_bind, wp_call, wp_ret. intros ? [= <-].
    split; [done|]. eexists. split; [reflexivity|]. destruct (o h _ _) as [e|]; cbn [sent_of_list option_map]; [|by apply writes_call].
    exists [], [snapshot_write (Snapshot cfg)]. split; [done|]. right. exists (snapshot_write (Snapshot cfg)), [], e.
    split; [done|]. split; [by apply writes_call|by right].
Qed.

Lemma silent_list fuel ctx (l : list (Handler HandlerFn)) :
  Forall (λ x, is_silent (Handler_Fn x) = true) l → silent (HandlerList_Run (exec_handler fuel ctx) l).
Proof.
  intros Hl. unfold HandlerList_Run. induction Hl as [|x l Hx Hl IH]; simpl; [by apply silent_state|].
  apply silent_bind; [by apply silent_exec_handler|]. intros [e|]; [by apply silent_state | done].
Qed.

Lemma sends_list fuel ctx (l : list (Handler HandlerFn)) :
  Forall (λ x, plain (Handler_Fn x) = true) l →
  sends (HandlerList_Run (exec_handler fuel ctx) l) (λ cfg, l ≫= handler_writes cfg ∘ Handler_Fn).
Proof.
  intros Hl. unfold HandlerList_Run. induction Hl as [|x l Hx Hl IH]; simpl; [by apply sends_ret|].
  apply (sends_try _ _ (λ cfg, handler_writes cfg (Handler_Fn x)) _); [by apply sends_exec_handler | done].
Qed.

Lemma sends_startInstance ctx : sends (startInstance ctx) (λ cfg, if hasSnapshot cfg then [] else [start_write]).
Proof.
  apply sends_get_cfg. intros cfg. destruct (hasSnapshot cfg); [by apply sends_ret|].
  apply sends_client. intros c. by apply sends_write.
Qed.

(** Silent programs before, then programs that leave the configuration alone. *)
Lemma silent_then_sends m m' ws o w w' a h h' :
  silent m → sends m' ws → (try m ;; m') o w h = (Val a, w', h') →
  ∃ t, h' = h ++ t ∧ sent_of_list a t (ws (Cfg (machine w'))).
Proof.
  intros Hm Hm'. unfold go_bind. destruct (Hm o w h) as (t & Ht & Hw).
  destruct (m o w h) as [[[[e|]| |] w1] h1]; [| |done..]; simpl in Ht; subst h1.
  { intros [= <- <- <-]. exists t. split; [done|]. by apply sent_nothing. }
  intros Hrun. specialize (Hm' o w1 (h ++ t)). unfold wp in Hm'. rewrite Hrun in Hm'.
  destruct (Hm' a eq_refl) as (Hc & t' & -> & Hw'). exists (t ++ t'). rewrite app_assoc. split; [done|].
  unfold same_cfg in Hc. rewrite Hc. destruct a as [e|]; [by apply (sent_after e t t' [])|].
  simpl in *. by rewrite writes_app, Hw, Hw'.
Qed.

Lemma try_assoc m1 m2 m3 o w h :
  (try (try m1 ;; m2) ;; m3) o w h = (try m1 ;; (try m2 ;; m3) : M error) o w h.
Proof. unfold go_bind. by destruct (m1 o w h) as [[[[e|]| |] w1] h1]. Qed.

(** The requests the handlers [post] and the end of a start make of a configuration. *)
Definition start_writes (post : list (Handler HandlerFn)) (cfg : Config) : list api_write :=
  (post ≫= handler_writes cfg ∘ Handler_Fn) ++ (if hasSnapshot cfg then [] else [start_write]).

Lemma sent_of_list_writes a t t' ws : writes t' = writes t → sent_of_list a t ws → sent_of_list a t' ws.
Proof. unfold sent_of_list. by intros ->. Qed.

(** What a start has sent, in terms of the history of calls. *)
Lemma Start_sends (fuel : nat) ctx (o : Oracle Sys) (w w' : World)
    (validation pre post : list (Handler HandlerFn)) a h h' :
  elems (heap_ w) (Validation (Handlers_ (machine w))) = validation →
  elems (heap_ w) (FcInit (Handlers_ (machine w))) = pre ++ post →
  Forall (λ x, is_silent (Handler_Fn x) = true) (validation ++ pre) →
  Forall (λ x, plain (Handler_Fn x) = true) post →
  started (machine w) = false →
  Start fuel ctx o w h = (Val a, w', h') →
  ∃ t, h' = h ++ t ∧ sent_of_list a t (start_writes post (Cfg (machine w'))).
Proof.
  intros Hv Hf Hpre Hpost Hst. unfold Start, get_machine, modify_machine. unfold get at 1, modify.
  unfold go_bind at 1 2, go_ret at 1. rewrite Hst.
  unfold go_bind at 1. unfold go_bind at 1. set (w0 := mkWorld (heap_ w) _).
  set (v := if DisableValidation (Cfg (machine w0)) then [] else validation).
  assert (run_handlers fuel ctx o w0 h = HandlerList_Run (exec_handler fuel ctx) ((v ++ pre) ++ post) o w0 h) as Heq.
  { unfold run_handlers, Handlers_Run, Spec.Append. run_unfold. unfold v. simpl. rewrite Hv, Hf.
    by rewrite <- app_assoc. }
  assert (∀ b w1 h1, (try run_handlers fuel ctx ;; startInstance ctx) o w0 h = (Val b, w1, h1) →
    ∃ t, h1 = h ++ t ∧ sent_of_list b t (start_writes post (Cfg (machine w1)))) as Hbody.
  { intros b w1 h1. unfold go_bind at 1. rewrite Heq, HandlerList_Run_app. intros Hrun.
    apply (silent_then_sends (HandlerList_Run (exec_handler fuel ctx) (v ++ pre))
      (try HandlerList_Run (exec_handler fuel ctx) post ;; startInstance ctx) (start_writes post) o w0 w1 b h h1).
    - apply silent_list. unfold v. destruct (DisableValidation _); [|done]. by apply Forall_app in Hpre as [_ ?].
    - apply sends_try; [by apply sends_list | apply sends_startInstance].
    - rewrite <- try_assoc. exact Hrun. }
  destruct ((try run_handlers fuel ctx ;; startInstance ctx) o w0 h) as [[[[e|]| |] w1] h1] eqn:Hrun;
    [|intros [= <- <- <-]; by apply (Hbody None)|done..].
  unfold go_bind at 1. destruct (Hbody (Some e) w1 h1 eq_refl) as (t & -> & Ht).
  destruct (silent_doCleanup o w1 (h ++ t)) as (tc & Htc & Hwc). pose proof (same_cfg_doCleanup o w1 (h ++ t)) as Hc.
  destruct (doCleanup o w1 (h ++ t)) as [[[r| |] w2] h2]; [|done..]. simpl in Htc. subst h2. intros [= <- <- <-].
  exists (t ++ tc). rewrite app_assoc. split; [done|]. unfold same_cfg in Hc. rewrite Hc.
  apply (sent_of_list_writes _ t); [|done]. by rewrite writes_app, Hwc, app_nil_r.
Qed.

(** What the handlers that are not [plain] keep, and equal configurations have, every
    handler that returns keeps. *)
Section kept.
Context (R : World → World → Prop) `{!PreOrder R} (fuel : nat) (ctx : go_context) (allowed : HandlerFn → Prop).
Hypothesis same_cfg_R : ∀ w w', same_cfg w w' → R w w'.
Hypothesis others_R : ∀ fn, allowed fn → plain fn = false → keeps R (exec_handler fuel ctx fn).

Lemma kept_by_handler fn o w h :
  allowed fn → wp (exec_handler fuel ctx fn) (λ r w' _, ∀ a, r = Val a → R w w') o w h.
Proof.
  intros Hfn. destruct (plain fn) eqn:Hp.
  - eapply wp_mono; [apply (sends_exec_handler fuel ctx fn Hp)|]. intros r w' h' Hr a ->.
    destruct (Hr a eq_refl) as [Hc _]. by apply same_cfg_R.
  - pose proof (others_R fn Hfn Hp o w h) as Hk. unfold wp.
    destruct (exec_handler fuel ctx fn o w h) as [[[a| |] w'] h']; [|done..]. by intros ? [= <-].
Qed.

Lemma kept_by_handlers (l : list (Handler HandlerFn)) o w h :
  Forall (λ x, allowed (Handler_Fn x)) l →
  wp (HandlerList_Run (exec_handler fuel ctx) l) (λ r w' _, ∀ a, r = Val a → R w w') o w h.
Proof.
  intros Hl. revert w h. induction Hl as [|x l Hx Hl IH]; intros w h.
  { unfold HandlerList_Run. cbn [range_err]. apply wp_ret. intros _ _. reflexivity. }
  unfold wp. rewrite HandlerList_Run_cons. change (wp (try exec_handler fuel ctx (Handler_Fn x) ;; HandlerList_Run (exec_handler fuel ctx) l)
    (λ r w' _, ∀ a, r = Val a → R w w') o w h).
  apply wp_bind. eapply wp_mono; [by apply kept_by_handler|]. intros [[e|]| |] w' h' Hr; [| |done..].
  - apply wp_ret. intros _ _. by apply (Hr (Some e)).
  - eapply wp_mono; [apply IH|]. intros r w2 h2 Hr2 a Ha. etransitivity; [by apply (Hr None)|by apply (Hr2 a)].
Qed.
End kept.

(** A start that returns no error has run its handlers, and changes the configuration
    no further. *)
Lemma Start_handlers (fuel : nat) ctx (o : Oracle Sys) (w w' : World) h h' :
  Start fuel ctx o w h = (Val None, w', h') →
  ∃ w2 h2, run_handlers fuel ctx o (mkWorld (heap_ w) (set_started true (machine w))) h = (Val None, w2, h2) ∧
    same_cfg w2 w'.
Proof.
  unfold Start, get_machine, modify_machine. unfold get at 1, modify.
  unfold go_bind at 1 2, go_ret at 1. destruct (started (machine w)); [done|].
  unfold go_bind at 1. unfold go_bind at 1. set (w0 := mkWorld (heap_ w) _).
  destruct ((try run_handlers fuel ctx ;; startInstance ctx) o w0 h) as [[[[e|]| |] w1] h1] eqn:Hrun.
  { unfold go_bind. by destruct (doCleanup o w1 h1) as [[[?| |] ?] ?]. }
  2-3: done.
  intros [= <- <-]. revert Hrun. unfold go_bind at 1. unfold w0.
  destruct (run_handlers fuel ctx o _ h) as [[[[e|]| |] w2] h2]; [done| |done..].
  intros Hs. pose proof (sends_startInstance ctx o w2 h2) as Hi. unfold wp in Hi. rewrite Hs in Hi.
  destruct (Hi None eq_refl) as [Hsame _]. by exists w2, h2.
Qed.

(** A start that returns no error is the first. *)
Lemma Start_once (fuel : nat) ctx (o : Oracle Sys) (w w' : World) h h' :
  Start fuel ctx o w h = (Val None, w', h') → started (machine w) = false.
Proof. unfold Start, get_machine. run_unfold. by destruct (started (machine w)). Qed.

(** C1. What a successful start has sent.  When the FcInit list is a part whose
    handlers send nothing (as validation and, in the default lists, setting up the
    network, the arguments, the process, the log files and the jail) followed by
    handlers that leave the configuration alone, then a [Start] that returns no
    error has sent exactly the requests that the configuration it leaves asks for,
    in the order of the handlers, all accepted, and last, unless the machine loads
    a snapshot, the request to start the instance. *)
Theorem Start_requests (fuel : nat) ctx (o : Oracle Sys) (w w' : World)
    (validation pre post : list (Handler HandlerFn)) h h' :
  elems (heap_ w) (Validation (Handlers_ (machine w))) = validation →
  elems (heap_ w) (FcInit (Handlers_ (machine w))) = pre ++ post →
  Forall (λ x, is_silent (Handler_Fn x) = true) (validation ++ pre) →
  Forall (λ x, plain (Handler_Fn x) = true) post →
  Start fuel ctx o w h = (Val None, w', h') →
  let cfg := Cfg (machine w') in
  ∃ t, h' = h ++ t ∧
    writes t = accepted <$> ((post ≫= handler_writes cfg ∘ Handler_Fn) ++
                             (if hasSnapshot cfg then [] else [start_write])).
Proof.
  intros Hv Hf Hpre Hpost Hrun.
  apply (Start_sends fuel ctx o w w' validation pre post None h h' Hv Hf Hpre Hpost); [|done].
  by apply (Start_once fuel ctx o w w' h h').
Qed.

(** C3. A failed start stops at the first refusal: when [Start] of a machine with
    such handlers returns an error, the requests it has sent are the first ones of
    those the configuration asks for, all accepted but possibly the last, which
    was refused: then its refusal is the error returned (in the text of another when
    it is a snapshot that could not be loaded), and no other changing request is
    sent. *)
Theorem Start_stops_at_refusal (fuel : nat) ctx (o : Oracle Sys) (w w' : World)
    (validation pre post : list (Handler HandlerFn)) e h h' :
  elems (heap_ w) (Validation (Handlers_ (machine w))) = validation →
  elems (heap_ w) (FcInit (Handlers_ (machine w))) = pre ++ post →
  Forall (λ x, is_silent (Handler_Fn x) = true) (validation ++ pre) →
  Forall (λ x, plain (Handler_Fn x) = true) post →
  started (machine w) = false →
  Start fuel ctx o w h = (Val (Some e), w', h') →
  let cfg := Cfg (machine w') in
  ∃ t done rest, h' = h ++ t ∧
    (post ≫= handler_writes cfg ∘ Handler_Fn) ++ (if hasSnapshot cfg then [] else [start_write]) = done ++ rest ∧
    (writes t = accepted <$> done ∨
     ∃ x rest' refusal, rest = x :: rest' ∧
       writes t = (accepted <$> done) ++ [(x, Some refusal)] ∧ returned_as refusal e).
Proof.
  intros Hv Hf Hpre Hpost Hst Hrun.
  destruct (Start_sends fuel ctx o w w' validation pre post (Some e) h h' Hv Hf Hpre Hpost Hst Hrun)
    as (t & -> & done & rest & Hws & Hd).
  by exists t, done, rest.
Qed.
End start.

Module Examples.
(** The default machine of Concrete.v attaches its drive and starts. *)
Lemma Start_requests_witness :
  ∃ t, (Start 5 Background sample_host created []).2 = t ∧
    writes t = accepted <$>
      [WMachineConfiguration (Some (mkMachineConfiguration "" (Some 512) None None (Some 2)));
       WBootSource (Some (mkBootSource "console=ttyS0" "" (Some "/vmlinux")));
       WDrive "1" (Some (mkDrive None (Some "1") None (Some false) (Some true) "" (Some "/rootfs") None));
       start_write].
Proof.
  assert ((Start 5 Background sample_host created []).1.1 = Val None) as Hv by (vm_compute; reflexivity).
  destruct (Start 5 Background sample_host created []) as [[r w'] h'] eqn:Hrun. simpl in Hv. subst r.
  destruct (Start_requests 5 Background sample_host created w'
    [NetworkConfigValidationHandler; ConfigValidationHandler]
    (take 4 defaultFcInitHandlerList) (drop 4 defaultFcInitHandlerList) [] h') as (t & -> & Hw);
    [vm_compute; reflexivity | vm_compute; reflexivity | repeat constructor | repeat constructor | exact Hrun |].
  exists t. split; [reflexivity|]. rewrite Hw. 
  assert (Cfg (machine w') = Cfg (machine (Start 5 Background sample_host created []).1.2)) as -> by (by rewrite Hrun).
  vm_compute. reflexivity.
Defined.

(** The same machine on a VMM that refuses the boot source. *)
Definition refuse {T} (c : ClientIface T) : T :=
  match c in ClientIface T return T with
  | Ops_PutGuestBootSource _ => Some connection_error
  | c => api_answer c
  end.
Definition refusing_host : Oracle Sys := λ h T c,
  match c in Sys T return T with
  | Api _ c => refuse c
  | c => sample_host h _ c
  end.

Lemma Start_stops_at_refusal_witness :
  ∃ t, (Start 5 Background refusing_host created []).2 = t ∧
    writes t =
      [accepted (WMachineConfiguration (Some (mkMachineConfiguration "" (Some 512) None None (Some 2))));
       (WBootSource (Some (mkBootSource "console=ttyS0" "" (Some "/vmlinux"))), Some connection_error)].
Proof.
  assert ((Start 5 Background refusing_host created []).1.1 = Val (Some connection_error)) as Hv by (vm_compute; reflexivity).
  destruct (Start 5 Background refusing_host created []) as [[r w'] h'] eqn:Hrun. simpl in Hv. subst r.
  destruct (Start_stops_at_refusal 5 Background refusing_host created w'
    [NetworkConfigValidationHandler; ConfigValidationHandler]
    (take 4 defaultFcInitHandlerList) (drop 4 defaultFcInitHandlerList) connection_error [] h')
    as (t & done & rest & -> & _ & _);
    [vm_compute; reflexivity | vm_compute; reflexivity | repeat constructor | repeat constructor
    | vm_compute; reflexivity | exact Hrun |].
  exists t. split; [reflexivity|].
  assert (t = (Start 5 Background refusing_host created []).2) as -> by (by rewrite Hrun).
  vm_compute. reflexivity.
Defined.
End Examples.
