(* ===== verification/StartFacts.v ===== *)
(** * Starting a machine, failing to, and cleaning up (src/machine.go)

    What [Start] has done when it fails: everything registered for cleanup has
    been undone, in reverse order.  Also what [waitForSocket] returns and when it
    ends, what a VMM that never opens its socket leads to, and what stopping and
    shutting down do. *)

From stdpp Require Import gmap strings list.
From Stdlib Require Import ZArith Lia.
From S2P Require Import Prelude GoStrings KernelArgs Models ApiParams Slices Handlers Builders Commands Vmconf Client Netlink Sys Network Config MachineApi Vmm Machine MachineFacts Concrete.

Open Scope string_scope.
Open Scope Z_scope.
Open Scope list_scope.

(** ** Cleanup *)

(** The one call a cleanup function makes. *)
Definition cleanup_event (socketPath : string) (f : CleanupFunc) (ev : event Sys) : Prop :=
  match f with
  | NetworkCleanup (DeleteNetwork plugin ctx networkConf rt _) =>
      ∃ r, ev = Event (DelNetworkList plugin ctx networkConf rt) r
  | NetworkCleanup (RemoveNetNSParentDir dir) => ∃ r, ev = Event (OsRemove dir) r
  | NetworkCleanup (RemoveNetNSPath path) => ∃ r, ev = Event (OsRemove path) r
  | NetworkCleanup (UnmountNetNS path) => ∃ r, ev = Event (UnixUnmount path) r
  | RemoveFifo fifo => ∃ r, ev = Event (OsRemove fifo) r
  | RemoveSocket => ∃ r, ev = Event (OsRemove socketPath) r
  end.

Section cleanup.
Context `{Multierror} (o : Oracle Sys).

Lemma run_cleanup_event f w h :
  wp (run_cleanup f) (λ r w' h', is_val r ∧ w' = w ∧
    ∃ ev, h' = h ++ [ev] ∧ cleanup_event (SocketPath (Cfg (machine w))) f ev) o w h.
Proof.
  destruct f as [[]| |]; unfold run_cleanup, run_network_cleanup, remove_if_exists, get_cfg, get_machine;
    wp_steps; (split; [by eexists|]); (split; [done|]); eexists; (split; [reflexivity|]); by eexists.
Qed.

Lemma run_cleanups_events fs err w h :
  wp (run_cleanups fs err) (λ r w' h', is_val r ∧ w' = w ∧
    ∃ t, h' = h ++ t ∧ Forall2 (cleanup_event (SocketPath (Cfg (machine w)))) fs t) o w h.
Proof.
  revert err h. induction fs as [|f fs IH]; intros err h; simpl.
  { wp_step. split; [by eexists|]. split; [done|]. exists []. by rewrite app_nil_r. }
  apply wp_bind. eapply wp_mono; [apply run_cleanup_event|].
  intros r w' h' ([e ->] & -> & ev & -> & Hev). simpl.
  eapply wp_mono; [apply IH|]. intros r w' h' (? & -> & t & -> & Ht).
  split; [done|]. split; [done|]. exists (ev :: t). rewrite <- app_assoc. by repeat constructor.
Qed.

(** What [doCleanup] does. *)
Definition cleaned (w : World) (h : trace Sys) (w' : World) (h' : trace Sys) : Prop :=
  cleanupDone (machine w') = true ∧
  ∃ t, h' = h ++ t ∧
    if cleanupDone (machine w) then t = []
    else Forall2 (cleanup_event (SocketPath (Cfg (machine w)))) (reverse (cleanupFuncs (machine w))) t.

Lemma doCleanup_cleaned w h :
  wp doCleanup (λ r w' h', is_val r ∧ cleaned w h w' h') o w h.
Proof.
  unfold doCleanup, get_machine, cleaned. apply wp_bind, wp_bind, wp_get, wp_ret.
  destruct (cleanupDone (machine w)) eqn:Hd.
  { wp_step. split; [by eexists|]. split; [done|]. exists []. by rewrite app_nil_r. }
  unfold modify_machine. apply wp_bind, wp_modify, wp_bind. eapply wp_mono; [apply run_cleanups_events|].
  intros r w' h' ([e ->] & -> & t & -> & Ht). simpl. wp_step.
  split; [by eexists|]. split; [done|]. by exists t.
Qed.
End cleanup.

Section start.
Context `{Growth} `{DefaultTimeout} `{Multierror} `{NetlinkConstants}.
Implicit Types (ctx : go_context).

(** C9. [doCleanup] runs every registered function exactly once, whatever errors
    the others return, in the reverse of the order of registration; a second call,
    whatever runs in between, does nothing. *)
Theorem doCleanup_once (ops : list operation) (o o' : Oracle Sys) (w w1 w2 : World) (r : error) h h1 h2 :
  cleanupDone (machine w) = false →
  doCleanup o w h = (Val r, w1, h1) → runs ops w1 w2 →
  (∃ t, h1 = h ++ t ∧
     Forall2 (cleanup_event (SocketPath (Cfg (machine w)))) (reverse (cleanupFuncs (machine w))) t) ∧
  doCleanup o' w2 h2 = (Val None, w2, h2).
Proof.
  intros Hd Hrun Hr. pose proof (doCleanup_cleaned o w h) as Hc. unfold wp in Hc. rewrite Hrun in Hc.
  destruct Hc as (_ & Hdone & t & -> & Ht). rewrite Hd in Ht. split; [by exists t|].
  apply runs_evolves in Hr. unfold doCleanup, get_machine. run_unfold.
  by rewrite (ev_cleanupDone _ _ Hr Hdone).
Qed.

End start.

(** What it changes. *)
Lemma doCleanup_state `{Multierror} (o : Oracle Sys) w h :
  wp doCleanup (λ _ w' _, w' = set_machine (set_cleanupDone true (machine w)) w) o w h.
Proof.
  unfold doCleanup, get_machine. apply wp_bind, wp_bind, wp_get, wp_ret.
  destruct (cleanupDone (machine w)) eqn:Hd.
  { apply wp_ret. destruct w as [? []]. simpl in *. by subst. }
  unfold modify_machine. apply wp_bind, wp_modify, wp_bind. eapply wp_mono; [apply run_cleanups_events|].
  intros r w' h' ([e ->] & -> & _). by apply wp_ret.
Qed.

(** Registering the signals changes nothing in the machine. *)
Lemma setupSignals_run o w h : ∃ t, Machine_setupSignals o w h = (Val tt, w, h ++ t).
Proof.
  unfold Machine_setupSignals, get_cfg, get_machine. run_unfold.
  destruct (ForwardSignals _) as [[|sig l]|]; [exists []; by rewrite app_nil_r| |exists []; by rewrite app_nil_r].
  eexists. by destruct (o h _ _).
Qed.

Lemma setupSignals_wp (Q : Outcome unit → World → trace Sys → Prop) o w h :
  (∀ t, Q (Val tt) w (h ++ t)) → wp Machine_setupSignals Q o w h.
Proof. intros HQ. unfold wp. destruct (setupSignals_run o w h) as [t ->]. apply HQ. Qed.

(** ** Where the cleanup of a start can run *)

(** The history of every part of a start grows. *)
Section growing.
Context `{Growth} `{DefaultTimeout} `{Multierror} `{NetlinkConstants}.
Implicit Types (ctx : go_context).

Lemma extends_get_machine : extends get_machine.
Proof. unfold get_machine. go_extends. Qed.
Lemma extends_modify_machine f : extends (modify_machine f).
Proof. unfold modify_machine. go_extends. Qed.
#[local] Hint Resolve extends_get_machine extends_modify_machine : go_ext.
Lemma extends_get_cfg : extends get_cfg.
Proof. unfold get_cfg. go_extends. Qed.
Lemma extends_modify_cfg f : extends (modify_cfg f).
Proof. unfold modify_cfg. go_extends. Qed.
Lemma extends_add_cleanup fs : extends (add_cleanup fs).
Proof. unfold add_cleanup. go_extends. Qed.
Lemma extends_get_client : extends get_client.
Proof. unfold get_client. go_extends. Qed.
Lemma extends_operations {T} (c : Client) (r : ClientIface T) : extends (S := World) (operations (E := Sys) c r).
Proof. unfold operations. go_extends. Qed.
#[local] Hint Resolve extends_get_cfg extends_modify_cfg extends_add_cleanup extends_get_client extends_operations : go_ext.

Lemma extends_link_drives rootfs i drives : extends (link_drives rootfs i drives).
Proof. revert i. induction drives as [|d drives IH]; simpl; unfold link_into; go_extends. Qed.
Lemma extends_validate_root_drive drives : extends (validate_root_drive drives).
Proof. induction drives as [|d drives IH]; simpl; unfold require_file; go_extends. Qed.
Lemma extends_network ctx ifaces vmID nsPath : extends (NetworkInterfaces_setupNetwork (S := World) ctx ifaces vmID nsPath).
Proof.
  unfold NetworkInterfaces_setupNetwork, setup_cni_interface, initializeNetNS, mount_netns, invokeCNI,
    invokeCNI_with, run_network_cleanup, StaticNetworkConfFrom, mtuOf, GetLink, DefaultNetlinkOps, Default.GetLink.
  go_extends.
Qed.
#[local] Hint Resolve extends_link_drives extends_validate_root_drive extends_network : go_ext.

Lemma extends_start_process : extends start_process.
Proof. unfold start_process, startCmd. go_extends. Qed.

Lemma extends_startInstance ctx : extends (startInstance ctx).
Proof. unfold startInstance, Client_CreateSyncAction. go_extends. Qed.

Lemma extends_exec_handler fuel ctx fn : fn ≠ StartVMM → extends (exec_handler fuel ctx fn).
Proof.
  intros Hne. destruct fn; try done; cbn [exec_handler];
    unfold Config_Validate, Config_ValidateLoadSnapshot, require_file, require_no_socket,
      createLogFiles, createFifoOrFile, createFifo, captureFifoToFile, setupNetwork, setupKernelArgs, ipBootParam,
      linkFiles, link_fifo, link_into, setupLogging, setupMetrics, createMachine, refreshMachineConfiguration,
      createBootSource, attachDrives, attachDrive, createNetworkInterfaces, createNetworkInterface, addVsocks, addVsock,
      SetMetadata, setMmdsConfig, CreateBalloon, loadSnapshot, Client_PutLogger, Client_PutMetrics,
      Client_PutMachineConfiguration, Client_GetMachineConfiguration, Client_PutGuestBootSource,
      Client_PutGuestDriveByID, Client_PutGuestNetworkInterfaceByID, Client_PutGuestVsock, Client_PutMmds,
      Client_PutMmdsConfig, Client_PutBalloon, Client_LoadSnapshot; go_extends.
Qed.
End growing.

(** What the cleanup has done since the history [h0]: nothing yet; or everything [ran],
    right after a poll for the socket found that the process had ended, and the
    functions [late] registered since then are left. *)
Definition uncleaned (h0 : trace Sys) (w : World) (h : trace Sys) : Prop :=
  cleanupDone (machine w) = false ∧ h0 `prefix_of` h.
Definition cleaned_early (h0 : trace Sys) (w : World) (h : trace Sys) : Prop :=
  cleanupDone (machine w) = true ∧
  ∃ t1 timeout waitErr tc t2 ran late,
    h = h0 ++ t1 ++ Event (SocketSelect timeout) (ProcessExited waitErr) :: tc ++ t2 ∧
    cleanupFuncs (machine w) = ran ++ late ∧
    Forall2 (cleanup_event (SocketPath (Cfg (machine w)))) (reverse ran) tc.
Definition cleanup_state (h0 : trace Sys) (w : World) (h : trace Sys) : Prop := uncleaned h0 w h ∨ cleaned_early h0 w h.

Definition steady {A} (m : M A) : Prop := ∀ o w h h0,
  cleanup_state h0 w h → wp m (λ r w' h', is_val r → cleanup_state h0 w' h') o w h.

Section steady.
Context `{Growth} `{DefaultTimeout} `{Multierror} `{NetlinkConstants}.
Implicit Types (ctx : go_context).

Lemma cleanup_state_later h0 w w' h t :
  evolves w w' → cleanupDone (machine w') = cleanupDone (machine w) →
  cleanup_state h0 w h → cleanup_state h0 w' (h ++ t).
Proof.
  intros He Hd [[Hn Hp]|(Hy & t1 & timeout & we & tc & t2 & ran & late & -> & Hf & Ht)].
  - left. split; [congruence|]. by apply prefix_app_r.
  - right. split; [congruence|]. destruct (ev_cleanupFuncs _ _ He) as [fs Hfs].
    exists t1, timeout, we, tc, (t2 ++ t), ran, (late ++ fs). split; [by rewrite <- !app_assoc; simpl; rewrite <- !app_assoc|].
    split; [by rewrite Hfs, Hf, app_assoc|by rewrite (ev_socket _ _ He)].
Qed.

Lemma cleanup_state_same h0 w h t : cleanup_state h0 w h → cleanup_state h0 w (h ++ t).
Proof. by apply cleanup_state_later. Qed.

(** Where the process ends, and the cleanup runs if it has not. *)
Lemma cleanup_state_cleaned h0 w h timeout waitErr w' h' :
  cleanup_state h0 w h → evolves w w' → cleanupFuncs (machine w') = cleanupFuncs (machine w) →
  cleaned w (h ++ [Event (SocketSelect timeout) (ProcessExited waitErr)]) w' h' → cleanup_state h0 w' h'.
Proof.
  intros Hs He Hf (Hd & t & -> & Ht). destruct (cleanupDone (machine w)) eqn:Hw.
  - subst t. rewrite app_nil_r. by apply (cleanup_state_later h0 w); [..|congruence|].
  - destruct Hs as [[_ [t1 ->]]|[? _]]; [|congruence]. right. split; [done|].
    exists t1, timeout, waitErr, t, [], (cleanupFuncs (machine w)), [].
    rewrite app_nil_r, <- !app_assoc. split; [done|]. by rewrite app_nil_r, (ev_socket _ _ He).
Qed.

Lemma steady_ret {A} (a : A) : steady (go_ret a).
Proof. by intros o w h h0 Hs; apply wp_ret. Qed.

Lemma steady_bind {A B} (m : M A) (k : A → M B) : steady m → (∀ a, steady (k a)) → steady (go_bind m k).
Proof.
  intros Hm Hk o w h h0 Hs. apply wp_bind. eapply wp_mono; [by apply Hm|]. intros [a| |] w' h' Hs'; [|by intros [? ?]..].
  apply Hk, Hs'. by eexists.
Qed.

(** What does not touch the cleanup. *)
Lemma steady_kept {A} (m : M A) : keeps evolves m → keeps unshown m → extends m → steady m.
Proof.
  intros He Hu Ht o w h h0 Hs. specialize (He o w h). specialize (Hu o w h). destruct (Ht o w h) as [t Heq].
  unfold wp. destruct (m o w h) as [[[a| |] w'] h']; [|by intros [? ?]..]. simpl in Heq. subst h'. intros _.
  apply (cleanup_state_later h0 w); [done| |done]. by injection Hu.
Qed.

Lemma steady_modify_machine f :
  (∀ w, evolves w (mkWorld (heap_ w) (f (machine w)))) → (∀ m, cleanupDone (f m) = cleanupDone m) → steady (modify_machine f).
Proof.
  intros He Hd o w h h0 Hs. unfold modify_machine. apply wp_modify. intros _.
  rewrite <- (app_nil_r h). apply (cleanup_state_later h0 w); [apply He|apply Hd|done].
Qed.

Lemma steady_finish e : steady (finish e).
Proof.
  intros o w h h0 Hs. unfold finish, close_exitCh, get_machine, modify_machine.
  apply wp_bind, wp_modify, wp_bind, wp_bind, wp_get, wp_ret. simpl.
  destruct (exitCh (machine w)) eqn:Hx; [by apply wp_panic; intros [? ?]|]. apply wp_modify. intros _.
  rewrite <- (app_nil_r h). apply (cleanup_state_later h0 w); [|done|done]. constructor; unfold stays; simpl; auto; congruence.
Qed.

Lemma steady_watch_goroutine : steady watch_goroutine.
Proof.
  intros o w h h0 Hs. unfold watch_goroutine, get_machine. apply wp_bind, wp_bind, wp_get, wp_ret.
  destruct (watching (machine w)); [|by apply steady_ret].
  destruct (errCh (machine w)); try (by apply steady_ret).
  - revert o w h h0 Hs. apply steady_bind; [apply steady_modify_machine; [evolve|done]|intros []].
    apply steady_bind; [apply steady_modify_machine; [evolve|done]|intros []; apply steady_finish].
  - revert o w h h0 Hs. apply steady_bind; [apply steady_modify_machine; [evolve|done]|intros []; apply steady_finish].
Qed.

Lemma steady_waitForSocket fuel timeout : steady (waitForSocket fuel timeout).
Proof.
  induction fuel as [|fuel IH]; intros o w h h0 Hs; cbn [waitForSocket]; [by apply wp_pending; intros [? ?]|].
  apply wp_bind, wp_call. destruct (o h _ (SocketSelect timeout)) as [e|waitErr|].
  - apply wp_ret. intros _. by apply cleanup_state_same.
  - unfold get_machine. apply wp_bind, wp_bind, wp_get, wp_ret.
    destruct (errCh (machine w)); try (by apply IH, cleanup_state_same).
    unfold exit_goroutine, get_machine, modify_machine.
    apply wp_bind, wp_bind, wp_bind, wp_get, wp_ret. destruct (exit_blocked _ _).
    { apply wp_modify, wp_bind, wp_bind, wp_get, wp_ret. simpl. apply IH.
      apply (cleanup_state_later h0 w); [evolve|done|done]. }
    unfold offer_error. apply wp_bind.
    eapply wp_mono; [apply wp_and; [apply doCleanup_cleaned|apply doCleanup_state]|].
    intros r w1 h1 [([cerr ->] & Hcl) ->].
    assert (cleanup_state h0 (set_machine (set_cleanupDone true (machine w)) w) h1) as Hs1
      by (eapply (cleanup_state_cleaned h0 w); [exact Hs|evolve|done|exact Hcl]).
    unfold modify_machine, take_offer, modify_machine. apply wp_modify, wp_bind, wp_bind, wp_get, wp_ret. simpl.
    apply wp_bind, wp_modify, wp_ret. intros _. rewrite <- (app_nil_r h1).
    eapply cleanup_state_later; [| |exact Hs1]; [evolve|done].
  - unfold get_cfg, get_machine. apply wp_bind, wp_bind, wp_bind, wp_get, wp_ret, wp_ret, wp_bind, wp_call.
    destruct (o _ _ (OsStat _)); rewrite <- app_assoc; [by apply IH, cleanup_state_same|].
    unfold get_client, get_machine, deref. apply wp_bind, wp_bind, wp_bind, wp_get, wp_ret.
    destruct (client (machine w)) as [c|]; [|by apply wp_panic; intros [? ?]]. apply wp_ret.
    unfold Client_GetMachineConfiguration, operations. apply wp_bind, wp_call.
    destruct (o _ _ (ops_call _ _)); rewrite <- app_assoc; [by apply IH, cleanup_state_same|].
    apply wp_ret. intros _. by apply cleanup_state_same.
Qed.

Lemma steady_startVMM fuel : steady (startVMM fuel).
Proof.
  unfold startVMM, await_socket. apply steady_bind.
  { apply steady_kept; [unfold start_process, startCmd; go_keeps|apply unshown_start_process|apply extends_start_process]. }
  intros [e|]; [apply steady_bind; [apply steady_finish|intros []; apply steady_ret]|].
  apply steady_bind; [apply steady_modify_machine; [evolve; by eexists|done]|intros []].
  apply steady_bind; [apply steady_modify_machine; [evolve|done]|intros []].
  apply steady_bind; [intros o w h h0 Hs; apply setupSignals_wp; intros t _; by apply cleanup_state_same|intros []].
  apply steady_bind; [apply steady_kept; [go_keeps|unfold get_client; go_keeps|apply extends_get_client]|intros c].
  apply steady_bind; [apply steady_waitForSocket|intros [e|]].
  - apply steady_bind; [apply steady_kept; [go_keeps|unfold get_cfg, get_machine; go_keeps|apply extends_get_cfg]|intros cfg].
    apply steady_bind; [apply steady_finish|intros []; apply steady_ret].
  - apply steady_bind; [apply steady_modify_machine; [evolve|done]|intros []].
    apply steady_bind; [apply steady_watch_goroutine|intros []; apply steady_ret].
Qed.

Lemma steady_handlers fuel ctx l : steady (HandlerList_Run (exec_handler fuel ctx) l).
Proof.
  induction l as [|x l IH]; [apply steady_ret|]. unfold HandlerList_Run. cbn [range_err].
  apply steady_bind; [|intros [e|]; [apply steady_ret|exact IH]].
  destruct (decide (Handler_Fn x = StartVMM)) as [->|Hne]; [apply steady_startVMM|].
  apply steady_kept; [apply keeps_exec_handler|by apply unshown_exec_handler|by apply extends_exec_handler].
Qed.

Lemma steady_start fuel ctx : steady (try run_handlers fuel ctx ;; startInstance ctx).
Proof.
  apply steady_bind.
  - intros o w h h0 Hs. unfold run_handlers. apply wp_bind, wp_get. by apply steady_handlers.
  - intros [e|]; [apply steady_ret|].
    apply steady_kept; [apply keeps_startInstance|apply unshown_startInstance|apply extends_startInstance].
Qed.

End steady.

(** ** A VMM that does not open its socket *)

Section timeout.
Context `{Growth} `{DefaultTimeout} `{Multierror} `{NetlinkConstants}.
Implicit Types (o : Oracle Sys).

(** The world after polls: at most, the goroutine of a daemonized jailer's process
    now waits for [Shutdown]. *)
Definition blocked (w : World) : World := mkWorld (heap_ w) (set_errCh ErrChBlocked (machine w)).
Definition polled (w w' : World) : Prop := w' = w ∨ w' = blocked w.

(** What ended [waitForSocket]: the deadline, or an API that answers on an existing
    socket; or the end of the process. *)
Definition socket_outcome (timeout : Z) (w : World) (h : trace Sys) (err : error) (w' : World) (h' : trace Sys) : Prop :=
  (polled w w' ∧ ∃ t, match err with
     | Some e => h' = h ++ t ++ [Event (SocketSelect timeout) (SocketDeadline e)]
     | None => ∃ c p cfg, client (machine w) = Some c ∧
         h' = h ++ t ++ [Event (OsStat (SocketPath (Cfg (machine w)))) None;
                         Event (Api (Client_Operations c) (Ops_GetMachineConfiguration p)) (inr cfg)]
     end) ∨
  (errCh (machine w') = ErrChClosed ∧ cleanupDone (machine w') = true ∧
   ∃ t waitErr t', h' = h ++ t ++ Event (SocketSelect timeout) (ProcessExited waitErr) :: t').

Lemma polled_trans w1 w2 w3 : polled w1 w2 → polled w2 w3 → polled w1 w3.
Proof. unfold polled. intros [->| ->] [->| ->]; auto. Qed.

Lemma socket_outcome_step timeout w w1 h t err w' h' :
  polled w w1 → socket_outcome timeout w1 (h ++ t) err w' h' → socket_outcome timeout w h err w' h'.
Proof.
  intros Hp [[Hp' [t' Ht]]|(Hc & Hd & t0 & we & t' & Ht)].
  - left. split; [by eapply polled_trans|]. exists (t ++ t'). destruct err.
    + by rewrite Ht, <- ?app_assoc.
    + destruct Ht as (c & p & cfg & Hc & Ht). exists c, p, cfg. rewrite <- ?app_assoc in *.
      by destruct Hp as [->| ->].
  - right. split; [done|]. split; [done|]. exists (t ++ t0), we, t'. by rewrite Ht, <- ?app_assoc.
Qed.

Lemma waitForSocket_outcome fuel timeout o w h :
  wp (waitForSocket fuel timeout)
    (λ r w' h', ∀ err, r = Val err → socket_outcome timeout w h err w' h') o w h.
Proof.
  revert w h. induction fuel as [|fuel IH]; intros w h; cbn [waitForSocket]; [by wp_step|].
  assert (∀ w1 t, polled w w1 → wp (waitForSocket fuel timeout)
    (λ r w' h', ∀ err, r = Val err → socket_outcome timeout w h err w' h') o w1 (h ++ t)) as Hstep.
  { intros w1 t Hp. eapply wp_mono; [apply IH|]. intros r w' h' Hr err Herr. by eapply socket_outcome_step, Hr. }
  apply wp_bind, wp_call. destruct (o h _ (SocketSelect timeout)) as [e|waitErr|] eqn:Hsel.
  - wp_step. intros ? [= <-]. left. split; [by left|]. by exists [].
  - unfold get_machine. apply wp_bind, wp_bind, wp_get, wp_ret.
    destruct (errCh (machine w)); try (by apply Hstep; left).
    unfold exit_goroutine, get_machine, modify_machine.
    apply wp_bind, wp_bind, wp_bind, wp_get, wp_ret. destruct (exit_blocked _ _).
    { apply wp_modify, wp_bind, wp_bind, wp_get, wp_ret. simpl. by apply Hstep; right. }
    unfold offer_error. apply wp_bind. eapply wp_mono; [apply doCleanup_cleaned|].
    intros r w1 h1 ([cerr ->] & Hdone & t & -> & _).
    unfold modify_machine, take_offer, modify_machine. apply wp_modify, wp_bind, wp_bind, wp_get, wp_ret. simpl.
    apply wp_bind, wp_modify, wp_ret. intros ? _. right. simpl. split; [done|]. split; [done|].
    exists [], waitErr, t. by rewrite <- app_assoc.
  - unfold get_cfg, get_machine. apply wp_bind, wp_bind, wp_bind, wp_get, wp_ret, wp_ret.
    apply wp_bind, wp_call.
    destruct (o _ _ (OsStat _)) as [e|] eqn:Hstat; rewrite <- app_assoc; [by apply Hstep; left|].
    unfold get_client, get_machine, deref. apply wp_bind, wp_bind, wp_bind, wp_get, wp_ret.
    destruct (client (machine w)) as [c|] eqn:Hcl; [|by wp_step]. apply wp_ret.
    unfold Client_GetMachineConfiguration, operations. apply wp_bind, wp_call.
    destruct (o _ _ (ops_call _ _)) as [e|cfg] eqn:Hapi; [rewrite <- app_assoc; by apply Hstep; left|].
    wp_step. intros ? [= <-]. left. split; [by left|]. exists [Event (SocketSelect timeout) SocketTick]. eexists c, _, cfg.
    split; [done|]. rewrite <- !app_assoc. reflexivity.
Qed.

(** C16. [waitForSocket] returns without error only when the socket file exists and
    the API answered on it, or when the process has ended, and with one only at its
    deadline or when the process has ended; in the latter case the machine has been
    cleaned up. *)
Theorem waitForSocket_result fuel timeout o w w' err h h' :
  waitForSocket fuel timeout o w h = (Val err, w', h') → socket_outcome timeout w h err w' h'.
Proof.
  intros Hrun. pose proof (waitForSocket_outcome fuel timeout o w h) as Hw. unfold wp in Hw.
  rewrite Hrun in Hw. by apply Hw.
Qed.

(** The number of polls in a history. *)
Definition polls (h : trace Sys) : nat := length (List.filter is_select h).

Lemma polls_app h t : polls (h ++ t) = (polls h + polls t)%nat.
Proof. unfold polls. by rewrite List.filter_app, length_app. Qed.

Lemma polls_cleanup path fs t : Forall2 (cleanup_event path) fs t → polls t = 0%nat.
Proof.
  induction 1 as [|f ev fs t Hev _ IH]; [done|]. change (ev :: t) with ([ev] ++ t). rewrite polls_app, IH.
  destruct f as [[]| |]; destruct Hev as [r ->]; done.
Qed.

(** A call that gives [waitForSocket] no reason to return. *)
Definition idle (ev : event Sys) : Prop :=
  match ev with
  | Event c r =>
      match c in Sys T return T → Prop with
      | SocketSelect _ => λ r, ∀ e, r ≠ SocketDeadline e
      | Api _ c => λ r, match c in ClientIface T return T → Prop with
                        | Ops_GetMachineConfiguration _ => λ r, ∃ e, r = inl e
                        | _ => λ _, True
                        end r
      | _ => λ _, True
      end r
  end.

(** The ends of the process that the polls saw. *)
Definition exit_seen (ev : event Sys) : option error :=
  match ev with
  | Event c r =>
      match c in Sys T return T → option error with
      | SocketSelect _ => λ r, match r with ProcessExited waitErr => Some waitErr | _ => None end
      | _ => λ _, None
      end r
  end.
Definition exits (t : trace Sys) : list error := omap exit_seen t.

(** If the process has ended, then so that its goroutine waits for [Shutdown]. *)
Definition unseen (w : World) (t : trace Sys) : Prop :=
  errCh (machine w) = ErrChEmpty →
  match exits t with [] => True | waitErr :: _ => exit_blocked (machine w) waitErr = true end.

Definition idled (fuel : nat) (w : World) (h : trace Sys) (r : Outcome error) (h' : trace Sys) : Prop :=
  ∃ t, h' = h ++ t ∧ (polls t ≤ fuel)%nat ∧ (r = Pending → polls t = fuel ∧ Forall idle t ∧ unseen w t).

(** A poll that changes nothing, and then the others. *)
Lemma idled_step fuel w h l r h' :
  polls l = 1%nat → Forall idle l → (errCh (machine w) = ErrChEmpty → exits l = []) →
  idled fuel w (h ++ l) r h' → idled (Datatypes.S fuel) w h r h'.
Proof.
  intros Hl Hi Hu (t & -> & Hle & Hp). exists (l ++ t). rewrite <- app_assoc. split; [done|]. rewrite polls_app, Hl.
  split; [lia|]. intros Hr. destruct (Hp Hr) as (-> & Ht & Hut). split; [done|]. split; [by apply Forall_app|].
  intros He. unfold exits in *. rewrite omap_app, (Hu He). by apply Hut.
Qed.

Lemma waitForSocket_idled fuel timeout o w h :
  let '(r, _, h') := waitForSocket fuel timeout o w h in idled fuel w h r h'.
Proof.
  change (wp (waitForSocket fuel timeout) (λ r _ h', idled fuel w h r h') o w h).
  revert w h. induction fuel as [|fuel IH]; intros w h; cbn [waitForSocket].
  { apply wp_pending. exists []. rewrite app_nil_r. split; [done|]. split; [done|]. intros _. split; [done|]. split; [constructor|].
    by intros _. }
  apply wp_bind, wp_call. destruct (o h _ (SocketSelect timeout)) as [e|waitErr|].
  - apply wp_ret. eexists. split; [done|]. split; [unfold polls; simpl; lia|done].
  - unfold get_machine. apply wp_bind, wp_bind, wp_get, wp_ret.
    destruct (errCh (machine w)) eqn:He; try (eapply wp_mono; [apply IH|]; intros r w' h' Hi;
      apply (idled_step fuel w h [Event (SocketSelect timeout) (ProcessExited waitErr)] r h' eq_refl); [repeat constructor; discriminate|congruence|exact Hi]).
    unfold exit_goroutine, get_machine, modify_machine.
    apply wp_bind, wp_bind, wp_bind, wp_get, wp_ret. destruct (exit_blocked _ _) eqn:Hb.
    { apply wp_modify, wp_bind, wp_bind, wp_get, wp_ret. simpl.
      eapply wp_mono; [apply IH|]. intros r w' h' (t & -> & Hle & Hp). exists (Event (SocketSelect timeout) (ProcessExited waitErr) :: t).
      rewrite <- app_assoc. split; [done|]. change (?ev :: t) with ([ev] ++ t). rewrite polls_app. split; [unfold polls in *; simpl; lia|].
      intros Hr. destruct (Hp Hr) as (<- & Ht & _). split; [done|]. split; [constructor; [discriminate|done]|].
      by intros _. }
    unfold offer_error. apply wp_bind. eapply wp_mono; [apply doCleanup_cleaned|].
    intros r w1 h1 ([cerr ->] & Hdone & t & -> & Ht).
    unfold modify_machine, take_offer, modify_machine. apply wp_modify, wp_bind, wp_bind, wp_get, wp_ret. simpl.
    apply wp_bind, wp_modify, wp_ret. eexists. rewrite <- app_assoc. split; [done|]. rewrite polls_app.
    assert (polls t = 0%nat) as -> by (destruct (cleanupDone (machine w)); [by subst|by eapply polls_cleanup]). split; [unfold polls; simpl; lia|done].
  - unfold get_cfg, get_machine. apply wp_bind, wp_bind, wp_bind, wp_get, wp_ret, wp_ret, wp_bind, wp_call.
    destruct (o _ _ (OsStat _)); rewrite <- app_assoc.
    { eapply wp_mono; [apply IH|]. intros r w' h' Hi. eapply idled_step; [| | |exact Hi]; [done|repeat constructor; discriminate|done]. }
    unfold get_client, get_machine, deref. apply wp_bind, wp_bind, wp_bind, wp_get, wp_ret.
    destruct (client (machine w)) as [c|]; [|apply wp_panic; eexists; split; [done|]; split; [unfold polls; simpl; lia|done]]. apply wp_ret.
    unfold Client_GetMachineConfiguration, operations. apply wp_bind, wp_call.
    destruct (o _ _ (ops_call _ _)); [rewrite <- app_assoc|apply wp_ret; rewrite <- app_assoc; eexists; split; [done|]; split; [unfold polls; simpl; lia|done]].
    eapply wp_mono; [apply IH|]. intros r w' h' Hi. eapply idled_step; [| | |exact Hi]; [done|constructor; [discriminate|repeat constructor; by eexists]|done].
Qed.

(** C17. [waitForSocket] polls at most once for each unit of fuel, and it is still
    running when its fuel is used up only if each of these polls gave it no reason
    to return: none found the deadline, none was answered by the API, and none saw
    the process end (unless as the parent of a daemonized jailer, which ends cleanly
    while the VM runs on).  So it returns at the first poll that finds the deadline,
    an answer, or the end of the process. *)
Theorem waitForSocket_terminates (fuel : nat) timeout o w h :
  ∃ t, (waitForSocket fuel timeout o w h).2 = h ++ t ∧ (polls t ≤ fuel)%nat ∧
    ((waitForSocket fuel timeout o w h).1.1 = Pending → polls t = fuel ∧ Forall idle t ∧ unseen w t).
Proof.
  pose proof (waitForSocket_idled fuel timeout o w h) as Hi. by destruct (waitForSocket fuel timeout o w h) as [[r w'] h'].
Qed.

(** ** Stopping *)

(** What only the two goroutines of a started process change. *)
Record unwatched (w w' : World) : Prop := {
  uw_watching : watching (machine w') = watching (machine w);
  uw_cleanupCh : cleanupCh (machine w') = cleanupCh (machine w);
  uw_exitCh : exitCh (machine w') = exitCh (machine w)
}.
#[local] Instance unwatched_preorder : PreOrder unwatched.
Proof. split; [by split|]. intros ??? [] []. split; congruence. Qed.

Lemma unwatched_doCleanup : keeps unwatched doCleanup.
Proof.
  assert (∀ f, keeps unwatched (run_cleanup f)) as Hf.
  { intros f. unfold run_cleanup, remove_if_exists, run_network_cleanup, get_cfg, get_machine. go_keeps. }
  assert (∀ fs err, keeps unwatched (run_cleanups fs err)) as Hfs.
  { intros fs. induction fs as [|f fs IH]; intros err; simpl; go_keeps. }
  unfold doCleanup, get_machine, modify_machine. go_keeps. by apply keeps_modify.
Qed.

Lemma unwatched_start_process : keeps unwatched start_process.
Proof.
  unfold start_process, startCmd, get_cfg, get_machine, modify_machine.
  go_keeps; by apply keeps_modify.
Qed.

(** The process runs, and no goroutine is there to receive its error. *)
Definition abandoned (w : World) : Prop :=
  has_process (machine w) = true ∧ watching (machine w) = false ∧ cleanupCh (machine w) = false.

(** When the socket does not appear before the deadline ([startVMM] fails while
    the process has not ended), the fatal error is recorded and [exitCh] closed, but
    the process keeps running with nobody to receive its error. *)
Theorem startVMM_timeout fuel o (w w' : World) e h h' :
  watching (machine w) = false → cleanupCh (machine w) = false →
  startVMM fuel o w h = (Val (Some e), w', h') →
  has_process (machine w') = true → cleanupDone (machine w') = false →
  abandoned w' ∧ exitCh (machine w') = true ∧ fatalErr (machine w') = Some e.
Proof.
  intros Hw Hc. unfold startVMM, go_bind at 1.
  pose proof (unwatched_start_process o w h) as Hu.
  destruct (start_process o w h) as [[[[e1|]| |] w1] h1]; [| |done..].
  all: destruct Hu as [Hu1 Hu2 Hu3].
  { unfold finish, modify_machine, close_exitCh, get_machine. run_unfold. simpl.
    destruct (exitCh (machine w1)); [done|]. intros [= <- <- <-] Hp _. unfold abandoned. simpl. naive_solver congruence. }
  unfold await_socket, add_cleanup, modify_machine. unfold go_bind at 1, modify at 1. unfold go_bind at 1, modify at 1.
  set (w2 := mkWorld _ _). unfold go_bind at 1. destruct (setupSignals_run o w2 h1) as [t ->].
  unfold get_client, get_machine, deref. run_unfold. simpl.
  destruct (client (machine w1)) as [c|]; [|done].
  pose proof (waitForSocket_outcome fuel (int64_mul (firecrackerInitTimeout c) Second) o w2 (h1 ++ t)) as Hs.
  unfold wp in Hs. destruct (waitForSocket _ _ o w2 (h1 ++ t)) as [[[[e'|]| |] w3] h3]; [| |done..].
  - specialize (Hs _ eq_refl). unfold finish, modify_machine, close_exitCh, get_cfg, get_machine. run_unfold. simpl.
    destruct (exitCh (machine w3)); [done|]. intros [= <- <- <-] Hp Hd. simpl in *.
    destruct Hs as [[Hpo _]|(_ & Hd' & _)]; [|congruence].
    unfold abandoned. destruct Hpo as [-> | ->]; simpl in *; naive_solver congruence.
  - unfold watch_goroutine, modify_machine, get_machine, take_offer, finish, modify_machine, close_exitCh, get_machine.
    run_unfold. simpl. destruct (errCh (machine w3)); simpl; try done; by destruct (exitCh (machine w3)).
Qed.

Lemma abandoned_exit o w h waitErr :
  watching (machine w) = false → cleanupCh (machine w) = false →
  wp (process_exits waitErr) (λ r w' _, r = Val tt ∧ cleanupCh (machine w') = false) o w h.
Proof.
  intros Hw Hc. unfold process_exits, get_machine. apply wp_bind, wp_bind, wp_get, wp_ret.
  destruct (errCh (machine w)); try by apply wp_ret.
  assert (∀ w1 h1, watching (machine w1) = false → cleanupCh (machine w1) = false →
    wp watch_goroutine (λ r w' _, r = Val tt ∧ cleanupCh (machine w') = false) o w1 h1) as Hwatch.
  { intros w1 h1 Hw1 Hc1. unfold watch_goroutine, get_machine. apply wp_bind, wp_bind, wp_get, wp_ret.
    rewrite Hw1. by apply wp_ret. }
  unfold exit_goroutine, get_machine, modify_machine.
  apply wp_bind, wp_bind, wp_bind, wp_get, wp_ret. destruct (exit_blocked _ _); [apply wp_modify; by apply Hwatch|].
  unfold offer_error. apply wp_bind. pose proof (unwatched_doCleanup o w h) as Hu. pose proof (doCleanup_cleaned o w h) as Hv.
  unfold wp in Hv |- * at 1.
  destruct (doCleanup o w h) as [[[ce| |] w1] h1]; [|by destruct Hv as [[? ?] _]..]. destruct Hu as [Hu1 Hu2 Hu3].
  unfold modify_machine. apply wp_modify, Hwatch; simpl; congruence.
Qed.

(** On an abandoned process [StopVMM] never returns successfully: it fails to
    send the signal, or waits for ever, whatever the process does afterwards. *)
Theorem StopVMM_abandoned o (w : World) h :
  abandoned w →
  let r := (StopVMM o w h).1.1 in r = Pending ∨ ∃ e, r = Val (Some e).
Proof.
  intros (Hp & Hw & Hc). enough (wp StopVMM (λ r _ _, r = Pending ∨ ∃ e, r = Val (Some e)) o w h) as H'.
  { revert H'. unfold wp. by destruct (StopVMM _ _ _) as [[r ?] ?]. }
  assert (∀ h, wp (await_cleanupCh ;; go_ret (None : error)) (λ r _ _, r = Pending ∨ ∃ e, r = Val (Some e)) o w h) as Hblock.
  { clear h. intros h. apply wp_bind. unfold await_cleanupCh, get_machine. apply wp_bind, wp_bind, wp_get, wp_ret.
    rewrite Hc. destruct (errCh (machine w)); try (by left).
    apply wp_bind, wp_call. destruct (o h _ AwaitProcess) as [waitErr|]; [|by left].
    apply wp_bind. eapply wp_mono; [by apply abandoned_exit|].
    intros r w1 h1 [-> Hc1]. apply wp_bind, wp_bind, wp_get, wp_ret. rewrite Hc1. by left. }
  unfold StopVMM, stopVMM, get_machine. apply wp_bind, wp_bind, wp_get, wp_ret. rewrite Hp.
  apply wp_bind, wp_call. destruct (o h _ (ProcessSignal SIGTERM)) as [e|]; [|apply Hblock].
  destruct (strings_Contains _ _); [apply Hblock|]. right. by eexists.
Qed.

(** The process runs, its goroutines watch it, and nothing has ended. *)
Definition watched (w : World) : Prop :=
  has_process (machine w) = true ∧ watching (machine w) = true ∧ errCh (machine w) = ErrChEmpty ∧
  cleanupCh (machine w) = false ∧ exitCh (machine w) = false.

(** Everything a process leaves when it ends: the cleanup has run, the channels are
    closed and the fatal error is set. *)
Definition ended (w : World) (waitErr : error) (h : trace Sys) (w' : World) (h' : trace Sys) : Prop :=
  cleaned w h w' h' ∧ cleanupCh (machine w') = true ∧ exitCh (machine w') = true ∧ errCh (machine w') = ErrChClosed ∧
  ∃ cleanupErr, fatalErr (machine w') = merr_ErrorOrNil (merr_AppendErr waitErr cleanupErr).

Lemma process_exits_ended o w h waitErr :
  watched w → exit_blocked (machine w) waitErr = false →
  wp (process_exits waitErr) (λ r w' h', r = Val tt ∧ ended w waitErr h w' h') o w h.
Proof.
  intros (Hp & Hw & He & Hc & Hx) Hb. unfold process_exits, get_machine. apply wp_bind, wp_bind, wp_get, wp_ret.
  rewrite He. unfold exit_goroutine, get_machine.
  apply wp_bind, wp_bind, wp_bind, wp_get, wp_ret. rewrite Hb. unfold offer_error.
  apply wp_bind. pose proof (unwatched_doCleanup o w h) as Hu. pose proof (doCleanup_cleaned o w h) as Hv.
  unfold wp in Hv |- * at 1.
  destruct (doCleanup o w h) as [[[ce| |] w1] h1]; [|by destruct Hv as [[? ?] _]..]. destruct Hu as [Hu1 Hu2 Hu3].
  destruct Hv as [_ Hv].
  unfold modify_machine. apply wp_modify. unfold watch_goroutine, get_machine.
  apply wp_bind, wp_bind, wp_get, wp_ret. simpl. rewrite Hu1, Hw.
  unfold take_offer, finish, close_exitCh, modify_machine, get_machine.
  apply wp_bind, wp_modify, wp_bind, wp_modify, wp_bind, wp_modify, wp_bind, wp_bind, wp_get, wp_ret. simpl.
  rewrite Hu3, Hx. apply wp_modify. split; [done|]. unfold ended, cleaned in *. simpl.
  naive_solver.
Qed.

(** The parent of a daemonized jailer exits cleanly: nothing is cleaned up. *)
Lemma process_exits_blocked o w h waitErr :
  watched w → exit_blocked (machine w) waitErr = true →
  wp (process_exits waitErr) (λ r w' h', r = Val tt ∧ w' = blocked w ∧ h' = h) o w h.
Proof.
  intros (Hp & Hw & He & Hc & Hx) Hb. unfold process_exits, get_machine. apply wp_bind, wp_bind, wp_get, wp_ret.
  rewrite He. unfold exit_goroutine, get_machine, modify_machine.
  apply wp_bind, wp_bind, wp_bind, wp_get, wp_ret. rewrite Hb. apply wp_modify.
  unfold watch_goroutine, get_machine. apply wp_bind, wp_bind, wp_get, wp_ret. simpl. rewrite Hw. by apply wp_ret.
Qed.

(** C15. [StopVMM] on a running machine, when SIGTERM is delivered and the process it
    waits for ends: everything registered for cleanup has then been undone, [errCh],
    [exitCh] and [cleanupCh] are closed ([shutdownCh] is left to [Shutdown]), [Wait]
    will report the error of the process, and [StopVMM] returns nil.  Except when the
    process is the parent of a daemonized jailer that exits cleanly before any call
    of [Shutdown]: then nothing is cleaned up, and [StopVMM] blocks. *)
Theorem StopVMM_running o (w : World) h waitErr :
  watched w →
  o h _ (ProcessSignal SIGTERM) = None →
  let h1 := h ++ [Event (ProcessSignal SIGTERM) None] in
  o h1 _ AwaitProcess = Some waitErr →
  let h2 := h1 ++ [Event AwaitProcess (Some waitErr)] in
  if exit_blocked (machine w) waitErr then StopVMM o w h = (Pending, blocked w, h2)
  else ∃ w' h', StopVMM o w h = (Val None, w', h') ∧ ended w waitErr h2 w' h'.
Proof.
  intros Hw Hsig h1 Haw h2.
  enough (wp StopVMM (λ r w' h', if exit_blocked (machine w) waitErr then (r, w', h') = (Pending, blocked w, h2)
    else r = Val None ∧ ended w waitErr h2 w' h') o w h) as Hwp.
  { revert Hwp. unfold wp. destruct (StopVMM o w h) as [[r w'] h'], (exit_blocked _ _); [done|]. intros [-> ?]. by exists w', h'. }
  pose proof Hw as (Hp & _ & He & Hc & _).
  unfold StopVMM, stopVMM, get_machine. apply wp_bind, wp_bind, wp_get, wp_ret. rewrite Hp.
  apply wp_bind, wp_call. rewrite Hsig. fold h1.
  apply wp_bind. unfold await_cleanupCh, get_machine. apply wp_bind, wp_bind, wp_get, wp_ret.
  rewrite Hc, He. apply wp_bind, wp_call. rewrite Haw. fold h2. apply wp_bind.
  destruct (exit_blocked (machine w) waitErr) eqn:Hb.
  - eapply wp_mono; [by apply process_exits_blocked|]. intros r w' h' (-> & -> & ->).
    apply wp_bind, wp_bind, wp_get, wp_ret. simpl. rewrite Hc. by apply wp_pending.
  - eapply wp_mono; [by apply process_exits_ended|].
    intros r w' h' (-> & Hend). apply wp_bind, wp_bind, wp_get, wp_ret.
    pose proof Hend as (_ & -> & _). apply wp_ret, wp_ret. done.
Qed.

(** [Shutdown] can be called once: a second call, whatever the first returned
    and whatever runs in between, panics on the closed channel before any call. *)
Theorem Shutdown_once amd64 amd64' ctx ctx' (ops : list operation) o o' (w w1 w2 : World) (r : error) h h1 h2 :
  Shutdown amd64 ctx o w h = (Val r, w1, h1) → runs ops w1 w2 →
  Shutdown amd64' ctx' o' w2 h2 = (Panic close_panic, w2, h2).
Proof.
  intros Hs Hr. apply runs_evolves in Hr.
  assert (shutdownCh (machine w1) = true) as Hsd.
  { revert Hs. unfold Shutdown, go_bind at 1, close_shutdownCh, get_machine, modify_machine.
    run_unfold. destruct (shutdownCh (machine w)); [done|]. intros Hs.
    set (w0 := mkWorld _ _) in Hs.
    assert (keeps evolves (unblock ;; if amd64 then sendCtrlAltDel ctx else StopVMM)) as Hk.
    { pose proof keeps_stopVMM. pose proof keeps_unblock. pose proof @keeps_operations. unfold StopVMM, sendCtrlAltDel, Client_CreateSyncAction.
      pose proof keeps_get_client. go_keeps. }
    specialize (Hk o w0 h). unfold go_bind in Hk. rewrite Hs in Hk. by apply (ev_shutdownCh _ _ Hk). }
  unfold Shutdown, close_shutdownCh, get_machine. run_unfold. by rewrite (ev_shutdownCh _ _ Hr Hsd).
Qed.
End timeout.

Module Examples.
Definition never : Oracle Sys := silent_host "/tmp/fc.sock" 2.

(** The sample machine once its process runs without a socket. *)
Definition alive : World := after (startVMM 5) never created.

Lemma doCleanup_once_witness :
  (∃ t, (doCleanup sample_host running []).2 = [] ++ t ∧ Forall2 (cleanup_event "/tmp/fc.sock") [RemoveSocket] t) ∧
  doCleanup never (after doCleanup sample_host running) [] = (Val None, after doCleanup sample_host running, []).
Proof.
  assert (doCleanup sample_host running [] = (Val None, after doCleanup sample_host running,
    (doCleanup sample_host running []).2)) as Hrun
    by (apply run_after; vm_compute; reflexivity).
  exact (doCleanup_once [] sample_host never running _ _ None [] _ [] eq_refl Hrun (runs_nil _)).
Defined.


Lemma waitForSocket_result_witness :
  socket_outcome (3 * Second) created [] (Some (CtxErr "context deadline exceeded")) created
    (waitForSocket 5 (3 * Second) never created []).2.
Proof.
  assert (waitForSocket 5 (3 * Second) never created [] = (Val (Some (CtxErr "context deadline exceeded")), created,
    (waitForSocket 5 (3 * Second) never created []).2)) as Hrun
    by (replace created with (after (waitForSocket 5 (3 * Second)) never created) at 2 by (vm_compute; reflexivity);
        apply run_after; vm_compute; reflexivity).
  exact (waitForSocket_result 5 (3 * Second) never created created _ [] _ Hrun).
Defined.

(** Two polls are not enough on a host whose deadline passes after two. *)
Lemma waitForSocket_terminates_witness :
  ∃ t, (waitForSocket 2 (3 * Second) never created []).2 = t ∧ polls t = 2%nat ∧ Forall idle t.
Proof.
  destruct (waitForSocket_terminates 2 (3 * Second) never created []) as (t & Ht & _ & Hp).
  exists t. split; [exact Ht|]. destruct Hp as (Hp & Hi & _); [vm_compute; reflexivity|]. split; [exact Hp|exact Hi].
Defined.

Lemma startVMM_timeout_witness :
  ∃ e, abandoned alive ∧ exitCh (machine alive) = true ∧ fatalErr (machine alive) = Some e.
Proof.
  assert (∃ e, (startVMM 5 never created []).1.1 = Val (Some e)) as [e He]
    by (eexists; vm_compute; reflexivity).
  assert (startVMM 5 never created [] = (Val (Some e), alive, (startVMM 5 never created []).2)) as Hrun
    by (unfold alive; apply run_after; exact He).
  exists e. apply (startVMM_timeout 5 never created alive e [] _) in Hrun; [exact Hrun|vm_compute; reflexivity..].
Defined.

Lemma StopVMM_abandoned_witness :
  let r := (StopVMM never alive []).1.1 in r = Pending ∨ ∃ e, r = Val (Some e).
Proof. apply (StopVMM_abandoned never alive []). vm_compute. done. Defined.

Lemma StopVMM_running_witness :
  ∃ w' h', StopVMM sample_host running [] = (Val None, w', h') ∧
    ended running None [Event (ProcessSignal SIGTERM) None; Event AwaitProcess (Some None)] w' h'.
Proof.
  assert (watched running) as Hw by (vm_compute; done).
  exact (StopVMM_running sample_host running [] None Hw eq_refl eq_refl).
Defined.

Lemma Shutdown_once_witness :
  let w := after (Shutdown true Background) sample_host running in
  Shutdown false Background sample_host w [] = (Panic close_panic, w, []).
Proof.
  assert (Shutdown true Background sample_host running [] = (Val None, after (Shutdown true Background) sample_host running,
    (Shutdown true Background sample_host running []).2)) as Hrun
    by (apply run_after; vm_compute; reflexivity).
  exact (Shutdown_once true false Background Background [] sample_host sample_host running _ _ None [] _ [] Hrun (runs_nil _)).
Defined.
End Examples.
