(* ===== verification/Deadlines.v ===== *)
(** * How long a request may take (src/firecracker.go, src/machine.go)

    The timeout of every request a machine makes, in [Start] with any handlers and in its
    other methods: a property of everything a machine calls, along its code. *)

From stdpp Require Import gmap strings list.
From Stdlib Require Import ZArith Lia.
From S2P Require Import Prelude GoStrings KernelArgs Models ApiParams Slices Handlers Builders Commands Vmconf Client Netlink Sys Network Config MachineApi Vmm Machine Concrete MachineFacts StartFacts.

Open Scope string_scope.
Open Scope Z_scope.
Open Scope list_scope.

(** The timeout each request has, when the client was made with a request timeout of
    [t] milliseconds: half of it to attach a drive, the default of go-openapi for the
    calls that set none, and none of its own, [None], for snapshots. *)
Definition expected `{DefaultTimeout} (t : Z) {T} (c : ClientIface T) : option Z :=
  match c with
  | Ops_CreateSnapshot _ | Ops_LoadSnapshot _ => None
  | Ops_PutGuestDriveByID _ => Some (milliseconds (t / 2))
  | Ops_GetFirecrackerVersion _ | Ops_DescribeInstance _ | Ops_PutGuestVsock _ | Ops_CreateSyncAction _
  | Ops_PutMmds _ | Ops_GetMmds _ | Ops_PatchMmds _ | Ops_PutMmdsConfig _ | Ops_PatchGuestDriveByID _ =>
      Some cr_DefaultTimeout
  | _ => Some (milliseconds t)
  end.

(** A call that, if it is a request, goes to the client [f] with its timeout, which is
    positive; a snapshot has only what the context of the caller sets. *)
Definition bounded `{DefaultTimeout} (f : Client) (ev : event Sys) : Prop :=
  match ev with
  | Event c _ =>
      match c with
      | Api target c => target = Client_Operations f ∧
          match expected (firecrackerRequestTimeout f) c with
          | Some d => d ∈ timeouts c ∧ 0 < d
          | None => params_timeout c = 0
          end
      | _ => True
      end
  end.

Create HintDb go_timed.

Section deadlines.
Context `{Growth} `{DefaultTimeout} `{Multierror} `{NetlinkConstants}.
Context (f : Client) (t := firecrackerRequestTimeout f).
Hypothesis Hdefault : 0 < cr_DefaultTimeout.
Hypothesis Htimeout : 2 ≤ t ≤ 9223372036854.
Implicit Types (ctx : go_context) (o : Oracle Sys) (w : World).

(** From a machine with this client, everything [m] calls is bounded, and the machine
    keeps its client. *)
Definition timed {A} (m : M A) : Prop := ∀ o w h,
  client (machine w) = Some f →
  wp m (λ _ w' h', client (machine w') = Some f ∧ ∃ t, h' = h ++ t ∧ Forall (bounded f) t) o w h.

Lemma timed_pure {A} (m : M A) : (∀ o w h, ∃ r, m o w h = (r, w, h)) → timed m.
Proof.
  intros Hm o w h Hc. unfold wp. destruct (Hm o w h) as [r ->]. split; [done|]. exists []. by rewrite app_nil_r.
Qed.

Lemma timed_ret {A} (a : A) : timed (go_ret a).
Proof. apply timed_pure. intros. by eexists. Qed.
Lemma timed_panic {A} why : timed (go_panic (A := A) why).
Proof. apply timed_pure. intros. by eexists. Qed.
Lemma timed_pending {A} : timed (go_pending (A := A)).
Proof. apply timed_pure. intros. by eexists. Qed.
Lemma timed_lift {A} (r : Outcome A) : timed (go_lift r).
Proof. apply timed_pure. intros. by eexists. Qed.
Lemma timed_get : timed get.
Proof. apply timed_pure. intros. by eexists. Qed.
Lemma timed_deref {A} (p : option A) : timed (deref p).
Proof. destruct p; [apply timed_ret|apply timed_panic]. Qed.
Lemma timed_get_machine : timed get_machine.
Proof. apply timed_pure. intros. by eexists. Qed.
Lemma timed_get_cfg : timed get_cfg.
Proof. apply timed_pure. intros. by eexists. Qed.

Lemma timed_modify_machine g : (∀ m, client (g m) = client m) → timed (modify_machine g).
Proof. intros Hg o w h Hc. split; [simpl; by rewrite Hg|]. exists []. by rewrite app_nil_r. Qed.
Lemma timed_modify_cfg g : timed (modify_cfg g).
Proof. by apply timed_modify_machine. Qed.

Lemma timed_call {T} (c : Sys T) : (∀ r, bounded f (Event c r)) → timed (call c).
Proof. intros Hc o w h Hw. apply wp_call. split; [done|]. eexists. split; [done|]. by repeat constructor. Qed.

Lemma timed_bind {A B} (m : M A) (k : A → M B) : timed m → (∀ a, timed (k a)) → timed (go_bind m k).
Proof.
  intros Hm Hk o w h Hc. apply wp_bind. eapply wp_mono; [by apply Hm|]. intros [a| |] w1 h1 [Hc1 (t1 & -> & Ht1)].
  - eapply wp_mono; [by apply Hk|]. intros r w2 h2 [Hc2 (t2 & -> & Ht2)]. split; [done|]. exists (t1 ++ t2).
    rewrite app_assoc. split; [done|]. by apply Forall_app.
  - split; [done|]. by exists t1.
  - split; [done|]. by exists t1.
Qed.

Lemma timed_range_err {A} (k : A → M error) l : (∀ x, timed (k x)) → timed (range_err k l).
Proof.
  intros Hk. induction l as [|x l IH]; simpl; [apply timed_ret|]. apply timed_bind; [done|]. intros [e|]; [apply timed_ret|done].
Qed.

(** The client a method uses is the one of the machine. *)
Lemma timed_client {A} (k : Client → M A) : timed (k f) → timed (go_bind get_client k).
Proof.
  intros Hk o w h Hc. unfold get_client, get_machine. apply wp_bind, wp_bind, wp_bind, wp_get, wp_ret. rewrite Hc.
  apply wp_ret. by apply Hk.
Qed.

Lemma timed_operations {T} (c : ClientIface T) :
  match expected t c with Some d => d ∈ timeouts c ∧ 0 < d | None => params_timeout c = 0 end → timed (operations f c).
Proof. intros Hb. unfold operations. apply timed_call. intros r. by split. Qed.

Lemma timeout_value : int64_mul t Millisecond = milliseconds t.
Proof. apply milliseconds_mul; unfold milliseconds; lia. Qed.
Lemma half_value : int64_mul (int64_div t 2) Millisecond = milliseconds (t / 2).
Proof. apply milliseconds_half; unfold milliseconds; lia. Qed.
Lemma half_positive : 0 < milliseconds (t / 2).
Proof. unfold milliseconds. pose proof (Z.div_le_lower_bound t 2 1 ltac:(lia) ltac:(lia)). lia. Qed.
Lemma timeout_positive : 0 < milliseconds t.
Proof. unfold milliseconds. lia. Qed.

#[local] Hint Resolve timed_ret timed_panic timed_pending timed_lift timed_get timed_deref timed_get_machine
  timed_get_cfg timed_modify_cfg : go_timed.
#[local] Hint Extern 1 (timed (call _)) => apply timed_call; intros; exact I : go_timed.
#[local] Hint Extern 1 (timed (modify_machine _)) => apply timed_modify_machine; intros; reflexivity : go_timed.
#[local] Hint Extern 1 (timed (add_cleanup _)) => apply timed_modify_machine; intros; reflexivity : go_timed.

(** A request: the timeout is computed, and found among those of the request. *)
Ltac timed_request :=
  apply timed_operations; unfold expected, timeouts;
  cbn [params_timeout params_Context apply_opts foldl]; cbn; fold t; rewrite ?timeout_value, ?half_value;
  repeat match goal with |- context [(?z =? 0)%Z] =>
    replace (z =? 0)%Z with false by (symmetry; apply Z.eqb_neq; pose proof timeout_positive; pose proof half_positive; lia)
  end;
  cbn [app];
  first [ reflexivity
        | split; [repeat first [apply list_elem_of_here|apply list_elem_of_further]
                 |first [exact timeout_positive | exact half_positive | exact Hdefault]] ].

(** Along the structure of a program. *)
Ltac go_timed :=
  repeat first
    [ intro_arg
    | solve [eauto with go_timed]
    | apply timed_client
    | timed_request
    | apply timed_bind
    | apply timed_range_err
    | case_match ].

Lemma timed_get_client : timed get_client.
Proof.
  intros o w h Hc. unfold get_client, get_machine. apply wp_bind, wp_bind, wp_get, wp_ret. rewrite Hc.
  apply wp_ret. split; [done|]. exists []. by rewrite app_nil_r.
Qed.

Lemma timed_GetMachineConfiguration : timed (Client_GetMachineConfiguration f []).
Proof. unfold Client_GetMachineConfiguration. go_timed. Qed.
#[local] Hint Resolve timed_GetMachineConfiguration : go_timed.

Lemma timed_run_cleanups fs err : timed (run_cleanups fs err).
Proof.
  revert err. induction fs as [|x fs IH]; intros err; simpl; [go_timed|].
  apply timed_bind; [destruct x as [[]| |]; unfold run_cleanup, run_network_cleanup, remove_if_exists; go_timed|].
  intros e. apply IH.
Qed.
#[local] Hint Resolve timed_run_cleanups : go_timed.

Lemma timed_doCleanup : timed doCleanup.
Proof. unfold doCleanup. go_timed. Qed.
#[local] Hint Resolve timed_doCleanup : go_timed.

Lemma timed_close_exitCh : timed close_exitCh.
Proof. unfold close_exitCh. go_timed. Qed.
#[local] Hint Resolve timed_close_exitCh : go_timed.

Lemma timed_goroutines e : timed (offer_error e) ∧ timed (exit_goroutine e) ∧ timed watch_goroutine ∧ timed (finish e).
Proof. unfold exit_goroutine, offer_error, watch_goroutine, take_offer, finish. split_and!; go_timed. Qed.

Lemma timed_process_exits e : timed (process_exits e).
Proof. destruct (timed_goroutines e) as (_ & ? & ? & _). unfold process_exits. go_timed. Qed.
Lemma timed_unblock : timed unblock.
Proof. destruct (timed_goroutines None) as (? & _ & ? & _). unfold unblock. go_timed. Qed.
#[local] Hint Resolve timed_process_exits timed_unblock : go_timed.

Lemma timed_waitForSocket fuel timeout : timed (waitForSocket fuel timeout).
Proof. induction fuel as [|fuel IH]; simpl; go_timed. Qed.
#[local] Hint Resolve timed_waitForSocket : go_timed.

Lemma timed_startVMM fuel : timed (startVMM fuel).
Proof. unfold startVMM, start_process, startCmd, await_socket. go_timed. Qed.
#[local] Hint Resolve timed_startVMM : go_timed.

Lemma timed_stopVMM : timed stopVMM.
Proof. unfold stopVMM, await_cleanupCh. go_timed. Qed.
#[local] Hint Resolve timed_stopVMM : go_timed.

Lemma timed_Shutdown amd64 ctx : timed (Shutdown amd64 ctx).
Proof. unfold Shutdown, close_shutdownCh, StopVMM, sendCtrlAltDel, Client_CreateSyncAction. go_timed. Qed.

Lemma timed_createLogFiles ctx : timed (createLogFiles ctx).
Proof. unfold createLogFiles, createFifoOrFile, createFifo, captureFifoToFile. go_timed. Qed.
#[local] Hint Resolve timed_createLogFiles : go_timed.

Lemma timed_link_drives rootfs i drives : timed (link_drives rootfs i drives).
Proof. revert i. induction drives as [|d drives IH]; intros i; simpl; unfold link_into; go_timed. Qed.
Lemma timed_validate_root_drive drives : timed (validate_root_drive drives).
Proof. induction drives as [|d drives IH]; simpl; unfold require_file; go_timed. Qed.
#[local] Hint Resolve timed_link_drives timed_validate_root_drive : go_timed.

Lemma timed_setupNetwork_run ctx ifaces vmID nsPath :
  timed (NetworkInterfaces_setupNetwork (S := World) ctx ifaces vmID nsPath).
Proof.
  unfold NetworkInterfaces_setupNetwork, setup_cni_interface, initializeNetNS, mount_netns, invokeCNI,
    invokeCNI_with, run_network_cleanup, StaticNetworkConfFrom, mtuOf, GetLink, DefaultNetlinkOps, Default.GetLink.
  go_timed.
Qed.
#[local] Hint Resolve timed_setupNetwork_run : go_timed.

Lemma timed_exec_handler fuel ctx fn : timed (exec_handler fuel ctx fn).
Proof.
  destruct fn; cbn [exec_handler];
    unfold setupLogging, setupMetrics, createMachine, refreshMachineConfiguration, createBootSource, attachDrives,
      attachDrive, createNetworkInterfaces, createNetworkInterface, addVsocks, addVsock, SetMetadata,
      setMmdsConfig, CreateBalloon, loadSnapshot, setupNetwork, setupKernelArgs, ipBootParam, linkFiles, link_fifo,
      link_into, Config_Validate, Config_ValidateLoadSnapshot, require_file, require_no_socket,
      Client_PutLogger, Client_PutMetrics,
      Client_PutMachineConfiguration, Client_PutGuestBootSource,
      Client_PutGuestDriveByID, Client_PutGuestNetworkInterfaceByID, Client_PutGuestVsock, Client_PutMmds,
      Client_PutMmdsConfig, Client_PutBalloon, Client_LoadSnapshot; go_timed.
Qed.
#[local] Hint Resolve timed_exec_handler : go_timed.

Lemma timed_Start fuel ctx : timed (Start fuel ctx).
Proof.
  unfold Start, run_handlers, Handlers_Run, HandlerList_Run, startInstance, Client_CreateSyncAction. go_timed.
Qed.

Lemma timed_run_operation op : timed (run_operation op).
Proof.
  pose proof timed_Start. pose proof timed_Shutdown.
  destruct op; cbn [run_operation]; unfold ignore, Wait, StopVMM, PID, Machine_GetFirecrackerVersion,
    SetMetadata, UpdateMetadata, GetMetadata, UpdateGuestDrive, UpdateGuestNetworkInterfaceRateLimit,
    DescribeInstanceInfo, PauseVM, ResumeVM, patch_vm, CreateSnapshot, CreateBalloon, GetBalloonConfig,
    UpdateBalloon, GetBalloonStats, UpdateBalloonStats, Client_GetFirecrackerVersion, Client_PutMmds,
    Client_PatchMmds, Client_GetMmds, Client_PatchGuestDriveByID, Client_PatchGuestNetworkInterfaceByID,
    Client_GetInstanceInfo, Client_PatchVM, Client_CreateSnapshot, Client_PutBalloon,
    Client_DescribeBalloonConfig, Client_PatchBalloon, Client_DescribeBalloonStats,
    Client_PatchBalloonStatsInterval, with_payload; go_timed.
Qed.
End deadlines.


(** The bounds are the right ones. *)
Lemma request_timeout_wraps : int64_mul 9223372036855 Millisecond < 0 ∧ int64_div 1 2 * Millisecond = 0.
Proof. done. Qed.

Module Examples.
(** The timeouts of the requests that attach drives. *)
Definition drive_timeouts (h : trace Sys) : list (list Z) :=
  omap (λ ev, match ev with
              | Event c _ => match c with Api _ (Ops_PutGuestDriveByID _ as c) => Some (timeouts c) | _ => None end
              end) h.

End Examples.
