(* ===== verification/CreateFacts.v ===== *)
(** * What creating a machine makes (src/machine.go, src/jailer.go, src/opts.go)

    The handler lists of a new machine, with and without a jailer and a snapshot,
    and their independence from the lists of other machines, as long as nothing is
    appended to a shared one. *)

From stdpp Require Import gmap strings list.
From Stdlib Require Import ZArith Lia.
From S2P Require Import Prelude GoStrings KernelArgs Models ApiParams Slices Handlers Builders Commands Vmconf Client Netlink Sys Network Config MachineApi Vmm Machine Concrete.

Open Scope string_scope.
Open Scope nat_scope.
Open Scope list_scope.

(** ** Lists built on a heap *)
Section built.
Context `{Growth}.
Implicit Types (h : handler_heap) (s t : slice) (l : list (Handler HandlerFn)).

(** Nothing in use before has changed. *)
Definition ext (h0 h : handler_heap) : Prop := dom h0 ⊆ dom h ∧ preserves h0 h.

#[export] Instance ext_preorder : PreOrder ext.
Proof.
  split; [by split; [|intros t Ht]|].
  intros h1 h2 h3 [Hd1 Hp1] [Hd2 Hp2]. split; [set_solver|].
  intros t Ht. destruct (Hp1 t Ht) as [Ht' <-]. by apply Hp2.
Qed.

(** A list made since the heap was [h0], in an array of its own. *)
Record built (h0 : handler_heap) (r : slice * handler_heap) (l : list (Handler HandlerFn)) : Prop := {
  built_wf : slice_wf r.2 r.1;
  built_elems : elems r.2 r.1 = l;
  built_owned : owned h0 r.1;
  built_ext : ext h0 r.2
}.

Lemma range_append_owned h s (f : Handler HandlerFn → list (Handler HandlerFn)) :
  let '(s', h') := range_append h s f in owned h s' ∧ dom h ⊆ dom h'.
Proof.
  unfold range_append. generalize (elems h s). clear s. intros l.
  enough (∀ acc h1, owned h acc → dom h ⊆ dom h1 →
    let '(s', h') := foldl (λ '(acc, h), λ x, append h acc (f x)) (acc, h1) l in
    owned h s' ∧ dom h ⊆ dom h') as Hgen by (apply Hgen; [by left|done]).
  induction l as [|x l IH]; intros acc h1 Hown Hdom; cbn [foldl]; [done|].
  pose proof (append_owned h h1 acc (f x) Hown Hdom) as Ha.
  destruct (append h1 acc (f x)) as [acc' h2]. apply IH; apply Ha.
Qed.

Lemma built_range h0 h s f :
  ext h0 h → slice_wf h s → built h0 (range_append h s f) (elems h s ≫= f).
Proof.
  intros Hext Hs. destruct (range_append_refines h s f) as [[Hwf Hel] Hp].
  pose proof (range_append_owned h s f) as Ho.
  destruct (range_append h s f) as [s' h']. destruct Ho as [Ho Hd].
  constructor; [done|done| |].
  - destruct Ho as [?|Hn]; [by left|right]. destruct Hext as [Hd0 _]. set_solver.
  - etransitivity; [exact Hext|]. done.
Qed.

Lemma built_again h0 h s l (f : Handler HandlerFn → list (Handler HandlerFn)) :
  built h0 (s, h) l → built h0 (range_append h s f) (l ≫= f).
Proof. intros [Hwf Hel _ Hext]. simpl in *. rewrite <- Hel. by apply built_range. Qed.

Lemma ext_new_slice h xs : ext h (new_slice h xs).2.
Proof.
  destruct (new_slice_refines h xs) as [_ Hp]. split; [|done]. simpl. rewrite dom_insert. set_solver.
Qed.

(** Appending to a slice in a way that spares the slices of [h0]. *)
Lemma Append_handlers_ext h0 h s xs :
  ext h0 h → slice_wf h s → (∀ t, slice_wf h0 t → spared s t (length xs)) →
  refines (Append_handlers h s xs).2 (Append_handlers h s xs) (elems h s ++ xs) ∧
  ext h0 (Append_handlers h s xs).2 ∧ (owned h0 s → owned h0 (Append_handlers h s xs).1).
Proof.
  intros Hext Hs Hsp. unfold Append_handlers.
  destruct (new_slice_refines h xs) as [[Hwf Hel] _]. pose proof (ext_new_slice h xs) as Hn.
  destruct (new_slice h xs) as [args h1]. simpl in *.
  destruct (proj2 Hn s Hs) as [Hs1 Hel1]. unfold HandlerList_Append. rewrite Hel.
  assert (ext h0 h1) as Hext1 by (by etransitivity).
  pose proof (append_elems h1 s xs Hs1) as Ha.
  pose proof (λ t, append_frame h1 s xs t Hs1) as Hf.
  pose proof (append_owned h0 h1 s xs) as Ho.
  destruct (append h1 s xs) as [s' h'] eqn:Happ. simpl. destruct Ha as [Hwf' Hel'].
  split; [|split].
  - split; [done|]. simpl. by rewrite Hel', Hel1.
  - split.
    + assert (dom h1 ⊆ dom h') as Hd; [|destruct Hext1; set_solver].
      clear -Happ. unfold append in Happ. destruct (Nat.leb _ _); simplify_eq; [|rewrite dom_insert; set_solver].
      case_decide; [done|]. rewrite dom_insert. set_solver.
    + intros t Ht. destruct (proj2 Hext1 t Ht) as [Ht1 <-]. by apply Hf, Hsp.
  - intros Hown. by apply Ho; [|apply Hext1].
Qed.

Lemma built_append h0 h s l xs : built h0 (s, h) l → built h0 (Append_handlers h s xs) (l ++ xs).
Proof.
  intros [Hwf Hel Hown Hext]. simpl in *.
  destruct (Append_handlers_ext h0 h s xs Hext Hwf) as ([Hwf' Hel'] & Hext' & Hown').
  { intros t Ht. eapply owned_spared; [done..|]. by destruct Hwf. }
  constructor; [done| |by apply Hown'|done]. by rewrite Hel', Hel.
Qed.

(** Appending to a slice without spare capacity. *)
Lemma full_append h s xs :
  slice_wf h s → len s = cap s → xs ≠ [] →
  refines (Append_handlers h s xs).2 (Append_handlers h s xs) (elems h s ++ xs) ∧ ext h (Append_handlers h s xs).2.
Proof.
  intros Hs Hfull Hxs. destruct (Append_handlers_ext h h s xs) as (Hr & He & _); [done|done| |done].
  intros t Ht. right. right. left. rewrite Hfull. destruct xs; [done|simpl; lia].
Qed.

Lemma remove_all_built h0 h s l hs :
  built h0 (s, h) l →
  built h0 (remove_all h s hs) (foldl (λ l x, Spec.Remove l (Handler_Name x)) l hs).
Proof.
  revert h s l. induction hs as [|x hs IH]; intros h s l Hb; simpl; [done|].
  unfold HandlerList_Remove. pose proof (built_again h0 h s l (remove_element (Handler_Name x)) Hb) as Hr. rewrite remove_loop in Hr.
  destruct (range_append h s _) as [s' h']. by apply IH.
Qed.

(** [l] without the handlers of the names in [hs]. *)
Definition without (l hs : list (Handler HandlerFn)) : list (Handler HandlerFn) :=
  foldl (λ l x, Spec.Remove l (Handler_Name x)) l hs.

Lemma load_snapshot_built h s :
  slice_wf h s →
  built h (modifyHandlersForLoadSnapshot h s)
    (without (elems h s) loadSnapshotRemoveHandlerList ++ [LoadSnapshotHandler]).
Proof.
  intros Hs. unfold modifyHandlersForLoadSnapshot.
  assert (built h (remove_all h s loadSnapshotRemoveHandlerList) (without (elems h s) loadSnapshotRemoveHandlerList)) as Hb.
  { unfold without, loadSnapshotRemoveHandlerList. generalize SetupKernelArgsHandler. intros x.
    generalize [CreateMachineHandler; CreateBootSourceHandler; AttachDrivesHandler; CreateNetworkInterfacesHandler;
                ConfigMmdsHandler]. intros hs.
    cbn [remove_all foldl]. unfold HandlerList_Remove.
    pose proof (built_range h h s (remove_element (Handler_Name x)) (reflexivity h) Hs) as Hb. rewrite remove_loop in Hb.
    destruct (range_append h s _) as [s1 h1]. by apply remove_all_built. }
  destruct (remove_all h s loadSnapshotRemoveHandlerList) as [s1 h1]. by apply built_append.
Qed.

(** ** Options *)

(** [WithSnapshot] replaces the configuration check and the handlers that boot a
    kernel; every list in use before is as it was. *)
Lemma WithSnapshot_lists mem snap opts w :
  let v := Validation (Handlers_ (machine w)) in
  let f := FcInit (Handlers_ (machine w)) in
  slice_wf (heap_ w) v → slice_wf (heap_ w) f →
  let w' := WithSnapshot mem snap opts w in
  ext (heap_ w) (heap_ w') ∧
  slice_wf (heap_ w') (Validation (Handlers_ (machine w'))) ∧ slice_wf (heap_ w') (FcInit (Handlers_ (machine w'))) ∧
  elems (heap_ w') (Validation (Handlers_ (machine w'))) =
    Spec.Remove (elems (heap_ w) v) ValidateCfgHandlerName ++ [LoadSnapshotConfigValidationHandler] ∧
  elems (heap_ w') (FcInit (Handlers_ (machine w'))) =
    without (elems (heap_ w) f) loadSnapshotRemoveHandlerList ++ [LoadSnapshotHandler].
Proof.
  cbv zeta. intros Hv Hf. unfold WithSnapshot. cbv zeta.
  unfold update_Validation, update_FcInit, HandlerList_Remove.
  pose proof (built_range (heap_ w) (heap_ w) _ (remove_element ValidateCfgHandlerName) (reflexivity _) Hv) as Hb. rewrite remove_loop in Hb.
  destruct (range_append (heap_ w) _ (remove_element ValidateCfgHandlerName)) as [v1 h1].
  apply (built_append _ _ _ _ [LoadSnapshotConfigValidationHandler]) in Hb.
  destruct (Append_handlers h1 v1 _) as [v2 h2]. destruct Hb as [Hwf2 Hel2 _ Hext2]. simpl in *.
  destruct (proj2 Hext2 _ Hf) as [Hf2 Helf]. pose proof (load_snapshot_built h2 _ Hf2) as Hb.
  destruct (modifyHandlersForLoadSnapshot h2 _) as [f3 h3]. destruct Hb as [Hwf3 Hel3 _ Hext3]. simpl in *.
  split; [by etransitivity|]. destruct (proj2 Hext3 _ Hwf2) as [? ->]. by rewrite Hel3, Helf.
Qed.

(** ** The default lists *)

(** The package variable [defaultHandlers] is intact. *)
Record default_lists (h : handler_heap) : Prop := {
  default_validation_wf : slice_wf h (Validation defaultHandlers);
  default_validation : elems h (Validation defaultHandlers) = defaultValidationHandlerList;
  default_fcinit_wf : slice_wf h (FcInit defaultHandlers);
  default_fcinit : elems h (FcInit defaultHandlers) = defaultFcInitHandlerList
}.

Lemma default_lists_ext h h' : ext h h' → default_lists h → default_lists h'.
Proof.
  intros [_ Hp] [Hv Hve Hf Hfe]. destruct (Hp _ Hv) as [? Hve'], (Hp _ Hf) as [? Hfe'].
  constructor; congruence.
Qed.

(** The lists when the package is loaded. *)
Lemma init_default_lists : default_lists init_defaultHandlers.2.
Proof.
  unfold init_defaultHandlers.
  destruct (Append_handlers_ext ∅ ∅ nil_slice defaultFcInitHandlerList) as ([Hwf1 Hel1] & Hext1 & _);
    [done|apply nil_slice_wf|intros t _; right; right; left; apply Nat.lt_0_succ|].
  destruct (Append_handlers ∅ nil_slice defaultFcInitHandlerList) as [f h1] eqn:Hf. simpl in *.
  destruct (Append_handlers_ext h1 h1 nil_slice defaultValidationHandlerList) as ([Hwf2 Hel2] & Hext2 & _);
    [done|apply nil_slice_wf|intros t _; right; right; left; apply Nat.lt_0_succ|].
  destruct (Append_handlers h1 nil_slice defaultValidationHandlerList) as [v h2] eqn:Hv. simpl in *.
  assert (defaultHandlers = mkHandlers v f) as Hd by (unfold defaultHandlers, init_defaultHandlers; by rewrite Hf, Hv).
  destruct (proj2 Hext2 _ Hwf1) as [? Hel]. by constructor; rewrite Hd; simpl; rewrite ?Hel.
Qed.

Lemma default_validation_full :
  growslice 0 1 = 1 → len (Validation defaultHandlers) = cap (Validation defaultHandlers).
Proof.
  intros Hg. unfold defaultHandlers, init_defaultHandlers.
  destruct (Append_handlers ∅ nil_slice defaultFcInitHandlerList) as [f h1].
  unfold Append_handlers, HandlerList_Append.
  destruct (new_slice_refines h1 defaultValidationHandlerList) as [[_ Hel] _].
  destruct (new_slice h1 defaultValidationHandlerList) as [args h2]. simpl in Hel. simpl. rewrite Hel.
  unfold append. simpl. by rewrite Hg.
Qed.
End built.

(** ** NewMachine *)
Section create.
Context `{Growth} `{DefaultTimeout}.
Implicit Types (cfg : Config) (o : Oracle Sys) (w : World).

(** The lists and the heap are as they were. *)
Definition same_lists (w w' : World) : Prop :=
  heap_ w' = heap_ w ∧ Handlers_ (machine w') = Handlers_ (machine w).
#[local] Instance same_lists_preorder : PreOrder same_lists.
Proof. split; [by split|]. intros ??? [] []. split; congruence. Qed.

Lemma same_lists_with_vmid cfg : keeps same_lists (with_vmid cfg).
Proof. unfold with_vmid. go_keeps. Qed.

Lemma with_vmid_jailer cfg o w h :
  wp (with_vmid cfg) (λ r _ _, ∀ cfg', r = Val (inr cfg') → JailerCfg cfg' = JailerCfg cfg) o w h.
Proof.
  unfold with_vmid. case_match; [|by apply wp_ret; intros ? [= <-]].
  apply wp_bind, wp_call. destruct (o h _ UuidNewRandom); apply wp_ret; intros ? [= <-]; done.
Qed.

Lemma same_lists_modify f :
  (∀ m, Handlers_ (f m) = Handlers_ m) → keeps (E := Sys) same_lists (modify_machine f).
Proof. intros Hf. apply keeps_modify. intros w. split; [done|apply Hf]. Qed.

(** [NewMachine] without its options. *)
Lemma finish_machine_lists cfg opts o w h :
  wp (finish_machine cfg opts)
    (λ r w' _, is_val r → ∃ w1, same_lists w w1 ∧ w' = apply_opts opts w1) o w h.
Proof.
  unfold finish_machine. set (k := modify (apply_opts opts)).
  assert (∀ {A} (m : M A) (f : A → M unit), keeps same_lists m →
    (∀ a w1 h1, same_lists w w1 → wp (f a) (λ r w' _, is_val r → ∃ w1, same_lists w w1 ∧ w' = apply_opts opts w1) o w1 h1) →
    ∀ w1 h1, same_lists w w1 → wp (go_bind m f) (λ r w' _, is_val r → ∃ w1, same_lists w w1 ∧ w' = apply_opts opts w1) o w1 h1) as Hbind.
  { intros A m f Hm Hf w1 h1 Hw. apply wp_bind. specialize (Hm o w1 h1). unfold wp at 1.
    destruct (m o w1 h1) as [[[a| |] w2] h2]; [|by intros [? ?]..]. apply Hf. by etransitivity. }
  apply Hbind; [unfold get_machine; go_keeps| |reflexivity]. intros m w1 h1 Hw1.
  apply Hbind; [|clear dependent w1|done].
  { destruct (client m); unfold NewClient, envValueOrDefaultInt, os_Getenv, sys_env;
      go_keeps; by apply same_lists_modify. }
  intros [] w2 h2 Hw2. apply Hbind; [by apply same_lists_modify| |done]. intros [] w3 h3 Hw3.
  apply Hbind; [case_match; [by apply same_lists_modify|go_keeps]| |done]. intros [] w4 h4 Hw4.
  apply wp_modify. intros _. by exists w4.
Qed.

(** The lists of a machine: jailed or not, booting a kernel or loading a snapshot. *)
Definition validation_list (jailed snapshot : bool) : list (Handler HandlerFn) :=
  [NetworkConfigValidationHandler] ++
  (if jailed then [JailerConfigValidationHandler]
   else if snapshot then [] else [ConfigValidationHandler]) ++
  (if snapshot then [LoadSnapshotConfigValidationHandler] else []).

Definition is_jailed cfg : bool := match JailerCfg cfg with Some _ => true | None => false end.

Definition link_handlers (jailed : bool) (s : NaiveChrootStrategy) : list (Handler HandlerFn) :=
  if jailed then [LinkFilesHandler (filepath_Base (Naive_KernelImagePath s))] else [].

Record has_lists (h0 : handler_heap) (w : World) (validation fcinit : list (Handler HandlerFn)) : Prop := {
  lists_ext : ext h0 (heap_ w);
  lists_validation_wf : slice_wf (heap_ w) (Validation (Handlers_ (machine w)));
  lists_validation : elems (heap_ w) (Validation (Handlers_ (machine w))) = validation;
  lists_fcinit_wf : slice_wf (heap_ w) (FcInit (Handlers_ (machine w)));
  lists_fcinit : elems (heap_ w) (FcInit (Handlers_ (machine w))) = fcinit
}.

Lemma has_lists_same h0 w w' v f : same_lists w w' → has_lists h0 w v f → has_lists h0 w' v f.
Proof. intros [Hh Hl] []. constructor; rewrite ?Hh, ?Hl; done. Qed.

Lemma append_validation_lists (handler : Handler HandlerFn) o w h :
  growslice 0 1 = 1 → default_lists (heap_ w) → Handlers_ (machine w) = defaultHandlers →
  wp (append_validation handler)
    (λ r w' _, r = Val tt ∧ has_lists (heap_ w) w' [NetworkConfigValidationHandler; handler] defaultFcInitHandlerList) o w h.
Proof.
  intros Hg [Hv Hve Hf Hfe] Hd. unfold append_validation, update_Validation. apply wp_modify. rewrite Hd.
  destruct (full_append (heap_ w) (Validation defaultHandlers) [handler]) as [[Hwf Hel] Hext];
    [done|by apply default_validation_full|done|].
  destruct (Append_handlers _ _ _) as [v h']. simpl in *. split; [done|].
  destruct (proj2 Hext _ Hf) as [Hf' Hfe']. rewrite Hve in Hel. simpl in Hel. constructor; simpl; congruence.
Qed.

Definition fcinit_list (jailed : bool) (s : NaiveChrootStrategy) (snapshot : bool) : list (Handler HandlerFn) :=
  [SetupNetworkHandler] ++ (if snapshot then [] else [SetupKernelArgsHandler]) ++
  [StartVMMHandler; CreateLogFilesHandler] ++ link_handlers jailed s ++ [BootstrapLoggingHandler] ++
  (if snapshot then [AddVsocksHandler; LoadSnapshotHandler]
   else [CreateMachineHandler; CreateBootSourceHandler; AttachDrivesHandler; CreateNetworkInterfacesHandler;
         AddVsocksHandler; ConfigMmdsHandler]).

Lemma jail_lists cfg o w h j s :
  JailerCfg cfg = Some j → ChrootStrategy j = Some (naive_adapter s) →
  slice_wf (heap_ w) (Validation (Handlers_ (machine w))) →
  slice_wf (heap_ w) (FcInit (Handlers_ (machine w))) →
  elems (heap_ w) (FcInit (Handlers_ (machine w))) = defaultFcInitHandlerList →
  wp (jail cfg) (λ r w' _, ∀ cfg', r = Val (inr cfg') →
    has_lists (heap_ w) w' (elems (heap_ w) (Validation (Handlers_ (machine w)))) (fcinit_list true s false)) o w h.
Proof.
  intros Hj Hs Hv Hf Hfe. unfold jail. rewrite Hj. cbn [deref].
  apply wp_bind, wp_ret, wp_bind, wp_deref; [intros uid _|by intros _ ? [=]].
  apply wp_bind, wp_deref; [intros gid _|by intros _ ? [=]].
  apply wp_bind, wp_deref; [intros node _|by intros _ ? [=]].
  apply wp_bind, wp_call, wp_bind, wp_modify, wp_bind. rewrite Hs. apply wp_ret, wp_bind, wp_get. simpl.
  unfold NaiveChroot_AdaptHandlers, HandlerList_Has, update_FcInit, HandlerList_AppendAfter. rewrite Hfe. simpl.
  pose proof (built_range (heap_ w) (heap_ w) (FcInit (Handlers_ (machine w)))
    (after_element CreateLogFilesHandlerName (LinkFilesHandler (filepath_Base (Naive_KernelImagePath s))))
    (reflexivity _) Hf) as Hb.
  destruct (range_append _ _ _) as [f h']. destruct Hb as [Hwf Hel _ Hext]. simpl in *.
  apply wp_bind, wp_put, wp_ret. intros cfg' _. destruct (proj2 Hext _ Hv) as [Hv' Hve'].
  constructor; simpl; try done. rewrite Hel, Hfe. reflexivity.
Qed.

Lemma build_command_lists cfg o w h s :
  growslice 0 1 = 1 → default_lists (heap_ w) → Handlers_ (machine w) = defaultHandlers →
  (∀ j, JailerCfg cfg = Some j → ChrootStrategy j = Some (naive_adapter s)) →
  wp (build_command cfg) (λ r w' _, ∀ cfg', r = Val (inr cfg') →
    has_lists (heap_ w) w' (validation_list (is_jailed cfg) false) (fcinit_list (is_jailed cfg) s false)) o w h.
Proof.
  intros Hg Hdef Hd Hs. unfold build_command, is_jailed. destruct (JailerCfg cfg) as [j|] eqn:Hj.
  - apply wp_bind. eapply wp_mono; [by apply append_validation_lists|]. intros r w1 h1 [-> [Hext Hv Hve Hf Hfe]].
    eapply wp_mono; [apply (jail_lists _ _ _ _ j s); try done; by apply Hs|].
    intros r w2 h2 Hl cfg' Hr. destruct (Hl cfg' Hr) as [Hext' ? Hve' ? ?].
    constructor; try done; [by etransitivity|]. by rewrite Hve', Hve.
  - apply wp_bind. eapply wp_mono; [by apply append_validation_lists|]. intros r w1 h1 [-> Hl].
    apply wp_bind, wp_modify, wp_ret. intros _ _. eapply has_lists_same; [|exact Hl]. by split.
Qed.

(** The options of a caller who loads a snapshot, or boots a kernel. *)
Definition snapshot_options (snapshot : option (string * string * list WithSnapshotOpt)) : list Opt :=
  match snapshot with Some (mem, snap, opts) => [WithSnapshot mem snap opts] | None => [] end.

Lemma snapshot_options_lists h0 w snapshot jailed s :
  has_lists h0 w (validation_list jailed false) (fcinit_list jailed s false) →
  let snapshotted := bool_decide (is_Some snapshot) in
  has_lists h0 (apply_opts (snapshot_options snapshot) w)
    (validation_list jailed snapshotted) (fcinit_list jailed s snapshotted).
Proof.
  intros Hl. destruct snapshot as [[[mem snap] opts]|]; simpl; [|exact Hl].
  destruct Hl as [Hext Hv Hve Hf Hfe].
  destruct (WithSnapshot_lists mem snap opts w Hv Hf) as (Hext' & ? & ? & Hv' & Hf').
  constructor; [by etransitivity|done| |done|].
  - rewrite Hv', Hve. by destruct jailed.
  - rewrite Hf', Hfe. by destruct jailed.
Qed.

(** What [build_command] establishes about the lists holds of the machine before
    its options. *)
Lemma NewMachine_via cfg opts (Q : World → Prop) o w h :
  (∀ w1 w2, same_lists w1 w2 → Q w1 → Q w2) →
  (∀ cfg1 w1 h1, JailerCfg cfg1 = JailerCfg cfg → heap_ w1 = heap_ w → Handlers_ (machine w1) = defaultHandlers →
     wp (build_command cfg1) (λ r w2 _, ∀ cfg2, r = Val (inr cfg2) → Q w2) o w1 h1) →
  wp (NewMachine cfg opts) (λ r w' _, r = Val None → ∃ w1, Q w1 ∧ w' = apply_opts opts w1) o w h.
Proof.
  intros Hsame Hbuild. unfold NewMachine. apply wp_bind, wp_modify, wp_bind. set (w0 := set_machine _ w).
  pose proof (with_vmid_jailer cfg o w0 h) as Hj. pose proof (same_lists_with_vmid cfg o w0 h) as Hid.
  unfold wp in Hj |- * at 1. destruct (with_vmid cfg o w0 h) as [[[[e|cfg1]| |] w1] h1]; [by apply wp_ret| |done..].
  apply wp_bind, wp_modify, wp_bind. destruct Hid as [Hh _].
  eapply wp_mono; [apply (Hbuild cfg1 _ h1); [by apply Hj|exact Hh|done]|].
  intros [[e|cfg2]| |] w3 h3 Hq; [by apply wp_ret| |done..].
  apply wp_bind. eapply wp_mono; [apply finish_machine_lists|].
  intros r w4 h4 Hfin. destruct r as [[]| |]; [|done..]. destruct Hfin as (w5 & Hs5 & ->); [by eexists|].
  apply wp_ret. intros _. exists w5. split; [|done]. by eapply Hsame, Hq.
Qed.

Lemma apply_opts_app (opts opts' : list Opt) (w : World) :
  apply_opts (opts ++ opts') w = apply_opts opts' (apply_opts opts w).
Proof. apply foldl_app. Qed.

(** Options that give the machine its commands. *)
Lemma runners_lists cmds w : same_lists w (apply_opts (WithProcessRunner <$> cmds) w).
Proof. revert w. induction cmds as [|c cmds IH]; intros w; simpl; [done|]. etransitivity; [|apply IH]. done. Qed.

Lemma NewMachine_makes cfg cmds snapshot s o w w' h h' :
  growslice 0 1 = 1 → default_lists (heap_ w) →
  (∀ j, JailerCfg cfg = Some j → ChrootStrategy j = Some (naive_adapter s)) →
  NewMachine cfg ((WithProcessRunner <$> cmds) ++ snapshot_options snapshot) o w h = (Val None, w', h') →
  let snapshotted := bool_decide (is_Some snapshot) in
  has_lists (heap_ w) w' (validation_list (is_jailed cfg) snapshotted) (fcinit_list (is_jailed cfg) s snapshotted).
Proof.
  intros Hg Hdef Hs Hrun. cbv zeta.
  pose proof (NewMachine_via cfg ((WithProcessRunner <$> cmds) ++ snapshot_options snapshot)
    (λ w1, has_lists (heap_ w) w1 (validation_list (is_jailed cfg) false) (fcinit_list (is_jailed cfg) s false)) o w h
    ltac:(intros; by eapply has_lists_same)) as Hvia.
  unfold wp in Hvia at 2. rewrite Hrun in Hvia. destruct Hvia as (w1 & Hl & ->); [|done|].
  { intros cfg1 w1 h1 Hj Hh Hd. rewrite <- Hh. replace (is_jailed cfg) with (is_jailed cfg1) by (unfold is_jailed; by rewrite Hj).
    apply build_command_lists; [done|by rewrite Hh|done|by rewrite Hj]. }
  rewrite apply_opts_app. apply snapshot_options_lists. eapply has_lists_same; [apply runners_lists|done].
Qed.

(** C19. A new machine has exactly the handlers its configuration and options call
    for, in order (with a jailer and the naive strategy, the files are linked right
    after the log files are made; with a snapshot, the handlers that boot a kernel
    are replaced by loading it), and making it leaves every handler list already in
    use, the default lists included, as it was. *)
Theorem NewMachine_lists cfg snapshot s o w w' h h' :
  growslice 0 1 = 1 → default_lists (heap_ w) →
  (∀ j, JailerCfg cfg = Some j → ChrootStrategy j = Some (naive_adapter s)) →
  NewMachine cfg (snapshot_options snapshot) o w h = (Val None, w', h') →
  let snapshotted := bool_decide (is_Some snapshot) in
  has_lists (heap_ w) w' (validation_list (is_jailed cfg) snapshotted) (fcinit_list (is_jailed cfg) s snapshotted).
Proof. intros Hg Hdef Hs. by apply (NewMachine_makes cfg []). Qed.

(** ** Sharing between machines *)

(** [m.Handlers.FcInit = m.Handlers.FcInit.Append(handler)] *)
Definition append_FcInit (handler : Handler HandlerFn) (w : World) : World :=
  let '(handlers, h) := update_FcInit (λ h l, Append_handlers h l [handler]) (heap_ w) (Handlers_ (machine w)) in
  mkWorld h (set_Handlers_ handlers (machine w)).

(** A machine that still has the default list. *)
Definition plain_machine (h0 : handler_heap) (w : World) : Prop :=
  ext h0 (heap_ w) ∧ FcInit (Handlers_ (machine w)) = FcInit defaultHandlers.

Lemma NewMachine_plain cfg o w w' h h' :
  growslice 0 1 = 1 → default_lists (heap_ w) → is_jailed cfg = false →
  NewMachine cfg [] o w h = (Val None, w', h') → plain_machine (heap_ w) w'.
Proof.
  intros Hg Hdef Hj Hrun.
  pose proof (NewMachine_via cfg [] (plain_machine (heap_ w)) o w h) as Hvia.
  unfold wp in Hvia at 2. rewrite Hrun in Hvia. destruct Hvia as (w1 & Hl & ->); [| |done|exact Hl].
  { intros w1 w2 [Hh Hl] [? ?]. split; congruence. }
  intros cfg1 w1 h1 Hjj Hh Hd. unfold build_command, is_jailed in *. rewrite Hjj. destruct (JailerCfg cfg); [done|].
  unfold append_validation, update_Validation. apply wp_bind, wp_modify. rewrite Hd.
  destruct (full_append (heap_ w1) (Validation defaultHandlers) [ConfigValidationHandler]) as [_ Hext];
    [by rewrite Hh; apply Hdef|by apply default_validation_full|done|].
  destruct (Append_handlers _ _ _) as [v h2]. simpl in *. apply wp_bind, wp_modify, wp_ret. intros _ _.
  split; [|done]. simpl. by rewrite <- Hh.
Qed.

Lemma Append_handlers_spare (h : handler_heap) (l : slice) (x : Handler HandlerFn) :
  slice_wf h l → len l < cap l →
  (Append_handlers h l [x]).1 = mkSlice (arr l) (off l) (len l + 1) (cap l) ∧
  refines (Append_handlers h l [x]).2 (Append_handlers h l [x]) (elems h l ++ [x]) ∧
  slice_wf (Append_handlers h l [x]).2 l ∧ elems (Append_handlers h l [x]).2 l = elems h l ∧
  (∀ t, arr t = arr l → off t = off l → len t = len l + 1 → elems (Append_handlers h l [x]).2 t = elems h l ++ [x]) ∧
  (∀ t, slice_wf h t → arr t ≠ arr l →
     slice_wf (Append_handlers h l [x]).2 t ∧ elems (Append_handlers h l [x]).2 t = elems h t).
Proof.
  intros Hl Hc. unfold Append_handlers, HandlerList_Append.
  destruct (new_slice_refines h [x]) as [[_ Hel] Hp]. destruct (new_slice h [x]) as [args h1]. simpl in *. rewrite Hel.
  destruct (Hp l Hl) as [Hl1 <-].
  pose proof (append_elems h1 l [x] Hl1) as Ha. pose proof (λ t, append_frame h1 l [x] t Hl1) as Hf.
  pose proof (λ t, append_overwrites h1 l [x] t Hl1) as Ho.
  assert ((append h1 l [x]).1 = mkSlice (arr l) (off l) (len l + 1) (cap l)) as H1.
  { unfold append. simpl. by destruct (Nat.leb_spec (len l + 1) (cap l)); [|lia]. }
  destruct (append h1 l [x]) as [l1 h2]. destruct Ha as [Hwf He].
  destruct (Hf l Hl1) as [? ?]; [unfold spared; lia|]. split_and!; try done.
  - intros t ? ? ?. apply Ho; simpl; done || lia.
  - intros t Ht Hne. destruct (Hp t Ht) as [Ht1 <-]. apply Hf; [done|unfold spared; auto].
Qed.

Lemma default_FcInit_capacity :
  len (FcInit defaultHandlers) = 11 ∧ cap (FcInit defaultHandlers) = growslice 0 11 ∧
  arr (Validation defaultHandlers) ≠ arr (FcInit defaultHandlers).
Proof. vm_compute. done. Qed.

(** C36. Handlers that two machines without a jailer append can end up in one place:
    where the run time gives the default list of eleven handlers spare capacity, a
    handler appended to the list of a second machine replaces the one appended to
    the list of the first. *)
Theorem FcInit_Append_shared cfg1 cfg2 x y o w w1 w2 h h1 h2 :
  growslice 0 1 = 1 → 11 < growslice 0 11 →
  default_lists (heap_ w) → is_jailed cfg1 = false → is_jailed cfg2 = false →
  NewMachine cfg1 [] o w h = (Val None, w1, h1) →
  let first := append_FcInit x w1 in
  NewMachine cfg2 [] o first h1 = (Val None, w2, h2) →
  let second := append_FcInit y w2 in
  let l := FcInit (Handlers_ (machine first)) in
  elems (heap_ first) l = defaultFcInitHandlerList ++ [x] ∧
  elems (heap_ second) l = defaultFcInitHandlerList ++ [y].
Proof.
  intros Hg Hc Hdef Hj1 Hj2 Hn1. cbv zeta. apply NewMachine_plain in Hn1 as [Hext1 Hl1]; [|done..].
  destruct default_FcInit_capacity as (Hlen & Hcap & Hne).
  pose proof (default_lists_ext _ _ Hext1 Hdef) as [Hv Hve Hf Hfe].
  destruct (Append_handlers_spare (heap_ w1) (FcInit defaultHandlers) x) as (Hs & [Hwf1 He] & Hwf & Hel & _ & Hother);
    [done|lia|].
  destruct (Hother _ Hv Hne) as [Hv' Hve']. rewrite Hve in Hve'. rewrite Hfe in Hel, He.
  unfold append_FcInit, update_FcInit. rewrite Hl1.
  destruct (Append_handlers (heap_ w1) (FcInit defaultHandlers) [x]) as [l1 h1'] eqn:Ha. simpl in *. subst l1.
  intros Hn2. split; [exact He|]. apply NewMachine_plain in Hn2 as [Hext2 Hl2]; [|done|by constructor|done].
  simpl in Hext2. destruct (proj2 Hext2 _ Hwf) as [Hwf2 Hel2].
  destruct (Append_handlers_spare (heap_ w2) (FcInit defaultHandlers) y) as (_ & _ & _ & _ & Hover & _); [done|lia|].
  rewrite Hl2.
  destruct (Append_handlers (heap_ w2) (FcInit defaultHandlers) [y]) as [l2 h2'] eqn:Ha2. simpl in *.
  rewrite Hover by done. by rewrite Hel2, Hel.
Qed.
End create.

Module Examples.
Definition snapshot : option (string * string * list WithSnapshotOpt) := Some ("/mem", "/snap", []).

Lemma NewMachine_lists_witness :
  let w' := after (NewMachine jailed_config (snapshot_options snapshot)) sample_host initial_world in
  elems (heap_ w') (FcInit (Handlers_ (machine w'))) =
    [SetupNetworkHandler; StartVMMHandler; CreateLogFilesHandler; LinkFilesHandler "vmlinux";
     BootstrapLoggingHandler; AddVsocksHandler; LoadSnapshotHandler].
Proof.
  intros w'. assert (growslice 0 1 = 1) as Hg by reflexivity.
  assert (NewMachine jailed_config (snapshot_options snapshot) sample_host initial_world [] =
    (Val None, w', (NewMachine jailed_config (snapshot_options snapshot) sample_host initial_world []).2)) as Hrun
    by (unfold w'; apply run_after; vm_compute; reflexivity).
  assert (∀ j, JailerCfg jailed_config = Some j →
    ChrootStrategy j = Some (naive_adapter (NewNaiveChrootStrategy "/vmlinux"))) as Hj by (intros j [= <-]; reflexivity).
  rewrite (lists_fcinit _ _ _ _ (NewMachine_lists jailed_config snapshot (NewNaiveChrootStrategy "/vmlinux") sample_host
    initial_world w' [] _ Hg init_default_lists Hj Hrun)).
  vm_compute. reflexivity.
Defined.

(** The default list gets an array for twelve handlers. *)
#[local] Instance twelve : Growth.
Proof. refine {| growslice c n := if decide (n = 11) then 12 else n |}. intros. case_decide; lia. Defined.

Definition lists_world : World := mkWorld init_defaultHandlers.2 new_machine.

Lemma FcInit_Append_shared_witness :
  let x := NewSetMetadataHandler None in
  let y := NewCreateBalloonHandler 64 true 0 in
  let first := append_FcInit x (after (NewMachine sample_config []) sample_host lists_world) in
  let second := append_FcInit y (after (NewMachine sample_config []) sample_host first) in
  elems (heap_ second) (FcInit (Handlers_ (machine first))) = defaultFcInitHandlerList ++ [y].
Proof.
  intros x y first second. assert (growslice 0 1 = 1) as Hg by reflexivity.
  assert (NewMachine sample_config [] sample_host lists_world [] =
    (Val None, after (NewMachine sample_config []) sample_host lists_world,
     (NewMachine sample_config [] sample_host lists_world []).2)) as Hrun1
    by (apply run_after; vm_compute; reflexivity).
  assert (NewMachine sample_config [] sample_host first (NewMachine sample_config [] sample_host lists_world []).2 =
    (Val None, after (NewMachine sample_config []) sample_host first,
     (NewMachine sample_config [] sample_host first (NewMachine sample_config [] sample_host lists_world []).2).2)) as Hrun2.
  { vm_compute. reflexivity. }
  refine (proj2 (FcInit_Append_shared sample_config sample_config x y sample_host lists_world _ _ [] _ _
    Hg _ init_default_lists eq_refl eq_refl Hrun1 Hrun2)).
  vm_compute. lia.
Defined.
End Examples.
