(* ===== verification/JailFacts.v ===== *)
(** * The command and the files of a machine (src/machine.go, src/jailer.go)

    The command [NewMachine] builds, read back with the option grammar of the
    program it runs; when the jailer's settings make it panic; where
    [LinkFilesHandler] puts the files of a jailed machine; and the kernel
    arguments of a machine with a static address. *)

From stdpp Require Import gmap strings list.
From Stdlib Require Import ZArith Lia Ascii.
From S2P Require Import Prelude GoStrings KernelArgs Models ApiParams Slices Handlers Builders Commands Vmconf Client Netlink Sys Network Config MachineApi Vmm Machine Concrete.

Open Scope string_scope.
Open Scope Z_scope.
Open Scope list_scope.

Section command.
Context `{Growth} `{DefaultTimeout}.
Implicit Types (cfg : Config) (o : Oracle Sys) (w : World).

(** What the command line of a jailed machine says to the jailer, and after [--]
    to Firecracker. *)
Definition jailer_options_of cfg (j : JailerConfig) (uid gid node : Z) (cpulist : option string) : jailer_options :=
  let cpus := match cpulist with Some s => strings_TrimSuffix s (String "010"%char "") | None => "" end in
  mkJailerOptions
    ([("--id", Jailer_ID j); ("--uid", strconv_Itoa uid); ("--gid", strconv_Itoa gid); ("--exec-file", ExecFile j)] ++
     (if nonempty cpus then
        [("--cgroup", "cpuset.mems=" +:+ strconv_Itoa node); ("--cgroup", "cpuset.cpus=" +:+ cpus)]
      else []) ++
     (("--cgroup",.) <$> CgroupArgs j) ++
     when_set "--cgroup-version" (CgroupVersion j) ++
     when_set "--parent-cgroup" (ParentCgroup j) ++
     when_set "--chroot-base-dir" (ChrootBaseDir j) ++
     when_set "--netns" (NetNS cfg))
    (Daemonize j)
    (seccompArgs cfg ++ ["--api-sock"; nonempty_or (SocketPath cfg) defaultSocketPath]).

(** The command of a machine for a configuration, and the socket of its API on the
    host. *)
Definition command_for cfg (vmid : string) (cmd : Cmd) (socket : string) : Prop :=
  match JailerCfg cfg with
  | None =>
      socket = SocketPath cfg ∧
      Cmd_Args cmd = defaultFcBin :: (if (SocketPath cfg =? "")%string then [] else ["--api-sock"; SocketPath cfg]) ++
                     ["--id"; vmid] ++ seccompArgs cfg
  | Some j =>
      socket = filepath_Join [jailerWorkspaceDir j; nonempty_or (SocketPath cfg) defaultSocketPath] ∧
      ∃ args uid gid node cpulist,
        UID j = Some uid ∧ GID j = Some gid ∧ NumaNode j = Some node ∧
        Cmd_Args cmd = nonempty_or (JailerBinary j) defaultJailerBin :: args ∧
        parse_jailer args = Some (jailer_options_of cfg j uid gid node cpulist)
  end.

Lemma J_Build_Args ReadFile b :
  Cmd_Args (J_Build ReadFile b) = J_Bin b :: J_Args ReadFile b.
Proof. unfold J_Build. by destruct (J_Stdin b), (J_Stdout b), (J_Stderr b). Qed.

Lemma jail_builder_options cfg j uid gid node socket cpulist :
  J_options (λ _, cpulist) (jail_builder cfg j uid gid node socket) =
    mkJailerOptions (opt_values (jailer_options_of cfg j uid gid node cpulist)) (Daemonize j)
      (seccompArgs cfg ++ ["--api-sock"; socket]) ∧
  J_Bin (jail_builder cfg j uid gid node socket) = nonempty_or (JailerBinary j) defaultJailerBin.
Proof.
  unfold jail_builder, J_options, jailer_options_of, getNumaCpuset, when_set, nonempty_or, nonempty.
  destruct (JailerBinary j) as [|? ?] eqn:Hb, (NetNS cfg) as [|? ?] eqn:Hn, (Jailer_Stdin j);
    cbn; rewrite ?Hb, ?Hn; done.
Qed.

Lemma with_vmid_cfg cfg o w h :
  wp (with_vmid cfg) (λ r w' _, w' = w ∧ ∀ cfg1, r = Val (inr cfg1) → cfg1 = set_VMID (VMID cfg1) cfg) o w h.
Proof.
  unfold with_vmid. case_match.
  - apply wp_bind, wp_call. destruct (o h _ UuidNewRandom); apply wp_ret; split; try done. by intros ? [= <-].
  - apply wp_ret. split; [done|]. intros ? [= <-]. by destruct cfg.
Qed.

(** What [build_command] leaves, from a machine without a client. *)
Record commanded cfg (cfg1 cfg2 : Config) (w : World) : Prop := {
  commanded_cfg : cfg2 = set_SocketPath (SocketPath cfg2) cfg1;
  commanded_client : client (machine w) = None;
  commanded_cmd : ∃ c, cmd (machine w) = Some c ∧ command_for cfg (VMID cfg1) c (SocketPath cfg2)
}.

Lemma jail_commanded cfg vmid o w h :
  client (machine w) = None → is_Some (JailerCfg cfg) →
  wp (jail (set_VMID vmid cfg)) (λ r w' _, ∀ cfg2, r = Val (inr cfg2) → commanded cfg (set_VMID vmid cfg) cfg2 w') o w h.
Proof.
  intros Hcl [j Hj]. unfold jail. simpl. rewrite Hj. apply wp_bind, wp_ret, wp_bind.
  destruct (UID j) as [uid|] eqn:Huid; [apply wp_ret, wp_bind|by apply wp_panic].
  destruct (GID j) as [gid|] eqn:Hgid; [apply wp_ret, wp_bind|by apply wp_panic].
  destruct (NumaNode j) as [node|] eqn:Hnode; [apply wp_ret|by apply wp_panic].
  apply wp_bind, wp_call, wp_bind, wp_modify, wp_bind.
  set (cpulist := o h _ (OsReadFile _)). set (b := jail_builder _ _ _ _ _ _).
  destruct (ChrootStrategy j) as [strategy|]; [apply wp_ret, wp_bind, wp_get|by apply wp_panic].
  simpl. destruct (AdaptHandlers strategy _ _) as [[err hs] h']. apply wp_bind, wp_put, wp_ret.
  intros cfg2 Hr. destruct err; [done|]. injection Hr as <-. constructor; [by destruct cfg|done|].
  exists (J_Build (λ _, cpulist) b). split; [done|]. unfold command_for. rewrite Hj. split; [done|].
  destruct (jail_builder_options (set_SocketPath (filepath_Join [jailerWorkspaceDir j; nonempty_or (SocketPath cfg) defaultSocketPath])
    (set_VMID vmid cfg)) j uid gid node (nonempty_or (SocketPath cfg) defaultSocketPath) cpulist) as [Hopt Hbin].
  exists (J_Args (λ _, cpulist) b), uid, gid, node, cpulist. split_and!; [done..| |].
  - rewrite J_Build_Args. f_equal. exact Hbin.
  - rewrite parse_J_Args. f_equal. exact Hopt.
Qed.

Lemma build_command_commanded cfg vmid o w h :
  client (machine w) = None →
  wp (build_command (set_VMID vmid cfg))
    (λ r w' _, ∀ cfg2, r = Val (inr cfg2) → commanded cfg (set_VMID vmid cfg) cfg2 w') o w h.
Proof.
  intros Hcl. unfold build_command. simpl. destruct (JailerCfg cfg) as [j|] eqn:Hj.
  - apply wp_bind, wp_modify. eapply jail_commanded; [|by eexists]. by destruct (update_Validation _ _ _).
  - apply wp_bind, wp_modify, wp_bind, wp_modify, wp_ret. intros cfg2 [= <-].
    destruct (update_Validation _ _ _) as [hs h']. constructor; [by destruct cfg|done|].
    eexists. split; [reflexivity|]. unfold command_for. rewrite Hj. split; [done|].
    unfold configureBuilder. rewrite VM_Build_spec. simpl.
    destruct (seccompArgs (set_VMID vmid cfg)) eqn:Hs; unfold seccompArgs in *; simpl in *; rewrite Hs; done.
Qed.

(** The network namespace of a machine: the configured one, or the default one of
    its identifier when there is a CNI interface. *)
Definition netns_for cfg (vmid : string) : string :=
  if (NetNS cfg =? "")%string && bool_decide (is_Some (cniInterface (Cfg_NetworkInterfaces cfg)))
  then filepath_Join [defaultNetNSDir; vmid] else NetNS cfg.

(** C18. The command of a new machine says exactly what its configuration asks for:
    Firecracker gets the socket, the identifier and the seccomp options; the jailer
    reads back its own options, the CPU list of the node, the namespace and the
    arguments for Firecracker, whose socket is the client's, seen from inside the
    chroot.  The jailer is told the configured namespace, the empty one too, even
    when the machine then uses a default namespace. *)
Theorem NewMachine_command cfg o w w' h h' :
  NewMachine cfg [] o w h = (Val None, w', h') →
  let m := machine w' in
  SocketPath (Cfg m) = match JailerCfg cfg with
    | Some j => filepath_Join [jailerWorkspaceDir j; nonempty_or (SocketPath cfg) defaultSocketPath]
    | None => SocketPath cfg end ∧
  Client_Operations <$> client m = Some (operations_at (SocketPath (Cfg m))) ∧
  NetNS (Cfg m) = netns_for cfg (VMID (Cfg m)) ∧
  ∃ c, cmd m = Some c ∧ command_for cfg (VMID (Cfg m)) c (SocketPath (Cfg m)).
Proof.
  intros Hrun. cbv zeta.
  enough (wp (NewMachine cfg []) (λ r w' _, r = Val None → ∃ cfg1 cfg2 w2 client, cfg1 = set_VMID (VMID cfg1) cfg ∧
    commanded cfg cfg1 cfg2 w2 ∧ Client_Operations client = operations_at (SocketPath cfg2) ∧
    Cfg (machine w') = set_NetNS (netns_for cfg (VMID cfg1)) (set_ForwardSignals (ForwardSignals (Cfg (machine w'))) cfg2) ∧
    cmd (machine w') = cmd (machine w2) ∧ Config.client (machine w') = Some client) o w h) as Hwp.
  { unfold wp in Hwp. rewrite Hrun in Hwp.
    destruct (Hwp eq_refl) as (cfg1 & cfg2 & w2 & c & Hid & [Hc2 _ (cm & Hcm & Hfor)] & Hc & Hcfg & Hcmd & ->).
    rewrite Hcfg, Hcmd, Hcm. simpl. rewrite Hc2. simpl. rewrite Hc. split; [|split; [done|split; [done|by exists cm]]].
    unfold command_for in Hfor. by destruct (JailerCfg cfg), Hfor. }
  unfold NewMachine. apply wp_bind, wp_modify, wp_bind. eapply wp_mono; [apply with_vmid_cfg|].
  intros r w1 h1 [-> Hid]. destruct r as [[e|cfg1]| |]; [by apply wp_ret| |done..]. specialize (Hid _ eq_refl).
  apply wp_bind, wp_modify, wp_bind. rewrite Hid. eapply wp_mono; [by apply build_command_commanded|].
  rewrite <- Hid. intros [[e|cfg2]| |] w2 h2 Hcmd; [by apply wp_ret| |done..]. specialize (Hcmd _ eq_refl).
  apply wp_bind. unfold finish_machine, get_machine. apply wp_bind, wp_bind, wp_get, wp_ret.
  rewrite (commanded_client _ _ _ _ Hcmd).
  apply wp_bind, wp_bind. unfold NewClient, envValueOrDefaultInt, modify_machine.
  apply wp_bind, wp_bind, wp_call, wp_ret, wp_bind, wp_bind, wp_call, wp_ret, wp_ret, wp_modify, wp_bind, wp_modify.
  set (c := mkClient _ _ _). destruct Hcmd as [Hc2 Hcl Hcm].
  assert (NetNS cfg2 = NetNS cfg ∧ Cfg_NetworkInterfaces cfg2 = Cfg_NetworkInterfaces cfg ∧ VMID cfg2 = VMID cfg1)
    as (Hn & Hi & Hv) by (rewrite Hc2, Hid; done).
  assert (∃ fs, match ForwardSignals cfg2 with None => set_ForwardSignals (Some defaultForwardSignals) cfg2
                | Some _ => cfg2 end = set_ForwardSignals fs cfg2) as [fs ->].
  { destruct (ForwardSignals cfg2) eqn:Hfs; [|by eexists]. exists (ForwardSignals cfg2). by destruct cfg2. }
  cbv zeta. cbn [NetNS Cfg_NetworkInterfaces set_ForwardSignals]. apply wp_bind. rewrite Hn, Hi.
  assert (∀ fs', set_NetNS (NetNS cfg) (set_ForwardSignals fs' cfg2) = set_ForwardSignals fs' cfg2) as Hnn
    by (intros; rewrite <- Hn; by destruct cfg2).
  destruct ((NetNS cfg =? "")%string && _) eqn:Hb; [apply wp_modify|apply wp_ret]; apply wp_modify, wp_ret; intros _.
  all: exists cfg1, cfg2, w2, c; split; [done|]; split; [by constructor|]; split; [done|].
  all: unfold netns_for; rewrite Hb; split; [|done]; simpl.
  - unfold defaultNetNSPath. simpl. by rewrite Hv.
  - by rewrite Hnn.
Qed.
End command.

(** ** The jailer's settings *)
Section jailer.
Context `{Growth}.
Implicit Types (cfg : Config) (j : JailerConfig) (o : Oracle Sys) (w : World).

(** The settings [jail] dereferences. *)
Definition incomplete j : Prop :=
  UID j = None ∨ GID j = None ∨ NumaNode j = None ∨ ChrootStrategy j = None.

(** A jailer configuration without user, group, NUMA node or chroot strategy
    makes [jail], so [NewMachine], panic, and nothing else does; the handler that
    would report each of these as an error runs only later, in [Start]. *)
Theorem jail_panics cfg j o w h :
  JailerCfg cfg = Some j →
  (is_panic (jail cfg o w h).1.1 ↔ incomplete j) ∧ (incomplete j → validate_jailer cfg ≠ None).
Proof.
  intros Hj. split.
  - unfold jail, incomplete. rewrite Hj. unfold modify_machine. run_unfold. unfold is_panic.
    simpl. destruct (UID j), (GID j), (NumaNode j), (ChrootStrategy j); simpl;
      try (split; [auto|intros _; by eexists]).
    case_match; simpl. case_match; simpl. split; [by intros [? ?]|naive_solver].
  - unfold validate_jailer, incomplete. rewrite Hj. intros Hi. case_match; [done|].
    destruct (ChrootStrategy j); [|done]. repeat (case_match; [done|]).
    destruct (GID j), (UID j), (NumaNode j); naive_solver.
Qed.

(** ** Linking files into the chroot *)

Definition linked rootfs (file name : string) : event Sys :=
  Event (OsLink file (filepath_Join [rootfs; name])) None.

Definition base_or_empty (s : string) : string := if (s =? "")%string then "" else filepath_Base s.

Definition linked_file rootfs (file : string) : list (event Sys) :=
  if (file =? "")%string then [] else [linked rootfs file (filepath_Base file)].

Definition drive_path (d : Drive) : string := StringValue (Drive_PathOnHost d).

Definition linked_drive rootfs (d : Drive) : event Sys := linked rootfs (drive_path d) (filepath_Base (drive_path d)).

(** A drive as the jailed Firecracker sees it. *)
Definition chrooted_drive (d : Drive) : Drive :=
  mkDrive (Drive_CacheType d) (Drive_DriveID d) (Drive_IoEngine d) (Drive_IsReadOnly d) (Drive_IsRootDevice d)
    (Drive_Partuuid d) (String_ (filepath_Base (drive_path d))) (Drive_RateLimiter d).

Definition linked_fifo rootfs (j : JailerConfig) (fifo : string) : list (event Sys) :=
  if (fifo =? "")%string then []
  else [linked rootfs fifo (filepath_Base fifo);
        Event (OsChown (filepath_Join [rootfs; filepath_Base fifo]) (default 0 (UID j)) (default 0 (GID j))) None].

(** The configuration with every path relative to the chroot. *)
Definition chrooted (name : string) cfg : Config :=
  set_MetricsFifo (base_or_empty (MetricsFifo cfg))
    (set_LogFifo (base_or_empty (LogFifo cfg))
       (set_InitrdPath (base_or_empty (InitrdPath cfg))
          (set_KernelImagePath name (set_Drives (chrooted_drive <$> Drives cfg) cfg)))).

Definition with_cfg (cfg : Config) (w : World) : World := mkWorld (heap_ w) (set_Cfg cfg (machine w)).

Lemma with_cfg_id w : with_cfg (Cfg (machine w)) w = w.
Proof. by destruct w as [? []]. Qed.

Lemma link_drives_wp rootfs pre drives o w h :
  Drives (Cfg (machine w)) = pre ++ drives →
  wp (link_drives rootfs (length pre) drives) (λ r w' h', r = Val None →
    w' = with_cfg (set_Drives (pre ++ (chrooted_drive <$> drives)) (Cfg (machine w))) w ∧
    h' = h ++ (linked_drive rootfs <$> drives)) o w h.
Proof.
  revert pre w h. induction drives as [|d drives IH]; intros pre w h Hd; cbn [link_drives].
  { apply wp_ret. intros _. simpl. rewrite !app_nil_r in *. split; [|done]. rewrite <- Hd.
    by destruct w as [? [? []]]. }
  apply wp_bind. unfold link_into. apply wp_call. destruct (o h _ (OsLink _ _)) as [e|] eqn:He; [by apply wp_ret|].
  unfold modify_cfg, modify_machine. apply wp_bind, wp_modify.
  set (w1 := mkWorld _ _).
  assert (Drives (Cfg (machine w1)) = (pre ++ [chrooted_drive d]) ++ drives) as Hd1.
  { unfold w1. simpl. rewrite Hd, alter_app_r_alt, Nat.sub_diag by done. simpl. by rewrite <- app_assoc. }
  specialize (IH _ _ (h ++ [linked_drive rootfs d]) Hd1). rewrite length_app, Nat.add_1_r in IH.
  eapply wp_mono; [exact IH|]. intros r w' h' Hr Hv. destruct (Hr Hv) as [-> ->]. clear Hr.
  split; [|by rewrite <- app_assoc]. unfold w1, with_cfg. simpl. by rewrite <- app_assoc.
Qed.

Lemma link_fifo_wp rootfs j fifo set_fifo o w h :
  (∀ c, fifo c = "" → set_fifo "" c = c) →
  wp (link_fifo rootfs j fifo set_fifo) (λ r w' h', r = Val None →
    w' = with_cfg (set_fifo (base_or_empty (fifo (Cfg (machine w)))) (Cfg (machine w))) w ∧
    h' = h ++ linked_fifo rootfs j (fifo (Cfg (machine w)))) o w h.
Proof.
  intros Hid. unfold link_fifo, get_cfg, get_machine, base_or_empty, linked_fifo.
  apply wp_bind, wp_bind, wp_bind, wp_get, wp_ret, wp_ret.
  destruct (String.eqb_spec (fifo (Cfg (machine w))) "") as [Hf|Hf].
  { apply wp_ret. intros _. by rewrite Hid, with_cfg_id, app_nil_r. }
  unfold link_into. apply wp_bind, wp_call. destruct (o h _ (OsLink _ _)); [by apply wp_ret|].
  apply wp_bind. destruct (UID j) as [uid|]; [apply wp_ret, wp_bind|by apply wp_panic].
  destruct (GID j) as [gid|]; [apply wp_ret, wp_bind, wp_call|by apply wp_panic].
  destruct (o _ _ (OsChown _ _ _)); [by apply wp_ret|]. apply wp_bind, wp_modify, wp_ret. intros _.
  split; [done|]. by rewrite <- app_assoc.
Qed.

Lemma link_initrd_wp rootfs path o w h :
  wp (if (path =? "")%string then go_ret None
      else link_into rootfs path (if (path =? "")%string then "" else filepath_Base path))
    (λ r w' h', r = Val None → w' = w ∧ h' = h ++ linked_file rootfs path) o w h.
Proof.
  unfold linked_file, link_into. destruct (path =? "")%string.
  - apply wp_ret. by rewrite app_nil_r.
  - apply wp_call. destruct (o h _ (OsLink _ _)) eqn:Ho; [done|]. by intros _.
Qed.

Lemma set_InitrdPath_same c : InitrdPath c = "" → set_InitrdPath "" c = c.
Proof. destruct c. unfold set_InitrdPath. simpl. by intros ->. Qed.
Lemma set_LogFifo_same c : LogFifo c = "" → set_LogFifo "" c = c.
Proof. destruct c. unfold set_LogFifo. simpl. by intros ->. Qed.
Lemma set_MetricsFifo_same c : MetricsFifo c = "" → set_MetricsFifo "" c = c.
Proof. destruct c. unfold set_MetricsFifo. simpl. by intros ->. Qed.

Lemma set_initrd_wp cfg o w h :
  wp (if (InitrdPath cfg =? "")%string then go_ret tt
      else modify_cfg (set_InitrdPath (if (InitrdPath cfg =? "")%string then "" else filepath_Base (InitrdPath cfg))))
    (λ r w' h', InitrdPath (Cfg (machine w)) = InitrdPath cfg →
       r = Val tt ∧ h' = h ∧ w' = with_cfg (set_InitrdPath (base_or_empty (InitrdPath cfg)) (Cfg (machine w))) w) o w h.
Proof.
  unfold base_or_empty, modify_cfg, modify_machine. destruct (String.eqb_spec (InitrdPath cfg) "") as [He|He].
  - apply wp_ret. intros Hi. split; [done|]. split; [done|].
    rewrite set_InitrdPath_same, with_cfg_id; congruence.
  - apply wp_modify. done.
Qed.

(** C20. [LinkFilesHandler] that succeeds has hard-linked into its [rootfs], in order,
    the kernel, the initrd if any, every drive and the fifos in use, which now
    belong to the jailed user, and nothing else; the configuration sent to the
    jailed Firecracker names each of them as it is called there.  This [rootfs] is
    the chroot of the jailer when the configuration names a base directory.  When it
    leaves the base directory to its default, the chroot is under [/srv/jailer], and
    the links are made in a directory relative to the current one instead. *)
Theorem linkFiles_chroot name cfg j o w w' h h' :
  Cfg (machine w) = cfg → JailerCfg cfg = Some j →
  linkFiles name o w h = (Val None, w', h') →
  let rootfs := link_rootfs j in
  w' = with_cfg (chrooted name cfg) w ∧
  h' = h ++ [linked rootfs (KernelImagePath cfg) name] ++ linked_file rootfs (InitrdPath cfg) ++
       (linked_drive rootfs <$> Drives cfg) ++ linked_fifo rootfs j (LogFifo cfg) ++
       linked_fifo rootfs j (MetricsFifo cfg) ∧
  (if (ChrootBaseDir j =? "")%string
   then rootfs = filepath_Join [filepath_Base (ExecFile j); Jailer_ID j; "root"] ∧
        jailerWorkspaceDir j = filepath_Join ["/srv/jailer"; filepath_Base (ExecFile j); Jailer_ID j; "root"]
   else rootfs = jailerWorkspaceDir j).
Proof.
  intros Hcfg Hj Hrun. cbv zeta.
  enough (wp (linkFiles name) (λ r w' h', r = Val None → w' = with_cfg (chrooted name cfg) w ∧
    h' = h ++ [linked (link_rootfs j) (KernelImagePath cfg) name] ++ linked_file (link_rootfs j) (InitrdPath cfg) ++
       (linked_drive (link_rootfs j) <$> Drives cfg) ++ linked_fifo (link_rootfs j) j (LogFifo cfg) ++
       linked_fifo (link_rootfs j) j (MetricsFifo cfg)) o w h) as Hwp.
  { unfold wp in Hwp. rewrite Hrun in Hwp. destruct (Hwp eq_refl) as [-> ->]. split; [done|]. split; [done|].
    unfold link_rootfs, jailerWorkspaceDir. destruct (String.eqb_spec (ChrootBaseDir j) "") as [Hb|]; [|done].
    by rewrite Hb. }
  clear Hrun. unfold linkFiles, get_cfg, get_machine. apply wp_bind, wp_bind, wp_bind, wp_get, wp_ret, wp_ret.
  rewrite Hcfg, Hj. unfold link_into at 1. apply wp_bind, wp_call. destruct (o h _ (OsLink _ _)); [by apply wp_ret|].
  apply wp_bind. eapply wp_mono; [apply link_initrd_wp|].
  intros [[e|]| |] w2 h2 Hr; [by apply wp_ret| |done..]. destruct (Hr eq_refl) as [-> ->]. clear Hr.
  apply wp_bind. eapply wp_mono; [apply (link_drives_wp (link_rootfs j) [] (Drives cfg)); by rewrite Hcfg|].
  intros [[e|]| |] w3 h3 Hr; [by apply wp_ret| |done..]. destruct (Hr eq_refl) as [-> ->]. clear Hr.
  unfold modify_cfg, modify_machine. apply wp_bind, wp_modify, wp_bind. rewrite Hcfg.
  eapply wp_mono; [apply set_initrd_wp|]. intros r w4 h4 Hr. destruct Hr as (-> & -> & ->); [done|].
  apply wp_bind. eapply wp_mono; [apply link_fifo_wp, set_LogFifo_same|].
  intros [[e|]| |] w5 h5 Hr; [by apply wp_ret| |done..]. destruct (Hr eq_refl) as [-> ->]. clear Hr.
  eapply wp_mono; [apply link_fifo_wp, set_MetricsFifo_same|].
  intros r w6 h6 Hr Hv. destruct (Hr Hv) as [-> ->]. split; [done|]. simpl. by rewrite <- !app_assoc.
Qed.
End jailer.

(** ** Kernel arguments *)
Section kernel_args.
Implicit Types (o : Oracle Sys) (w : World).

(** The [ip=] parameter of a machine with a static address. *)
Definition boot_ip cfg (param : string) : Prop :=
  ∃ i iface static ip,
    staticIPInterface (Cfg_NetworkInterfaces cfg) = Some i ∧ Cfg_NetworkInterfaces cfg !! i = Some iface ∧
    StaticConfiguration iface = Some static ∧ IPConfiguration_ static = Some ip ∧
    IPBootParam (mkStaticNetworkConf "" "" (IP_IfName ip) "" 0 (Some (mkIPConfig None (IPAddr ip) (Gateway ip)))
      [] (Nameservers ip) "" [] []) = Val param.

(** C31. [setupKernelArgs] never fails and changes only the kernel arguments: read
    back, they are the configured ones, with [ip=] set to the boot parameter of the
    static interface if there is one (whatever order the map is printed in, and
    provided the names in the parameter hold no white space). *)
Theorem setupKernelArgs_args o w w' err h h' :
  setupKernelArgs o w h = (Val err, w', h') →
  let cfg := Cfg (machine w) in
  let args := KernelArgs_ (Cfg (machine w')) in
  err = None ∧ w' = with_cfg (set_KernelArgs_ args cfg) w ∧
  match staticIPInterface (Cfg_NetworkInterfaces cfg) with
  | None => parseKernelArgs args = parseKernelArgs (KernelArgs_ cfg)
  | Some _ => ∃ param, boot_ip cfg param ∧
      (is_field ("ip=" +:+ param) →
       parseKernelArgs args = <["ip" := Some param]> (parseKernelArgs (KernelArgs_ cfg)))
  end.
Proof.
  intros Hrun. cbv zeta. set (cfg := Cfg (machine w)).
  enough (wp setupKernelArgs (λ r w' h', ∀ err, r = Val err → err = None ∧ ∃ kargs order,
    iteration_order kargs order ∧ w' = with_cfg (set_KernelArgs_ (kernelArgs_String order) cfg) w ∧
    match staticIPInterface (Cfg_NetworkInterfaces cfg) with
    | None => kargs = parseKernelArgs (KernelArgs_ cfg)
    | Some _ => ∃ param, boot_ip cfg param ∧ kargs = <["ip" := Some param]> (parseKernelArgs (KernelArgs_ cfg))
    end) o w h) as Hwp.
  { unfold wp in Hwp. rewrite Hrun in Hwp. destruct (Hwp _ eq_refl) as (-> & kargs & order & Hord & -> & Hk).
    split; [done|]. simpl. split; [done|]. pose proof (parseKernelArgs_ok (KernelArgs_ cfg)) as Hok.
    destruct (staticIPInterface _).
    - destruct Hk as (param & Hip & ->). exists param. split; [done|]. intros Hf.
      apply parse_String_order; [|done]. apply map_Forall_insert_2; [|done]. by split.
    - subst kargs. by apply parse_String_order. }
  unfold setupKernelArgs, get_cfg, get_machine. apply wp_bind, wp_bind, wp_bind, wp_get, wp_ret, wp_ret.
  fold cfg. apply wp_bind. destruct (staticIPInterface (Cfg_NetworkInterfaces cfg)) as [i|] eqn:Hi.
  - apply wp_bind. destruct (Cfg_NetworkInterfaces cfg !! i) as [iface|] eqn:Hiface; [apply wp_ret, wp_bind|by apply wp_panic].
    destruct (StaticConfiguration iface) as [static|] eqn:Hst; [apply wp_ret, wp_bind|by apply wp_panic].
    destruct (IPConfiguration_ static) as [ip|] eqn:Hip; [apply wp_ret, wp_bind|by apply wp_panic].
    unfold ipBootParam. apply wp_lift. destruct (IPBootParam _) as [param| |] eqn:Hp; [|done..].
    apply wp_ret, wp_bind, wp_call. destruct (o h _ (MapRange _)) as [order Hord]. unfold modify_cfg, modify_machine.
    apply wp_bind, wp_modify, wp_ret. intros err' [= <-]. split; [done|]. do 2 eexists. split; [exact Hord|].
    split; [done|]. exists param. split; [|done]. by exists i, iface, static, ip.
  - apply wp_ret, wp_bind, wp_call. destruct (o h _ (MapRange _)) as [order Hord]. unfold modify_cfg, modify_machine.
    apply wp_bind, wp_modify, wp_ret. intros err' [= <-]. split; [done|]. do 2 eexists. split; [exact Hord|]. done.
Qed.
End kernel_args.

Module Examples.
Definition jailed : World := after (NewMachine jailed_config []) sample_host initial_world.

Lemma NewMachine_command_witness :
  SocketPath (Cfg (machine jailed)) = "/jail/firecracker/vm/root/fc.sock" ∧
  NetNS (Cfg (machine jailed)) = "/var/run/netns/vm" ∧
  ∃ c, cmd (machine jailed) = Some c ∧ command_for jailed_config "vm" c "/jail/firecracker/vm/root/fc.sock".
Proof.
  assert (NewMachine jailed_config [] sample_host initial_world [] =
    (Val None, jailed, (NewMachine jailed_config [] sample_host initial_world []).2)) as Hrun
    by (unfold jailed; apply run_after; vm_compute; reflexivity).
  destruct (NewMachine_command jailed_config sample_host initial_world jailed [] _ Hrun) as (Hs & _ & Hn & Hc).
  assert (SocketPath (Cfg (machine jailed)) = "/jail/firecracker/vm/root/fc.sock") as Hs'
    by (rewrite Hs; vm_compute; reflexivity).
  assert (VMID (Cfg (machine jailed)) = "vm") as Hid by (vm_compute; reflexivity).
  split; [exact Hs'|]. rewrite Hn, Hid. split; [vm_compute; reflexivity|]. rewrite <- Hs', <- Hid. exact Hc.
Defined.

(** Without a NUMA node, [NewMachine] panics. *)
Lemma jail_panics_witness :
  let j := mkJailerConfig (Some 123) (Some 100) "vm" None "/bin/firecracker" "" "/jail" false None "2" [] "" None None None in
  let cfg := mkConfig "" "" "" "" "" "" "/vmlinux" "" "" [] [] None [] zero_MachineConfiguration false (Some j) "vm" ""
    None (mkSeccompConfig false "") None "" zero_SnapshotConfig in
  is_panic (jail cfg sample_host initial_world []).1.1 ∧ validate_jailer cfg ≠ None.
Proof.
  intros j cfg. destruct (jail_panics cfg j sample_host initial_world [] eq_refl) as [Hp Hv].
  assert (incomplete j) as Hi by (right; right; left; reflexivity).
  split; [apply Hp; exact Hi | apply Hv; exact Hi].
Defined.

Lemma linkFiles_chroot_witness :
  ∃ h', (linkFiles "vmlinux" sample_host jailed []).2 = h' ∧
    h' = [linked "/jail/firecracker/vm/root" "/vmlinux" "vmlinux";
          linked "/jail/firecracker/vm/root" "/images/rootfs" "rootfs";
          linked "/jail/firecracker/vm/root" "/log.fifo" "log.fifo";
          Event (OsChown "/jail/firecracker/vm/root/log.fifo" 100 123) None].
Proof.
  eexists. split; [reflexivity|].
  assert (linkFiles "vmlinux" sample_host jailed [] =
    (Val None, after (linkFiles "vmlinux") sample_host jailed, (linkFiles "vmlinux" sample_host jailed []).2)) as Hrun
    by (apply run_after; vm_compute; reflexivity).
  destruct (linkFiles_chroot "vmlinux" (Cfg (machine jailed)) sample_jailer sample_host jailed _ [] _ eq_refl
    ltac:(vm_compute; reflexivity) Hrun) as (_ & -> & _).
  vm_compute. reflexivity.
Defined.

(** The directory the files are linked into is not the chroot of the default base directory. *)
Lemma default_chroot_missed :
  let j := mkJailerConfig (Some 123) (Some 100) "vm" (Some 0) "/bin/firecracker" "" "" false None "2" [] "" None None None in
  link_rootfs j = "firecracker/vm/root" ∧ jailerWorkspaceDir j = "/srv/jailer/firecracker/vm/root".
Proof. split; vm_compute; reflexivity. Qed.

Lemma setupKernelArgs_args_witness :
  let w := after (NewMachine static_config []) sample_host initial_world in
  parseKernelArgs (KernelArgs_ (Cfg (machine (after setupKernelArgs sample_host w)))) =
    <["ip" := Some "10.0.0.2::10.0.0.1:255.255.255.0::eth0:off:8.8.8.8::"]> (parseKernelArgs "console=ttyS0").
Proof.
  intros w.
  assert (setupKernelArgs sample_host w [] =
    (Val None, after setupKernelArgs sample_host w, (setupKernelArgs sample_host w []).2)) as Hrun
    by (apply run_after; vm_compute; reflexivity).
  destruct (setupKernelArgs_args sample_host w _ None [] _ Hrun) as (_ & _ & Hargs).
  replace (staticIPInterface (Cfg_NetworkInterfaces (Cfg (machine w)))) with (Some 0%nat) in Hargs
    by (vm_compute; reflexivity).
  destruct Hargs as (param & (i & iface & static & ip & Hi & Hl & Hst & Hip & Hp) & Hargs).
  assert (param = "10.0.0.2::10.0.0.1:255.255.255.0::eth0:off:8.8.8.8::") as ->.
  { assert (i = 0%nat) as -> by (vm_compute in Hi; congruence).
    vm_compute in Hl. injection Hl as <-. vm_compute in Hst. injection Hst as <-. vm_compute in Hip. injection Hip as <-.
    vm_compute in Hp. congruence. }
  rewrite Hargs; [vm_compute; reflexivity|]. split; [discriminate|]. vm_compute. repeat split.
Defined.
End Examples.
