(* ===== verification/Lifecycle.v ===== *)
(** * The goroutines of a started machine (src/machine.go, [startVMM])

    The caller of [startVMM], from [waitForSocket] to the return of [Start], the
    goroutine that waits for the process, the one that closes [exitCh] and the one
    that stops the VM when its context is cancelled, as a step relation over their
    program counters and the channels they share, with calls of [Shutdown] at any
    time.  Every interleaving is a run of the relation. *)

From stdpp Require Import base strings list relations.
From Stdlib Require Import ZArith Lia.
From S2P Require Import Prelude Vmm Concrete.

Open Scope string_scope.
Open Scope list_scope.

(** ** States *)

(** The caller of [Start], from [waitForSocket] on. *)
Inductive caller_pc :=
  | InSelect                  (* the select of waitForSocket *)
  | Failing (e : Err)         (* waitForSocket failed: e is its error, wrapped *)
  | FailingClose (e : Err)    (* fatalErr is set *)
  | FailingCleanup (e : Err)  (* exitCh is closed; Start runs the cleanup *)
  | Spawning                  (* waitForSocket returned nil *)
  | Configuring               (* startVMM returned nil; the handlers after it run *)
  | ConfigFailed (e : Err)    (* one of them failed; Start runs the cleanup *)
  | NotConfigured (e : Err)   (* Start returned this error; the process may run on *)
  | Returned (result : error). (* Start returned nil, or the error of startVMM *)

(** The goroutine behind [cmd.Wait]. *)
Inductive waiter_pc :=
  | Waiting                   (* in cmd.Wait *)
  | Blocked                   (* on shutdownCh *)
  | Cleaning (waitErr : error)
  | Sending (e : error)       (* on errCh *)
  | ClosingErr
  | ClosingCleanup
  | WaiterDone.

(** The goroutine that closes [exitCh]. *)
Inductive watcher_pc :=
  | NoWatcher
  | Receiving                 (* on errCh *)
  | Recording (e : error)
  | ClosingExit
  | WatcherDone.

(** The goroutine that stops the VM on cancellation. *)
Inductive stopper_pc :=
  | NoStopper
  | StopSelect
  | Signalling
  | AwaitingCleanup
  | StopperDone.

(** The channels, to say which one a second [close] panicked on. *)
Inductive channel := ErrCh | ExitCh | CleanupCh | ShutdownCh.

Record state := mkState {
  caller : caller_pc;
  waiter : waiter_pc;
  watcher : watcher_pc;
  stopper : stopper_pc;
  errCh_closed : bool;
  exitCh_closed : bool;
  cleanupCh_closed : bool;
  shutdownCh_closed : bool;
  fatal : error;
  cleanups : nat;             (* how often the cleanup functions have run *)
  shutdowns : nat;            (* how often Shutdown has been called *)
  panics : list channel       (* the panics of closing a closed channel *)
}.

(** The state when [startVMM] reaches [waitForSocket]. *)
Definition initial : state :=
  mkState InSelect Waiting NoWatcher NoStopper false false false false None 0 0 [].

Definition set_caller (v : caller_pc) (s : state) : state :=
  mkState v (waiter s) (watcher s) (stopper s) (errCh_closed s) (exitCh_closed s) (cleanupCh_closed s)
    (shutdownCh_closed s) (fatal s) (cleanups s) (shutdowns s) (panics s).
Definition set_waiter (v : waiter_pc) (s : state) : state :=
  mkState (caller s) v (watcher s) (stopper s) (errCh_closed s) (exitCh_closed s) (cleanupCh_closed s)
    (shutdownCh_closed s) (fatal s) (cleanups s) (shutdowns s) (panics s).
Definition set_watcher (v : watcher_pc) (s : state) : state :=
  mkState (caller s) (waiter s) v (stopper s) (errCh_closed s) (exitCh_closed s) (cleanupCh_closed s)
    (shutdownCh_closed s) (fatal s) (cleanups s) (shutdowns s) (panics s).
Definition set_stopper (v : stopper_pc) (s : state) : state :=
  mkState (caller s) (waiter s) (watcher s) v (errCh_closed s) (exitCh_closed s) (cleanupCh_closed s)
    (shutdownCh_closed s) (fatal s) (cleanups s) (shutdowns s) (panics s).
Definition set_fatal (v : error) (s : state) : state :=
  mkState (caller s) (waiter s) (watcher s) (stopper s) (errCh_closed s) (exitCh_closed s) (cleanupCh_closed s)
    (shutdownCh_closed s) v (cleanups s) (shutdowns s) (panics s).

(** [close] of each channel; closing it again panics. *)
Definition closing (ch : channel) (closed : bool) (l : list channel) : list channel := if closed then ch :: l else l.

Definition close_errCh (s : state) : state :=
  mkState (caller s) (waiter s) (watcher s) (stopper s) true (exitCh_closed s) (cleanupCh_closed s)
    (shutdownCh_closed s) (fatal s) (cleanups s) (shutdowns s) (closing ErrCh (errCh_closed s) (panics s)).
Definition close_exit (s : state) : state :=
  mkState (caller s) (waiter s) (watcher s) (stopper s) (errCh_closed s) true (cleanupCh_closed s)
    (shutdownCh_closed s) (fatal s) (cleanups s) (shutdowns s) (closing ExitCh (exitCh_closed s) (panics s)).
Definition close_cleanupCh (s : state) : state :=
  mkState (caller s) (waiter s) (watcher s) (stopper s) (errCh_closed s) (exitCh_closed s) true
    (shutdownCh_closed s) (fatal s) (cleanups s) (shutdowns s) (closing CleanupCh (cleanupCh_closed s) (panics s)).
(** What [Shutdown] does first, whether or not it was called before. *)
Definition close_shutdown (s : state) : state :=
  mkState (caller s) (waiter s) (watcher s) (stopper s) (errCh_closed s) (exitCh_closed s) (cleanupCh_closed s)
    true (fatal s) (cleanups s) (S (shutdowns s)) (closing ShutdownCh (shutdownCh_closed s) (panics s)).

(** [m.doCleanup()]: [cleanupOnce]. *)
Definition cleanup_once (s : state) : state :=
  mkState (caller s) (waiter s) (watcher s) (stopper s) (errCh_closed s) (exitCh_closed s) (cleanupCh_closed s)
    (shutdownCh_closed s) (fatal s) (if cleanups s =? 0 then 1 else cleanups s)%nat (shutdowns s) (panics s).

(** ** Steps *)
Section steps.
Context `{Multierror} (daemonized : bool) (wrap : Err → Err).

(** What [waitForSocket] returned, as the next step of [startVMM]. *)
Definition after_socket (err : error) : caller_pc :=
  match err with Some e => Failing (wrap e) | None => Spawning end.

(** A goroutine goes on by itself. *)
Inductive internal : state → state → Prop :=
  (* errCh: the waiting goroutine meets a receiver *)
  | caller_receives s e : caller s = InSelect → waiter s = Sending e →
      internal s (set_waiter ClosingErr (set_caller (after_socket e) s))
  | caller_receives_closed s : caller s = InSelect → errCh_closed s = true →
      internal s (set_caller Spawning s)
  | watcher_receives s e : watcher s = Receiving → waiter s = Sending e →
      internal s (set_waiter ClosingErr (set_watcher (Recording e) s))
  | watcher_receives_closed s : watcher s = Receiving → errCh_closed s = true →
      internal s (set_watcher (Recording None) s)
  (* the caller *)
  | caller_records s e : caller s = Failing e →
      internal s (set_fatal (Some e) (set_caller (FailingClose e) s))
  | caller_closes s e : caller s = FailingClose e →
      internal s (close_exit (set_caller (FailingCleanup e) s))
  | caller_cleans s e : caller s = FailingCleanup e →
      internal s (cleanup_once (set_caller (Returned (Some e)) s))
  | caller_spawns s : caller s = Spawning →
      internal s (set_watcher Receiving (set_stopper StopSelect (set_caller Configuring s)))
  | caller_undoes s e : caller s = ConfigFailed e →
      internal s (cleanup_once (set_caller (NotConfigured e) s))
  (* the waiting goroutine *)
  | waiter_unblocks s : waiter s = Blocked → shutdownCh_closed s = true →
      internal s (set_waiter (Cleaning None) s)
  | waiter_cleans s waitErr cleanupErr : waiter s = Cleaning waitErr →
      internal s (set_waiter (Sending (merr_ErrorOrNil (merr_AppendErr waitErr cleanupErr))) (cleanup_once s))
  | waiter_closes_err s : waiter s = ClosingErr → internal s (close_errCh (set_waiter ClosingCleanup s))
  | waiter_closes_cleanup s : waiter s = ClosingCleanup → internal s (close_cleanupCh (set_waiter WaiterDone s))
  (* the watching goroutine *)
  | watcher_records s e : watcher s = Recording e → internal s (set_fatal e (set_watcher ClosingExit s))
  | watcher_closes s : watcher s = ClosingExit → internal s (close_exit (set_watcher WatcherDone s))
  (* the stopping goroutine *)
  | stopper_sees_exit s : stopper s = StopSelect → exitCh_closed s = true → internal s (set_stopper StopperDone s)
  | stopper_signals s (err : bool) : stopper s = Signalling →
      internal s (set_stopper (if err then StopperDone else AwaitingCleanup) s)
  | stopper_sees_cleanup s : stopper s = AwaitingCleanup → cleanupCh_closed s = true →
      internal s (set_stopper StopperDone s).

(** The world acts: the deadline passes, the socket answers, the process ends, the
    context is cancelled, the rest of [Start] succeeds or fails, somebody calls
    [Shutdown], as often as they like. *)
Inductive external : state → state → Prop :=
  | deadline s e : caller s = InSelect → external s (set_caller (Failing (wrap e)) s)
  | socket_answers s : caller s = InSelect → external s (set_caller Spawning s)
  | process_ends s waitErr : waiter s = Waiting →
      external s (set_waiter (if daemonized && match waitErr with None => true | Some _ => false end
                              then Blocked else Cleaning waitErr) s)
  | context_cancelled s : stopper s = StopSelect → external s (set_stopper Signalling s)
  | configured s : caller s = Configuring → external s (set_caller (Returned None) s)
  | configuring_fails s e : caller s = Configuring → external s (set_caller (ConfigFailed e) s)
  | shutdown s : external s (close_shutdown s).

Definition step (s s' : state) : Prop := internal s s' ∨ external s s'.
Definition reachable (s : state) : Prop := rtc step initial s.

(** ** The invariant *)

(** The error of the process has been received; where the channels are closed. *)
Definition received (w : waiter_pc) : bool :=
  match w with ClosingErr | ClosingCleanup | WaiterDone => true | _ => false end.
Definition closed_err (w : waiter_pc) : bool :=
  match w with ClosingCleanup | WaiterDone => true | _ => false end.
Definition closed_cleanup (w : waiter_pc) : bool := match w with WaiterDone => true | _ => false end.
Definition closed_exit (c : caller_pc) (w : watcher_pc) : bool :=
  match c with
  | FailingCleanup _ | Returned (Some _) => true
  | _ => match w with WatcherDone => true | _ => false end
  end.

Definition cleaned_up (w : waiter_pc) : bool :=
  match w with Waiting | Blocked | Cleaning _ => false | _ => true end.

(** The goroutines that exist at each point of the caller, and what they know. *)
Definition phase (s : state) : Prop :=
  match caller s with
  | Configuring | ConfigFailed _ | NotConfigured _ | Returned None =>
      watcher s ≠ NoWatcher ∧ stopper s ≠ NoStopper ∧
      match watcher s with Receiving => True | _ => received (waiter s) = true end
  | InSelect => watcher s = NoWatcher ∧ stopper s = NoStopper ∧ received (waiter s) = false
  | _ => watcher s = NoWatcher ∧ stopper s = NoStopper
  end.

(** The error recorded before [exitCh] is closed on failure; a [Start] that failed has
    run the cleanup. *)
Definition recorded (s : state) : Prop :=
  match caller s with
  | FailingClose e | FailingCleanup e => fatal s = Some e
  | Returned (Some e) => fatal s = Some e ∧ cleanups s = 1%nat
  | NotConfigured _ => cleanups s = 1%nat
  | _ => True
  end.

Record inv (s : state) : Prop := {
  inv_panics : panics s = replicate (shutdowns s - 1) ShutdownCh;
  inv_shutdownCh : shutdownCh_closed s = negb (shutdowns s =? 0)%nat;
  inv_errCh : errCh_closed s = closed_err (waiter s);
  inv_cleanupCh : cleanupCh_closed s = closed_cleanup (waiter s);
  inv_exitCh : exitCh_closed s = closed_exit (caller s) (watcher s);
  inv_phase : phase s;
  inv_recorded : recorded s;
  inv_cleanups : (cleanups s ≤ 1)%nat;
  inv_cleaned : cleaned_up (waiter s) = true → cleanups s = 1%nat
}.

Lemma inv_initial : inv initial.
Proof. constructor; simpl; done || lia. Qed.

Ltac open_state :=
  match goal with s : state |- _ => destruct s as [c wt wc st ec xc cc sc ft nc sd pn]; simpl in *; subst end;
  match goal with Hi : inv _ |- _ => destruct Hi as [Hpn Hsd Herr Hcl Hex Hph Hrec Hc Hcd]; simpl in * end.

Ltac by_caller := try match goal with c : caller_pc |- _ => destruct c as [|?|?|?| | |?|?|[?|]] end.

Ltac inv_step :=
  constructor; unfold phase, recorded, closing in *; simpl in *; destruct_and?; subst; simpl in *;
  try (match goal with |- context [(?k =? 0)%nat] => destruct (Nat.eqb_spec k 0) end; intros; (split; [done|lia]) || lia);
  try congruence; try done; auto.

Lemma inv_internal s s' : inv s → internal s s' → inv s'.
Proof.
  intros Hi Hstep. destruct Hstep as [s r| |s r|s|s err|s err|s err|s|s err|s|s we ce|s|s|s r|s|s|s err|s]; open_state.
  all: try (destruct r; by inv_step).
  all: by_caller; try (by inv_step); inv_step; first [by destruct wt | by destruct err].
Qed.

Lemma inv_external s s' : inv s → external s s' → inv s'.
Proof.
  intros Hi Hstep. destruct Hstep as [s err|s|s we|s|s|s err|s]; open_state.
  - inv_step.
  - inv_step.
  - by_caller; destruct daemonized, we; inv_step.
  - by_caller; inv_step.
  - inv_step.
  - inv_step.
  - by_caller; inv_step; destruct sd; simpl; rewrite ?Nat.sub_0_r; done.
Qed.

Lemma step_inv s s' : inv s → step s s' → inv s'.
Proof. intros Hi [Hs|Hs]; [by eapply inv_internal | by eapply inv_external]. Qed.

Lemma reachable_inv s : reachable s → inv s.
Proof.
  assert (∀ s0, inv s0 → rtc step s0 s → inv s) as Hgen.
  { intros s0 Hi Hr. induction Hr as [|x y z Hs _ IH]; [done|]. by apply IH, (step_inv x). }
  by apply Hgen, inv_initial.
Qed.

(** ** Safety *)

(** C11. Whatever the interleaving: [errCh], [exitCh] and [cleanupCh] are never closed
    twice, and [shutdownCh] is closed by the first call of [Shutdown] while every
    further call panics, so that these are the only panics; the cleanup functions run
    at most once, before [cleanupCh] is closed and before [Start] returns an error;
    and once [exitCh] is closed it stays closed and the fatal error [Wait] reports is
    final. *)
Theorem lifecycle_safe s :
  reachable s →
  panics s = replicate (shutdowns s - 1) ShutdownCh ∧ (shutdownCh_closed s = true ↔ (0 < shutdowns s)%nat) ∧
  (cleanups s ≤ 1)%nat ∧ (cleanupCh_closed s = true → cleanups s = 1%nat) ∧
  (∀ e, caller s = Returned (Some e) ∨ caller s = NotConfigured e → cleanups s = 1%nat) ∧
  (exitCh_closed s = true → ∀ s', step s s' → exitCh_closed s' = true ∧ fatal s' = fatal s).
Proof.
  intros Hr%reachable_inv. split_and!; [apply Hr| |apply Hr| | |].
  - rewrite (inv_shutdownCh _ Hr). destruct (Nat.eqb_spec (shutdowns s) 0); simpl; split; by (lia || done).
  - destruct Hr. rewrite inv_cleanupCh0. intros Hcl. apply inv_cleaned0. by destruct (waiter s).
  - intros e He. pose proof (inv_recorded _ Hr) as Hrec. unfold recorded in Hrec. destruct He as [He|He]; rewrite He in Hrec; apply Hrec.
  - intros Hx s' [Hs|Hs]; destruct Hs; open_state; try (split; congruence || done).
    + unfold phase in Hph. simpl in Hph. destruct Hph as [-> _]. done.
    + unfold phase in Hph. by_caller; simpl in *; naive_solver congruence.
Qed.

(** ** Termination *)
Definition caller_rank (c : caller_pc) : nat :=
  match c with InSelect => 20 | Spawning => 10 | Failing _ => 3 | FailingClose _ => 2 | FailingCleanup _ | ConfigFailed _ => 1
             | Configuring | NotConfigured _ | Returned _ => 0 end.
Definition waiter_rank (w : waiter_pc) : nat :=
  match w with Waiting => 6 | Blocked => 5 | Cleaning _ => 4 | Sending _ => 3 | ClosingErr => 2 | ClosingCleanup => 1
             | WaiterDone => 0 end.
Definition watcher_rank (w : watcher_pc) : nat :=
  match w with Receiving => 3 | Recording _ => 2 | ClosingExit => 1 | NoWatcher | WatcherDone => 0 end.
Definition stopper_rank (p : stopper_pc) : nat :=
  match p with StopSelect => 3 | Signalling => 2 | AwaitingCleanup => 1 | NoStopper | StopperDone => 0 end.
Definition rank (s : state) : nat :=
  caller_rank (caller s) + waiter_rank (waiter s) + watcher_rank (watcher s) + stopper_rank (stopper s).

Lemma internal_rank s s' : inv s → internal s s' → (rank s' < rank s)%nat.
Proof.
  intros Hi Hs. destruct Hs; open_state; unfold rank, phase in *; simpl in *; try lia.
  - destruct e; simpl; lia.
  - destruct err; simpl; lia.
Qed.

(** The goroutines cannot go on by themselves. *)
Definition quiescent (s : state) : Prop := ∀ s', ¬ internal s s'.

(** Where they then are: [waitForSocket] polls; or it failed and so did [Start], and
    the waiting goroutine waits for the process, has finished, or is stuck for ever
    with the error of the process; or the VMM came up, [Start] goes on or has returned,
    and everybody waits for the process or it has ended and all have finished. *)
Definition resting (s : state) : Prop :=
  match caller s with
  | InSelect => waiter s = Waiting ∨ waiter s = Blocked
  | Returned (Some e) =>
      exitCh_closed s = true ∧ fatal s = Some e ∧ cleanups s = 1%nat ∧
      match waiter s with
      | Waiting | Blocked | Sending _ => cleanupCh_closed s = false
      | WaiterDone => cleanupCh_closed s = true
      | _ => False
      end
  | Configuring | Returned None | NotConfigured _ =>
      match caller s with NotConfigured _ => cleanups s = 1%nat | _ => True end ∧
      match waiter s with
      | Waiting | Blocked => watcher s = Receiving ∧ exitCh_closed s = false ∧ cleanupCh_closed s = false
      | WaiterDone =>
          watcher s = WatcherDone ∧ stopper s = StopperDone ∧
          errCh_closed s = true ∧ exitCh_closed s = true ∧ cleanupCh_closed s = true
      | _ => False
      end
  | _ => False
  end.

(** Once the VMM is up, the goroutines rest only while the process runs. *)
Lemma spawned_resting s :
  inv s → (∀ s', internal s s' → False) →
  match caller s with Configuring | NotConfigured _ | Returned None => True | _ => False end →
  match waiter s with
  | Waiting | Blocked => watcher s = Receiving ∧ exitCh_closed s = false ∧ cleanupCh_closed s = false
  | WaiterDone =>
      watcher s = WatcherDone ∧ stopper s = StopperDone ∧
      errCh_closed s = true ∧ exitCh_closed s = true ∧ cleanupCh_closed s = true
  | _ => False
  end.
Proof.
  intros Hi Hn Hca. destruct s as [c wt wc st ec xc cc sc ft nc sd pn].
  destruct Hi as [Hpn Hsd Herr Hcl Hex Hph Hrec Hc Hcd]. unfold phase in *. simpl in *.
  assert (wc ≠ NoWatcher ∧ st ≠ NoStopper ∧ match wc with Receiving => True | _ => received wt = true end) as (Hwc & Hst & Hrcv)
    by (by_caller; done).
  assert (closed_exit c wc = match wc with WatcherDone => true | _ => false end) as Hx by (by_caller; done). rewrite Hx in Hex.
  clear Hx Hca Hph Hrec. assert (wc = Receiving ∨ received wt = true) as Hw by (destruct wc; auto).
  destruct wt; simpl in *.
  - by destruct Hw as [->|].
  - by destruct Hw as [->|].
  - eapply Hn. by eapply (waiter_cleans _ _ None).
  - eapply Hn. eapply watcher_receives; [|done]. by destruct Hw.
  - eapply Hn. by eapply waiter_closes_err.
  - eapply Hn. by eapply waiter_closes_cleanup.
  - assert (wc = WatcherDone) as ->.
    { destruct wc; try congruence; exfalso; eapply Hn.
      - by eapply watcher_receives_closed.
      - by eapply watcher_records.
      - by eapply watcher_closes. }
    simpl in *. subst. split; [done|]. split; [|done].
    destruct st; try congruence; exfalso; eapply Hn.
    + by eapply stopper_sees_exit.
    + by eapply (stopper_signals _ true).
    + by eapply stopper_sees_cleanup.
Qed.

Lemma quiescent_resting s : inv s → quiescent s → resting s.
Proof.
  intros Hi Hq. assert (∀ s', internal s s' → False) as Hn by exact Hq. clear Hq.
  pose proof (spawned_resting s Hi Hn) as Hsp.
  destruct s as [c wt wc st ec xc cc sc ft nc sd pn]. destruct Hi as [Hpn Hsd Herr Hcl Hex Hph Hrec Hc Hcd].
  unfold resting, phase, recorded in *. simpl in *.
  destruct c as [|er|er|er| | |er|er|[er|]]; try (by split; [done|apply Hsp]).
  - destruct wt; auto; exfalso; destruct Hph as (_ & _ & ?); try done; eapply Hn.
    + by eapply (waiter_cleans _ _ None).
    + by eapply caller_receives.
  - exfalso. eapply Hn. by eapply caller_records.
  - exfalso. eapply Hn. by eapply caller_closes.
  - exfalso. eapply Hn. by eapply caller_cleans.
  - exfalso. eapply Hn. by eapply caller_spawns.
  - exfalso. eapply Hn. by eapply caller_undoes.
  - destruct Hrec. destruct wt; try done; exfalso; eapply Hn.
    + by eapply (waiter_cleans _ _ None).
    + by eapply waiter_closes_err.
    + by eapply waiter_closes_cleanup.
Qed.

(** One scheduler: a step of some goroutine that can go on. *)
Definition caller_next (s : state) : option state :=
  match caller s with
  | InSelect =>
      match waiter s with
      | Sending e => Some (set_waiter ClosingErr (set_caller (after_socket e) s))
      | _ => if errCh_closed s then Some (set_caller Spawning s) else None
      end
  | Failing e => Some (set_fatal (Some e) (set_caller (FailingClose e) s))
  | FailingClose e => Some (close_exit (set_caller (FailingCleanup e) s))
  | FailingCleanup e => Some (cleanup_once (set_caller (Returned (Some e)) s))
  | Spawning => Some (set_watcher Receiving (set_stopper StopSelect (set_caller Configuring s)))
  | ConfigFailed e => Some (cleanup_once (set_caller (NotConfigured e) s))
  | Configuring | NotConfigured _ | Returned _ => None
  end.
Definition waiter_next (s : state) : option state :=
  match waiter s with
  | Blocked => if shutdownCh_closed s then Some (set_waiter (Cleaning None) s) else None
  | Cleaning waitErr => Some (set_waiter (Sending (merr_ErrorOrNil (merr_AppendErr waitErr None))) (cleanup_once s))
  | ClosingErr => Some (close_errCh (set_waiter ClosingCleanup s))
  | ClosingCleanup => Some (close_cleanupCh (set_waiter WaiterDone s))
  | Waiting | Sending _ | WaiterDone => None
  end.
Definition watcher_next (s : state) : option state :=
  match watcher s with
  | Receiving =>
      match waiter s with
      | Sending e => Some (set_waiter ClosingErr (set_watcher (Recording e) s))
      | _ => if errCh_closed s then Some (set_watcher (Recording None) s) else None
      end
  | Recording e => Some (set_fatal e (set_watcher ClosingExit s))
  | ClosingExit => Some (close_exit (set_watcher WatcherDone s))
  | NoWatcher | WatcherDone => None
  end.
Definition stopper_next (s : state) : option state :=
  match stopper s with
  | StopSelect => if exitCh_closed s then Some (set_stopper StopperDone s) else None
  | Signalling => Some (set_stopper AwaitingCleanup s)
  | AwaitingCleanup => if cleanupCh_closed s then Some (set_stopper StopperDone s) else None
  | NoStopper | StopperDone => None
  end.

Definition or_else {A} (x y : option A) : option A := match x with Some _ => x | None => y end.
Definition next (s : state) : option state :=
  or_else (caller_next s) (or_else (waiter_next s) (or_else (watcher_next s) (stopper_next s))).

Lemma or_else_None {A} (x y : option A) : or_else x y = None → x = None ∧ y = None.
Proof. by destruct x. Qed.

Lemma next_internal s s' : next s = Some s' → internal s s'.
Proof.
  unfold next, or_else, caller_next, waiter_next, watcher_next, stopper_next. intros Hn.
  repeat case_match; simplify_eq; eauto using internal; by eapply (stopper_signals _ false).
Qed.

Lemma next_quiescent s : next s = None → quiescent s.
Proof.
  unfold next. intros [Hc [Hw [Hv Hst]%or_else_None]%or_else_None]%or_else_None s' Hs.
  destruct Hs; unfold caller_next, waiter_next, watcher_next, stopper_next in *;
    repeat match goal with H : _ s = _, H' : context [_ s] |- _ => rewrite H in H'; try discriminate H' end.
  all: destruct (waiter s); congruence.
Qed.

(** C12. Left to themselves the goroutines always come to rest: every step of theirs
    brings them closer, and from every reachable state they reach one of the states
    of [resting].  In particular, when the process of a machine whose VMM came up has
    ended, all of them end, with [errCh], [exitCh] and [cleanupCh] closed. *)
Theorem lifecycle_rests s :
  reachable s →
  (∀ s', internal s s' → (rank s' < rank s)%nat) ∧
  ∃ s', rtc internal s s' ∧ quiescent s' ∧ resting s'.
Proof.
  intros Hi%reachable_inv. split; [by intros s'; apply internal_rank|].
  remember (rank s) as n eqn:Hk. revert s Hk Hi. induction n as [n IH] using lt_wf_ind. intros s -> Hi.
  destruct (next s) as [s'|] eqn:Hn.
  - apply next_internal in Hn.
    destruct (IH (rank s') (internal_rank _ _ Hi Hn) s' eq_refl) as (s2 & Hr & Hq); [by eapply inv_internal|].
    exists s2. split; [by eapply rtc_l|done].
  - apply next_quiescent in Hn. exists s. split; [done|]. split; [done|by apply quiescent_resting].
Qed.

(** ** A VMM that does not open its socket *)

(** The caller gave up and nobody took the error of the process. *)
Definition given_up (s : state) : Prop :=
  match caller s with
  | Failing _ | FailingClose _ | FailingCleanup _ | Returned (Some _) => received (waiter s) = false
  | _ => False
  end.

Lemma given_up_step s s' :
  inv s → given_up s → step s s' →
  given_up s' ∧ match waiter s with Sending _ => waiter s' = waiter s | _ => True end.
Proof.
  intros Hi Hg [Hs|Hs]; destruct Hs; open_state; unfold given_up, phase in *; simpl in *; try done.
  all: try (split; [done|]; by destruct wt).
  all: try (by_caller; try done; destruct Hph; subst; done).
  by_caller; destruct daemonized, waitErr; done.
Qed.

(** C35. Once [waitForSocket] has given up while the process runs, [cleanupCh] is
    never closed, whatever happens: [StopVMM] blocks for ever, and so does the
    goroutine that waits for the process once it has an error to send. *)
Theorem given_up_forever s s' :
  reachable s → given_up s → rtc step s s' →
  given_up s' ∧ cleanupCh_closed s' = false ∧
  match waiter s' with Sending _ => ∀ s'', step s' s'' → waiter s'' = waiter s' | _ => True end.
Proof.
  intros Hi%reachable_inv Hg Hr. revert Hi Hg. induction Hr as [s|x y z Hs _ IH]; intros Hi Hg.
  - split; [done|]. split.
    + rewrite (inv_cleanupCh _ Hi). unfold given_up in Hg. by destruct (caller s) as [| | | | | | | |[]], (waiter s).
    + case_match; [done..| |done|done|done]. intros s'' Hs. pose proof (given_up_step _ _ Hi Hg Hs) as [_ Hw].
      by rewrite H0 in Hw.
  - apply IH; [by apply (step_inv x)|]. by apply (given_up_step x).
Qed.
End steps.

Module Examples.
Definition fail : Err := CtxErr "context deadline exceeded".

(** [waitForSocket] gives up, then the process ends and its goroutine cleans up. *)
Definition gave_up : state := set_caller (Failing fail) initial.
Definition stuck : state := set_waiter (Sending None) (cleanup_once (set_waiter (Cleaning None) gave_up)).

Lemma gave_up_reachable : reachable false id gave_up.
Proof. eapply rtc_once. right. exact (deadline false id initial fail eq_refl). Qed.

Lemma gave_up_stuck : rtc (step false id) gave_up stuck.
Proof.
  eapply rtc_l; [right; exact (process_ends false id gave_up None eq_refl)|].
  eapply rtc_once. left. exact (waiter_cleans id (set_waiter (Cleaning None) gave_up) None None eq_refl).
Qed.

(** The same, after two calls of [Shutdown]: the second panics. *)
Definition shut_twice : state := close_shutdown (close_shutdown stuck).

Lemma lifecycle_safe_witness : panics shut_twice = [ShutdownCh] ∧ cleanups shut_twice = 1%nat.
Proof.
  assert (reachable false id shut_twice) as Hr.
  { unfold reachable. etransitivity; [exact gave_up_reachable|]. etransitivity; [exact gave_up_stuck|].
    eapply rtc_l; [right; exact (shutdown false id stuck)|].
    eapply rtc_once. right. exact (shutdown false id (close_shutdown stuck)). }
  destruct (lifecycle_safe false id shut_twice Hr) as (Hp & _). split; [exact Hp|reflexivity].
Defined.

Lemma lifecycle_rests_witness : ∃ s', rtc (internal id) gave_up s' ∧ quiescent id s' ∧ resting s'.
Proof. exact (proj2 (lifecycle_rests false id gave_up gave_up_reachable)). Defined.

Lemma given_up_forever_witness : given_up stuck ∧ cleanupCh_closed stuck = false.
Proof.
  destruct (given_up_forever false id gave_up stuck gave_up_reachable eq_refl gave_up_stuck) as (Hg & Hc & _).
  split; [exact Hg|exact Hc].
Defined.
End Examples.
