(* ===== verification/Interleavings.v ===== *)
(** * The machine and its goroutines (src/machine.go)

    Vmm.v and Machine.v run the goroutines of [startVMM] in one order, where the
    caller meets them.  Here every such run is shown to be a run of the step
    relation of Lifecycle.v, so that what holds of every interleaving holds of the
    machine. *)

From stdpp Require Import gmap strings list relations.
From Stdlib Require Import ZArith Lia.
From S2P Require Import Prelude GoStrings KernelArgs Models ApiParams Slices Handlers Builders Commands Vmconf Client Netlink Sys Network Config MachineApi Vmm Machine MachineFacts StartFacts Concrete Lifecycle.

Open Scope string_scope.
Open Scope list_scope.

(** ** Simulation *)

(** The error [startVMM] makes of the error of [waitForSocket]. *)
Definition socket_error (path : string) (e : Err) : Err :=
  ErrorfW "Firecracker did not create API socket %s: %w" [path] e.

Section simulation.
Context `{Growth} `{DefaultTimeout} `{Multierror} `{NetlinkConstants}.
Context (daemonized : bool) (path : string).
Implicit Types (o : Oracle Sys) (w : World) (s : state).

Abbreviation step := (Lifecycle.step daemonized (socket_error path)).

(** The machine shows the state, but for the waiting goroutine. *)
Record shows_rest (w : World) (s : state) : Prop := {
  sh_started : started (machine w) = true;
  sh_daemonized : is_daemonized (Cfg (machine w)) = daemonized;
  sh_socket : SocketPath (Cfg (machine w)) = path;
  sh_exitCh : exitCh (machine w) = exitCh_closed s;
  sh_shutdownCh : shutdownCh (machine w) = shutdownCh_closed s;
  sh_cleanupCh : cleanupCh (machine w) = cleanupCh_closed s;
  sh_fatalErr : fatalErr (machine w) = fatal s;
  sh_cleanup : cleanupDone (machine w) = negb (cleanups s =? 0)%nat;
  sh_watcher : watcher s = if watching (machine w) then Receiving else watcher s;
  sh_no_watcher : watching (machine w) = false → watcher s = NoWatcher ∨ watcher s = WatcherDone
}.

(** The goroutine behind what is on [errCh]. *)
Definition shows_waiter (c : errCh_state) (p : waiter_pc) : Prop :=
  match c with
  | ErrChNone => False
  | ErrChEmpty => p = Waiting
  | ErrChBlocked => p = Blocked
  | ErrChOffer e => p = Sending e
  | ErrChClosed => p = WaiterDone
  end.

Record shows (w : World) (s : state) : Prop := {
  shows_rest_of : shows_rest w s;
  shows_waiter_of : shows_waiter (errCh (machine w)) (waiter s);
  shows_errCh : errCh_closed s = closed_err (waiter s)
}.

(** Whatever state the machine showed, it now shows one further on. *)
Definition simulated (w w' : World) : Prop :=
  ∀ s, shows w s → ∃ s', rtc step s s' ∧ shows w' s' ∧ caller s' = caller s.

#[export] Instance simulated_preorder : PreOrder simulated.
Proof.
  split; [intros w s Hs; by exists s|]. intros w1 w2 w3 H12 H23 s Hs.
  destruct (H12 s Hs) as (s2 & Hr2 & Hs2 & Hc2). destruct (H23 s2 Hs2) as (s3 & Hr3 & Hs3 & Hc3).
  exists s3. split; [by etransitivity|]. split; [done|congruence].
Qed.

Lemma doCleanup_world o w h :
  wp doCleanup (λ r w' _, is_val r ∧ w' = set_machine (set_cleanupDone true (machine w)) w) o w h.
Proof. eapply wp_mono; [apply wp_and; [apply doCleanup_cleaned|apply doCleanup_state]|]. by intros r w' h' [[? _] ->]. Qed.

(** The waiting goroutine cleans up and offers its error. *)
Lemma offer_error_steps waitErr o w h s :
  shows_rest w s → waiter s = Cleaning waitErr → errCh_closed s = false →
  wp (offer_error waitErr) (λ r w' _, is_val r →
    ∃ s', rtc step s s' ∧ shows w' s' ∧ caller s' = caller s ∧ watcher s' = watcher s) o w h.
Proof.
  intros Hs Hw He. unfold offer_error. apply wp_bind. eapply wp_mono; [apply doCleanup_world|].
  intros r w' h' ([cleanupErr ->] & ->). unfold modify_machine. apply wp_modify. intros _.
  eexists. split; [eapply rtc_once; left; by apply (waiter_cleans _ s waitErr cleanupErr)|].
  split; [|done]. constructor; [|done|done]. destruct Hs. constructor; simpl; try done.
  by destruct (cleanups s).
Qed.

(** A receiver takes the error, and the waiting goroutine ends. *)
Lemma waiter_ends s :
  waiter s = ClosingErr → rtc step s (close_cleanupCh (set_waiter WaiterDone (close_errCh (set_waiter ClosingCleanup s)))).
Proof.
  intros Hw. eapply rtc_l; [left; by apply waiter_closes_err|].
  eapply rtc_l; [left; by apply waiter_closes_cleanup|]. reflexivity.
Qed.

Lemma simulated_watch_goroutine : keeps simulated watch_goroutine.
Proof.
  intros o w h. unfold watch_goroutine, get_machine, take_offer, finish, close_exitCh, get_machine, modify_machine.
  run_unfold. simpl. destruct (watching (machine w)) eqn:Hwt; [|reflexivity].
  destruct (errCh (machine w)) as [| | |e|] eqn:He; [reflexivity..| |]; simpl;
    destruct (exitCh (machine w)) eqn:Hx; try done.
  - intros s [Hs Hw Hc]. rewrite He in Hw. simpl in Hw. pose proof (sh_watcher _ _ Hs) as Hr. rewrite Hwt in Hr.
    eexists. split.
    + eapply rtc_l; [left; by apply (watcher_receives _ s e)|].
      etransitivity; [by apply waiter_ends|].
      eapply rtc_l; [left; by eapply (watcher_records _ _ e)|].
      eapply rtc_l; [left; by apply watcher_closes|]. reflexivity.
    + split; [|done]. destruct Hs. constructor; simpl; [|done|done]. constructor; simpl; try done. by right.
  - intros s [Hs Hw Hc]. rewrite He in Hw. simpl in Hw. pose proof (sh_watcher _ _ Hs) as Hr. rewrite Hwt in Hr.
    eexists. split.
    + eapply rtc_l; [left; apply (watcher_receives_closed _ s); [done|by rewrite Hc, Hw]|].
      eapply rtc_l; [left; by eapply (watcher_records _ _ None)|].
      eapply rtc_l; [left; by apply watcher_closes|]. reflexivity.
    + split; [|done]. destruct Hs. constructor; simpl; [|by rewrite He|done]. constructor; simpl; try done. by right.
Qed.

(** The process ends. *)
Lemma exit_goroutine_steps waitErr o w h s :
  shows w s → errCh (machine w) = ErrChEmpty →
  wp (exit_goroutine waitErr) (λ r w' _, is_val r →
    ∃ s', rtc step s s' ∧ shows w' s' ∧ caller s' = caller s ∧ watcher s' = watcher s) o w h.
Proof.
  intros [Hs Hw Hc] He. rewrite He in Hw. simpl in Hw. rewrite Hw in Hc. simpl in Hc.
  unfold exit_goroutine, get_machine. apply wp_bind, wp_bind, wp_get, wp_ret.
  pose proof (process_ends daemonized (socket_error path) s waitErr Hw) as Hend.
  unfold exit_blocked. rewrite (sh_daemonized _ _ Hs), (sh_shutdownCh _ _ Hs).
  destruct (daemonized && _) eqn:Hd; simpl.
  - assert (waitErr = None) as -> by (by destruct daemonized, waitErr).
    destruct (shutdownCh_closed s) eqn:Hsd; simpl.
    + eapply wp_mono; [apply (offer_error_steps None o w h (set_waiter (Cleaning None) (set_waiter Blocked s)));
        [by destruct Hs; constructor|done|done]|].
      intros r w' h' Hv Hr. destruct (Hv Hr) as (s' & Hrtc & Hs' & Hca & Hwa). exists s'. split; [|done].
      eapply rtc_l; [right; exact Hend|]. eapply rtc_l; [left; by apply waiter_unblocks|]. exact Hrtc.
    + unfold modify_machine. apply wp_modify. intros _. eexists. split; [eapply rtc_once; right; exact Hend|].
      split; [|done]. constructor; simpl; [|done|done]. by destruct Hs; constructor.
  - eapply wp_mono; [apply (offer_error_steps waitErr o w h (set_waiter (Cleaning waitErr) s));
      [by destruct Hs; constructor|done|done]|].
    intros r w' h' Hv Hr. destruct (Hv Hr) as (s' & Hrtc & Hs' & Hca & Hwa). exists s'. split; [|done].
    eapply rtc_l; [right; exact Hend|]. exact Hrtc.
Qed.

Lemma simulated_process_exits waitErr : keeps simulated (process_exits waitErr).
Proof.
  intros o w h. unfold process_exits, get_machine, go_bind at 1. unfold get, go_ret at 1, go_bind at 1.
  destruct (errCh (machine w)) eqn:He; try (cbn; reflexivity). unfold go_bind.
  pose proof (λ s Hs, exit_goroutine_steps waitErr o w h s Hs He) as Hx. unfold wp in Hx.
  destruct (exit_goroutine waitErr o w h) as [[[[]| |] w1] h1]; [|done..].
  pose proof (simulated_watch_goroutine o w1 h1) as Hwatch.
  destruct (watch_goroutine o w1 h1) as [[[[]| |] w2] h2]; [|done..].
  intros s Hs. destruct (Hx s Hs) as (s1 & Hr1 & Hs1 & Hc1 & _); [by eexists|].
  destruct (Hwatch s1 Hs1) as (s2 & Hr2 & Hs2 & Hc2). exists s2.
  split; [by etransitivity|]. split; [done|congruence].
Qed.

Lemma simulated_unblock o w h :
  shutdownCh (machine w) = true →
  match unblock o w h with (Val _, w', _) => simulated w w' | _ => True end.
Proof.
  intros Hsd. unfold unblock, get_machine, go_bind at 1. unfold get, go_ret at 1, go_bind at 1.
  destruct (errCh (machine w)) eqn:He; try (cbn; reflexivity). unfold go_bind.
  pose proof (λ s Hs Hc, offer_error_steps None o w h (set_waiter (Cleaning None) s) Hs eq_refl Hc) as Hx. unfold wp in Hx.
  destruct (offer_error None o w h) as [[[[]| |] w1] h1]; [|done..].
  pose proof (simulated_watch_goroutine o w1 h1) as Hwatch.
  destruct (watch_goroutine o w1 h1) as [[[[]| |] w2] h2]; [|done..].
  intros s [Hs Hw Hc]. rewrite He in Hw. simpl in Hw. rewrite Hw in Hc.
  destruct (Hx s) as (s1 & Hr1 & Hs1 & Hc1 & _); [by destruct Hs; constructor|done|by eexists|].
  destruct (Hwatch s1 Hs1) as (s2 & Hr2 & Hs2 & Hc2). exists s2. split; [|split; [done|simpl in *; congruence]].
  eapply rtc_l; [left; apply waiter_unblocks; [done|by rewrite <- (sh_shutdownCh _ _ Hs)]|]. by etransitivity.
Qed.

Lemma simulated_close_shutdownCh o w h :
  match close_shutdownCh o w h with (Val _, w', _) => simulated w w' ∧ shutdownCh (machine w') = true | _ => True end.
Proof.
  unfold close_shutdownCh, get_machine, modify_machine. run_unfold. destruct (shutdownCh (machine w)) eqn:Hsd; [done|].
  split; [|done]. intros s [Hs Hw Hc]. eexists. split.
  - eapply rtc_once. right. apply shutdown.
  - split; [|done]. constructor; simpl; [|done|done]. by destruct Hs; constructor.
Qed.

Lemma simulated_get_machine : keeps simulated get_machine.
Proof. unfold get_machine. go_keeps. Qed.
Lemma simulated_get_client : keeps simulated get_client.
Proof. unfold get_client. pose proof simulated_get_machine. go_keeps. Qed.
Lemma simulated_operations {T} (c : Client) (r : ClientIface T) : keeps simulated (operations (E := Sys) c r).
Proof. unfold operations. go_keeps. Qed.
#[local] Hint Resolve simulated_get_machine simulated_get_client simulated_operations simulated_process_exits : go_keeps.

Lemma simulated_StopVMM : keeps simulated StopVMM.
Proof. unfold StopVMM, stopVMM, await_cleanupCh. go_keeps. Qed.
#[local] Hint Resolve simulated_StopVMM : go_keeps.

Lemma simulated_Shutdown amd64 ctx : keeps simulated (Shutdown amd64 ctx).
Proof.
  intros o w h. unfold Shutdown, go_bind. pose proof (simulated_close_shutdownCh o w h) as Hc.
  destruct (close_shutdownCh o w h) as [[[[]| |] w1] h1]; [|done..]. destruct Hc as [Hc Hsd].
  pose proof (simulated_unblock o w1 h1 Hsd) as Hu. destruct (unblock o w1 h1) as [[[[]| |] w2] h2]; [|done..].
  assert (keeps simulated (if amd64 then sendCtrlAltDel ctx else StopVMM)) as Hk
    by (unfold sendCtrlAltDel, Client_CreateSyncAction; go_keeps).
  specialize (Hk o w2 h2). destruct ((if amd64 then sendCtrlAltDel ctx else StopVMM) o w2 h2) as [[[?| |] w3] h3]; [|done..].
  etransitivity; [exact Hc|]. by etransitivity.
Qed.

Lemma simulated_operation op o w h :
  started (machine w) = true →
  match run_operation op o w h with (Val _, w', _) => simulated w w' | _ => True end.
Proof.
  intros Hst. destruct op; cbn [run_operation]; unfold ignore.
  { unfold Start, get_machine. run_unfold. rewrite Hst. reflexivity. }
  all: match goal with |- match ?m ?o ?w ?h with _ => _ end => enough (keeps simulated m) as Hk by (exact (Hk o w h)) end.
  all: pose proof simulated_Shutdown; unfold Wait, PID, Machine_GetFirecrackerVersion,
    SetMetadata, UpdateMetadata, GetMetadata, UpdateGuestDrive, UpdateGuestNetworkInterfaceRateLimit,
    DescribeInstanceInfo, PauseVM, ResumeVM, patch_vm, CreateSnapshot, CreateBalloon, GetBalloonConfig,
    UpdateBalloon, GetBalloonStats, UpdateBalloonStats, Client_GetFirecrackerVersion, Client_PutMmds,
    Client_PatchMmds, Client_GetMmds, Client_PatchGuestDriveByID, Client_PatchGuestNetworkInterfaceByID,
    Client_GetInstanceInfo, Client_PatchVM, Client_CreateSnapshot, Client_PutBalloon,
    Client_DescribeBalloonConfig, Client_PatchBalloon, Client_DescribeBalloonStats,
    Client_PatchBalloonStatsInterval, with_payload; go_keeps.
Qed.

Lemma runs_simulated ops w w' : runs ops w w' → started (machine w) = true → simulated w w'.
Proof.
  induction 1 as [|op ops o w1 w2 w3 h h' Hop _ IH]; [reflexivity|]. intros Hst.
  pose proof (simulated_operation op o w1 h Hst) as Hk. rewrite Hop in Hk.
  pose proof (keeps_run_operation op o w1 h) as He. rewrite Hop in He.
  transitivity w2; [done|]. apply IH, (ev_started _ _ He Hst).
Qed.

(** ** Waiting for the socket *)
Lemma waitForSocket_steps fuel timeout o w h s :
  shows w s → caller s = InSelect → watcher s = NoWatcher →
  wp (waitForSocket fuel timeout) (λ r w' _, ∀ err, r = Val err →
    ∃ s', rtc step s s' ∧ shows w' s' ∧ caller s' = after_socket (socket_error path) err ∧ watcher s' = NoWatcher) o w h.
Proof.
  revert w h s. induction fuel as [|fuel IH]; intros w h s Hs Hca Hwa; cbn [waitForSocket]; [by wp_step|].
  apply wp_bind, wp_call. destruct (o h _ (SocketSelect timeout)) as [e|waitErr|].
  - apply wp_ret. intros ? [= <-]. eexists.
    split; [eapply rtc_once; right; by apply (deadline _ _ s e)|]. split; [|done].
    destruct Hs as [[] ? ?]. constructor; [constructor|..]; done.
  - unfold get_machine. apply wp_bind, wp_bind, wp_get, wp_ret.
    destruct (errCh (machine w)) eqn:He; try (by apply (IH w _ s)).
    apply wp_bind. eapply wp_mono; [by apply exit_goroutine_steps|].
    intros r w1 h1 Hv. destruct r as [[]| |]; [|done..].
    destruct Hv as (s1 & Hr1 & Hs1 & Hc1 & Hw1); [by eexists|]. rewrite Hca in Hc1. rewrite Hwa in Hw1.
    apply wp_bind, wp_bind, wp_get, wp_ret.
    assert (∀ h2, wp (waitForSocket fuel timeout) (λ r w' _, ∀ err, r = Val err →
      ∃ s', rtc step s s' ∧ shows w' s' ∧ caller s' = after_socket (socket_error path) err ∧ watcher s' = NoWatcher) o w1 h2)
      as Hstep.
    { intros h2. eapply wp_mono; [by apply (IH w1 h2 s1)|]. intros r w' h' Hv err Herr.
      destruct (Hv err Herr) as (s' & ? & ?). exists s'. split; [by etransitivity|done]. }
    destruct (errCh (machine w1)) as [| | |e|] eqn:He1; try apply Hstep.
    unfold take_offer, modify_machine. apply wp_bind, wp_modify, wp_ret. intros err [= <-].
    destruct Hs1 as [Hs1 Hwt1 Hec1]. rewrite He1 in Hwt1. simpl in Hwt1.
    eexists. split; [etransitivity; [exact Hr1|]; eapply rtc_l; [left; by apply (caller_receives _ s1 e)|];
      by apply waiter_ends|].
    split; [|done]. constructor; [|done|done]. destruct Hs1. constructor; done.
  - unfold get_cfg, get_machine. apply wp_bind, wp_bind, wp_bind, wp_get, wp_ret, wp_ret, wp_bind, wp_call.
    destruct (o _ _ (OsStat _)); [by apply (IH w _ s)|].
    unfold get_client, get_machine, deref. apply wp_bind, wp_bind, wp_bind, wp_get, wp_ret.
    destruct (client (machine w)) as [c|]; [|by apply wp_panic]. apply wp_ret.
    unfold Client_GetMachineConfiguration, operations. apply wp_bind, wp_call.
    destruct (o _ _ (ops_call _ _)); [by apply (IH w _ s)|]. apply wp_ret. intros ? [= <-]. eexists.
    split; [eapply rtc_once; right; by apply (socket_answers _ _ s)|]. split; [|done].
    destruct Hs as [[] ? ?]. constructor; [constructor|..]; done.
Qed.

(** A machine that is being started for the first time, and has no goroutines yet. *)
Record launched (w : World) : Prop := {
  la_started : started (machine w) = true;
  la_errCh : errCh (machine w) = ErrChNone;
  la_exitCh : exitCh (machine w) = false;
  la_cleanupCh : cleanupCh (machine w) = false;
  la_cleanupDone : cleanupDone (machine w) = false;
  la_watching : watching (machine w) = false;
  la_fatalErr : fatalErr (machine w) = None
}.

Lemma launched_initial w :
  launched w → is_daemonized (Cfg (machine w)) = daemonized → SocketPath (Cfg (machine w)) = path →
  let w1 := mkWorld (heap_ w) (set_errCh ErrChEmpty (machine w)) in
  ∃ s, rtc step initial s ∧ shows w1 s ∧ caller s = InSelect ∧ watcher s = NoWatcher.
Proof.
  intros [] Hd Hp. exists (if shutdownCh (machine w) then close_shutdown initial else initial).
  split; [|split].
  - destruct (shutdownCh (machine w)); [|reflexivity]. eapply rtc_once. right. apply shutdown.
  - constructor; [constructor|..]; destruct (shutdownCh (machine w)) eqn:?; simpl; rewrite ?la_watching0; auto.
  - by destruct (shutdownCh (machine w)).
Qed.

Lemma await_socket_steps fuel o w h :
  launched w → is_daemonized (Cfg (machine w)) = daemonized → SocketPath (Cfg (machine w)) = path →
  wp (await_socket fuel) (λ r w' _, ∀ err, r = Val err → ∃ s, rtc step initial s ∧ shows w' s ∧
    caller s = match err with Some e => FailingCleanup e | None => Configuring end) o w h.
Proof.
  intros Hl Hd Hp. unfold await_socket, add_cleanup, modify_machine, get_client, get_machine, get_cfg, get_machine.
  apply wp_bind, wp_modify, wp_bind, wp_modify, wp_bind, setupSignals_wp. intros t.
  apply wp_bind, wp_bind, wp_bind, wp_get, wp_ret. simpl.
  destruct (client (machine w)) as [c|]; [apply wp_ret|by apply wp_panic].
  set (w0 := mkWorld (heap_ w) (set_cleanupFuncs (cleanupFuncs (machine w) ++ [RemoveSocket]) (machine w))).
  destruct (launched_initial w0) as (s0 & Hr0 & Hs0 & Hc0 & Hw0); [by destruct Hl; constructor|done|done|].
  apply wp_bind. eapply wp_mono; [by apply (waitForSocket_steps _ _ _ _ _ s0)|].
  intros r w1 h1 Hv. destruct r as [err| |]; [|done..]. destruct (Hv err eq_refl) as (s1 & Hr1 & [Hs1 Hwt1 He1] & Hc1 & Hw1).
  destruct err as [e|]; simpl in Hc1.
  - apply wp_bind, wp_bind, wp_bind, wp_get, wp_ret, wp_ret. unfold finish, close_exitCh, get_machine, modify_machine.
    apply wp_bind, wp_bind, wp_modify, wp_bind, wp_bind, wp_get, wp_ret. simpl.
    destruct (exitCh (machine w1)); [by apply wp_panic|]. apply wp_modify, wp_ret. intros ? [= <-].
    rewrite (sh_socket _ _ Hs1). eexists. split; [|split].
    + etransitivity; [exact Hr0|]. etransitivity; [exact Hr1|].
      eapply rtc_l; [left; by eapply (caller_records _ s1 _)|].
      eapply rtc_l; [left; by eapply caller_closes|]. reflexivity.
    + destruct Hs1. constructor; [constructor|..]; done.
    + done.
  - apply wp_bind, wp_modify, wp_bind.
    set (w2 := mkWorld _ _). pose proof (simulated_watch_goroutine o w2 h1) as Hwatch. unfold wp at 1.
    destruct (watch_goroutine o w2 h1) as [[[[]| |] w3] h3] eqn:Hrun; [|done..].
    apply wp_ret. intros ? [= <-].
    destruct (Hwatch (set_watcher Receiving (set_stopper StopSelect (set_caller Configuring s1)))) as (s3 & Hr3 & Hs3 & Hc3).
    { destruct Hs1. constructor; [constructor|..]; done. }
    exists s3. split; [|by split].
    etransitivity; [exact Hr0|]. etransitivity; [exact Hr1|]. eapply rtc_l; [left; by apply caller_spawns|]. exact Hr3.
Qed.

(** ** The rest of [Start] *)

Lemma unshown_simulated w w' : unshown w w' → simulated w w'.
Proof.
  intros [= Q1 Q2 Q3 Q4 Q5 Q6 Q7 Q8 Q9 Q10] s [Hs Hw He]. exists s. split; [reflexivity|]. split; [|done].
  constructor; [|by rewrite Q10|done]. destruct Hs. constructor; rewrite ?Q1, ?Q2, ?Q3, ?Q4, ?Q5, ?Q6, ?Q7, ?Q8, ?Q9; done.
Qed.

Lemma unshown_launched w w' : unshown w w' → launched w → launched w'.
Proof. intros [= Q1 Q2 Q3 Q4 Q5 Q6 Q7 Q8 Q9 Q10] []. constructor; congruence. Qed.

(** Where the caller is once a part of [Start] has returned, if it started the
    process: in startVMM, in a handler after it, and in [Start] itself. *)
Definition startVMM_at (err : error) (c : caller_pc) : Prop :=
  c = match err with Some e => FailingCleanup e | None => Configuring end.
Definition handlers_at (err : error) (c : caller_pc) : Prop :=
  match err with Some e => c = FailingCleanup e ∨ c = ConfigFailed e | None => c = Configuring end.
Definition Start_at (err : error) (c : caller_pc) : Prop :=
  match err with Some e => c = Returned (Some e) ∨ c = NotConfigured e | None => c = Returned None end.

(** The part failed before there was a process, or shows a state of the goroutines. *)
Definition starting (at_ : error → caller_pc → Prop) (r : Outcome error) (w : World) : Prop :=
  ∀ err, r = Val err →
    (is_Some err ∧ errCh (machine w) = ErrChNone) ∨
    ∃ s, rtc step initial s ∧ shows w s ∧ at_ err (caller s).

Lemma startVMM_steps fuel o w h :
  launched w → is_daemonized (Cfg (machine w)) = daemonized → SocketPath (Cfg (machine w)) = path →
  wp (startVMM fuel) (λ r w' _, starting startVMM_at r w') o w h.
Proof.
  intros Hl Hd Hp. unfold startVMM. apply wp_bind.
  pose proof (unshown_start_process o w h) as Hk.
  unfold wp at 1. destruct (start_process o w h) as [[[[e|]| |] w1] h1]; [| |done..].
  - pose proof (unshown_launched _ _ Hk Hl) as []. unfold finish, close_exitCh, get_machine, modify_machine.
    apply wp_bind, wp_bind, wp_modify, wp_bind, wp_bind, wp_get, wp_ret. simpl. rewrite la_exitCh0.
    apply wp_modify, wp_ret. intros ? [= <-]. left. split; [by eexists|done].
  - pose proof Hk as [= _ Hd1 Hp1 _ _ _ _ _ _ _].
    eapply wp_mono; [apply await_socket_steps; [by eapply unshown_launched|congruence..]|].
    intros r w' h' Hv err Herr. right. by apply Hv.
Qed.

(** What [Start] does once the VMM is up. *)
Lemma configuring_steps (m : M error) o w h s :
  keeps unshown m → rtc step initial s → shows w s → caller s = Configuring →
  wp m (λ r w' _, starting handlers_at r w') o w h.
Proof.
  intros Hm Hr Hs Hc. specialize (Hm o w h). unfold wp. destruct (m o w h) as [[[err| |] w'] h']; [|done..].
  intros ? [= <-]. right. destruct (unshown_simulated _ _ Hm s Hs) as (s' & Hr' & Hs' & Hc'). rewrite Hc in Hc'.
  destruct err as [e|]; [|exists s'; split; [by etransitivity|]; split; [done|by rewrite Hc']].
  exists (set_caller (ConfigFailed e) s'). split; [|split; [|by right]].
  - etransitivity; [exact Hr|]. etransitivity; [exact Hr'|]. eapply rtc_once. right. by apply configuring_fails.
  - destruct Hs' as [[] ? ?]. constructor; [constructor|..]; done.
Qed.

Lemma handlers_steps fuel ctx (before : list (Handler HandlerFn)) x after o w h :
  Handler_Fn x = StartVMM → Forall (λ y, Handler_Fn y ≠ StartVMM) (before ++ after) →
  launched w → is_daemonized (Cfg (machine w)) = daemonized → SocketPath (Cfg (machine w)) = path →
  wp (HandlerList_Run (exec_handler fuel ctx) (before ++ x :: after)) (λ r w' _, starting handlers_at r w') o w h.
Proof.
  intros Hx [Hb Ha]%Forall_app Hl Hd Hp. eapply wp_ext; [apply HandlerList_Run_app|]. apply wp_bind. pose proof (unshown_handlers fuel ctx before Hb o w h) as Hk.
  unfold wp at 1. destruct (HandlerList_Run _ before o w h) as [[[[e|]| |] w1] h1]; [| |done..].
  { apply wp_ret. intros ? [= <-]. left. split; [by eexists|]. by destruct (unshown_launched _ _ Hk Hl). }
  pose proof Hk as [= _ Hd1 Hp1 _ _ _ _ _ _ _].
  unfold HandlerList_Run. cbn [range_err]. rewrite Hx. cbn [exec_handler]. apply wp_bind.
  eapply wp_mono; [apply startVMM_steps; [by eapply unshown_launched|congruence..]|].
  intros [err| |] w2 h2 Hv; [|done..]. destruct (Hv err eq_refl) as [[[e ->] Hn]|(s & Hr & Hs & Hc)].
  { apply wp_ret. intros ? [= <-]. left. by split; [eexists|]. }
  destruct err as [e|]; unfold startVMM_at in Hc.
  - apply wp_ret. intros ? [= <-]. right. exists s. split; [done|]. split; [done|by left].
  - by apply (configuring_steps _ _ _ _ s); [apply (unshown_handlers fuel ctx after Ha)|..].
Qed.

(** The cleanup [Start] defers, and its return. *)
Lemma undone_steps e o w h s :
  rtc step initial s → shows w s → handlers_at (Some e) (caller s) →
  wp (doCleanup ;; go_ret (Some e)) (λ r w' _, starting Start_at r w') o w h.
Proof.
  intros Hr [Hs Hw He] Hc. apply wp_bind. eapply wp_mono; [apply doCleanup_world|]. intros r w' h' ([? ->] & ->).
  apply wp_ret. intros ? [= <-]. right. destruct Hc as [Hc|Hc].
  - exists (cleanup_once (set_caller (Returned (Some e)) s)). split; [|split; [|by left]].
    + etransitivity; [exact Hr|]. eapply rtc_once. left. by apply caller_cleans.
    + constructor; [|done|done]. destruct Hs. constructor; simpl; try done. by destruct (cleanups s).
  - exists (cleanup_once (set_caller (NotConfigured e) s)). split; [|split; [|by right]].
    + etransitivity; [exact Hr|]. eapply rtc_once. left. by apply caller_undoes.
    + constructor; [|done|done]. destruct Hs. constructor; simpl; try done. by destruct (cleanups s).
Qed.
End simulation.

(** A machine that has not been started. *)
Record unstarted (w : World) : Prop := {
  un_started : started (machine w) = false;
  un_errCh : errCh (machine w) = ErrChNone;
  un_exitCh : exitCh (machine w) = false;
  un_cleanupCh : cleanupCh (machine w) = false;
  un_cleanupDone : cleanupDone (machine w) = false;
  un_watching : watching (machine w) = false;
  un_fatalErr : fatalErr (machine w) = None
}.

(** A list of handlers that starts the process once. *)
Definition starts_once (l : list (Handler HandlerFn)) : Prop :=
  ∃ before x after, l = before ++ x :: after ∧ Handler_Fn x = StartVMM ∧
    Forall (λ y, Handler_Fn y ≠ StartVMM) (before ++ after).

Section refinement.
Context `{Growth} `{DefaultTimeout} `{Multierror} `{NetlinkConstants}.

Lemma Start_steps fuel ctx o w h :
  unstarted w →
  Forall (λ y, Handler_Fn y ≠ StartVMM) (elems (heap_ w) (Validation (Handlers_ (machine w)))) →
  starts_once (elems (heap_ w) (FcInit (Handlers_ (machine w)))) →
  let d := is_daemonized (Cfg (machine w)) in
  let p := SocketPath (Cfg (machine w)) in
  wp (Start fuel ctx) (λ r w' _, starting d p Start_at r w') o w h.
Proof.
  intros Hu Hv (before & x & after & Hl & Hx & Hba) d p.
  unfold Start, get_machine, modify_machine. apply wp_bind, wp_bind, wp_get, wp_ret. rewrite (un_started _ Hu).
  apply wp_bind, wp_modify, wp_bind, wp_bind. unfold run_handlers. apply wp_bind, wp_get. unfold Handlers_Run, Spec.Append.
  simpl. rewrite Hl.
  set (checks := if DisableValidation _ then [] else _).
  assert (Forall (λ y, Handler_Fn y ≠ StartVMM) ((checks ++ before) ++ after)) as Hall.
  { rewrite <- app_assoc. apply Forall_app. split; [|done]. unfold checks. by destruct (DisableValidation _); [constructor|]. }
  rewrite app_assoc. eapply wp_mono; [apply (handlers_steps d p); [done|exact Hall|by destruct Hu|done..]|].
  intros [err| |] w1 h1 Hs; [|done..]. destruct (Hs err eq_refl) as [[[e ->] Hn]|(s & Hr & Hsh & Hc)].
  { apply wp_ret, wp_bind. eapply wp_mono; [apply doCleanup_world|]. intros r w2 h2 ([? ->] & ->).
    apply wp_ret. intros ? [= <-]. left. by split; [eexists|]. }
  destruct err as [e|].
  - apply wp_ret. by apply (undone_steps d p e _ _ _ s).
  - eapply wp_mono; [by apply (configuring_steps d p _ _ _ _ s); [apply unshown_startInstance|..]|].
    intros [err| |] w2 h2 Hs2; [|done..]. destruct (Hs2 err eq_refl) as [[[e ->] Hn]|(s2 & Hr2 & Hsh2 & Hc2)].
    { apply wp_bind. eapply wp_mono; [apply doCleanup_world|]. intros r w3 h3 ([? ->] & ->).
      apply wp_ret. intros ? [= <-]. left. by split; [eexists|]. }
    destruct err as [e|]; [by apply (undone_steps d p e _ _ _ s2)|].
    apply wp_ret. intros ? [= <-]. right. exists (set_caller (Returned None) s2). split; [|split; [|done]].
    + etransitivity; [exact Hr2|]. eapply rtc_once. right. by apply configured.
    + destruct Hsh2 as [[] ? ?]. constructor; [constructor|..]; done.
Qed.

(** C10. Every run of a machine, the whole of its first [Start] followed by any
    sequence of calls that return and the end of the process, is a run of the
    goroutines of [startVMM] and of the caller of [Start]: either [Start] failed before there was a process, or
    the state the machine is in is one they can reach, with the same channels closed,
    the same fatal error and the same cleanup, and the caller is where the result of
    [Start] says: it returned nil, or the error of [startVMM], or that of a later
    handler or of starting the instance, after its deferred cleanup. *)
Theorem machine_refines_lifecycle fuel ctx (ops : list operation) (o : Oracle Sys) (w w1 w2 : World) err h h1 :
  unstarted w →
  Forall (λ y, Handler_Fn y ≠ StartVMM) (elems (heap_ w) (Validation (Handlers_ (machine w)))) →
  starts_once (elems (heap_ w) (FcInit (Handlers_ (machine w)))) →
  Start fuel ctx o w h = (Val err, w1, h1) → runs ops w1 w2 →
  let d := is_daemonized (Cfg (machine w)) in
  let p := SocketPath (Cfg (machine w)) in
  (is_Some err ∧ errCh (machine w1) = ErrChNone) ∨
  ∃ s, reachable d (socket_error p) s ∧ shows d p w2 s ∧
    match err with
    | Some e => caller s = Returned (Some e) ∨ caller s = NotConfigured e
    | None => caller s = Returned None
    end.
Proof.
  intros Hu Hv Hf Hrun Hr. cbv zeta. pose proof (Start_steps fuel ctx o w h Hu Hv Hf) as Ha. cbv zeta in Ha.
  unfold wp in Ha. rewrite Hrun in Ha. destruct (Ha err eq_refl) as [?|(s1 & Hr1 & Hs1 & Hc1)]; [by left|right].
  destruct (runs_simulated _ _ ops w1 w2 Hr (sh_started _ _ _ _ (shows_rest_of _ _ _ _ Hs1)) s1 Hs1) as (s2 & Hr2 & Hs2 & Hc2).
  exists s2. split; [unfold reachable; etransitivity; [exact Hr1|exact Hr2]|]. split; [done|]. by rewrite Hc2.
Qed.
End refinement.

Module Examples.
Lemma created_starts_once : starts_once (elems (heap_ created) (FcInit (Handlers_ (machine created)))).
Proof.
  exists (take 2 defaultFcInitHandlerList), StartVMMHandler, (drop 3 defaultFcInitHandlerList).
  split; [vm_compute; reflexivity|]. split; [reflexivity|]. repeat constructor; discriminate.
Qed.

(** The sample machine starts, and then its process ends. *)
Lemma machine_refines_lifecycle_witness :
  ∃ s, reachable false (socket_error "/tmp/fc.sock") s ∧
    caller s = Returned None ∧ exitCh_closed s = true ∧ cleanupCh_closed s = true.
Proof.
  assert (unstarted created) as Hu by (constructor; vm_compute; reflexivity).
  assert ((Start 5 Background sample_host created []).1.1 = Val None) as Hv by (vm_compute; reflexivity).
  set (w1 := after (Start 5 Background) sample_host created).
  assert (Start 5 Background sample_host created [] = (Val None, w1, (Start 5 Background sample_host created []).2)) as Hrun
    by (unfold w1; apply run_after; exact Hv).
  set (w2 := (run_operation (ProcessEnds None) sample_host w1 []).1.2).
  assert (runs [ProcessEnds None] w1 w2) as Hr.
  { eapply (runs_compute _ _ sample_host _ _ []); [vm_compute; reflexivity | apply runs_nil]. }
  destruct (machine_refines_lifecycle 5 Background [ProcessEnds None] sample_host created w1 w2 None [] _ Hu
    ltac:(repeat constructor; discriminate) created_starts_once Hrun Hr)
    as [[[? ?] _]|(s & Hreach & [Hs _ _] & Hc)]; [discriminate|].
  exists s. split; [exact Hreach|]. split; [exact Hc|].
  assert (exitCh (machine w2) = true) as Hx by (vm_compute; reflexivity).
  assert (cleanupCh (machine w2) = true) as Hcl by (vm_compute; reflexivity).
  destruct Hs. split; congruence.
Defined.
End Examples.
