(* ===== verification/TypedRequests.v ===== *)
(** * The requests of a start are well typed (src/machine.go, client/models)

    A configuration whose parts satisfy their models keeps doing so while a
    machine starts, and every changing request that [Start] sends, whether it
    succeeds or not, has a body its model's [Validate] accepts. *)

From stdpp Require Import gmap strings list.
From Stdlib Require Import ZArith Lia.
From S2P Require Import Prelude GoStrings KernelArgs Models ApiParams Slices Handlers Builders Commands Vmconf Client Netlink Sys Network Config MachineApi Vmm Machine MachineFacts Concrete RequestFacts.

Open Scope string_scope.
Open Scope Z_scope.
Open Scope list_scope.

(** ** Well-typed configurations and requests *)
Section typed.
Context `{ValidationLaws} `{Growth} `{DefaultTimeout} `{Multierror} `{NetlinkConstants}.
Implicit Types (ctx : go_context) (o : Oracle Sys).

Definition limiter_ok (r : option RateLimiter) : Prop := when_present (λ r, RateLimiter_Validate r = None) r.

Definition iface_ok (iface : FcNetworkInterface) : Prop :=
  limiter_ok (InRateLimiter iface) ∧ limiter_ok (OutRateLimiter iface).

(** What the models ask of the parts of a configuration that are sent as they are. *)
Record config_ok (cfg : Config) : Prop := {
  ok_machine : MachineConfiguration_Validate (MachineCfg cfg) = None;
  ok_drives : Forall (λ d, Drive_Validate d = None) (Drives cfg);
  ok_ifaces : Forall iface_ok (Cfg_NetworkInterfaces cfg);
  ok_vsocks : Forall (λ v, 3 <= VsockDevice_CID v) (VsockDevices cfg);
  ok_level : LogLevel cfg = "" ∨ LogLevel cfg ∈ loggerTypeLevelPropEnum;
  ok_backend : when_present (λ b, MemoryBackend_Validate b = None) (Snapshot_MemBackend (Snapshot cfg))
}.

(** The body is there and passes the [Validate] of its model. *)
Definition passes {A} (validate : A → error) (body : option A) : Prop :=
  present (λ b, validate b = None) body.

Definition request_ok (a : api_write) : Prop :=
  match a with
  | WLogger b => passes Logger_Validate b
  | WMetrics b => passes Metrics_Validate b
  | WMachineConfiguration b => passes MachineConfiguration_Validate b
  | WBootSource b => passes BootSource_Validate b
  | WDrive _ b => passes Drive_Validate b
  | WNetworkInterface id b => passes NetworkInterface_Validate b ∧ (NetworkInterface_IfaceID <$> b) = Some (Some id)
  | WVsock b => passes Vsock_Validate b
  | WMmdsConfig b => passes MmdsConfig_Validate b
  | WMmds _ => True (* any JSON *)
  | WBalloon b => passes Balloon_Validate b
  | WLoadSnapshot b => passes SnapshotLoadParams_Validate b
  | WAction b => passes InstanceActionInfo_Validate b
  | WOther => False (* not a request of a start *)
  end.

(** [m] sends only such requests and leaves such a configuration, given one. *)
Definition typed {A} (m : M A) : Prop :=
  ∀ o w h, config_ok (Cfg (machine w)) →
    wp m (λ r w' h', (∃ t, h' = h ++ t ∧ Forall request_ok (writes t).*1) ∧
                     (is_val r → config_ok (Cfg (machine w')))) o w h.

Definition cfg_kept (w w' : World) : Prop := config_ok (Cfg (machine w)) → config_ok (Cfg (machine w')).

#[local] Instance cfg_kept_preorder : PreOrder cfg_kept.
Proof. split; [by intros w ?|]. intros w1 w2 w3 H12 H23 ?. by apply H23, H12. Qed.

Lemma keeps_weaken {A} (R R' : World → World → Prop) (m : M A) :
  (∀ w w', R w w' → R' w w') → keeps R m → keeps R' m.
Proof. intros HR Hm o w h. specialize (Hm o w h). destruct (m o w h) as [[[a| |] w'] h']; auto. Qed.

Lemma same_cfg_kept {A} (m : M A) : keeps same_cfg m → keeps cfg_kept m.
Proof. apply keeps_weaken. unfold same_cfg, cfg_kept. intros w w' ->. done. Qed.

Lemma typed_silent {A} (m : M A) : silent m → keeps cfg_kept m → typed m.
Proof.
  intros Hs Hk o w h Hw. specialize (Hk o w h). destruct (Hs o w h) as (t & Ht & Hw'). unfold wp.
  destruct (m o w h) as [[r w'] h']. simpl in Ht. split.
  - exists t. by rewrite Hw'.
  - intros [a ->]. by apply Hk.
Qed.

Lemma typed_bind_with {A B} (P : A → Prop) (m : M A) (k : A → M B) :
  typed m → returns P m → (∀ a, P a → typed (k a)) → typed (go_bind m k).
Proof.
  intros Hm Hp Hk o w h Hw. apply wp_bind. specialize (Hm o w h Hw). specialize (Hp o w h). unfold wp in Hm |- * at 1.
  destruct (m o w h) as [[[a| |] w1] h1]; simpl in Hp; destruct Hm as [(t & -> & Ht) Hc]; [|by split; [exists t|intros []]..].
  eapply wp_mono; [apply (Hk a Hp); apply Hc; by eexists|]. cbv beta. intros r w' h' [(t' & -> & Ht') Hc'].
  split; [|done]. exists (t ++ t'). rewrite app_assoc. split; [done|].
  unfold writes in *. rewrite omap_app, fmap_app. by apply Forall_app.
Qed.

Lemma typed_bind {A B} (m : M A) (k : A → M B) : typed m → (∀ a, typed (k a)) → typed (go_bind m k).
Proof. intros Hm Hk. apply (typed_bind_with (λ _, True)); [done|by intros o w h; destruct (m o w h).1.1|auto]. Qed.

Lemma typed_ret {A} (a : A) : typed (go_ret a).
Proof. intros o w h Hw. split; [exists []; by rewrite app_nil_r|done]. Qed.

Lemma typed_get_cfg {A} (k : Config → M A) : (∀ cfg, config_ok cfg → typed (k cfg)) → typed (cfg <- get_cfg ; k cfg).
Proof. intros Hk o w h Hw. exact (Hk _ Hw o w h Hw). Qed.

Lemma typed_client {A} (k : Client → M A) : (∀ c, typed (k c)) → typed (c <- get_client ; k c).
Proof.
  apply typed_bind, typed_silent; [apply silent_get_client|]. by apply same_cfg_kept, same_cfg_get_client.
Qed.

Lemma typed_modify_cfg f : (∀ cfg, config_ok cfg → config_ok (f cfg)) → typed (modify_cfg f).
Proof. intros Hf o w h Hw. split; [exists []; by rewrite app_nil_r|]. intros _. by apply Hf. Qed.

Lemma typed_range_err {A} (P : A → Prop) (f : A → M error) l :
  Forall P l → (∀ x, P x → typed (f x)) → typed (range_err f l).
Proof.
  intros Hl Hf. induction Hl as [|x l Hx Hl IH]; simpl; [apply typed_ret|].
  apply typed_bind; [auto|]. intros [e|]; [apply typed_ret|done].
Qed.

Lemma typed_try (m m' : M error) : typed m → typed m' → typed (try m ;; m').
Proof. intros ??. apply typed_bind; [done|]. intros [e|]; [apply typed_ret|done]. Qed.

(** A request with a well-typed body. *)
Lemma typed_write (f : Client) (c : ClientIface error) (a : api_write) :
  (∀ r, api_write_of c r = Some (a, r)) → request_ok a → typed (operations f c).
Proof.
  intros Hc Ha o w h Hw. unfold operations. apply wp_call. split; [|done].
  eexists. split; [reflexivity|]. unfold writes, ops_call, sys_ops. cbn [omap list_omap write_of]. rewrite Hc.
  by constructor.
Qed.

(** ** The handlers that change the configuration *)
#[local] Hint Extern 1 (keeps cfg_kept (modify_machine _)) => apply keeps_modify; unfold cfg_kept; intros ?; auto : go_keeps.

(** Setting up the network changes no limiter. *)
Lemma setupNetwork_limiters ctx ifaces vmID nsPath :
  Forall iface_ok ifaces →
  returns (λ '(_, _, ifaces'), Forall iface_ok ifaces')
    (NetworkInterfaces_setupNetwork (S := World) ctx ifaces vmID nsPath).
Proof.
  assert (∀ l, Forall iface_ok l ↔ Forall (λ '(_, i, o), limiter_ok i ∧ limiter_ok o) (device <$> l)) as Hd
    by (intros l; by rewrite Forall_fmap).
  intros Hok%Hd. eapply returns_mono; [apply setupNetwork_devices|]. intros [[e fs] ifaces'] Heq. apply Hd. by rewrite Heq.
Qed.

Lemma typed_setupNetwork ctx : typed (setupNetwork ctx).
Proof.
  unfold setupNetwork. apply typed_get_cfg. intros cfg Hcfg.
  apply (typed_bind_with (λ '(_, _, ifaces'), Forall iface_ok ifaces')).
  - apply typed_silent; [apply silent_setupNetwork_run|]. apply keeps_weaken with eq; [by intros w ? <-|].
    apply keeps_setupNetwork_eq.
  - apply setupNetwork_limiters, Hcfg.
  - intros [[err fs] ifaces] Hi. apply typed_bind.
    + apply typed_modify_cfg. intros cfg' []. by constructor.
    + intros _. apply typed_bind; [|intros _; apply typed_ret]. apply typed_silent; [by apply silent_state|].
      unfold add_cleanup. go_keeps.
Qed.

(** A change of fields that are not sent as they are. *)
Lemma kept_modify_cfg f : (∀ cfg, config_ok cfg → config_ok (f cfg)) → keeps cfg_kept (modify_cfg f).
Proof. intros Hf. apply keeps_modify. intros w Hw. by apply Hf. Qed.

Ltac kept_fields := apply kept_modify_cfg; intros ? []; constructor; done.
#[local] Hint Extern 2 (keeps cfg_kept (modify_cfg (set_KernelArgs_ _))) => kept_fields : go_keeps.
#[local] Hint Extern 2 (keeps cfg_kept (modify_cfg (set_KernelImagePath _))) => kept_fields : go_keeps.
#[local] Hint Extern 2 (keeps cfg_kept (modify_cfg (set_InitrdPath _))) => kept_fields : go_keeps.
#[local] Hint Extern 2 (keeps cfg_kept (modify_cfg (set_LogFifo _))) => kept_fields : go_keeps.
#[local] Hint Extern 2 (keeps cfg_kept (modify_cfg (set_MetricsFifo _))) => kept_fields : go_keeps.
#[local] Hint Extern 1 (keeps cfg_kept get_cfg) => apply same_cfg_kept; unfold get_cfg, get_machine; go_keeps : go_keeps.

Lemma typed_setupKernelArgs : typed setupKernelArgs.
Proof. apply typed_silent; [apply silent_setupKernelArgs|]. unfold setupKernelArgs, ipBootParam. go_keeps. Qed.

Lemma kept_link_drives rootfs i drives : keeps cfg_kept (link_drives rootfs i drives).
Proof.
  revert i. induction drives as [|d drives IH]; intros i; simpl; [go_keeps|]. unfold link_into.
  apply keeps_bind; [exact _|go_keeps|]. intros [e|]; [go_keeps|].
  apply keeps_bind; [exact _| |done]. apply kept_modify_cfg. intros cfg []. constructor; try done. simpl.
  apply Forall_alter; [done|]. intros d' _. rewrite !Drive_Validate_iff. unfold Drive_valid. simpl. intuition eauto.
Qed.
#[local] Hint Resolve kept_link_drives : go_keeps.

Lemma typed_linkFiles name : typed (linkFiles name).
Proof. apply typed_silent; [apply silent_linkFiles|]. unfold linkFiles, link_fifo, link_into. go_keeps. Qed.

(** ** All handlers *)
#[local] Hint Resolve same_cfg_startVMM same_cfg_createLogFiles : go_keeps.
#[local] Hint Extern 1 (keeps same_cfg (Config_Validate _)) => apply same_cfg_validation : go_keeps.
#[local] Hint Extern 1 (keeps same_cfg (Config_ValidateLoadSnapshot _)) => apply same_cfg_validation : go_keeps.

Lemma typed_refresh : typed refreshMachineConfiguration.
Proof.
  pose proof silent_get_client. pose proof silent_GetMachineConfiguration. pose proof same_cfg_get_client.
  apply typed_silent; unfold refreshMachineConfiguration; [go_silent|]. apply same_cfg_kept.
  unfold Client_GetMachineConfiguration, operations. go_keeps.
Qed.

Lemma typed_logging ctx : typed (try setupLogging ctx ;; setupMetrics ctx).
Proof.
  apply typed_try; apply typed_get_cfg; intros cfg []; cbv zeta.
  - destruct (LogFifo cfg =? "")%string; (destruct (_ =? "")%string; [apply typed_ret|]);
      apply typed_client; intros c; (eapply typed_write; [by intros r|]); simpl;
      rewrite Logger_Validate_iff; unfold Logger_valid; simpl;
      destruct (String.eqb_spec (LogLevel cfg) ""); naive_solver.
  - destruct (MetricsFifo cfg =? "")%string; (destruct (_ =? "")%string; [apply typed_ret|]);
      apply typed_client; intros c; (eapply typed_write; [by intros r|]); simpl;
      rewrite Metrics_Validate_iff; unfold Metrics_valid; simpl; eauto.
Qed.

(** One request for a client, its body accepted by its model. *)
Ltac typed_request := apply typed_client; intros c; eapply typed_write; [by intros r|]; simpl.

Lemma limiter_ok_iff r : limiter_ok r ↔ when_present RateLimiter_valid r.
Proof. destruct r; [apply RateLimiter_Validate_iff|done]. Qed.

Lemma typed_interfaces ctx ifaces : Forall iface_ok ifaces → typed (createNetworkInterfaces ctx ifaces).
Proof.
  intros Hok. unfold createNetworkInterfaces. apply (typed_range_err (λ '(_, iface), iface_ok iface)).
  { apply Forall_lookup_2. intros k [i iface]. rewrite list_lookup_imap. destruct (ifaces !! k) eqn:Hk; [|done].
    intros [= <- <-]. by apply (Forall_lookup_1 _ _ _ _ Hok Hk). }
  intros [i iface] [Hin Hout]. unfold createNetworkInterface.
  destruct (StaticConfiguration iface) as [static|]; [|apply typed_ret]. cbv zeta. typed_request.
  split; [|done]. rewrite NetworkInterface_Validate_iff. unfold NetworkInterface_valid, iface_model. simpl.
  by rewrite <- !limiter_ok_iff; repeat split; try by eexists.
Qed.

Lemma typed_mmds ctx address ifaces version : typed (setMmdsConfig ctx address ifaces version).
Proof.
  unfold setMmdsConfig. destruct (allowed_ids ifaces) as [|id ids]; cbv zeta; [apply typed_ret|]. typed_request.
  rewrite MmdsConfig_Validate_iff. unfold MmdsConfig_valid. simpl. split; [eauto|].
  destruct (String.eqb_spec version MMDSv1) as [->|_]; [|destruct (String.eqb_spec version MMDSv2) as [->|_]];
    simpl; unfold mmdsConfigTypeVersionPropEnum; set_solver.
Qed.

Lemma typed_exec_handler fuel ctx fn : typed (exec_handler fuel ctx fn).
Proof.
  assert (is_silent fn = true → keeps same_cfg (exec_handler fuel ctx fn) → typed (exec_handler fuel ctx fn)) as Hs.
  { intros. by apply typed_silent; [apply silent_exec_handler|apply same_cfg_kept]. }
  destruct fn; try (apply Hs; [done|]; cbn [exec_handler]; go_keeps; fail); clear Hs; cbn [exec_handler].
  - apply typed_logging.
  - apply typed_get_cfg. intros cfg []. apply typed_client. intros c. apply typed_try; [|apply typed_refresh].
    by eapply typed_write; [by intros r|].
  - apply typed_get_cfg. intros cfg _. unfold createBootSource. cbv zeta. typed_request.
    rewrite BootSource_Validate_iff. by eexists.
  - apply typed_get_cfg. intros cfg []. apply (typed_range_err _ _ _ ok_drives0). intros d Hd.
    unfold attachDrive. by typed_request.
  - apply typed_get_cfg. intros cfg []. by apply typed_interfaces.
  - apply typed_setupNetwork.
  - apply typed_setupKernelArgs.
  - apply typed_get_cfg. intros cfg0 _. apply typed_get_cfg. intros cfg [].
    apply (typed_range_err _ _ _ ok_vsocks0). intros v Hv. unfold addVsock. cbv zeta. typed_request.
    rewrite Vsock_Validate_iff. split; [done|by eexists].
  - unfold SetMetadata. by typed_request.
  - apply typed_get_cfg. intros cfg _. apply typed_mmds.
  - unfold CreateBalloon. typed_request. rewrite Balloon_Validate_iff. split; by eexists.
  - apply typed_get_cfg. intros cfg []. unfold loadSnapshot. cbv zeta. apply typed_client. intros c.
    apply typed_bind; [|intros err; apply typed_ret]. eapply typed_write; [by intros r|]. simpl.
    unfold SnapshotLoadParams_Validate, SnapshotLoadParams_validateMemBackend, SnapshotLoadParams_validateSnapshotPath.
    simpl. rewrite composite_cons, composite_one, validate_Required_spec. split; [|by eexists].
    destruct (Snapshot_MemBackend _); [|done]. by rewrite validated_None.
  - apply typed_linkFiles.
Qed.

Lemma typed_handlers fuel ctx (l : list (Handler HandlerFn)) :
  typed (HandlerList_Run (exec_handler fuel ctx) l).
Proof.
  unfold HandlerList_Run. apply (typed_range_err (λ _, True)); [by apply Forall_true|].
  intros x _. apply typed_exec_handler.
Qed.

Lemma typed_doCleanup : typed doCleanup.
Proof. apply typed_silent; [apply silent_doCleanup|apply same_cfg_kept, same_cfg_doCleanup]. Qed.

Lemma typed_startInstance ctx : typed (startInstance ctx).
Proof.
  apply typed_get_cfg. intros cfg _. destruct (hasSnapshot cfg); [apply typed_ret|]. typed_request.
  unfold InstanceActionInfo_Validate, InstanceActionInfo_validateActionType, InstanceActionInfo_validateActionTypeEnum. simpl.
  rewrite composite_one.
  assert (validate_Required "action_type" "body" (Some InstanceActionInfoActionTypeInstanceStart) = None) as Hr
    by (apply validate_Required_spec; by eexists).
  rewrite Hr. apply validate_Enum_spec. unfold instanceActionInfoTypeActionTypePropEnum. set_solver.
Qed.

(** C7. Well-typed requests: from a configuration whose parts their models accept,
    whatever handlers the machine has and whatever the environment does, every
    changing request [Start] sends has a body, and one its model's [Validate]
    accepts; the configuration a start leaves is again such a configuration. *)
Theorem Start_requests_typed (fuel : nat) ctx o (w : World) h :
  config_ok (Cfg (machine w)) →
  wp (Start fuel ctx) (λ r w' h',
    (∃ t, h' = h ++ t ∧ Forall request_ok (writes t).*1) ∧
    (is_val r → config_ok (Cfg (machine w')))) o w h.
Proof.
  assert (typed (Start fuel ctx)) as Ht; [|exact (Ht o w h)].
  unfold Start. apply typed_bind; [by apply typed_silent; [go_silent|apply same_cfg_kept; go_keeps]|].
  intros m. destruct (started m); [apply typed_ret|]. apply typed_bind.
  { apply typed_silent; [go_silent|]. apply same_cfg_kept. go_keeps. }
  intros _. apply typed_bind.
  - apply typed_try; [|apply typed_startInstance]. unfold run_handlers. apply typed_bind.
    { apply typed_silent; [go_silent|]. go_keeps. }
    intros w'. unfold Handlers_Run. apply typed_handlers.
  - intros [e|]; [|apply typed_ret]. apply typed_bind; [apply typed_doCleanup|intros ?; apply typed_ret].
Qed.
End typed.

Module Examples.
(** The default machine of Concrete.v, whose start sends four such requests. *)
Lemma Start_requests_typed_witness :
  Forall request_ok (writes (Start 5 Background sample_host created []).2).*1 ∧
  length (writes (Start 5 Background sample_host created []).2) = 4%nat.
Proof.
  assert (config_ok (Cfg (machine created))) as Hok.
  { constructor; [vm_compute; reflexivity|repeat constructor|constructor|constructor|left; vm_compute; reflexivity|exact I]. }
  pose proof (Start_requests_typed 5 Background sample_host created [] Hok) as Ht. unfold wp in Ht.
  split; [|vm_compute; reflexivity].
  destruct (Start 5 Background sample_host created []) as [[r w'] h'].
  destruct Ht as [(t & -> & Ht) _]. exact Ht.
Defined.
End Examples.
