(* ===== verification/Reuse.v ===== *)
(** * Using a configuration again (src/machine.go, src/network.go)

    [NewMachine] copies the [Config] it is given, but the copy shares the arrays of
    its slices with the caller's: what a start changes in the network interfaces
    and drives of its machine, the caller's configuration reads too.  A
    configuration with a CNI interface therefore makes one machine that starts; the
    CNI cache directory and the paths of linked drives are left to the next one. *)

From stdpp Require Import gmap strings list.
From Stdlib Require Import ZArith Lia.
From S2P Require Import Prelude GoStrings KernelArgs Models ApiParams Slices Handlers Builders Commands Vmconf Client Netlink Sys Network Config MachineApi Vmm Machine MachineFacts Concrete RequestFacts JailFacts.

Open Scope string_scope.
Open Scope Z_scope.
Open Scope list_scope.

(** The caller's configuration after the machine of [w], made of it, has run: the
    elements of its slices are those of the machine, which no operation appends to
    or cuts; the other fields are the caller's own. *)
Definition caller_config (cfg : Config) (w : World) : Config :=
  set_Cfg_NetworkInterfaces (Cfg_NetworkInterfaces (Cfg (machine w)))
    (set_Drives (Drives (Cfg (machine w))) cfg).

(** An interface with CNI configuration that has got its static configuration. *)
Definition used_up (ifaces : NetworkInterfaces) : Prop :=
  Exists (λ iface, hasCNI iface = true ∧ hasStaticInterface iface = true) ifaces.

Definition ifaces_of (w : World) : NetworkInterfaces := Cfg_NetworkInterfaces (Cfg (machine w)).

Lemma used_up_refused ifaces args : used_up ifaces → is_Some (NetworkInterfaces_validate ifaces args).
Proof.
  intros (iface & Hin & Hc & Hs)%Exists_exists. destruct (NetworkInterfaces_validate ifaces args) eqn:Hv; [by eexists|].
  unfold NetworkInterfaces_validate in Hv. rewrite first_failing_None, Forall_forall in Hv.
  specialize (Hv iface Hin). apply validate_iface_None in Hv as [Hv _].
  unfold iface_valid, hasCNI, hasStaticInterface in *. by repeat case_match.
Qed.

Lemma used_up_cni ifaces : used_up ifaces → is_Some (cniInterface ifaces).
Proof.
  intros (iface & Hin & Hc & _)%Exists_exists. destruct (cniInterface ifaces) as [i|] eqn:Hi; [by eexists|].
  apply index_of_None in Hi. rewrite Forall_forall in Hi. by rewrite (Hi iface Hin) in Hc.
Qed.

Section reuse.
Context `{Growth} `{DefaultTimeout} `{Multierror} `{NetlinkConstants}.
Implicit Types (ctx : go_context) (o : Oracle Sys).

(** ** A start uses up the interface *)
Lemma setupNetwork_used o ctx ifaces vmID nsPath (w : World) h :
  is_Some (cniInterface ifaces) →
  wp (NetworkInterfaces_setupNetwork ctx ifaces vmID nsPath)
    (λ r _ _, ∀ cs ifaces', r = Val (None, cs, ifaces') → used_up ifaces') o w h.
Proof.
  intros [i Hi]. unfold NetworkInterfaces_setupNetwork. rewrite Hi.
  destruct (index_of_Some _ _ _ Hi) as (iface & Hl & Hc). unfold hasCNI in Hc.
  destruct (CNIConfiguration_ iface) as [c|] eqn:Hcni; [|done].
  do 4 (wp_step; simplify_eq/=). apply wp_bind.
  eapply wp_mono; [apply setup_cni_interface_done|]. intros r s' h' Hr.
  destruct r as [[[err cs] iface']|w0|]; [wp_step|naive_solver..].
  intros cs' ifaces' [= -> -> <-]. specialize (Hr _ _ eq_refl). apply Exists_exists.
  exists iface'. split; [apply list_elem_of_lookup; exists i; apply list_lookup_insert_eq; by eapply lookup_lt_Some|].
  unfold hasCNI, hasStaticInterface. destruct Hr as [[Hs ->]|[Hs (static & -> & _)]]; simpl in *; [by destruct (StaticConfiguration iface)|done].
Qed.

Definition same_ifaces (w w' : World) : Prop := ifaces_of w' = ifaces_of w.
#[local] Instance same_ifaces_preorder : PreOrder same_ifaces.
Proof. split; unfold same_ifaces; [done|]. intros ??? H1' H2'. by rewrite H2'. Qed.

#[local] Hint Extern 1 (keeps same_ifaces get_cfg) => unfold get_cfg, get_machine; go_keeps : go_keeps.
#[local] Hint Extern 1 (keeps same_ifaces (modify_cfg _)) => apply keeps_modify; intros; reflexivity : go_keeps.

Lemma same_ifaces_link_drives rootfs i drives : keeps same_ifaces (link_drives rootfs i drives).
Proof. revert i. induction drives as [|d drives IH]; intros i; simpl; unfold link_into; go_keeps. Qed.
#[local] Hint Resolve same_ifaces_link_drives : go_keeps.

Lemma ifaces_kept fuel ctx fn o w h :
  fn ≠ SetupNetwork → wp (exec_handler fuel ctx fn) (λ r w' _, ∀ a, r = Val a → same_ifaces w w') o w h.
Proof.
  apply (kept_by_handler same_ifaces fuel ctx (λ fn, fn ≠ SetupNetwork)).
  - intros w1 w2 Hc. unfold same_ifaces, ifaces_of. by rewrite Hc.
  - intros fn' Hfn Hp. destruct fn'; try done; cbn [exec_handler];
      unfold setupKernelArgs, ipBootParam, linkFiles, link_fifo, link_into; go_keeps.
Qed.

Lemma used_by_setup ctx o w h :
  is_Some (cniInterface (ifaces_of w)) →
  wp (setupNetwork ctx) (λ r w' _, r = Val None → used_up (ifaces_of w')) o w h.
Proof.
  intros Hw. unfold setupNetwork, get_cfg, get_machine. do 5 wp_step. apply wp_bind.
  eapply wp_mono; [apply (setupNetwork_used o ctx _ _ _ w h Hw)|]. intros r w' h' Hr.
  destruct r as [[[err cs] ifaces']|?|]; [|done..]. unfold modify_cfg, modify_machine, add_cleanup. wp_steps.
  intros [= ->]. by apply (Hr _ _ eq_refl).
Qed.

Lemma used_by_handlers fuel ctx o (l : list (Handler HandlerFn)) w h :
  used_up (ifaces_of w) ∨ (is_Some (cniInterface (ifaces_of w)) ∧ Exists (λ x, Handler_Fn x = SetupNetwork) l) →
  wp (HandlerList_Run (exec_handler fuel ctx) l) (λ r w' _, r = Val None → used_up (ifaces_of w')) o w h.
Proof.
  revert w h. induction l as [|x l IH]; intros w h Hw.
  { unfold HandlerList_Run. cbn [range_err]. wp_step. intros _. destruct Hw as [?|[_ Hx]]; [done|by apply Exists_nil in Hx]. }
  unfold wp. rewrite HandlerList_Run_cons. change (wp (try exec_handler fuel ctx (Handler_Fn x) ;; HandlerList_Run (exec_handler fuel ctx) l)
    (λ r w' _, r = Val None → used_up (ifaces_of w')) o w h).
  apply wp_bind. destruct (decide (Handler_Fn x = SetupNetwork)) as [->|Hne].
  - cbn [exec_handler]. eapply wp_mono; [apply (used_by_setup ctx o w h); destruct Hw as [?%used_up_cni|[? _]]; done|].
    intros [[e|]| |] w' h' Hr; [by wp_step| |done..]. apply IH. left. by apply Hr.
  - eapply wp_mono; [by apply ifaces_kept|]. intros [[e|]| |] w' h' Hr; [by wp_step| |done..].
    apply IH. specialize (Hr _ eq_refl). rewrite Hr. destruct Hw as [?|[? Hx]]; [by left|right]. split; [done|].
    by apply Exists_cons in Hx as [?|?].
Qed.

Lemma Start_uses_up fuel ctx o w w' h h' :
  is_Some (cniInterface (ifaces_of w)) →
  Exists (λ x, Handler_Fn x = SetupNetwork) (elems (heap_ w) (FcInit (Handlers_ (machine w)))) →
  Start fuel ctx o w h = (Val None, w', h') → used_up (ifaces_of w').
Proof.
  intros Hc Hx (w2 & h2 & Hrun & Hsame)%Start_handlers. unfold ifaces_of. rewrite Hsame.
  set (w0 := mkWorld _ _) in Hrun.
  assert (wp (run_handlers fuel ctx) (λ r w' _, r = Val None → used_up (ifaces_of w')) o w0 h) as Hh.
  { unfold run_handlers. do 2 wp_step. apply used_by_handlers. right. split; [done|]. apply Exists_app. by right. }
  unfold wp in Hh. rewrite Hrun in Hh. by apply Hh.
Qed.

(** ** The next machine *)
Lemma Start_refused fuel ctx o w h rest :
  started (machine w) = false → cleanupFuncs (machine w) = [] →
  DisableValidation (Cfg (machine w)) = false →
  elems (heap_ w) (Validation (Handlers_ (machine w))) = NetworkConfigValidationHandler :: rest →
  used_up (ifaces_of w) →
  ∃ err w', Start fuel ctx o w h = (Val (Some err), w', h).
Proof.
  intros Hst Hcl Hd Hv Hu.
  destruct (used_up_refused _ (parseKernelArgs (KernelArgs_ (Cfg (machine w)))) Hu) as [err Herr].
  unfold Start, get_machine, modify_machine. run_unfold. rewrite Hst. simpl.
  unfold run_handlers, Handlers_Run, Spec.Append. run_unfold. simpl. rewrite Hd, Hv. simpl.
  unfold HandlerList_Run. cbn [range_err exec_handler Handler_Fn NetworkConfigValidationHandler app].
  unfold get_cfg, get_machine. run_unfold. simpl. unfold Config_ValidateNetwork. simpl. rewrite Hd.
  unfold ifaces_of in *. rewrite Herr. simpl. unfold doCleanup, get_machine, modify_machine. run_unfold. simpl.
  rewrite Hcl. destruct (cleanupDone (machine w)); simpl; by eexists _, _.
Qed.

(** C23. A configuration with a CNI interface makes one machine that starts: after a
    successful start of a machine made of it, with the network set up by its
    handlers, the interfaces of the caller's own configuration are no longer valid
    for any boot arguments, and a new machine made of that configuration, which
    validates its network first, as the default handlers do, refuses to start
    without a single call to its environment. *)
Theorem CNI_config_starts_once (cfg : Config) (fuel fuel2 : nat) ctx ctx2 (o o2 : Oracle Sys)
    (w w' w2 : World) h h' h2 rest :
  Cfg_NetworkInterfaces (Cfg (machine w)) = Cfg_NetworkInterfaces cfg →
  is_Some (cniInterface (Cfg_NetworkInterfaces cfg)) →
  Exists (λ x, Handler_Fn x = SetupNetwork) (elems (heap_ w) (FcInit (Handlers_ (machine w)))) →
  Start fuel ctx o w h = (Val None, w', h') →
  let cfg' := caller_config cfg w' in
  Cfg_NetworkInterfaces (Cfg (machine w2)) = Cfg_NetworkInterfaces cfg' →
  started (machine w2) = false → cleanupFuncs (machine w2) = [] → DisableValidation (Cfg (machine w2)) = false →
  elems (heap_ w2) (Validation (Handlers_ (machine w2))) = NetworkConfigValidationHandler :: rest →
  (∀ args, is_Some (NetworkInterfaces_validate (Cfg_NetworkInterfaces cfg') args)) ∧
  ∃ err w2', Start fuel2 ctx2 o2 w2 h2 = (Val (Some err), w2', h2).
Proof.
  intros Hcfg Hc Hx Hrun cfg' Hcfg2 Hst Hcl Hd Hv.
  assert (used_up (ifaces_of w')) as Hu by (apply (Start_uses_up fuel ctx o w w' h h'); [unfold ifaces_of; by rewrite Hcfg|done|done]).
  split; [intros args; by apply used_up_refused|].
  apply (Start_refused _ _ _ _ _ rest); try done. unfold ifaces_of. by rewrite Hcfg2.
Qed.
End reuse.

(** ** The other fields a run changes for the caller *)

(** The cache directory of CNI is chosen for the first machine: the next one keeps
    it, whatever its ID. *)
Lemma CacheDir_of_first (c : CNIConfiguration) (id nsPath id' nsPath' : string) :
  CacheDir c = "" →
  CacheDir (setDefaults (with_runtime (setDefaults (with_runtime c id nsPath)) id' nsPath')) =
    filepath_Join [defaultCNICacheDir; id].
Proof.
  intros Hc. cbn [setDefaults with_runtime CacheDir containerID]. rewrite Hc. cbn [String.eqb].
  case_match; [|done]. exfalso. by apply String.eqb_eq in H.
Qed.

(** Once the files of a jailed machine are linked, the drives of the caller's
    configuration have the names they have in the chroot: another machine made of
    it would link files relative to the directory the program runs in. *)
Lemma drives_after_link (cfg : Config) (w : World) (name rootfs : string) :
  linked_drive rootfs <$> Drives (caller_config cfg (with_cfg (chrooted name cfg) w)) =
  (λ d, let base := filepath_Base (drive_path d) in linked rootfs base (filepath_Base base)) <$> Drives cfg.
Proof. unfold caller_config. simpl. by rewrite <- list_fmap_compose. Qed.

Module Examples.
Definition cni_config : Config :=
  set_Cfg_NetworkInterfaces
    [mkFcNetworkInterface None (Some (mkCNIConfiguration "net" None "veth0" "eth0" [] [] "" "" "" "" false)) false None None]
    sample_config.

Definition first : World := after (NewMachine cni_config []) sample_host initial_world.
Definition first_running : World := after (Start 5 Background) sample_host first.

(** The same caller makes a second machine of the same configuration. *)
Definition second : World :=
  after (NewMachine (caller_config cni_config first_running) []) sample_host first_running.

Lemma CNI_config_starts_once_witness :
  (Start 5 Background sample_host first []).1.1 = Val None ∧
  ∃ err w2', Start 5 Background sample_host second [] = (Val (Some err), w2', []).
Proof.
  assert ((Start 5 Background sample_host first []).1.1 = Val None) as Hv by (vm_compute; reflexivity).
  split; [exact Hv|].
  apply (CNI_config_starts_once cni_config 5 5 Background Background sample_host sample_host first first_running second []
    (Start 5 Background sample_host first []).2 [] [ConfigValidationHandler]).
  - vm_compute. reflexivity.
  - vm_compute. by eexists.
  - assert (existsb (λ x, bool_decide (Handler_Fn x = SetupNetwork)) (elems (heap_ first) (FcInit (Handlers_ (machine first)))) = true)
      as Hx by (vm_compute; reflexivity).
    apply existsb_exists in Hx as (x & Hin & Hx). apply Exists_exists. exists x.
    split; [by apply list_elem_of_In|]. by apply bool_decide_eq_true_1 in Hx.
  - exact (run_after (Start 5 Background) sample_host first (Val None) Hv).
  - vm_compute. reflexivity.
  - vm_compute. reflexivity.
  - vm_compute. reflexivity.
  - vm_compute. reflexivity.
  - vm_compute. reflexivity.
Defined.
End Examples.
