(* ===== verification/ControlFacts.v ===== *)
(** * Controlling a running machine (src/machine.go)

    The methods of [Machine] that change a running VM: each sends one request,
    with a body its model accepts, and returns the answer. *)

From stdpp Require Import gmap strings list.
From Stdlib Require Import ZArith Lia.
From S2P Require Import Prelude GoStrings KernelArgs Models ApiParams Slices Handlers Builders Commands Vmconf Client Netlink Sys Network Config MachineApi Vmm Machine MachineFacts Concrete RequestFacts TypedRequests.

Open Scope string_scope.
Open Scope Z_scope.
Open Scope list_scope.

(** The methods, by their arguments. *)
Inductive control :=
  | Pause (opts : list PatchVMOpt)
  | Resume (opts : list PatchVMOpt)
  | TakeSnapshot (memFilePath snapshotPath : string) (opts : list CreateSnapshotOpt)
  | SetDrivePath (driveID pathOnHost : string) (opts : list PatchGuestDriveByIDOpt)
  | SetRateLimits (ifaceID : string) (rateLimiters : RateLimiterSet) (opts : list PatchGuestNetworkInterfaceByIDOpt)
  | PutBalloonDevice (amountMib : Z) (deflateOnOom : bool) (statsPollingIntervals : Z) (opts : list PutBalloonOpt)
  | ResizeBalloon (amountMib : Z) (opts : list PatchBalloonOpt)
  | SetBalloonInterval (statsPollingIntervals : Z) (opts : list PatchBalloonStatsIntervalOpt)
  | PutMetadata (metadata : MmdsContentsObject)
  | PatchMetadata (metadata : MmdsContentsObject)
  | PressCtrlAltDel.

Definition run_control `{DefaultTimeout} (ctx : go_context) (c : control) : M error :=
  match c with
  | Pause opts => PauseVM ctx opts
  | Resume opts => ResumeVM ctx opts
  | TakeSnapshot mem path opts => CreateSnapshot ctx mem path opts
  | SetDrivePath id path opts => UpdateGuestDrive ctx id path opts
  | SetRateLimits id set opts => UpdateGuestNetworkInterfaceRateLimit ctx id set opts
  | PutBalloonDevice a d s opts => CreateBalloon ctx a d s opts
  | ResizeBalloon a opts => UpdateBalloon ctx a opts
  | SetBalloonInterval s opts => UpdateBalloonStats ctx s opts
  | PutMetadata v => SetMetadata ctx v
  | PatchMetadata v => UpdateMetadata ctx v
  | PressCtrlAltDel => sendCtrlAltDel ctx
  end.

(** What the API sees: the operation with its path parameter and its body. *)
Inductive api_change :=
  | PATCH_vm (b : option VM)
  | PUT_snapshot_create (b : option SnapshotCreateParams)
  | PATCH_drive (id : string) (b : option PartialDrive)
  | PATCH_interface (id : string) (b : option PartialNetworkInterface)
  | PUT_balloon (b : option Balloon)
  | PATCH_balloon (b : option BalloonUpdate)
  | PATCH_balloon_statistics (b : option BalloonStatsUpdate)
  | PUT_mmds (b : MmdsContentsObject)
  | PATCH_mmds (b : MmdsContentsObject)
  | PUT_actions (b : option InstanceActionInfo).

Definition change_of {T} (c : ClientIface T) : option api_change :=
  match c with
  | Ops_PatchVM p => Some (PATCH_vm (PatchVMParams_Body p))
  | Ops_CreateSnapshot p => Some (PUT_snapshot_create (CreateSnapshotParams_Body p))
  | Ops_PatchGuestDriveByID p => Some (PATCH_drive (PatchGuestDriveByIDParams_DriveID p) (PatchGuestDriveByIDParams_Body p))
  | Ops_PatchGuestNetworkInterfaceByID p =>
      Some (PATCH_interface (PatchGuestNetworkInterfaceByIDParams_IfaceID p) (PatchGuestNetworkInterfaceByIDParams_Body p))
  | Ops_PutBalloon p => Some (PUT_balloon (PutBalloonParams_Body p))
  | Ops_PatchBalloon p => Some (PATCH_balloon (PatchBalloonParams_Body p))
  | Ops_PatchBalloonStatsInterval p => Some (PATCH_balloon_statistics (PatchBalloonStatsIntervalParams_Body p))
  | Ops_PutMmds p => Some (PUT_mmds (PutMmdsParams_Body p))
  | Ops_PatchMmds p => Some (PATCH_mmds (PatchMmdsParams_Body p))
  | Ops_CreateSyncAction p => Some (PUT_actions (CreateSyncActionParams_Info p))
  | _ => None
  end.

(** The change each method is asked for: its arguments, under their names in the API.
    The inbound limiter of an interface is the one of what the guest receives. *)
Definition asks (c : control) : api_change :=
  match c with
  | Pause _ => PATCH_vm (Some (mkVM (Some "Paused")))
  | Resume _ => PATCH_vm (Some (mkVM (Some "Resumed")))
  | TakeSnapshot mem path _ => PUT_snapshot_create (Some (mkSnapshotCreateParams (Some mem) (Some path) "" ""))
  | SetDrivePath id path _ => PATCH_drive id (Some (mkPartialDrive (Some id) path None))
  | SetRateLimits id (mkRateLimiterSet inbound outbound) _ =>
      PATCH_interface id (Some (mkPartialNetworkInterface (Some id) inbound outbound))
  | PutBalloonDevice a d s _ => PUT_balloon (Some (mkBalloon (Some a) (Some d) s))
  | ResizeBalloon a _ => PATCH_balloon (Some (mkBalloonUpdate (Some a)))
  | SetBalloonInterval s _ => PATCH_balloon_statistics (Some (mkBalloonStatsUpdate (Some s)))
  | PutMetadata v => PUT_mmds v
  | PatchMetadata v => PATCH_mmds v
  | PressCtrlAltDel => PUT_actions (Some (mkInstanceActionInfo (Some "SendCtrlAltDel")))
  end.

(** No outbound limit is asked for that differs from the inbound one. *)
Definition same_limits (c : control) : Prop :=
  match c with SetRateLimits _ (mkRateLimiterSet inbound (Some outbound)) _ => inbound = Some outbound | _ => True end.

(** What [UpdateGuestNetworkInterfaceRateLimit] makes of the two limits: an outbound
    one is replaced by the inbound one. *)
Definition misdirected (c : control) : control :=
  match c with
  | SetRateLimits id (mkRateLimiterSet inbound (Some _)) opts => SetRateLimits id (mkRateLimiterSet inbound inbound) opts
  | _ => c
  end.

Lemma same_limits_misdirected c : same_limits c → asks (misdirected c) = asks c.
Proof. destruct c as [| | | |id [inbound [outbound|]] opts| | | | | |]; try done. by intros ->. Qed.

(** Options that change a request of the client elsewhere (its context, its timeout),
    and not in what [get] reads. *)
Definition options_keep {P A} (get : P → A) (opts : list (P → P)) : Prop :=
  Forall (λ opt, ∀ params, get (opt params) = get params) opts.

Definition keeps_request (c : control) : Prop :=
  match c with
  | Pause opts | Resume opts => options_keep PatchVMParams_Body opts
  | TakeSnapshot _ _ opts => options_keep CreateSnapshotParams_Body opts
  | SetDrivePath _ _ opts =>
      options_keep (λ p, (PatchGuestDriveByIDParams_DriveID p, PatchGuestDriveByIDParams_Body p)) opts
  | SetRateLimits _ _ opts =>
      options_keep (λ p, (PatchGuestNetworkInterfaceByIDParams_IfaceID p, PatchGuestNetworkInterfaceByIDParams_Body p)) opts
  | PutBalloonDevice _ _ _ opts => options_keep PutBalloonParams_Body opts
  | ResizeBalloon _ opts => options_keep PatchBalloonParams_Body opts
  | SetBalloonInterval _ opts => options_keep PatchBalloonStatsIntervalParams_Body opts
  | PutMetadata _ | PatchMetadata _ | PressCtrlAltDel => True
  end.

Lemma options_keep_apply {P A} (get : P → A) opts params :
  options_keep get opts → get (apply_opts opts params) = get params.
Proof.
  unfold apply_opts. intros Hk. revert params. induction Hk as [|opt opts Hopt _ IH]; intros params; simpl; [done|].
  by rewrite IH.
Qed.

Lemma options_keep_both {P A B C} (get : P → A) (get' : P → B) (k : A → B → C) opts params :
  options_keep (λ p, (get p, get' p)) opts →
  k (get (apply_opts opts params)) (get' (apply_opts opts params)) = k (get params) (get' params).
Proof. intros Hk. by injection (options_keep_apply _ _ params Hk) as -> ->. Qed.

Section control.
Context `{ValidationLaws} `{DefaultTimeout}.

Definition change_ok (a : api_change) : Prop :=
  match a with
  | PATCH_vm b => passes VM_Validate b
  | PUT_snapshot_create b => passes SnapshotCreateParams_Validate b
  | PATCH_drive id b => passes PartialDrive_Validate b ∧ (PartialDrive_DriveID <$> b) = Some (Some id)
  | PATCH_interface id b => passes PartialNetworkInterface_Validate b ∧ (PartialNetworkInterface_IfaceID <$> b) = Some (Some id)
  | PUT_balloon b => passes Balloon_Validate b
  | PATCH_balloon b => passes BalloonUpdate_Validate b
  | PATCH_balloon_statistics b => passes BalloonStatsUpdate_Validate b
  | PUT_mmds _ | PATCH_mmds _ => True
  | PUT_actions b => passes InstanceActionInfo_Validate b
  end.

(** The arguments that are sent as they are. *)
Definition control_ok (c : control) : Prop :=
  match c with SetRateLimits _ set _ => limiter_ok (Set_InRateLimiter set) | _ => True end.

Lemma required_ok {A} path inn (a : A) : validate_Required path inn (Some a) = None.
Proof. apply validate_Required_spec. by eexists. Qed.

Lemma enum_ok path inn v enum : v ∈ enum → validate_Enum path inn v enum = None.
Proof. apply validate_Enum_spec. Qed.

Lemma limiter_check name r :
  limiter_ok r → match r with Some v => validated name (RateLimiter_Validate v) | None => None end = None.
Proof. destruct r as [v|]; [|done]. simpl. by intros ->. Qed.

Lemma asks_ok c : control_ok c → change_ok (asks (misdirected c)).
Proof.
  destruct c as [| | | |id [inbound [outbound|]] opts| | | | | |]; simpl; intros Hok; try done; try split; try done.
  all: unfold VM_Validate, SnapshotCreateParams_Validate, PartialDrive_Validate, PartialNetworkInterface_Validate,
    BalloonUpdate_Validate, BalloonStatsUpdate_Validate, Balloon_Validate, InstanceActionInfo_Validate.
  all: repeat rewrite composite_cons; rewrite composite_one; repeat split; autounfold with validate; simpl;
    rewrite ?required_ok; try done; try (apply enum_ok; by set_solver).
  all: by apply (limiter_check _ _ Hok).
Qed.

Lemma bind_client f (k : Client → M error) o w h :
  client (machine w) = Some f → go_bind get_client k o w h = k f o w h.
Proof. intros Hc. unfold get_client, get_machine. run_unfold. by rewrite Hc. Qed.

Lemma bind_no_client (w : World) (k : Client → M error) o h :
  client (machine w) = None →
  go_bind get_client k o w h = (Panic "invalid memory address or nil pointer dereference", w, h).
Proof. intros Hc. unfold get_client, get_machine. run_unfold. by rewrite Hc. Qed.

(** Each method takes the client of the machine first. *)
Ltac open_control :=
  cbn [run_control]; unfold PauseVM, ResumeVM, patch_vm, CreateSnapshot, UpdateGuestDrive,
    UpdateGuestNetworkInterfaceRateLimit, CreateBalloon, UpdateBalloon, UpdateBalloonStats, SetMetadata,
    UpdateMetadata, sendCtrlAltDel.

Lemma control_no_client (c : control) ctx o (w : World) h :
  client (machine w) = None →
  run_control ctx c o w h = (Panic "invalid memory address or nil pointer dereference", w, h).
Proof. intros Hc. destruct c; open_control; by rewrite (bind_no_client w) by done. Qed.

(** The one request of each method. *)
Lemma control_sends (c : control) ctx o (w : World) h f :
  keeps_request c → client (machine w) = Some f →
  ∃ req : ClientIface error, change_of req = Some (asks (misdirected c)) ∧
    run_control ctx c o w h =
      (Val (o h _ (ops_call (Client_Operations f) req)), w,
       h ++ [Event (ops_call (Client_Operations f) req) (o h _ (ops_call (Client_Operations f) req))]).
Proof.
  intros Hk Hc.
  assert (∃ req : ClientIface error, ∀ r, o h _ (ops_call (Client_Operations f) req) = r →
    run_control ctx c o w h = (Val r, w, h ++ [Event (ops_call (Client_Operations f) req) r]) ∧
    change_of req = Some (asks (misdirected c))) as (req & Hreq).
  { destruct c as [| | | |id [inbound [outbound|]] opts| | | | | |]; eexists; intros r Hr;
      (split; [open_control; rewrite (bind_client f) by done; unfold operations, call; cbv zeta; by rewrite <- Hr
              |cbn [change_of]; first
                [ reflexivity
                | by rewrite (options_keep_apply _ _ _ Hk)
                | exact (f_equal Some (options_keep_both _ _ PATCH_drive _ _ Hk))
                | exact (f_equal Some (options_keep_both _ _ PATCH_interface _ _ Hk)) ]]). }
  destruct (Hreq _ eq_refl) as [Hrun Hchange]. by exists req.
Qed.

(** Controlling a machine: each method sends exactly one request, the one of
    [asks] but for the limits that are [misdirected], whose body its model accepts
    and whose path names the object of the body; it returns the answer to it and
    changes no state of its own.  A machine without a client panics. *)
Theorem control_requests (c : control) (ctx : go_context) (o : Oracle Sys) (w : World) h :
  control_ok c → keeps_request c →
  match client (machine w) with
  | Some f => ∃ req : ClientIface error,
      change_of req = Some (asks (misdirected c)) ∧ change_ok (asks (misdirected c)) ∧
      run_control ctx c o w h =
        (Val (o h _ (ops_call (Client_Operations f) req)), w,
         h ++ [Event (ops_call (Client_Operations f) req) (o h _ (ops_call (Client_Operations f) req))])
  | None => is_panic (run_control ctx c o w h).1.1 ∧ (run_control ctx c o w h).2 = h
  end.
Proof.
  intros Hok Hk. destruct (client (machine w)) as [f|] eqn:Hc.
  - destruct (control_sends c ctx o w h f Hk Hc) as (req & Hchange & Hrun). exists req. split; [done|].
    split; [by apply asks_ok|done].
  - rewrite (control_no_client c ctx o w h Hc). split; [by eexists|done].
Qed.
End control.

Module Examples.
(** Only the inbound limit reaches the API. *)
Definition limits : RateLimiterSet := mkRateLimiterSet None (Some (mkRateLimiter None None)).

Lemma control_requests_witness :
  change_ok (PATCH_interface "1" (Some (mkPartialNetworkInterface (Some "1") None None))) ∧
  (run_control Background (SetRateLimits "1" limits []) sample_host created []).1.1 = Val None.
Proof.
  pose proof (control_requests (SetRateLimits "1" limits []) Background sample_host created [] I (Forall_nil_2 _)) as Ht.
  assert (is_Some (client (machine created))) as [f Hf] by (vm_compute; by eexists).
  rewrite Hf in Ht. destruct Ht as (req & _ & Hok & _). split; [exact Hok|vm_compute; reflexivity].
Defined.
End Examples.
