(* ===== verification/Wire.v ===== *)
(** * What goes over the wire (src/client, src/machine.go)

    The composition of the machine, the API client and the generated operations
    client: a call of the API is the one HTTP request the generated client submits
    for it ([serves]), so a start is a sequence of HTTP requests with JSON bodies,
    the last answer of a start that fails [explains] its error, and a model the
    server writes as JSON is the model the client returns. *)

From stdpp Require Import gmap strings list.
From Stdlib Require Import Ascii ZArith Lia.
From S2P Require Import Prelude GoStrings KernelArgs Models Json JsonText ModelsJson ApiParams Slices Handlers Builders Commands Vmconf Client ApiOperations Netlink Sys Network Config MachineApi Vmm Machine Concrete RequestFacts TypedRequests ControlFacts.

Open Scope string_scope.
Open Scope Z_scope.
Open Scope list_scope.

(** ** Requests *)

(** A body parameter as [runtime.JSONProducer] encodes it. *)
Definition body_json (b : AnyBody) : json :=
  match b with
  | Body_SnapshotCreateParams body => json_encode body
  | Body_InstanceActionInfo body => json_encode body
  | Body_SnapshotLoadParams body => json_encode body
  | Body_BalloonUpdate body => json_encode body
  | Body_BalloonStatsUpdate body => json_encode body
  | Body_PartialDrive body => json_encode body
  | Body_PartialNetworkInterface body => json_encode body
  | Body_MachineConfiguration body => json_encode body
  | Body_MmdsContentsObject body => body
  | Body_VM body => json_encode body
  | Body_Balloon body => json_encode body
  | Body_CPUConfig body => json_encode (A := string) body
  | Body_EntropyDevice body => json_encode body
  | Body_BootSource body => json_encode body
  | Body_Drive body => json_encode body
  | Body_NetworkInterface body => json_encode body
  | Body_Vsock body => json_encode body
  | Body_Logger body => json_encode body
  | Body_Metrics body => json_encode body
  | Body_MmdsConfig body => json_encode body
  end.

(** What the HTTP runtime is given: the method, the path pattern with the values of
    its parameters, and the body. *)
Record sent := mkSent {
  sent_method : string;
  sent_path : string;
  sent_params : list (string * string);
  sent_body : option json
}.

#[export] Instance sent_eq_dec : EqDecision sent.
Proof. solve_decision. Defined.

Definition setting_param (x : setting) : option (string * string) :=
  match x with SetPathParam name value => Some (name, value) | _ => None end.
Definition setting_body (x : setting) : option json :=
  match x with SetBodyParam body => Some (body_json body) | _ => None end.

Definition sent_by (method path : string) (writer : list setting → error * list setting) : sent :=
  let settings := (writer []).2 in
  mkSent method path (omap setting_param settings) (head (omap setting_body settings)).

(** The request an operation is, and the one the generated client makes of a call. *)
Definition sent_of (op : ClientOperation (H := recorder)) : sent := sent_by (Method op) (PathPattern op) (Params op).
Definition request_of {T} (c : ClientIface T) : sent :=
  sent_by (endpoint c).1 (endpoint c).2 (WriteToRequest (H := recorder) c).

Definition changes (s : sent) : bool := negb (sent_method s =? "GET")%string.

Section wire.
Context `{Consumer} `{DefaultTimeout}.

Definition sent_event (ev : event (Transport (H := recorder))) : sent :=
  match ev with
  | Event c _ => match c with Submit op => sent_of op end
  end.

(** The changing requests of a history of the transport, in order. *)
Definition changing (t : trace (Transport (H := recorder))) : list sent :=
  List.filter changes (sent_event <$> t).

Definition is_api (ev : event Sys) : bool :=
  match ev with Event c _ => match c with Api _ _ => true | _ => false end end.

(** [serves o h t h']: from the history [h] of the transport, the calls of the API
    in [t] get their answers from generated clients that submit them, leaving [h']. *)
Inductive serves (o : Oracle (Transport (H := recorder))) :
    trace (Transport (H := recorder)) → trace Sys → trace (Transport (H := recorder)) → Prop :=
  | serves_nil h : serves o h [] h
  | serves_other h ev t h' : is_api ev = false → serves o h t h' → serves o h (ev :: t) h'
  | serves_api h {T} path (c : ClientIface T) r h1 t h' :
      OpsClient (S := unit) c o tt h = (Val r, tt, h1) → serves o h1 t h' →
      serves o h (Event (Api (GeneratedClient path) c) r :: t) h'.

(** What the first event of a served history says. *)
Definition served_by (o : Oracle (Transport (H := recorder))) h (ev : event Sys) h1 : Prop :=
  match ev with
  | Event c r =>
      match c in Sys T return T → Prop with
      | Api target c => λ r,
          match target with
          | GeneratedClient _ => OpsClient (S := unit) c o tt h = (Val r, tt, h1)
          | CallerOperations _ => False
          end
      | _ => λ _, h1 = h
      end r
  end.

Lemma serves_cons o h ev t h' : serves o h (ev :: t) h' → ∃ h1, served_by o h ev h1 ∧ serves o h1 t h'.
Proof.
  inversion 1 as [|? ? ? ? Hapi Ht|? T path c r h1 ? ? Hrun Ht]; subst; [|by exists h1].
  exists h. split; [|done]. destruct ev as [T c r]. by destruct c.
Qed.

Definition api_request (ev : event Sys) : option sent :=
  match ev with Event c _ => match c with Api _ c => Some (request_of c) | _ => None end end.

(** Each call is one request, the one its parameters write. *)
Lemma serves_requests o h t h' :
  serves o h t h' → ∃ u, h' = h ++ u ∧ sent_event <$> u = omap api_request t.
Proof.
  induction 1 as [h|h [T c r] t h' Hev _ (u & -> & Hu)|h T path c r h1 t h' Hrun _ (u & -> & Hu)].
  - exists []. by rewrite app_nil_r.
  - exists u. split; [done|]. cbn. by destruct c.
  - destruct (OpsClient_run (H := recorder) c o tt h) as (op & r' & Hop & Hp & _ & Hr & _). rewrite Hr in Hrun.
    simplify_eq. eexists (_ :: u). rewrite <- app_assoc. split; [done|]. cbn. f_equal; [|done].
    unfold sent_of, request_of. rewrite Hp. by rewrite <- Hop.
Qed.
End wire.

(** ** The changing requests of a start, as the API describes them *)
Definition put (path : string) (params : list (string * string)) (body : option json) : sent :=
  mkSent "PUT" path params body.

Definition wire_of (a : api_write) : sent :=
  match a with
  | WLogger b => put "/logger" [] (json_encode <$> b)
  | WMetrics b => put "/metrics" [] (json_encode <$> b)
  | WMachineConfiguration b => put "/machine-config" [] (json_encode <$> b)
  | WBootSource b => put "/boot-source" [] (json_encode <$> b)
  | WDrive id b => put "/drives/{drive_id}" [("drive_id", id)] (json_encode <$> b)
  | WNetworkInterface id b => put "/network-interfaces/{iface_id}" [("iface_id", id)] (json_encode <$> b)
  | WVsock b => put "/vsock" [] (json_encode <$> b)
  | WMmdsConfig b => put "/mmds/config" [] (json_encode <$> b)
  | WMmds b => put "/mmds" [] b
  | WBalloon b => put "/balloon" [] (json_encode <$> b)
  | WLoadSnapshot b => put "/snapshot/load" [] (json_encode <$> b)
  | WAction b => put "/actions" [] (json_encode <$> b)
  | WOther => put "" [] None
  end.

Definition known (a : api_write) : bool := match a with WOther => false | _ => true end.

(** A reading call is a GET, a changing one the request its write describes. *)
Lemma request_of_write {T} (c : ClientIface T) (r : T) :
  match api_write_of c r with
  | Some (a, _) => known a = true → request_of c = wire_of a ∧ changes (request_of c) = true
  | None => changes (request_of c) = false
  end.
Proof.
  destruct c; cbn [api_write_of]; try done; intros _;
    unfold request_of, sent_by; cbn [WriteToRequest endpoint fst snd]; autounfold with writers; unfold try_request; cbn;
    repeat case_match; simplify_eq; split; done.
Qed.

Lemma changing_writes (t : trace Sys) :
  Forall (λ a, known a = true) (writes t).*1 →
  List.filter changes (omap api_request t) = wire_of <$> (writes t).*1.
Proof.
  induction t as [|[T c r] t IH]; [done|]. unfold writes. cbn [omap list_omap write_of].
  destruct c as [| | | | | | | | | | | | | | | | | | | | | | | | | | | | | |T target c|]; try exact IH.
  cbn [api_request]. pose proof (request_of_write c r) as Hc. destruct (api_write_of c r) as [[a e]|].
  - cbn [fmap list_fmap fst]. intros [Ha Ht]%Forall_cons. destruct (Hc Ha) as [Heq Hch]. cbn [List.filter].
    rewrite Hch. cbn [fmap list_fmap]. rewrite <- Heq. f_equal. by apply IH.
  - intros Ht. cbn [List.filter]. rewrite Hc. by apply IH.
Qed.

Lemma handler_writes_known cfg fn : Forall (λ a, known a = true) (handler_writes cfg fn).
Proof.
  destruct fn; cbn [handler_writes]; unfold logger_writes, metrics_writes, mmds_writes;
    repeat case_match; repeat constructor.
  - apply Forall_fmap, Forall_true. done.
  - apply Forall_concat, Forall_lookup_2. intros i l. rewrite list_lookup_imap. destruct (_ !! i) as [iface|]; [|done].
    intros [= <-]. unfold iface_writes. destruct (StaticConfiguration iface); by repeat constructor.
  - apply Forall_fmap, Forall_true. done.
Qed.

Lemma handlers_known cfg (l : list (Handler HandlerFn)) :
  Forall (λ a, known a = true) (l ≫= handler_writes cfg ∘ Handler_Fn).
Proof. apply Forall_bind, Forall_true. intros x. apply handler_writes_known. Qed.

Lemma start_writes_known cfg post : Forall (λ a, known a = true) (start_writes post cfg).
Proof. apply Forall_app. split; [apply handlers_known|]. case_match; repeat constructor. Qed.

(** The changing requests of a served history whose writes were all accepted. *)
Lemma serves_changing `{Consumer} `{DefaultTimeout} o h t h' l :
  serves o h t h' → writes t = accepted <$> l → Forall (λ a, known a = true) l →
  ∃ u, h' = h ++ u ∧ changing u = wire_of <$> l.
Proof.
  intros Hserves Hw Hk. destruct (serves_requests o h t h' Hserves) as (u & -> & Hu). exists u. split; [done|].
  unfold changing. rewrite Hu, changing_writes; by rewrite Hw, accepted_fst.
Qed.

Section start.
Context `{Growth} `{DefaultTimeout} `{Multierror} `{NetlinkConstants} `{Consumer}.

(** C2. A start on the wire: when the calls of the API of a successful [Start] are
    served by generated clients, the HTTP requests other than GET that go out are
    those of the configuration, in the order of the handlers, and last the one that
    starts the instance: each a PUT to the path of its object, with the path
    parameters and the JSON body the API describes. *)
Theorem Start_wire (fuel : nat) ctx (o : Oracle Sys) (server : Oracle (Transport (H := recorder)))
    (w w' : World) (validation pre post : list (Handler HandlerFn)) t h h' :
  elems (heap_ w) (Validation (Handlers_ (machine w))) = validation →
  elems (heap_ w) (FcInit (Handlers_ (machine w))) = pre ++ post →
  Forall (λ x, is_silent (Handler_Fn x) = true) (validation ++ pre) →
  Forall (λ x, plain (Handler_Fn x) = true) post →
  Start fuel ctx o w [] = (Val None, w', t) →
  serves server h t h' →
  let cfg := Cfg (machine w') in
  ∃ u, h' = h ++ u ∧
    changing u = wire_of <$> ((post ≫= handler_writes cfg ∘ Handler_Fn) ++
                              (if hasSnapshot cfg then [] else [start_write])).
Proof.
  intros Hv Hf Hpre Hpost Hrun Hserves. cbv zeta.
  destruct (Start_sends fuel ctx o w w' validation pre post None [] t Hv Hf Hpre Hpost) as (t' & Ht & Hw);
    [by apply (Start_once fuel ctx o w w' [] t)|done|].
  simpl in Ht. subst t'. apply (serves_changing server h t h' _ Hserves Hw). apply start_writes_known.
Qed.
End start.

(** ** Controlling a machine on the wire *)
Definition wire_of_change (a : api_change) : sent :=
  match a with
  | PATCH_vm b => mkSent "PATCH" "/vm" [] (json_encode <$> b)
  | PUT_snapshot_create b => put "/snapshot/create" [] (json_encode <$> b)
  | PATCH_drive id b => mkSent "PATCH" "/drives/{drive_id}" [("drive_id", id)] (json_encode <$> b)
  | PATCH_interface id b => mkSent "PATCH" "/network-interfaces/{iface_id}" [("iface_id", id)] (json_encode <$> b)
  | PUT_balloon b => put "/balloon" [] (json_encode <$> b)
  | PATCH_balloon b => mkSent "PATCH" "/balloon" [] (json_encode <$> b)
  | PATCH_balloon_statistics b => mkSent "PATCH" "/balloon/statistics" [] (json_encode <$> b)
  | PUT_mmds b => put "/mmds" [] b
  | PATCH_mmds b => mkSent "PATCH" "/mmds" [] b
  | PUT_actions b => put "/actions" [] (json_encode <$> b)
  end.

Lemma request_of_change {T} (c : ClientIface T) a : change_of c = Some a → request_of c = wire_of_change a.
Proof.
  destruct c; cbn [change_of]; try done; intros [= <-];
    unfold request_of, sent_by; cbn [WriteToRequest endpoint fst snd]; autounfold with writers; unfold try_request; cbn;
    repeat case_match; by simplify_eq.
Qed.

Lemma control_served `{DefaultTimeout} `{Consumer} (c : control) ctx (o : Oracle Sys)
    (server : Oracle (Transport (H := recorder))) (w w' : World) r t h h' :
  keeps_request c →
  run_control ctx c o w [] = (Val r, w', t) →
  serves server h t h' →
  w' = w ∧ ∃ op (req : ClientIface error),
    h' = h ++ [Event (Submit op) (server h _ (Submit op))] ∧ sent_of op = wire_of_change (asks (misdirected c)) ∧
    change_of req = Some (asks (misdirected c)) ∧ (OpsClient (S := unit) req server tt h).1.1 = Val r.
Proof.
  intros Hk Hrun Hserves. destruct (client (machine w)) as [f|] eqn:Hc.
  2:{ by rewrite (control_no_client c ctx o w [] Hc) in Hrun. }
  destruct (control_sends c ctx o w [] f Hk Hc) as (req & Hchange & Hreq). rewrite Hreq in Hrun. simplify_eq. split; [done|].
  apply serves_cons in Hserves as (h1 & Hops & Hnil). inversion Hnil. subst h1. cbn in Hops.
  destruct (Client_Operations f); [|done]. destruct (OpsClient_run (H := recorder) req server tt h) as (op & r' & Hop & Hp & _ & Hr & _).
  rewrite Hr in Hops. simplify_eq. exists op, req. split; [done|]. split; [|split; [done|by rewrite Hr]].
  rewrite <- (request_of_change req _ Hchange). unfold sent_of, request_of. rewrite Hp. by rewrite <- Hop.
Qed.

(** C30. Controlling a machine on the wire: when the calls of a method that changes a
    running VM are served by the generated client, exactly one HTTP request goes out.
    It is the one of the change the method is asked for, unless it is asked for an
    outbound rate limit that differs from the inbound one: then the request carries
    the inbound limiter in both places.  Its body is one its model accepts when the
    inbound limiter is well formed, what the server's answer is read as is what the
    method returns, and the machine is as it was.  The request options may be any
    that leave the body and the path parameter alone. *)
Theorem control_wire `{ValidationLaws} `{DefaultTimeout} `{Consumer} (c : control) ctx (o : Oracle Sys)
    (server : Oracle (Transport (H := recorder))) (w w' : World) r t h h' :
  control_ok c → keeps_request c →
  run_control ctx c o w [] = (Val r, w', t) →
  serves server h t h' →
  w' = w ∧ ∃ change op (req : ClientIface error),
    (same_limits c → change = asks c) ∧
    (∀ id inbound outbound opts, c = SetRateLimits id (mkRateLimiterSet inbound (Some outbound)) opts →
       change = PATCH_interface id (Some (mkPartialNetworkInterface (Some id) inbound inbound))) ∧
    h' = h ++ [Event (Submit op) (server h _ (Submit op))] ∧ sent_of op = wire_of_change change ∧
    change_of req = Some change ∧ change_ok change ∧ (OpsClient (S := unit) req server tt h).1.1 = Val r.
Proof.
  intros Hok Hk Hrun Hserves.
  destruct (control_served c ctx o server w w' r t h h' Hk Hrun Hserves) as (Hw & op & req & ? & ? & ? & ?).
  split; [done|]. exists (asks (misdirected c)), op, req. split; [apply same_limits_misdirected|].
  split; [by intros ???? ->|]. repeat (split; [done|]). split; [by apply asks_ok|done].
Qed.

(** ** What the client reads *)

(** [r] is the successful result of the call that holds the model written as [j]. *)
Definition answers {T} (c : ClientIface T) : T → json → Prop :=
  match c in ClientIface T return T → json → Prop with
  | Ops_DescribeBalloonConfig _ => λ r j,
      ∃ x : Balloon, json_wf x ∧ r = inr (mkDescribeBalloonConfigOK (Some x)) ∧ j = json_encode x
  | Ops_DescribeBalloonStats _ => λ r j,
      ∃ x : BalloonStats, json_wf x ∧ r = inr (mkDescribeBalloonStatsOK (Some x)) ∧ j = json_encode x
  | Ops_DescribeInstance _ => λ r j,
      ∃ x : InstanceInfo, json_wf x ∧ r = inr (mkDescribeInstanceOK (Some x)) ∧ j = json_encode x
  | Ops_GetExportVMConfig _ => λ r j,
      ∃ x : FullVMConfiguration, json_wf x ∧ r = inr (mkGetExportVMConfigOK (Some x)) ∧ j = json_encode x
  | Ops_GetFirecrackerVersion _ => λ r j,
      ∃ x : FirecrackerVersion, json_wf x ∧ r = inr (mkGetFirecrackerVersionOK (Some x)) ∧ j = json_encode x
  | Ops_GetMachineConfiguration _ => λ r j,
      ∃ x : MachineConfiguration, json_wf x ∧ r = inr (mkGetMachineConfigurationOK (Some x)) ∧ j = json_encode x
  | Ops_GetMmds _ => λ r j,
      ∃ x : MmdsContentsObject, json_wf x ∧ r = inr (mkGetMmdsOK x) ∧ j = json_encode x
  | _ => λ _ _, False
  end.

(** [runtime.JSONConsumer] decodes the JSON value of a body into the target. *)
Class JsonConsumer `{Consumer} := {
  response_json : ResponseBody → option json;
  consume_spec {T} `{JsonCodec T} body j (zero x : T) :
    response_json body = Some j → json_decode j zero = inr x → Consume body zero = (None, x)
}.

(** The body of a response that refuses a request. *)
Definition fault_json (message : string) : json := json_encode (mkError message).

Section reads.
Context `{JsonConsumer} `{ClientRequest} `{DefaultTimeout} {S : Type}.

(** C26. Reading: a client that gets a response 200 whose body is the JSON of a model
    returns that model, field by field, for each of the seven reading operations. *)
Theorem OpsClient_reads {T} (c : ClientIface T) (r : T) (j : json) (o : Oracle Transport) (s : S) h response :
  answers c r j →
  Response_Code response = 200 → response_json (Response_Body response) = Some j →
  (∀ op, (Method op, PathPattern op) = endpoint c → o h _ (Submit op) = inr response) →
  ∃ op, OpsClient c o s h = (Val r, s, h ++ [Event (Submit op) (inr response)]).
Proof.
  intros Hr Hcode Hj Ho. destruct c; cbn [answers] in Hr; try done; destruct Hr as (x & Hx & -> & ->);
    cbn [OpsClient]; autounfold with api; unfold go_bind, call, try_read, consume_payload; rewrite Ho by reflexivity; rewrite Hcode; cbn;
    match goal with |- context [@Consume _ ?T ?codec ?body ?zero] =>
      rewrite (@consume_spec _ _ T codec body _ zero x Hj (json_decode_encode x Hx)) end; by eexists.
Qed.

(** A refused request: the outcome of a response whose body is a JSON error. *)
Lemma fault_outcome {T} (c : ClientIface T) (message : string) response r :
  Z.quot (Response_Code response) 100 ≠ 2 → utf8_valid message = true →
  response_json (Response_Body response) = Some (fault_json message) →
  response_outcome c response r →
  ∃ format, r = Val (failed c (ApiError format (Response_Code response) message)).
Proof.
  intros Hcode Hm Hj. assert (json_wf (mkError message)) as Hwf by (by repeat constructor).
  unfold response_outcome, consume_payload.
  assert (Consume (Response_Body response) zero_Error = (None, mkError message)) as ->.
  { apply (consume_spec _ _ _ _ Hj). exact (json_decode_encode (mkError message) Hwf). }
  rewrite decide_False; [by rewrite decide_False|]. intros Heq. rewrite Heq in Hcode. by destruct c.
Qed.

(** Errors of the API: a response outside 2xx whose body is a JSON error gives an
    error that carries the status code and the fault message of the server, whatever
    the operation. *)
Theorem OpsClient_fault {T} (c : ClientIface T) (message : string) (o : Oracle Transport) (s : S) h response :
  let code := Response_Code response in
  Z.quot code 100 ≠ 2 → utf8_valid message = true →
  response_json (Response_Body response) = Some (fault_json message) →
  (∀ op, (Method op, PathPattern op) = endpoint c → o h _ (Submit op) = inr response) →
  ∃ format op, OpsClient c o s h =
    (Val (failed c (ApiError format code message)), s, h ++ [Event (Submit op) (inr response)]).
Proof.
  intros code Hcode Hm Hj Ho. destruct (OpsClient_run c o s h) as (op & r & Hop & _ & _ & Hr & Hout).
  rewrite (Ho op Hop) in Hr, Hout. destruct (fault_outcome c message response r Hcode Hm Hj Hout) as [format ->].
  by exists format, op.
Qed.
End reads.

(** ** A start that fails, on the wire *)

(** A request with the answer it got, and the changing ones of a history. *)
Definition exchange `{Consumer} (ev : event (Transport (H := recorder))) : sent * (Err + Response) :=
  match ev with
  | Event c answer =>
      match c in Transport T return T → sent * (Err + Response) with
      | Submit op => λ answer, (sent_of op, answer)
      end answer
  end.

Definition exchanges `{Consumer} (t : trace (Transport (H := recorder))) : list (sent * (Err + Response)) :=
  List.filter (changes ∘ fst) (exchange <$> t).

Section failure.
Context `{JsonConsumer} `{DefaultTimeout}.

(** [r] is what a changing operation makes of the answer: nil for the status 204
    and for nothing else, the error of the transport, or one with the status and
    the fault message of a refusal. *)
Definition explains (answer : Err + Response) (r : error) : Prop :=
  match answer, r with
  | inl err, r => r = Some err
  | inr response, None => Response_Code response = 204
  | inr response, Some e =>
      Response_Code response ≠ 204 ∧
      ∀ message, Z.quot (Response_Code response) 100 ≠ 2 → utf8_valid message = true →
        response_json (Response_Body response) = Some (fault_json message) →
        ∃ format, e = ApiError format (Response_Code response) message
  end.

(** An exchange that is a write of the API, and its answer what the write returned. *)
Definition is_exchange (x : sent * (Err + Response)) (y : api_write * error) : Prop :=
  x.1 = wire_of y.1 ∧ explains x.2 y.2.

Lemma write_explains {T} (c : ClientIface T) (r : T) a r' o h h1 :
  api_write_of c r = Some (a, r') → OpsClient (S := unit) c o tt h = (Val r, tt, h1) →
  ∃ op answer, h1 = h ++ [Event (Submit op) answer] ∧ sent_of op = request_of c ∧ explains answer r'.
Proof.
  intros Hw Hrun. destruct (OpsClient_run (H := recorder) c o tt h) as (op & r0 & Hop & Hp & _ & Hr & Hout).
  rewrite Hr in Hrun. simplify_eq. exists op, (o h _ (Submit op)). split; [done|].
  split; [unfold sent_of, request_of; rewrite Hp; by rewrite <- Hop|].
  assert (success_code c = 204 ∧ (∀ e, r = failed c e → r' = Some e) ∧
          ∃ v, no_content c = Some v ∧ (r = v → r' = None)) as (Hcode & Hfail & v & Hv & Hnil).
  { destruct c; simpl in Hw |- *; simplify_eq; split_and!; try done; by eexists. }
  unfold explains. destruct (o h _ (Submit op)) as [err|response] eqn:Ha.
  { injection Hout. intros ->. by apply Hfail. }
  pose proof (λ message Hq Hm Hj, fault_outcome c message response (Val r) Hq Hm Hj Hout) as Hfault.
  unfold response_outcome in Hout. rewrite Hcode in Hout. case_decide as H204.
  - destruct Hout as [_ Hout]. specialize (Hout v Hv). rewrite Hnil by (by injection Hout). done.
  - assert (∃ err, r = failed c err) as [err Herr].
    { destruct (consume_payload response zero_Error); [injection Hout; by eexists|]. case_decide; [by destruct Hout|].
      destruct Hout as [format Hout]. injection Hout. by eexists. }
    rewrite (Hfail err Herr). split; [done|]. intros message Hq Hm Hj.
    destruct (Hfault message Hq Hm Hj) as [format Hf]. exists format. injection Hf. intros Hr'.
    apply Hfail in Hr'. apply Hfail in Herr. congruence.
Qed.

(** The exchanges of a served history are its writes. *)
Lemma serves_exchanges o h t h' :
  serves o h t h' → Forall (λ a, known a = true) (writes t).*1 →
  ∃ u, h' = h ++ u ∧ Forall2 is_exchange (exchanges u) (writes t).
Proof.
  induction 1 as [h|h [T c r] t h' Hev _ IH|h T path c r h1 t h' Hrun _ IH].
  - intros _. exists []. split; [by rewrite app_nil_r|constructor].
  - intros Hk. unfold writes. cbn [omap list_omap write_of]. destruct c; try done; by apply IH.
  - pose proof (request_of_write c r) as Hreq. unfold writes. cbn [omap list_omap write_of].
    destruct (api_write_of c r) as [[a r']|] eqn:Hw.
    + cbn. intros [Ha Hk]%Forall_cons. destruct (IH Hk) as (u & -> & Hu).
      destruct (write_explains c r a r' o h h1 Hw Hrun) as (op & answer & -> & Hop & Hex).
      exists (Event (Submit op) answer :: u). rewrite <- app_assoc. split; [done|].
      destruct (Hreq Ha) as [Heq Hch]. unfold exchanges. cbn. rewrite Hop, Hch.
      constructor; [|done]. by split.
    + intros Hk. destruct (IH Hk) as (u & -> & Hu).
      destruct (OpsClient_run (H := recorder) c o tt h) as (op & r0 & Hop & Hp & _ & Hr & _). rewrite Hr in Hrun.
      simplify_eq. eexists (_ :: u). rewrite <- app_assoc. split; [done|]. unfold exchanges. cbn.
      replace (sent_of op) with (request_of c) by (unfold sent_of, request_of; rewrite Hp; by rewrite <- Hop).
      by rewrite Hreq.
Qed.

Context `{Growth} `{Multierror} `{NetlinkConstants}.

(** C4. A failed start on the wire: when the calls of the API of a [Start] that
    returns an error are served by generated clients, the changing requests are the
    first ones of those the configuration asks for, all answered with the status 204
    but possibly the last.  That one was answered otherwise: the error returned is
    the one of the transport, or has the status and the fault message of the server
    (in the text of another when it is a snapshot that could not be loaded). *)
Theorem Start_wire_refused (fuel : nat) ctx (o : Oracle Sys) (server : Oracle (Transport (H := recorder)))
    (w w' : World) (validation pre post : list (Handler HandlerFn)) e t h h' :
  elems (heap_ w) (Validation (Handlers_ (machine w))) = validation →
  elems (heap_ w) (FcInit (Handlers_ (machine w))) = pre ++ post →
  Forall (λ x, is_silent (Handler_Fn x) = true) (validation ++ pre) →
  Forall (λ x, plain (Handler_Fn x) = true) post →
  started (machine w) = false →
  Start fuel ctx o w [] = (Val (Some e), w', t) →
  serves server h t h' →
  let cfg := Cfg (machine w') in
  ∃ u done rest, h' = h ++ u ∧
    (post ≫= handler_writes cfg ∘ Handler_Fn) ++ (if hasSnapshot cfg then [] else [start_write]) = done ++ rest ∧
    (Forall2 is_exchange (exchanges u) (accepted <$> done) ∨
     ∃ x rest' answer refusal first, rest = x :: rest' ∧
       exchanges u = first ++ [(wire_of x, answer)] ∧ Forall2 is_exchange first (accepted <$> done) ∧
       explains answer (Some refusal) ∧ returned_as refusal e).
Proof.
  intros Hv Hf Hpre Hpost Hst Hrun Hserves. cbv zeta.
  destruct (Start_sends fuel ctx o w w' validation pre post (Some e) [] t Hv Hf Hpre Hpost Hst Hrun)
    as (t' & Ht & first & rest & Hws & Hd). simpl in Ht. subst t'.
  pose proof (start_writes_known (Cfg (machine w')) post) as Hk. rewrite Hws in Hk.
  apply Forall_app in Hk as [Hk1 Hk2].
  destruct (serves_exchanges server h t h' Hserves) as (u & -> & Hu).
  { destruct Hd as [->|(x & rest' & refusal & -> & -> & _)]; rewrite ?fmap_app, accepted_fst; [done|].
    apply Forall_app. split; [done|]. apply Forall_cons in Hk2 as [Hx _]. by repeat constructor. }
  exists u, first, rest. split; [done|]. split; [done|].
  destruct Hd as [Hd|(x & rest' & refusal & -> & Hd & Hret)]; rewrite Hd in Hu; [by left|right].
  apply Forall2_app_inv_r in Hu as (l1 & l2 & Hl1 & Hl2 & Heq).
  apply Forall2_cons_inv_r in Hl2 as ([s answer] & l3 & [Hs Hex] & Hnil & ->). apply Forall2_nil_inv_r in Hnil. subst l3.
  simpl in Hs, Hex. subst s. by exists x, rest', answer, refusal, l1.
Qed.
End failure.

(** ** A server that speaks JSON text *)

(** The JSON consumer on bodies of text; an empty body is [io.EOF]. *)
#[export] Instance text_consumer : Consumer := {
  ResponseBody := string;
  Consume T codec body zero :=
    if (body =? "")%string then (Some io_EOF, zero)
    else match parse body with
         | None => (Some (ErrorsNew "invalid JSON"), zero)
         | Some j => match json_decode j zero with inl e => (Some e, zero) | inr x => (None, x) end
         end
}.

#[export] Instance text_json_consumer : @JsonConsumer text_consumer.
Proof.
  apply (Build_JsonConsumer text_consumer (λ body : string, if (body =? "")%string then None else parse body)).
  intros T codec body j zero x. cbn. destruct (body =? "")%string; [done|]. intros -> Hd. by rewrite Hd.
Defined.

Module Examples.
(** It accepts every change but the one to the path [refused], which gets the answer
    [refusal], and knows the configuration of the sample machine. *)
Definition server_but (refused : string) (refusal : Response) : Oracle (Transport (H := recorder)) := λ _ T c,
  match c in Transport T return T with
  | Submit op =>
      if (Method op =? "GET")%string then
        inr (mkResponse 200 (double_quotes "{'mem_size_mib':512,'smt':false,'vcpu_count':2}"))
      else if (PathPattern op =? refused)%string then inr refusal
      else inr (mkResponse 204 "")
  end.

Definition no_boot_source : Response := mkResponse 400 (double_quotes "{'fault_message':'The kernel is missing.'}").
Definition boot_error : Err := ApiError "[PUT /boot-source][%d] putGuestBootSourceBadRequest  %+v" 400 "The kernel is missing.".

(** A server that accepts everything, and one that does not find the kernel. *)
Definition server : Oracle (Transport (H := recorder)) := server_but "/boot-source" (mkResponse 204 "").
Definition refusing_server : Oracle (Transport (H := recorder)) := server_but "/boot-source" no_boot_source.

Lemma OpsClient_reads_witness :
  let x := mkMachineConfiguration "" (Some 512) (Some false) None (Some 2) in
  let c := Ops_GetMachineConfiguration NewGetMachineConfigurationParams in
  ∃ op, OpsClient (S := unit) c server tt [] =
    (Val (inr (mkGetMachineConfigurationOK (Some x))), tt, [Event (Submit op) (inr (mkResponse 200 (render (json_encode x))))]).
Proof.
  intros x c.
  apply (OpsClient_reads c (inr (mkGetMachineConfigurationOK (Some x))) (json_encode x) server tt []).
  - exists x. split; [|done]. repeat constructor; vm_compute; discriminate.
  - reflexivity.
  - vm_compute. reflexivity.
  - intros op [= Hm _]. unfold server, server_but. rewrite Hm. vm_compute. reflexivity.
Defined.

(** A machine configuration the server refuses. *)
Lemma OpsClient_fault_witness :
  let answer := mkResponse 400 (double_quotes "{'fault_message':'The memory size is invalid.'}") in
  ∃ format op, OpsClient (S := unit) (Ops_PutMachineConfiguration NewPutMachineConfigurationParams)
      (λ _ T c, match c in Transport T return T with Submit _ => inr answer end) tt [] =
    (Val (Some (ApiError format 400 "The memory size is invalid.")), tt, [Event (Submit op) (inr answer)]).
Proof.
  intros answer. apply (OpsClient_fault (Ops_PutMachineConfiguration NewPutMachineConfigurationParams)
    "The memory size is invalid." (λ _ T c, match c in Transport T return T with Submit _ => inr answer end) tt [] answer);
    [discriminate | vm_compute; reflexivity | vm_compute; reflexivity | done].
Defined.

#[local] Instance MachineConfiguration_eq_dec : EqDecision MachineConfiguration.
Proof. solve_decision. Defined.

(** The answers these servers give, with the error of the boot source. *)
Definition served_call (e : error) {T} (c : ClientIface T) : T → bool :=
  match c in ClientIface T return T → bool with
  | Ops_GetMachineConfiguration _ => λ r,
      match r with
      | inr (mkGetMachineConfigurationOK (Some x)) =>
          bool_decide (x = mkMachineConfiguration "" (Some 512) (Some false) None (Some 2))
      | _ => false
      end
  | Ops_PutMachineConfiguration _ => λ r, bool_decide (r = None)
  | Ops_PutGuestBootSource _ => λ r, bool_decide (r = e)
  | Ops_PutGuestDriveByID _ => λ r, bool_decide (r = None)
  | Ops_CreateSyncAction _ => λ r, bool_decide (r = None)
  | Ops_CreateSnapshot _ => λ r, bool_decide (r = None)
  | Ops_PatchVM _ => λ r, bool_decide (r = None)
  | Ops_LoadSnapshot _ => λ r, bool_decide (r = None)
  | _ => λ _, false
  end.

Definition served_event (e : error) (ev : event Sys) : bool :=
  match ev with
  | Event c r =>
      match c in Sys T return T → bool with
      | Api target c => λ r, match target with GeneratedClient _ => served_call e c r | _ => false end
      | _ => λ _, true
      end r
  end.

Lemma server_put p refusal h op :
  Method op = "PUT" → PathPattern op ≠ p → server_but p refusal h _ (Submit op) = inr (mkResponse 204 "").
Proof. intros Hm Hp%String.eqb_neq. unfold server_but. by rewrite Hm, Hp. Qed.

Lemma server_patch p refusal h op :
  Method op = "PATCH" → PathPattern op ≠ p → server_but p refusal h _ (Submit op) = inr (mkResponse 204 "").
Proof. intros Hm Hp%String.eqb_neq. unfold server_but. by rewrite Hm, Hp. Qed.

Lemma server_refused p refusal h op :
  Method op = "PUT" → PathPattern op = p → server_but p refusal h _ (Submit op) = inr refusal.
Proof. intros Hm Hp%String.eqb_eq. unfold server_but. by rewrite Hm, Hp. Qed.

Lemma server_get p refusal h op :
  Method op = "GET" →
  server_but p refusal h _ (Submit op) = inr (mkResponse 200 (double_quotes "{'mem_size_mib':512,'smt':false,'vcpu_count':2}")).
Proof. intros Hm. unfold server_but. by rewrite Hm. Qed.

Lemma server_configuration :
  consume_payload (T := MachineConfiguration) (mkResponse 200 (double_quotes "{'mem_size_mib':512,'smt':false,'vcpu_count':2}")) ApiOperations.zero_MachineConfiguration =
    inr (mkMachineConfiguration "" (Some 512) (Some false) None (Some 2)).
Proof. vm_compute. reflexivity. Qed.

Lemma server_kernel : consume_payload no_boot_source ApiOperations.zero_Error = inr (mkError "The kernel is missing.").
Proof. vm_compute. reflexivity. Qed.

(** The answer to the request for a boot source, and the error it is read as. *)
Inductive boot_answer : Response → error → Prop :=
  | boot_accepted : boot_answer (mkResponse 204 "") None
  | boot_refused : boot_answer no_boot_source (Some boot_error).

Lemma served_call_run refusal e {T} (c : ClientIface T) r h :
  boot_answer refusal e → served_call e c r = true →
  ∃ h', OpsClient (S := unit) c (server_but "/boot-source" refusal) tt h = (Val r, tt, h').
Proof.
  intros Hboot Hc. destruct c; try done; cbn [served_call] in Hc.
  3: destruct r as [|[[x|]]]; [done| |done].
  all: apply bool_decide_eq_true_1 in Hc as ->; cbn [OpsClient]; autounfold with api; unfold go_bind, call.
  1, 2, 4, 7, 8: rewrite server_put by done; eexists; reflexivity.
  2: rewrite server_patch by done; eexists; reflexivity.
  - rewrite server_get by reflexivity. eexists. cbn [try_read Response_Code Z.eqb Pos.eqb]. by rewrite server_configuration.
  - rewrite server_refused by done. destruct Hboot; eexists; [reflexivity|].
    unfold try_read. cbn [Response_Code no_boot_source Z.eqb Pos.eqb]. by rewrite server_kernel.
Qed.

Lemma served_serves refusal e t :
  boot_answer refusal e → forallb (served_event e) t = true →
  ∀ h, ∃ h', serves (server_but "/boot-source" refusal) h t h'.
Proof.
  intros Hboot. induction t as [|[T c r] t IH]; [by eexists; constructor|]. simpl. intros [Hev Ht]%andb_prop h.
  destruct c as [| | | | | | | | | | | | | | | | | | | | | | | | | | | | | |T target c|];
    try (destruct (IH Ht h) as [h' Hh]; exists h'; by apply serves_other).
  destruct target as [path|]; [|done].
  destruct (served_call_run refusal e c r h Hboot Hev) as [h1 Hrun].
  destruct (IH Ht h1) as [h' Hh]. exists h'. by apply (serves_api _ _ path c r h1).
Qed.

(** The start of the default machine of Concrete.v, on this server. *)
Lemma Start_wire_witness :
  ∃ u, serves server [] (Start 5 Background sample_host created []).2 u ∧
    changing u =
      [put "/machine-config" [] (parse (double_quotes "{'mem_size_mib':512,'vcpu_count':2}"));
       put "/boot-source" [] (parse (double_quotes "{'boot_args':'console=ttyS0','kernel_image_path':'/vmlinux'}"));
       put "/drives/{drive_id}" [("drive_id", "1")]
         (parse (double_quotes "{'drive_id':'1','is_read_only':false,'is_root_device':true,'path_on_host':'/rootfs'}"));
       put "/actions" [] (parse (double_quotes "{'action_type':'InstanceStart'}"))].
Proof.
  assert ((Start 5 Background sample_host created []).1.1 = Val None) as Hv by (vm_compute; reflexivity).
  assert (forallb (served_event None) (Start 5 Background sample_host created []).2 = true) as Hs by (vm_compute; reflexivity).
  destruct (served_serves _ _ _ boot_accepted Hs []) as [u Hu].
  exists u. split; [exact Hu|].
  destruct (Start 5 Background sample_host created []) as [[r w'] t] eqn:Hrun. simpl in Hv, Hu. subst r.
  destruct (Start_wire 5 Background sample_host server created w'
    [NetworkConfigValidationHandler; ConfigValidationHandler]
    (take 4 defaultFcInitHandlerList) (drop 4 defaultFcInitHandlerList) t [] u) as (u' & Hu' & Hw);
    [vm_compute; reflexivity | vm_compute; reflexivity | repeat constructor | repeat constructor | exact Hrun | exact Hu |].
  simpl in Hu'. subst u'. rewrite Hw.
  assert (Cfg (machine w') = Cfg (machine (Start 5 Background sample_host created []).1.2)) as -> by (by rewrite Hrun).
  vm_compute. reflexivity.
Defined.

(** The same start, on the server that does not find the kernel. *)
Definition fault_host : Oracle Sys := λ h T c,
  match c in Sys T return T with
  | Api _ c =>
      match c in ClientIface T return T with
      | Ops_PutGuestBootSource _ => Some boot_error
      | c => api_answer c
      end
  | c => sample_host h _ c
  end.

Lemma Start_wire_refused_witness :
  ∃ u done rest, serves refusing_server [] (Start 5 Background fault_host created []).2 u ∧
    [WMachineConfiguration (Some (mkMachineConfiguration "" (Some 512) None None (Some 2)));
     WBootSource (Some (mkBootSource "console=ttyS0" "" (Some "/vmlinux")));
     WDrive "1" (Some (mkDrive None (Some "1") None (Some false) (Some true) "" (Some "/rootfs") None));
     start_write] = done ++ rest ∧
    (Forall2 is_exchange (exchanges u) (accepted <$> done) ∨
     ∃ x rest' answer refusal first, rest = x :: rest' ∧
       exchanges u = first ++ [(wire_of x, answer)] ∧ Forall2 is_exchange first (accepted <$> done) ∧
       explains answer (Some refusal) ∧ returned_as refusal boot_error).
Proof.
  assert ((Start 5 Background fault_host created []).1.1 = Val (Some boot_error)) as Hv by (vm_compute; reflexivity).
  assert (forallb (served_event (Some boot_error)) (Start 5 Background fault_host created []).2 = true) as Hs
    by (vm_compute; reflexivity).
  destruct (served_serves _ _ _ boot_refused Hs []) as [u Hu].
  destruct (Start 5 Background fault_host created []) as [[r w'] t] eqn:Hrun. simpl in Hv, Hu. subst r.
  destruct (Start_wire_refused 5 Background fault_host refusing_server created w'
    [NetworkConfigValidationHandler; ConfigValidationHandler]
    (take 4 defaultFcInitHandlerList) (drop 4 defaultFcInitHandlerList) boot_error t [] u)
    as (u' & first & rest & Hu' & Hws & Hd);
    [vm_compute; reflexivity | vm_compute; reflexivity | repeat constructor | repeat constructor
    | vm_compute; reflexivity | exact Hrun | exact Hu |].
  exists u, first, rest. simpl in Hu'. subst u'. split; [exact Hu|]. split; [|exact Hd]. rewrite <- Hws.
  assert (Cfg (machine w') = Cfg (machine (Start 5 Background fault_host created []).1.2)) as -> by (by rewrite Hrun).
  vm_compute. reflexivity.
Defined.

(** Pausing, with an option that changes the context of the request. *)
Lemma control_wire_witness :
  let c := Pause [λ p, PatchVMParams_SetContext p (Some Background)] in
  ∃ op, serves server [] (run_control Background c sample_host created []).2
          [Event (Submit op) (inr (mkResponse 204 ""))] ∧
    sent_of op = mkSent "PATCH" "/vm" [] (parse (double_quotes "{'state':'Paused'}")).
Proof.
  intros c.
  assert ((run_control Background c sample_host created []).1.1 = Val None) as Hv by (vm_compute; reflexivity).
  assert (forallb (served_event None) (run_control Background c sample_host created []).2 = true) as Hs
    by (vm_compute; reflexivity).
  destruct (served_serves _ _ _ boot_accepted Hs []) as [h' Hh].
  destruct (run_control Background c sample_host created []) as [[r w'] t] eqn:Hrun. simpl in Hv, Hh. subst r.
  destruct (control_wire c Background sample_host server created w' None t [] h' I ltac:(repeat constructor) Hrun Hh)
    as (_ & change & op & req & Hc & _ & -> & Hop & _ & _ & _).
  exists op. rewrite (Hc I) in Hop. assert (Method op = "PATCH") as Hm by (apply (f_equal sent_method) in Hop; exact Hop).
  unfold server in Hh |- *. rewrite (server_patch _ _ _ _ Hm) in Hh by (by apply (f_equal sent_path) in Hop; simpl in Hop; rewrite Hop).
  split; [exact Hh|]. rewrite Hop. vm_compute. reflexivity.
Defined.
End Examples.
