(* ===== verification/Kept.v ===== *)
(** * What a machine keeps of its configuration (src/machine.go, src/jailer.go)

    [NewMachine] and a start change few fields of the configuration: the ID of the
    machine, its network namespace, the forwarded signals, the addresses of the
    network interfaces and the kernel arguments; and, with a jailer, the paths.  Any
    [view] of a configuration that does not see these fields is kept. *)

From stdpp Require Import gmap strings list.
From Stdlib Require Import ZArith Lia.
From S2P Require Import Prelude GoStrings KernelArgs Models ApiParams Slices Handlers Builders Commands Vmconf Client Netlink Sys Network Config MachineApi Vmm Machine MachineFacts RequestFacts CreateFacts.

Open Scope string_scope.
Open Scope Z_scope.
Open Scope list_scope.

(** A view that does not see what a machine changes; [jailed] says whether it may
    be the view of a machine with a jailer. *)
Record blind {X} (jailed : bool) (view : Config → X) : Prop := {
  blind_VMID v c : view (set_VMID v c) = view c;
  blind_NetNS v c : view (set_NetNS v c) = view c;
  blind_ForwardSignals v c : view (set_ForwardSignals v c) = view c;
  blind_NetworkInterfaces v c :
    device <$> v = device <$> Cfg_NetworkInterfaces c → view (set_Cfg_NetworkInterfaces v c) = view c;
  blind_KernelArgs v c : view (set_KernelArgs_ v c) = view c;
  blind_SocketPath v c : jailed = true → view (set_SocketPath v c) = view c;
  blind_Drives v c : jailed = true → view (set_Drives v c) = view c;
  blind_KernelImagePath v c : jailed = true → view (set_KernelImagePath v c) = view c;
  blind_InitrdPath v c : jailed = true → view (set_InitrdPath v c) = view c;
  blind_LogFifo v c : jailed = true → view (set_LogFifo v c) = view c;
  blind_MetricsFifo v c : jailed = true → view (set_MetricsFifo v c) = view c
}.

Section kept.
Context `{Growth} `{DefaultTimeout} `{Multierror} `{NetlinkConstants}.
Implicit Types (ctx : go_context) (o : Oracle Sys).
Context {X : Type} (jailed : bool) (view : Config → X) (Hview : blind jailed view).

Definition view_of (w : World) : X := view (Cfg (machine w)).
Definition same_view (w w' : World) : Prop := view_of w' = view_of w.
#[local] Instance same_view_preorder : PreOrder same_view.
Proof. split; unfold same_view; [done|]. intros ??? Ha Hb. by rewrite Hb. Qed.

Lemma same_view_modify f : (∀ c, view (f c) = view c) → keeps (E := Sys) same_view (modify_cfg f).
Proof. intros Hf. apply keeps_modify. intros w. apply Hf. Qed.

#[local] Hint Extern 1 (keeps same_view get_cfg) => unfold get_cfg, get_machine; go_keeps : go_keeps.
#[local] Hint Extern 1 (keeps same_view (add_cleanup _)) => apply keeps_modify; intros; reflexivity : go_keeps.
#[local] Hint Extern 2 (keeps same_view (modify_cfg _)) => apply same_view_modify; intros; by apply Hview : go_keeps.

(** ** Starting *)
Lemma same_view_link_drives rootfs i drives : jailed = true → keeps same_view (link_drives rootfs i drives).
Proof. intros Hj. revert i. induction drives as [|d drives IH]; intros i; simpl; unfold link_into; go_keeps. Qed.
#[local] Hint Resolve same_view_link_drives : go_keeps.

Lemma same_view_setupNetwork ctx : keeps same_view (setupNetwork ctx).
Proof.
  intros o w h. unfold setupNetwork, get_cfg, get_machine, modify_cfg, modify_machine, add_cleanup. run_unfold.
  set (run := NetworkInterfaces_setupNetwork _ _ _ _).
  assert (keeps eq run) as Hw by apply keeps_setupNetwork_eq. specialize (Hw o w h).
  pose proof (setupNetwork_devices ctx (Cfg_NetworkInterfaces (Cfg (machine w))) (VMID (Cfg (machine w)))
    (NetNS (Cfg (machine w))) o w h) as Hd. fold run in Hd.
  destruct (run o w h) as [[[[[e fs] ifaces]| |] w'] h']; [|done..]. simpl in *. subst w'.
  unfold same_view, view_of. simpl. by rewrite (blind_NetworkInterfaces _ _ Hview).
Qed.

Lemma same_cfg_view w w' : same_cfg w w' → same_view w w'.
Proof. intros Hc. unfold same_view, view_of. by rewrite Hc. Qed.

Definition links (fn : HandlerFn) : bool := match fn with LinkFiles _ => true | _ => false end.

(** A start whose handlers link files only when the view allows a jailer. *)
Lemma Start_view fuel ctx o w w' h h' :
  Forall (λ x, links (Handler_Fn x) = true → jailed = true)
    (elems (heap_ w) (Validation (Handlers_ (machine w))) ++ elems (heap_ w) (FcInit (Handlers_ (machine w)))) →
  Start fuel ctx o w h = (Val None, w', h') → view_of w' = view_of w.
Proof.
  intros Hl (w2 & h2 & Hrun & Hsame%same_cfg_view)%Start_handlers. rewrite Hsame. set (w0 := mkWorld _ _) in Hrun.
  assert (wp (run_handlers fuel ctx) (λ r w' _, ∀ a, r = Val a → same_view w0 w') o w0 h) as Hh.
  { unfold run_handlers. apply wp_bind, wp_get. unfold Handlers_Run.
    apply (kept_by_handlers same_view fuel ctx (λ fn, links fn = true → jailed = true)); [apply same_cfg_view|..].
    - intros fn Hj Hp. destruct fn; try done; cbn [exec_handler]; [apply same_view_setupNetwork|clear Hj|specialize (Hj eq_refl)];
        unfold setupKernelArgs, ipBootParam, linkFiles, link_fifo, link_into; go_keeps.
    - unfold Spec.Append. apply Forall_app in Hl as [Hv Hf]. apply Forall_app. split; [|done]. by case_match. }
  unfold wp in Hh. rewrite Hrun in Hh. by apply (Hh None).
Qed.

(** ** Making a machine *)
Lemma with_vmid_view cfg o w h :
  wp (with_vmid cfg) (λ r _ _, ∀ cfg', r = Val (inr cfg') → view cfg' = view cfg ∧ JailerCfg cfg' = JailerCfg cfg) o w h.
Proof.
  unfold with_vmid. case_match; [|by apply wp_ret; intros ? [= <-]].
  apply wp_bind, wp_call. destruct (o h _ UuidNewRandom); apply wp_ret; intros ? [= <-]; [].
  split; [by apply Hview|done].
Qed.

Lemma build_command_view cfg o w h :
  (is_jailed cfg = true → jailed = true) →
  wp (build_command cfg) (λ r _ _, ∀ cfg', r = Val (inr cfg') → view cfg' = view cfg) o w h.
Proof.
  unfold is_jailed, build_command, jail, append_validation, modify_machine. intros Hj.
  destruct (JailerCfg cfg) eqn:?; [specialize (Hj eq_refl)|]; wp_steps; intros; try done;
    repeat case_match; simplify_eq; try done; by apply Hview.
Qed.

Lemma finish_machine_view cfg opts o w h :
  wp (finish_machine cfg opts) (λ r w' _, is_val r → ∃ w1, view_of w1 = view cfg ∧ w' = apply_opts opts w1) o w h.
Proof.
  unfold finish_machine, get_machine, modify_machine, NewClient, envValueOrDefaultInt, os_Getenv, sys_env.
  set (k := modify (apply_opts opts)). set (cfg1 := match ForwardSignals cfg with Some _ => _ | None => _ end).
  assert (view cfg1 = view cfg) as Hv by (unfold cfg1; case_match; [done|by apply Hview]). clearbody cfg1.
  repeat (wp_step; try (intros [? ?]; discriminate)).
  all: apply wp_modify; intros _; eexists; split; [|done]; unfold view_of; simpl; rewrite ?(blind_NetNS _ _ Hview); done.
Qed.

Lemma NewMachine_view cfg opts o w w' h h' :
  (is_jailed cfg = true → jailed = true) →
  NewMachine cfg opts o w h = (Val None, w', h') →
  ∃ w1, view_of w1 = view cfg ∧ w' = apply_opts opts w1.
Proof.
  intros Hj. enough (wp (NewMachine cfg opts)
    (λ r w' _, r = Val None → ∃ w1, view_of w1 = view cfg ∧ w' = apply_opts opts w1) o w h) as Hwp.
  { intros Hrun. unfold wp in Hwp. rewrite Hrun in Hwp. by apply Hwp. }
  unfold NewMachine, modify_machine. apply wp_bind, wp_modify, wp_bind.
  eapply wp_mono; [apply with_vmid_view|]. intros [[e|cfg1]| |] w1 h1 Hvm; [by apply wp_ret| |done..].
  destruct (Hvm cfg1 eq_refl) as [Hv1 Hj1].
  apply wp_bind, wp_modify, wp_bind. eapply wp_mono; [apply build_command_view; unfold is_jailed in *; by rewrite Hj1|].
  intros [[e|cfg2]| |] w2 h2 Hbuild; [by apply wp_ret| |done..].
  apply wp_bind. eapply wp_mono; [apply finish_machine_view|].
  intros [[]| |] w3 h3 Hfin; [|done..]. apply wp_ret. intros _. destruct Hfin as (w4 & Hs & ->); [by eexists|].
  exists w4. split; [|done]. by rewrite Hs, (Hbuild cfg2).
Qed.
End kept.

(** ** What a new machine sends when it starts *)

(** The handlers that configure the VM. *)
Definition configuring (snapshot : bool) : list (Handler HandlerFn) :=
  [BootstrapLoggingHandler] ++
  (if snapshot then [AddVsocksHandler; LoadSnapshotHandler]
   else [CreateMachineHandler; CreateBootSourceHandler; AttachDrivesHandler; CreateNetworkInterfacesHandler;
         AddVsocksHandler; ConfigMmdsHandler]).

Section made.
Context `{Growth} `{DefaultTimeout} `{Multierror} `{NetlinkConstants}.

(** The snapshot configuration [WithSnapshot] makes. *)
Definition with_snapshot (mem snap : string) (opts : list WithSnapshotOpt) (s : SnapshotConfig) : SnapshotConfig :=
  apply_opts opts (mkSnapshotConfig mem (Snapshot_MemBackend s) snap (Snapshot_EnableDiffSnapshots s) (Snapshot_ResumeVM s)).

(** Options that give the machine its commands leave the configuration alone. *)
Lemma runners_cfg cmds w : Cfg (machine (apply_opts (WithProcessRunner <$> cmds) w)) = Cfg (machine w).
Proof. revert w. induction cmds as [|c cmds IH]; intros w; [done|]. apply (IH (WithProcessRunner c w)). Qed.

Lemma WithSnapshot_cfg mem snap opts w :
  Cfg (machine (WithSnapshot mem snap opts w)) =
  set_Snapshot (with_snapshot mem snap opts (Snapshot (Cfg (machine w)))) (Cfg (machine w)).
Proof. unfold WithSnapshot. by repeat case_match. Qed.

(** The command and the snapshot are the only options. *)
Lemma made_start (cfg : Config) cmds snapshot (s : NaiveChrootStrategy) (fuel : nat) ctx (o o' : Oracle Sys)
    (w w1 w2 : World) h0 h1 h t :
  growslice 0 1 = 1%nat → default_lists (heap_ w) →
  (∀ j, JailerCfg cfg = Some j → ChrootStrategy j = Some (naive_adapter s)) →
  NewMachine cfg ((WithProcessRunner <$> cmds) ++ snapshot_options snapshot) o w h0 = (Val None, w1, h1) →
  Start fuel ctx o' w1 h = (Val None, w2, t) →
  ∃ u, t = h ++ u ∧
    writes u = accepted <$> start_writes (configuring (bool_decide (is_Some snapshot))) (Cfg (machine w2)).
Proof.
  intros Hg Hdef Hs Hnew Hstart.
  pose proof (NewMachine_makes cfg cmds snapshot s o w w1 h0 h1 Hg Hdef Hs Hnew) as [_ _ Hv _ Hf].
  set (pre := [SetupNetworkHandler] ++ (if bool_decide (is_Some snapshot) then [] else [SetupKernelArgsHandler]) ++
    [StartVMMHandler; CreateLogFilesHandler] ++ link_handlers (is_jailed cfg) s).
  apply (Start_sends fuel ctx o' w1 w2 _ pre _ None h t Hv); try done.
  - rewrite Hf. unfold pre, fcinit_list. rewrite <- !(assoc (++)). reflexivity.
  - unfold pre, validation_list, link_handlers.
    destruct (is_jailed cfg), (bool_decide (is_Some snapshot)); repeat constructor.
  - destruct (bool_decide (is_Some snapshot)); repeat constructor.
  - by apply (Start_once fuel ctx o' w1 w2 h _ Hstart).
Qed.
(** A view of the configuration with which it starts, or will load a snapshot. *)
Lemma made_view {X} (jailed : bool) (view : Config → X) (cfg : Config) cmds snapshot (s : NaiveChrootStrategy) (fuel : nat) ctx
    (o o' : Oracle Sys) (w w1 w2 : World) h0 h1 h t :
  blind jailed view → (is_jailed cfg = true → jailed = true) →
  (is_Some snapshot → ∀ sc c, view (set_Snapshot sc c) = view c) →
  growslice 0 1 = 1%nat → default_lists (heap_ w) →
  (∀ j, JailerCfg cfg = Some j → ChrootStrategy j = Some (naive_adapter s)) →
  NewMachine cfg ((WithProcessRunner <$> cmds) ++ snapshot_options snapshot) o w h0 = (Val None, w1, h1) →
  Start fuel ctx o' w1 h = (Val None, w2, t) →
  view (Cfg (machine w2)) = view cfg.
Proof.
  intros Hview Hj Hsnap Hg Hdef Hs Hnew Hstart.
  pose proof (NewMachine_makes cfg cmds snapshot s o w w1 h0 h1 Hg Hdef Hs Hnew) as [_ _ Hv _ Hf].
  destruct (NewMachine_view jailed view Hview cfg _ o w w1 h0 h1 Hj Hnew) as (w0 & Hw0 & Hw1).
  change (view_of view w2 = view cfg). rewrite (Start_view jailed view Hview fuel ctx o' w1 w2 h t); [|rewrite Hv, Hf|done].
  - rewrite Hw1, apply_opts_app, <- Hw0. unfold view_of.
    destruct snapshot as [[[mem snap] opts]|]; cbn [snapshot_options apply_opts foldl];
      rewrite ?WithSnapshot_cfg, ?Hsnap by done; by rewrite runners_cfg.
  - unfold validation_list, fcinit_list, link_handlers. destruct (is_jailed cfg); [apply Forall_true; by intros ? _; apply Hj|].
    destruct (bool_decide (is_Some snapshot)); repeat constructor; done.
Qed.
End made.
