(* ===== verification/Restore.v ===== *)
(** * From one machine to another (src/machine.go, src/opts.go)

    The round trip of a snapshot: [CreateSnapshot] on a running machine, then a new
    machine made [WithSnapshot] of the same two paths, both over the wire. *)

From stdpp Require Import gmap strings list.
From Stdlib Require Import ZArith Lia.
From S2P Require Import Prelude GoStrings KernelArgs Models Json JsonText ModelsJson ApiParams Slices Handlers Builders Commands Vmconf Client ApiOperations Netlink Sys Network Config MachineApi Vmm Machine MachineFacts Concrete RequestFacts CreateFacts Kept ControlFacts Wire.

Open Scope string_scope.
Open Scope Z_scope.
Open Scope list_scope.

(** Nothing but [WithSnapshot] changes the snapshot configuration. *)
Lemma blind_Snapshot : blind true Snapshot.
Proof. by split. Qed.

Section restore.
Context `{Growth} `{DefaultTimeout} `{Multierror} `{NetlinkConstants} `{Consumer}.
Implicit Types (ctx : go_context) (o : Oracle Sys).

(** ** The two sides *)

(** How a program gives [WithSnapshot] the memory of a snapshot: as a file, or to a
    memory backend of some type, without a file. *)
Inductive memory_given := FromFile | FromBackend (backendType : string).

Definition memory_file (g : memory_given) (mem : string) : string :=
  match g with FromFile => mem | FromBackend _ => "" end.

Definition memory_options (g : memory_given) (mem : string) : list WithSnapshotOpt :=
  match g with FromFile => [] | FromBackend t => [WithMemoryBackend t mem] end.

(** The body that loads the memory [mem] and the state [snap], as the API describes
    it: either a file or a backend. *)
Definition loads (g : memory_given) (mem snap : string) (diff resume : bool) : SnapshotLoadParams :=
  match g with
  | FromFile => mkSnapshotLoadParams diff None mem resume (Some snap)
  | FromBackend t => mkSnapshotLoadParams diff (Some (mkMemoryBackend (Some mem) (Some t))) "" resume (Some snap)
  end.

(** What a snapshot configuration asks the VMM to load. *)
Definition loaded (s : SnapshotConfig) : SnapshotLoadParams :=
  mkSnapshotLoadParams (Snapshot_EnableDiffSnapshots s) (Snapshot_MemBackend s) (Snapshot_MemFilePath s)
    (Snapshot_ResumeVM s) (Some (Snapshot_SnapshotPath s)).

Lemma handlers_loading cfg :
  (configuring true ≫= handler_writes cfg ∘ Handler_Fn) =
  logger_writes cfg ++ metrics_writes cfg ++ (vsock_write <$> VsockDevices cfg) ++ [snapshot_write (Snapshot cfg)].
Proof. simpl. by rewrite <- !app_assoc. Qed.

(** A machine made with a snapshot, and what it has sent once it has started. *)
Lemma loading_start (cfg : Config) (s : NaiveChrootStrategy) cmds (mem snap : string) opts (fuel : nat) ctx o o'
    (w w1 w2 : World) h0 h1 h t :
  let sc := with_snapshot mem snap opts (Snapshot cfg) in
  hasSnapshot (set_Snapshot sc cfg) = true →
  growslice 0 1 = 1%nat → default_lists (heap_ w) →
  (∀ j, JailerCfg cfg = Some j → ChrootStrategy j = Some (naive_adapter s)) →
  NewMachine cfg ((WithProcessRunner <$> cmds) ++ [WithSnapshot mem snap opts]) o w h0 = (Val None, w1, h1) →
  Start fuel ctx o' w1 h = (Val None, w2, t) →
  let cfg2 := Cfg (machine w2) in
  ∃ u, t = h ++ u ∧
    writes u = accepted <$> (logger_writes cfg2 ++ metrics_writes cfg2 ++ (vsock_write <$> VsockDevices cfg2) ++
                             [WLoadSnapshot (Some (loaded sc))]).
Proof.
  intros sc Hsnap Hg Hdef Hs Hnew Hstart cfg2.
  destruct (NewMachine_view true Snapshot blind_Snapshot cfg _ o w w1 h0 h1 ltac:(done) Hnew) as (w0 & Hw0 & Hw1).
  pose proof (Start_view true Snapshot blind_Snapshot fuel ctx o' w1 w2 h t ltac:(by apply Forall_true) Hstart) as Hsame.
  assert (Snapshot cfg2 = sc) as Hcfg2.
  { unfold cfg2. unfold view_of in *. rewrite Hsame, Hw1. unfold sc. rewrite <- Hw0.
    rewrite apply_opts_app. cbn [apply_opts foldl]. by rewrite WithSnapshot_cfg, runners_cfg. }
  destruct (made_start cfg cmds (Some (mem, snap, opts)) s fuel ctx o o' w w1 w2 h0 h1 h t Hg Hdef Hs Hnew Hstart)
    as (u & -> & Hu).
  exists u. split; [done|]. rewrite Hu. unfold start_writes. cbn [bool_decide]. rewrite bool_decide_true by by eexists.
  fold cfg2. rewrite handlers_loading, Hcfg2.
  unfold hasSnapshot in *. rewrite Hcfg2. simpl in Hsnap. rewrite Hsnap. by rewrite app_nil_r.
Qed.

Lemma loaded_given g mem snap (s : SnapshotConfig) :
  (g = FromFile → Snapshot_MemBackend s = None) →
  loaded (with_snapshot (memory_file g mem) snap (memory_options g mem) s) =
  loads g mem snap (Snapshot_EnableDiffSnapshots s) (Snapshot_ResumeVM s).
Proof. destruct g; intros Hb; [|done]. unfold loaded, with_snapshot. simpl. by rewrite Hb. Qed.

Lemma has_given g mem snap (s : SnapshotConfig) cfg :
  snap ≠ "" →
  hasSnapshot (set_Snapshot (with_snapshot (memory_file g mem) snap (memory_options g mem) s) cfg) = true.
Proof.
  intros Hne%String.eqb_neq. unfold hasSnapshot. apply orb_true_iff. right.
  destruct g; simpl; by rewrite Hne.
Qed.

(** C5. The round trip of a snapshot: when a running machine is asked for a snapshot
    and the VMM accepts, the one changing HTTP request is to write the memory [mem]
    and the state [snap]; and a new machine made with a snapshot of the state [snap]
    and of the memory [mem], given as the file or to a memory backend, jailed or not,
    that starts, loads with its last request exactly [mem], in the field of the API
    for the way it was given, and [snap], with the flags of the configuration, after
    the requests for its log, its metrics and its vsock devices: it configures no
    kernel, drive or network interface, and does not start an instance.  (A memory
    file is only loaded by a configuration that names no memory backend itself.) *)
Theorem snapshot_round_trip (cfg : Config) (s : NaiveChrootStrategy) (mem snap : string) (g : memory_given)
    (fuel : nat) ctx ctx' (o o' : Oracle Sys) (server server' : Oracle (Transport (H := recorder)))
    (running running' w w1 w2 : World) h0 h1 tA t hA hA' h h' :
  snap ≠ "" → (g = FromFile → Snapshot_MemBackend (Snapshot cfg) = None) →
  run_control ctx' (TakeSnapshot mem snap []) o' running [] = (Val None, running', tA) → serves server' hA tA hA' →
  growslice 0 1 = 1%nat → default_lists (heap_ w) →
  (∀ j, JailerCfg cfg = Some j → ChrootStrategy j = Some (naive_adapter s)) →
  NewMachine cfg [WithSnapshot (memory_file g mem) snap (memory_options g mem)] o w h0 = (Val None, w1, h1) →
  Start fuel ctx o w1 [] = (Val None, w2, t) → serves server h t h' →
  let cfg2 := Cfg (machine w2) in
  (∃ u, hA' = hA ++ u ∧
     changing u = [put "/snapshot/create" [] (Some (json_encode (mkSnapshotCreateParams (Some mem) (Some snap) "" "")))]) ∧
  ∃ u, h' = h ++ u ∧
    changing u = (wire_of <$> logger_writes cfg2 ++ metrics_writes cfg2 ++ (vsock_write <$> VsockDevices cfg2)) ++
                 [put "/snapshot/load" [] (Some (json_encode (loads g mem snap
                    (Snapshot_EnableDiffSnapshots (Snapshot cfg)) (Snapshot_ResumeVM (Snapshot cfg)))))].
Proof.
  intros Hne Hb HrunA HsA Hg Hdef Hs Hnew Hstart Hserves cfg2. split.
  - destruct (control_served (TakeSnapshot mem snap []) ctx' o' server' running running' None tA hA hA' ltac:(by constructor) HrunA HsA)
      as (_ & op & req & -> & Hop & _ & _).
    eexists. split; [done|]. unfold changing. simpl. rewrite Hop. reflexivity.
  - destruct (loading_start cfg s [] _ snap _ fuel ctx o o w w1 w2 h0 h1 [] t (has_given g mem snap _ cfg Hne) Hg Hdef Hs Hnew Hstart)
      as (u & Ht & Hu).
    simpl in Ht. subst u. rewrite loaded_given in Hu by done.
    destruct (serves_changing server h t h' _ Hserves Hu) as (u & -> & Hc).
    + pose proof (handlers_known cfg2 (configuring true)) as Hk.
      rewrite handlers_loading in Hk. rewrite !Forall_app in *. destruct Hk as (? & ? & ? & _). by repeat constructor.
    + exists u. split; [done|]. rewrite Hc. fold cfg2. by rewrite !fmap_app, <- !app_assoc.
Qed.
End restore.

Module Examples.
Import Wire.Examples.

(** The machine of Concrete.v, which boots a kernel, and one that loads a snapshot. *)
Definition loading : World := after (NewMachine sample_config [WithSnapshot "/mem" "/snap" []]) sample_host initial_world.

Lemma snapshot_round_trip_witness :
  ∃ uA u, serves server [] (run_control Background (TakeSnapshot "/mem" "/snap" []) sample_host created []).2 uA ∧
    serves server [] (Start 5 Background sample_host loading []).2 u ∧
    changing uA = [put "/snapshot/create" [] (parse (double_quotes "{'mem_file_path':'/mem','snapshot_path':'/snap'}"))] ∧
    changing u = [put "/snapshot/load" [] (parse (double_quotes "{'mem_file_path':'/mem','snapshot_path':'/snap'}"))].
Proof.
  assert ((run_control Background (TakeSnapshot "/mem" "/snap" []) sample_host created []).1.1 = Val None) as HvA
    by (vm_compute; reflexivity).
  assert (forallb (served_event None) (run_control Background (TakeSnapshot "/mem" "/snap" []) sample_host created []).2 = true)
    as HsA by (vm_compute; reflexivity).
  assert ((Start 5 Background sample_host loading []).1.1 = Val None) as Hv by (vm_compute; reflexivity).
  assert (forallb (served_event None) (Start 5 Background sample_host loading []).2 = true) as Hs by (vm_compute; reflexivity).
  destruct (served_serves _ _ _ boot_accepted HsA []) as [uA HuA].
  destruct (served_serves _ _ _ boot_accepted Hs []) as [u Hu].
  exists uA, u. split; [exact HuA|]. split; [exact Hu|].
  assert (NewMachine sample_config [WithSnapshot "/mem" "/snap" []] sample_host initial_world [] =
    (Val None, loading, (NewMachine sample_config [WithSnapshot "/mem" "/snap" []] sample_host initial_world []).2)) as Hnew
    by (unfold loading; apply run_after; vm_compute; reflexivity).
  destruct (run_control Background (TakeSnapshot "/mem" "/snap" []) sample_host created []) as [[rA wA] tA] eqn:HrunA.
  simpl in HvA, HuA. subst rA.
  destruct (Start 5 Background sample_host loading []) as [[r w2] t] eqn:Hrun. simpl in Hv, Hu. subst r.
  destruct (snapshot_round_trip sample_config (NewNaiveChrootStrategy "") "/mem" "/snap" FromFile 5 Background Background
    sample_host sample_host server server created wA initial_world loading w2 [] (NewMachine sample_config [WithSnapshot "/mem" "/snap" []] sample_host initial_world []).2 tA t [] uA [] u)
    as ((uA' & HA & HcA) & u' & Hu' & Hc);
    [discriminate | reflexivity | exact HrunA | exact HuA | reflexivity | exact init_default_lists | discriminate | exact Hnew | exact Hrun
    | exact Hu |].
  simpl in HA, Hu'. subst uA' u'. rewrite HcA, Hc.
  assert (Cfg (machine w2) = Cfg (machine (Start 5 Background sample_host loading []).1.2)) as -> by (by rewrite Hrun).
  split; vm_compute; reflexivity.
Defined.
End Examples.
