(* ===== verification/Demo.v ===== *)
(** * The snapshotting example (src/examples/cmd/snapshotting/example_demo.go)

    The program that boots a VM, takes a snapshot of it and restores it in a second
    VM: the SDK as a whole, driven by a caller.  Its own calls (files, time, SSH) are
    the signature [Demo], which contains that of the SDK; the SDK's programs run in
    it by [translate].  [log.Fatal] ends the program where it is, without running the
    deferred functions; a panic runs them.  The world of the SDK holds one machine,
    and the program has one at a time: its functions take the machine from there. *)

From stdpp Require Import gmap strings list.
From Stdlib Require Import ZArith Lia Ascii.
From S2P Require Import Prelude GoStrings KernelArgs Models Json JsonText ModelsJson ApiParams Slices Handlers Builders Commands Vmconf Client ApiOperations Netlink Sys Network Config MachineApi Vmm Machine MachineFacts Concrete RequestFacts CreateFacts Kept ControlFacts Wire Restore.

Open Scope string_scope.
Open Scope Z_scope.
Open Scope list_scope.

(** ** The environment *)

(** golang.org/x/crypto/ssh: keys, clients and sessions by identity. *)
Definition Signer : Type := nat.
Definition SshClient : Type := nat.
Definition Session : Type := nat.

Record ClientConfig := mkClientConfig {
  Ssh_User : string;
  Ssh_Auth : list Signer;          (* public keys *)
  Ssh_InsecureIgnoreHostKey : bool;
  Ssh_Timeout : Z
}.

Inductive Demo : Type → Type :=
  | Sdk {T} (c : Sys T) : Demo T
  | OsGetwd : Demo (string * error)
  | OsWriteFile (name data : string) (perm : Z) : Demo error
  | OsReadKey (name : string) : Demo (string * error)       (* [os.ReadFile] *)
  | OsMkdir (name : string) (perm : Z) : Demo error
  | OsMkdirTemp (dir pattern : string) : Demo (string * error)
  | OsRemoveAll (path : string) : Demo error
  | OsGetuid : Demo Z
  | UnixAccess (path : string) (mode : Z) : Demo error
  | TimeSleep (d : Z) : Demo unit
  | VmEnded : Demo (option error)      (* the result of [cmd.Wait], once the process has ended *)
  | FmtPrint (text : string) : Demo unit
  | SshParsePrivateKey (key : string) : Demo (Signer * error)
  | SshDial (network addr : string) (config : ClientConfig) : Demo (option SshClient * error)
  | ClientNewSession (client : SshClient) : Demo (option Session * error)
  | ClientClose (client : SshClient) : Demo error
  | SessionStart (session : Session) (cmd : string) : Demo error
  | SessionRun (session : Session) (cmd : string) : Demo (string * error)   (* what it writes to [Stdout] *)
  | SessionClose (session : Session) : Demo error.

(** ** Programs that may end *)

(** A program that returns a value, unless [log.Fatal] has ended it with an error. *)
Definition D (A : Type) : Type := GoM Demo World (Err + A).

Definition d_ret {A} (a : A) : D A := go_ret (inr a).
Definition d_bind {A B} (m : D A) (k : A → D B) : D B :=
  r <- m ;
  match r with inl e => go_ret (inl e) | inr a => k a end.
Definition lift {A} (m : GoM Demo World A) : D A := a <- m ; d_ret a.
Definition log_Fatal {A} (e : Err) : D A := go_ret (inl e).

Notation "x <~ m ; k" := (d_bind m (λ x, k))
  (at level 100, m at next level, k at level 200, right associativity) : go_scope.
Notation "m ;~ k" := (d_bind m (λ _, k))
  (at level 100, k at level 200, right associativity) : go_scope.

Definition ask {T} (c : Demo T) : D T := lift (call c).
(** A call of the SDK. *)
Definition sdk {A} (m : M A) : D A := lift (translate (λ T, Sdk) m).

(** [if err != nil { log.Fatal(err) }] *)
Definition fatal_if (err : error) : D unit :=
  match err with Some err => log_Fatal err | None => d_ret tt end.

(** [defer d(); body]: [d] runs when the body returns or panics, not when it has
    ended the program. *)
Definition deferring {A} (d : D unit) (body : D A) : D A := λ o w h,
  match body o w h with
  | (Val (inl e), w', h') => (Val (inl e), w', h')
  | (Val (inr a), w', h') => (d ;~ d_ret a) o w' h'
  | (Panic why, w', h') => (d ;~ lift (go_panic why)) o w' h'
  | (Pending, w', h') => (Pending, w', h')
  end.

(** A deferred call whose result is dropped. *)
Definition dropping {T} (c : Demo T) : D unit := ask c ;~ d_ret tt.

(** [errors.Is(err, os.ErrNotExist)] *)
Fixpoint is_ErrNotExist (e : Err) : bool :=
  match e with Ext NotExist _ => true | ErrorfW _ _ c => is_ErrNotExist c | _ => false end.

(** [errors.Is(err, os.ErrExist)] *)
Fixpoint is_ErrExist (e : Err) : bool :=
  match e with Ext Exist _ => true | ErrorfW _ _ c => is_ErrExist c | _ => false end.

(** ** Constants *)
Definition cniCacheDir : string := "/var/lib/cni".
Definition networkName : string := "fcnet".
Definition ifName : string := "veth0".
Definition networkMask : string := "/24".
Definition subnet : string := "10.168.0.0" +:+ networkMask.
Definition maxRetries : nat := 10.
Definition backoffTimeMs : Z := 500.

Definition line (s : string) : string := s +:+ String "010"%char "".
Definition W_OK : Z := 2.

Section demo.
Context `{Growth} `{DefaultTimeout} `{Multierror} `{NetlinkConstants}.

(** A call that takes time: the process of the VM may end meanwhile, and then the
    goroutines of the SDK run. *)
Definition meanwhile {T} (c : Demo T) : D T :=
  r <~ ask c ;
  ended <~ ask VmEnded ;
  match ended with
  | Some waitErr => sdk (process_exits waitErr) ;~ d_ret r
  | None => d_ret r
  end.

(** Polls of the socket, and [runtime.GOARCH != "arm64"]. *)
Context (fuel : nat) (amd64 : bool).
Implicit Types (ctx : go_context).

(** ** Configurations *)
Definition cni_conf (networkName subnet : string) : string :=
  double_quotes "{
		'cniVersion': '0.3.1',
		'name': '" +:+ networkName +:+ double_quotes "',
		'plugins': [
		  {
			'type': 'ptp',
			'ipam': {
			  'type': 'host-local',
			  'subnet': '" +:+ subnet +:+ double_quotes "'
			}
		  },
		  {
			'type': 'tc-redirect-tap'
		  }
		]
	 }".

Definition writeCNIConfWithHostLocalSubnet (path networkName subnet : string) : D error :=
  ask (OsWriteFile path (cni_conf networkName subnet) 420).

Definition configOpt : Type := Config → Config.

Definition withNetworkInterface (networkInterface : FcNetworkInterface) : configOpt := λ c,
  set_Cfg_NetworkInterfaces (Cfg_NetworkInterfaces c ++ [networkInterface]) c.

Definition root_drive : Drive :=
  mkDrive None (Some "root") None (Some false) (Some true) "" (Some "root-drive-with-ssh.img") None.

Definition new_config (socketPath kernelImagePath : string) : Config :=
  mkConfig socketPath "" "" "" "" "" kernelImagePath "" "" [root_drive] [] None []
    (mkMachineConfiguration "" (Some 256) (Some false) None (Some 2)) false None "" "" None
    (mkSeccompConfig false "") None "" zero_SnapshotConfig.

Definition createNewConfig (socketPath : string) (opts : list configOpt) : D Config :=
  wd <~ ask OsGetwd ;
  let dir := wd.1 in
  ask (FmtPrint (line dir)) ;~
  d_ret (apply_opts opts (new_config socketPath (filepath_Join [dir; "vmlinux"]))).

Definition cni_interface (cniConfDir : string) (cniBinPath : list string) (args : list (string * string)) :
    FcNetworkInterface :=
  mkFcNetworkInterface None
    (Some (mkCNIConfiguration networkName None ifName "eth0" args cniBinPath cniConfDir "" "" "" false))
    false None None.

(** ** The VM over SSH *)

(** [m.Cfg.NetworkInterfaces[0].StaticConfiguration.IPConfiguration.IPAddr.IP] *)
Definition vm_ip : D IP :=
  w <~ lift get ;
  match Cfg_NetworkInterfaces (Cfg (machine w)) with
  | [] => lift (go_panic "index out of range [0] with length 0")
  | iface :: _ =>
      static <~ lift (deref (StaticConfiguration iface)) ;
      ipConf <~ lift (deref (IPConfiguration_ static)) ;
      d_ret (IPNet_IP (IPAddr ipConf))
  end.

Definition connectToVM (sshKeyPath : string) : D (option SshClient * error) :=
  read <~ ask (OsReadKey sshKeyPath) ;
  match read with
  | (_, Some err) => d_ret (None, Some err)
  | (key, None) =>
      parsed <~ ask (SshParsePrivateKey key) ;
      match parsed with
      | (_, Some err) => d_ret (None, Some err)
      | (signer, None) =>
          let config := mkClientConfig "root" [signer] true (5 * Second) in
          w <~ lift get ;
          if (length (Cfg_NetworkInterfaces (Cfg (machine w))) =? 0)%nat
          then d_ret (None, Some (ErrorsNew "No network interfaces"))
          else
            ip <~ vm_ip ;
            meanwhile (SshDial "tcp" (IP_String ip +:+ ":22") config)
      end
  end.

(** The loop that connects, [n] times at most, from the values of [client] and [err]
    before it. *)
Fixpoint connect_retry (n : nat) (sshKeyPath : string) (before : option SshClient * error) :
    D (option SshClient * error) :=
  match n with
  | O => d_ret before
  | Datatypes.S n =>
      got <~ connectToVM sshKeyPath ;
      match got with
      | (client, Some err) => meanwhile (TimeSleep (backoffTimeMs * Millisecond)) ;~ connect_retry n sshKeyPath (client, Some err)
      | (client, None) => d_ret (client, None)
      end
  end.

(** [body] with a session on the VM, closed when it returns. *)
Definition with_session {A} (sshKeyPath : string) (body : Session → D A) : D A :=
  connected <~ connect_retry maxRetries sshKeyPath (None, None) ;
  fatal_if connected.2 ;~
  client <~ lift (deref connected.1) ;
  deferring (dropping (ClientClose client)) (
    opened <~ meanwhile (ClientNewSession client) ;
    fatal_if opened.2 ;~
    session <~ lift (deref opened.1) ;
    deferring (dropping (SessionClose session)) (body session)).

(** ** Taking the snapshot *)

(** The command of the machine. *)
Definition demo_cmd (dir socketFile : string) : Cmd :=
  VM_Build (VM_WithBin (VM_WithSocketPath (mkVMCommandBuilder "" None "" None None None) socketFile)
              (filepath_Join [dir; "firecracker"])).

(** A method of the machine whose error is fatal. *)
Definition must (m : M error) : D unit := err <~ sdk m ; fatal_if err.

(** [body] on a started machine, which is shut down and stopped when it returns. *)
Definition with_machine {A} ctx (socketFile : string) (cfg : Config) (opts : list Opt) (body : D A) : D A :=
  must (NewMachine cfg opts) ;~
  deferring (dropping (Sdk (OsRemove socketFile))) (
    must (Start fuel ctx) ;~
    deferring (must StopVMM) (
    deferring (must (Shutdown amd64 ctx)) body)).

(** The CNI configuration file, removed when [body] returns. *)
Definition with_cni {A} (cniConfDir : string) (body : D A) : D A :=
  let cniConfPath := cniConfDir +:+ "/" +:+ networkName +:+ ".conflist" in
  err <~ writeCNIConfWithHostLocalSubnet cniConfPath networkName subnet ;
  fatal_if err ;~
  deferring (dropping (Sdk (OsRemove cniConfPath))) body.

Definition createSnapshotSSH ctx (socketPath memPath snapPath : string) : D string :=
  wd <~ ask OsGetwd ;
  fatal_if wd.2 ;~
  let dir := wd.1 in
  let cniConfDir := filepath_Join [dir; "cni.conf"] in
  let cniBinPath := [filepath_Join [dir; "bin"]] in
  with_cni cniConfDir (
    let networkInterface := cni_interface cniConfDir cniBinPath [] in
    let socketFile := socketPath +:+ ".create" in
    cfg <~ createNewConfig socketFile [withNetworkInterface networkInterface] ;
    let cmd := demo_cmd dir socketFile in
    with_machine ctx socketFile cfg [WithProcessRunner (Some cmd)] (
      ip <~ vm_ip ;
      let vmIP := IP_String ip in
      ask (FmtPrint (line ("IP of VM: " +:+ vmIP))) ;~
      let sshKeyPath := filepath_Join [dir; "root-drive-ssh-key"] in
      with_session sshKeyPath (λ session,
        ask (FmtPrint (line (double_quotes "Sending 'sleep 422' command..."))) ;~
        err <~ meanwhile (SessionStart session "sleep 422") ;
        fatal_if err ;~
        ask (FmtPrint (line "Creating snapshot...")) ;~
        must (PauseVM ctx []) ;~
        must (CreateSnapshot ctx memPath snapPath []) ;~
        must (ResumeVM ctx []) ;~
        ask (FmtPrint (line "Snapshot created")) ;~
        d_ret vmIP))).

(** ** Loading it *)

(** The loop that waits for the address to be given back: the last error of
    [os.Stat], and [ipFreed]. *)
Fixpoint wait_freed (n : nat) (path : string) (err : error) : D (error * bool) :=
  match n with
  | O => d_ret (err, false)
  | Datatypes.S n =>
      err <~ ask (Sdk (OsStat path)) ;
      match err with
      | None => meanwhile (TimeSleep (backoffTimeMs * Millisecond)) ;~ wait_freed n path None
      | Some e => d_ret (Some e, true)
      end
  end.

Definition freed_error (err : error) (ipFreed : bool) (ipToRestore : string) : error :=
  if match err with Some e => is_ErrNotExist e | None => false end then None
  else if negb ipFreed then Some (Errorf "IP %v was not freed" [ipToRestore])
  else err.

Definition load_config (socketPath : string) (networkInterface : FcNetworkInterface) : Config :=
  set_Cfg_NetworkInterfaces [networkInterface] (set_Drives [root_drive] (set_SocketPath (socketPath +:+ ".load") zero_Config)).

Definition loadSnapshotSSH ctx (socketPath memPath snapPath ipToRestore : string) : D unit :=
  waited <~ wait_freed maxRetries (cniCacheDir +:+ "/networks/" +:+ networkName +:+ "/" +:+ ipToRestore) None ;
  fatal_if (freed_error waited.1 waited.2 ipToRestore) ;~
  wd <~ ask OsGetwd ;
  fatal_if wd.2 ;~
  let dir := wd.1 in
  let cniConfDir := filepath_Join [dir; "cni.conf"] in
  let cniBinPath := [filepath_Join [dir; "bin"]] in
  with_cni cniConfDir (
    let networkInterface := cni_interface cniConfDir cniBinPath [("IP", ipToRestore +:+ networkMask)] in
    let socketFile := socketPath +:+ ".load" in
    let cfg := load_config socketPath networkInterface in
    let cmd := demo_cmd dir socketFile in
    with_machine ctx socketFile cfg [WithProcessRunner (Some cmd); WithSnapshot memPath snapPath []] (
      must (ResumeVM ctx []) ;~
      ask (FmtPrint (line "Snapshot loaded")) ;~
      ask (FmtPrint (line ("IP of VM: " +:+ ipToRestore))) ;~
      let sshKeyPath := filepath_Join [dir; "root-drive-ssh-key"] in
      with_session sshKeyPath (λ session,
        ran <~ meanwhile (SessionRun session (double_quotes "ps -aux | grep 'sleep 422'")) ;
        fatal_if ran.2 ;~
        ask (FmtPrint (line ran.1))))).

(** ** The program *)
Definition main : D unit :=
  err <~ ask (UnixAccess "/dev/kvm" W_OK) ;
  fatal_if err ;~
  uid <~ ask OsGetuid ;
  (if 0 =? uid then d_ret tt else log_Fatal (ErrorsNew "Root acccess denied")) ;~
  wd <~ ask OsGetwd ;
  fatal_if wd.2 ;~
  let dir := wd.1 in
  let cniConfDir := filepath_Join [dir; "cni.conf"] in
  err <~ ask (OsMkdir cniConfDir 511) ;
  fatal_if err ;~
  deferring (dropping (Sdk (OsRemove cniConfDir))) (
    temp <~ ask (OsMkdirTemp "" "FCGoSDKSnapshotExample") ;
    fatal_if temp.2 ;~
    let tempdir := temp.1 in
    deferring (dropping (Sdk (OsRemove tempdir))) (
      let socketPath := filepath_Join [tempdir; "snapshotssh"] in
      let snapshotsshPath := filepath_Join [dir; "snapshotssh"] in
      err <~ ask (OsMkdir snapshotsshPath 511) ;
      (if match err with Some e => negb (is_ErrExist e) | None => false end then fatal_if err else d_ret tt) ;~
      deferring (dropping (OsRemoveAll snapshotsshPath)) (
        let snapPath := filepath_Join [snapshotsshPath; "SnapFile"] in
        let memPath := filepath_Join [snapshotsshPath; "MemFile"] in
        let ctx := Background in
        ipToRestore <~ createSnapshotSSH ctx socketPath memPath snapPath ;
        ask (FmtPrint (line "")) ;~
        loadSnapshotSSH ctx socketPath memPath snapPath ipToRestore))).
End demo.
