(* ===== verification/DemoFacts.v ===== *)
(** * What the snapshotting example does to its machines
    (src/examples/cmd/snapshotting/example_demo.go)

    The requests the program sends when it runs to its end, from those of the SDK. *)

From stdpp Require Import gmap strings list.
From Stdlib Require Import ZArith Lia.
From S2P Require Import Prelude GoStrings KernelArgs Models Json JsonText ModelsJson ApiParams Slices Handlers Builders Commands Vmconf Client ApiOperations Netlink Sys Network Config MachineApi Vmm Machine MachineFacts Concrete RequestFacts CreateFacts Kept ControlFacts Wire Restore Demo.

Open Scope string_scope.
Open Scope Z_scope.
Open Scope list_scope.

(** ** The changing requests of a history *)
Definition demo_request (ev : event Demo) : option sent :=
  match ev with Event c r => match c in Demo T return T → option sent with Sdk c => λ r, api_request (Event c r) | _ => λ _, None end r end.

Definition requests (t : trace Demo) : list sent := List.filter changes (omap demo_request t).

(** Those of the SDK's own history. *)
Definition sys_requests (t : trace Sys) : list sent := List.filter changes (omap api_request t).

Lemma requests_app t t' : requests (t ++ t') = requests t ++ requests t'.
Proof. unfold requests. by rewrite omap_app, List.filter_app. Qed.

Lemma requests_sdk t : requests (map_event (λ T, Sdk) <$> t) = sys_requests t.
Proof.
  unfold requests, sys_requests. f_equal. induction t as [|[T c r] t IH]; [done|].
  cbn [fmap list_fmap omap list_omap map_event demo_request] in *. by rewrite <- IH.
Qed.

Lemma sys_requests_writes t l :
  writes t = accepted <$> l → Forall (λ a, known a = true) l → sys_requests t = wire_of <$> l.
Proof. intros Hw Hk. unfold sys_requests. rewrite changing_writes; by rewrite Hw, accepted_fst. Qed.

Lemma sys_requests_silent t : writes t = [] → sys_requests t = [].
Proof. intros Hw. by apply (sys_requests_writes t []). Qed.

(** ** Programs that run to their end

    [ends m Q w]: when [m] returns from [w], without a [log.Fatal], its value, its
    changing requests and the state it leaves are in [Q]. *)
Definition ends {A} (m : D A) (Q : A → list sent → World → Prop) (w : World) : Prop :=
  ∀ o h, wp m (λ r w' h', ∀ a, r = Val (inr a) → ∃ u, h' = h ++ u ∧ Q a (requests u) w') o w h.

Section ends.
Implicit Types (w : World).

Lemma ends_mono {A} (m : D A) (P Q : A → list sent → World → Prop) w :
  ends m P w → (∀ a l w', P a l w' → Q a l w') → ends m Q w.
Proof. intros Hm HPQ o h. eapply wp_mono; [apply Hm|]. intros r w' h' Hr a Ha. destruct (Hr a Ha) as (u & -> & Hu). eauto. Qed.

Lemma ends_ret {A} (a : A) (Q : A → list sent → World → Prop) w : Q a [] w → ends (d_ret a) Q w.
Proof. intros HQ o h. apply wp_ret. intros ? [= <-]. exists []. by rewrite app_nil_r. Qed.

Lemma ends_bind {A B} (m : D A) (k : A → D B) (Q : B → list sent → World → Prop) w :
  ends m (λ a l, ends (k a) (λ b l', Q b (l ++ l'))) w → ends (d_bind m k) Q w.
Proof.
  intros Hm o h. unfold d_bind. apply wp_bind. eapply wp_mono; [apply Hm|]. intros [[e|a]| |] w' h' Hr; [by apply wp_ret| |done..].
  destruct (Hr a eq_refl) as (u & -> & Hk). eapply wp_mono; [apply Hk|]. intros r w2 h2 Hr2 b Hb.
  destruct (Hr2 b Hb) as (u' & -> & HQ). exists (u ++ u'). by rewrite requests_app, app_assoc.
Qed.

Lemma ends_Fatal {A} (e : Err) (Q : A → list sent → World → Prop) w : ends (log_Fatal e) Q w.
Proof. intros o h. by apply wp_ret. Qed.

Lemma ends_panic {A} why (Q : A → list sent → World → Prop) w : ends (lift (go_panic why)) Q w.
Proof. intros o h. unfold lift. by apply wp_bind, wp_panic. Qed.

Lemma ends_get (Q : World → list sent → World → Prop) w : Q w [] w → ends (lift get) Q w.
Proof. intros HQ o h. unfold lift. apply wp_bind, wp_get, wp_ret. intros ? [= <-]. exists []. by rewrite app_nil_r. Qed.

Lemma ends_deref {A} (p : option A) (Q : A → list sent → World → Prop) w :
  (∀ a, p = Some a → Q a [] w) → ends (lift (deref p)) Q w.
Proof. intros HQ. destruct p as [a|]; [|apply ends_panic]. apply (ends_ret a). by apply HQ. Qed.

Lemma ends_fatal_if (err : error) (Q : unit → list sent → World → Prop) w :
  (err = None → Q tt [] w) → ends (fatal_if err) Q w.
Proof. intros HQ. destruct err; [apply ends_Fatal|]. by apply ends_ret, HQ. Qed.

(** A call that is no request of the API. *)
Lemma ends_ask {T} (c : Demo T) (Q : T → list sent → World → Prop) w :
  (∀ r, demo_request (Event c r) = None) → (∀ r, Q r [] w) → ends (ask c) Q w.
Proof.
  intros Hc HQ o h. unfold ask, lift. apply wp_bind, wp_call, wp_ret. intros ? [= <-]. eexists. split; [done|].
  unfold requests. cbn [omap list_omap]. by rewrite Hc.
Qed.

Lemma ends_dropping {T} (c : Demo T) (Q : unit → list sent → World → Prop) w :
  (∀ r, demo_request (Event c r) = None) → Q tt [] w → ends (dropping c) Q w.
Proof. intros Hc HQ. by apply ends_bind, ends_ask; [done|intros r; apply ends_ret]. Qed.

(** A deferred function comes after the body. *)
Lemma ends_deferring {A} (d : D unit) (body : D A) (Q : A → list sent → World → Prop) w :
  ends body (λ a l, ends d (λ _ l', Q a (l ++ l'))) w → ends (deferring d body) Q w.
Proof.
  intros Hb o h. specialize (Hb o h). unfold wp, deferring in *.
  destruct (body o w h) as [[[[e|a]|why|] w'] h']; [done| | |done].
  - destruct (Hb a eq_refl) as (u & -> & Hd). assert (ends (d ;~ d_ret a) (λ b l', Q b (requests u ++ l')) w') as Hk.
    { apply ends_bind. eapply ends_mono; [apply Hd|]. intros [] l w2 HQ. apply ends_ret. by rewrite app_nil_r. }
    specialize (Hk o (h ++ u)). unfold wp in Hk. destruct ((d ;~ d_ret a) o w' (h ++ u)) as [[r w2] h2].
    intros b Hr. destruct (Hk b Hr) as (u' & -> & HQ). exists (u ++ u'). by rewrite requests_app, app_assoc.
  - assert (ends (d ;~ lift (go_panic why)) (λ (_ : A) _ _, False) w') as Hk.
    { intros o' h2. unfold d_bind. apply wp_bind. unfold wp at 1. by destruct (d o' w' h2) as [[[[e|[]]| |] ?] ?]. }
    specialize (Hk o h'). unfold wp in Hk. destruct ((d ;~ lift (go_panic why)) o w' h') as [[r w2] h2].
    intros b Hr. by destruct (Hk b Hr) as (? & _ & []).
Qed.

(** A call of the SDK, from its own runs. *)
Lemma ends_sdk {A} (m : M A) (Q : A → list sent → World → Prop) w :
  (∀ o a w' t, m o w [] = (Val a, w', t) → Q a (sys_requests t) w') → ends (sdk m) Q w.
Proof.
  intros Hm o h. unfold sdk, lift. apply wp_bind, translate_wp. intros o'. unfold wp at 1.
  destruct (m o' w []) as [[[a| |] w'] t] eqn:Hrun; [|done..]. apply wp_ret. intros ? [= <-]. eexists. split; [done|].
  rewrite requests_sdk. by apply (Hm o').
Qed.

Lemma ends_must (m : M error) (Q : unit → list sent → World → Prop) w :
  (∀ o w' t, m o w [] = (Val None, w', t) → Q tt (sys_requests t) w') → ends (must m) Q w.
Proof.
  intros Hm. apply ends_bind, ends_sdk. intros o a w' t Hrun. apply ends_fatal_if. intros ->. rewrite app_nil_r. by apply (Hm o).
Qed.
End ends.

(** ** The calls of the SDK the program makes *)
Section sdk_calls.
Context `{Growth} `{DefaultTimeout} `{Multierror} `{NetlinkConstants}.
Implicit Types (ctx : go_context) (w : World).

Lemma silent_run {A} (m : M A) o w a w' t : silent m → m o w [] = (Val a, w', t) → sys_requests t = [].
Proof. intros Hs Hrun. destruct (Hs o w []) as (u & Hu & Hw). rewrite Hrun in Hu. simpl in Hu. subst u. by apply sys_requests_silent. Qed.

(** A method that changes a running VM. *)
Lemma control_run (c : control) ctx o w a w' h h' :
  same_limits c → keeps_request c →
  run_control ctx c o w h = (Val a, w', h') →
  w' = w ∧ ∃ u, h' = h ++ u ∧ sys_requests u = [wire_of_change (asks c)].
Proof.
  intros Hlim Hk Hrun. destruct (client (machine w)) as [f|] eqn:Hc; [|by rewrite (control_no_client c ctx o w h Hc) in Hrun].
  destruct (control_sends c ctx o w h f Hk Hc) as (req & Hchange & Hreq). rewrite (same_limits_misdirected c Hlim) in Hchange. rewrite Hreq in Hrun. simplify_eq. split; [done|].
  eexists. split; [done|]. unfold sys_requests. simpl. rewrite (request_of_change _ _ Hchange). by destruct (asks c).
Qed.

Lemma ends_control (c : control) ctx (Q : unit → list sent → World → Prop) w :
  same_limits c → keeps_request c →
  Q tt [wire_of_change (asks c)] w → ends (must (run_control ctx c)) Q w.
Proof.
  intros Hlim Hk HQ. apply ends_must. intros o w' t Hrun. destruct (control_run c ctx o w None w' [] t Hlim Hk Hrun) as (-> & u & -> & Hu).
  by rewrite app_nil_l, Hu.
Qed.

#[local] Hint Extern 2 (silent (Prelude.put _)) => by apply silent_state : silent.

Lemma silent_NewMachine cfg opts : silent (NewMachine cfg opts).
Proof.
  unfold NewMachine, with_vmid, build_command, append_validation, jail, finish_machine, NewClient, envValueOrDefaultInt, os_Getenv, sys_env.
  go_silent.
Qed.

#[local] Hint Resolve silent_doCleanup silent_finish : silent.

Lemma silent_watch : silent watch_goroutine.
Proof. unfold watch_goroutine, take_offer. go_silent. Qed.

Lemma silent_offer e : silent (offer_error e).
Proof. unfold offer_error. go_silent. Qed.
#[local] Hint Resolve silent_watch silent_offer : silent.

Lemma silent_process_exits e : silent (process_exits e).
Proof. unfold process_exits, exit_goroutine. go_silent. Qed.
#[local] Hint Resolve silent_process_exits : silent.

(** While the program waits for a call, its machine at most loses its process. *)
Lemma ends_meanwhile {T} (c : Demo T) (Q : T → list sent → World → Prop) w :
  (∀ r, demo_request (Event c r) = None) → (∀ r w', evolves w w' → Q r [] w') → ends (meanwhile c) Q w.
Proof.
  intros Hc HQ. apply ends_bind, ends_ask; [done|intros r]. apply ends_bind, ends_ask; [done|intros [e|]].
  - apply ends_bind, ends_sdk. intros o [] w' t Hrun. apply ends_ret.
    rewrite (silent_run _ _ _ _ _ _ (silent_process_exits e) Hrun). apply HQ.
    pose proof (keeps_process_exits e o w []) as Hk. by rewrite Hrun in Hk.
  - apply ends_ret, HQ. reflexivity.
Qed.

Lemma silent_StopVMM : silent StopVMM.
Proof. unfold StopVMM, stopVMM, await_cleanupCh. go_silent. Qed.

(** What [Shutdown] asks of the VMM, on an architecture with a keyboard. *)
Definition shutdown_requests (amd64 : bool) : list sent :=
  if amd64 then [wire_of_change (asks PressCtrlAltDel)] else [].

Lemma Shutdown_run amd64 ctx o w a w' t :
  Shutdown amd64 ctx o w [] = (Val a, w', t) → sys_requests t = shutdown_requests amd64.
Proof.
  assert (silent (close_shutdownCh ;; unblock)) as Hs by (unfold close_shutdownCh, unblock; go_silent).
  assert (Shutdown amd64 ctx o w [] =
    ((close_shutdownCh ;; unblock) ;; if amd64 then run_control ctx PressCtrlAltDel else StopVMM) o w []) as ->
    by (unfold Shutdown; run_unfold; by destruct (close_shutdownCh o w []) as [[[?| |] ?] ?]).
  unfold go_bind at 1. destruct (Hs o w []) as (u & Hu & Hw). destruct ((close_shutdownCh ;; unblock) o w []) as [[[[]| |] w1] h1]; [|done..].
  simpl in Hu. subst h1. intros Hrun. enough (∃ u', t = u ++ u' ∧ sys_requests u' = shutdown_requests amd64) as (u' & -> & Hu').
  { pose proof (sys_requests_silent u Hw) as Hu0. unfold sys_requests in *. by rewrite omap_app, List.filter_app, Hu0. }
  destruct amd64; [by destruct (control_run PressCtrlAltDel _ _ _ _ _ _ _ I I Hrun) as (_ & ?)|].
  destruct (silent_StopVMM o w1 u) as (u' & Hu' & Hw'). rewrite Hrun in Hu'. exists u'. split; [done|]. by apply sys_requests_silent.
Qed.
End sdk_calls.

(** ** Parts of the program that send nothing *)

(** One step along the structure of a program. *)
Ltac ends_step :=
  match goal with
  | |- ends (d_bind _ _) _ _ => apply ends_bind
  | |- ends (d_ret _) _ _ => apply ends_ret
  | |- ends (log_Fatal _) _ _ => apply ends_Fatal
  | |- ends (lift (go_panic _)) _ _ => apply ends_panic
  | |- ends (lift get) _ _ => apply ends_get
  | |- ends (lift (deref _)) _ _ => apply ends_deref; intros ? ?
  | |- ends (fatal_if _) _ _ => apply ends_fatal_if; intros ?
  | |- ends (ask _) _ _ => apply ends_ask; [done|intros ?]
  | |- ends (meanwhile _) _ _ => apply ends_meanwhile; [done|intros ? ? ?]
  | |- ends (dropping _) _ _ => apply ends_dropping; [done|]
  | |- ends (deferring _ _) _ _ => apply ends_deferring
  | |- ends (match ?x with _ => _ end) _ _ => destruct x eqn:?
  end; cbv beta; rewrite ?app_nil_r; cbn [app].
Ltac ends_steps := repeat ends_step.

Section parts.
Context `{Growth} `{DefaultTimeout} `{Multierror} `{NetlinkConstants}.
Implicit Types (ctx : go_context) (w : World).

(** The first interface has an address when the program reads it. *)
Lemma ends_vm_ip (Q : IP → list sent → World → Prop) w :
  (∀ iface rest static ipConf, Cfg_NetworkInterfaces (Cfg (machine w)) = iface :: rest →
     StaticConfiguration iface = Some static → IPConfiguration_ static = Some ipConf →
     Q (IPNet_IP (IPAddr ipConf)) [] w) →
  ends vm_ip Q w.
Proof. intros HQ. unfold vm_ip. ends_steps. eauto. Qed.

Lemma ends_connectToVM path (Q : option SshClient * error → list sent → World → Prop) w :
  (∀ r w', evolves w w' → Q r [] w') → ends (connectToVM path) Q w.
Proof.
  intros HQ. unfold connectToVM. ends_steps; try (by apply HQ). apply ends_vm_ip. intros. ends_steps. by apply HQ.
Qed.

Lemma ends_connect_retry n path before (Q : option SshClient * error → list sent → World → Prop) w :
  (∀ r w', evolves w w' → Q r [] w') → ends (connect_retry n path before) Q w.
Proof.
  revert before w. induction n as [|n IH]; intros before w HQ; cbn [connect_retry]; [ends_steps; by apply HQ|].
  ends_step. apply ends_connectToVM. intros [client [e|]] w1 Hw1; cbn [app]; ends_steps; [|by apply HQ].
  apply IH. intros got w3 Hw3. apply HQ. by do 2 (etransitivity; [eassumption|]).
Qed.

Lemma ends_with_session {A} path (body : Session → D A) (Q : A → list sent → World → Prop) w :
  (∀ session w', evolves w w' → ends (body session) Q w') → ends (with_session path body) Q w.
Proof.
  intros HQ. unfold with_session. ends_step. apply ends_connect_retry. intros connected w1 Hw1. ends_steps.
  eapply ends_mono; [apply HQ; by etransitivity|]. intros b l w4 HQ'. by ends_steps.
Qed.

Lemma ends_with_cni {A} dir (body : D A) (Q : A → list sent → World → Prop) w :
  ends body Q w → ends (with_cni dir body) Q w.
Proof.
  intros HQ. unfold with_cni, writeCNIConfWithHostLocalSubnet. ends_steps.
  eapply ends_mono; [apply HQ|]. intros b l w' HQ'. by ends_steps.
Qed.

Lemma ends_wait_freed n path err (Q : error * bool → list sent → World → Prop) w :
  (∀ r w', evolves w w' → Q r [] w') → ends (wait_freed n path err) Q w.
Proof.
  revert err w. induction n as [|n IH]; intros err w HQ; cbn [wait_freed]; ends_steps; try (by apply HQ).
  apply IH. intros got w3 Hw3. apply HQ. by etransitivity.
Qed.

Lemma ends_createNewConfig socketPath opts (Q : Config → list sent → World → Prop) w :
  (∀ kernel, Q (apply_opts opts (new_config socketPath kernel)) [] w) → ends (createNewConfig socketPath opts) Q w.
Proof. intros HQ. unfold createNewConfig. ends_steps. eauto. Qed.

(** ** A machine of the program *)

(** A machine that is made, started, used, shut down and stopped: its requests are
    those of its start, of its use, and of its shutdown. *)
Lemma ends_with_machine {A} (fuel : nat) (amd64 : bool) ctx socketFile cfg opts (body : D A) (Q : A → list sent → World → Prop) w :
  (∀ o o' w1 w2 t1 t2, NewMachine cfg opts o w [] = (Val None, w1, t1) →
     Start fuel ctx o' w1 [] = (Val None, w2, t2) →
     ends body (λ a l w3, ∀ w4, heap_ w4 = heap_ w3 → Q a (sys_requests t2 ++ l ++ shutdown_requests amd64) w4) w2) →
  ends (with_machine fuel amd64 ctx socketFile cfg opts body) Q w.
Proof.
  intros HQ. unfold with_machine. ends_step. apply ends_must. intros o w1 t1 Hnew.
  rewrite (silent_run _ _ _ _ _ _ (silent_NewMachine cfg opts) Hnew). cbn [app]. do 2 ends_step.
  apply ends_must. intros o' w2 t2 Hstart. do 2 ends_step. eapply ends_mono; [by apply (HQ o o' w1 w2 t1 t2)|].
  cbv beta. intros b l w3 Hl. apply ends_must. intros o3 w4 t3 Hdown. rewrite (Shutdown_run _ _ _ _ _ _ _ Hdown).
  apply ends_must. intros o4 w5 t4 Hstop. rewrite (silent_run _ _ _ _ _ _ silent_StopVMM Hstop).
  ends_steps. rewrite <- ?app_assoc. apply Hl.
  pose proof (keeps_Shutdown amd64 ctx o3 w3 []) as Hk. rewrite Hdown in Hk. apply ev_heap in Hk. rewrite <- Hk.
  pose proof (keeps_stopVMM o4 w4 []) as Hk'. unfold StopVMM in Hstop. rewrite Hstop in Hk'. by apply ev_heap in Hk'.
Qed.
End parts.

(** ** The two machines *)

(** What the program's machines keep of their configurations. *)
Definition seen (c : Config) :=
  (((LogFifo c, LogPath c), (MetricsFifo c, MetricsPath c)), (MachineCfg c, Drives c),
   (KernelImagePath c, InitrdPath c, VsockDevices c), device <$> Cfg_NetworkInterfaces c).

Lemma blind_seen : blind false seen.
Proof. split; try done. intros v c Hd. unfold seen. simpl. by rewrite Hd. Qed.

(** The requests that boot the first machine. *)
Definition boot_writes (kernel args mac dev : string) : list api_write :=
  [WMachineConfiguration (Some (mkMachineConfiguration "" (Some 256) (Some false) None (Some 2)));
   WBootSource (Some (mkBootSource args "" (Some kernel)));
   WDrive "root" (Some root_drive);
   WNetworkInterface "1" (Some (mkNetworkInterface mac (Some dev) (Some "1") None None));
   start_write].

Section machines.
Context `{Growth} `{DefaultTimeout} `{Multierror} `{NetlinkConstants}.
Implicit Types (ctx : go_context) (w : World).

(** The configuration of the first machine, and that of the second. *)
Definition create_config (socketFile kernel cniConfDir : string) (bin : list string) : Config :=
  apply_opts [withNetworkInterface (cni_interface cniConfDir bin [])] (new_config socketFile kernel).

Lemma default_lists_kept cfg cmds snapshot s (fuel : nat) ctx (o o' : Oracle Sys) w w1 w2 h0 h1 h t :
  growslice 0 1 = 1%nat → default_lists (heap_ w) →
  (∀ j, JailerCfg cfg = Some j → ChrootStrategy j = Some (naive_adapter s)) →
  NewMachine cfg ((WithProcessRunner <$> cmds) ++ snapshot_options snapshot) o w h0 = (Val None, w1, h1) →
  Start fuel ctx o' w1 h = (Val None, w2, t) → default_lists (heap_ w2).
Proof.
  intros Hg Hdef Hs Hnew Hstart. pose proof (keeps_Start fuel ctx o' w1 h) as Hk. rewrite Hstart in Hk. rewrite (ev_heap _ _ Hk).
  eapply default_lists_ext; [|exact Hdef]. by apply (NewMachine_makes cfg cmds snapshot s o w w1 h0 h1 Hg Hdef Hs Hnew).
Qed.

Lemma boot_requests socketFile kernel dir bin cmd (fuel : nat) ctx (o o' : Oracle Sys) w w1 w2 h1 t iface rest static :
  let cfg := create_config socketFile kernel dir bin in
  growslice 0 1 = 1%nat → default_lists (heap_ w) →
  NewMachine cfg [WithProcessRunner cmd] o w [] = (Val None, w1, h1) →
  Start fuel ctx o' w1 [] = (Val None, w2, t) →
  Cfg_NetworkInterfaces (Cfg (machine w2)) = iface :: rest → StaticConfiguration iface = Some static →
  sys_requests t = wire_of <$> boot_writes kernel (KernelArgs_ (Cfg (machine w2))) (MacAddress static) (HostDevName static).
Proof.
  intros cfg Hg Hdef Hnew Hstart Hifs Hstatic. set (s := NewNaiveChrootStrategy "").
  assert (∀ j, JailerCfg cfg = Some j → ChrootStrategy j = Some (naive_adapter s)) as Hs by done.
  destruct (made_start cfg [cmd] None s fuel ctx o o' w w1 w2 [] h1 [] t Hg Hdef Hs Hnew Hstart) as (u & Hu & Hw).
  simpl in Hu. subst u. rewrite (sys_requests_writes _ _ Hw) by apply start_writes_known. f_equal.
  pose proof (made_view false seen cfg [cmd] None s fuel ctx o o' w w1 w2 [] h1 [] t blind_seen ltac:(done)
    ltac:(by intros []) Hg Hdef Hs Hnew Hstart) as Hseen.
  pose proof (made_view true Snapshot cfg [cmd] None s fuel ctx o o' w w1 w2 [] h1 [] t blind_Snapshot ltac:(done)
    ltac:(by intros []) Hg Hdef Hs Hnew Hstart) as Hsnap.
  set (c := Cfg (machine w2)) in *. clearbody c. unfold seen in Hseen. simpl in Hseen, Hsnap.
  rewrite Hifs in Hseen. destruct rest as [|? ?]; simpl in Hseen; injection Hseen; [|intros; discriminate].
  intros Hout Hin Hmmds Hv Hi Hk Hd Hm Hmp Hmf Hlp Hlf.
  unfold start_writes, configuring, hasSnapshot, logger_writes, metrics_writes, mmds_writes, boot_writes.
  simpl. unfold logger_writes, metrics_writes, mmds_writes, allowed_ids.
  rewrite Hlf, Hlp, Hmf, Hmp, Hm, Hd, Hk, Hi, Hv, Hifs, Hsnap. simpl. unfold iface_writes, iface_model. rewrite Hmmds, Hstatic. simpl.
  by rewrite Hin, Hout.
Qed.

Lemma load_requests socketPath mem snap dir bin args cmd (fuel : nat) ctx (o o' : Oracle Sys) w w1 w2 h1 t :
  snap ≠ "" → growslice 0 1 = 1%nat → default_lists (heap_ w) →
  NewMachine (load_config socketPath (cni_interface dir bin args)) [WithProcessRunner cmd; WithSnapshot mem snap []] o w [] =
    (Val None, w1, h1) →
  Start fuel ctx o' w1 [] = (Val None, w2, t) →
  sys_requests t = [wire_of (WLoadSnapshot (Some (mkSnapshotLoadParams false None mem false (Some snap))))].
Proof.
  set (cfg := load_config _ _). intros Hne Hg Hdef Hnew Hstart. set (s := NewNaiveChrootStrategy "").
  assert (∀ j, JailerCfg cfg = Some j → ChrootStrategy j = Some (naive_adapter s)) as Hs by done.
  assert (hasSnapshot (set_Snapshot (with_snapshot mem snap [] (Snapshot cfg)) cfg) = true) as Hhas.
  { unfold hasSnapshot. simpl. apply orb_true_iff. right. by destruct (String.eqb_spec snap ""). }
  destruct (loading_start cfg s [cmd] mem snap [] fuel ctx o o' w w1 w2 [] h1 [] t Hhas Hg Hdef Hs Hnew Hstart) as (u & Hu & Hw).
  simpl in Hu. subst u.
  pose proof (made_view false seen cfg [cmd] (Some (mem, snap, [])) s fuel ctx o o' w w1 w2 [] h1 [] t blind_seen ltac:(done)
    ltac:(done) Hg Hdef Hs Hnew Hstart) as Hseen.
  set (c := Cfg (machine w2)) in *. clearbody c. unfold seen in Hseen. simpl in Hseen.
  injection Hseen as Hlf Hlp Hmf Hmp _ _ _ _ Hv _.
  unfold logger_writes, metrics_writes in Hw. rewrite Hlf, Hlp, Hmf, Hmp, Hv in Hw. simpl in Hw.
  apply (sys_requests_writes t [WLoadSnapshot (Some (loaded (with_snapshot mem snap [] zero_SnapshotConfig)))] Hw).
  by repeat constructor.
Qed.
End machines.

(** ** The program *)
Section program.
Context `{Growth} `{DefaultTimeout} `{Multierror} `{NetlinkConstants}.
Implicit Types (ctx : go_context) (w : World).

(** The requests of a machine used for a snapshot, and of one that continues from it. *)
Definition control_requests_of (cs : list control) : list sent := wire_of_change ∘ asks <$> cs.

Definition create_requests (amd64 : bool) (mem snap kernel args mac dev : string) : list sent :=
  (wire_of <$> boot_writes kernel args mac dev) ++ control_requests_of [Pause []; TakeSnapshot mem snap []; Resume []] ++
  shutdown_requests amd64.

Definition load_requests_of (amd64 : bool) (mem snap : string) : list sent :=
  [wire_of (WLoadSnapshot (Some (mkSnapshotLoadParams false None mem false (Some snap))))] ++ control_requests_of [Resume []] ++
  shutdown_requests amd64.

(** The machine that lost its process has the same heap of handlers. *)
Ltac same_heap :=
  repeat match goal with H : evolves _ _ |- _ => apply ev_heap in H; rewrite H; clear H end.

Lemma ends_createSnapshotSSH (fuel : nat) (amd64 : bool) ctx socketPath mem snap w :
  growslice 0 1 = 1%nat → default_lists (heap_ w) →
  ends (createSnapshotSSH fuel amd64 ctx socketPath mem snap)
    (λ _ l w', default_lists (heap_ w') ∧ ∃ kernel args mac dev, l = create_requests amd64 mem snap kernel args mac dev) w.
Proof.
  intros Hg Hdef. unfold createSnapshotSSH. ends_steps. apply ends_with_cni. ends_steps.
  apply ends_createNewConfig. intros kernel. apply ends_with_machine. intros o o' w1 w2 t1 t2 Hnew Hstart.
  ends_steps. apply ends_vm_ip. intros iface rest static ipConf Hifs Hstatic _. ends_steps.
  apply ends_with_session. intros session w3 Hw3. ends_steps.
  apply (ends_control (Pause [])); [done|by constructor|]. ends_steps. apply (ends_control (TakeSnapshot mem snap [])); [done|by constructor|]. ends_steps.
  apply (ends_control (Resume [])); [done|by constructor|]. ends_steps. intros w5 ->. same_heap. split.
  - eapply (default_lists_kept _ [Some _] None (NewNaiveChrootStrategy "") fuel ctx o o' w w1 w2 [] t1 [] t2 Hg Hdef);
      [|exact Hnew|exact Hstart]; done.
  - rewrite (boot_requests _ _ _ _ _ fuel ctx o o' w w1 w2 t1 t2 iface rest static Hg Hdef Hnew Hstart Hifs Hstatic).
    by eexists _, _, _, _.
Qed.

Lemma ends_loadSnapshotSSH (fuel : nat) (amd64 : bool) ctx socketPath mem snap ip w :
  snap ≠ "" → growslice 0 1 = 1%nat → default_lists (heap_ w) →
  ends (loadSnapshotSSH fuel amd64 ctx socketPath mem snap ip) (λ _ l _, l = load_requests_of amd64 mem snap) w.
Proof.
  intros Hne Hg Hdef. unfold loadSnapshotSSH. ends_steps. apply ends_wait_freed. intros freed w0 Hw0. ends_steps.
  assert (default_lists (heap_ w0)) as Hdef0 by (same_heap; exact Hdef).
  apply ends_with_cni. apply ends_with_machine. intros o o' w1 w2 t1 t2 Hnew Hstart.
  ends_steps. apply (ends_control (Resume [])); [done|by constructor|]. ends_steps. apply ends_with_session. intros session w3 Hw3. ends_steps. intros w4 _.
  by rewrite (load_requests _ _ _ _ _ _ _ fuel ctx o o' w0 w1 w2 t1 t2 Hne Hg Hdef0 Hnew Hstart).
Qed.

(** C6. The example as a whole: when it runs to its end, without a fatal error or a
    panic, then whatever its environment answered, the requests other than GET it
    has sent are: those that boot the first VM (machine configuration, kernel, one
    root drive, one interface, start); pause, a snapshot to two files of the
    directory, resume, and the shutdown on an architecture with a keyboard; then,
    of the second VM, only the load of a snapshot from these two files, resume, and
    the shutdown. *)
Theorem main_requests (fuel : nat) (amd64 : bool) (o : Oracle Demo) (w w' : World) h :
  growslice 0 1 = 1%nat → default_lists (heap_ w) →
  main fuel amd64 o w [] = (Val (inr tt), w', h) →
  ∃ dir kernel args mac dev,
    let file name := filepath_Join [filepath_Join [dir; "snapshotssh"]; name] in
    requests h = create_requests amd64 (file "MemFile") (file "SnapFile") kernel args mac dev ++
                 load_requests_of amd64 (file "MemFile") (file "SnapFile").
Proof.
  intros Hg Hdef Hrun. enough (ends (main fuel amd64) (λ _ l _, ∃ dir kernel args mac dev,
    let file name := filepath_Join [filepath_Join [dir; "snapshotssh"]; name] in
    l = create_requests amd64 (file "MemFile") (file "SnapFile") kernel args mac dev ++
        load_requests_of amd64 (file "MemFile") (file "SnapFile")) w) as He.
  { specialize (He o []). unfold wp in He. rewrite Hrun in He. destruct (He tt eq_refl) as (u & -> & Hu). exact Hu. }
  clear h Hrun. unfold main. ends_steps; [by simplify_eq|].
  match goal with |- context [filepath_Join [filepath_Join [?r; "snapshotssh"]; "MemFile"]] => set (dir := r) end.
  eapply ends_mono; [by apply ends_createSnapshotSSH|]. intros ip l1 w1 (Hdef1 & kernel & args & mac & dev & ->).
  ends_steps. eapply ends_mono; [apply ends_loadSnapshotSSH; [|done..]|].
  - apply filepath_Join_nonempty. by right; left.
  - intros [] l2 w2 ->. ends_steps. by exists dir, kernel, args, mac, dev.
  Qed.
End program.

Module Examples.
(** A host on which the example runs: the directory is [/demo], the VM gets an
    address of CNI, and the socket of each machine exists once its process runs. *)
Definition vm_id : string := "00000000-0000-4000-8000-000000000000".

Definition started_process (ev : event Demo) : bool :=
  match ev with Event c _ => match c with Sdk c => match c with CmdStart _ => true | _ => false end | _ => false end end.

Definition demo_sdk (h : trace Demo) {T} (c : Sys T) : T :=
  match c in Sys T return T with
  | OsStat path =>
      let n := length (List.filter started_process h) in
      if strings_Contains path "/networks/" then Some not_exist
      else if strings_Contains path "snapshotssh.create" && (n <? 1)%nat then Some not_exist
      else if strings_Contains path "snapshotssh.load" && (n <? 2)%nat then Some not_exist
      else None
  | NewResultFromResult _ =>
      inr (mkResult [mkInterface "tap0" "02:00:00:00:00:01" vm_id; mkInterface "tap0" "" "/var/run/netns/vm"]
             [mkIPConfig (Some 0) (mkIPNet [10; 168; 0; 2] [255; 255; 255; 0]) [10; 168; 0; 1]] []
             (mkDNS [] "" [] []))
  | c => host "" [] _ c
  end.

Definition demo_host : Oracle Demo := λ h T c,
  match c in Demo T return T with
  | Sdk c => demo_sdk h c
  | OsGetwd => ("/demo", None)
  | OsMkdirTemp _ _ => ("/tmp/FCGoSDKSnapshotExample1", None)
  | OsReadKey _ => ("key", None)
  | OsGetuid => 0
  | TimeSleep _ => tt
  | VmEnded => None
  | FmtPrint _ => tt
  | SshParsePrivateKey _ => (0%nat, None)
  | SshDial _ _ _ => (Some 0%nat, None)
  | ClientNewSession _ => (Some 0%nat, None)
  | SessionRun _ _ => ("sleep 422", None)
  | _ => None
  end.

Definition demo_run : Outcome (Err + unit) * World * trace Demo := main 5 true demo_host initial_world [].

Lemma main_requests_witness :
  ∃ dir kernel args mac dev,
    let file name := filepath_Join [filepath_Join [dir; "snapshotssh"]; name] in
    requests demo_run.2 = create_requests true (file "MemFile") (file "SnapFile") kernel args mac dev ++
                          load_requests_of true (file "MemFile") (file "SnapFile") ∧
    length (requests demo_run.2) = 12%nat.
Proof.
  assert (demo_run.1.1 = Val (inr tt)) as Hv by (vm_compute; reflexivity).
  assert (length (requests demo_run.2) = 12%nat) as Hn by (vm_compute; reflexivity).
  unfold demo_run in *. destruct (main 5 true demo_host initial_world []) as [[r w'] h] eqn:Hrun. simpl in Hv, Hn. subst r.
  destruct (main_requests 5 true demo_host initial_world w' h) as (dir & kernel & args & mac & dev & Hr);
    [reflexivity | exact init_default_lists | exact Hrun |].
  exists dir, kernel, args, mac, dev. split; [exact Hr|exact Hn].
Defined.

(** On the same host, with a VMM that refuses to pause: the fatal error skips the
    deferred calls, so that nothing stops the VM or removes what was made. *)
Definition refuses_pause : Oracle Demo := λ h T c,
  match c in Demo T return T with
  | Sdk c => match c in Sys T return T with
             | Api _ c => match c in ClientIface T return T with Ops_PatchVM _ => Some connection_error | c => api_answer c end
             | c => demo_sdk h c
             end
  | c => demo_host h _ c
  end.

(** Stopping the process, or removing a file. *)
Definition undoing (ev : event Demo) : bool :=
  match ev with
  | Event c _ => match c with
                 | Sdk c => match c with ProcessSignal _ => true | OsRemove _ => true | _ => false end
                 | OsRemoveAll _ => true
                 | _ => false
                 end
  end.

Lemma fatal_error_leaves_vm :
  let run := main 5 true refuses_pause initial_world [] in
  run.1.1 = Val (inl connection_error) ∧ existsb started_process run.2 = true ∧ existsb undoing run.2 = false ∧
  existsb undoing demo_run.2 = true.
Proof. vm_compute. done. Qed.
End Examples.
