(* ===== verification/Vsock.v ===== *)
(** * Vsock connections (src/vsock/dial.go, src/vsock/listener.go)

    [DialContext] and the [Accept] of a [Listener] with their retry loops, over
    the calls of packages net and github.com/mdlayher/vsock, which are calls of
    the environment.  The buffered reader of package bufio that reads the
    acknowledgement is modelled read by read.  The [Stop] of a ticker and the
    [cancel] of a context are left out: they have no effect the code observes. *)

From stdpp Require Import strings list pretty.
From Stdlib Require Import Ascii ZArith Lia.
From S2P Require Import Prelude GoStrings Client.

Open Scope string_scope.
Open Scope list_scope.
Open Scope Z_scope.

(** ** Data *)
Inductive Logger := NoopLogger | CallerLogger (id : nat).

Record config := mkconfig {
  config_logger : Logger;
  DialTimeout : Z;
  RetryTimeout : Z;
  RetryInterval : Z;
  ConnectMsgTimeout : Z;
  AckMsgTimeout : Z
}.

Definition defaultConfig : config :=
  mkconfig NoopLogger (100 * Millisecond) (20 * Second) (100 * Millisecond) (100 * Millisecond) (1 * Second).

Definition DialOption : Type := config → config.

Definition WithDialTimeout (d : Z) : DialOption := λ c,
  mkconfig (config_logger c) d (RetryTimeout c) (RetryInterval c) (ConnectMsgTimeout c) (AckMsgTimeout c).
Definition WithRetryTimeout (d : Z) : DialOption := λ c,
  mkconfig (config_logger c) (DialTimeout c) d (RetryInterval c) (ConnectMsgTimeout c) (AckMsgTimeout c).
Definition WithRetryInterval (d : Z) : DialOption := λ c,
  mkconfig (config_logger c) (DialTimeout c) (RetryTimeout c) d (ConnectMsgTimeout c) (AckMsgTimeout c).
Definition WithConnectionMsgTimeout (d : Z) : DialOption := λ c,
  mkconfig (config_logger c) (DialTimeout c) (RetryTimeout c) (RetryInterval c) d (AckMsgTimeout c).
Definition WithAckMsgTimeout (d : Z) : DialOption := λ c,
  mkconfig (config_logger c) (DialTimeout c) (RetryTimeout c) (RetryInterval c) (ConnectMsgTimeout c) d.
Definition WithLogger (logger : Logger) : DialOption := λ c,
  mkconfig logger (DialTimeout c) (RetryTimeout c) (RetryInterval c) (ConnectMsgTimeout c) (AckMsgTimeout c).

(** ** The environment

    A connection and the listener of mdlayher/vsock are identities.  A read
    returns at most as many bytes as there is room for, as [io.Reader] promises;
    a deadline is set relative to now, or cleared ([None], the zero time).  One
    [select] of a retry loop finds its context done or a tick. *)
Definition Conn : Type := nat.
Definition NetListener : Type := nat.

Record bytes_upto (room : nat) := mkbytes { bytes : string; bytes_length : (String.length bytes <= room)%nat }.
Arguments mkbytes {room} _ _.
Arguments bytes {room} _.

Inductive VsockCalls : Type → Type :=
  | RetrySelect (ctx : go_context) (interval : Z) : VsockCalls poll
  | NetDialTimeout (network address : string) (timeout : Z) : VsockCalls (Err + Conn)
  | ConnSetDeadline (c : Conn) (deadline : option Z) : VsockCalls error
  | ConnWrite (c : Conn) (b : string) : VsockCalls (Z * error)
  | ConnRead (c : Conn) (room : nat) : VsockCalls (bytes_upto room * error)
  | ConnClose (c : Conn) : VsockCalls error
  | VsockListen (port : Z) : VsockCalls (Err + NetListener)
  | ListenerAccept (l : NetListener) : VsockCalls (Err + Conn)
  | ListenerClose (l : NetListener) : VsockCalls error
  | ListenerAddr (l : NetListener) : VsockCalls string
  | LogDebug (l : Logger) (attempt : Z) (e : Err) : VsockCalls unit
  | LogError (l : Logger) (attempt : Z) (e : Err) : VsockCalls unit
  | LogCloseError (l : Logger) (attempt : Z) (e : Err) : VsockCalls unit.

Abbreviation V := (GoM VsockCalls unit).

(** ** Errors *)

(** The text of [context.DeadlineExceeded], which is a temporary [net.Error]. *)
Definition DeadlineExceeded_text : string := "context deadline exceeded".

(** [errors.As(err, &netError)] with the answer of [netError.Temporary()]: the
    first error of the chain that is a [net.Error]. *)
Fixpoint as_net_error (e : Err) : option bool :=
  match e with
  | ErrorfW _ _ cause => as_net_error cause
  | Ext (NetError temporary) _ => Some temporary
  | CtxErr text => if (text =? DeadlineExceeded_text)%string then Some true else None
  | ConnectMsgError _ => Some false
  | AckError _ => Some true
  | _ => None
  end.

Definition isTemporaryNetErr (err : error) : bool :=
  match err with
  | Some e => match as_net_error e with Some temporary => temporary | None => false end
  | None => false
  end.

(** ** The acknowledgement: [bufio.NewReaderSize(conn, 32).ReadString(end)] *)
Definition reader_size : nat := 32.
Definition maxConsecutiveEmptyReads : nat := 100.
Definition ErrNoProgress : Err := ErrorsNew "multiple Read calls return no data or error".

(** [fill]: read until there is data or an error. *)
Fixpoint fill (tries : nat) (conn : Conn) (room : nat) : V (string * error) :=
  match tries with
  | O => go_ret ("", Some ErrNoProgress)
  | Datatypes.S tries =>
      r <- call (ConnRead conn room) ;
      let '(data, err) := r in
      match err with
      | Some e => go_ret (bytes data, Some e)
      | None => if (bytes data =? "")%string then fill tries conn room else go_ret (bytes data, None)
      end
  end.

(** [buf] is what the buffer holds, [err] the pending error of the reader and
    [acc] the full buffers already copied; the line, the error, and what stays
    behind in the buffer of the reader, which nobody else reads. *)
Fixpoint ReadString (fuel : nat) (conn : Conn) (end_ : Ascii.ascii) (acc buf : string) (err : error) :
    V (string * error * string) :=
  match fuel with
  | O => go_pending
  | Datatypes.S fuel =>
      match cut end_ buf with
      | Some (line, rest) => go_ret (acc +:+ line +:+ String end_ "", None, rest)
      | None =>
          match err with
          | Some e => go_ret (acc +:+ buf, Some e, "")
          | None =>
              if (reader_size <=? String.length buf)%nat
              then ReadString fuel conn end_ (acc +:+ buf) "" None
              else
                r <- fill maxConsecutiveEmptyReads conn (reader_size - String.length buf) ;
                let '(data, err) := r in
                ReadString fuel conn end_ acc (buf +:+ data) err
          end
      end
  end.

Definition tryConnReadUntil (fuel : nat) (conn : Conn) (end_ : Ascii.ascii) (timeout : Z) : V (string * error) :=
  call (ConnSetDeadline conn (Some timeout)) ;;
  r <- ReadString fuel conn end_ "" "" None ;
  call (ConnSetDeadline conn None) ;;
  let '(line, err, _) := r in go_ret (line, err).

Definition tryConnWrite (conn : Conn) (expectedWrite : string) (timeout : Z) : V error :=
  call (ConnSetDeadline conn (Some timeout)) ;;
  r <- call (ConnWrite conn expectedWrite) ;
  call (ConnSetDeadline conn None) ;;
  let '(bytesWritten, err) := r in
  match err with
  | Some e => go_ret (Some e)
  | None =>
      let len := Z.of_nat (String.length expectedWrite) in
      if negb (bytesWritten =? len)
      then go_ret (Some (Errorf "incomplete write, expected %d bytes but wrote %d"
                           [strconv_Itoa len; strconv_Itoa bytesWritten]))
      else go_ret None
  end.

(** ** Dialling *)
Definition newline : Ascii.ascii := "010"%char.

(** Text between double quotes. *)
Definition quoted (s : string) : string := String "034"%char s +:+ String "034"%char "".

Definition connectMsg (port : Z) : string :=
  "CONNECT " +:+ strconv_Itoa port +:+ String newline "".

(** The part of [tryConnect] that runs under its deferred close: the result, and
    the variable [err] that the deferred function looks at.  The last return
    leaves [err] nil. *)
Definition handshake (fuel : nat) (conn : Conn) (port : Z) (c : config) : V ((Err + Conn) * error) :=
  let msg := connectMsg port in
  err <- tryConnWrite conn msg (ConnectMsgTimeout c) ;
  match err with
  | Some e =>
      go_ret (inl (ConnectMsgError (ErrorfW "failed to write %q within %s: %w"
                                      [msg; strconv_Itoa (ConnectMsgTimeout c)] e)), Some e)
  | None =>
      r <- tryConnReadUntil fuel conn newline (AckMsgTimeout c) ;
      let '(line, err) := r in
      match err with
      | Some e =>
          go_ret (inl (AckError (ErrorfW ("failed to read " +:+ quoted "OK <port>" +:+ " within %s: %w")
                                   [strconv_Itoa (AckMsgTimeout c)] e)), Some e)
      | None =>
          if negb (strings_HasPrefix line "OK ")
          then go_ret (inl (AckError (Errorf ("expected to read " +:+ quoted "OK <port>" +:+ ", but instead read %q") [line])), None)
          else go_ret (inr conn, None)
      end
  end.

(** The deferred function of [tryConnect] and [tryAccept]. *)
Definition close_on_error (conn : Conn) (err : error) (logger : Logger) (attempt : Z) : V unit :=
  match err with
  | Some _ =>
      closeErr <- call (ConnClose conn) ;
      match closeErr with
      | Some ce => call (LogCloseError logger attempt ce)
      | None => go_ret tt
      end
  | None => go_ret tt
  end.

(** Durations and strings among the arguments of an error are given unformatted. *)
Definition tryConnect (fuel : nat) (udsPath : string) (port : Z) (c : config) (attempt : Z) : V (Err + Conn) :=
  r <- call (NetDialTimeout "unix" udsPath (DialTimeout c)) ;
  match r with
  | inl err => go_ret (inl (ErrorfW "failed to dial %q within %s: %w" [udsPath; strconv_Itoa (DialTimeout c)] err))
  | inr conn =>
      h <- handshake fuel conn port c ;
      let '(result, err) := h in
      close_on_error conn err (config_logger c) attempt ;;
      go_ret result
  end.

(** The loop of [dial] and of [Accept], whose bodies differ in what they try and
    in the word of their errors. *)
Fixpoint retry (fuel : nat) (attemptCount : Z) (temporary final : string) (ctx : go_context) (c : config)
    (try_ : Z → V (Err + Conn)) : V (Err + Conn) :=
  match fuel with
  | O => go_pending
  | Datatypes.S fuel =>
      let attemptCount := attemptCount + 1 in
      p <- call (RetrySelect ctx (RetryInterval c)) ;
      match p with
      | CtxDone e => go_ret (inl e)
      | Tick =>
          r <- try_ attemptCount ;
          match r with
          | inl e =>
              if isTemporaryNetErr (Some e) then
                call (LogDebug (config_logger c) attemptCount (ErrorfW temporary [] e)) ;;
                retry fuel attemptCount temporary final ctx c try_
              else
                let err := ErrorfW final [] e in
                call (LogError (config_logger c) attemptCount err) ;;
                go_ret (inl err)
          | inr conn => go_ret (inr conn)
          end
      end
  end.

(** [time.NewTicker(d)] panics unless [d] is positive. *)
Definition NewTicker (d : Z) : V unit :=
  if d <=? 0 then go_panic "non-positive interval for NewTicker" else go_ret tt.

Definition dial (fuel : nat) (ctx : go_context) (udsPath : string) (port : Z) (c : config) : V (Err + Conn) :=
  NewTicker (RetryInterval c) ;;
  retry fuel 0 "temporary vsock dial failure: %w" "non-temporary vsock dial failure: %w" ctx c
    (tryConnect fuel udsPath port c).

Definition DialContext (fuel : nat) (ctx : go_context) (path : string) (port : Z) (opts : list DialOption) :
    V (Err + Conn) :=
  let t := foldl (λ t o, o t) defaultConfig opts in
  dial fuel ctx path port t.

Definition Dial (fuel : nat) (path : string) (port : Z) (opts : list DialOption) : V (Err + Conn) :=
  DialContext fuel Background path port opts.

(** ** Listening *)
Record listener := mklistener {
  listener_listener : NetListener;
  listener_port : Z;
  listener_ctx : go_context;
  listener_config : config
}.

Definition Listener (ctx : go_context) (logger : Logger) (port : Z) : V (Err + listener) :=
  l <- call (VsockListen port) ;
  match l with
  | inl err => go_ret (inl err)
  | inr l => go_ret (inr (mklistener l port ctx defaultConfig))
  end.

Definition tryAccept (l : NetListener) (port : Z) (logger : Logger) (attempt : Z) : V (Err + Conn) :=
  r <- call (ListenerAccept l) ;
  match r with
  | inl err => go_ret (inl err)
  | inr conn => close_on_error conn None logger attempt ;; go_ret (inr conn)
  end.

Definition listener_Accept (fuel : nat) (l : listener) : V (Err + Conn) :=
  let c := listener_config l in
  let ctx := WithTimeout (listener_ctx l) (RetryTimeout c) in
  NewTicker (RetryInterval c) ;;
  retry fuel 0 "temporary vsock accept failure: %w" "non-temporary vsock accept failure: %w" ctx c
    (tryAccept (listener_listener l) (listener_port l) (config_logger c)).

Definition listener_Close (l : listener) : V error := call (ListenerClose (listener_listener l)).
Definition listener_Addr (l : listener) : V string := call (ListenerAddr (listener_listener l)).

(** ** Reading up to a delimiter *)

(** What the reads of a history delivered. *)
Definition read_data (e : event VsockCalls) : string :=
  match e with Event c r => match c in VsockCalls T return T → string with
                            | ConnRead _ _ => λ r, bytes r.1 | _ => λ _, "" end r end.
Fixpoint received (t : trace VsockCalls) : string :=
  match t with [] => "" | e :: t => read_data e +:+ received t end.

(** A read of a connection into at most 32 bytes. *)
Definition is_read (conn : Conn) (e : event VsockCalls) : Prop :=
  ∃ room r, e = Event (ConnRead conn room) r ∧ (1 <= room <= 32)%nat.

(** The error that ended a sequence of reads: that of the last read, or the one of
    package bufio for reads that deliver nothing. *)
Definition ended (reads : trace VsockCalls) (cause : Err) : Prop :=
  cause = ErrNoProgress ∨
  ∃ before conn room data, reads = before ++ [Event (ConnRead conn room) (data, Some cause)].

(** The unbuffered reader: a whole stream, cut after the first delimiter. *)
Definition read_line (end_ : Ascii.ascii) (stream : string) : option string :=
  match cut end_ stream with Some (x, _) => Some (x +:+ String end_ "") | None => None end.

Lemma received_app t1 t2 : received (t1 ++ t2) = received t1 +:+ received t2.
Proof. induction t1 as [|e t1 IH]; [done|]. cbn [received app]. by rewrite IH, string_app_assoc. Qed.

Lemma string_length_app s t : String.length (s +:+ t) = (String.length s + String.length t)%nat.
Proof. induction s as [|a s IH]; [done|]. rewrite string_app_cons. cbn [String.length]. lia. Qed.

Lemma cut_app_None c s t :
  cut c s = None →
  cut c (s +:+ t) = match cut c t with Some (x, y) => Some (s +:+ x, y) | None => None end.
Proof.
  intros Hs. destruct (cut c t) as [[x y]|] eqn:Ht; [|by apply cut_None_app].
  destruct (cut_Some _ _ _ _ Ht) as [-> Hx]. rewrite <- string_app_assoc.
  by apply cut_app, cut_None_app.
Qed.

Lemma ended_app t1 t2 cause : ended t2 cause → ended (t1 ++ t2) cause.
Proof.
  intros [->|(before & conn & room & data & ->)]; [by left|right]. exists (t1 ++ before), conn, room, data.
  by rewrite app_assoc.
Qed.

Lemma fill_spec tries conn room o s h :
  (1 <= room <= reader_size)%nat →
  wp (fill tries conn room) (λ r _ h', ∃ data err t,
    r = Val (data, err) ∧ h' = h ++ t ∧ Forall (is_read conn) t ∧ received t = data ∧
    (String.length data <= room)%nat ∧
    match err with None => (1 <= String.length data)%nat | Some e => ended t e end) o s h.
Proof.
  intros Hroom. revert h. induction tries as [|tries IH]; intros h; cbn [fill].
  { apply wp_ret. exists "", (Some ErrNoProgress), []. rewrite app_nil_r. split_and!; [done..|simpl; lia|by left]. }
  apply wp_bind, wp_call. destruct (o h _ (ConnRead conn room)) as [data err] eqn:Ho.
  assert (is_read conn (Event (ConnRead conn room) (data, err))) as Hread by (by exists room, (data, err)).
  destruct err as [e|].
  { apply wp_ret. eexists _, _, [_]. split_and!; [done..|by constructor|apply string_app_nil_r|apply bytes_length|].
    right. by exists [], conn, room, data. }
  destruct (String.eqb_spec (bytes data) "") as [Hd|Hd].
  - eapply wp_mono; [apply IH|]. intros r s' h' (d & err & t & -> & -> & Ht & <- & Hle & Hend).
    eexists _, _, (_ :: t). rewrite <- app_assoc. split_and!; [done..|by constructor| |done|].
    + cbn [received read_data fst]. by rewrite Hd.
    + destruct err as [e|]; [|done]. by apply ended_app with (t1 := [_]).
  - apply wp_ret. eexists _, _, [_]. split_and!; [done..|by constructor|apply string_app_nil_r|apply bytes_length|].
    destruct (bytes data); [done|simpl; lia].
Qed.

(** One more full buffer to flush before the next read. *)
Definition full (buf : string) : nat := if (reader_size <=? String.length buf)%nat then 1 else 0.

(** The loop from any of its states, when the data copied so far has no delimiter:
    [reads] are those whose data is in the state. *)
Lemma ReadString_inv fuel conn end_ acc buf err reads o s h :
  cut end_ acc = None → (String.length buf <= reader_size)%nat → (∀ e, err = Some e → ended reads e) →
  wp (ReadString fuel conn end_ acc buf err) (λ r _ h', ∃ t, h' = h ++ t ∧ Forall (is_read conn) t ∧
    let stream := acc +:+ buf +:+ received t in
    match r with
    | Val (line, None, rest) =>
        read_line end_ stream = Some line ∧ stream = line +:+ rest ∧ (String.length rest < reader_size)%nat
    | Val (line, Some e, rest) => read_line end_ stream = None ∧ line = stream ∧ rest = "" ∧ ended (reads ++ t) e
    | Pending => match err with
                 | None => (fuel <= 2 * String.length (received t) + full buf + 1)%nat
                 | Some _ => fuel = 0%nat
                 end
    | Panic _ => False
    end) o s h.
Proof.
  revert acc buf err reads s h. induction fuel as [|fuel IH]; intros acc buf err reads s h Hacc Hbuf Herr; cbn [ReadString].
  { apply wp_pending. exists []. rewrite app_nil_r. repeat split; [done|]. destruct err; [done|lia]. }
  destruct (cut end_ buf) as [[line rest]|] eqn:Hcut.
  { apply wp_ret. exists []. rewrite app_nil_r, string_app_nil_r. destruct (cut_Some _ _ _ _ Hcut) as [-> _].
    split; [done|]. split; [constructor|]. cbv zeta. split_and!.
    - unfold read_line. by rewrite cut_app_None, Hcut, string_app_assoc.
    - by rewrite !string_app_assoc.
    - revert Hbuf. rewrite string_length_app. simpl. lia. }
  assert (cut end_ (acc +:+ buf) = None) as Hab by (by apply cut_None_app).
  destruct err as [e|].
  { apply wp_ret. exists []. rewrite !app_nil_r, string_app_nil_r. unfold read_line. rewrite Hab.
    split; [done|]. split; [constructor|]. cbv zeta. split_and!; [done..|]. by apply Herr. }
  unfold full. destruct (Nat.leb_spec reader_size (String.length buf)) as [Hfull|Hroom].
  - eapply wp_mono; [apply (IH (acc +:+ buf) "" None reads); [done|simpl; lia|done]|]. cbv beta.
    intros r s' h' (t & -> & Ht & Hr). exists t. split; [done|]. split; [done|]. cbv zeta in *.
    change ("" +:+ received t) with (received t) in Hr. rewrite string_app_assoc in Hr.
    destruct r as [[[line [e|]] rest]| |]; [done..|]. unfold full in Hr. simpl in Hr. lia.
  - apply wp_bind. eapply wp_mono; [apply fill_spec; unfold reader_size in *; lia|]. cbv beta.
    intros r s' h' (data & err & t & -> & -> & Ht & <- & Hle & Hend).
    eapply wp_mono; [apply (IH acc (buf +:+ received t) err (reads ++ t)); [done|rewrite string_length_app; lia|]|].
    { intros e ->. by apply ended_app. }
    cbv beta. intros r s'' h' (t' & -> & Ht' & Hr). exists (t ++ t'). rewrite app_assoc. split; [done|].
    split; [by apply Forall_app|]. cbv zeta in *. rewrite received_app. rewrite string_app_assoc, <- app_assoc in Hr.
    destruct r as [[[line [e|]] rest]| |]; [done..|]. rewrite string_length_app. revert Hr.
    destruct err as [e|]; [intros ->; lia|]. unfold full. destruct (_ <=? _)%nat; lia.
Qed.

(** ** One attempt *)

(** The exchange on a new connection that leads to a connected socket: the whole
    connect message, an acknowledgement that starts with OK, and no deadline or
    close after that. *)
Definition established (conn : Conn) (port : Z) (c : config) (t : trace VsockCalls) : Prop :=
  ∃ d1 d2 d3 d4 reads line,
    t = [Event (ConnSetDeadline conn (Some (ConnectMsgTimeout c))) d1;
         Event (ConnWrite conn (connectMsg port)) (Z.of_nat (String.length (connectMsg port)), None);
         Event (ConnSetDeadline conn None) d2;
         Event (ConnSetDeadline conn (Some (AckMsgTimeout c))) d3] ++ reads ++
        [Event (ConnSetDeadline conn None) d4] ∧
    Forall (is_read conn) reads ∧ read_line newline (received reads) = Some line ∧
    strings_HasPrefix line "OK " = true.

Definition is_close (conn : Conn) (e : event VsockCalls) : bool :=
  match e with Event c _ => match c with ConnClose c => bool_decide (c = conn) | _ => false end end.

(** How often a history closes a connection. *)
Definition closes (conn : Conn) (t : trace VsockCalls) : nat :=
  length (List.filter (is_close conn) t).

Lemma closes_app conn t1 t2 : closes conn (t1 ++ t2) = (closes conn t1 + closes conn t2)%nat.
Proof. unfold closes. by rewrite List.filter_app, length_app. Qed.

Lemma closes_reads conn conn' t : Forall (is_read conn') t → closes conn t = 0%nat.
Proof. induction 1 as [|e t (room & r & -> & _) _ IH]; [done|]. exact IH. Qed.

(** The error [tryConnect] gives when the peer answers something else than OK. *)
Definition refused (e : Err) : Prop :=
  ∃ line, strings_HasPrefix line "OK " = false ∧
    e = AckError (Errorf ("expected to read " +:+ quoted "OK <port>" +:+ ", but instead read %q") [line]).

Lemma tryConnWrite_spec conn msg d o s h :
  wp (tryConnWrite conn msg d) (λ r _ h', ∃ err d1 w d2,
    r = Val err ∧
    h' = h ++ [Event (ConnSetDeadline conn (Some d)) d1; Event (ConnWrite conn msg) w;
               Event (ConnSetDeadline conn None) d2] ∧
    match err with
    | None => w = (Z.of_nat (String.length msg), None)
    | Some e => w.2 = Some e ∨ (w.2 = None ∧ w.1 ≠ Z.of_nat (String.length msg))
    end) o s h.
Proof.
  unfold tryConnWrite. apply wp_bind, wp_call, wp_bind, wp_call, wp_bind, wp_call. cbv zeta.
  destruct (o _ _ (ConnWrite conn msg)) as [n [e|]].
  { apply wp_ret. eexists (Some e), _, _, _. split; [done|]. split; [by rewrite <- !app_assoc|by left]. }
  destruct (Z.eqb_spec n (Z.of_nat (String.length msg))) as [->|Hn]; simpl;
    apply wp_ret; eexists _, _, _, _; (split; [done|]); (split; [by rewrite <- !app_assoc|]); [done|by right].
Qed.

(** Reading through the 32-byte buffer is cutting the whole stream that the
    connection delivered after its first delimiter, however the stream is split into
    reads; at most 31 bytes of what follows are in the buffer, and lost with it. *)
Lemma tryConnReadUntil_spec fuel conn end_ d o s h :
  wp (tryConnReadUntil fuel conn end_ d) (λ r _ h', ∃ d1 reads,
    Forall (is_read conn) reads ∧
    match r with
    | Val (line, err) => ∃ d2,
        h' = h ++ [Event (ConnSetDeadline conn (Some d)) d1] ++ reads ++ [Event (ConnSetDeadline conn None) d2] ∧
        match err with
        | None => ∃ lost, read_line end_ (received reads) = Some line ∧ received reads = line +:+ lost ∧
                          (String.length lost < 32)%nat
        | Some e => read_line end_ (received reads) = None ∧ line = received reads ∧ ended reads e
        end
    | Pending => h' = h ++ [Event (ConnSetDeadline conn (Some d)) d1] ++ reads ∧
                 (fuel <= 2 * String.length (received reads) + 1)%nat
    | Panic _ => False
    end) o s h.
Proof.
  unfold tryConnReadUntil. apply wp_bind, wp_call, wp_bind. cbv zeta.
  eapply wp_mono; [apply (ReadString_inv _ _ _ "" "" None []); [done|simpl; lia|done]|].
  cbv beta. intros r s' h' (t & -> & Ht & Hr).
  destruct r as [[[line err] rest]| |]; [|done|].
  - apply wp_bind, wp_call, wp_ret. eexists _, t. split; [done|]. eexists. split; [by rewrite <- !app_assoc|].
    destruct err as [e|]; [by destruct Hr as (? & ? & _ & ?)|by exists rest].
  - eexists _, t. split; [done|]. split; [by rewrite <- app_assoc|]. unfold full in Hr. simpl in Hr. lia.
Qed.

Definition write_failed (c : config) (port : Z) (e : Err) : Prop :=
  ∃ cause, e = ConnectMsgError (ErrorfW "failed to write %q within %s: %w"
                                  [connectMsg port; strconv_Itoa (ConnectMsgTimeout c)] cause).
Definition read_failed (c : config) (e : Err) : Prop :=
  ∃ cause, e = AckError (ErrorfW ("failed to read " +:+ quoted "OK <port>" +:+ " within %s: %w")
                           [strconv_Itoa (AckMsgTimeout c)] cause).

Lemma handshake_spec fuel conn port c o s h :
  wp (handshake fuel conn port c) (λ r _ h', ∃ t, h' = h ++ t ∧ closes conn t = 0%nat ∧
    match r with
    | Val (inr conn', err) => conn' = conn ∧ err = None ∧ established conn port c t
    | Val (inl e, Some _) => write_failed c port e ∨ read_failed c e
    | Val (inl e, None) => refused e
    | Pending => ∃ reads, Forall (is_read conn) reads ∧ suffix reads t ∧
                   (fuel <= 2 * String.length (received reads) + 1)%nat
    | Panic _ => False
    end) o s h.
Proof.
  unfold handshake. cbv zeta. apply wp_bind. eapply wp_mono; [apply tryConnWrite_spec|]. cbv beta.
  intros r s' h' (err & d1 & w & d2 & -> & -> & Hw). destruct err as [e|].
  { apply wp_ret. eexists. split; [done|]. split; [by destruct w|]. left. by exists e. }
  rewrite Hw. apply wp_bind. eapply wp_mono; [apply tryConnReadUntil_spec|]. cbv beta.
  intros r s'' h' (d3 & reads & Hreads & Hr). destruct r as [[line err]| |]; [|done|].
  - destruct Hr as (d4 & -> & Hline). rewrite <- app_assoc.
    assert (∀ pre post, closes conn pre = 0%nat → closes conn post = 0%nat →
      closes conn (pre ++ reads ++ post) = 0%nat) as Hcl.
    { intros pre post Hpre Hpost. by rewrite !closes_app, Hpre, Hpost, (closes_reads _ _ _ Hreads). }
    destruct err as [e|]; [|destruct (strings_HasPrefix line "OK ") eqn:Hok; simpl]; apply wp_ret;
      (eexists; split; [done|]; split;
        [by apply (Hcl [_; _; _; _] [_])|]).
    + right. by exists e.
    + split; [done|]. split; [done|]. eexists _, _, _, _, reads, line.
      split; [reflexivity|]. split; [done|]. by destruct Hline as (lost & ? & _).
    + by exists line.
  - destruct Hr as (-> & Hf). rewrite <- app_assoc. eexists. split; [done|]. split.
    + rewrite !closes_app, (closes_reads _ _ _ Hreads). done.
    + exists reads. split; [done|]. split; [|done]. by eexists [_; _; _; _].
Qed.

(** The errors of [tryConnect] before a connection exists. *)
Definition dial_failed (udsPath : string) (c : config) (e : Err) : Prop :=
  ∃ cause, e = ErrorfW "failed to dial %q within %s: %w" [udsPath; strconv_Itoa (DialTimeout c)] cause.

Lemma close_on_error_spec conn err logger attempt o s h :
  wp (close_on_error conn err logger attempt) (λ r _ h', r = Val tt ∧ ∃ t, h' = h ++ t ∧
    match err with Some _ => closes conn t = 1%nat | None => t = [] end) o s h.
Proof.
  unfold close_on_error. destruct err as [e|].
  - apply wp_bind, wp_call. destruct (o h _ _) as [ce|].
    + apply wp_call. destruct (o _ _ _). split; [done|]. eexists. rewrite <- app_assoc. split; [done|].
      unfold closes. cbn [List.filter is_close app]. by rewrite bool_decide_eq_true_2.
    + apply wp_ret. split; [done|]. eexists. split; [done|]. unfold closes. cbn [List.filter is_close app]. by rewrite bool_decide_eq_true_2.
  - apply wp_ret. split; [done|]. exists []. by rewrite app_nil_r.
Qed.

(** One attempt to connect: a connection it returns has been established by
    the whole exchange and left open; on an error the connection it opened, if
    any, has been closed exactly once, except when it has been refused. *)
Lemma tryConnect_spec (fuel : nat) (udsPath : string) (port : Z) (c : config) (attempt : Z)
    (o : Oracle VsockCalls) s h :
  wp (tryConnect fuel udsPath port c attempt) (λ r _ h',
    let dialled := o h _ (NetDialTimeout "unix" udsPath (DialTimeout c)) in
    ∃ t, h' = h ++ Event (NetDialTimeout "unix" udsPath (DialTimeout c)) dialled :: t ∧
    match dialled, r with
    | inl cause, Val (inl e) => t = [] ∧ e = ErrorfW "failed to dial %q within %s: %w" [udsPath; strconv_Itoa (DialTimeout c)] cause
    | inr conn, Val (inr conn') => conn' = conn ∧ established conn port c t ∧ closes conn t = 0%nat
    | inr conn, Val (inl e) =>
        ((write_failed c port e ∨ read_failed c e) ∧ closes conn t = 1%nat) ∨ (refused e ∧ closes conn t = 0%nat)
    | inr conn, Pending => ∃ reads, Forall (is_read conn) reads ∧ suffix reads t ∧
                             (fuel <= 2 * String.length (received reads) + 1)%nat
    | _, _ => False
    end) o s h.
Proof.
  unfold tryConnect. apply wp_bind, wp_call. destruct (o h _ _) as [cause|conn].
  { apply wp_ret. by exists []. }
  apply wp_bind. eapply wp_mono; [apply handshake_spec|]. cbv beta.
  intros r s' h' (t & -> & Hc & Hr). destruct r as [[result err]| |]; [|done|].
  - apply wp_bind. eapply wp_mono; [apply close_on_error_spec|]. cbv beta.
    intros r s'' h' (-> & t' & -> & Hc'). apply wp_ret. exists (t ++ t').
    split; [by rewrite <- !app_assoc|]. rewrite closes_app, Hc.
    destruct result as [e|conn'], err as [e'|]; simpl.
    + rewrite Hc'. by left.
    + subst t'. by right.
    + by destruct Hr as (_ & ? & _).
    + subst t'. rewrite app_nil_r. by destruct Hr as (-> & _ & ?).
  - exists t. split; [by rewrite <- app_assoc|]. exact Hr.
Qed.

(** ** The exchange of an attempt *)

(** What a connection sees, with the deadlines around it, and what [tryConnect] makes
    of it.  The answer is the stream up to its first newline. *)
Definition message_sent (conn : Conn) (port : Z) (c : config) (d1 d2 : error) (w : Z * error) : trace VsockCalls :=
  [Event (ConnSetDeadline conn (Some (ConnectMsgTimeout c))) d1;
   Event (ConnWrite conn ("CONNECT " +:+ strconv_Itoa port +:+ String "010" "")) w;
   Event (ConnSetDeadline conn None) d2].
Definition answer_read (conn : Conn) (c : config) (d1 d2 : error) (reads : trace VsockCalls) : trace VsockCalls :=
  Event (ConnSetDeadline conn (Some (AckMsgTimeout c))) d1 :: reads ++ [Event (ConnSetDeadline conn None) d2].
Definition closed (conn : Conn) (c : config) (attempt : Z) (closeErr : error) : trace VsockCalls :=
  Event (ConnClose conn) closeErr ::
  match closeErr with Some e => [Event (LogCloseError (config_logger c) attempt e) tt] | None => [] end.

(** The bytes of the message were all taken. *)
Definition taken (port : Z) (w : Z * error) : Prop :=
  w = (Z.of_nat (String.length (connectMsg port)), None).

Inductive exchange (conn : Conn) (port : Z) (c : config) (attempt : Z) : trace VsockCalls → Err + Conn → Prop :=
  | exchange_unwritten d1 d2 w cause closeErr :
      ¬ taken port w → (∀ e, w.2 = Some e → cause = e) →
      exchange conn port c attempt (message_sent conn port c d1 d2 w ++ closed conn c attempt closeErr)
        (inl (ConnectMsgError (ErrorfW "failed to write %q within %s: %w"
                                 [connectMsg port; strconv_Itoa (ConnectMsgTimeout c)] cause)))
  | exchange_unanswered d1 d2 w d3 d4 reads cause closeErr :
      taken port w → Forall (is_read conn) reads → read_line "010" (received reads) = None → ended reads cause →
      exchange conn port c attempt
        (message_sent conn port c d1 d2 w ++ answer_read conn c d3 d4 reads ++ closed conn c attempt closeErr)
        (inl (AckError (ErrorfW ("failed to read " +:+ quoted "OK <port>" +:+ " within %s: %w")
                          [strconv_Itoa (AckMsgTimeout c)] cause)))
  | exchange_answered d1 d2 w d3 d4 reads line lost :
      taken port w → Forall (is_read conn) reads → read_line "010" (received reads) = Some line →
      received reads = line +:+ lost → (String.length lost < 32)%nat →
      exchange conn port c attempt (message_sent conn port c d1 d2 w ++ answer_read conn c d3 d4 reads)
        (if strings_HasPrefix line "OK " then inr conn
         else inl (AckError (Errorf ("expected to read " +:+ quoted "OK <port>" +:+ ", but instead read %q") [line]))).

Lemma close_on_error_events conn e c attempt o s h :
  ∃ closeErr, close_on_error conn (Some e) (config_logger c) attempt o s h =
    (Val tt, s, h ++ closed conn c attempt closeErr).
Proof.
  unfold close_on_error, closed, go_bind, call, go_ret. exists (o h _ (ConnClose conn)).
  destruct (o h _ _) as [ce|]; [|done]. destruct (o _ _ (LogCloseError _ _ _)). by rewrite <- app_assoc.
Qed.

(** C38. One attempt to connect, as the calls it makes: it dials; it sends the whole
    CONNECT message under its deadline and, when that was taken, reads under the other
    deadline until the first newline, at most 32 bytes a time, and clears both; what it
    returns depends only on the stream up to that newline, however it is split into
    reads; up to 31 bytes after it are lost with the buffer.  When the write or the
    reads fail it closes the connection; an answer that is not OK leaves it open.  It is
    still busy only with less fuel than the peer's bytes without a newline need. *)
Theorem tryConnect_exchange (fuel : nat) (udsPath : string) (port : Z) (c : config) (attempt : Z)
    (o : Oracle VsockCalls) h :
  let dialling := NetDialTimeout "unix" udsPath (DialTimeout c) in
  let '(r, _, h') := tryConnect fuel udsPath port c attempt o tt h in
  match o h _ dialling with
  | inl cause =>
      h' = h ++ [Event dialling (inl cause)] ∧
      r = Val (inl (ErrorfW "failed to dial %q within %s: %w" [udsPath; strconv_Itoa (DialTimeout c)] cause))
  | inr conn => ∃ t, h' = h ++ Event dialling (inr conn) :: t ∧
      match r with
      | Val result => exchange conn port c attempt t result
      | Pending => ∃ d1 d2 w d3 reads,
          t = message_sent conn port c d1 d2 w ++ Event (ConnSetDeadline conn (Some (AckMsgTimeout c))) d3 :: reads ∧
          taken port w ∧ Forall (is_read conn) reads ∧ (fuel <= 2 * String.length (received reads) + 1)%nat
      | Panic _ => False
      end
  end.
Proof.
  cbv zeta. unfold tryConnect, go_bind at 1, call at 1. destruct (o h _ _) as [cause|conn]; [done|].
  set (h1 := h ++ _). unfold handshake. cbv zeta.
  pose proof (tryConnWrite_spec conn (connectMsg port) (ConnectMsgTimeout c) o tt h1) as Hw. unfold wp in Hw.
  unfold go_bind at 1 2. destruct (tryConnWrite _ _ _ _ _ _) as [[r s'] h2].
  destruct Hw as (err & d1 & w & d2 & -> & -> & Hw).
  change (h1 ++ _) with (h1 ++ message_sent conn port c d1 d2 w). destruct err as [e|].
  { unfold go_ret at 1, go_bind. destruct (close_on_error_events conn e c attempt o s'
      (h1 ++ message_sent conn port c d1 d2 w)) as [ce ->].
    exists (message_sent conn port c d1 d2 w ++ closed conn c attempt ce). unfold h1. split; [by rewrite <- !app_assoc|].
    apply exchange_unwritten; [intros ->; by destruct Hw as [?|[_ ?]]|].
    intros e'. destruct Hw as [->|[-> _]]; [by intros [= ->]|done]. }
  pose proof (tryConnReadUntil_spec fuel conn newline (AckMsgTimeout c) o s'
    (h1 ++ message_sent conn port c d1 d2 w)) as Hr. unfold wp in Hr.
  unfold go_bind at 1. destruct (tryConnReadUntil _ _ _ _ _ _ _) as [[r s''] h3].
  destruct Hr as (d3 & reads & Hreads & Hr). unfold h1 in *. destruct r as [[line err]| |]; [|done|].
  - destruct Hr as (d4 & -> & Hr). change newline with "010"%char in Hr. destruct err as [e|].
    + destruct Hr as (Hnone & _ & Hend). unfold go_ret at 1, go_bind.
      destruct (close_on_error_events conn e c attempt o s''
        (((h ++ [Event (NetDialTimeout "unix" udsPath (DialTimeout c)) (inr conn)]) ++ message_sent conn port c d1 d2 w) ++
         [Event (ConnSetDeadline conn (Some (AckMsgTimeout c))) d3] ++ reads ++ [Event (ConnSetDeadline conn None) d4]))
        as [ce ->].
      exists (message_sent conn port c d1 d2 w ++ answer_read conn c d3 d4 reads ++ closed conn c attempt ce).
      split; [unfold answer_read; simpl; by rewrite <- !app_assoc; simpl; rewrite <- !app_assoc|].
      by apply exchange_unanswered.
    + destruct Hr as (lost & Hline & Hs & Hlt).
      pose proof (exchange_answered conn port c attempt d1 d2 w d3 d4 reads line lost Hw Hreads Hline Hs Hlt) as Hx.
      destruct (strings_HasPrefix line "OK "); unfold go_ret, go_bind; simpl;
        exists (message_sent conn port c d1 d2 w ++ answer_read conn c d3 d4 reads);
        (split; [unfold answer_read; by rewrite <- !app_assoc|exact Hx]).
  - destruct Hr as (-> & Hf). eexists. split; [by rewrite <- !app_assoc|]. by eexists d1, d2, w, d3, reads.
Qed.

(** ** The retry loops *)
Section retry.
Context (o : Oracle VsockCalls) (temporary : string) (ctx : go_context) (c : config)
  (try_ : Z → V (Err + Conn)).

(** Attempts that all failed for a temporary reason: from [k] attempts and one
    history to [k'] attempts and another. *)
Inductive attempts : Z → trace VsockCalls → Z → trace VsockCalls → Prop :=
  | attempts_none k h : attempts k h k h
  | attempts_failed k h e h1 k' h' :
      o h _ (RetrySelect ctx (RetryInterval c)) = Tick →
      try_ (k + 1) o tt (h ++ [Event (RetrySelect ctx (RetryInterval c)) Tick]) = (Val (inl e), tt, h1) →
      isTemporaryNetErr (Some e) = true →
      attempts (k + 1) (h1 ++ [Event (LogDebug (config_logger c) (k + 1) (ErrorfW temporary [] e)) tt]) k' h' →
      attempts k h k' h'.

Lemma retry_spec final fuel k h :
  let '(r, _, h') := retry fuel k temporary final ctx c try_ o tt h in
  ∃ k' hk, attempts k h k' hk ∧ (k <= k' <= k + Z.of_nat fuel) ∧
    let tick := hk ++ [Event (RetrySelect ctx (RetryInterval c)) Tick] in
    let last := try_ (k' + 1) o tt tick in
    match r with
    | Val (inr conn) => last = (Val (inr conn), tt, h')
    | Val (inl e) =>
        h' = hk ++ [Event (RetrySelect ctx (RetryInterval c)) (CtxDone e)] ∨
        ∃ e0 h1, last = (Val (inl e0), tt, h1) ∧ isTemporaryNetErr (Some e0) = false ∧ e = ErrorfW final [] e0 ∧
                 h' = h1 ++ [Event (LogError (config_logger c) (k' + 1) e) tt]
    | Panic w => last = (Panic w, tt, h')
    | Pending => (k' = k + Z.of_nat fuel ∧ h' = hk) ∨ last = (Pending, tt, h')
    end.
Proof.
  revert k h. induction fuel as [|fuel IH]; intros k h; cbn [retry].
  { exists k, h. split; [constructor|]. split; [lia|]. left. split; [lia|done]. }
  cbv zeta. unfold go_bind at 1, call at 1. destruct (o h _ _) as [e|] eqn:Hp.
  { exists k, h. split; [constructor|]. split; [lia|]. by left. }
  unfold go_bind at 1. set (tick := h ++ _).
  destruct (try_ (k + 1) o tt tick) as [[[[e|conn]|w|] []] h1] eqn:Ht.
  2-4: exists k, h; split; [constructor|]; split; [lia|]; fold tick; try done; by right.
  destruct (isTemporaryNetErr (Some e)) eqn:Htemp.
  - unfold go_bind at 1, call at 1. destruct (o _ _ (LogDebug _ _ _)).
    specialize (IH (k + 1) (h1 ++ [Event (LogDebug (config_logger c) (k + 1) (ErrorfW temporary [] e)) tt])).
    destruct (retry _ _ _ _ _ _ _ _ _ _) as [[r s'] h']. destruct IH as (k' & hk & Ha & Hk & Hr).
    exists k', hk. split; [by eapply attempts_failed|]. split; [lia|].
    destruct r as [[?|?]|?|]; try done. destruct Hr as [[-> ->]|Hr]; [left; split; [lia|done]|by right].
  - unfold go_bind at 1, call at 1, go_ret. destruct (o _ _ (LogError _ _ _)).
    exists k, h. split; [constructor|]. split; [lia|]. right. fold tick. by exists e, h1.
Qed.
End retry.

(** The configuration that a list of options gives. *)
Definition dial_config (opts : list DialOption) : config := foldl (λ t o, o t) defaultConfig opts.

(** C37. Dialling with retries: every attempt but the last failed for a temporary
    reason after a tick; a connection returned has been established and left open
    by the last; an error means that the context is done, or that the last attempt
    could not dial or could not write, never that an acknowledgement was missing
    or wrong; it panics exactly when the retry interval is not positive; and it is
    still busy only after as many attempts as its fuel, or while the peer keeps
    sending without a newline. *)
Theorem DialContext_outcome (fuel : nat) (ctx : go_context) (path : string) (port : Z) (opts : list DialOption)
    (o : Oracle VsockCalls) h :
  let c := dial_config opts in
  let poll := RetrySelect ctx (RetryInterval c) in
  let dialling := NetDialTimeout "unix" path (DialTimeout c) in
  let '(r, _, h') := DialContext fuel ctx path port opts o tt h in
  if RetryInterval c <=? 0 then is_panic r ∧ h' = h else
  ∃ k hk, attempts o "temporary vsock dial failure: %w" ctx c (tryConnect fuel path port c) 0 h k hk ∧
    k <= Z.of_nat fuel ∧
    match r with
    | Val (inr conn) => ∃ t, h' = hk ++ Event poll Tick :: Event dialling (inr conn) :: t ∧
        established conn port c t ∧ closes conn t = 0%nat
    | Val (inl e) =>
        h' = hk ++ [Event poll (CtxDone e)] ∨
        ∃ e0, e = ErrorfW "non-temporary vsock dial failure: %w" [] e0 ∧ isTemporaryNetErr (Some e0) = false ∧
              (dial_failed path c e0 ∨ write_failed c port e0)
    | Pending => k = Z.of_nat fuel ∨
        ∃ conn reads, Forall (is_read conn) reads ∧ suffix reads h' ∧
          (fuel <= 2 * String.length (received reads) + 1)%nat
    | Panic _ => False
    end.
Proof.
  cbv zeta. unfold DialContext, dial, NewTicker. cbv zeta. fold (dial_config opts). set (c := dial_config opts).
  unfold go_bind at 1. destruct (RetryInterval c <=? 0); [by split; [eexists|]|].
  unfold go_ret at 1.
  pose proof (retry_spec o "temporary vsock dial failure: %w" ctx c (tryConnect fuel path port c)
    "non-temporary vsock dial failure: %w" fuel 0 h) as Hr.
  destruct (retry _ _ _ _ _ _ _ _ _ _) as [[r s'] h']. destruct Hr as (k & hk & Ha & Hk & Hr).
  exists k, hk. split; [done|]. split; [lia|]. cbv zeta in Hr.
  pose proof (tryConnect_spec fuel path port c (k + 1) o tt
    (hk ++ [Event (RetrySelect ctx (RetryInterval c)) Tick])) as Ht. unfold wp in Ht.
  destruct r as [[e|conn]|w|].
  - destruct Hr as [Hr|(e0 & h1 & Hlast & Htemp & -> & _)]; [by left|right]. rewrite Hlast in Ht.
    exists e0. split; [done|]. split; [done|].
    destruct Ht as (t & _ & Ht). destruct (o _ _ _) as [cause|conn]; [left; exists cause; by destruct Ht|].
    destruct Ht as [[[Hw|[cause ->]] _]|[(line & _ & ->) _]]; [by right|done..].
  - rewrite Hr in Ht. destruct Ht as (t & -> & Ht); destruct (o _ _ (NetDialTimeout _ _ _)) as [cause|conn']; [done|].
    destruct Ht as (-> & He & Hc). exists t. by rewrite <- app_assoc.
  - rewrite Hr in Ht. destruct Ht as (t & _ & Ht). by destruct (o _ _ _).
  - destruct Hr as [[-> _]|Hr]; [left; lia|right]. rewrite Hr in Ht.
    destruct Ht as (t & -> & Ht); destruct (o _ _ (NetDialTimeout _ _ _)) as [cause|conn']; [done|]. destruct Ht as (reads & Hreads & Hs & Hf).
    destruct Hs as [pre ->]. exists conn', reads. split; [done|]. split; [|done].
    rewrite app_comm_cons, app_assoc. by eexists.
Qed.

(** ** The retry timeout *)

Lemma retry_ext fuel k temporary final ctx c c' try1 try2 o s h :
  RetryInterval c = RetryInterval c' → config_logger c = config_logger c' →
  (∀ k o s h, try1 k o s h = try2 k o s h) →
  retry fuel k temporary final ctx c try1 o s h = retry fuel k temporary final ctx c' try2 o s h.
Proof.
  intros Hi Hl Ht. revert k s h. induction fuel as [|fuel IH]; intros k s h; cbn [retry]; [done|].
  cbv zeta. unfold go_bind, call, go_ret. rewrite Hi, Hl. destruct (o h _ _); [done|].
  rewrite Ht. destruct (try2 _ _ _ _) as [[[[e|conn]| |] s'] h1]; [|done..].
  destruct (isTemporaryNetErr _); [apply IH|done].
Qed.

(** C. [RetryTimeout] bounds an [Accept] (its context carries the deadline), but
    dialling is the same whatever it is set to: only the context of the caller
    bounds a dial. *)
Theorem RetryTimeout_unused (fuel : nat) (ctx : go_context) (path : string) (port : Z) (opts : list DialOption) (d : Z)
    (o : Oracle VsockCalls) s h :
  DialContext fuel ctx path port (opts ++ [WithRetryTimeout d]) o s h = DialContext fuel ctx path port opts o s h.
Proof.
  unfold DialContext. rewrite foldl_snoc. set (c := foldl (λ (t : config) (o : DialOption), o t) defaultConfig opts). cbv zeta. unfold dial.
  unfold go_bind at 1 2. change (RetryInterval (WithRetryTimeout d c)) with (RetryInterval c).
  destruct (NewTicker _ o s h) as [[[[]| |] s'] h']; [|done..]. by apply retry_ext.
Qed.

(** The connection leak: an attempt that opens a connection and fails leaves it
    open exactly when the peer's answer was not an acknowledgement; an attempt
    whose write or read fails closes it once. *)
Theorem tryConnect_leak (fuel : nat) (udsPath : string) (port : Z) (c : config) (attempt : Z)
    (o : Oracle VsockCalls) conn e s h h' :
  o h _ (NetDialTimeout "unix" udsPath (DialTimeout c)) = inr conn →
  tryConnect fuel udsPath port c attempt o tt h = (Val (inl e), s, h') →
  ∃ t, h' = h ++ t ∧ (closes conn t = 0%nat ↔ refused e) ∧ (closes conn t <= 1)%nat.
Proof.
  intros Ho Hrun. pose proof (tryConnect_spec fuel udsPath port c attempt o tt h) as Ht. unfold wp in Ht.
  rewrite Hrun in Ht. cbv zeta in Ht. rewrite Ho in Ht. destruct Ht as (t & -> & Ht). eexists. split; [done|].
  change (closes conn (?x :: t)) with (closes conn t).
  destruct Ht as [[Hf Hc]|[Hr Hc]]; rewrite Hc; split; try lia; split; try done.
  destruct Hf as [[cause ->]|[cause ->]]; intros (line & _ & ?); done.
Qed.

(** [Accept]: the same loop around the accept of the vsock listener, under a
    deadline of [RetryTimeout]. *)
Lemma listener_Accept_outcome fuel (l : listener) (o : Oracle VsockCalls) h :
  let c := listener_config l in
  let ctx := WithTimeout (listener_ctx l) (RetryTimeout c) in
  0 < RetryInterval c →
  let '(r, _, h') := listener_Accept fuel l o tt h in
  ∃ k hk, attempts o "temporary vsock accept failure: %w" ctx c
            (tryAccept (listener_listener l) (listener_port l) (config_logger c)) 0 h k hk ∧
    match r with
    | Val (inr conn) => h' = hk ++ [Event (RetrySelect ctx (RetryInterval c)) Tick;
                                    Event (ListenerAccept (listener_listener l)) (inr conn)]
    | Val (inl e) => h' = hk ++ [Event (RetrySelect ctx (RetryInterval c)) (CtxDone e)] ∨
        ∃ e0, e = ErrorfW "non-temporary vsock accept failure: %w" [] e0 ∧ isTemporaryNetErr (Some e0) = false
    | Panic _ => False
    | Pending => k = Z.of_nat fuel
    end.
Proof.
  cbv zeta. intros Hi. unfold listener_Accept, NewTicker. cbv zeta. unfold go_bind at 1.
  destruct (Z.leb_spec (RetryInterval (listener_config l)) 0); [lia|]. unfold go_ret at 1.
  pose proof (retry_spec o "temporary vsock accept failure: %w"
    (WithTimeout (listener_ctx l) (RetryTimeout (listener_config l))) (listener_config l)
    (tryAccept (listener_listener l) (listener_port l) (config_logger (listener_config l)))
    "non-temporary vsock accept failure: %w" fuel 0 h) as Hr.
  destruct (retry _ _ _ _ _ _ _ _ _ _) as [[r s'] h']. destruct Hr as (k & hk & Ha & _ & Hr).
  exists k, hk. split; [done|]. cbv zeta in Hr. revert Hr. unfold tryAccept, close_on_error.
  unfold go_bind, call, go_ret. destruct (o _ _ (ListenerAccept _)) as [e1|conn1].
  all: destruct r as [[e|conn]|w|]; simpl; try done.
  - intros [?|(e0 & h1 & _ & ? & -> & _)]; [by left|right]. by exists e0.
  - by intros [[-> _]|?].
  - by intros [?|(e0 & h1 & ? & _)]; [left|].
  - intros [= <- <-]. by rewrite <- app_assoc.
  - by intros [[-> _]|?].
Qed.

(** ** Examples *)
Module Examples.

Lemma length_substring n m s : (String.length (String.substring n m s) <= m)%nat.
Proof.
  revert n m. induction s as [|a s IH]; intros [|n] [|m]; cbn [String.substring String.length]; try lia.
  - specialize (IH 0%nat m). lia.
  - apply (IH n 0%nat).
  - apply (IH n (Datatypes.S m)).
Qed.

(** A peer that takes every write and answers every read with the same bytes. *)
Definition peer (answer : string) : Oracle VsockCalls := λ h T c,
  match c in VsockCalls T return T with
  | RetrySelect _ _ => if decide (length h < 30)%nat then Tick else CtxDone (CtxErr "context canceled")
  | NetDialTimeout _ _ _ => inr 7%nat
  | ConnSetDeadline _ _ => None
  | ConnWrite _ b => (Z.of_nat (String.length b), None)
  | ConnRead _ room => (mkbytes (String.substring 0 room answer) (length_substring 0 room answer), None)
  | ConnClose _ => None
  | VsockListen _ => inr 1%nat
  | ListenerAccept _ => inr 7%nat
  | ListenerClose _ => None
  | ListenerAddr _ => "vm(3):52"
  | LogDebug _ _ _ | LogError _ _ _ | LogCloseError _ _ _ => tt
  end.

(** The data after the acknowledgement is read with it, and lost. *)
Example ack_with_data :
  (ReadString 5 7%nat newline "" "" None (peer ("OK 52" +:+ String newline "hello")) tt []).1.1 =
  Val ("OK 52" +:+ String newline "", None, "hello").
Proof. vm_compute. reflexivity. Qed.

Example dial_ok :
  (DialContext 5 Background "/v.sock" 52 [WithDialTimeout 5] (peer ("OK 52" +:+ String newline "")) tt []).1.1 =
  Val (inr 7%nat).
Proof. vm_compute. reflexivity. Qed.

(** A refused connection is retried until the context is done. *)
Example dial_refused :
  (DialContext 9 Background "/v.sock" 52 [] (peer ("NO" +:+ String newline "")) tt []).1.1 =
  Val (inl (CtxErr "context canceled")).
Proof. vm_compute. reflexivity. Qed.

Lemma tryConnect_leak_witness : ∃ t : trace VsockCalls, closes 7%nat t = 0%nat ∧ length t = 7%nat.
Proof.
  destruct (tryConnect_leak 5 "/v.sock" 52 defaultConfig 1 (peer ("NO" +:+ String newline "")) 7%nat
    (AckError (Errorf ("expected to read " +:+ quoted "OK <port>" +:+ ", but instead read %q")
       ["NO" +:+ String newline ""])) tt []
    (tryConnect 5 "/v.sock" 52 defaultConfig 1 (peer ("NO" +:+ String newline "")) tt []).2)
    as (t & Ht & Hr & _); [reflexivity|vm_compute; reflexivity|].
  exists t. split.
  - apply Hr. by exists ("NO" +:+ String newline "").
  - simpl in Ht. rewrite <- Ht. vm_compute. reflexivity.
Defined.
End Examples.
