(* ===== verification/CpuTemplate.v ===== *)
(** * CPU templates (src/internal/cpu_template.go)

    [SupportCPUTemplate] with the package variables [isIntel] and [isIntelOnce]
    as its state.  The file is what its reads deliver before they end or fail
    (the scanner treats both alike and its error is not looked at); the scanner
    and the regular expression of the standard library are modelled as the code
    uses them. *)

From stdpp Require Import strings list.
From Stdlib Require Import Ascii ZArith Lia.
From S2P Require Import Prelude GoStrings.

Open Scope string_scope.
Open Scope list_scope.

Definition newline : Ascii.ascii := "010"%char.
Definition carriage_return : Ascii.ascii := "013"%char.

(** ** [bufio.Scanner] with [ScanLines] *)
Definition MaxScanTokenSize : Z := 65536.

(** The bytes up to the next newline, and what follows it. *)
Fixpoint lines_of (s : string) : list string :=
  match s with
  | "" => []
  | String a s' =>
      if Ascii.eqb a newline then "" :: lines_of s'
      else match lines_of s' with
           | [] => [String a ""]
           | l :: ls => String a l :: ls
           end
  end.

(** [dropCR]: without a final carriage return. *)
Fixpoint dropCR (s : string) : string :=
  match s with
  | "" => ""
  | String a "" => if Ascii.eqb a carriage_return then "" else s
  | String a s' => String a (dropCR s')
  end.

(** The lines the scanner returns before it stops: at the end, or at the first
    line that does not fit its buffer. *)
Fixpoint scanned (lines : list string) : list string :=
  match lines with
  | [] => []
  | l :: ls => if (MaxScanTokenSize <=? Z.of_nat (String.length l))%Z then [] else dropCR l :: scanned ls
  end.

(** ** The regular expression [^vendor_id\s*:\s*(.+)$] *)
Definition is_blank (a : Ascii.ascii) : bool :=
  Ascii.eqb a " "%char || Ascii.eqb a "009"%char || Ascii.eqb a newline ||
  Ascii.eqb a "012"%char || Ascii.eqb a carriage_return.

(** [\s*], greedy: what it takes and what is left. *)
Fixpoint take_blanks (s : string) : string * string :=
  match s with
  | "" => ("", "")
  | String a s' =>
      if is_blank a then let '(b, r) := take_blanks s' in (String a b, r) else ("", s)
  end.

Fixpoint strip_prefix (p s : string) : option string :=
  match p, s with
  | "", _ => Some s
  | String a p, String b s => if Ascii.eqb a b then strip_prefix p s else None
  | _, "" => None
  end.

Fixpoint last_char (s : string) : option Ascii.ascii :=
  match s with "" => None | String a "" => Some a | String _ s => last_char s end.

(** [(.+)$] after [\s*]: when nothing is left, the blanks give one back. *)
Definition match_value (s : string) : option string :=
  let '(blanks, rest) := take_blanks s in
  let value := if (rest =? "")%string
               then match last_char blanks with Some a => String a "" | None => "" end else rest in
  if (value =? "")%string then None
  else match cut newline value with Some _ => None | None => Some value end.

(** The first group of [vendorID.FindStringSubmatch(line)]. *)
Definition vendorID (line : string) : option string :=
  match strip_prefix "vendor_id" line with
  | Some s =>
      match (take_blanks s).2 with
      | String a s => if Ascii.eqb a ":"%char then match_value s else None
      | "" => None
      end
  | None => None
  end.

(** ** The program *)
Fixpoint find_in (lines : list string) : string :=
  match lines with
  | [] => ""
  | line :: lines => match vendorID line with Some id => id | None => find_in lines end
  end.

Definition findFirstVendorID (content : string) : string * error :=
  (find_in (scanned (lines_of content)), None).

Definition File : Type := nat.

Inductive CpuCalls : Type → Type :=
  | OsOpen (path : string) : CpuCalls (Err + File)
  | FileContent (f : File) : CpuCalls string
  | FileClose (f : File) : CpuCalls error.

Record state := mkstate { isIntel : bool; isIntelOnce : bool }.
Definition initial_state : state := mkstate false false.

Abbreviation M := (GoM CpuCalls state).

Definition checkIsIntel : M (bool * error) :=
  r <- call (OsOpen "/proc/cpuinfo") ;
  match r with
  | inl err => go_ret (false, Some err)
  | inr f =>
      content <- call (FileContent f) ;
      let '(id, err) := findFirstVendorID content in
      call (FileClose f) ;;
      match err with
      | Some e => go_ret (false, Some e)
      | None => go_ret ((id =? "GenuineIntel")%string, None)
      end
  end.

(** The local [err] is assigned only by the call that runs the check. *)
Definition SupportCPUTemplate (goarch : string) : M (bool * error) :=
  if negb (goarch =? "amd64")%string then go_ret (false, None)
  else
    st <- get ;
    if isIntelOnce st then go_ret (isIntel st, None)
    else
      r <- checkIsIntel ;
      let '(intel, err) := r in
      put (mkstate intel true) ;;
      go_ret (intel, err).

(** ** Properties *)

(** What the expression says: a key, a colon and a value on one line, with the
    blanks before the value as many as can be. *)
Definition splits (s blanks value : string) : Prop :=
  s = blanks +:+ value ∧ string_forall is_blank blanks = true ∧ value ≠ "" ∧ cut newline value = None.

Definition vendor_line (line id : string) : Prop :=
  ∃ b1 s b2,
    line = "vendor_id" +:+ b1 +:+ ":" +:+ s ∧ string_forall is_blank b1 = true ∧ splits s b2 id ∧
    ∀ b v, splits s b v → (String.length b <= String.length b2)%nat.

Lemma take_blanks_spec s :
  let '(b, r) := take_blanks s in
  s = b +:+ r ∧ string_forall is_blank b = true ∧ ∀ a r', r = String a r' → is_blank a = false.
Proof.
  induction s as [|a s IH]; cbn [take_blanks]; [done|].
  destruct (is_blank a) eqn:Ha.
  - destruct (take_blanks s) as [b r]. destruct IH as (-> & Hb & Hr).
    split; [done|]. split; [|done]. cbn [string_forall]. by rewrite Ha.
  - split; [done|]. split; [done|]. by intros ? ? [= <- <-].
Qed.

Lemma take_blanks_app b r :
  string_forall is_blank b = true → (∀ a r', r = String a r' → is_blank a = false) →
  take_blanks (b +:+ r) = (b, r).
Proof.
  intros Hb Hr. induction b as [|a b IH].
  - change ("" +:+ r) with r. destruct r as [|a r]; [done|]. cbn [take_blanks]. by rewrite (Hr _ _ eq_refl).
  - simpl in Hb. apply andb_true_iff in Hb as [Ha Hb]. rewrite string_app_cons. cbn [take_blanks]. by rewrite Ha, IH.
Qed.

Lemma strip_prefix_Some p s t : strip_prefix p s = Some t ↔ s = p +:+ t.
Proof.
  revert s. induction p as [|a p IH]; intros s; cbn [strip_prefix].
  - change ("" +:+ t) with t. destruct s; naive_solver.
  - rewrite string_app_cons. destruct s as [|b s]; [done|]. destruct (Ascii.eqb_spec a b) as [->|Hab].
    + rewrite IH. naive_solver.
    + naive_solver.
Qed.

Lemma last_char_app s a : last_char (s +:+ String a "") = Some a.
Proof.
  induction s as [|b s IH]; [done|]. rewrite string_app_cons. cbn [last_char].
  rewrite IH. by destruct s.
Qed.

Lemma last_char_None s : last_char s = None → s = "".
Proof. induction s as [|a s IH]; [done|]. destruct s; [done|]. intros H. by specialize (IH H). Qed.

Lemma last_char_Some s a : last_char s = Some a → ∃ s', s = s' +:+ String a "".
Proof.
  induction s as [|b s IH]; [done|]. destruct s as [|c s].
  - intros [= ->]. by exists "".
  - intros H. destruct (IH H) as [s' Hs']. exists (String b s'). by rewrite string_app_cons, <- Hs'.
Qed.

Lemma cut_None_app_r c s t : cut c (s +:+ t) = None → cut c t = None.
Proof.
  intros H. destruct (cut c t) as [[x y]|] eqn:Ht; [|done]. exfalso. revert H.
  induction s as [|a s IH]; [by change ("" +:+ t) with t; rewrite Ht|]. rewrite string_app_cons. cbn [cut].
  destruct (Ascii.eqb a c); [done|]. destruct (cut c (s +:+ t)) as [[]|]; [done|auto].
Qed.

Lemma string_app_length s t : String.length (s +:+ t) = (String.length s + String.length t)%nat.
Proof. induction s as [|a s IH]; [done|]. rewrite string_app_cons. simpl. by rewrite IH. Qed.

(** Blanks in front of a string are among the blanks it starts with. *)
Lemma blanks_prefix b v bl rest :
  b +:+ v = bl +:+ rest → string_forall is_blank b = true →
  (∀ a r, rest = String a r → is_blank a = false) →
  ∃ m, bl = b +:+ m ∧ v = m +:+ rest.
Proof.
  intros Heq Hb Hr. revert bl Heq. induction b as [|a b IH]; intros bl Heq.
  { by exists bl. }
  simpl in Hb. apply andb_true_iff in Hb as [Ha Hb]. rewrite string_app_cons in Heq.
  destruct bl as [|a' bl].
  - change ("" +:+ rest) with rest in Heq. rewrite (Hr _ _ (eq_sym Heq)) in Ha. done.
  - rewrite string_app_cons in Heq. simplify_eq. destruct (IH Hb bl) as (m & -> & ->); [done|].
    exists m. by rewrite string_app_cons.
Qed.

Definition longest (s b v : string) : Prop :=
  splits s b v ∧ ∀ b' v', splits s b' v' → (String.length b' <= String.length b)%nat.

Lemma longest_unique s b v b' v' : longest s b v → longest s b' v' → b = b' ∧ v = v'.
Proof.
  intros [Hs Hm] [Hs' Hm'].
  assert (String.length b = String.length b') as Hl by (apply Nat.le_antisymm; [by apply (Hm' b v)|by apply (Hm b' v')]).
  clear Hm Hm'. destruct Hs as (-> & _), Hs' as (Hs' & _).
  revert b' Hs' Hl. induction b as [|a b IH]; intros [|a' b'] Hs' Hl; try done.
  rewrite !string_app_cons in Hs'. simpl in Hl. simplify_eq. by destruct (IH b') as [-> ->]; [..|lia|].
Qed.

Lemma match_value_Some s v : match_value s = Some v → ∃ b, longest s b v.
Proof.
  unfold match_value. pose proof (take_blanks_spec s) as Ht. destruct (take_blanks s) as [bl rest].
  destruct Ht as (-> & Hbl & Hrest). destruct (String.eqb_spec rest "") as [->|Hr].
  - rewrite string_app_nil_r. destruct (last_char bl) as [a|] eqn:Hl; [|done].
    destruct (last_char_Some _ _ Hl) as [b ->]. simpl.
    destruct (Ascii.eqb_spec a newline) as [|Hn]; [done|]. intros [= <-]. exists b. split.
    + repeat split; try done; [|by cbn; destruct (Ascii.eqb_spec a newline)].
      rewrite string_forall_app in Hbl. by apply andb_true_iff in Hbl as [? _].
    + intros b' v' (Heq & _ & Hv & _). apply (f_equal String.length) in Heq. revert Heq.
      rewrite !string_app_length. simpl. destruct v'; [done|]. simpl. lia.
  - destruct (String.eqb_spec rest "") as [|_]; [done|].
    destruct (cut newline rest) eqn:Hc; [done|]. intros [= <-]. exists bl. split; [done|].
    intros b' v' (Heq & Hb' & _ & _). destruct (blanks_prefix b' v' bl rest (eq_sym Heq) Hb' Hrest) as (m & -> & _).
    rewrite string_app_length. lia.
Qed.

Lemma match_value_None s b v : match_value s = None → ¬ splits s b v.
Proof.
  unfold match_value. pose proof (take_blanks_spec s) as Ht. destruct (take_blanks s) as [bl rest].
  destruct Ht as (-> & Hbl & Hrest). intros Hm (Heq & Hb & Hv & Hc).
  destruct (blanks_prefix b v bl rest (eq_sym Heq) Hb Hrest) as (m & -> & ->). revert Hm.
  destruct (String.eqb_spec rest "") as [->|Hr].
  - rewrite string_app_nil_r in Hc, Hv. destruct (last_char m) as [a|] eqn:Hl.
    + destruct (last_char_Some _ _ Hl) as [m' ->]. rewrite <- string_app_assoc, last_char_app.
      apply cut_None_app_r in Hc. simpl in *. by destruct (Ascii.eqb a newline).
    + by apply last_char_None in Hl.
  - destruct (String.eqb_spec rest "") as [|_]; [done|]. by rewrite (cut_None_app_r _ _ _ Hc).
Qed.

Lemma match_value_iff s v : match_value s = Some v ↔ ∃ b, longest s b v.
Proof.
  split; [apply match_value_Some|]. intros [b Hb]. destruct (match_value s) as [v'|] eqn:Hm.
  - destruct (match_value_Some _ _ Hm) as [b' Hb']. by destruct (longest_unique _ _ _ _ _ Hb Hb') as [_ ->].
  - by destruct (match_value_None _ b v Hm), Hb.
Qed.

(** The matcher is the regular expression: it finds a value in a line exactly
    when the line is a vendor line, and then it is the value of the longest run of
    blanks after the colon. *)
Lemma vendorID_iff (line id : string) : vendorID line = Some id ↔ vendor_line line id.
Proof.
  unfold vendorID, vendor_line. destruct (strip_prefix "vendor_id" line) as [s|] eqn:Hp.
  2:{ split; [done|]. intros (b1 & s & b2 & Hl & _). apply (proj2 (strip_prefix_Some _ _ _)) in Hl. congruence. }
  apply strip_prefix_Some in Hp as ->. pose proof (take_blanks_spec s) as Ht.
  destruct (take_blanks s) as [bl rest] eqn:Htb. destruct Ht as (Hs & Hbl & _). simpl. split.
  - destruct rest as [|a r]; [done|]. destruct (Ascii.eqb_spec a ":"%char) as [->|]; [|done].
    intros [b2 [Hb Hm]]%match_value_iff. exists bl, r, b2. by rewrite Hs.
  - intros (b1 & r & b2 & Heq & Hb1 & Hsp & Hm). apply (inj (String.append _)) in Heq. subst s.
    change (":" +:+ r) with (String ":"%char r) in *.
    assert (take_blanks (b1 +:+ String ":"%char r) = (b1, String ":"%char r)) as Htb' by
      (apply take_blanks_app; [done|by intros a r' Ha; simplify_eq]).
    rewrite <- Heq, Htb in Htb'. simplify_eq. simpl.
    apply match_value_iff. by exists b2.
Qed.

(** C. The first vendor id of a file is that of its first vendor line among the
    lines the scanner gets to, and empty if there is none; no error is reported
    even when the scanner gave up on a line too long. *)
Theorem findFirstVendorID_first (content id : string) :
  (findFirstVendorID content).2 = None ∧
  (id ≠ "" → (findFirstVendorID content).1 = id ↔
     ∃ l1 line l2, scanned (lines_of content) = l1 ++ line :: l2 ∧ vendor_line line id ∧
       ∀ l i, l ∈ l1 → ¬ vendor_line l i).
Proof.
  split; [done|]. intros Hid. unfold findFirstVendorID. simpl.
  induction (scanned (lines_of content)) as [|line ls IH]; simpl.
  { split; [by intros <-|]. by intros ([] & ? & ? & ? & _). }
  destruct (vendorID line) as [i|] eqn:Hv.
  - pose proof (proj1 (vendorID_iff _ _) Hv) as Hl. split.
    + intros ->. exists [], line, ls. split; [done|]. split; [done|]. by intros ? ? ?%elem_of_nil.
    + intros ([|l1 ls1] & l & ls2 & Heq & Hl' & Hno); simplify_eq/=.
      * apply vendorID_iff in Hl'. congruence.
      * by destruct (Hno l1 i (list_elem_of_here _ _)).
  - rewrite IH. split.
    + intros (l1 & l & l2 & -> & Hl & Hno). exists (line :: l1), l, l2. split; [done|]. split; [done|].
      intros l' j [->|Hin]%elem_of_cons; [|by apply Hno]. intros ?%vendorID_iff. congruence.
    + intros ([|l1 ls1] & l & ls2 & Heq & Hl' & Hno); simplify_eq/=.
      * apply vendorID_iff in Hl'. congruence.
      * exists ls1, l, ls2. split; [done|]. split; [done|]. intros l' j Hin. apply Hno. by apply elem_of_cons; right.
Qed.

(** [n] calls one after another. *)
Fixpoint calls (goarch : string) (n : nat) : M (list (bool * error)) :=
  match n with
  | O => go_ret []
  | Datatypes.S n => r <- SupportCPUTemplate goarch ; rs <- calls goarch n ; go_ret (r :: rs)
  end.

Lemma calls_done goarch n (o : Oracle CpuCalls) intel h :
  goarch = "amd64" → calls goarch n o (mkstate intel true) h = (Val (repeat (intel, None) n), mkstate intel true, h).
Proof.
  intros ->. induction n as [|n IH]; [done|]. cbn [calls repeat]. unfold go_bind at 1. simpl. unfold go_bind at 1.
  by rewrite IH.
Qed.

(** On amd64 the check runs in the first call only: the later calls give its
    answer with no error, even when it failed, and nothing else is opened or read;
    elsewhere no call does anything. *)
Theorem SupportCPUTemplate_once (goarch : string) (n : nat) (o : Oracle CpuCalls) h :
  let '(r, s, h') := calls goarch (Datatypes.S n) o initial_state h in
  if (goarch =? "amd64")%string then
    ∃ intel err, checkIsIntel o initial_state h = (Val (intel, err), initial_state, h') ∧
      r = Val ((intel, err) :: repeat (intel, None) n) ∧ s = mkstate intel true ∧ (is_Some err → intel = false)
  else r = Val (repeat (false, None) (Datatypes.S n)) ∧ s = initial_state ∧ h' = h.
Proof.
  destruct (String.eqb_spec goarch "amd64") as [->|Hg].
  - destruct (checkIsIntel o initial_state h) as [[r1 s1] h1] eqn:Hc.
    assert (s1 = initial_state ∧ ∃ intel err, r1 = Val (intel, err) ∧ (is_Some err → intel = false)) as (-> & intel & err & -> & Hf).
    { revert Hc. unfold checkIsIntel, go_bind, call, go_ret. destruct (o h _ _) as [e|f].
      - intros [= <- <- <-]. split; [done|]. by eexists _, _.
      - simpl. intros [= <- <- <-]. split; [done|]. eexists _, _. split; [done|]. by intros []. }
    assert (SupportCPUTemplate "amd64" o initial_state h = (Val (intel, err), mkstate intel true, h1)) as Hs.
    { unfold SupportCPUTemplate, go_bind, get, put. simpl. by rewrite Hc. }
    cbn [calls]. unfold go_bind. rewrite Hs, calls_done by done. by exists intel, err.
  - assert (∀ m, calls goarch m o initial_state h = (Val (repeat (false, None) m), initial_state, h)) as Hm.
    { induction m as [|m IH]; [done|]. cbn [calls repeat]. unfold go_bind at 1, SupportCPUTemplate at 1.
      destruct (String.eqb_spec goarch "amd64"); [done|]. simpl. unfold go_bind. by rewrite IH. }
    by rewrite Hm.
Qed.

Module Examples.
Definition cpuinfo : string :=
  "processor	: 0" +:+ String newline ("vendor_id	: GenuineIntel" +:+ String newline "cpu family	: 6").

Example intel_found : findFirstVendorID cpuinfo = ("GenuineIntel", None).
Proof. vm_compute. reflexivity. Qed.

Lemma findFirstVendorID_first_witness : (findFirstVendorID cpuinfo).1 = "GenuineIntel" ∧
  ∃ l1 line l2, scanned (lines_of cpuinfo) = l1 ++ line :: l2 ∧ vendor_line line "GenuineIntel".
Proof.
  split; [vm_compute; reflexivity|].
  destruct (proj1 (proj2 (findFirstVendorID_first cpuinfo "GenuineIntel") ltac:(discriminate))) as (l1 & l & l2 & ? & ? & _);
    [vm_compute; reflexivity|].
  by exists l1, l, l2.
Defined.
End Examples.
