(* ===== verification/Workers.v ===== *)
(** * The goroutines beside a machine (src/machine.go)

    [FifoCopy]: the two goroutines of [captureFifoToFileWithChannel], one that
    closes the pipe when the machine exits and one that copies it.  [Signals]: the
    goroutine of [setupSignals].  Both are step relations: [internal] steps are
    the goroutines', [external] ones the environment's. *)

From stdpp Require Import base strings list relations.
From Stdlib Require Import Lia.
From S2P Require Import Prelude.

Open Scope string_scope.
Open Scope nat_scope.
Open Scope list_scope.

(** No goroutine can go on. *)
Definition quiescent {A} (R : A → A → Prop) (s : A) : Prop := ∀ s', ¬ R s s'.

(** Steps that decrease a rank come to rest. *)
Lemma comes_to_rest {A} (R : A → A → Prop) (B : A → Prop) (rank : A → nat) :
  (∀ s s', R s s' → rank s' < rank s) → (∀ s, (∃ s', R s s') ∨ B s) →
  ∀ s, ∃ s', rtc R s s' ∧ B s'.
Proof.
  intros Hrank Hdec s. remember (rank s) as n eqn:Hn. revert s Hn.
  induction n as [n IH] using lt_wf_ind. intros s ->. destruct (Hdec s) as [[s1 Hs]|Hq].
  - destruct (IH (rank s1) (Hrank _ _ Hs) s1 eq_refl) as (s' & Hr & Hq). exists s'. by split; [eapply rtc_l|].
  - by exists s.
Qed.

(** ** Copying a fifo *)
Module FifoCopy.
Inductive closer_pc := AwaitingExit | ClosingFifo | CloserDone.

(** After the copy: the error to [done], [close(done)], then the deferred close
    and unlink. *)
Inductive copier_pc :=
  | Copying
  | Reporting (e : Err)
  | ClosingDone
  | ClosingPipe
  | Unlinking
  | CopierDone.

Record state := mkState {
  closer : closer_pc;
  copier : copier_pc;
  exitCh_closed : bool;
  done_ : list Err;            (* the buffer of the channel [done] *)
  done_closed : bool;
  pipe_closed : bool;
  unlinks : nat;
  crashed : bool               (* [done] was closed twice, or sent to when closed *)
}.

(** After [fifo.OpenFifo], when both goroutines have been started. *)
Definition initial (exited : bool) : state := mkState AwaitingExit Copying exited [] false false 0 false.

Definition set_closer (v : closer_pc) (s : state) : state :=
  mkState v (copier s) (exitCh_closed s) (done_ s) (done_closed s) (pipe_closed s) (unlinks s) (crashed s).
Definition set_copier (v : copier_pc) (s : state) : state :=
  mkState (closer s) v (exitCh_closed s) (done_ s) (done_closed s) (pipe_closed s) (unlinks s) (crashed s).
Definition set_exit (s : state) : state :=
  mkState (closer s) (copier s) true (done_ s) (done_closed s) (pipe_closed s) (unlinks s) (crashed s).
(** [fifoPipe.Close()]: closing again only returns an error. *)
Definition close_pipe (s : state) : state :=
  mkState (closer s) (copier s) (exitCh_closed s) (done_ s) (done_closed s) true (unlinks s) (crashed s).
Definition unlink (s : state) : state :=
  mkState (closer s) (copier s) (exitCh_closed s) (done_ s) (done_closed s) (pipe_closed s)
    (Datatypes.S (unlinks s)) (crashed s).
Definition push_done (e : Err) (s : state) : state :=
  mkState (closer s) (copier s) (exitCh_closed s) (done_ s ++ [e]) (done_closed s) (pipe_closed s) (unlinks s)
    (crashed s || done_closed s).
Definition pop_done (s : state) : state :=
  mkState (closer s) (copier s) (exitCh_closed s) (tail (done_ s)) (done_closed s) (pipe_closed s) (unlinks s) (crashed s).
Definition close_done (s : state) : state :=
  mkState (closer s) (copier s) (exitCh_closed s) (done_ s) true (pipe_closed s) (unlinks s) (crashed s || done_closed s).

Section steps.
(** The capacity of [done]; [captureFifoToFile] makes it 1 and never receives. *)
Context (capacity : nat).

Inductive internal : state → state → Prop :=
  | closer_wakes s : closer s = AwaitingExit → exitCh_closed s = true → internal s (set_closer ClosingFifo s)
  | closer_closes s : closer s = ClosingFifo → internal s (close_pipe (set_closer CloserDone s))
  (* a read of a closed fifo fails, and so does the copy *)
  | copy_interrupted s e : copier s = Copying → pipe_closed s = true → internal s (set_copier (Reporting e) s)
  | copier_reports s e : copier s = Reporting e → length (done_ s) < capacity →
      internal s (push_done e (set_copier ClosingDone s))
  | copier_closes_done s : copier s = ClosingDone → internal s (close_done (set_copier ClosingPipe s))
  | copier_closes_pipe s : copier s = ClosingPipe → internal s (close_pipe (set_copier Unlinking s))
  | copier_unlinks s : copier s = Unlinking → internal s (unlink (set_copier CopierDone s)).

Inductive external : state → state → Prop :=
  | machine_exits s : external s (set_exit s)
  | copy_fails s e : copier s = Copying → external s (set_copier (Reporting e) s)
  | copy_ends s : copier s = Copying → external s (set_copier ClosingDone s)
  | receives s : external s (pop_done s)
  (* a receiver waits on a channel without a buffer *)
  | receives_directly s e : copier s = Reporting e → capacity = 0 → external s (set_copier ClosingDone s).

Definition step (s s' : state) : Prop := internal s s' ∨ external s s'.
Definition reachable (s : state) : Prop := ∃ exited, rtc step (initial exited) s.

Definition closer_rank (p : closer_pc) : nat :=
  match p with AwaitingExit => 2 | ClosingFifo => 1 | CloserDone => 0 end.
Definition copier_rank (p : copier_pc) : nat :=
  match p with Copying => 5 | Reporting _ => 4 | ClosingDone => 3 | ClosingPipe => 2 | Unlinking => 1 | CopierDone => 0 end.
Definition rank (s : state) : nat := closer_rank (closer s) + copier_rank (copier s).

Record inv (s : state) : Prop := {
  inv_crashed : crashed s = false;
  inv_done : length (done_ s) ≤ match copier s with Copying | Reporting _ => 0 | _ => 1 end;
  inv_done_closed : done_closed s = match copier s with Copying | Reporting _ | ClosingDone => false | _ => true end;
  inv_pipe : pipe_closed s = match closer s, copier s with
                             | CloserDone, _ | _, Unlinking | _, CopierDone => true | _, _ => false end;
  inv_unlinks : unlinks s = match copier s with CopierDone => 1 | _ => 0 end
}.

Ltac open_state := repeat match goal with s : state |- _ => destruct s end; simpl in *; simplify_eq.

Lemma fifo_inv_step s s' : inv s → step s s' → inv s'.
Proof.
  intros [Hcr Hd Hdc Hp Hu] [Hs|Hs]; destruct Hs; open_state; split; simpl in *; try done;
    try (by repeat case_match); rewrite ?length_app; simpl; try lia.
  all: match goal with |- length (tail ?l) ≤ _ => destruct l; simpl in *; lia end.
Qed.

Lemma fifo_reachable_inv s : reachable s → inv s.
Proof.
  intros [exited Hr]. assert (inv (initial exited)) as Hi by (split; simpl; done || lia).
  induction Hr; eauto using fifo_inv_step.
Qed.

Lemma fifo_internal_rank s s' : internal s s' → rank s' < rank s.
Proof. intros Hs. destruct Hs; open_state; unfold rank; simpl; lia. Qed.

Lemma fifo_internal_step s s' : internal s s' → step s s'.
Proof. by left. Qed.

(** Whether a goroutine can go on. *)
Definition blocked (s : state) : Prop :=
  (closer s = CloserDone ∨ closer s = AwaitingExit ∧ exitCh_closed s = false) ∧
  match copier s with
  | Copying => pipe_closed s = false
  | Reporting _ => capacity ≤ length (done_ s)
  | CopierDone => True
  | _ => False
  end.

Lemma blocked_quiescent s : blocked s → quiescent internal s.
Proof. intros [Hc Hp] s' Hs. unfold blocked in *. destruct Hs; open_state; destruct Hc as [|[]]; simplify_eq; try done; lia. Qed.

Lemma interrupted s : copier s = Copying → pipe_closed s = true → ∃ s', internal s s'.
Proof. intros. eexists. by eapply (copy_interrupted s (ErrorsNew "file already closed")). Qed.

Lemma fifo_progress s : (∃ s', internal s s') ∨ blocked s.
Proof.
  destruct (closer s) eqn:Hc; [destruct (exitCh_closed s) eqn:He| |].
  1, 3: by left; eexists; econstructor.
  all: destruct (copier s) as [|e| | | |] eqn:Hp;
    [destruct (pipe_closed s) eqn:Hpc|destruct (decide (length (done_ s) < capacity)) as [|Hfull]|..];
    try (by left; apply interrupted); try (by left; eexists; econstructor);
    right; unfold blocked; rewrite Hc, Hp; repeat split; auto; lia.
Qed.

Lemma at_rest s : inv s → 1 ≤ capacity → blocked s →
  copier s = CopierDone ∧ done_closed s = true ∧ pipe_closed s = true ∧ unlinks s = 1 ∨
  copier s = Copying ∧ exitCh_closed s = false ∧ pipe_closed s = false ∧ unlinks s = 0.
Proof.
  intros [_ Hd Hdc Hp Hu] Hcap [Hc Hb]. rewrite Hdc, Hu. rewrite Hp in *.
  destruct (copier s); [right|lia|done..|left]; destruct Hc as [Hc|[Hc He]]; rewrite Hc in *; done.
Qed.

(** C39. The goroutines that copy a fifo, in every interleaving: [done] is closed at
    most once and never sent to afterwards, and gets at most one error; the fifo
    is unlinked once, after its copy has ended; the goroutines come to rest, and
    then, if the channel has room for an error, either the copy is over and all is
    released, or the machine has not exited and the copy goes on. *)
Theorem fifo_copy_released (s : state) :
  reachable s → 1 ≤ capacity →
  crashed s = false ∧ length (done_ s) ≤ 1 ∧ (unlinks s = 1 ↔ copier s = CopierDone) ∧
  (∃ s', rtc internal s s' ∧ quiescent internal s' ∧
    (copier s' = CopierDone ∧ done_closed s' = true ∧ pipe_closed s' = true ∧ unlinks s' = 1 ∨
     copier s' = Copying ∧ exitCh_closed s' = false ∧ pipe_closed s' = false ∧ unlinks s' = 0)).
Proof.
  intros Hi%fifo_reachable_inv Hcap. split; [apply Hi|]. split.
  { pose proof (inv_done _ Hi). by destruct (copier s); lia. }
  split. { rewrite (inv_unlinks _ Hi). by destruct (copier s). }
  destruct (comes_to_rest internal blocked rank fifo_internal_rank fifo_progress s) as (s' & Hr & Hq).
  exists s'. split; [done|]. split; [by apply blocked_quiescent|].
  assert (inv s') as Hi' by (clear Hq; induction Hr; eauto using fifo_inv_step, fifo_internal_step).
  by apply at_rest.
Qed.
End steps.

Module Examples.
Lemma fifo_copy_released_witness : ∃ s, rtc (internal 1) (set_exit (initial false)) s ∧ unlinks s ≤ 1.
Proof.
  assert (reachable 1 (set_exit (initial false))) as Hr by (exists false; apply rtc_once; right; apply machine_exits).
  destruct (fifo_copy_released 1 (set_exit (initial false)) Hr (le_n 1)) as (_ & _ & _ & s & Hs & _ & [(_ & _ & _ & Hu)|(_ & _ & _ & Hu)]);
    exists s; (split; [exact Hs|]); rewrite Hu; lia.
Defined.
End Examples.
End FifoCopy.

(** ** Forwarding signals *)
Module Signals.
Section signals.
(** The type of signals and [Cfg.ForwardSignals], which is not empty here: with no
    signals [setupSignals] does nothing. *)
Context {signal : Type} (signals : list signal).

(** The goroutine of [setupSignals]. *)
Inductive forwarder_pc := InSelect | Stopping | ClosingChan | ForwarderDone.

Record state := mkState {
  forwarder : forwarder_pc;
  sigchan : list signal;       (* the buffer, of capacity [length signals] *)
  registered : bool;           (* [signal.Notify] without [signal.Stop] *)
  sigchan_closed : bool;
  exitCh_closed : bool;
  arrived : list signal;       (* the signals the runtime has put in the channel *)
  dropped : list signal;       (* those it found no room for *)
  forwarded : list signal;     (* those sent to the process *)
  crashed : bool               (* a send on the closed channel *)
}.

Definition setupSignals : option state :=
  if (length signals =? 0)%nat then None
  else Some (mkState InSelect [] true false false [] [] [] false).

Definition set_forwarder (v : forwarder_pc) (s : state) : state :=
  mkState v (sigchan s) (registered s) (sigchan_closed s) (exitCh_closed s) (arrived s) (dropped s) (forwarded s) (crashed s).
Definition set_exitCh (s : state) : state :=
  mkState (forwarder s) (sigchan s) (registered s) (sigchan_closed s) true (arrived s) (dropped s) (forwarded s) (crashed s).
Definition unregister (s : state) : state :=
  mkState (forwarder s) (sigchan s) false (sigchan_closed s) (exitCh_closed s) (arrived s) (dropped s) (forwarded s) (crashed s).
Definition close_sigchan (s : state) : state :=
  mkState (forwarder s) (sigchan s) (registered s) true (exitCh_closed s) (arrived s) (dropped s) (forwarded s) (crashed s).
(** The runtime never blocks on the channel: a signal without room is lost. *)
Definition notify (sig : signal) (s : state) : state :=
  if (length (sigchan s) <? length signals)%nat
  then mkState (forwarder s) (sigchan s ++ [sig]) (registered s) (sigchan_closed s) (exitCh_closed s)
         (arrived s ++ [sig]) (dropped s) (forwarded s) (crashed s || sigchan_closed s)
  else mkState (forwarder s) (sigchan s) (registered s) (sigchan_closed s) (exitCh_closed s)
         (arrived s) (dropped s ++ [sig]) (forwarded s) (crashed s || sigchan_closed s).
(** [m.cmd.Process.Signal(sig)] for the signal received. *)
Definition forward (sig : signal) (pending : list signal) (s : state) : state :=
  mkState (forwarder s) pending (registered s) (sigchan_closed s) (exitCh_closed s) (arrived s) (dropped s)
    (forwarded s ++ [sig]) (crashed s).

Inductive internal : state → state → Prop :=
  | forwarder_forwards s sig pending : forwarder s = InSelect → sigchan s = sig :: pending →
      internal s (forward sig pending s)
  | forwarder_exits s : forwarder s = InSelect → exitCh_closed s = true → internal s (set_forwarder Stopping s)
  | forwarder_stops s : forwarder s = Stopping → internal s (unregister (set_forwarder ClosingChan s))
  | forwarder_closes s : forwarder s = ClosingChan → internal s (close_sigchan (set_forwarder ForwarderDone s)).

Inductive external : state → state → Prop :=
  | signal_arrives s sig : registered s = true → sig ∈ signals → external s (notify sig s)
  | machine_exits s : external s (set_exitCh s).

Definition step (s s' : state) : Prop := internal s s' ∨ external s s'.
Definition reachable (s : state) : Prop := ∃ s0, setupSignals = Some s0 ∧ rtc step s0 s.

Record inv (s : state) : Prop := {
  inv_order : arrived s = forwarded s ++ sigchan s;
  inv_room : length (sigchan s) ≤ length signals;
  inv_subset : arrived s ⊆ signals;
  inv_registered : registered s = match forwarder s with InSelect | Stopping => true | _ => false end;
  inv_closed : sigchan_closed s = match forwarder s with ForwarderDone => true | _ => false end;
  inv_crashed : crashed s = false;
  inv_exit : forwarder s ≠ InSelect → exitCh_closed s = true
}.

Ltac open_state := repeat match goal with s : state |- _ => destruct s end; simpl in *; simplify_eq.

Lemma signals_inv_step s s' : inv s → step s s' → inv s'.
Proof.
  intros [Ho Hr Hsub Hreg Hc Hcr He] [Hs|Hs]; destruct Hs; open_state.
  1-4, 6: split; simpl; rewrite <- ?app_assoc; done || (simpl in *; lia) || by auto.
  unfold notify. simpl.
  destruct (Nat.ltb_spec (length sigchan0) (length signals)); split; simpl; rewrite ?length_app, ?app_assoc; simpl; try done; try lia; try (by destruct forwarder0).
  intros x [Hx| ->%list_elem_of_singleton]%elem_of_app; auto.
Qed.

Lemma signals_reachable_inv s : reachable s → inv s.
Proof.
  intros (s0 & Hs & Hr). assert (inv s0) as Hi.
  { unfold setupSignals in Hs. destruct (length signals =? 0)%nat; [done|]. simplify_eq. split; simpl; done || lia || set_solver. }
  clear Hs. induction Hr; eauto using signals_inv_step.
Qed.

(** C40. Signal forwarding, in every interleaving: what the process has been sent,
    followed by what waits in the channel, is exactly the signals that found room
    there, in order, each of a configured kind; nothing is sent on the channel
    after it is closed; no configured signal is lost as long as no more of them
    wait than there are kinds; and forwarding stops only after the machine exited. *)
Theorem signals_forwarded (s s' : state) :
  reachable s → step s s' →
  forwarded s ++ sigchan s = arrived s ∧ arrived s ⊆ signals ∧ length (sigchan s) ≤ length signals ∧
  crashed s = false ∧ (forwarder s ≠ InSelect → exitCh_closed s = true) ∧
  (length (sigchan s) < length signals → dropped s' = dropped s) ∧
  (∃ more, forwarded s' = forwarded s ++ more).
Proof.
  intros Hr Hs. destruct (signals_reachable_inv _ Hr) as [Ho Hroom Hsub _ _ Hcr He].
  repeat (split; [done|]). destruct Hs as [Hs|Hs]; destruct Hs; open_state.
  all: try (split; [done|]; (by eexists [_]) || (exists []; by rewrite app_nil_r)).
  unfold notify. simpl. destruct (Nat.ltb_spec (length sigchan0) (length signals)); simpl.
  all: split; [done || (intros; exfalso; lia)|]; exists []; by rewrite app_nil_r.
Qed.
End signals.

Module Examples.
(** Two signals of two kinds arrive, the second before the first is forwarded. *)
Definition before : @state nat :=
  mkState InSelect [1] true false false [1] [] [] false.
Definition after : @state nat := notify [1; 2] 2 before.

Lemma signals_forwarded_witness : sigchan before = [1] ∧ dropped after = [].
Proof.
  assert (reachable [1; 2] before) as Hr.
  { exists (mkState InSelect [] true false false [] [] [] false). split; [done|]. apply rtc_once. right.
    exact (signal_arrives [1; 2] (mkState InSelect [] true false false [] [] [] false) 1 eq_refl (list_elem_of_here 1 [2])). }
  destruct (signals_forwarded [1; 2] before after Hr) as (_ & _ & _ & _ & _ & Hd & _).
  { right. apply (signal_arrives [1; 2] before 2); [done|]. set_solver. }
  split; [done|]. rewrite Hd; [done|]. vm_compute. lia.
Defined.
End Examples.
End Signals.
