(* ===== verification/Doubles.v ===== *)
(** * Test doubles (src/fctesting, src/cni/internal/mocks.go)

    The doubles that stand for other parts in tests: [MockClient] for the operations
    client, a function per operation; [MockNetlinkOps] for the netlink operations,
    a record of the results to give and of the calls received; [TestWriter].  Results
    are Go pairs, since a double may give a value with an error, or neither. *)

From stdpp Require Import strings list.
From Stdlib Require Import ZArith.
From S2P Require Import Prelude GoStrings Models KernelArgs Json ApiParams Slices Handlers Client ApiOperations Netlink Sys Network Config MachineApi Machine RequestFacts.

Open Scope string_scope.
Open Scope list_scope.

(** ** The operations client (fctesting/firecracker_mock_client.go) *)
Section client.
Context {E : Type → Type} {S : Type}.

(** A function value that may be nil. *)
Definition fn (P R : Type) : Type := option (option P → GoM E S (option R * error)).

Record MockClient := mkMockClient {
  CreateSnapshotFn : fn CreateSnapshotParams CreateSnapshotNoContent;
  CreateSyncActionFn : fn CreateSyncActionParams CreateSyncActionNoContent;
  DescribeBalloonConfigFn : fn DescribeBalloonConfigParams DescribeBalloonConfigOK;
  DescribeBalloonStatsFn : fn DescribeBalloonStatsParams DescribeBalloonStatsOK;
  DescribeInstanceFn : fn DescribeInstanceParams DescribeInstanceOK;
  GetExportVMConfigFn : fn GetExportVMConfigParams GetExportVMConfigOK;
  GetFirecrackerVersionFn : fn GetFirecrackerVersionParams GetFirecrackerVersionOK;
  GetMachineConfigurationFn : fn GetMachineConfigurationParams GetMachineConfigurationOK;
  GetMmdsFn : fn GetMmdsParams GetMmdsOK;
  LoadSnapshotFn : fn LoadSnapshotParams LoadSnapshotNoContent;
  PatchBalloonFn : fn PatchBalloonParams PatchBalloonNoContent;
  PatchBalloonStatsIntervalFn : fn PatchBalloonStatsIntervalParams PatchBalloonStatsIntervalNoContent;
  PatchGuestDriveByIDFn : fn PatchGuestDriveByIDParams PatchGuestDriveByIDNoContent;
  PatchGuestNetworkInterfaceByIDFn : fn PatchGuestNetworkInterfaceByIDParams PatchGuestNetworkInterfaceByIDNoContent;
  PatchMachineConfigurationFn : fn PatchMachineConfigurationParams PatchMachineConfigurationNoContent;
  PatchMmdsFn : fn PatchMmdsParams PatchMmdsNoContent;
  PatchVMFn : fn PatchVMParams PatchVMNoContent;
  PutBalloonFn : fn PutBalloonParams PutBalloonNoContent;
  PutCPUConfigurationFn : fn PutCPUConfigurationParams PutCPUConfigurationNoContent;
  PutEntropyDeviceFn : fn PutEntropyDeviceParams PutEntropyDeviceNoContent;
  PutGuestBootSourceFn : fn PutGuestBootSourceParams PutGuestBootSourceNoContent;
  PutGuestDriveByIDFn : fn PutGuestDriveByIDParams PutGuestDriveByIDNoContent;
  PutGuestNetworkInterfaceByIDFn : fn PutGuestNetworkInterfaceByIDParams PutGuestNetworkInterfaceByIDNoContent;
  PutGuestVsockFn : fn PutGuestVsockParams PutGuestVsockNoContent;
  PutLoggerFn : fn PutLoggerParams PutLoggerNoContent;
  PutMachineConfigurationFn : fn PutMachineConfigurationParams PutMachineConfigurationNoContent;
  PutMetricsFn : fn PutMetricsParams PutMetricsNoContent;
  PutMmdsFn : fn PutMmdsParams PutMmdsNoContent;
  PutMmdsConfigFn : fn PutMmdsConfigParams PutMmdsConfigNoContent
}.

Definition EmptyMockClient : MockClient :=
  mkMockClient None None None None None None None None None None None None None None None None None None None None None None None None None None None None None.

Definition MockClient_CreateSnapshot (c : MockClient) (params : option CreateSnapshotParams) : GoM E S (option CreateSnapshotNoContent * error) :=
  match CreateSnapshotFn c with Some f => f params | None => go_ret (None, None) end.
Definition MockClient_CreateSyncAction (c : MockClient) (params : option CreateSyncActionParams) : GoM E S (option CreateSyncActionNoContent * error) :=
  match CreateSyncActionFn c with Some f => f params | None => go_ret (None, None) end.
Definition MockClient_DescribeBalloonConfig (c : MockClient) (params : option DescribeBalloonConfigParams) : GoM E S (option DescribeBalloonConfigOK * error) :=
  match DescribeBalloonConfigFn c with Some f => f params | None => go_ret (None, None) end.
Definition MockClient_DescribeBalloonStats (c : MockClient) (params : option DescribeBalloonStatsParams) : GoM E S (option DescribeBalloonStatsOK * error) :=
  match DescribeBalloonStatsFn c with Some f => f params | None => go_ret (None, None) end.
Definition MockClient_DescribeInstance (c : MockClient) (params : option DescribeInstanceParams) : GoM E S (option DescribeInstanceOK * error) :=
  match DescribeInstanceFn c with Some f => f params | None => go_ret (None, None) end.
Definition MockClient_GetExportVMConfig (c : MockClient) (params : option GetExportVMConfigParams) : GoM E S (option GetExportVMConfigOK * error) :=
  match GetExportVMConfigFn c with Some f => f params | None => go_ret (None, None) end.
Definition MockClient_GetFirecrackerVersion (c : MockClient) (params : option GetFirecrackerVersionParams) : GoM E S (option GetFirecrackerVersionOK * error) :=
  match GetFirecrackerVersionFn c with Some f => f params | None => go_ret (None, None) end.
Definition MockClient_GetMachineConfiguration (c : MockClient) (params : option GetMachineConfigurationParams) : GoM E S (option GetMachineConfigurationOK * error) :=
  match GetMachineConfigurationFn c with Some f => f params | None => go_ret (None, None) end.
Definition MockClient_GetMmds (c : MockClient) (params : option GetMmdsParams) : GoM E S (option GetMmdsOK * error) :=
  match GetMmdsFn c with Some f => f params | None => go_ret (None, None) end.
Definition MockClient_LoadSnapshot (c : MockClient) (params : option LoadSnapshotParams) : GoM E S (option LoadSnapshotNoContent * error) :=
  match LoadSnapshotFn c with Some f => f params | None => go_ret (None, None) end.
Definition MockClient_PatchBalloon (c : MockClient) (params : option PatchBalloonParams) : GoM E S (option PatchBalloonNoContent * error) :=
  match PatchBalloonFn c with Some f => f params | None => go_ret (None, None) end.
Definition MockClient_PatchBalloonStatsInterval (c : MockClient) (params : option PatchBalloonStatsIntervalParams) : GoM E S (option PatchBalloonStatsIntervalNoContent * error) :=
  match PatchBalloonStatsIntervalFn c with Some f => f params | None => go_ret (None, None) end.
Definition MockClient_PatchGuestDriveByID (c : MockClient) (params : option PatchGuestDriveByIDParams) : GoM E S (option PatchGuestDriveByIDNoContent * error) :=
  match PatchGuestDriveByIDFn c with Some f => f params | None => go_ret (None, None) end.
Definition MockClient_PatchGuestNetworkInterfaceByID (c : MockClient) (params : option PatchGuestNetworkInterfaceByIDParams) : GoM E S (option PatchGuestNetworkInterfaceByIDNoContent * error) :=
  match PatchGuestNetworkInterfaceByIDFn c with Some f => f params | None => go_ret (None, None) end.
Definition MockClient_PatchMachineConfiguration (c : MockClient) (params : option PatchMachineConfigurationParams) : GoM E S (option PatchMachineConfigurationNoContent * error) :=
  match PatchMachineConfigurationFn c with Some f => f params | None => go_ret (None, None) end.
Definition MockClient_PatchMmds (c : MockClient) (params : option PatchMmdsParams) : GoM E S (option PatchMmdsNoContent * error) :=
  match PatchMmdsFn c with Some f => f params | None => go_ret (None, None) end.
Definition MockClient_PatchVM (c : MockClient) (params : option PatchVMParams) : GoM E S (option PatchVMNoContent * error) :=
  match PatchVMFn c with Some f => f params | None => go_ret (None, None) end.
Definition MockClient_PutBalloon (c : MockClient) (params : option PutBalloonParams) : GoM E S (option PutBalloonNoContent * error) :=
  match PutBalloonFn c with Some f => f params | None => go_ret (None, None) end.
Definition MockClient_PutCPUConfiguration (c : MockClient) (params : option PutCPUConfigurationParams) : GoM E S (option PutCPUConfigurationNoContent * error) :=
  match PutCPUConfigurationFn c with Some f => f params | None => go_ret (None, None) end.
Definition MockClient_PutEntropyDevice (c : MockClient) (params : option PutEntropyDeviceParams) : GoM E S (option PutEntropyDeviceNoContent * error) :=
  match PutEntropyDeviceFn c with Some f => f params | None => go_ret (None, None) end.
Definition MockClient_PutGuestBootSource (c : MockClient) (params : option PutGuestBootSourceParams) : GoM E S (option PutGuestBootSourceNoContent * error) :=
  match PutGuestBootSourceFn c with Some f => f params | None => go_ret (None, None) end.
Definition MockClient_PutGuestDriveByID (c : MockClient) (params : option PutGuestDriveByIDParams) : GoM E S (option PutGuestDriveByIDNoContent * error) :=
  match PutGuestDriveByIDFn c with Some f => f params | None => go_ret (None, None) end.
Definition MockClient_PutGuestNetworkInterfaceByID (c : MockClient) (params : option PutGuestNetworkInterfaceByIDParams) : GoM E S (option PutGuestNetworkInterfaceByIDNoContent * error) :=
  match PutGuestNetworkInterfaceByIDFn c with Some f => f params | None => go_ret (None, None) end.
Definition MockClient_PutGuestVsock (c : MockClient) (params : option PutGuestVsockParams) : GoM E S (option PutGuestVsockNoContent * error) :=
  match PutGuestVsockFn c with Some f => f params | None => go_ret (None, None) end.
Definition MockClient_PutLogger (c : MockClient) (params : option PutLoggerParams) : GoM E S (option PutLoggerNoContent * error) :=
  match PutLoggerFn c with Some f => f params | None => go_ret (None, None) end.
Definition MockClient_PutMachineConfiguration (c : MockClient) (params : option PutMachineConfigurationParams) : GoM E S (option PutMachineConfigurationNoContent * error) :=
  match PutMachineConfigurationFn c with Some f => f params | None => go_ret (None, None) end.
Definition MockClient_PutMetrics (c : MockClient) (params : option PutMetricsParams) : GoM E S (option PutMetricsNoContent * error) :=
  match PutMetricsFn c with Some f => f params | None => go_ret (None, None) end.
Definition MockClient_PutMmds (c : MockClient) (params : option PutMmdsParams) : GoM E S (option PutMmdsNoContent * error) :=
  match PutMmdsFn c with Some f => f params | None => go_ret (None, None) end.
Definition MockClient_PutMmdsConfig (c : MockClient) (params : option PutMmdsConfigParams) : GoM E S (option PutMmdsConfigNoContent * error) :=
  match PutMmdsConfigFn c with Some f => f params | None => go_ret (None, None) end.

(** What a method of the interface returns in Go: the result and the error. *)
Definition GoResult {T} (c : ClientIface T) : Type :=
  match c with
  | Ops_CreateSnapshot _ => (option CreateSnapshotNoContent * error)%type
  | Ops_CreateSyncAction _ => (option CreateSyncActionNoContent * error)%type
  | Ops_DescribeBalloonConfig _ => (option DescribeBalloonConfigOK * error)%type
  | Ops_DescribeBalloonStats _ => (option DescribeBalloonStatsOK * error)%type
  | Ops_DescribeInstance _ => (option DescribeInstanceOK * error)%type
  | Ops_GetExportVMConfig _ => (option GetExportVMConfigOK * error)%type
  | Ops_GetFirecrackerVersion _ => (option GetFirecrackerVersionOK * error)%type
  | Ops_GetMachineConfiguration _ => (option GetMachineConfigurationOK * error)%type
  | Ops_GetMmds _ => (option GetMmdsOK * error)%type
  | Ops_LoadSnapshot _ => (option LoadSnapshotNoContent * error)%type
  | Ops_PatchBalloon _ => (option PatchBalloonNoContent * error)%type
  | Ops_PatchBalloonStatsInterval _ => (option PatchBalloonStatsIntervalNoContent * error)%type
  | Ops_PatchGuestDriveByID _ => (option PatchGuestDriveByIDNoContent * error)%type
  | Ops_PatchGuestNetworkInterfaceByID _ => (option PatchGuestNetworkInterfaceByIDNoContent * error)%type
  | Ops_PatchMachineConfiguration _ => (option PatchMachineConfigurationNoContent * error)%type
  | Ops_PatchMmds _ => (option PatchMmdsNoContent * error)%type
  | Ops_PatchVM _ => (option PatchVMNoContent * error)%type
  | Ops_PutBalloon _ => (option PutBalloonNoContent * error)%type
  | Ops_PutCPUConfiguration _ => (option PutCPUConfigurationNoContent * error)%type
  | Ops_PutEntropyDevice _ => (option PutEntropyDeviceNoContent * error)%type
  | Ops_PutGuestBootSource _ => (option PutGuestBootSourceNoContent * error)%type
  | Ops_PutGuestDriveByID _ => (option PutGuestDriveByIDNoContent * error)%type
  | Ops_PutGuestNetworkInterfaceByID _ => (option PutGuestNetworkInterfaceByIDNoContent * error)%type
  | Ops_PutGuestVsock _ => (option PutGuestVsockNoContent * error)%type
  | Ops_PutLogger _ => (option PutLoggerNoContent * error)%type
  | Ops_PutMachineConfiguration _ => (option PutMachineConfigurationNoContent * error)%type
  | Ops_PutMetrics _ => (option PutMetricsNoContent * error)%type
  | Ops_PutMmds _ => (option PutMmdsNoContent * error)%type
  | Ops_PutMmdsConfig _ => (option PutMmdsConfigNoContent * error)%type
  end.

(** The method of the interface, on a double. *)
Definition MockClient_call (m : MockClient) {T} (c : ClientIface T) : GoM E S (GoResult c) :=
  match c with
  | Ops_CreateSnapshot params => MockClient_CreateSnapshot m (Some params)
  | Ops_CreateSyncAction params => MockClient_CreateSyncAction m (Some params)
  | Ops_DescribeBalloonConfig params => MockClient_DescribeBalloonConfig m (Some params)
  | Ops_DescribeBalloonStats params => MockClient_DescribeBalloonStats m (Some params)
  | Ops_DescribeInstance params => MockClient_DescribeInstance m (Some params)
  | Ops_GetExportVMConfig params => MockClient_GetExportVMConfig m (Some params)
  | Ops_GetFirecrackerVersion params => MockClient_GetFirecrackerVersion m (Some params)
  | Ops_GetMachineConfiguration params => MockClient_GetMachineConfiguration m (Some params)
  | Ops_GetMmds params => MockClient_GetMmds m (Some params)
  | Ops_LoadSnapshot params => MockClient_LoadSnapshot m (Some params)
  | Ops_PatchBalloon params => MockClient_PatchBalloon m (Some params)
  | Ops_PatchBalloonStatsInterval params => MockClient_PatchBalloonStatsInterval m (Some params)
  | Ops_PatchGuestDriveByID params => MockClient_PatchGuestDriveByID m (Some params)
  | Ops_PatchGuestNetworkInterfaceByID params => MockClient_PatchGuestNetworkInterfaceByID m (Some params)
  | Ops_PatchMachineConfiguration params => MockClient_PatchMachineConfiguration m (Some params)
  | Ops_PatchMmds params => MockClient_PatchMmds m (Some params)
  | Ops_PatchVM params => MockClient_PatchVM m (Some params)
  | Ops_PutBalloon params => MockClient_PutBalloon m (Some params)
  | Ops_PutCPUConfiguration params => MockClient_PutCPUConfiguration m (Some params)
  | Ops_PutEntropyDevice params => MockClient_PutEntropyDevice m (Some params)
  | Ops_PutGuestBootSource params => MockClient_PutGuestBootSource m (Some params)
  | Ops_PutGuestDriveByID params => MockClient_PutGuestDriveByID m (Some params)
  | Ops_PutGuestNetworkInterfaceByID params => MockClient_PutGuestNetworkInterfaceByID m (Some params)
  | Ops_PutGuestVsock params => MockClient_PutGuestVsock m (Some params)
  | Ops_PutLogger params => MockClient_PutLogger m (Some params)
  | Ops_PutMachineConfiguration params => MockClient_PutMachineConfiguration m (Some params)
  | Ops_PutMetrics params => MockClient_PutMetrics m (Some params)
  | Ops_PutMmds params => MockClient_PutMmds m (Some params)
  | Ops_PutMmdsConfig params => MockClient_PutMmdsConfig m (Some params)
  end.

(** How the callers of the interface read such a pair: only the error of a change;
    the result of a reading when there is no error.  The pair [(nil, nil)] of a
    reading gives them nothing to read. *)
Definition as_read {T} (c : ClientIface T) : GoResult c → option T :=
  match c in ClientIface T return GoResult c → option T with
  | Ops_CreateSnapshot _ => λ p, Some p.2
  | Ops_CreateSyncAction _ => λ p, Some p.2
  | Ops_DescribeBalloonConfig _ => λ p, match p with (_, Some e) => Some (inl e) | (Some r, None) => Some (inr r) | (None, None) => None end
  | Ops_DescribeBalloonStats _ => λ p, match p with (_, Some e) => Some (inl e) | (Some r, None) => Some (inr r) | (None, None) => None end
  | Ops_DescribeInstance _ => λ p, match p with (_, Some e) => Some (inl e) | (Some r, None) => Some (inr r) | (None, None) => None end
  | Ops_GetExportVMConfig _ => λ p, match p with (_, Some e) => Some (inl e) | (Some r, None) => Some (inr r) | (None, None) => None end
  | Ops_GetFirecrackerVersion _ => λ p, match p with (_, Some e) => Some (inl e) | (Some r, None) => Some (inr r) | (None, None) => None end
  | Ops_GetMachineConfiguration _ => λ p, match p with (_, Some e) => Some (inl e) | (Some r, None) => Some (inr r) | (None, None) => None end
  | Ops_GetMmds _ => λ p, match p with (_, Some e) => Some (inl e) | (Some r, None) => Some (inr r) | (None, None) => None end
  | Ops_LoadSnapshot _ => λ p, Some p.2
  | Ops_PatchBalloon _ => λ p, Some p.2
  | Ops_PatchBalloonStatsInterval _ => λ p, Some p.2
  | Ops_PatchGuestDriveByID _ => λ p, Some p.2
  | Ops_PatchGuestNetworkInterfaceByID _ => λ p, Some p.2
  | Ops_PatchMachineConfiguration _ => λ p, Some p.2
  | Ops_PatchMmds _ => λ p, Some p.2
  | Ops_PatchVM _ => λ p, Some p.2
  | Ops_PutBalloon _ => λ p, Some p.2
  | Ops_PutCPUConfiguration _ => λ p, Some p.2
  | Ops_PutEntropyDevice _ => λ p, Some p.2
  | Ops_PutGuestBootSource _ => λ p, Some p.2
  | Ops_PutGuestDriveByID _ => λ p, Some p.2
  | Ops_PutGuestNetworkInterfaceByID _ => λ p, Some p.2
  | Ops_PutGuestVsock _ => λ p, Some p.2
  | Ops_PutLogger _ => λ p, Some p.2
  | Ops_PutMachineConfiguration _ => λ p, Some p.2
  | Ops_PutMetrics _ => λ p, Some p.2
  | Ops_PutMmds _ => λ p, Some p.2
  | Ops_PutMmdsConfig _ => λ p, Some p.2
  end.

(** A double with nothing set accepts every change, has nothing to read, and makes
    no call of its own. *)
Lemma EmptyMockClient_call {T} (c : ClientIface T) (o : Oracle E) (s : S) h :
  ∃ p, MockClient_call EmptyMockClient c o s h = (Val p, s, h) ∧ as_read c p = no_content c.
Proof. destruct c; by eexists. Qed.

(** An API call of a history that a double answers. *)
Definition answered_by (m : MockClient) (ev : event Sys) : Prop :=
  match ev with
  | Event call r =>
      match call in Sys T return T → Prop with
      | Api (CallerOperations _) c => λ r, ∃ o s p s' h h',
          MockClient_call m c o s h = (Val p, s', h') ∧ as_read c p = Some r
      | Api (GeneratedClient _) _ => λ _, False
      | _ => λ _, True
      end r
  end.

(** The changes sent to a double with nothing set are accepted. *)
Lemma EmptyMockClient_accepts (t : trace Sys) :
  Forall (answered_by EmptyMockClient) t → Forall (λ w, w.2 = None) (writes t).
Proof.
  induction 1 as [|[T call r] t Hev Ht IH]; [constructor|]. unfold writes. cbn [omap list_omap write_of].
  destruct call; try exact IH. destruct target as [|id]; [done|]. destruct Hev as (o & s & p & s' & h & h' & Hrun & Hr).
  destruct (EmptyMockClient_call c o s h) as (p' & Hp & Hnil). rewrite Hp in Hrun. simplify_eq. rewrite Hnil in Hr.
  assert (∀ a e, api_write_of c r = Some (a, e) → e = None) as He.
  { intros a e. destruct c; simpl in Hr |- *; by intros; simplify_eq. }
  destruct (api_write_of c r) as [[a e]|]; [|exact IH]. constructor; [by apply (He a)|exact IH].
Qed.
End client.

Arguments MockClient : clear implicits.

(** ** Netlink (cni/internal/mocks.go) *)

(** A [MockLink] is the attributes it was given. *)
Record MockLink := mkMockLink { MockLink_LinkAttrs : Link }.
Definition MockLink_Attrs (l : MockLink) : Link := MockLink_LinkAttrs l.

(** The namespace a [MockNetNS] embeds is a nil interface: [Do] runs the callback
    where it is. *)
Record MockNetNS := mkMockNetNS { MockPath : string }.
Definition MockNetNS_Do {NetNS A} (m : MockNetNS) (f : option NetNS → A) : A := f None.
Definition MockNetNS_Path (m : MockNetNS) : string := MockPath m.

(** The results to give, and the calls received; the two devices may be nil. *)
Record MockNetlinkOps := mkMockNetlinkOps {
  CreatedTap : option Link;
  RedirectIface : option Link;
  AddIngressQdiscErr : error;
  GetIngressQdiscErr : error;
  RemoveIngressQdiscErr : error;
  RemoveIngressQdiscCalls : list Link;
  AddRedirectFilterErr : error;
  GetRedirectFilterErr : error;
  CreateTapErr : error;
  RemoveLinkErr : error;
  RemoveLinkCalls : list string;
  GetLinkErr : error
}.

Module MockNetlink.
Section ops.
Context {E : Type → Type}.

Definition M (R : Type) : Type := GoM E MockNetlinkOps R.
Definition get : M MockNetlinkOps := λ o m h, (Val m, m, h).
Definition put (m : MockNetlinkOps) : M unit := λ o _ h, (Val tt, m, h).

Definition record_qdisc (link : Link) (m : MockNetlinkOps) : MockNetlinkOps :=
  mkMockNetlinkOps (CreatedTap m) (RedirectIface m) (AddIngressQdiscErr m) (GetIngressQdiscErr m)
    (RemoveIngressQdiscErr m) (RemoveIngressQdiscCalls m ++ [link]) (AddRedirectFilterErr m) (GetRedirectFilterErr m)
    (CreateTapErr m) (RemoveLinkErr m) (RemoveLinkCalls m) (GetLinkErr m).
Definition record_link (name : string) (m : MockNetlinkOps) : MockNetlinkOps :=
  mkMockNetlinkOps (CreatedTap m) (RedirectIface m) (AddIngressQdiscErr m) (GetIngressQdiscErr m)
    (RemoveIngressQdiscErr m) (RemoveIngressQdiscCalls m) (AddRedirectFilterErr m) (GetRedirectFilterErr m)
    (CreateTapErr m) (RemoveLinkErr m) (RemoveLinkCalls m ++ [name]) (GetLinkErr m).

Definition AddIngressQdisc (link : Link) : M error :=
  m <- get ;
  go_ret (AddIngressQdiscErr m).
Definition GetIngressQdisc (sourceLink : Link) : M (option Qdisc * error) :=
  m <- get ;
  go_ret (None, GetIngressQdiscErr m).
Definition RemoveIngressQdisc (sourceLink : Link) : M error :=
  m <- get ;
  put (record_qdisc sourceLink m) ;;
  go_ret (RemoveIngressQdiscErr m).
Definition AddRedirectFilter (sourceLink targetLink : Link) : M error :=
  m <- get ;
  go_ret (AddRedirectFilterErr m).
Definition GetRedirectFilter (sourceLink targetLink : Link) : M (option Filter * error) :=
  m <- get ;
  go_ret (None, GetRedirectFilterErr m).

(** The name of a device: [Attrs] of a nil interface panics. *)
Definition attrs_name (link : option Link) : M string :=
  match link with
  | Some link => go_ret (Link_Name link)
  | None => go_panic "invalid memory address or nil pointer dereference"
  end.

(** The cases of a [switch] are evaluated in order, until one is equal. *)
Definition GetLink (name : string) : M (option Link * error) :=
  m <- get ;
  match GetLinkErr m with
  | Some e => go_ret (None, Some e)
  | None =>
      redirect <- attrs_name (RedirectIface m) ;
      if (name =? redirect)%string then go_ret (RedirectIface m, None)
      else tap <- attrs_name (CreatedTap m) ;
           if (name =? tap)%string then go_ret (CreatedTap m, None)
           else go_ret (None, Some (DeviceError LinkNotFound ""))
  end.

Definition RemoveLink (name : string) : M error :=
  m <- get ;
  match RemoveLinkErr m with
  | Some e => go_ret (Some e)
  | None =>
      put (record_link name m) ;;
      redirect <- attrs_name (RedirectIface m) ;
      if (name =? redirect)%string then go_ret None
      else tap <- attrs_name (CreatedTap m) ;
           if (name =? tap)%string then go_ret None
           else go_ret (Some (DeviceError LinkNotFound ""))
  end.

Definition CreateTap (name : string) (mtu ownerUID ownerGID : Z) : M (option Link * error) :=
  m <- get ;
  go_ret (CreatedTap m, CreateTapErr m).

(** [RemoveLink] finds the devices [GetLink] finds, and forgets none: a removed
    device is still there. *)
Lemma RemoveLink_GetLink (name : string) (o : Oracle E) (m : MockNetlinkOps) h :
  GetLinkErr m = None → RemoveLinkErr m = None →
  let '(found, _, _) := GetLink name o m h in
  RemoveLink name o m h =
    (match found with Val (_, e) => Val e | Panic s => Panic s | Pending => Pending end, record_link name m, h) ∧
  (GetLink name o (record_link name m) h).1.1 = found.
Proof.
  intros Hg Hr. unfold GetLink, RemoveLink, attrs_name, put, get, go_bind, go_ret, go_panic. rewrite Hr. simpl. rewrite Hg.
  repeat (case_match; simpl; simplify_eq; try done).
Qed.
End ops.
End MockNetlink.

(** ** Writers (fctesting/test_writer.go) *)
Record TestWriter (E : Type → Type) (S : Type) := mkTestWriter {
  WriteFn : option (string → GoM E S (Z * error))
}.
Arguments WriteFn {E S}.

(** Calling a nil function panics. *)
Definition TestWriter_Write {E S} (w : TestWriter E S) (b : string) : GoM E S (Z * error) :=
  match WriteFn w with
  | Some f => f b
  | None => go_panic "invalid memory address or nil pointer dereference"
  end.
