(* ===== verification/TestHelpers.v ===== *)
(** * Helpers of tests (src/fctesting/utils.go)

    The helpers that skip or fail a test where it cannot run, and the logger of the
    tests.  [t.Skip] and [t.Fatal] end the test where it is, so a program returns a
    verdict or a value; [rootDisabled] is the state of the package. *)

From stdpp Require Import strings list.
From Stdlib Require Import ZArith.
From S2P Require Import Prelude GoStrings.

Open Scope string_scope.
Open Scope Z_scope.

(** How a test is ended, with the text as its format and arguments. *)
Inductive verdict := Skipped (text : Err) | Failed (text : Err).

(** github.com/sirupsen/logrus: a level, a logger by its level, an entry by its logger. *)
Definition Level : Type := Z.
Record TestLogger := mkTestLogger { Logger_level : Level }.
Record Entry := mkEntry { Entry_Logger : TestLogger }.

Inductive Testing : Type → Type :=
  | T_Getenv (name : string) : Testing string
  | T_Access (path : string) (mode : Z) : Testing error
  | T_CurrentUser : Testing (string * error)           (* [user.Current], its [Name] *)
  | T_Getuid : Testing Z
  | T_ParseLevel (text : string) : Testing (Err + Level).

(** [rootDisabled] is the state. *)
Definition Test (A : Type) : Type := GoM Testing bool (verdict + A).

Definition test_ret {A} (a : A) : Test A := go_ret (inr a).
Definition t_Skip {A} (text : Err) : Test A := go_ret (inl (Skipped text)).
Definition t_Fatal {A} (text : Err) : Test A := go_ret (inl (Failed text)).

Definition rootDisableEnvName : string := "DISABLE_ROOT_TESTS".
Definition logLevelEnvName : string := "FC_TEST_LOG_LEVEL".

Definition init : Test unit :=
  v <- call (T_Getenv rootDisableEnvName) ;
  (if negb (String.length v =? 0)%nat then put true else go_ret tt) ;;
  test_ret tt.

Definition RequiresKVM : Test unit :=
  accessErr <- call (T_Access "/dev/kvm" 2) ;
  match accessErr with
  | None => test_ret tt
  | Some accessErr =>
      u <- call T_CurrentUser ;
      let name := match u with (name, None) => name | (_, Some _) => "" end in
      name <- (if (name =? "")%string
               then uid <- call T_Getuid ; go_ret ("uid=" +:+ strconv_Itoa uid)
               else go_ret name) ;
      t_Skip (ErrorfV "/dev/kvm is not writable from %s: %s" [name] accessErr)
  end.

Definition RequiresRoot : Test unit :=
  rootDisabled <- get ;
  if rootDisabled : bool then t_Skip (ErrorsNew "skipping test that requires root")
  else
    a <- call T_Getuid ;
    if 0 =? a then test_ret tt
    else t_Fatal (Errorf "This test must be run as root. To disable tests that require root, run the tests with the %s environment variable set." [rootDisableEnvName]).

Section logger.
(** The level of [log.New()]. *)
Variable InfoLevel : Level.

Definition newLogger : Test TestLogger :=
  str <- call (T_Getenv logLevelEnvName) ;
  let l := mkTestLogger InfoLevel in
  if (str =? "")%string then test_ret l
  else
    parsed <- call (T_ParseLevel str) ;
    match parsed with
    | inl err => t_Fatal (ErrorfV "Failed to parse %q as Log Level: %v" [str] err)
    | inr logLevel => test_ret (mkTestLogger logLevel)
    end.

Definition NewLogEntry : Test Entry :=
  l <- newLogger ;
  go_ret match l with inl verdict => inl verdict | inr l => inr (mkEntry l) end.

(** The logger is at the level the environment names, at the default one when it
    names none, and the test fails only for a name that is no level. *)
Lemma NewLogEntry_level (o : Oracle Testing) (disabled : bool) (h : trace Testing) :
  let str := o h _ (T_Getenv logLevelEnvName) in
  let parsed := o (h ++ [Event (T_Getenv logLevelEnvName) str])%list _ (T_ParseLevel str) in
  match (NewLogEntry o disabled h).1.1 with
  | Val (inr e) => if (str =? "")%string then Logger_level (Entry_Logger e) = InfoLevel
                   else parsed = inr (Logger_level (Entry_Logger e))
  | Val (inl (Failed text)) => str ≠ "" ∧ ∃ err, parsed = inl err ∧
      text = ErrorfV "Failed to parse %q as Log Level: %v" [str] err
  | _ => False
  end.
Proof.
  unfold NewLogEntry, newLogger, test_ret, t_Fatal. run_unfold. simpl.
  destruct (String.eqb_spec (o h _ (T_Getenv logLevelEnvName)) "") as [|Hne]; simpl; [done|].
  destruct (o _ _ (T_ParseLevel _)) as [err|l]; simpl; [by split; [|exists err]|done].
Qed.
End logger.

(** A test that requires root goes on exactly when such tests are not disabled and
    the user is root. *)
Lemma RequiresRoot_goes_on (o : Oracle Testing) (disabled : bool) (h : trace Testing) :
  (RequiresRoot o disabled h).1.1 = Val (inr tt) ↔ disabled = false ∧ o h _ T_Getuid = 0.
Proof.
  unfold RequiresRoot, test_ret, t_Skip, t_Fatal. run_unfold. destruct disabled; [split; [done|by intros []]|].
  destruct (Z.eqb_spec 0 (o h _ T_Getuid)) as [H0|Hne]; (split; [intros Hr; simpl in Hr|intros [_ Hu]]);
    (done || congruence).
Qed.

(** A test that requires KVM goes on exactly when the device is writable; otherwise
    it is skipped, never failed. *)
Lemma RequiresKVM_outcome (o : Oracle Testing) (disabled : bool) (h : trace Testing) :
  match (RequiresKVM o disabled h).1.1 with
  | Val (inr _) => o h _ (T_Access "/dev/kvm" 2) = None
  | Val (inl (Skipped text)) => ∃ name accessErr, o h _ (T_Access "/dev/kvm" 2) = Some accessErr ∧
      text = ErrorfV "/dev/kvm is not writable from %s: %s" [name] accessErr ∧ name ≠ ""
  | _ => False
  end.
Proof.
  unfold RequiresKVM, test_ret, t_Skip. run_unfold. destruct (o h _ _) as [e|]; simpl; [|done].
  destruct (o _ _ T_CurrentUser) as [name [err|]]; simpl; [by eexists _, e|].
  destruct (String.eqb_spec name ""); simpl; by eexists _, e.
Qed.
